(* ===== verification/_CoqProject ===== *)
-Q . S2P
Prelude.v
State.v
Alloc.v
Pktbuf.v
Reasm.v
Tags.v
Tx.v
Control.v
Types.v
Rx.v
RxSpec.v
RxRefine.v
Frag.v
TxRefine.v
TxApi.v
TxRequest.v
ControlSpec.v
ControlRx.v
Endpoint.v
E2E.v
Bus.v
Typed.v
Frame.v
Bridge.v
Cleanup.v
Mmbi.v
MmbiFacts.v
TypedMmbi.v
Locks.v
MmbiRx.v
MmbiInit.v
Ring.v
Channel.v
Link.v
Service.v
Transport.v
Transaction.v
Concrete.v
Witnesses.v
ApiWitnesses.v
MmbiWitnesses.v
ChannelWitnesses.v
LinkWitnesses.v
ServiceWitnesses.v
TransportWitnesses.v
Log.v
