(* ===== verification/Prelude.v ===== *)
(** * libmctp (Windows/MMBI port): a verification development

    The program is an implementation of MCTP (DMTF DSP0236), the Management
    Component Transport Protocol, in C.  This development models the whole of
    the library as the Windows build of CMakeLists.txt configures it (64-bit,
    MCTP_DEFAULT_ALLOC, MCTP_HAVE_STDIO, 16 reassembly contexts, 16 request
    tags, a maximal message of 33554432 bytes, the control handler on,
    assertions active), and the buffer logic of the Windows driver.

    ** The program's parts

    An application sends messages through [mctp_message_tx] and its relatives
    (src/src/core.c).  The core takes one message at a time for each bus, cuts it
    into packets and hands them to the [tx] callback of the bus's binding until
    the message is sent or the binding is busy.  A binding hands received packets
    to [mctp_bus_rx]: the core reassembles messages in a table of contexts and
    delivers each to the control protocol handler (src/src/control.c), which
    answers by sending, or to the application's callback, or, on a bridge, sends
    it on the other bus.  The binding of this port (src/src/mmbi.c) writes packets
    to and polls a device or named pipe under a lock; src/src/transport.c wraps
    it once more for applications.  The driver behind the device
    (src/windows_driver/MmbiDriver.c) is a pair of ring buffers.

    ** The files and the code

    - [Prelude]: machine integers, byte sequences, the state monad [M] with its
      undefined behaviours ([ub]), weakest preconditions ([wp]) and their tactics.
    - [State]: include/libmctp.h and include/core-internal.h: the structures
      (a record each, fields in order), constants, the heap, the [world], and the
      classes by which the code calls what it does not contain.
    - [Alloc]: src/src/alloc.c.  [Log]: src/src/log.c.
    - [Pktbuf], [Reasm], [Tags], [Tx], [Rx], [Bus]: src/src/core.c, packet
      buffers, reassembly contexts, request tags, transmission, reception, and
      set-up and tear-down; [Control]: src/src/control.c.
    - [Mmbi]: src/src/mmbi.c, src/src/transport.c.  [Ring]: MmbiDriver.c.
    - [Types], [RxSpec], [RxRefine], [Frag], [TxRefine], [TxApi], [TxRequest],
      [ControlSpec], [ControlRx], [Endpoint], [E2E], [Bridge], [Cleanup], [Typed],
      [Frame]: specifications and theorems about the core; [MmbiFacts], [TypedMmbi],
      [Locks], [MmbiRx], [MmbiInit], [Transport]: about the binding and its APIs.
    - [Channel], [Link], [Service], [Transaction]: the parts composed, two
      systems on the two ends of the driver.
    - [Concrete], [Witnesses], [ApiWitnesses], [MmbiWitnesses],
      [ChannelWitnesses], [LinkWitnesses], [ServiceWitnesses],
      [TransportWitnesses]: stacks set up by the API, unit
      tests of the repository replayed on the model, and every theorem with
      hypotheses applied to such a stack.

    A C function is the definition of the same name; a loop is a [Fixpoint] next
    to it, a case of a long [switch] a definition of its own.

    ** State

    A [world] has the live heap blocks by address ([w_heap]: bytes or a packet
    buffer), the outcomes of the coming [malloc] calls ([w_mallocs]: so that
    every failure of allocation is covered), the allocation functions in force,
    the one [struct mctp] ([w_mctp]), the bindings by address, the trace of the
    calls out of the core ([w_trace]: captures, transmissions, deliveries), and
    the state [D] of the environment.  Busses and reassembly contexts are indices
    in the arrays of [struct mctp]; packet buffers and messages are addresses.
    [free] removes a block: using it afterwards, freeing it twice, reading or
    writing out of a block's bounds, a null pointer, a failed assertion and a
    loop out of fuel are each [Stuck], so that a theorem that a function returns
    [Ok] excludes them all.  The exception are the stack, the bindings and the
    contexts of the APIs: their fields are records of the world and not bytes of
    their blocks, so that a use of them after they are freed is not [Stuck];
    that they are freed, once, is in the heap.  Integers are [Z], wrapped where the C type wraps.

    Not in the repository, hence parameters: custom allocation functions
    ([ExtAlloc]), bindings' [tx] and capture functions ([BindingOps]), [start]
    ([StartOps]), the application's callback ([RxOps]), clocks ([ClockOps]), Win32
    ([WinOps]), callbacks of the MMBI API ([UserOps]) and the WDF calls (arguments
    of the handlers in [Ring]).

    ** Interfaces

    What one part promises another is a class.  The core is proved against:
    - [QuietTx] and [QuietCapture]: transmission and capture return and leave
      the stack alone; [TxEffect] adds what a transmission does to the
      environment.  The MMBI binding implements them ([mmbi_quiet_tx],
      [mmbi_quiet_capture]), on the driver too ([driver_tx_effect]).
    - [RxReady] and [QuietRx]: when an application callback may be called, and
      that it then returns and leaves the stack alone; [KeepOps]: what of the
      environment all callbacks keep.  [mmbi_quiet_rx] and [mmbi_keep_ops] show
      them of [mmbi_internal_rx] and [transport_rx_handler], provided that the
      functions the user gave these are so ([QuietUser]); [ApiReady] says that
      readiness does not depend on the device.
    - [KeepTyped], [KeepEnv], [KeepLocks]: what callbacks must keep for every
      sequence of calls to keep it.  These allow callbacks that call back into
      the stack; the others do not.  What a callback that sends does is proved
      without them, in [Service].
    - [DriverDevice]: Win32 calls on a device handle are the driver's handlers
      on the shared context.  [driver_device] is such an environment.
    - [mmbi_binding_ops], [mmbi_start_ops], [mmbi_rx_ops]: mmbi.c and transport.c
      as the callbacks of the core.  The control handler is called inside the
      stack, not through a class.

    ** The theorems

    - Reception ([RxSpec], [RxRefine], [Endpoint]): [spec_rx] says what a packet means for the
      finite map from (source, destination, tag) to the partial message;
      [ctxs_inv] relates the table of contexts and the heap to that map.
      [takes] is what reception asks of whoever takes a complete message;
      [taker_of] says who that is, the application, the binding's control
      callback or the control handler.  [mctp_bus_rx_refines]: for every packet
      [mctp_bus_rx] returns, keeps the invariant and gives the message that
      [spec_rx] completes to its taker, which answers it if it is the handler
      (on an idle bus with memory for the response).  [interleaved_messages]:
      messages whose packets are interleaved do not disturb each other.  The
      theorems about whole messages, here and in the compositions, are about
      messages that are not control requests, where they do not say otherwise.
    - Transmission ([Frag], [TxRefine], [TxApi], [TxRequest]): [fragment] is the
      i-th packet of a message; the theorems say which packets reach the binding,
      for every sequence of its answers, what stays pending, how enabling the bus
      resumes it, that the loop ends ([mctp_send_tx_queue_terminates]), which
      errors there are, and what becomes of the memory.
    - Both ([E2E]): [send_receive], the round trip.
    - Tags ([Tags]): the allocation against round-robin choice, its exhaustion,
      and the invariant that live tags are distinct for every reachable table.
    - Control ([Types], [ControlSpec], [ControlRx]): [spec_ctrl] says the response
      to each request; [control_request_answered] takes it from packet to packet.
    - Bridging and life cycle ([Bridge], [Cleanup]).
    - MMBI ([MmbiFacts], [MmbiRx], [MmbiInit]) and transport ([Transport]):
      transmission on every branch, retries, polling; opening a context or a
      transport establishes what the other theorems assume, and releases
      everything when it fails.
    - The API ([Typed], [TypedMmbi], [Frame], [Locks]): every sequence of calls,
      with callbacks that may call back into the stack, keeps states well-typed
      (each field in the range of its C type and use, the arrays at their
      lengths), changes the environment through callbacks only, and leaves the
      locks as deep as they were.  The rules are compositional ([typed], [keeps]),
      so that they need no other assumption.
    - Driver ([Ring]): a ring refines a bounded queue, the handlers on every
      branch, and both channels over any sequence of requests.
    - Composition ([Channel], [Link], [Service], [Transaction], [Transport]).
      [link_spec] is an abstract link of two byte channels: what a send puts into
      one, a poll takes out of it, and the receiver makes of that.  A [node] is a
      system that can send and receive; [link_refines] is a simulation: whatever
      two systems on the driver send and poll, in whatever order, is a run of the
      link.  [duplex_delivers] derives that messages sent in turn arrive, both
      ways at once.  [service_answers]: an application that sends from its
      callback, inside the poll that delivers to it.  [control_transaction]: a
      request answered by the control handler, and its tag released.
      [transport_delivers]: two transports opened from nothing exchange a message.

    Some theorems state faults of the code.  Packets are lost
    ([mctp_mmbi_rx_never_delivers], [long_message_lost]) or merged
    ([driver_merges_packets], [messages_merge]), or cut on a full ring
    ([driver_message_tx]), after which the sender may stay busy for ever
    ([oversized_message_stalls]).  Memory is lost ([mctp_mmbi_poll_receives],
    [transport_open_close_leaks], [mctp_mmbi_context_destroy_leaks],
    [unregister_leaks_pending]), or a tag ([mctp_message_tx_request_busy],
    [mctp_dealloc_tag_stale]).  A null pointer is dereferenced
    ([bridge_long_message_crashes]).  The device is written under the lock
    ([send_writes_locked]), against the comment in the code.

    ** Bounds

    [mctp_send_tx_queue] has fuel for two tests more than the message has bytes:
    each packet but that of an empty message carries a byte.  [bridge_loop] has
    one test more than there can be busses, [cleanup_busses] one more than there
    are.  [write_loop] and [open_loop] make the 3 and 5 attempts of the code.  The
    theorems show that none of them runs out.

    ** Not modelled

    - The tests and utilities, CMake's output and the build files.
    - The driver's set-up (DriverEntry, device and queue creation): declared in
      MmbiDriver.h, not in the repository.
    - The text of diagnostics; [Log] models where they go.
    - Threads: the core has no synchronisation.  The lock of mmbi.c is modelled
      by its depth, and the depths at which WriteFile is called are recorded;
      the driver's spin locks by the requirement that each handler releases what
      it acquired; two systems on the driver take turns, a call at a time.
    - Other configurations: syslog, POSIX clocks, custom allocation by linking. *)

From Stdlib Require Export ZArith Lia.
From stdpp Require Export base list gmap option numbers strings.
#[export] Set Default Goal Selector "!".
#[export] Set Warnings "-notation-overridden,-clear-no-such-hyp".
Global Open Scope Z_scope.

(** ** Machine integers

    [size_t] and [uint64_t] are 64-bit, [uint8_t] 8-bit and [ULONG]/[DWORD]
    32-bit unsigned integers: values are [Z], wrapped after each operation. *)

Abbreviation SIZE_MOD := 18446744073709551616.
Abbreviation U32_MOD := 4294967296.

Definition sz (x : Z) : Z := x mod SIZE_MOD.
Definition u32 (x : Z) : Z := x mod U32_MOD.
Definition u8 (x : Z) : Z := x mod 256.

Notation "x +s y" := (sz (x + y)) (at level 50, left associativity).
Notation "x -s y" := (sz (x - y)) (at level 50, left associativity).

Lemma sz_small x : 0 <= x < SIZE_MOD -> sz x = x.
Proof. apply Z.mod_small. Qed.

Lemma sz_range x : 0 <= sz x < SIZE_MOD.
Proof. apply Z.mod_pos_bound; lia. Qed.

Lemma sz_wrap x : SIZE_MOD <= x < 2 * SIZE_MOD -> sz x = x - SIZE_MOD.
Proof.
  intros H. unfold sz. replace x with (x - SIZE_MOD + 1 * SIZE_MOD) by lia.
  rewrite Z.mod_add by lia. rewrite Z.mod_small by lia. lia.
Qed.

Lemma u32_small x : 0 <= x < U32_MOD -> u32 x = x.
Proof. apply Z.mod_small. Qed.

Lemma u8_small x : 0 <= x < 256 -> u8 x = x.
Proof. apply Z.mod_small. Qed.

Lemma u8_range x : 0 <= u8 x < 256.
Proof. apply Z.mod_pos_bound; lia. Qed.

(** [b : Z] is a byte. *)
Definition is_u8 (b : Z) : Prop := 0 <= b < 256.

(** ** Byte sequences indexed by [Z] *)

Definition zlen {A} (l : list A) : Z := Z.of_nat (length l).

(** [slice off len l] is what [memcpy] reads from [l + off]. *)
Definition slice {A} (off len : Z) (l : list A) : list A :=
  take (Z.to_nat len) (drop (Z.to_nat off) l).

(** [splice off bs l] is what a [memcpy] of [bs] to [l + off] leaves. *)
Definition splice {A} (off : Z) (bs l : list A) : list A :=
  take (Z.to_nat off) l ++ bs ++ drop (Z.to_nat off + length bs) l.

Section lists.
Context {A : Type}.
Implicit Types l bs : list A.

Lemma zlen_nonneg l : 0 <= zlen l.
Proof. unfold zlen; lia. Qed.

Lemma zlen_app l bs : zlen (l ++ bs) = zlen l + zlen bs.
Proof. unfold zlen. rewrite length_app. lia. Qed.

Lemma zlen_nil_inv l : zlen l = 0 -> l = [].
Proof. destruct l; [done|]. unfold zlen; simpl; lia. Qed.

Lemma zlen_slice off len l :
  0 <= off -> 0 <= len -> off + len <= zlen l -> zlen (slice off len l) = len.
Proof.
  unfold zlen, slice. intros. rewrite length_take, length_drop. lia.
Qed.

Lemma zlen_splice off bs l :
  0 <= off -> off + zlen bs <= zlen l -> zlen (splice off bs l) = zlen l.
Proof.
  unfold zlen, splice. intros.
  rewrite !length_app, length_take, length_drop. lia.
Qed.

(** Reading back what was written. *)
Lemma slice_splice_eq off bs l :
  0 <= off -> off + zlen bs <= zlen l ->
  slice off (zlen bs) (splice off bs l) = bs.
Proof.
  unfold zlen, slice, splice. intros.
  rewrite drop_app_le by (rewrite length_take; lia).
  rewrite drop_ge by (rewrite length_take; lia). simpl.
  rewrite take_app_le by lia. apply take_ge; lia.
Qed.

(** A prefix before the write is untouched, and is extended by it. *)
Lemma slice_splice_before off bs l n :
  0 <= n <= off -> off <= zlen l ->
  slice 0 n (splice off bs l) = slice 0 n l.
Proof.
  unfold zlen, slice, splice. intros. rewrite !drop_0.
  rewrite take_app_le by (rewrite length_take; lia).
  rewrite take_take. f_equal. lia.
Qed.

Lemma slice_split off n m l :
  0 <= off -> 0 <= n -> 0 <= m ->
  slice off (n + m) l = slice off n l ++ slice (off + n) m l.
Proof.
  unfold slice. intros.
  rewrite (Z2Nat.inj_add n m), (Z2Nat.inj_add off n) by lia.
  rewrite <- drop_drop, <- (take_drop (Z.to_nat n) (drop (Z.to_nat off) l)) at 1.
  destruct (decide (length (drop (Z.to_nat off) l) <= Z.to_nat n)%nat) as [Hle|Hgt].
  - rewrite (drop_ge (drop _ _)) by lia. rewrite app_nil_r, !take_nil, app_nil_r.
    rewrite take_take. f_equal. lia.
  - rewrite take_app_add' by (rewrite length_take; lia). done.
Qed.

Lemma slice_append off bs l :
  0 <= off -> off + zlen bs <= zlen l ->
  slice 0 (off + zlen bs) (splice off bs l) = slice 0 off l ++ bs.
Proof.
  intros. pose proof (zlen_nonneg bs).
  rewrite slice_split by lia. rewrite slice_splice_before by lia.
  rewrite Z.add_0_l, slice_splice_eq by lia. done.
Qed.

Lemma slice_all l n : zlen l <= n -> slice 0 n l = l.
Proof. unfold slice, zlen. intros. rewrite drop_0. apply take_ge. lia. Qed.

Lemma slice_0_len off l : slice off 0 l = [].
Proof. done. Qed.

Lemma slice_app_l n l bs : n <= zlen l -> slice 0 n (l ++ bs) = slice 0 n l.
Proof.
  unfold slice, zlen. intros. rewrite !drop_0. rewrite take_app_le by lia. done.
Qed.

Lemma slice_app_prefix n l bs :
  zlen l <= n -> slice 0 n (l ++ bs) = l ++ slice 0 (n - zlen l) bs.
Proof.
  unfold slice, zlen. intros. rewrite !drop_0, take_app, take_ge by lia. do 2 f_equal. lia.
Qed.

Lemma slice_app_r off n l bs :
  off = zlen l -> slice off n (l ++ bs) = slice 0 n bs.
Proof.
  unfold slice, zlen. intros ->. rewrite Nat2Z.id, drop_app_length, drop_0. done.
Qed.

Lemma slice_ge off n l : zlen l <= off -> slice off n l = [].
Proof. unfold slice, zlen. intros. rewrite drop_ge by lia. apply take_nil. Qed.

Lemma slice_cut off n l : zlen l <= off + n -> 0 <= off ->  0 <= n ->
  slice off n l = slice off (zlen l - off) l.
Proof.
  unfold slice, zlen. intros.
  rewrite !take_ge; [done|..]; rewrite length_drop; lia.
Qed.

Lemma slice_slice off n off' n' l :
  0 <= off -> 0 <= off' -> 0 <= n' -> off' + n' <= n ->
  slice off' n' (slice off n l) = slice (off + off') n' l.
Proof.
  unfold slice. intros. rewrite skipn_firstn_comm, take_take, drop_drop.
  f_equal; [lia|]. f_equal. lia.
Qed.
End lists.

(** ** The state-and-error monad

    A C function is a state transformer that either returns a value or gets
    stuck: on undefined behaviour, on a failed [assert], on a call through a
    null function pointer, or (for a loop run with fuel) out of fuel. *)

Inductive ub := NullDeref | BadAccess | BadFree | AssertFail | BadCall | OutOfFuel.

Inductive res (S A : Type) :=
  | Ok (a : A) (s : S)
  | Stuck (e : ub).
Arguments Ok {S A} a s.
Arguments Stuck {S A} e.

Definition M (S A : Type) : Type := S -> res S A.

#[export] Instance M_ret (S : Type) : MRet (M S) := fun A a s => Ok a s.
#[export] Instance M_bind (S : Type) : MBind (M S) := fun A B k m s =>
  match m s with Ok a s' => k a s' | Stuck e => Stuck e end.

Definition stuck {S A} (e : ub) : M S A := fun _ => Stuck e.
Definition gets {S A} (f : S -> A) : M S A := fun s => Ok (f s) s.
Definition modify {S} (f : S -> S) : M S unit := fun s => Ok tt (f s).

(** C's [assert], enabled in the builds the repository makes. *)
Definition massert {S} (P : Prop) `{Decision P} : M S unit :=
  if decide P then mret tt else stuck AssertFail.

Definition from_option_or {S A} (e : ub) (o : option A) : M S A :=
  match o with Some a => mret a | None => stuck e end.

(** ** Total-correctness postconditions

    [wp m Q s]: from [s], [m] does not get stuck and returns in a state that
    satisfies [Q]. *)
Definition wp {S A} (m : M S A) (Q : A -> S -> Prop) (s : S) : Prop :=
  match m s with Ok a s' => Q a s' | Stuck _ => False end.

Section wp.
Context {S : Type}.

Lemma wp_ret {A} (a : A) (Q : A -> S -> Prop) s : Q a s -> wp (mret a) Q s.
Proof. done. Qed.

Lemma wp_bind {A B} (m : M S A) (k : A -> M S B) Q s :
  wp m (fun a s' => wp (k a) Q s') s -> wp (m ≫= k) Q s.
Proof. unfold wp, mbind, M_bind. by destruct (m s). Qed.

Lemma wp_gets {A} (f : S -> A) (Q : A -> S -> Prop) s : Q (f s) s -> wp (gets f) Q s.
Proof. done. Qed.

Lemma wp_modify (f : S -> S) (Q : unit -> S -> Prop) s : Q tt (f s) -> wp (modify f) Q s.
Proof. done. Qed.

Lemma wp_assert (P : Prop) `{Decision P} (Q : unit -> S -> Prop) s :
  P -> Q tt s -> wp (massert P) Q s.
Proof. intros HP HQ. unfold massert. by rewrite decide_True. Qed.

Lemma wp_from_option {A} e (o : option A) (a : A) (Q : A -> S -> Prop) s :
  o = Some a -> Q a s -> wp (from_option_or e o) Q s.
Proof. by intros ->. Qed.

Lemma wp_mono {A} (m : M S A) (P Q : A -> S -> Prop) s :
  wp m P s -> (forall a s', P a s' -> Q a s') -> wp m Q s.
Proof. unfold wp. destruct (m s); naive_solver. Qed.

Lemma wp_ok {A} (m : M S A) a s' (Q : A -> S -> Prop) s :
  m s = Ok a s' -> Q a s' -> wp m Q s.
Proof. unfold wp. by intros ->. Qed.

Lemma wp_same {A} (m m' : M S A) (Q : A -> S -> Prop) s :
  m s = m' s -> wp m' Q s -> wp m Q s.
Proof. unfold wp. by intros ->. Qed.

Lemma wp_inv {A} (m : M S A) (Q : A -> S -> Prop) s :
  wp m Q s -> exists a s', m s = Ok a s' /\ Q a s'.
Proof. unfold wp. destruct (m s); naive_solver. Qed.

(** A known run replaces the computation. *)
Lemma wp_run {A} (m : M S A) a s' s :
  wp m (fun b t => b = a /\ t = s') s -> m s = Ok a s'.
Proof. unfold wp. destruct (m s); naive_solver. Qed.

Lemma wp_run_eq {A} (m : M S A) (r : res S A) s :
  wp m (fun b t => Ok b t = r) s -> m s = r.
Proof. unfold wp. destruct (m s); naive_solver. Qed.

(** What follows an operation decides the result. *)
Lemma run_bind {A B} (m : M S A) (k : A -> M S B) (r : res S B) s :
  wp m (fun a s' => k a s' = r) s -> (m ≫= k) s = r.
Proof. unfold wp, mbind, M_bind. by destruct (m s). Qed.

Lemma bind_run {A B} (m : M S A) (k : A -> M S B) a s s' :
  m s = Ok a s' -> (m ≫= k) s = k a s'.
Proof. unfold mbind, M_bind. by intros ->. Qed.
End wp.

(** [wp_step] consumes one primitive operation; a component that adds
    primitives extends [wp_prim]. *)
Ltac wp_prim := fail.

Ltac wp_step :=
  cbv beta match;
  lazymatch goal with
  | |- wp (_ ≫= _) _ _ => apply wp_bind
  | |- wp (mret _) _ _ => apply wp_ret
  | |- wp (gets _) _ _ => apply wp_gets
  | |- wp (modify _) _ _ => apply wp_modify
  | |- wp (if decide ?P then _ else _) _ _ =>
      first [rewrite (decide_True (P := P)) by solve [done | lia]
            |rewrite (decide_False (P := P)) by solve [done | lia]
            |rewrite (decide_True (P := P)) by solve [naive_solver]
            |rewrite (decide_False (P := P)) by solve [naive_solver]]
  | |- wp (let _ := _ in _) _ _ => cbv zeta
  | |- _ => wp_prim
  end.

Ltac wp_steps := repeat wp_step.

(** ** Further lemmas on slices *)
Section lookups.
Context {A : Type}.
Implicit Types l bs : list A.

Lemma lookup_splice off bs l (i : nat) :
  0 <= off -> off + zlen bs <= zlen l ->
  splice off bs l !! i =
    if decide (off <= Z.of_nat i < off + zlen bs) then bs !! (i - Z.to_nat off)%nat else l !! i.
Proof.
  unfold splice, zlen. intros Ho Hl.
  destruct (decide (Z.of_nat i < off)) as [Hi|Hi].
  - rewrite decide_False by lia.
    rewrite lookup_app_l by (rewrite length_take; lia).
    apply lookup_take_lt; lia.
  - rewrite lookup_app_r by (rewrite length_take; lia).
    rewrite length_take, Nat.min_l by lia.
    case_decide.
    + rewrite lookup_app_l by lia. done.
    + rewrite lookup_app_r by lia. rewrite lookup_drop. f_equal. lia.
Qed.

(** Two adjacent writes are one. *)
Lemma splice_splice off bs cs l :
  0 <= off -> off + zlen bs + zlen cs <= zlen l ->
  splice (off + zlen bs) cs (splice off bs l) = splice off (bs ++ cs) l.
Proof.
  intros Ho Hl. pose proof (zlen_nonneg bs). pose proof (zlen_nonneg cs).
  apply list_eq. intros i.
  rewrite !lookup_splice; rewrite ?zlen_splice, ?zlen_app by lia; try lia.
  repeat case_decide; try lia; try done.
  - rewrite lookup_app_r by (unfold zlen in *; lia). f_equal. unfold zlen in *. lia.
  - by rewrite lookup_app_l by (unfold zlen in *; lia).
Qed.

Lemma lookup_slice off n l (i : nat) :
  0 <= off -> slice off n l !! i =
    if decide (Z.of_nat i < n) then l !! (Z.to_nat off + i)%nat else None.
Proof.
  unfold slice. intros. case_decide.
  - rewrite lookup_take_lt by lia. apply lookup_drop.
  - rewrite lookup_take_ge by lia. done.
Qed.

(** A read that ends before the write. *)
Lemma slice_splice_below off n off' bs l :
  0 <= off -> 0 <= n -> off + n <= off' -> off' + zlen bs <= zlen l ->
  slice off n (splice off' bs l) = slice off n l.
Proof.
  intros. apply list_eq. intros i. rewrite !lookup_slice by lia. case_decide; [|done].
  rewrite lookup_splice by (pose proof (zlen_nonneg bs); lia). by rewrite decide_False by lia.
Qed.

Lemma slice_off_0_nil n : slice 0 n (@nil A) = [].
Proof. apply take_nil. Qed.

Lemma zlen_take_0 n l : 0 <= n <= zlen l -> zlen (slice 0 n l) = n.
Proof. intros. apply zlen_slice; lia. Qed.

Lemma zlen_replicate n (x : A) : zlen (replicate n x) = Z.of_nat n.
Proof. unfold zlen. by rewrite length_replicate. Qed.

(** Two lists that agree below a common length are equal. *)
Lemma list_eq_zlen l bs :
  zlen l = zlen bs -> (forall i : nat, Z.of_nat i < zlen l -> l !! i = bs !! i) -> l = bs.
Proof.
  unfold zlen. intros Hl H. apply list_eq. intros i.
  destruct (decide (i < length l)%nat) as [|Hge]; [apply H; lia|].
  rewrite !lookup_ge_None_2 by lia. done.
Qed.

(** Assigning through an index. *)
Lemma alter_insert (f : A -> A) i l x : l !! i = Some x -> alter f i l = <[i := f x]> l.
Proof.
  intros Hx. apply list_eq. intros j.
  destruct (decide (i = j)) as [<-|Hj].
  - rewrite list_lookup_alter_eq, Hx, list_lookup_insert_eq; [done|].
    by eapply lookup_lt_Some.
  - by rewrite list_lookup_alter_ne, list_lookup_insert_ne.
Qed.

Lemma alter_const_insert i l (x : A) : alter (fun _ => x) i l = <[i := x]> l.
Proof.
  destruct (l !! i) as [y|] eqn:Hy; [by erewrite alter_insert|].
  apply lookup_ge_None_1 in Hy. rewrite list_insert_ge by done.
  apply list_eq. intros j. rewrite list_lookup_alter. case_decide; [|done]. subst.
  by rewrite lookup_ge_None_2.
Qed.

Lemma lookup_zlen_Some l (i : nat) : Z.of_nat i < zlen l -> is_Some (l !! i).
Proof. unfold zlen. intros. apply lookup_lt_is_Some. lia. Qed.
Lemma Forall_filter (P Q : A -> Prop) `{!forall x, Decision (Q x)} l :
  Forall P l -> Forall P (filter Q l).
Proof.
  rewrite !Forall_forall. intros Hall x Hx. apply list_elem_of_filter in Hx as [_ Hx]. auto.
Qed.
End lookups.
