(* ===== verification/State.v ===== *)
(** * State: constants, structures, memory and the world

    The data of include/libmctp.h and include/core-internal.h, the heap the C
    code runs on, and the interfaces through which it calls code it does not
    contain (bindings, message handlers, clocks, custom allocators). *)

From S2P Require Import Prelude.

(** ** Constants (include/libmctp.h, include/core-internal.h) *)

Definition MCTP_EID_NULL := 0.
Definition MCTP_EID_BROADCAST := 255.
Definition MCTP_HDR_FLAG_SOM := 128.
Definition MCTP_HDR_FLAG_EOM := 64.
Definition MCTP_HDR_FLAG_TO := 8.
Definition MCTP_HDR_TO_SHIFT := 3.
Definition MCTP_HDR_TO_MASK := 1.
Definition MCTP_HDR_SEQ_SHIFT := 4.
Definition MCTP_HDR_SEQ_MASK := 3.
Definition MCTP_HDR_TAG_SHIFT := 0.
Definition MCTP_HDR_TAG_MASK := 7.
Definition sizeof_mctp_hdr := 4.
Definition MCTP_BTU := 64.
Definition MCTP_PACKET_SIZE (unit_ : Z) : Z := unit_ +s sizeof_mctp_hdr.
Definition MCTP_BODY_SIZE (unit_ : Z) : Z := unit_ -s sizeof_mctp_hdr.

(** Set by the CMake build; the header's own default is 65536. *)
Definition MCTP_MAX_MESSAGE_SIZE := 33554432.
Definition MCTP_MAX_BUSSES := 2.
Definition MCTP_REASSEMBLY_CTXS := 16.
Definition MCTP_REQ_TAGS := 16.
Definition MCTP_TAG_TIMEOUT := 6000.
Definition MCTP_CONTROL_MAX_TYPES := 10.

(** [errno] values of the Microsoft C runtime the repository builds with; only
    that they are distinct and positive matters. *)
Definition EIO := 5.
Definition ENOMEM := 12.
Definition EBUSY := 16.
Definition EINVAL := 22.
Definition ENOSPC := 28.
Definition EPIPE := 32.
Definition ENXIO := 6.
Definition EMSGSIZE := 115.

(** Sizes of structures in the 64-bit builds. *)
Definition sizeof_mctp_pktbuf := 40.
Definition offsetof_pktbuf_data := 33.
Definition sizeof_mctp := 1144.

Definition MCTP_PKTBUF_SIZE (payload : Z) : Z :=
  MCTP_PACKET_SIZE payload +s sizeof_mctp_pktbuf.

(** ** Structures *)

(** A function pointer is the symbol it points to; [None] is [NULL]. *)
Abbreviation fnptr := (option string).

Inductive mctp_bus_state :=
  | mctp_bus_state_constructed
  | mctp_bus_state_tx_enabled
  | mctp_bus_state_tx_disabled.

Inductive mctp_route_policy := ROUTE_ENDPOINT | ROUTE_BRIDGE.

#[export] Instance mctp_bus_state_eq_dec : EqDecision mctp_bus_state.
Proof. solve_decision. Defined.
#[export] Instance mctp_route_policy_eq_dec : EqDecision mctp_route_policy.
Proof. solve_decision. Defined.

(** [struct mctp_hdr] *)
Record mctp_hdr := mk_hdr { ver : Z; dest : Z; src : Z; flags_seq_tag : Z }.

(** [struct mctp_pktbuf]; [pb_data] is the storage behind the flexible array
    member. *)
Record mctp_pktbuf := mk_pktbuf {
  pb_start : Z;
  pb_end : Z;
  pb_size : Z;
  pb_mctp_hdr_off : Z;
  pb_alloc : bool;
  pb_data : list Z;
}.

Definition set_pb_start (x : Z) (r : mctp_pktbuf) : mctp_pktbuf :=
  mk_pktbuf x (pb_end r) (pb_size r) (pb_mctp_hdr_off r) (pb_alloc r) (pb_data r).
Definition set_pb_end (x : Z) (r : mctp_pktbuf) : mctp_pktbuf :=
  mk_pktbuf (pb_start r) x (pb_size r) (pb_mctp_hdr_off r) (pb_alloc r) (pb_data r).
Definition set_pb_size (x : Z) (r : mctp_pktbuf) : mctp_pktbuf :=
  mk_pktbuf (pb_start r) (pb_end r) x (pb_mctp_hdr_off r) (pb_alloc r) (pb_data r).
Definition set_pb_mctp_hdr_off (x : Z) (r : mctp_pktbuf) : mctp_pktbuf :=
  mk_pktbuf (pb_start r) (pb_end r) (pb_size r) x (pb_alloc r) (pb_data r).
Definition set_pb_alloc (x : bool) (r : mctp_pktbuf) : mctp_pktbuf :=
  mk_pktbuf (pb_start r) (pb_end r) (pb_size r) (pb_mctp_hdr_off r) x (pb_data r).
Definition set_pb_data (x : list Z) (r : mctp_pktbuf) : mctp_pktbuf :=
  mk_pktbuf (pb_start r) (pb_end r) (pb_size r) (pb_mctp_hdr_off r) (pb_alloc r) x.

(** [struct mctp_binding], without its [name], which only log messages use. *)
Record mctp_binding := mk_binding {
  bd_version : Z;
  bd_bus : option nat;  (* index into mctp->busses *)
  bd_mctp : Z;  (* struct mctp pointer *)
  bd_pkt_size : Z;
  bd_pkt_header : Z;
  bd_pkt_trailer : Z;
  bd_tx_storage : Z;  (* pointer *)
  bd_start : fnptr;
  bd_tx : fnptr;
  bd_control_rx : fnptr;
  bd_control_rx_data : Z;
}.

Definition set_bd_version (x : Z) (r : mctp_binding) : mctp_binding :=
  mk_binding x (bd_bus r) (bd_mctp r) (bd_pkt_size r) (bd_pkt_header r) (bd_pkt_trailer r) (bd_tx_storage r) (bd_start r) (bd_tx r) (bd_control_rx r) (bd_control_rx_data r).
Definition set_bd_bus (x : option nat) (r : mctp_binding) : mctp_binding :=
  mk_binding (bd_version r) x (bd_mctp r) (bd_pkt_size r) (bd_pkt_header r) (bd_pkt_trailer r) (bd_tx_storage r) (bd_start r) (bd_tx r) (bd_control_rx r) (bd_control_rx_data r).
Definition set_bd_mctp (x : Z) (r : mctp_binding) : mctp_binding :=
  mk_binding (bd_version r) (bd_bus r) x (bd_pkt_size r) (bd_pkt_header r) (bd_pkt_trailer r) (bd_tx_storage r) (bd_start r) (bd_tx r) (bd_control_rx r) (bd_control_rx_data r).
Definition set_bd_pkt_size (x : Z) (r : mctp_binding) : mctp_binding :=
  mk_binding (bd_version r) (bd_bus r) (bd_mctp r) x (bd_pkt_header r) (bd_pkt_trailer r) (bd_tx_storage r) (bd_start r) (bd_tx r) (bd_control_rx r) (bd_control_rx_data r).
Definition set_bd_pkt_header (x : Z) (r : mctp_binding) : mctp_binding :=
  mk_binding (bd_version r) (bd_bus r) (bd_mctp r) (bd_pkt_size r) x (bd_pkt_trailer r) (bd_tx_storage r) (bd_start r) (bd_tx r) (bd_control_rx r) (bd_control_rx_data r).
Definition set_bd_pkt_trailer (x : Z) (r : mctp_binding) : mctp_binding :=
  mk_binding (bd_version r) (bd_bus r) (bd_mctp r) (bd_pkt_size r) (bd_pkt_header r) x (bd_tx_storage r) (bd_start r) (bd_tx r) (bd_control_rx r) (bd_control_rx_data r).
Definition set_bd_tx_storage (x : Z) (r : mctp_binding) : mctp_binding :=
  mk_binding (bd_version r) (bd_bus r) (bd_mctp r) (bd_pkt_size r) (bd_pkt_header r) (bd_pkt_trailer r) x (bd_start r) (bd_tx r) (bd_control_rx r) (bd_control_rx_data r).
Definition set_bd_start (x : fnptr) (r : mctp_binding) : mctp_binding :=
  mk_binding (bd_version r) (bd_bus r) (bd_mctp r) (bd_pkt_size r) (bd_pkt_header r) (bd_pkt_trailer r) (bd_tx_storage r) x (bd_tx r) (bd_control_rx r) (bd_control_rx_data r).
Definition set_bd_tx (x : fnptr) (r : mctp_binding) : mctp_binding :=
  mk_binding (bd_version r) (bd_bus r) (bd_mctp r) (bd_pkt_size r) (bd_pkt_header r) (bd_pkt_trailer r) (bd_tx_storage r) (bd_start r) x (bd_control_rx r) (bd_control_rx_data r).
Definition set_bd_control_rx (x : fnptr) (r : mctp_binding) : mctp_binding :=
  mk_binding (bd_version r) (bd_bus r) (bd_mctp r) (bd_pkt_size r) (bd_pkt_header r) (bd_pkt_trailer r) (bd_tx_storage r) (bd_start r) (bd_tx r) x (bd_control_rx_data r).
Definition set_bd_control_rx_data (x : Z) (r : mctp_binding) : mctp_binding :=
  mk_binding (bd_version r) (bd_bus r) (bd_mctp r) (bd_pkt_size r) (bd_pkt_header r) (bd_pkt_trailer r) (bd_tx_storage r) (bd_start r) (bd_tx r) (bd_control_rx r) x.

(** [struct mctp_bus] *)
Record mctp_bus := mk_bus {
  bus_eid : Z;
  bus_binding : Z;  (* pointer *)
  bus_st : mctp_bus_state;  (* the field [state] *)
  bus_mctp : Z;  (* struct mctp pointer *)
  bus_tx_msg : Z;  (* pointer *)
  bus_tx_msgpos : Z;
  bus_tx_msglen : Z;
  bus_tx_pktlen : Z;
  bus_tx_seq : Z;
  bus_tx_src : Z;
  bus_tx_dest : Z;
  bus_tx_to : bool;
  bus_tx_tag : Z;
}.

Definition set_bus_eid (x : Z) (r : mctp_bus) : mctp_bus :=
  mk_bus x (bus_binding r) (bus_st r) (bus_mctp r) (bus_tx_msg r) (bus_tx_msgpos r) (bus_tx_msglen r) (bus_tx_pktlen r) (bus_tx_seq r) (bus_tx_src r) (bus_tx_dest r) (bus_tx_to r) (bus_tx_tag r).
Definition set_bus_binding (x : Z) (r : mctp_bus) : mctp_bus :=
  mk_bus (bus_eid r) x (bus_st r) (bus_mctp r) (bus_tx_msg r) (bus_tx_msgpos r) (bus_tx_msglen r) (bus_tx_pktlen r) (bus_tx_seq r) (bus_tx_src r) (bus_tx_dest r) (bus_tx_to r) (bus_tx_tag r).
Definition set_bus_st (x : mctp_bus_state) (r : mctp_bus) : mctp_bus :=
  mk_bus (bus_eid r) (bus_binding r) x (bus_mctp r) (bus_tx_msg r) (bus_tx_msgpos r) (bus_tx_msglen r) (bus_tx_pktlen r) (bus_tx_seq r) (bus_tx_src r) (bus_tx_dest r) (bus_tx_to r) (bus_tx_tag r).
Definition set_bus_mctp (x : Z) (r : mctp_bus) : mctp_bus :=
  mk_bus (bus_eid r) (bus_binding r) (bus_st r) x (bus_tx_msg r) (bus_tx_msgpos r) (bus_tx_msglen r) (bus_tx_pktlen r) (bus_tx_seq r) (bus_tx_src r) (bus_tx_dest r) (bus_tx_to r) (bus_tx_tag r).
Definition set_bus_tx_msg (x : Z) (r : mctp_bus) : mctp_bus :=
  mk_bus (bus_eid r) (bus_binding r) (bus_st r) (bus_mctp r) x (bus_tx_msgpos r) (bus_tx_msglen r) (bus_tx_pktlen r) (bus_tx_seq r) (bus_tx_src r) (bus_tx_dest r) (bus_tx_to r) (bus_tx_tag r).
Definition set_bus_tx_msgpos (x : Z) (r : mctp_bus) : mctp_bus :=
  mk_bus (bus_eid r) (bus_binding r) (bus_st r) (bus_mctp r) (bus_tx_msg r) x (bus_tx_msglen r) (bus_tx_pktlen r) (bus_tx_seq r) (bus_tx_src r) (bus_tx_dest r) (bus_tx_to r) (bus_tx_tag r).
Definition set_bus_tx_msglen (x : Z) (r : mctp_bus) : mctp_bus :=
  mk_bus (bus_eid r) (bus_binding r) (bus_st r) (bus_mctp r) (bus_tx_msg r) (bus_tx_msgpos r) x (bus_tx_pktlen r) (bus_tx_seq r) (bus_tx_src r) (bus_tx_dest r) (bus_tx_to r) (bus_tx_tag r).
Definition set_bus_tx_pktlen (x : Z) (r : mctp_bus) : mctp_bus :=
  mk_bus (bus_eid r) (bus_binding r) (bus_st r) (bus_mctp r) (bus_tx_msg r) (bus_tx_msgpos r) (bus_tx_msglen r) x (bus_tx_seq r) (bus_tx_src r) (bus_tx_dest r) (bus_tx_to r) (bus_tx_tag r).
Definition set_bus_tx_seq (x : Z) (r : mctp_bus) : mctp_bus :=
  mk_bus (bus_eid r) (bus_binding r) (bus_st r) (bus_mctp r) (bus_tx_msg r) (bus_tx_msgpos r) (bus_tx_msglen r) (bus_tx_pktlen r) x (bus_tx_src r) (bus_tx_dest r) (bus_tx_to r) (bus_tx_tag r).
Definition set_bus_tx_src (x : Z) (r : mctp_bus) : mctp_bus :=
  mk_bus (bus_eid r) (bus_binding r) (bus_st r) (bus_mctp r) (bus_tx_msg r) (bus_tx_msgpos r) (bus_tx_msglen r) (bus_tx_pktlen r) (bus_tx_seq r) x (bus_tx_dest r) (bus_tx_to r) (bus_tx_tag r).
Definition set_bus_tx_dest (x : Z) (r : mctp_bus) : mctp_bus :=
  mk_bus (bus_eid r) (bus_binding r) (bus_st r) (bus_mctp r) (bus_tx_msg r) (bus_tx_msgpos r) (bus_tx_msglen r) (bus_tx_pktlen r) (bus_tx_seq r) (bus_tx_src r) x (bus_tx_to r) (bus_tx_tag r).
Definition set_bus_tx_to (x : bool) (r : mctp_bus) : mctp_bus :=
  mk_bus (bus_eid r) (bus_binding r) (bus_st r) (bus_mctp r) (bus_tx_msg r) (bus_tx_msgpos r) (bus_tx_msglen r) (bus_tx_pktlen r) (bus_tx_seq r) (bus_tx_src r) (bus_tx_dest r) x (bus_tx_tag r).
Definition set_bus_tx_tag (x : Z) (r : mctp_bus) : mctp_bus :=
  mk_bus (bus_eid r) (bus_binding r) (bus_st r) (bus_mctp r) (bus_tx_msg r) (bus_tx_msgpos r) (bus_tx_msglen r) (bus_tx_pktlen r) (bus_tx_seq r) (bus_tx_src r) (bus_tx_dest r) (bus_tx_to r) x.

(** [struct mctp_msg_ctx]; a null [mc_buf] marks an unused context. *)
Record mctp_msg_ctx := mk_msg_ctx {
  mc_buf : Z;  (* pointer *)
  mc_src : Z;
  mc_dest : Z;
  mc_tag : Z;
  mc_last_seq : Z;
  mc_buf_size : Z;
  mc_buf_alloc_size : Z;
  mc_fragment_size : Z;
}.

Definition set_mc_buf (x : Z) (r : mctp_msg_ctx) : mctp_msg_ctx :=
  mk_msg_ctx x (mc_src r) (mc_dest r) (mc_tag r) (mc_last_seq r) (mc_buf_size r) (mc_buf_alloc_size r) (mc_fragment_size r).
Definition set_mc_src (x : Z) (r : mctp_msg_ctx) : mctp_msg_ctx :=
  mk_msg_ctx (mc_buf r) x (mc_dest r) (mc_tag r) (mc_last_seq r) (mc_buf_size r) (mc_buf_alloc_size r) (mc_fragment_size r).
Definition set_mc_dest (x : Z) (r : mctp_msg_ctx) : mctp_msg_ctx :=
  mk_msg_ctx (mc_buf r) (mc_src r) x (mc_tag r) (mc_last_seq r) (mc_buf_size r) (mc_buf_alloc_size r) (mc_fragment_size r).
Definition set_mc_tag (x : Z) (r : mctp_msg_ctx) : mctp_msg_ctx :=
  mk_msg_ctx (mc_buf r) (mc_src r) (mc_dest r) x (mc_last_seq r) (mc_buf_size r) (mc_buf_alloc_size r) (mc_fragment_size r).
Definition set_mc_last_seq (x : Z) (r : mctp_msg_ctx) : mctp_msg_ctx :=
  mk_msg_ctx (mc_buf r) (mc_src r) (mc_dest r) (mc_tag r) x (mc_buf_size r) (mc_buf_alloc_size r) (mc_fragment_size r).
Definition set_mc_buf_size (x : Z) (r : mctp_msg_ctx) : mctp_msg_ctx :=
  mk_msg_ctx (mc_buf r) (mc_src r) (mc_dest r) (mc_tag r) (mc_last_seq r) x (mc_buf_alloc_size r) (mc_fragment_size r).
Definition set_mc_buf_alloc_size (x : Z) (r : mctp_msg_ctx) : mctp_msg_ctx :=
  mk_msg_ctx (mc_buf r) (mc_src r) (mc_dest r) (mc_tag r) (mc_last_seq r) (mc_buf_size r) x (mc_fragment_size r).
Definition set_mc_fragment_size (x : Z) (r : mctp_msg_ctx) : mctp_msg_ctx :=
  mk_msg_ctx (mc_buf r) (mc_src r) (mc_dest r) (mc_tag r) (mc_last_seq r) (mc_buf_size r) (mc_buf_alloc_size r) x.

(** [struct mctp_req_tag]; a zero [rt_local] marks an unused entry. *)
Record mctp_req_tag := mk_req_tag {
  rt_local : Z;
  rt_remote : Z;
  rt_tag : Z;
  rt_expiry : Z;
}.

Definition set_rt_local (x : Z) (r : mctp_req_tag) : mctp_req_tag :=
  mk_req_tag x (rt_remote r) (rt_tag r) (rt_expiry r).
Definition set_rt_remote (x : Z) (r : mctp_req_tag) : mctp_req_tag :=
  mk_req_tag (rt_local r) x (rt_tag r) (rt_expiry r).
Definition set_rt_tag (x : Z) (r : mctp_req_tag) : mctp_req_tag :=
  mk_req_tag (rt_local r) (rt_remote r) x (rt_expiry r).
Definition set_rt_expiry (x : Z) (r : mctp_req_tag) : mctp_req_tag :=
  mk_req_tag (rt_local r) (rt_remote r) (rt_tag r) x.

(** [struct mctp_control] *)
Record mctp_control := mk_control {
  ct_msg_types : list Z;  (* an array of MCTP_CONTROL_MAX_TYPES *)
  ct_num_msg_types : Z;
}.

Definition set_ct_msg_types (x : list Z) (r : mctp_control) : mctp_control :=
  mk_control x (ct_num_msg_types r).
Definition set_ct_num_msg_types (x : Z) (r : mctp_control) : mctp_control :=
  mk_control (ct_msg_types r) x.

(** [struct mctp] *)
Record mctp := mk_mctp {
  m_n_busses : Z;
  m_busses : list mctp_bus;
  m_message_rx : fnptr;
  m_message_rx_data : Z;
  m_capture : fnptr;
  m_capture_data : Z;
  m_msg_ctxs : list mctp_msg_ctx;
  m_req_tags : list mctp_req_tag;
  m_tag_round_robin : Z;
  m_route_policy : mctp_route_policy;
  m_max_message_size : Z;
  m_control : mctp_control;
  m_alloc_ctx : Z;
  m_platform_now : fnptr;
  m_platform_now_ctx : Z;
}.

Definition set_m_n_busses (x : Z) (r : mctp) : mctp :=
  mk_mctp x (m_busses r) (m_message_rx r) (m_message_rx_data r) (m_capture r) (m_capture_data r) (m_msg_ctxs r) (m_req_tags r) (m_tag_round_robin r) (m_route_policy r) (m_max_message_size r) (m_control r) (m_alloc_ctx r) (m_platform_now r) (m_platform_now_ctx r).
Definition set_m_busses (x : list mctp_bus) (r : mctp) : mctp :=
  mk_mctp (m_n_busses r) x (m_message_rx r) (m_message_rx_data r) (m_capture r) (m_capture_data r) (m_msg_ctxs r) (m_req_tags r) (m_tag_round_robin r) (m_route_policy r) (m_max_message_size r) (m_control r) (m_alloc_ctx r) (m_platform_now r) (m_platform_now_ctx r).
Definition set_m_message_rx (x : fnptr) (r : mctp) : mctp :=
  mk_mctp (m_n_busses r) (m_busses r) x (m_message_rx_data r) (m_capture r) (m_capture_data r) (m_msg_ctxs r) (m_req_tags r) (m_tag_round_robin r) (m_route_policy r) (m_max_message_size r) (m_control r) (m_alloc_ctx r) (m_platform_now r) (m_platform_now_ctx r).
Definition set_m_message_rx_data (x : Z) (r : mctp) : mctp :=
  mk_mctp (m_n_busses r) (m_busses r) (m_message_rx r) x (m_capture r) (m_capture_data r) (m_msg_ctxs r) (m_req_tags r) (m_tag_round_robin r) (m_route_policy r) (m_max_message_size r) (m_control r) (m_alloc_ctx r) (m_platform_now r) (m_platform_now_ctx r).
Definition set_m_capture (x : fnptr) (r : mctp) : mctp :=
  mk_mctp (m_n_busses r) (m_busses r) (m_message_rx r) (m_message_rx_data r) x (m_capture_data r) (m_msg_ctxs r) (m_req_tags r) (m_tag_round_robin r) (m_route_policy r) (m_max_message_size r) (m_control r) (m_alloc_ctx r) (m_platform_now r) (m_platform_now_ctx r).
Definition set_m_capture_data (x : Z) (r : mctp) : mctp :=
  mk_mctp (m_n_busses r) (m_busses r) (m_message_rx r) (m_message_rx_data r) (m_capture r) x (m_msg_ctxs r) (m_req_tags r) (m_tag_round_robin r) (m_route_policy r) (m_max_message_size r) (m_control r) (m_alloc_ctx r) (m_platform_now r) (m_platform_now_ctx r).
Definition set_m_msg_ctxs (x : list mctp_msg_ctx) (r : mctp) : mctp :=
  mk_mctp (m_n_busses r) (m_busses r) (m_message_rx r) (m_message_rx_data r) (m_capture r) (m_capture_data r) x (m_req_tags r) (m_tag_round_robin r) (m_route_policy r) (m_max_message_size r) (m_control r) (m_alloc_ctx r) (m_platform_now r) (m_platform_now_ctx r).
Definition set_m_req_tags (x : list mctp_req_tag) (r : mctp) : mctp :=
  mk_mctp (m_n_busses r) (m_busses r) (m_message_rx r) (m_message_rx_data r) (m_capture r) (m_capture_data r) (m_msg_ctxs r) x (m_tag_round_robin r) (m_route_policy r) (m_max_message_size r) (m_control r) (m_alloc_ctx r) (m_platform_now r) (m_platform_now_ctx r).
Definition set_m_tag_round_robin (x : Z) (r : mctp) : mctp :=
  mk_mctp (m_n_busses r) (m_busses r) (m_message_rx r) (m_message_rx_data r) (m_capture r) (m_capture_data r) (m_msg_ctxs r) (m_req_tags r) x (m_route_policy r) (m_max_message_size r) (m_control r) (m_alloc_ctx r) (m_platform_now r) (m_platform_now_ctx r).
Definition set_m_route_policy (x : mctp_route_policy) (r : mctp) : mctp :=
  mk_mctp (m_n_busses r) (m_busses r) (m_message_rx r) (m_message_rx_data r) (m_capture r) (m_capture_data r) (m_msg_ctxs r) (m_req_tags r) (m_tag_round_robin r) x (m_max_message_size r) (m_control r) (m_alloc_ctx r) (m_platform_now r) (m_platform_now_ctx r).
Definition set_m_max_message_size (x : Z) (r : mctp) : mctp :=
  mk_mctp (m_n_busses r) (m_busses r) (m_message_rx r) (m_message_rx_data r) (m_capture r) (m_capture_data r) (m_msg_ctxs r) (m_req_tags r) (m_tag_round_robin r) (m_route_policy r) x (m_control r) (m_alloc_ctx r) (m_platform_now r) (m_platform_now_ctx r).
Definition set_m_control (x : mctp_control) (r : mctp) : mctp :=
  mk_mctp (m_n_busses r) (m_busses r) (m_message_rx r) (m_message_rx_data r) (m_capture r) (m_capture_data r) (m_msg_ctxs r) (m_req_tags r) (m_tag_round_robin r) (m_route_policy r) (m_max_message_size r) x (m_alloc_ctx r) (m_platform_now r) (m_platform_now_ctx r).
Definition set_m_alloc_ctx (x : Z) (r : mctp) : mctp :=
  mk_mctp (m_n_busses r) (m_busses r) (m_message_rx r) (m_message_rx_data r) (m_capture r) (m_capture_data r) (m_msg_ctxs r) (m_req_tags r) (m_tag_round_robin r) (m_route_policy r) (m_max_message_size r) (m_control r) x (m_platform_now r) (m_platform_now_ctx r).
Definition set_m_platform_now (x : fnptr) (r : mctp) : mctp :=
  mk_mctp (m_n_busses r) (m_busses r) (m_message_rx r) (m_message_rx_data r) (m_capture r) (m_capture_data r) (m_msg_ctxs r) (m_req_tags r) (m_tag_round_robin r) (m_route_policy r) (m_max_message_size r) (m_control r) (m_alloc_ctx r) x (m_platform_now_ctx r).
Definition set_m_platform_now_ctx (x : Z) (r : mctp) : mctp :=
  mk_mctp (m_n_busses r) (m_busses r) (m_message_rx r) (m_message_rx_data r) (m_capture r) (m_capture_data r) (m_msg_ctxs r) (m_req_tags r) (m_tag_round_robin r) (m_route_policy r) (m_max_message_size r) (m_control r) (m_alloc_ctx r) (m_platform_now r) x.

(** ** Memory

    An address names a block; it is 0 for [NULL] and a multiple of 16 for what
    [malloc] returns.  A block holds raw bytes, or a packet buffer once
    [mctp_pktbuf_init] has been run on it.  The contents of the one
    [struct mctp], of the bindings and of the environment are typed fields of
    the world: their heap blocks, when they have one, only record that they are
    allocated.  Freshly allocated bytes hold [POISON], which is not a byte, so
    that a read of uninitialised memory cannot pass for data. *)
Inductive hobj :=
  | HBytes (bs : list Z)
  | HPkt (p : mctp_pktbuf).

Definition NULL := 0.
Definition POISON := -1.

(** The four function pointers of [alloc_ops] in alloc.c. *)
Record alloc_ops_t := mk_alloc_ops {
  ao_alloc : fnptr;
  ao_free : fnptr;
  ao_msg_alloc : fnptr;
  ao_msg_free : fnptr;
}.

(** What an observer outside the core sees: the calls made through the function
    pointers of bindings and applications.  [EvTx] carries the bytes from the
    packet's MCTP header to its end and the binding's answer, [EvRx] and
    [EvCtrlRx] the message bytes passed. *)
Inductive event :=
  | EvTx (binding : Z) (pkt : list Z) (rc : Z)
  | EvRx (fn : string) (data src : Z) (tag_owner : bool) (tag : Z) (msg : list Z)
  | EvCtrlRx (fn : string) (data src : Z) (tag_owner : bool) (tag : Z) (msg : list Z)
  | EvCapture (outgoing : bool) (pkt : list Z).

(** The world. *)
Record world (D : Type) := mk_world {
  w_heap : gmap Z hobj;  (* live heap blocks *)
  w_brk : Z;  (* next fresh address *)
  w_mallocs : list bool;  (* outcomes of the coming malloc calls *)
  w_ops : alloc_ops_t;  (* the global alloc_ops of alloc.c *)
  w_mctp : mctp;  (* the struct mctp *)
  w_bindings : gmap Z mctp_binding;  (* bindings by address *)
  w_trace : list event;  (* calls out of the core, oldest first *)
  w_dev : D;  (* state of the environment *)
}.
Arguments mk_world {D}.
Arguments w_heap {D} _.
Arguments w_brk {D} _.
Arguments w_mallocs {D} _.
Arguments w_ops {D} _.
Arguments w_mctp {D} _.
Arguments w_bindings {D} _.
Arguments w_trace {D} _.
Arguments w_dev {D} _.

Definition set_w_heap {D} (x : gmap Z hobj) (r : world D) : world D :=
  mk_world x (w_brk r) (w_mallocs r) (w_ops r) (w_mctp r) (w_bindings r) (w_trace r) (w_dev r).
Definition set_w_brk {D} (x : Z) (r : world D) : world D :=
  mk_world (w_heap r) x (w_mallocs r) (w_ops r) (w_mctp r) (w_bindings r) (w_trace r) (w_dev r).
Definition set_w_mallocs {D} (x : list bool) (r : world D) : world D :=
  mk_world (w_heap r) (w_brk r) x (w_ops r) (w_mctp r) (w_bindings r) (w_trace r) (w_dev r).
Definition set_w_ops {D} (x : alloc_ops_t) (r : world D) : world D :=
  mk_world (w_heap r) (w_brk r) (w_mallocs r) x (w_mctp r) (w_bindings r) (w_trace r) (w_dev r).
Definition set_w_mctp {D} (x : mctp) (r : world D) : world D :=
  mk_world (w_heap r) (w_brk r) (w_mallocs r) (w_ops r) x (w_bindings r) (w_trace r) (w_dev r).
Definition set_w_bindings {D} (x : gmap Z mctp_binding) (r : world D) : world D :=
  mk_world (w_heap r) (w_brk r) (w_mallocs r) (w_ops r) (w_mctp r) x (w_trace r) (w_dev r).
Definition set_w_trace {D} (x : list event) (r : world D) : world D :=
  mk_world (w_heap r) (w_brk r) (w_mallocs r) (w_ops r) (w_mctp r) (w_bindings r) x (w_dev r).
Definition set_w_dev {D} (x : D) (r : world D) : world D :=
  mk_world (w_heap r) (w_brk r) (w_mallocs r) (w_ops r) (w_mctp r) (w_bindings r) (w_trace r) x.

(** ** Interfaces to code outside the core

    A call through a function pointer is a computation on the whole world: it
    may call back into the stack. *)
Class ExtAlloc (D : Type) := {
  xa_alloc : string -> Z -> M (world D) Z;
  xa_free : string -> Z -> M (world D) unit;
  xa_msg_alloc : string -> Z -> Z -> M (world D) Z;
  xa_msg_free : string -> Z -> Z -> M (world D) unit;
}.

Class BindingOps (D : Type) := {
  bop_tx : string -> Z -> Z -> M (world D) Z;
  bop_capture : string -> Z -> bool -> Z -> M (world D) unit;
}.

Class StartOps (D : Type) := { sop_start : string -> Z -> M (world D) Z }.

(** [mctp_rx_fn]: source EID, tag owner, tag, user data, message, length. *)
Class RxOps (D : Type) := {
  rop_rx : string -> Z -> bool -> Z -> Z -> Z -> Z -> M (world D) unit;
}.

(** The Windows tick counter, and clocks set by [mctp_set_now_op]. *)
Class ClockOps (D : Type) := {
  GetTickCount64 : M (world D) Z;
  cop_now : string -> Z -> M (world D) Z;
}.

(** ** Primitive operations *)

Section primitives.
Context {D : Type}.
Local Abbreviation IO := (M (world D)).

(** C library: [malloc] and [free].  The next entry of [w_mallocs] says whether
  the call succeeds; with none left it does. *)
Definition malloc (size : Z) : IO Z := fun w =>
match w_mallocs w with
| false :: l => Ok NULL (set_w_mallocs l w)
| l => Ok (w_brk w)
         (set_w_mallocs (tail l) (set_w_brk (w_brk w + 16)
           (set_w_heap (<[w_brk w := HBytes (replicate (Z.to_nat size) POISON)]>
              (w_heap w)) w)))
end.

Definition free (p : Z) : IO unit := fun w =>
if decide (p = NULL) then Ok tt w else
match w_heap w !! p with
| Some _ => Ok tt (set_w_heap (delete p (w_heap w)) w)
| None => Stuck BadFree
end.

Definition load_obj (p : Z) : IO hobj := fun w =>
match w_heap w !! p with Some o => Ok o w | None => Stuck BadAccess end.

Definition store_obj (p : Z) (o : hobj) : IO unit :=
modify (fun w => set_w_heap (<[p := o]> (w_heap w)) w).

(** Reads and writes of a raw block, within its bounds. *)
Definition load_bytes (p off len : Z) : IO (list Z) :=
o ← load_obj p;
match o with
| HBytes bs =>
    if decide (0 <= off /\ 0 <= len /\ off + len <= zlen bs)
    then mret (slice off len bs) else stuck BadAccess
| HPkt _ => stuck BadAccess
end.

Definition store_bytes (p off : Z) (data : list Z) : IO unit :=
o ← load_obj p;
match o with
| HBytes bs =>
    if decide (0 <= off /\ off + zlen data <= zlen bs)
    then store_obj p (HBytes (splice off data bs)) else stuck BadAccess
| HPkt _ => stuck BadAccess
end.

(** The packet buffer at [p]. *)
Definition load_pkt (p : Z) : IO mctp_pktbuf :=
o ← load_obj p;
match o with HPkt pk => mret pk | HBytes _ => stuck BadAccess end.

(** Fields of the [struct mctp], the busses and the bindings.  A null
  [struct mctp] pointer is an access violation. *)
Definition mctp_get (mctp : Z) : IO State.mctp :=
if decide (mctp = NULL) then stuck NullDeref else gets w_mctp.

Definition mctp_upd (mctp : Z) (f : State.mctp -> State.mctp) : IO unit :=
if decide (mctp = NULL) then stuck NullDeref
else modify (fun w => set_w_mctp (f (w_mctp w)) w).

Definition get_bus (i : nat) : IO mctp_bus := fun w =>
match m_busses (w_mctp w) !! i with Some b => Ok b w | None => Stuck BadAccess end.

Definition upd_bus (i : nat) (f : mctp_bus -> mctp_bus) : IO unit :=
modify (fun w => set_w_mctp (set_m_busses (alter f i (m_busses (w_mctp w))) (w_mctp w)) w).

Definition get_binding (b : Z) : IO mctp_binding := fun w =>
match w_bindings w !! b with Some bd => Ok bd w | None => Stuck BadAccess end.

Definition upd_binding (b : Z) (f : mctp_binding -> mctp_binding) : IO unit :=
modify (fun w => set_w_bindings (alter f b (w_bindings w)) w).

(** [binding->bus] where the code dereferences it. *)
Definition deref_bus (o : option nat) : IO nat := from_option_or NullDeref o.

Definition emit (e : event) : IO unit :=
modify (fun w => set_w_trace (w_trace w ++ [e]) w).

End primitives.

(** The symbol behind a non-null function pointer. *)
Definition call_target {D} (f : fnptr) : M (world D) string := from_option_or BadCall f.

(** ** What callbacks are assumed to do

    The theorems about transmission and reception are for environments whose
    callbacks return and do not call back into the stack: they change nothing
    but the environment's own state. *)

(** The bytes from the packet's MCTP header to its end are in its storage. *)
Definition pkt_readable (p : mctp_pktbuf) : Prop :=
  0 <= pb_mctp_hdr_off p /\ pb_start p <= pb_end p < pb_start p + SIZE_MOD /\
  pb_mctp_hdr_off p + (pb_end p - pb_start p) <= zlen (pb_data p).

(** The transmit function of a binding, in the states of the environment in
    which it is [ready], gives an answer that satisfies [answer] and stays
    ready. *)
Class QuietTx (D : Type) `{!BindingOps D} (ready : string -> Z -> D -> Prop)
    (answer : Z -> Prop) := {
  quiet_tx f b pkt p (w : world D) :
    ready f b (w_dev w) -> w_heap w !! pkt = Some (HPkt p) -> pkt_readable p ->
    exists rc d, answer rc /\ ready f b d /\ bop_tx f b pkt w = Ok rc (set_w_dev d w);
  quiet_tx_capture f b g pkt out data (w w' : world D) :
    ready f b (w_dev w) -> bop_capture g pkt out data w = Ok tt w' -> ready f b (w_dev w');
}.

(** What sending a packet does to the environment: [sent binding pkt rc d d']
    when the transmit function has been handed the bytes [pkt] and has answered
    [rc]; capturing the packet first makes no difference to it. *)
Class TxEffect (D : Type) `{!BindingOps D} (ready : string -> Z -> D -> Prop)
    (sent : Z -> list Z -> Z -> D -> D -> Prop) := {
  tx_effect f b pkt p rc (w w' : world D) :
    ready f b (w_dev w) -> w_heap w !! pkt = Some (HPkt p) -> pkt_readable p ->
    bop_tx f b pkt w = Ok rc w' ->
    sent b (slice (pb_mctp_hdr_off p) (pb_end p -s pb_start p) (pb_data p)) rc (w_dev w) (w_dev w');
  tx_effect_capture b bs rc g pkt out data d (w w' : world D) :
    bop_capture g pkt out data w = Ok tt w' -> sent b bs rc (w_dev w') d ->
    sent b bs rc (w_dev w) d;
}.

Class QuietCapture (D : Type) `{!BindingOps D} := {
  quiet_capture f pkt out data (w : world D) :
    exists d, bop_capture f pkt out data w = Ok tt (set_w_dev d w);
}.

(** What the receive callback needs of the environment, given the pointer set
    with it. *)
Class RxReady (D : Type) := rx_ready : string -> Z -> D -> Prop.

Class QuietRx (D : Type) `{!RxOps D, !RxReady D} := {
  quiet_rx f src to tag data buf len (w : world D) :
    rx_ready f data (w_dev w) ->
    exists d, rop_rx f src to tag data buf len w = Ok tt (set_w_dev d w);
}.

(** A property of the environment's state that callbacks keep. *)
Class KeepOps (D : Type) `{!BindingOps D, !RxOps D, !RxReady D} (keep : D -> D -> Prop) := {
  keep_pre :: PreOrder keep;
  keep_ready f data d d' : keep d d' -> rx_ready f data d -> rx_ready f data d';
  keep_capture f pkt out data (w w' : world D) :
    bop_capture f pkt out data w = Ok tt w' -> keep (w_dev w) (w_dev w');
  keep_rx f src to tag data buf len (w w' : world D) :
    rop_rx f src to tag data buf len w = Ok tt w' -> keep (w_dev w) (w_dev w');
}.
