(* ===== verification/Alloc.v ===== *)
(** * Allocation (src/alloc.c)

    The four allocation functions the rest of the library calls, dispatching
    through the global [alloc_ops]; custom functions are parameters
    ([ExtAlloc]).  The lemmas give the runs of the default configuration
    ([malloc]/[free]), in which every other component is verified. *)

From S2P Require Import Prelude State.

Section alloc.
Context {D : Type} `{!ExtAlloc D}.
Local Abbreviation IO := (M (world D)).

(** [alloc_ops] as [MCTP_DEFAULT_ALLOC] initialises it. *)
Definition default_alloc_ops : alloc_ops_t :=
  mk_alloc_ops (Some "malloc"%string) (Some "free"%string)
               (Some "default_msg_malloc"%string) (Some "default_msg_free"%string).

Definition __mctp_alloc (size : Z) : IO Z :=
  ops ← gets w_ops;
  match ao_alloc ops with
  | Some f => if decide (f = "malloc"%string) then malloc size else xa_alloc f size
  | None => stuck AssertFail
  end.

Definition __mctp_free (ptr : Z) : IO unit :=
  ops ← gets w_ops;
  match ao_free ops with
  | Some f => if decide (f = "free"%string) then free ptr else xa_free f ptr
  | None => stuck AssertFail
  end.

Definition default_msg_malloc (size ctx : Z) : IO Z :=
  ptr ← __mctp_alloc size;
  mret ptr.

Definition default_msg_free (msg ctx : Z) : IO unit := __mctp_free msg.

(** core.c *)
Definition mctp_get_alloc_ctx (mctp : Z) : IO Z :=
  m ← mctp_get mctp; mret (m_alloc_ctx m).

Definition mctp_set_alloc_ctx (mctp ctx : Z) : IO unit :=
  mctp_upd mctp (set_m_alloc_ctx ctx).

Definition __mctp_msg_alloc (size mctp : Z) : IO Z :=
  ctx ← mctp_get_alloc_ctx mctp;
  ops ← gets w_ops;
  match ao_msg_alloc ops with
  | Some f => if decide (f = "default_msg_malloc"%string)
              then default_msg_malloc size ctx else xa_msg_alloc f size ctx
  | None => stuck AssertFail
  end.

Definition __mctp_msg_free (ptr mctp : Z) : IO unit :=
  ctx ← mctp_get_alloc_ctx mctp;
  ops ← gets w_ops;
  match ao_msg_free ops with
  | Some f => if decide (f = "default_msg_free"%string)
              then default_msg_free ptr ctx else xa_msg_free f ptr ctx
  | None => mret tt
  end.

Definition mctp_set_alloc_ops (m_alloc m_free m_msg_alloc m_msg_free : fnptr) : IO unit :=
  modify (set_w_ops (mk_alloc_ops m_alloc m_free m_msg_alloc m_msg_free)).

(** ** The states allocation and release lead to *)

Definition malloc_ok (w : world D) : bool :=
  match w_mallocs w with false :: _ => false | _ => true end.

Definition fresh_block (size : Z) : hobj := HBytes (replicate (Z.to_nat size) POISON).

Definition after_malloc (size : Z) (w : world D) : world D :=
  set_w_mallocs (tail (w_mallocs w)) (set_w_brk (w_brk w + 16)
    (set_w_heap (<[w_brk w := fresh_block size]> (w_heap w)) w)).

Definition after_oom (w : world D) : world D :=
  set_w_mallocs (tail (w_mallocs w)) w.

Definition after_free (p : Z) (w : world D) : world D :=
  set_w_heap (delete p (w_heap w)) w.

(** Live blocks lie below the next fresh address. *)
Definition heap_wf (w : world D) : Prop :=
  0 < w_brk w /\ w_brk w mod 16 = 0 /\
  forall a, is_Some (w_heap w !! a) -> 0 < a < w_brk w.

(** Nothing lives from the next fresh address on. *)
Lemma heap_wf_above w a : heap_wf w -> w_brk w <= a -> w_heap w !! a = None.
Proof.
  intros (_ & _ & H) Ha. destruct (w_heap w !! a) eqn:E; [|done].
  specialize (H a ltac:(eauto)). lia.
Qed.

Lemma heap_wf_fresh w : heap_wf w -> w_heap w !! w_brk w = None.
Proof. intros H. by apply heap_wf_above. Qed.

Lemma heap_wf_null w : heap_wf w -> w_heap w !! NULL = None.
Proof.
  intros (_ & _ & H). destruct (w_heap w !! NULL) eqn:E; [|done].
  specialize (H NULL ltac:(eauto)). unfold NULL in *. lia.
Qed.

Lemma heap_wf_malloc size w : heap_wf w -> heap_wf (after_malloc size w).
Proof.
  intros (Hp & Hm & H). unfold heap_wf, after_malloc; simpl.
  split; [lia|]. split; [by rewrite Z.add_mod, Hm by lia|].
  intros a. rewrite lookup_insert. case_decide; [lia|]. intros Ha. apply H in Ha. lia.
Qed.

Lemma heap_wf_oom w : heap_wf w -> heap_wf (after_oom w).
Proof. done. Qed.

Lemma heap_wf_free p w : heap_wf w -> heap_wf (after_free p w).
Proof.
  intros (Hp & Hm & H). repeat split; [done..| |]; simpl in *.
  all: destruct H0 as [o Ho]; apply lookup_delete_Some in Ho as [_ Ho].
  all: assert (is_Some (w_heap w !! a)) as Ha by eauto; apply H in Ha; lia.
Qed.

Lemma malloc_run size w :
  malloc size w = if malloc_ok w then Ok (w_brk w) (after_malloc size w)
                  else Ok NULL (after_oom w).
Proof.
  unfold malloc, malloc_ok, after_malloc, after_oom, fresh_block.
  destruct (w_mallocs w) as [|[] l] eqn:E; simpl; rewrite ?E; done.
Qed.

Lemma free_run p w :
  is_Some (w_heap w !! p) -> w_heap w !! NULL = None -> free p w = Ok tt (after_free p w).
Proof.
  intros [o Ho] Hn. unfold free. rewrite Ho.
  case_decide; [congruence|done].
Qed.

Lemma wp_mctp_get mctp (Q : State.mctp -> world D -> Prop) w :
  mctp <> NULL -> Q (w_mctp w) w -> wp (mctp_get mctp) Q w.
Proof. intros. unfold mctp_get. by rewrite decide_False. Qed.

Lemma wp_mctp_upd mctp f (Q : unit -> world D -> Prop) w :
  mctp <> NULL -> Q tt (set_w_mctp (f (w_mctp w)) w) -> wp (mctp_upd mctp f) Q w.
Proof. intros. unfold mctp_upd. by rewrite decide_False. Qed.

Lemma wp_malloc size (Q : Z -> world D -> Prop) w :
  (malloc_ok w = true -> Q (w_brk w) (after_malloc size w)) ->
  (malloc_ok w = false -> Q NULL (after_oom w)) -> wp (malloc size) Q w.
Proof. intros H1 H2. unfold wp. rewrite malloc_run. destruct (malloc_ok w); auto. Qed.

Lemma wp_c_free p (Q : unit -> world D -> Prop) w :
  is_Some (w_heap w !! p) -> w_heap w !! NULL = None -> Q tt (after_free p w) -> wp (free p) Q w.
Proof. intros Hp Hn HQ. unfold wp. by rewrite free_run. Qed.

Lemma wp_alloc size (Q : Z -> world D -> Prop) w :
  w_ops w = default_alloc_ops ->
  (malloc_ok w = true -> Q (w_brk w) (after_malloc size w)) ->
  (malloc_ok w = false -> Q NULL (after_oom w)) ->
  wp (__mctp_alloc size) Q w.
Proof.
  intros Hops H1 H2. unfold __mctp_alloc. wp_steps. rewrite Hops. simpl.
  unfold wp. rewrite malloc_run. destruct (malloc_ok w); auto.
Qed.

Lemma wp_free p (Q : unit -> world D -> Prop) w :
  w_ops w = default_alloc_ops -> is_Some (w_heap w !! p) -> w_heap w !! NULL = None ->
  Q tt (after_free p w) -> wp (__mctp_free p) Q w.
Proof.
  intros Hops Hp Hn HQ. unfold __mctp_free. wp_steps. rewrite Hops. simpl.
  unfold wp. by rewrite free_run.
Qed.

Lemma wp_free_null (Q : unit -> world D -> Prop) w :
  w_ops w = default_alloc_ops -> Q tt w -> wp (__mctp_free NULL) Q w.
Proof. intros Hops HQ. unfold __mctp_free. wp_steps. rewrite Hops. done. Qed.

Lemma wp_msg_alloc size mctp (Q : Z -> world D -> Prop) w :
  w_ops w = default_alloc_ops -> mctp <> NULL ->
  (malloc_ok w = true -> Q (w_brk w) (after_malloc size w)) ->
  (malloc_ok w = false -> Q NULL (after_oom w)) ->
  wp (__mctp_msg_alloc size mctp) Q w.
Proof.
  intros Hops Hm H1 H2. unfold __mctp_msg_alloc, mctp_get_alloc_ctx.
  wp_steps. apply wp_mctp_get; [done|]. wp_steps. rewrite Hops. simpl.
  unfold default_msg_malloc. wp_steps. by apply wp_alloc; [|intros; wp_steps; auto..].
Qed.

Lemma wp_msg_free p mctp (Q : unit -> world D -> Prop) w :
  w_ops w = default_alloc_ops -> mctp <> NULL ->
  is_Some (w_heap w !! p) -> w_heap w !! NULL = None ->
  Q tt (after_free p w) -> wp (__mctp_msg_free p mctp) Q w.
Proof.
  intros Hops Hm Hp Hn HQ. unfold __mctp_msg_free, mctp_get_alloc_ctx.
  wp_steps. apply wp_mctp_get; [done|]. wp_steps. rewrite Hops. simpl.
  by apply wp_free.
Qed.
End alloc.

Ltac wp_prim ::=
  lazymatch goal with
  | |- wp (mctp_get _) _ _ => apply wp_mctp_get; [try done|]
  | |- wp (mctp_upd _ _) _ _ => apply wp_mctp_upd; [try done|]
  end.
