(* ===== verification/Pktbuf.v ===== *)
(** * Packet buffers (src/core.c, the mctp_pktbuf functions)

    A [struct mctp_pktbuf] is a window [start, end) into its storage, with room
    in front for a medium header and behind for a trailer.  Pointers into the
    storage are modelled by their offset from [pkt->data]; reads and writes
    through them are checked against the storage actually allocated. *)

From S2P Require Import Prelude State Alloc.

Section pktbuf.
Context {D : Type} `{!ExtAlloc D}.
Local Abbreviation IO := (M (world D)).

(** [binding->pkt_size + binding->pkt_header + binding->pkt_trailer] *)
Definition binding_buf_size (bd : mctp_binding) : Z :=
  bd_pkt_size bd +s bd_pkt_header bd +s bd_pkt_trailer bd.

(** The bytes behind [pkt->data] when a block is used as packet buffer. *)
Definition obj_pkt_data (o : hobj) : option (list Z) :=
  match o with
  | HBytes bs => if decide (offsetof_pktbuf_data <= zlen bs)
                 then Some (drop (Z.to_nat offsetof_pktbuf_data) bs) else None
  | HPkt p => Some (pb_data p)
  end.

Definition mctp_pktbuf_init (binding storage : Z) : IO Z :=
  massert (storage mod 8 = 0);;
  bd ← get_binding binding;
  let size := binding_buf_size bd in
  o ← load_obj storage;
  data ← from_option_or BadAccess (obj_pkt_data o);
  store_obj storage
    (HPkt (mk_pktbuf (bd_pkt_header bd) (bd_pkt_header bd) size (bd_pkt_header bd) false data));;
  mret storage.

Definition mctp_pktbuf_alloc (binding len : Z) : IO Z :=
  bd ← get_binding binding;
  let size := binding_buf_size bd in
  if decide (len > size) then mret NULL else
  storage ← __mctp_alloc (size +s sizeof_mctp_pktbuf);
  if decide (storage = NULL) then mret NULL else
  store_bytes storage 0 (replicate (Z.to_nat (size +s sizeof_mctp_pktbuf)) 0);;
  pkt ← mctp_pktbuf_init binding storage;
  p ← load_pkt pkt;
  store_obj pkt (HPkt (set_pb_end (pb_start p +s len) (set_pb_alloc true p)));;
  mret pkt.

Definition mctp_pktbuf_free (pkt : Z) : IO unit :=
  p ← load_pkt pkt;
  if pb_alloc p then __mctp_free pkt else mret tt.

(** Offsets from [pkt->data]. *)
Definition mctp_pktbuf_hdr (p : mctp_pktbuf) : Z := pb_mctp_hdr_off p.
Definition mctp_pktbuf_data (p : mctp_pktbuf) : Z := pb_mctp_hdr_off p + sizeof_mctp_hdr.

Definition mctp_pktbuf_size (p : mctp_pktbuf) : Z := pb_end p -s pb_start p.

Definition mctp_pktbuf_alloc_start (pkt size : Z) : IO Z :=
  p ← load_pkt pkt;
  massert (size <= pb_start p);;
  store_obj pkt (HPkt (set_pb_start (pb_start p -s size) p));;
  mret (pb_start p -s size).

Definition mctp_pktbuf_alloc_end (pkt size : Z) : IO Z :=
  p ← load_pkt pkt;
  massert (size <= pb_size p -s pb_end p);;
  store_obj pkt (HPkt (set_pb_end (pb_end p +s size) p));;
  mret (pb_end p).

(** [memcpy] from and to [pkt->data + off]. *)
Definition pkt_read (pkt off len : Z) : IO (list Z) :=
  p ← load_pkt pkt;
  if decide (0 <= off /\ 0 <= len /\ off + len <= zlen (pb_data p))
  then mret (slice off len (pb_data p)) else stuck BadAccess.

Definition pkt_write (pkt off : Z) (bs : list Z) : IO unit :=
  p ← load_pkt pkt;
  if decide (0 <= off /\ off + zlen bs <= zlen (pb_data p))
  then store_obj pkt (HPkt (set_pb_data (splice off bs (pb_data p)) p))
  else stuck BadAccess.

(** [data] is the memory the caller's pointer designates. *)
Definition mctp_pktbuf_push (pkt : Z) (data : list Z) (len : Z) : IO Z :=
  p ← load_pkt pkt;
  if decide (pb_end p +s len > pb_size p) then mret (-1) else
  store_obj pkt (HPkt (set_pb_end (pb_end p +s len) p));;
  (if decide (0 <= len <= zlen data) then mret tt else stuck BadAccess);;
  pkt_write pkt (pb_end p) (slice 0 len data);;
  mret 0.

(** Returns the offset of the popped bytes, [None] for [NULL]. *)
Definition mctp_pktbuf_pop (pkt len : Z) : IO (option Z) :=
  p ← load_pkt pkt;
  if decide (len > mctp_pktbuf_size p) then mret None else
  store_obj pkt (HPkt (set_pb_end (pb_end p -s len) p));;
  mret (Some (pb_end p -s len)).

(** The MCTP header of a packet. *)
Definition hdr_of_bytes (bs : list Z) : option mctp_hdr :=
  match bs with [v; d; s; f] => Some (mk_hdr v d s f) | _ => None end.

Definition bytes_of_hdr (h : mctp_hdr) : list Z := [ver h; dest h; src h; flags_seq_tag h].

Definition load_hdr (pkt : Z) : IO mctp_hdr :=
  p ← load_pkt pkt;
  bs ← pkt_read pkt (mctp_pktbuf_hdr p) sizeof_mctp_hdr;
  from_option_or BadAccess (hdr_of_bytes bs).

(** The bytes of a packet from its MCTP header to its end: what a binding
    puts on the wire. *)
Definition pkt_wire (p : mctp_pktbuf) : list Z :=
  slice (mctp_pktbuf_hdr p) (mctp_pktbuf_size p) (pb_data p).

(** ** Runs of the primitives *)

Lemma wp_get_binding b bd (Q : mctp_binding -> world D -> Prop) w :
  w_bindings w !! b = Some bd -> Q bd w -> wp (get_binding b) Q w.
Proof. intros Hb HQ. unfold wp, get_binding. by rewrite Hb. Qed.

Lemma wp_get_bus i b (Q : mctp_bus -> world D -> Prop) w :
  m_busses (w_mctp w) !! i = Some b -> Q b w -> wp (get_bus i) Q w.
Proof. intros Hb HQ. unfold wp, get_bus. by rewrite Hb. Qed.

Lemma wp_load_obj a o (Q : hobj -> world D -> Prop) w :
  w_heap w !! a = Some o -> Q o w -> wp (load_obj a) Q w.
Proof. intros Ho HQ. unfold wp, load_obj. by rewrite Ho. Qed.

Lemma wp_load_pkt a p (Q : mctp_pktbuf -> world D -> Prop) w :
  w_heap w !! a = Some (HPkt p) -> Q p w -> wp (load_pkt a) Q w.
Proof.
  intros Ho HQ. unfold load_pkt. wp_steps. by eapply wp_load_obj; [|apply wp_ret].
Qed.

Lemma wp_pkt_read a p off len (Q : list Z -> world D -> Prop) w :
  w_heap w !! a = Some (HPkt p) ->
  0 <= off -> 0 <= len -> off + len <= zlen (pb_data p) ->
  Q (slice off len (pb_data p)) w -> wp (pkt_read a off len) Q w.
Proof.
  intros Ho ? ? ? HQ. unfold pkt_read. wp_steps. eapply wp_load_pkt; [done|].
  wp_steps. done.
Qed.

Lemma wp_pkt_write a p off bs (Q : unit -> world D -> Prop) w :
  w_heap w !! a = Some (HPkt p) ->
  0 <= off -> off + zlen bs <= zlen (pb_data p) ->
  Q tt (set_w_heap (<[a := HPkt (set_pb_data (splice off bs (pb_data p)) p)]> (w_heap w)) w) ->
  wp (pkt_write a off bs) Q w.
Proof.
  intros Ho ? ? HQ. unfold pkt_write. wp_steps. eapply wp_load_pkt; [done|].
  wp_steps. unfold store_obj. by wp_steps.
Qed.

Lemma slice_4 off (l : list Z) :
  0 <= off -> off + 4 <= zlen l -> exists a b c d, slice off 4 l = [a; b; c; d].
Proof.
  intros. assert (length (slice off 4 l) = 4%nat) as E.
  { pose proof (zlen_slice off 4 l). unfold zlen in *. lia. }
  destruct (slice off 4 l) as [|a [|b [|c [|d [|]]]]]; naive_solver.
Qed.

Lemma wp_load_hdr a p h (Q : mctp_hdr -> world D -> Prop) w :
  w_heap w !! a = Some (HPkt p) ->
  0 <= pb_mctp_hdr_off p -> pb_mctp_hdr_off p + 4 <= zlen (pb_data p) ->
  slice (pb_mctp_hdr_off p) 4 (pb_data p) = bytes_of_hdr h ->
  Q h w -> wp (load_hdr a) Q w.
Proof.
  intros Ho ? ? Hh HQ. unfold load_hdr. wp_steps. eapply wp_load_pkt; [done|]. wp_steps.
  eapply wp_pkt_read; [done|unfold mctp_pktbuf_hdr, sizeof_mctp_hdr; lia..|].
  unfold mctp_pktbuf_hdr, sizeof_mctp_hdr. rewrite Hh. by destruct h.
Qed.
Lemma wp_load_bytes a bs off len (Q : list Z -> world D -> Prop) w :
  w_heap w !! a = Some (HBytes bs) -> 0 <= off -> 0 <= len -> off + len <= zlen bs ->
  Q (slice off len bs) w -> wp (load_bytes a off len) Q w.
Proof.
  intros Ho ? ? ? HQ. unfold load_bytes. wp_steps. eapply wp_load_obj; [done|]. cbn iota beta.
  wp_steps. done.
Qed.

Lemma wp_store_bytes a bs off data (Q : unit -> world D -> Prop) w :
  w_heap w !! a = Some (HBytes bs) -> 0 <= off -> off + zlen data <= zlen bs ->
  Q tt (set_w_heap (<[a := HBytes (splice off data bs)]> (w_heap w)) w) ->
  wp (store_bytes a off data) Q w.
Proof.
  intros Ho ? ? HQ. unfold store_bytes. wp_steps. eapply wp_load_obj; [done|]. cbn iota beta.
  wp_steps. unfold store_obj. by wp_steps.
Qed.

(** ** Well-formed packets *)

(** A packet as a binding hands it up: the window lies in the storage and
    begins with the MCTP header. *)
Definition pkt_wf (p : mctp_pktbuf) : Prop :=
  pb_start p = pb_mctp_hdr_off p /\ 0 <= pb_start p <= pb_end p /\
  pb_end p <= zlen (pb_data p) /\ zlen (pb_data p) < SIZE_MOD.

Definition pkt_payload (p : mctp_pktbuf) : list Z :=
  slice (mctp_pktbuf_data p) (mctp_pktbuf_size p - sizeof_mctp_hdr) (pb_data p).

Lemma pkt_wf_size p : pkt_wf p -> mctp_pktbuf_size p = pb_end p - pb_start p.
Proof. intros (? & ? & ? & ?). apply sz_small. lia. Qed.

Lemma zlen_pkt_wire p : pkt_wf p -> zlen (pkt_wire p) = mctp_pktbuf_size p.
Proof.
  intros Hp. pose proof (pkt_wf_size p Hp). destruct Hp as (? & ? & ? & ?).
  unfold pkt_wire, mctp_pktbuf_hdr. apply zlen_slice; lia.
Qed.

(** A packet of at least a header's length is its header and its payload. *)
Lemma pkt_wire_split p : pkt_wf p -> sizeof_mctp_hdr <= mctp_pktbuf_size p ->
  exists h, slice (pb_mctp_hdr_off p) 4 (pb_data p) = bytes_of_hdr h /\
    pkt_wire p = bytes_of_hdr h ++ pkt_payload p /\
    zlen (pkt_payload p) = mctp_pktbuf_size p - sizeof_mctp_hdr.
Proof.
  intros Hp Hs. pose proof (pkt_wf_size p Hp). destruct Hp as (? & ? & ? & ?).
  unfold sizeof_mctp_hdr in *.
  destruct (slice_4 (pb_mctp_hdr_off p) (pb_data p)) as (a & b & c & d & E); [lia..|].
  exists (mk_hdr a b c d). split; [done|].
  unfold pkt_wire, pkt_payload, mctp_pktbuf_hdr, mctp_pktbuf_data, sizeof_mctp_hdr. split.
  - replace (mctp_pktbuf_size p) with (4 + (mctp_pktbuf_size p - 4)) at 1 by lia.
    rewrite slice_split by lia. by rewrite E.
  - apply zlen_slice; lia.
Qed.

(** A packet buffer just initialised: empty, with room for the headers. *)
Definition pkt_init (bd : mctp_binding) (data : list Z) : mctp_pktbuf :=
  mk_pktbuf (bd_pkt_header bd) (bd_pkt_header bd) (binding_buf_size bd) (bd_pkt_header bd)
    false data.

End pktbuf.


Ltac wp_prim ::=
  lazymatch goal with
  | |- wp (mctp_get _) _ _ => apply wp_mctp_get; [try done|]
  | |- wp (mctp_upd _ _) _ _ => apply wp_mctp_upd; [try done|]
  | |- wp (get_binding _) _ _ => eapply wp_get_binding; [simpl; eassumption|]
  | |- wp (get_bus _) _ _ => eapply wp_get_bus; [simpl; eassumption|]
  | |- wp (load_obj _) _ _ => eapply wp_load_obj; [eassumption|]
  | |- wp (load_pkt _) _ _ => eapply wp_load_pkt; [eassumption|]
  | |- wp (load_bytes _ _ _) _ _ => eapply wp_load_bytes; [simpl; eassumption|..]
  | |- wp (upd_bus _ _) _ _ => apply wp_modify
  | |- wp (upd_binding _ _) _ _ => apply wp_modify
  | |- wp (store_obj _ _) _ _ => apply wp_modify
  | |- wp (emit _) _ _ => apply wp_modify
  | |- wp (massert _) _ _ => apply wp_assert
  | |- wp (deref_bus (Some _)) _ _ => apply wp_ret
  | |- wp (call_target (Some _)) _ _ => apply wp_ret
  | |- wp (from_option_or _ (Some _)) _ _ => apply wp_ret
  end.

Section init.
Context {D : Type} `{!ExtAlloc D}.

Lemma wp_pktbuf_init binding storage bd o data (Q : Z -> world D -> Prop) w :
  storage mod 8 = 0 -> w_bindings w !! binding = Some bd ->
  w_heap w !! storage = Some o -> obj_pkt_data o = Some data ->
  Q storage (set_w_heap (<[storage := HPkt (pkt_init bd data)]> (w_heap w)) w) ->
  wp (mctp_pktbuf_init binding storage) Q w.
Proof.
  intros Ha Hbd Ho Hd HQ. unfold mctp_pktbuf_init. do 2 wp_step; [done|]. do 5 wp_step.
  rewrite Hd. by wp_steps.
Qed.
End init.

(** ** The operations on well-formed buffers *)

(** The window lies in the usable storage. *)
Record pkt_inv (p : mctp_pktbuf) : Prop := {
  pi_window : 0 <= pb_start p <= pb_end p;
  pi_end : pb_end p <= pb_size p;
  pi_size : pb_size p <= zlen (pb_data p);
  pi_bound : zlen (pb_data p) < SIZE_MOD;
  pi_hdr : 0 <= pb_mctp_hdr_off p;
}.

(** The bytes in the window. *)
Definition pkt_window (p : mctp_pktbuf) : list Z :=
  slice (pb_start p) (pb_end p - pb_start p) (pb_data p).

(** A buffer from [mctp_pktbuf_alloc]: a window of [len] zero bytes. *)
Definition pkt_alloced (bd : mctp_binding) (len : Z) : mctp_pktbuf :=
  mk_pktbuf (bd_pkt_header bd) (bd_pkt_header bd +s len) (binding_buf_size bd)
    (bd_pkt_header bd) true (replicate (Z.to_nat (binding_buf_size bd + 7)) 0).

Section specs.
Context {D : Type} `{!ExtAlloc D}.
Implicit Types w : world D.

Definition with_pkt (a : Z) (p : mctp_pktbuf) (w : world D) : world D :=
  set_w_heap (<[a := HPkt p]> (w_heap w)) w.

Lemma drop_zeros (n m : nat) : drop n (replicate m 0) = replicate (m - n) 0.
Proof. apply drop_replicate. Qed.

Lemma wp_pktbuf_alloc binding bd len (Q : Z -> world D -> Prop) w :
  w_ops w = default_alloc_ops -> heap_wf w -> w_bindings w !! binding = Some bd ->
  0 <= binding_buf_size bd -> binding_buf_size bd + sizeof_mctp_pktbuf < SIZE_MOD ->
  (len > binding_buf_size bd -> Q NULL w) ->
  (len <= binding_buf_size bd -> malloc_ok w = false -> Q NULL (after_oom w)) ->
  (len <= binding_buf_size bd -> malloc_ok w = true ->
     Q (w_brk w) (set_w_mallocs (tail (w_mallocs w)) (set_w_brk (w_brk w + 16)
                   (with_pkt (w_brk w) (pkt_alloced bd len) w)))) ->
  wp (mctp_pktbuf_alloc binding len) Q w.
Proof.
  intros Hops Hwf Hbd H0 H1 HN HO HS. unfold mctp_pktbuf_alloc. do 2 wp_step. cbv zeta.
  unfold sizeof_mctp_pktbuf in *. rewrite sz_small by lia.
  case_decide as Hl; [wp_step; by apply HN|]. wp_step.
  destruct Hwf as (Hb & Hb16 & Hdom).
  apply wp_alloc; [done|intros Hok|intros Hok; wp_steps; apply HO; [lia|done]].
  assert (Hbn : w_brk w <> NULL) by (unfold NULL; lia). do 2 wp_step.
  set (n := Z.to_nat (binding_buf_size bd + 40)). unfold after_malloc, fresh_block. fold n.
  eapply wp_store_bytes; [simpl; apply lookup_insert_eq|lia|rewrite !zlen_replicate; lia|].
  wp_step. replace (splice 0 (replicate n 0) (replicate n POISON)) with (replicate n 0).
  2: { unfold splice. simpl. rewrite drop_ge, app_nil_r; [done|].
       rewrite !length_replicate. lia. }
  eapply wp_pktbuf_init; [|exact Hbd|simpl; apply lookup_insert_eq| |].
  { pose proof (Z.div_mod (w_brk w) 16). apply Z.mod_divide; [lia|].
    exists (2 * (w_brk w / 16)). lia. }
  { unfold obj_pkt_data, offsetof_pktbuf_data. rewrite decide_True by (rewrite zlen_replicate; lia).
    by rewrite drop_zeros. }
  wp_step. eapply wp_load_pkt; [simpl; apply lookup_insert_eq|]. do 3 wp_step. simpl.
  rewrite !insert_insert_eq. specialize (HS ltac:(lia) Hok).
  unfold pkt_alloced, with_pkt, set_w_heap in *. simpl in *.
  replace (n - Z.to_nat 33)%nat with (Z.to_nat (binding_buf_size bd + 7)) by lia. exact HS.
Qed.

(** Allocating a packet buffer: [NULL] exactly when the length exceeds what
    the binding provides for or memory is lacking, without effect on live
    memory; otherwise a fresh buffer with a zeroed window of the length asked
    for behind the room for the binding's header. *)
Theorem mctp_pktbuf_alloc_spec binding bd len w :
  w_ops w = default_alloc_ops -> heap_wf w -> w_bindings w !! binding = Some bd ->
  0 <= bd_pkt_header bd -> bd_pkt_header bd + len < SIZE_MOD -> 0 <= len ->
  0 <= binding_buf_size bd -> binding_buf_size bd + sizeof_mctp_pktbuf < SIZE_MOD ->
  exists a w', mctp_pktbuf_alloc binding len w = Ok a w' /\
    (forall b, w_heap w !! b <> None -> w_heap w' !! b = w_heap w !! b) /\
    if decide (len <= binding_buf_size bd /\ malloc_ok w = true) then
      a <> NULL /\ w_heap w !! a = None /\ exists p, w_heap w' !! a = Some (HPkt p) /\
        pb_start p = bd_pkt_header bd /\ mctp_pktbuf_size p = len /\ pb_alloc p = true /\
        (bd_pkt_header bd + len <= binding_buf_size bd + 7 ->
         pkt_window p = replicate (Z.to_nat len) 0)
    else a = NULL.
Proof.
  intros Hops Hwf Hbd Hh Hhl Hl H0 H1.
  assert (Hwp : wp (mctp_pktbuf_alloc binding len) (fun a w' =>
    (forall b, w_heap w !! b <> None -> w_heap w' !! b = w_heap w !! b) /\
    if decide (len <= binding_buf_size bd /\ malloc_ok w = true) then
      a = w_brk w /\ w_heap w' !! a = Some (HPkt (pkt_alloced bd len))
    else a = NULL) w).
  { eapply wp_pktbuf_alloc; [done..| | |].
    - intros. split; [done|]. by rewrite decide_False by lia.
    - intros ? E. split; [done|]. rewrite decide_False by (rewrite E; naive_solver). done.
    - intros ? E. split.
      + intros b Hb. simpl. rewrite lookup_insert_ne; [done|]. intros <-.
        by rewrite heap_wf_fresh in Hb.
      + rewrite decide_True by done. split; [done|]. simpl. apply lookup_insert_eq. }
  destruct (wp_inv _ _ _ Hwp) as (a & w' & Hrun & Hframe & Hres).
  exists a, w'. split; [done|]. split; [done|]. case_decide as Hd; [|done].
  destruct Hres as [-> Hp]. split; [destruct Hwf; unfold NULL; lia|].
  split; [by apply heap_wf_fresh|]. eexists. split; [exact Hp|]. split; [done|].
  unfold mctp_pktbuf_size, pkt_window. simpl. rewrite (sz_small (_ + len)) by lia.
  split; [rewrite sz_small; lia|]. split; [done|]. intros Hfit.
  replace (bd_pkt_header bd + len - bd_pkt_header bd) with len by lia.
  unfold slice. rewrite drop_zeros, take_replicate. f_equal. lia.
Qed.

(** The buffer with [bs] appended to its window. *)
Definition pkt_append (bs : list Z) (p : mctp_pktbuf) : mctp_pktbuf :=
  mk_pktbuf (pb_start p) (pb_end p + zlen bs) (pb_size p) (pb_mctp_hdr_off p) (pb_alloc p)
    (splice (pb_end p) bs (pb_data p)).

Lemma pktbuf_push_run a p data len w :
  w_heap w !! a = Some (HPkt p) -> pkt_inv p -> 0 <= len <= zlen data ->
  pb_end p + len < SIZE_MOD ->
  mctp_pktbuf_push a data len w =
    if decide (pb_end p + len <= pb_size p)
    then Ok 0 (with_pkt a (pkt_append (slice 0 len data) p) w) else Ok (-1) w.
Proof.
  intros Ha [W1 W2 W3 W4 W5] Hl Hov. apply wp_run_eq. unfold mctp_pktbuf_push.
  do 2 wp_step. rewrite sz_small by lia.
  assert (Hz : zlen (slice 0 len data) = len) by (apply zlen_slice; lia).
  destruct (decide (pb_end p + len <= pb_size p)); [|by wp_steps].
  do 7 wp_step. eapply wp_pkt_write; [simpl; apply lookup_insert_eq|simpl; lia..|].
  wp_step. f_equal. unfold with_pkt, set_w_heap, pkt_append. rewrite Hz. simpl.
  by rewrite insert_insert_eq.
Qed.

(** [mctp_pktbuf_push] appends to the window when the bytes fit and refuses
    them with -1, without effect, when they do not; the buffer stays well
    formed. *)
Theorem mctp_pktbuf_push_spec a p data len w :
  w_heap w !! a = Some (HPkt p) -> pkt_inv p -> 0 <= len <= zlen data ->
  pb_end p + len < SIZE_MOD ->
  if decide (pb_end p + len <= pb_size p) then
    exists p', mctp_pktbuf_push a data len w = Ok 0 (with_pkt a p' w) /\ pkt_inv p' /\
      pkt_window p' = pkt_window p ++ slice 0 len data
  else mctp_pktbuf_push a data len w = Ok (-1) w.
Proof.
  intros Ha Hp Hl Hov. rewrite (pktbuf_push_run a p) by done.
  case_decide as Hfit; [|done]. destruct Hp as [W1 W2 W3 W4 W5].
  assert (Hz : zlen (slice 0 len data) = len) by (apply zlen_slice; lia).
  eexists. split; [done|]. split; [split; simpl; rewrite ?zlen_splice; lia|].
  unfold pkt_window, pkt_append. simpl. rewrite Hz.
  replace (pb_end p + len - pb_start p) with ((pb_end p - pb_start p) + len) by lia.
  rewrite slice_split by lia.
  replace (pb_start p + (pb_end p - pb_start p)) with (pb_end p) by lia.
  rewrite <- Hz at 2. rewrite slice_splice_eq by lia. f_equal.
  apply slice_splice_below; lia.
Qed.

(** [mctp_pktbuf_pop] takes bytes off the end of the window: it returns where
    they are, or [NULL] when the window is shorter. *)
Theorem mctp_pktbuf_pop_spec a p len w :
  w_heap w !! a = Some (HPkt p) -> pkt_inv p -> 0 <= len ->
  if decide (len <= pb_end p - pb_start p) then
    exists p', mctp_pktbuf_pop a len w = Ok (Some (pb_end p - len)) (with_pkt a p' w) /\
      pkt_inv p' /\ pkt_window p = pkt_window p' ++ slice (pb_end p - len) len (pb_data p)
  else mctp_pktbuf_pop a len w = Ok None w.
Proof.
  intros Ha [W1 W2 W3 W4 W5] Hl.
  assert (Hsz : mctp_pktbuf_size p = pb_end p - pb_start p) by (apply sz_small; lia).
  case_decide as Hfit.
  - exists (set_pb_end (pb_end p - len) p). split; [|split].
    + apply wp_run_eq. unfold mctp_pktbuf_pop. do 2 wp_step. rewrite Hsz. wp_steps.
      rewrite sz_small by lia. done.
    + split; simpl; lia.
    + unfold pkt_window. simpl.
      replace (pb_end p - pb_start p) with ((pb_end p - len - pb_start p) + len) at 1 by lia.
      rewrite slice_split by lia. do 2 f_equal. lia.
  - apply wp_run_eq. unfold mctp_pktbuf_pop. do 2 wp_step. rewrite Hsz. by wp_steps.
Qed.
End specs.
