(* ===== verification/Reasm.v ===== *)
(** * Message reassembly contexts (src/core.c, the mctp_msg_ctx functions)

    The table of partially received messages.  A context is designated by its
    index in [mctp->msg_ctxs]. *)

From S2P Require Import Prelude State Alloc Pktbuf.

Section reasm.
Context {D : Type} `{!ExtAlloc D}.
Local Abbreviation IO := (M (world D)).

(** Allocate a duplicate of the message and copy it.  [rd] is the read of
    [msg_len] bytes that [memcpy] makes at the caller's pointer. *)
Definition mctp_msg_dup (rd : IO (list Z)) (msg_len mctp : Z) : IO Z :=
  copy ← __mctp_msg_alloc msg_len mctp;
  if decide (copy = NULL) then mret NULL else
  bs ← rd;
  store_bytes copy 0 bs;;
  mret copy.

Definition get_ctx (i : nat) : IO mctp_msg_ctx := fun w =>
  match m_msg_ctxs (w_mctp w) !! i with Some c => Ok c w | None => Stuck BadAccess end.

Definition upd_ctx (i : nat) (f : mctp_msg_ctx -> mctp_msg_ctx) : IO unit :=
  modify (fun w => set_w_mctp
    (set_m_msg_ctxs (alter f i (m_msg_ctxs (w_mctp w))) (w_mctp w)) w).

Definition ctx_key (c : mctp_msg_ctx) : Z * Z * Z := (mc_src c, mc_dest c, mc_tag c).

Definition ctx_live (c : mctp_msg_ctx) : Prop := mc_buf c <> NULL.
#[export] Instance ctx_live_dec c : Decision (ctx_live c).
Proof. unfold ctx_live. apply _. Defined.

(** The searches of [mctp_msg_ctx_lookup] and [mctp_msg_ctx_create]. *)
Definition find_ctx (k : Z * Z * Z) (cs : list mctp_msg_ctx) : option nat :=
  fst <$> list_find (fun c => ctx_live c /\ ctx_key c = k) cs.

Definition find_free_ctx (cs : list mctp_msg_ctx) : option nat :=
  fst <$> list_find (fun c => ~ ctx_live c) cs.

Definition mctp_msg_ctx_lookup (mctp src dest tag : Z) : IO (option nat) :=
  m ← mctp_get mctp;
  mret (find_ctx (src, dest, tag) (m_msg_ctxs m)).

Definition mctp_msg_ctx_create (mctp src dest tag : Z) : IO (option nat) :=
  m ← mctp_get mctp;
  match find_free_ctx (m_msg_ctxs m) with
  | None => mret None
  | Some i =>
      upd_ctx i (fun c => set_mc_buf_alloc_size (m_max_message_size m)
        (set_mc_buf_size 0 (set_mc_tag tag (set_mc_dest dest (set_mc_src src c)))));;
      buf ← __mctp_msg_alloc (m_max_message_size m) mctp;
      upd_ctx i (set_mc_buf buf);;
      if decide (buf = NULL) then mret None else mret (Some i)
  end.

Definition mctp_msg_ctx_drop (bus : nat) (ctx : nat) : IO unit :=
  b ← get_bus bus;
  c ← get_ctx ctx;
  __mctp_msg_free (mc_buf c) (bus_mctp b);;
  upd_ctx ctx (set_mc_buf NULL).

Definition mctp_msg_ctx_reset (ctx : nat) : IO unit :=
  upd_ctx ctx (fun c => set_mc_fragment_size 0 (set_mc_buf_size 0 c)).

Definition mctp_msg_ctx_add_pkt (ctx : nat) (pkt : Z) : IO Z :=
  c ← get_ctx ctx;
  p ← load_pkt pkt;
  let len := mctp_pktbuf_size p -s sizeof_mctp_hdr in
  if decide (len +s mc_buf_size c < mc_buf_size c) then mret (-1) else
  if decide (mc_buf_size c +s len > mc_buf_alloc_size c) then mret (-1) else
  bs ← pkt_read pkt (mctp_pktbuf_data p) len;
  store_bytes (mc_buf c) (mc_buf_size c) bs;;
  upd_ctx ctx (set_mc_buf_size (mc_buf_size c +s len));;
  mret 0.
End reasm.

(** ** The table as a finite map

    Abstractly, the table maps the (source, destination, tag) of a message being
    received to what has arrived of it. *)

Abbreviation rkey := (Z * Z * Z)%type.

Record partial := mk_partial {
  p_data : list Z;  (* the bytes received so far *)
  p_cap : Z;        (* the size of the buffer *)
  p_frag : Z;       (* the size of the first packet *)
  p_seq : Z;        (* the last sequence number *)
}.

Definition partial_of (bs : list Z) (c : mctp_msg_ctx) : partial :=
  mk_partial (slice 0 (mc_buf_size c) bs) (mc_buf_alloc_size c) (mc_fragment_size c)
    (mc_last_seq c).

(** What the context [c] stands for, its buffer being in the heap [h]. *)
Definition ctx_is (h : gmap Z hobj) (c : mctp_msg_ctx) (p : partial) : Prop :=
  exists bs, h !! mc_buf c = Some (HBytes bs) /\ p = partial_of bs c.

Definition ctx_ok (h F : gmap Z hobj) (c : mctp_msg_ctx) : Prop :=
  exists bs, h !! mc_buf c = Some (HBytes bs) /\ zlen bs = mc_buf_alloc_size c /\
    0 <= mc_buf_size c <= mc_buf_alloc_size c /\ mc_buf_alloc_size c < SIZE_MOD /\
    F !! mc_buf c = None.

(** [reasm_rep h cs F r]: the contexts [cs] represent the map [r]; the heap [h]
    consists of the contexts' buffers, one for each, and of the rest [F]. *)
Record reasm_rep (h : gmap Z hobj) (cs : list mctp_msg_ctx) (F : gmap Z hobj)
    (r : gmap rkey partial) : Prop := {
  rr_len : length cs = Z.to_nat MCTP_REASSEMBLY_CTXS;
  rr_ctx : forall i c, cs !! i = Some c -> ctx_live c -> ctx_ok h F c;
  rr_inj : forall i j c d, cs !! i = Some c -> cs !! j = Some d ->
    ctx_live c -> mc_buf c = mc_buf d -> i = j;
  rr_uniq : forall i j c d, cs !! i = Some c -> cs !! j = Some d ->
    ctx_live c -> ctx_live d -> ctx_key c = ctx_key d -> i = j;
  rr_frame : forall a, (forall i c, cs !! i = Some c -> ctx_live c -> mc_buf c <> a) ->
    h !! a = F !! a;
  rr_map : forall k p, r !! k = Some p <->
    exists i c, cs !! i = Some c /\ ctx_live c /\ ctx_key c = k /\ ctx_is h c p;
}.

Section rep.
Implicit Types (h F : gmap Z hobj) (cs : list mctp_msg_ctx) (r : gmap rkey partial).

Lemma rep_lookup h cs F r i c :
  reasm_rep h cs F r -> cs !! i = Some c -> ctx_live c ->
  exists bs, h !! mc_buf c = Some (HBytes bs) /\ r !! ctx_key c = Some (partial_of bs c) /\
    zlen bs = mc_buf_alloc_size c /\ 0 <= mc_buf_size c <= mc_buf_alloc_size c /\
    mc_buf_alloc_size c < SIZE_MOD.
Proof.
  intros H Hi Hl. destruct (rr_ctx _ _ _ _ H i c Hi Hl) as (bs & Hbs & Hz & Hs & Ha & _).
  exists bs. split; [done|]. split; [|done]. apply (rr_map _ _ _ _ H).
  exists i, c. split; [done|]. split; [done|]. split; [done|]. by exists bs.
Qed.

(** A table of free contexts represents the empty map. *)
Lemma rep_empty h cs :
  length cs = Z.to_nat MCTP_REASSEMBLY_CTXS -> Forall (fun c => ~ ctx_live c) cs ->
  reasm_rep h cs h ∅.
Proof.
  intros Hn Hf. rewrite Forall_lookup in Hf. split; [done|..].
  - intros i c Hi Hl. by destruct (Hf i c Hi).
  - intros i j c d Hi _ Hl. by destruct (Hf i c Hi).
  - intros i j c d Hi _ Hl. by destruct (Hf i c Hi).
  - done.
  - intros k p. rewrite lookup_empty. split; [done|]. intros (i & c & Hi & Hl & _).
    by destruct (Hf i c Hi).
Qed.

(** The search finds the context of a key exactly when the map has it. *)
Lemma find_ctx_spec h cs F r k :
  reasm_rep h cs F r ->
  match find_ctx k cs with
  | Some i => exists c, cs !! i = Some c /\ ctx_live c /\ ctx_key c = k /\ is_Some (r !! k)
  | None => r !! k = None
  end.
Proof.
  intros H. unfold find_ctx. destruct (list_find _ cs) as [[i c]|] eqn:E; simpl.
  - apply list_find_Some in E as (Hi & (Hl & Hk) & _). exists c. split; [done|].
    split; [done|]. split; [done|].
    destruct (rep_lookup _ _ _ _ i c H Hi Hl) as (bs & _ & Hr & _). subst k. eauto.
  - apply list_find_None in E. rewrite Forall_lookup in E.
    destruct (r !! k) as [p|] eqn:Hr; [|done]. exfalso.
    apply (rr_map _ _ _ _ H) in Hr as (i & c & Hi & Hl & Hk & _). by apply (E i c Hi).
Qed.

Lemma find_free_ctx_Some cs i :
  find_free_ctx cs = Some i -> exists c, cs !! i = Some c /\ ~ ctx_live c.
Proof.
  unfold find_free_ctx. destruct (list_find _ cs) as [[j c]|] eqn:E; intros [= ->].
  apply list_find_Some in E as (Hi & Hl & _). eauto.
Qed.

(** The other live contexts of the table. *)
Definition other_ctx cs (i : nat) (d : mctp_msg_ctx) : Prop :=
  exists j, j <> i /\ cs !! j = Some d /\ ctx_live d.

Lemma other_ctx_distinct h cs F r i c d :
  reasm_rep h cs F r -> cs !! i = Some c -> ctx_live c -> other_ctx cs i d ->
  mc_buf d <> mc_buf c /\ ctx_key d <> ctx_key c.
Proof.
  intros H Hi Hl (j & Hne & Hj & Hd). split; intros E; apply Hne.
  - by apply (rr_inj _ _ _ _ H j i d c).
  - by apply (rr_uniq _ _ _ _ H j i d c).
Qed.

(** One slot of the table changes, from [c] to [c'], and the heap and the map
    with it. *)
Lemma rep_change h cs F r i c c' h' r' :
  reasm_rep h cs F r -> cs !! i = Some c ->
  (forall d, other_ctx cs i d -> h' !! mc_buf d = h !! mc_buf d) ->
  (forall d, other_ctx cs i d -> ctx_live c' ->
     mc_buf d <> mc_buf c' /\ ctx_key d <> ctx_key c') ->
  (ctx_live c' -> ctx_ok h' F c') ->
  (forall a, (forall d, other_ctx cs i d -> mc_buf d <> a) ->
     (ctx_live c' -> mc_buf c' <> a) -> h' !! a = F !! a) ->
  (forall k p, r' !! k = Some p <->
     ctx_live c' /\ k = ctx_key c' /\ ctx_is h' c' p \/
     r !! k = Some p /\ ~ (ctx_live c /\ k = ctx_key c)) ->
  reasm_rep h' (<[i := c']> cs) F r'.
Proof.
  intros H Hi Hother Hdist Hok Hframe Hmap.
  assert (Hlt : (i < length cs)%nat) by by eapply lookup_lt_Some.
  assert (Hcase : forall j d, <[i := c']> cs !! j = Some d -> ctx_live d ->
            j = i /\ d = c' \/ j <> i /\ cs !! j = Some d /\ other_ctx cs i d).
  { intros j d Hj Hd. apply list_lookup_insert_Some in Hj as [(<- & <- & _)|[Hne Hj]];
      [by left|].
    right. split; [done|]. split; [done|]. by exists j. }
  assert (Hback : forall d, other_ctx cs i d -> exists j, <[i := c']> cs !! j = Some d /\ ctx_live d).
  { intros d (j & Hne & Hj & Hd). exists j. by rewrite list_lookup_insert_ne. }
  split.
  - rewrite length_insert. apply (rr_len _ _ _ _ H).
  - intros j d Hj Hd. destruct (Hcase j d Hj Hd) as [[-> ->]|(Hne & Hj' & Ho)]; [auto|].
    destruct (rr_ctx _ _ _ _ H j d Hj' Hd) as (bs & Hbs & ?). exists bs. by rewrite Hother.
  - intros j k d e Hj Hk Hd E.
    assert (He : ctx_live e) by (unfold ctx_live; by rewrite <- E).
    destruct (Hcase j d Hj Hd) as [[-> ->]|(Hne & Hj' & Ho)];
    destruct (Hcase k e Hk He) as [[-> ->]|(Hne' & Hk' & Ho')]; [done|..].
    + destruct (Hdist e Ho' Hd). congruence.
    + destruct (Hdist d Ho He). congruence.
    + by apply (rr_inj _ _ _ _ H j k d e).
  - intros j k d e Hj Hk Hd He E.
    destruct (Hcase j d Hj Hd) as [[-> ->]|(Hne & Hj' & Ho)];
    destruct (Hcase k e Hk He) as [[-> ->]|(Hne' & Hk' & Ho')]; [done|..].
    + destruct (Hdist e Ho' Hd). congruence.
    + destruct (Hdist d Ho He). congruence.
    + by apply (rr_uniq _ _ _ _ H j k d e).
  - intros a Hno. apply Hframe.
    + intros d Ho. destruct (Hback d Ho) as (j & Hj & Hd). by apply (Hno j).
    + intros Hl. apply (Hno i); [by apply list_lookup_insert_eq|done].
  - intros k p. rewrite Hmap, (rr_map _ _ _ _ H). split.
    + intros [(Hl & -> & Hc)|[(j & d & Hj & Hd & <- & bs & Hbs & ->) Hnc]].
      * exists i, c'. by rewrite list_lookup_insert_eq.
      * assert (Ho : j <> i) by (intros ->; apply Hnc; split; congruence).
        exists j, d. rewrite list_lookup_insert_ne by done. do 3 (split; [done|]).
        exists bs. rewrite Hother; [done|]. by exists j.
    + intros (j & d & Hj & Hd & <- & Hc).
      destruct (Hcase j d Hj Hd) as [[-> ->]|(Hne & Hj' & Ho)]; [by left|]. right. split.
      * exists j, d. do 3 (split; [done|]). destruct Hc as (bs & Hbs & ->).
        exists bs. by rewrite <- Hother.
      * intros [Hl E]. by apply (other_ctx_distinct _ _ _ _ _ c d H Hi Hl Ho).
Qed.

(** A live context changes: its fields, its bytes, not its buffer or key. *)
Lemma rep_update h cs F r i c c' bs' :
  reasm_rep h cs F r -> cs !! i = Some c -> ctx_live c ->
  mc_buf c' = mc_buf c -> ctx_key c' = ctx_key c ->
  mc_buf_alloc_size c' = mc_buf_alloc_size c ->
  zlen bs' = mc_buf_alloc_size c -> 0 <= mc_buf_size c' <= mc_buf_alloc_size c ->
  reasm_rep (<[mc_buf c := HBytes bs']> h) (<[i := c']> cs) F
    (<[ctx_key c := partial_of bs' c']> r).
Proof.
  intros H Hi Hl Eb Ek Ea Ez Es.
  destruct (rr_ctx _ _ _ _ H i c Hi Hl) as (bs & Hbs & Hz & Hs & Ha & HF).
  assert (Hl' : ctx_live c') by (unfold ctx_live; by rewrite Eb).
  pose proof (fun d => other_ctx_distinct _ _ _ _ i c d H Hi Hl) as Hd.
  apply (rep_change h cs F r i c c' _ _ H Hi).
  - intros d Ho. rewrite lookup_insert_ne; [done|]. symmetry. by apply Hd.
  - intros d Ho _. rewrite Eb, Ek. by apply Hd.
  - intros _. exists bs'. by rewrite Eb, Ea, lookup_insert_eq.
  - intros a Ho Hc. rewrite Eb in Hc. rewrite lookup_insert_ne by auto.
    apply (rr_frame _ _ _ _ H). intros j d Hj Hdl. destruct (decide (j = i)) as [->|Hne].
    + replace d with c by congruence. auto.
    + apply Ho. by exists j.
  - intros k p. rewrite Ek. unfold ctx_is. rewrite Eb, lookup_insert_eq, lookup_insert.
    case_decide; naive_solver.
Qed.

(** A free slot becomes live on a fresh block. *)
Lemma rep_new h cs F r i c c' a bs :
  reasm_rep h cs F r -> cs !! i = Some c -> ~ ctx_live c ->
  h !! a = None -> a <> NULL -> mc_buf c' = a -> r !! ctx_key c' = None ->
  zlen bs = mc_buf_alloc_size c' -> 0 <= mc_buf_size c' <= mc_buf_alloc_size c' ->
  mc_buf_alloc_size c' < SIZE_MOD ->
  reasm_rep (<[a := HBytes bs]> h) (<[i := c']> cs) F (<[ctx_key c' := partial_of bs c']> r).
Proof.
  intros H Hi Hdead Ha Hnull Eb Hk Ez Es Hm.
  assert (Hbuf : forall j d, cs !! j = Some d -> ctx_live d -> mc_buf d <> a).
  { intros j d Hj Hd E. destruct (rr_ctx _ _ _ _ H j d Hj Hd) as (? & ? & _). congruence. }
  apply (rep_change h cs F r i c c' _ _ H Hi).
  - intros d (j & _ & Hj & Hd). rewrite lookup_insert_ne; [done|]. symmetry. by eapply Hbuf.
  - intros d (j & _ & Hj & Hd) _. rewrite Eb. split; [by eapply Hbuf|]. intros E.
    destruct (rep_lookup _ _ _ _ j d H Hj Hd) as (? & _ & ? & _). congruence.
  - intros _. exists bs. rewrite Eb, lookup_insert_eq. do 4 (split; [done|]).
    rewrite <- (rr_frame _ _ _ _ H); eauto.
  - intros b Ho Hc. rewrite lookup_insert_ne.
    + apply (rr_frame _ _ _ _ H). intros j d Hj Hd. destruct (decide (j = i)) as [->|Hne].
      * exfalso. apply Hdead. by replace c with d by congruence.
      * apply Ho. by exists j.
    + rewrite <- Eb. apply Hc. unfold ctx_live. congruence.
  - intros k p. unfold ctx_is. rewrite Eb, lookup_insert_eq, lookup_insert.
    unfold ctx_live. rewrite Eb. case_decide; naive_solver.
Qed.

(** A live context is released, with its block. *)
Lemma rep_drop h cs F r i c :
  reasm_rep h cs F r -> cs !! i = Some c -> ctx_live c ->
  reasm_rep (delete (mc_buf c) h) (<[i := set_mc_buf NULL c]> cs) F (delete (ctx_key c) r).
Proof.
  intros H Hi Hl. destruct (rr_ctx _ _ _ _ H i c Hi Hl) as (bs & Hbs & Hz & Hs & Ha & HF).
  pose proof (fun d => other_ctx_distinct _ _ _ _ i c d H Hi Hl) as Hd.
  assert (Hdead : ~ ctx_live (set_mc_buf NULL c)) by (intros E; by apply E).
  apply (rep_change h cs F r i c (set_mc_buf NULL c) _ _ H Hi).
  - intros d Ho. rewrite lookup_delete_ne; [done|]. symmetry. by apply Hd.
  - done.
  - done.
  - intros a Ho _. rewrite lookup_delete. case_decide as E; [by subst|].
    apply (rr_frame _ _ _ _ H). intros j d Hj Hdl. destruct (decide (j = i)) as [->|Hne].
    + congruence.
    + apply Ho. by exists j.
  - intros k p. rewrite lookup_delete. case_decide; naive_solver.
Qed.

(** A free slot may hold anything in its other fields. *)
Lemma rep_dead h cs F r i c c' :
  reasm_rep h cs F r -> cs !! i = Some c -> ~ ctx_live c -> ~ ctx_live c' ->
  reasm_rep h (<[i := c']> cs) F r.
Proof.
  intros H Hi Hl Hl'. apply (rep_change h cs F r i c c' _ _ H Hi); [done..| |].
  - intros a Ho _. apply (rr_frame _ _ _ _ H). intros j d Hj Hdl.
    destruct (decide (j = i)) as [->|Hne].
    + exfalso. apply Hl. by replace c with d by congruence.
    + apply Ho. by exists j.
  - naive_solver.
Qed.

(** Blocks that no context owns come, go and change. *)
Lemma rep_agree h cs F r h' F' :
  reasm_rep h cs F r ->
  (forall i c, cs !! i = Some c -> ctx_live c ->
     h' !! mc_buf c = h !! mc_buf c /\ F' !! mc_buf c = None) ->
  (forall a, (forall i c, cs !! i = Some c -> ctx_live c -> mc_buf c <> a) -> h' !! a = F' !! a) ->
  reasm_rep h' cs F' r.
Proof.
  intros H Hbuf Hrest. split; [apply H| |apply H|apply H|done|].
  - intros i c Hi Hl. destruct (rr_ctx _ _ _ _ H i c Hi Hl) as (bs & ? & ? & ? & ? & _).
    destruct (Hbuf i c Hi Hl) as [E1 E2]. exists bs. by rewrite E1.
  - intros k p. rewrite (rr_map _ _ _ _ H). unfold ctx_is.
    split; intros (i & c & Hi & Hl & Hk & bs & Hbs & ->); exists i, c;
      (do 3 (split; [done|])); exists bs; (split; [|done]);
      destruct (Hbuf i c Hi Hl) as [E1 _]; congruence.
Qed.

Lemma rep_buf h cs F r i c a :
  reasm_rep h cs F r -> cs !! i = Some c -> ctx_live c -> h !! a = None \/ is_Some (F !! a) ->
  mc_buf c <> a.
Proof.
  intros H Hi Hl Ha E. destruct (rr_ctx _ _ _ _ H i c Hi Hl) as (bs & E1 & _ & _ & _ & E2).
  rewrite E in E1, E2. destruct Ha as [?|[? ?]]; congruence.
Qed.

Lemma rep_frame h cs F r a o :
  reasm_rep h cs F r -> h !! a = None -> reasm_rep (<[a := o]> h) cs (<[a := o]> F) r.
Proof.
  intros H Ha. apply (rep_agree h cs F r _ _ H).
  - intros i c Hi Hl. pose proof (rep_buf _ _ _ _ _ _ a H Hi Hl ltac:(by left)).
    destruct (rr_ctx _ _ _ _ H i c Hi Hl) as (_ & _ & _ & _ & _ & E).
    by rewrite !lookup_insert_ne.
  - intros b Hb. rewrite !lookup_insert. case_decide; [done|]. by apply (rr_frame _ _ _ _ H).
Qed.

Lemma rep_unframe h cs F r a :
  reasm_rep h cs F r -> is_Some (F !! a) -> reasm_rep (delete a h) cs (delete a F) r.
Proof.
  intros H Ha. apply (rep_agree h cs F r _ _ H).
  - intros i c Hi Hl. pose proof (rep_buf _ _ _ _ _ _ a H Hi Hl ltac:(by right)).
    destruct (rr_ctx _ _ _ _ H i c Hi Hl) as (_ & _ & _ & _ & _ & E).
    by rewrite !lookup_delete_ne.
  - intros b Hb. rewrite !lookup_delete. case_decide; [done|]. by apply (rr_frame _ _ _ _ H).
Qed.

(** Two blocks outside the contexts change. *)
Lemma rep_change_two h cs F r h' a b :
  reasm_rep h cs F r -> h !! a = None \/ is_Some (F !! a) -> h !! b = None \/ is_Some (F !! b) ->
  (forall x, x <> a -> x <> b -> h' !! x = h !! x) ->
  exists F', reasm_rep h' cs F' r /\ F' !! a = h' !! a /\ F' !! b = h' !! b /\
    forall x, x <> a -> x <> b -> F' !! x = F !! x.
Proof.
  intros H Ha Hb Hrest.
  exists (partial_alter (fun _ => h' !! a) a (partial_alter (fun _ => h' !! b) b F)).
  split; [|split; [by rewrite lookup_partial_alter_eq|split]].
  2: { destruct (decide (a = b)) as [->|]; [by rewrite lookup_partial_alter_eq|].
       by rewrite lookup_partial_alter_ne, lookup_partial_alter_eq. }
  2: { intros x Hxa Hxb. by rewrite !lookup_partial_alter_ne by done. }
  apply (rep_agree h cs F r _ _ H).
  - intros i c Hi Hl. pose proof (rep_buf _ _ _ _ _ _ a H Hi Hl Ha).
    pose proof (rep_buf _ _ _ _ _ _ b H Hi Hl Hb).
    destruct (rr_ctx _ _ _ _ H i c Hi Hl) as (_ & _ & _ & _ & _ & E).
    by rewrite !lookup_partial_alter_ne, Hrest by done.
  - intros x Hx. destruct (decide (x = a)) as [->|Hxa]; [by rewrite lookup_partial_alter_eq|].
    rewrite lookup_partial_alter_ne by done.
    destruct (decide (x = b)) as [->|Hxb]; [by rewrite lookup_partial_alter_eq|].
    rewrite lookup_partial_alter_ne, Hrest by done. by apply (rr_frame _ _ _ _ H).
Qed.
End rep.

(** ** Free contexts and the size of the map *)
Section slots.
Implicit Types (h F : gmap Z hobj) (cs : list mctp_msg_ctx) (r : gmap rkey partial).

Lemma rep_dom h cs F r :
  reasm_rep h cs F r -> dom r = list_to_set (ctx_key <$> filter ctx_live cs).
Proof.
  intros H. apply set_eq. intros k. rewrite elem_of_dom, elem_of_list_to_set, list_elem_of_fmap.
  split.
  - intros [p Hp]. apply (rr_map _ _ _ _ H) in Hp as (i & c & Hi & Hl & <- & _).
    exists c. split; [done|]. apply list_elem_of_filter.
    split; [done|by eapply list_elem_of_lookup_2].
  - intros (c & -> & Hc). apply list_elem_of_filter in Hc as [Hl Hc].
    apply list_elem_of_lookup in Hc as [i Hi].
    destruct (rep_lookup _ _ _ _ i c H Hi Hl) as (bs & _ & ? & _). eauto.
Qed.

Lemma live_NoDup {A} (f : mctp_msg_ctx -> A) cs :
  (forall i j c d, cs !! i = Some c -> cs !! j = Some d ->
     ctx_live c -> ctx_live d -> f c = f d -> i = j) ->
  NoDup (f <$> filter ctx_live cs).
Proof.
  induction cs as [|c cs IH]; intros Hu; [constructor|].
  assert (Hu' : NoDup (f <$> filter ctx_live cs)).
  { apply IH. intros i j d e Hi Hj. intros. assert (S i = S j); [|lia].
    by apply (Hu (S i) (S j) d e). }
  rewrite filter_cons. case_decide as Hl; [|done]. rewrite fmap_cons. constructor; [|done].
  rewrite list_elem_of_fmap. intros (d & Hk & Hd).
  apply list_elem_of_filter in Hd as [Hdl Hd]. apply list_elem_of_lookup in Hd as [j Hj].
  assert (0%nat = S j); [|done]. by apply (Hu 0%nat (S j) c d).
Qed.

Lemma rep_size h cs F r : reasm_rep h cs F r -> size r = length (filter ctx_live cs).
Proof.
  intros H. rewrite <- size_dom, (rep_dom _ _ _ _ H), size_list_to_set, length_fmap; [done|].
  apply (live_NoDup ctx_key), (rr_uniq _ _ _ _ H).
Qed.

(** A context is free exactly while fewer than 16 messages are being
    received. *)
Lemma find_free_ctx_spec h cs F r :
  reasm_rep h cs F r ->
  match find_free_ctx cs with
  | Some i => Z.of_nat (size r) < MCTP_REASSEMBLY_CTXS /\ exists c, cs !! i = Some c /\ ~ ctx_live c
  | None => Z.of_nat (size r) = MCTP_REASSEMBLY_CTXS
  end.
Proof.
  intros H. rewrite (rep_size _ _ _ _ H). pose proof (rr_len _ _ _ _ H) as Hn.
  unfold find_free_ctx. destruct (list_find _ cs) as [[i c]|] eqn:E; simpl.
  - apply list_find_Some in E as (Hi & Hl & _). split; [|by exists c].
    pose proof (take_drop_middle cs i c Hi) as Hcs. rewrite <- Hcs in *.
    rewrite !length_app in Hn. simpl in Hn.
    rewrite filter_app, filter_cons_False by done. rewrite length_app.
    pose proof (length_filter ctx_live (take i cs)).
    pose proof (length_filter ctx_live (drop (S i) cs)).
    unfold MCTP_REASSEMBLY_CTXS in *. lia.
  - apply list_find_None in E. replace (filter ctx_live cs) with cs; [by rewrite Hn|].
    clear Hn H. induction E as [|c cs Hc _ IH]; [done|].
    rewrite filter_cons_True by (by apply dec_stable). by f_equal.
Qed.
End slots.

(** ** Runs of the operations *)
Section ops.
Context {D : Type} `{!ExtAlloc D}.

(** The part of the world that reassembly works on. *)
Record ctxs_inv (w : world D) (F : gmap Z hobj) (r : gmap rkey partial) : Prop := {
  ci_ops : w_ops w = default_alloc_ops;
  ci_heap : heap_wf w;
  ci_rep : reasm_rep (w_heap w) (m_msg_ctxs (w_mctp w)) F r;
  ci_max : 0 <= m_max_message_size (w_mctp w) < SIZE_MOD;
}.

Definition set_ctxs (cs : list mctp_msg_ctx) (w : world D) : world D :=
  set_w_mctp (set_m_msg_ctxs cs (w_mctp w)) w.

Lemma wp_get_ctx i c (Q : mctp_msg_ctx -> world D -> Prop) w :
  m_msg_ctxs (w_mctp w) !! i = Some c -> Q c w -> wp (get_ctx i) Q w.
Proof. intros Hc HQ. unfold wp, get_ctx. by rewrite Hc. Qed.

Lemma wp_upd_ctx i c f (Q : unit -> world D -> Prop) w :
  m_msg_ctxs (w_mctp w) !! i = Some c ->
  Q tt (set_ctxs (<[i := f c]> (m_msg_ctxs (w_mctp w))) w) -> wp (upd_ctx i f) Q w.
Proof.
  intros Hc HQ. unfold upd_ctx. apply wp_modify. by rewrite (alter_insert f i _ c).
Qed.

(** The duplicate of a message: a fresh block that holds it. *)
Definition after_dup (bs : list Z) (w : world D) : world D :=
  set_w_mallocs (tail (w_mallocs w)) (set_w_brk (w_brk w + 16)
    (set_w_heap (<[w_brk w := HBytes bs]> (w_heap w)) w)).

Lemma heap_wf_dup bs w : heap_wf w -> heap_wf (after_dup bs w).
Proof.
  intros Hh. destruct (heap_wf_malloc 0 w Hh) as (Hb & Hm & H). split; [done|]. split; [done|].
  intros a Ha. apply H. unfold after_dup, after_malloc in *. simpl in *.
  rewrite lookup_insert_is_Some' in *. tauto.
Qed.

Lemma wp_msg_dup rd bs mctp (Q : Z -> world D -> Prop) w :
  w_ops w = default_alloc_ops -> mctp <> NULL -> heap_wf w ->
  (rd (after_malloc (zlen bs) w) = Ok bs (after_malloc (zlen bs) w)) ->
  (malloc_ok w = true -> Q (w_brk w) (after_dup bs w)) ->
  (malloc_ok w = false -> Q NULL (after_oom w)) ->
  wp (mctp_msg_dup rd (zlen bs) mctp) Q w.
Proof.
  intros Hops Hm Hwf Hrd H1 H2. unfold mctp_msg_dup. wp_step. apply wp_msg_alloc; [done..| |].
  - intros Hok. assert (w_brk w <> NULL) by (destruct Hwf; unfold NULL; lia). wp_steps.
    eapply wp_ok; [exact Hrd|]. wp_step.
    assert (Hz : zlen (replicate (Z.to_nat (zlen bs)) POISON) = zlen bs).
    { rewrite zlen_replicate. pose proof (zlen_nonneg bs). lia. }
    eapply wp_store_bytes; [by apply lookup_insert_eq|lia|rewrite Hz; lia|].
    wp_steps. specialize (H1 Hok). unfold after_dup in H1. simpl.
    assert (Hs : splice 0 bs (replicate (Z.to_nat (zlen bs)) POISON) = bs).
    { unfold splice. simpl. rewrite drop_ge; [by rewrite app_nil_r|].
      rewrite length_replicate. unfold zlen. lia. }
    rewrite Hs. unfold after_malloc, set_w_heap in *; simpl in *.
    by rewrite insert_insert_eq.
  - intros Hok. wp_steps. auto.
Qed.
End ops.

Ltac wp_prim ::=
  lazymatch goal with
  | |- wp (mctp_get _) _ _ => apply wp_mctp_get; [try done|]
  | |- wp (mctp_upd _ _) _ _ => apply wp_mctp_upd; [try done|]
  | |- wp (get_binding _) _ _ => eapply wp_get_binding; [simpl; eassumption|]
  | |- wp (get_bus _) _ _ => eapply wp_get_bus; [simpl; eassumption|]
  | |- wp (get_ctx _) _ _ => eapply wp_get_ctx; [simpl; eassumption|]
  | |- wp (upd_ctx _ _) _ _ => eapply wp_upd_ctx; [simpl; eassumption|]
  | |- wp (load_obj _) _ _ => eapply wp_load_obj; [simpl; eassumption|]
  | |- wp (load_pkt _) _ _ => eapply wp_load_pkt; [simpl; eassumption|]
  | |- wp (load_bytes _ _ _) _ _ => eapply wp_load_bytes; [simpl; eassumption|..]
  | |- wp (upd_bus _ _) _ _ => apply wp_modify
  | |- wp (upd_binding _ _) _ _ => apply wp_modify
  | |- wp (store_obj _ _) _ _ => apply wp_modify
  | |- wp (emit _) _ _ => apply wp_modify
  | |- wp (massert _) _ _ => apply wp_assert
  | |- wp (deref_bus (Some _)) _ _ => apply wp_ret
  | |- wp (call_target (Some _)) _ _ => apply wp_ret
  | |- wp (from_option_or _ (Some _)) _ _ => apply wp_ret
  end.

Section runs.
Context {D : Type} `{!ExtAlloc D}.
Implicit Types w : world D.

(** What reassembly leaves alone. *)
Record ctx_step (w w' : world D) : Prop := {
  cs_ops : w_ops w' = w_ops w;
  cs_mctp : w_mctp w' = set_m_msg_ctxs (m_msg_ctxs (w_mctp w')) (w_mctp w);
  cs_bindings : w_bindings w' = w_bindings w;
  cs_trace : w_trace w' = w_trace w;
  cs_dev : w_dev w' = w_dev w;
  cs_mallocs : w_mallocs w = [] -> w_mallocs w' = [];
}.

Lemma ctx_step_refl w : ctx_step w w.
Proof. split; try done. by destruct (w_mctp w). Qed.

Lemma ctx_step_trans w1 w2 w3 : ctx_step w1 w2 -> ctx_step w2 w3 -> ctx_step w1 w3.
Proof.
  intros [E1 E2 E3 E4 E5 E6] [G1 G2 G3 G4 G5 G6]. split; [congruence| |congruence..|auto].
  rewrite E2 in G2. rewrite G2 at 1. by destruct (w_mctp w1), (w_mctp w3).
Qed.

Lemma ctx_step_max w w' : ctx_step w w' ->
  m_max_message_size (w_mctp w') = m_max_message_size (w_mctp w).
Proof. intros H. rewrite (cs_mctp _ _ H). by destruct (w_mctp w). Qed.

Lemma ctx_step_busses w w' : ctx_step w w' -> m_busses (w_mctp w') = m_busses (w_mctp w).
Proof. intros H. rewrite (cs_mctp _ _ H). by destruct (w_mctp w). Qed.

(** Context [i] is the live context [c], with the contents [bs] in its buffer. *)
Definition ctx_at (w : world D) (i : nat) (c : mctp_msg_ctx) (bs : list Z) : Prop :=
  m_msg_ctxs (w_mctp w) !! i = Some c /\ ctx_live c /\ w_heap w !! mc_buf c = Some (HBytes bs).

Lemma ctx_at_rep w F r i c bs : ctxs_inv w F r -> ctx_at w i c bs ->
  r !! ctx_key c = Some (partial_of bs c) /\ zlen bs = mc_buf_alloc_size c /\
  0 <= mc_buf_size c <= mc_buf_alloc_size c /\ mc_buf_alloc_size c < SIZE_MOD.
Proof.
  intros HI (Hi & Hl & Hbs).
  destruct (rep_lookup _ _ _ _ i c (ci_rep _ _ _ HI) Hi Hl) as (bs' & Hbs' & ?).
  rewrite Hbs in Hbs'. by injection Hbs' as <-.
Qed.

Lemma frame_lookup w F r a o : ctxs_inv w F r -> F !! a = Some o -> w_heap w !! a = Some o.
Proof.
  intros HI Ha. rewrite (rr_frame _ _ _ _ (ci_rep _ _ _ HI)); [done|].
  intros i c Hi Hl E. destruct (rr_ctx _ _ _ _ (ci_rep _ _ _ HI) i c Hi Hl)
    as (? & _ & _ & _ & _ & Hn). congruence.
Qed.

Lemma heap_wf_insert a o w : heap_wf w -> is_Some (w_heap w !! a) ->
  heap_wf (set_w_heap (<[a := o]> (w_heap w)) w).
Proof.
  intros (Hb & Hm & H) Ha. split; [done|]. split; [done|]. simpl. intros b.
  rewrite lookup_insert. case_decide; [subst; auto|auto].
Qed.

(** A change of a live context's fields. *)
Lemma wp_ctx_fields F r i c bs f (Q : unit -> world D -> Prop) w :
  ctxs_inv w F r -> ctx_at w i c bs ->
  mc_buf (f c) = mc_buf c -> ctx_key (f c) = ctx_key c ->
  mc_buf_alloc_size (f c) = mc_buf_alloc_size c ->
  0 <= mc_buf_size (f c) <= mc_buf_alloc_size c ->
  (forall w', ctx_step w w' -> ctxs_inv w' F (<[ctx_key c := partial_of bs (f c)]> r) ->
     ctx_at w' i (f c) bs -> w_heap w' = w_heap w -> Q tt w') ->
  wp (upd_ctx i f) Q w.
Proof.
  intros HI Hc Eb Ek Ea Es HQ. pose proof (ctx_at_rep _ _ _ _ _ _ HI Hc) as (_ & Hz & _ & _).
  pose proof Hc as (Hi & Hl & Hbs). wp_step. apply HQ.
  - by split.
  - destruct HI as [Hops Hwf Hrep Hmax]. split; [done..| |done]. simpl.
    rewrite <- (insert_id (w_heap w) (mc_buf c) (HBytes bs)) by done.
    by apply rep_update.
  - split; [|by rewrite Eb; split; [unfold ctx_live; rewrite Eb|]].
    simpl. apply list_lookup_insert_eq. by eapply lookup_lt_Some.
  - done.
Qed.

(** Appending a packet's payload: it is refused exactly when it does not fit. *)
Lemma wp_add_pkt F r i c bs pkt p (Q : Z -> world D -> Prop) w :
  ctxs_inv w F r -> ctx_at w i c bs ->
  F !! pkt = Some (HPkt p) -> pkt_wf p -> sizeof_mctp_hdr <= mctp_pktbuf_size p ->
  (mc_buf_size c + zlen (pkt_payload p) <= mc_buf_alloc_size c ->
   forall w' bs', let c' := set_mc_buf_size (mc_buf_size c + zlen (pkt_payload p)) c in
     ctx_step w w' -> ctxs_inv w' F (<[ctx_key c := partial_of bs' c']> r) ->
     ctx_at w' i c' bs' ->
     p_data (partial_of bs' c') = p_data (partial_of bs c) ++ pkt_payload p -> Q 0 w') ->
  (mc_buf_size c + zlen (pkt_payload p) > mc_buf_alloc_size c -> Q (-1) w) ->
  wp (mctp_msg_ctx_add_pkt i pkt) Q w.
Proof.
  intros HI Hc Hpkt Hp Hs Hfit Hno.
  pose proof (ctx_at_rep _ _ _ _ _ _ HI Hc) as (_ & Hz & Hsz & Hcap).
  pose proof (frame_lookup _ _ _ _ _ HI Hpkt) as Hhp. pose proof Hc as (Hi & Hl & Hbs).
  destruct (pkt_wire_split p Hp Hs) as (h & _ & _ & Hpl). pose proof (pkt_wf_size p Hp) as Hw.
  destruct Hp as (E0 & E1 & E2 & E3). unfold sizeof_mctp_hdr in *.
  unfold mctp_msg_ctx_add_pkt. do 4 wp_step. unfold sizeof_mctp_hdr.
  rewrite (sz_small (mctp_pktbuf_size p - 4)) by lia. rewrite <- Hpl.
  pose proof (zlen_nonneg (pkt_payload p)) as Hn. set (n := zlen (pkt_payload p)) in *.
  destruct (decide (n + mc_buf_size c < SIZE_MOD)) as [Hov|Hov].
  2: { rewrite decide_True; [wp_steps; apply Hno; lia|]. rewrite sz_wrap; lia. }
  rewrite !sz_small by lia. rewrite decide_False by lia.
  case_decide as Hgt; [wp_steps; apply Hno; lia|]. wp_step.
  eapply wp_pkt_read; [done|unfold mctp_pktbuf_data, sizeof_mctp_hdr; lia..|].
  replace (slice (mctp_pktbuf_data p) n (pb_data p)) with (pkt_payload p)
    by (unfold pkt_payload, sizeof_mctp_hdr; by rewrite Hpl).
  wp_step. eapply wp_store_bytes; [done|lia|fold n; lia|]. wp_step.
  destruct HI as [Hops Hwf Hrep Hmax].
  wp_step. wp_step. apply (Hfit ltac:(lia) _ (splice (mc_buf_size c) (pkt_payload p) bs)).
  - by split.
  - split; [done| |simpl|done].
    + apply (heap_wf_insert (mc_buf c)); [done|eauto].
    + apply rep_update; [done..| |simpl; lia]. rewrite zlen_splice; [done|lia|fold n; lia].
  - split; [simpl; apply list_lookup_insert_eq; by eapply lookup_lt_Some|].
    split; [done|]. simpl. apply lookup_insert_eq.
  - unfold partial_of; simpl. apply slice_append; [lia|fold n; lia].
Qed.

Lemma wp_ctx_drop bus b F r i c bs (Q : unit -> world D -> Prop) w :
  ctxs_inv w F r -> ctx_at w i c bs ->
  m_busses (w_mctp w) !! bus = Some b -> bus_mctp b <> NULL ->
  (forall w', ctx_step w w' -> ctxs_inv w' F (delete (ctx_key c) r) -> Q tt w') ->
  wp (mctp_msg_ctx_drop bus i) Q w.
Proof.
  intros HI Hc Hb Hm HQ. pose proof Hc as (Hi & Hl & Hbs). destruct HI as [Hops Hwf Hrep Hmax].
  unfold mctp_msg_ctx_drop. do 5 wp_step. apply wp_msg_free; [done..|eauto|by apply heap_wf_null|].
  wp_step. apply HQ.
  - by split.
  - split; [done|by apply (heap_wf_free (mc_buf c))|simpl; by apply rep_drop|done].
Qed.

Lemma wp_ctx_lookup mctp src dest tag F r (Q : option nat -> world D -> Prop) w :
  ctxs_inv w F r -> mctp <> NULL ->
  (forall i c bs, ctx_at w i c bs -> ctx_key c = (src, dest, tag) ->
     r !! (src, dest, tag) = Some (partial_of bs c) -> Q (Some i) w) ->
  (r !! (src, dest, tag) = None -> Q None w) ->
  wp (mctp_msg_ctx_lookup mctp src dest tag) Q w.
Proof.
  intros HI Hm HS HN. unfold mctp_msg_ctx_lookup. wp_steps.
  pose proof (find_ctx_spec _ _ _ _ (src, dest, tag) (ci_rep _ _ _ HI)) as Hf.
  destruct (find_ctx _ _) as [i|]; [|auto].
  destruct Hf as (c & Hi & Hl & Hk & _).
  destruct (rep_lookup _ _ _ _ i c (ci_rep _ _ _ HI) Hi Hl) as (bs & Hbs & Hr & _).
  rewrite Hk in Hr. apply (HS i c bs); [by split|done|done].
Qed.

(** A new context: there must be a free one, and memory for its buffer. *)
Lemma wp_ctx_create mctp src dest tag F r (Q : option nat -> world D -> Prop) w :
  ctxs_inv w F r -> mctp <> NULL -> r !! (src, dest, tag) = None ->
  (Z.of_nat (size r) < MCTP_REASSEMBLY_CTXS -> malloc_ok w = true ->
   forall i c bs w', ctx_step w w' ->
     ctxs_inv w' F (<[(src, dest, tag) := partial_of bs c]> r) ->
     ctx_at w' i c bs -> ctx_key c = (src, dest, tag) -> mc_buf_size c = 0 ->
     mc_buf_alloc_size c = m_max_message_size (w_mctp w) -> Q (Some i) w') ->
  (Z.of_nat (size r) < MCTP_REASSEMBLY_CTXS -> malloc_ok w = false ->
   forall w', ctx_step w w' -> ctxs_inv w' F r -> Q None w') ->
  (~ Z.of_nat (size r) < MCTP_REASSEMBLY_CTXS -> Q None w) ->
  wp (mctp_msg_ctx_create mctp src dest tag) Q w.
Proof.
  intros HI Hm Hnew HS HO HN. destruct HI as [Hops Hwf Hrep Hmax].
  unfold mctp_msg_ctx_create. do 2 wp_step. cbv beta.
  pose proof (find_free_ctx_spec _ _ _ _ Hrep) as Hf.
  destruct (find_free_ctx _) as [i|]; [|wp_steps; apply HN; lia].
  destruct Hf as (Hsize & c & Hi & Hdead).
  assert (Hlt : (i < length (m_msg_ctxs (w_mctp w)))%nat) by by eapply lookup_lt_Some.
  do 2 wp_step. set (max := m_max_message_size (w_mctp w)) in *.
  set (c1 := set_mc_buf_alloc_size max _).
  wp_step. apply wp_msg_alloc; [done..| |]; intros Hok; wp_step.
  - assert (Hb : w_brk w <> NULL) by (destruct Hwf; unfold NULL; lia).
    eapply wp_upd_ctx; [simpl; by apply list_lookup_insert_eq|]. simpl.
    rewrite list_insert_insert_eq. do 2 wp_step.
    apply (HS Hsize Hok i (set_mc_buf (w_brk w) c1) (replicate (Z.to_nat max) POISON)).
    + split; [done..|]. simpl. intros E. by rewrite E.
    + split; [done|by apply (heap_wf_malloc max)| |done]. simpl.
      apply (rep_new _ _ _ _ i c (set_mc_buf (w_brk w) c1)); [done..| | | | | | | |].
      * done.
      * by apply heap_wf_fresh.
      * done.
      * done.
      * done.
      * rewrite zlen_replicate. simpl. lia.
      * simpl. lia.
      * simpl. lia.
    + split; [simpl; by apply list_lookup_insert_eq|]. split; [done|]. simpl.
      apply lookup_insert_eq.
    + done.
    + done.
    + done.
  - eapply wp_upd_ctx; [simpl; by apply list_lookup_insert_eq|]. simpl.
    rewrite list_insert_insert_eq. wp_steps. apply (HO Hsize Hok).
    + split; [done..|]. simpl. intros E. by rewrite E.
    + split; [done|done| |done]. simpl. apply (rep_dead _ _ _ _ i c); [done..|].
      intros E. by apply E.
Qed.
End runs.
