(* ===== verification/Tags.v ===== *)
(** * Request tags (src/core.c, mctp_alloc_tag and mctp_dealloc_tag)

    The table of tags allocated to outstanding requests. *)

From S2P Require Import Prelude State Alloc Pktbuf.

Section tags.
Context {D : Type} `{!ClockOps D}.
Local Abbreviation IO := (M (world D)).

Definition mctp_set_now_op (mctp : Z) (now : fnptr) (ctx : Z) : IO unit :=
  massert (now <> None);;
  mctp_upd mctp (set_m_platform_now now);;
  mctp_upd mctp (set_m_platform_now_ctx ctx).

Definition mctp_default_now (ctx : Z) : IO Z := GetTickCount64.

Definition call_now (f : string) (ctx : Z) : IO Z :=
  if decide (f = "mctp_default_now"%string) then mctp_default_now ctx else cop_now f ctx.

Definition mctp_now (mctp : Z) : IO Z :=
  m ← mctp_get mctp;
  massert (m_platform_now m <> None);;
  f ← call_target (m_platform_now m);
  call_now f (m_platform_now_ctx m).

(** An entry of the table that [mctp_alloc_tag] may take over. *)
Definition tag_spare (now : Z) (r : mctp_req_tag) : Prop :=
  rt_local r = 0 \/ rt_expiry r < now.
#[export] Instance tag_spare_dec now r : Decision (tag_spare now r).
Proof. unfold tag_spare. apply _. Defined.

(** The scan for used tags and a spare slot, from slot [i] on. *)
Fixpoint scan_tags (now local remote : Z) (rs : list mctp_req_tag) (i : nat)
    (used : Z) (spare : option nat) : Z * option nat :=
  match rs with
  | [] => (used, spare)
  | r :: rs =>
      if decide (tag_spare now r)
      then scan_tags now local remote rs (S i) used (Some i)
      else if decide (rt_local r = local /\ rt_remote r = remote)
      then scan_tags now local remote rs (S i)
             (u8 (Z.lor used (Z.shiftl 1 (rt_tag r)))) spare
      else scan_tags now local remote rs (S i) used spare
  end.

(** The first of the 8 tags, starting at the round-robin counter, that is not
    in [used]. *)
Definition pick_tag (used rr : Z) : option Z :=
  snd <$> list_find (fun tag => Z.land used (Z.shiftl 1 tag) = 0)
            ((fun t => (Z.of_nat t + rr) mod 8) <$> seq 0 8).

Definition upd_req_tag (mctp : Z) (i : nat) (f : mctp_req_tag -> mctp_req_tag) : IO unit :=
  mctp_upd mctp (fun m => set_m_req_tags (alter f i (m_req_tags m)) m).

(** Returns the code and what it stored in [*ret_tag]. *)
Definition mctp_alloc_tag (mctp local remote : Z) : IO (Z * option Z) :=
  massert (local <> 0);;
  now ← mctp_now mctp;
  m ← mctp_get mctp;
  match scan_tags now local remote (m_req_tags m) 0 0 None with
  | (_, None) => mret (- EBUSY, None)
  | (used, Some spare) =>
      match pick_tag used (m_tag_round_robin m) with
      | None => mret (- EBUSY, None)
      | Some tag =>
          upd_req_tag mctp spare (fun _ =>
            mk_req_tag local remote tag (sz (now + MCTP_TAG_TIMEOUT)));;
          mctp_upd mctp (set_m_tag_round_robin ((tag + 1) mod 8));;
          mret (0, Some tag)
      end
  end.

Definition tag_match (local remote tag : Z) (r : mctp_req_tag) : Prop :=
  rt_local r = local /\ rt_remote r = remote /\ rt_tag r = tag.
#[export] Instance tag_match_dec l r t x : Decision (tag_match l r t x).
Proof. unfold tag_match. apply _. Defined.

Definition dealloc_in (local remote tag : Z) (rs : list mctp_req_tag) : list mctp_req_tag :=
  match list_find (tag_match local remote tag) rs with
  | Some (i, _) => <[i := mk_req_tag 0 0 0 0]> rs
  | None => rs
  end.

Definition mctp_dealloc_tag (bus : nat) (local remote tag : Z) : IO unit :=
  b ← get_bus bus;
  bd ← get_binding (bus_binding b);
  let mctp := bd_mctp bd in
  if decide (local = 0) then mret tt else
  mctp_upd mctp (fun m => set_m_req_tags (dealloc_in local remote tag (m_req_tags m)) m).

(** ** The table as a list *)

Definition tag_live (now : Z) (r : mctp_req_tag) : Prop := ~ tag_spare now r.

Definition tag_for (local remote : Z) (r : mctp_req_tag) : Prop :=
  rt_local r = local /\ rt_remote r = remote.

(** Tags in the table are 3-bit values. *)
Definition tags_range (rs : list mctp_req_tag) : Prop :=
  Forall (fun r => 0 <= rt_tag r < 8) rs.

(** At most one live entry for each local EID, remote EID and tag. *)
Definition tags_unique (now : Z) (rs : list mctp_req_tag) : Prop :=
  forall i j r s, rs !! i = Some r -> rs !! j = Some s ->
    tag_live now r -> tag_live now s ->
    rt_local r = rt_local s -> rt_remote r = rt_remote s -> rt_tag r = rt_tag s -> i = j.

Lemma land_bit_0 a n : 0 <= n -> Z.land a (Z.shiftl 1 n) = 0 <-> Z.testbit a n = false.
Proof.
  intros Hn. split; intros H.
  - apply (f_equal (fun z => Z.testbit z n)) in H.
    rewrite Z.land_spec, Z.shiftl_spec, Z.sub_diag, Z.bits_0 in H by lia.
    by rewrite andb_true_r in H.
  - apply Z.bits_inj_0. intros m. rewrite Z.land_spec.
    destruct (decide (m = n)) as [->|Hm]; [by rewrite H|].
    destruct (decide (m < 0)); [by rewrite !Z.testbit_neg_r by lia|].
    rewrite Z.shiftl_1_l, Z.pow2_bits_false by lia. apply andb_false_r.
Qed.

Lemma testbit_u8 a n : 0 <= n < 8 -> Z.testbit (u8 a) n = Z.testbit a n.
Proof. intros. unfold u8. change 256 with (2 ^ 8). apply Z.mod_pow2_bits_low; lia. Qed.

Lemma testbit_used used tag t : 0 <= tag < 8 -> 0 <= t < 8 ->
  Z.testbit (u8 (Z.lor used (Z.shiftl 1 tag))) t = Z.testbit used t || bool_decide (t = tag).
Proof.
  intros. rewrite testbit_u8, Z.lor_spec, Z.shiftl_1_l by done. f_equal.
  case_bool_decide as E; [subst; apply Z.pow2_bits_true; lia|apply Z.pow2_bits_false; lia].
Qed.

Lemma exists_elem_cons {A} (P : A -> Prop) x l :
  (exists y, y ∈ x :: l /\ P y) <-> P x \/ exists y, y ∈ l /\ P y.
Proof. setoid_rewrite elem_of_cons. naive_solver. Qed.

(** The scan computes the live tags of the pair and the last spare slot. *)
Lemma scan_tags_used now local remote rs i used spare t :
  tags_range rs -> 0 <= t < 8 ->
  Z.testbit (scan_tags now local remote rs i used spare).1 t = true <->
  Z.testbit used t = true \/
  exists r, r ∈ rs /\ tag_live now r /\ tag_for local remote r /\ rt_tag r = t.
Proof.
  intros Hr Ht. revert i used spare.
  induction rs as [|r rs IH]; intros i used spare; simpl.
  { split; [by left|]. intros [?|(r & Hin & _)]; [done|by apply not_elem_of_nil in Hin]. }
  apply Forall_cons in Hr as [Hr Hrs].
  rewrite (exists_elem_cons (fun r => tag_live now r /\ tag_for local remote r /\ rt_tag r = t)).
  unfold tag_live at 1, tag_for at 1.
  case_decide as Hs; [rewrite IH by done; tauto|].
  case_decide as Hf; rewrite IH by done; [|tauto].
  rewrite testbit_used by done. rewrite orb_true_iff, bool_decide_eq_true.
  generalize (exists y, y ∈ rs /\ tag_live now y /\ tag_for local remote y /\ rt_tag y = t).
  naive_solver.
Qed.

Lemma scan_tags_spare now local remote rs i used spare :
  match (scan_tags now local remote rs i used spare).2 with
  | None => spare = None /\ Forall (tag_live now) rs
  | Some j => spare = Some j /\ Forall (tag_live now) rs \/
      exists k r, j = (i + k)%nat /\ rs !! k = Some r /\ tag_spare now r
  end.
Proof.
  revert i used spare. induction rs as [|r rs IH]; intros i used spare; simpl.
  { destruct spare; [left|]; done. }
  case_decide as Hs; [|case_decide].
  - specialize (IH (S i) used (Some i)). destruct (_.2) as [j|]; [|naive_solver].
    right. destruct IH as [[[= ->] _]|(k & s & -> & Hk & Hss)].
    + exists O, r. rewrite Nat.add_0_r. done.
    + exists (S k), s. split; [lia|done].
  - specialize (IH (S i) (u8 (Z.lor used (Z.shiftl 1 (rt_tag r)))) spare).
    destruct (_.2) as [j|]; [|by rewrite Forall_cons; naive_solver].
    destruct IH as [[-> H2]|(k & s & -> & Hk & Hss)]; [left; by rewrite Forall_cons|].
    right. exists (S k), s. split; [lia|done].
  - specialize (IH (S i) used spare).
    destruct (_.2) as [j|]; [|by rewrite Forall_cons; naive_solver].
    destruct IH as [[-> H2]|(k & s & -> & Hk & Hss)]; [left; by rewrite Forall_cons|].
    right. exists (S k), s. split; [lia|done].
Qed.

Lemma pick_tag_Some used rr tag : pick_tag used rr = Some tag ->
  0 <= tag < 8 /\ Z.testbit used tag = false /\
  exists k : nat, tag = (Z.of_nat k + rr) mod 8 /\
    forall j : nat, (j < k)%nat -> Z.testbit used ((Z.of_nat j + rr) mod 8) = true.
Proof.
  unfold pick_tag. intros H. apply fmap_Some in H as ([i t] & Hf & ->). simpl.
  apply list_find_Some in Hf as (Hl & Hz & Hmin).
  rewrite list_lookup_fmap in Hl. apply fmap_Some in Hl as (k & Hk & ->).
  apply lookup_seq in Hk as [-> Hk]. rewrite Nat.add_0_l in *.
  assert (Hm : forall z, 0 <= z mod 8 < 8) by (intros; apply Z.mod_pos_bound; lia).
  split; [done|]. split; [apply land_bit_0; [apply Hm|done]|].
  exists i. split; [done|]. intros j Hj.
  destruct (Z.testbit used _) eqn:E; [done|]. exfalso.
  apply (Hmin j ((Z.of_nat j + rr) mod 8)); [|done|by apply land_bit_0; [apply Hm|]].
  rewrite list_lookup_fmap, lookup_seq_lt by lia. done.
Qed.

Lemma pick_tag_None used rr : pick_tag used rr = None ->
  forall t, 0 <= t < 8 -> Z.testbit used t = true.
Proof.
  unfold pick_tag. intros H t Ht. apply fmap_None in H.
  apply list_find_None in H. rewrite Forall_forall in H.
  destruct (Z.testbit used t) eqn:E; [done|]. exfalso.
  apply (H t); [|by apply land_bit_0; [lia|]].
  apply list_elem_of_fmap. exists (Z.to_nat ((t - rr) mod 8)).
  pose proof (Z.mod_pos_bound (t - rr) 8). split.
  - rewrite Z2Nat.id by lia. rewrite Z.add_mod_idemp_l by lia.
    replace (t - rr + rr) with t by lia. by rewrite Z.mod_small.
  - apply elem_of_seq. lia.
Qed.

(** ** What allocation and release do *)

(** The entries other than the one at [i] are kept. *)
Lemma tags_unique_insert now rs i r :
  tags_unique now rs ->
  (forall s, s ∈ rs -> tag_live now s -> tag_live now r ->
     ~ (rt_local r = rt_local s /\ rt_remote r = rt_remote s /\ rt_tag r = rt_tag s)) ->
  tags_unique now (<[i := r]> rs).
Proof.
  intros Hu Hnew j k s t Hj Hk Ls Lt E1 E2 E3.
  apply list_lookup_insert_Some in Hj as [(<- & <- & ?)|[Hij Hj]];
  apply list_lookup_insert_Some in Hk as [(<- & <- & ?)|[Hik Hk]]; try done.
  - exfalso. apply (Hnew t); eauto using list_elem_of_lookup_2.
  - exfalso. apply (Hnew s); eauto using list_elem_of_lookup_2.
  - eauto.
Qed.

(** Entries only expire as time goes by. *)
Lemma tags_unique_later now now' rs :
  now <= now' -> tags_unique now rs -> tags_unique now' rs.
Proof.
  intros Hle Hu i j r s Hi Hj Lr Ls. apply (Hu i j r s Hi Hj).
  - unfold tag_live, tag_spare in *. naive_solver lia.
  - unfold tag_live, tag_spare in *. naive_solver lia.
Qed.

Lemma tags_range_insert rs i r :
  tags_range rs -> 0 <= rt_tag r < 8 -> tags_range (<[i := r]> rs).
Proof. intros. by apply Forall_insert. Qed.

Lemma dealloc_in_unique now l r t rs :
  tags_unique now rs -> tags_unique now (dealloc_in l r t rs).
Proof.
  intros Hu. unfold dealloc_in. destruct (list_find _ rs) as [[i x]|]; [|done].
  apply tags_unique_insert; [done|]. intros s _ _ H. exfalso. apply H. by left.
Qed.

Lemma dealloc_in_range l r t rs : tags_range rs -> tags_range (dealloc_in l r t rs).
Proof.
  intros Hu. unfold dealloc_in. destruct (list_find _ rs) as [[i x]|]; [|done].
  apply tags_range_insert; [done|]. simpl. lia.
Qed.

(** The clock can be read without disturbing the stack. *)
Definition clock_reads (now : Z) (w : world D) : Prop :=
  exists f, m_platform_now (w_mctp w) = Some f /\
    call_now f (m_platform_now_ctx (w_mctp w)) w = Ok now w.

(** The state after slot [i] has been given to a tag. *)
Definition after_alloc_tag (now local remote tag : Z) (i : nat) (w : world D) : world D :=
  set_w_mctp (set_m_tag_round_robin ((tag + 1) mod 8)
    (set_m_req_tags
       (<[i := mk_req_tag local remote tag (sz (now + MCTP_TAG_TIMEOUT))]> (m_req_tags (w_mctp w)))
       (w_mctp w))) w.

(** What the scan of the table decides. *)
Definition tag_choice (now local remote rr : Z) (rs : list mctp_req_tag) : option (Z * nat) :=
  match scan_tags now local remote rs 0 0 None with
  | (_, None) => None
  | (used, Some spare) => (fun tag => (tag, spare)) <$> pick_tag used rr
  end.

Definition tag_in_use (now local remote : Z) (rs : list mctp_req_tag) (t : Z) : Prop :=
  exists r, r ∈ rs /\ tag_live now r /\ tag_for local remote r /\ rt_tag r = t.

Lemma tag_choice_spec now local remote rr rs :
  tags_range rs ->
  match tag_choice now local remote rr rs with
  | Some (tag, i) =>
      (exists r, rs !! i = Some r /\ tag_spare now r) /\ 0 <= tag < 8 /\
      ~ tag_in_use now local remote rs tag /\
      exists k : nat, tag = (Z.of_nat k + rr) mod 8 /\
        forall j : nat, (j < k)%nat -> tag_in_use now local remote rs ((Z.of_nat j + rr) mod 8)
  | None => Forall (tag_live now) rs \/ forall t, 0 <= t < 8 -> tag_in_use now local remote rs t
  end.
Proof.
  intros Hr. unfold tag_choice.
  assert (Hbit : forall t, 0 <= t < 8 ->
    Z.testbit (scan_tags now local remote rs 0 0 None).1 t = true <->
    tag_in_use now local remote rs t).
  { intros t Ht. rewrite scan_tags_used by done. rewrite Z.bits_0. naive_solver. }
  pose proof (scan_tags_spare now local remote rs 0 0 None) as Hspare.
  destruct (scan_tags now local remote rs 0 0 None) as [used [spare|]]; simpl in *; [|naive_solver].
  destruct Hspare as [[? _]|(k & r & -> & Hk & Hs)]; [done|].
  destruct (pick_tag used rr) as [tag|] eqn:Hp; simpl.
  - apply pick_tag_Some in Hp as (Ht & Hfree & j & Hj & Hmin).
    split; [by exists r|]. split; [done|]. split; [rewrite <- Hbit by done; by rewrite Hfree|].
    exists j. split; [done|]. intros i Hi. apply Hbit; [apply Z.mod_pos_bound; lia|auto].
  - right. intros t Ht. apply Hbit; [done|]. by eapply pick_tag_None.
Qed.

Lemma mctp_alloc_tag_run mctp local remote now w :
  mctp <> NULL -> local <> 0 -> clock_reads now w ->
  mctp_alloc_tag mctp local remote w =
    match tag_choice now local remote (m_tag_round_robin (w_mctp w)) (m_req_tags (w_mctp w)) with
    | Some (tag, i) => Ok (0, Some tag) (after_alloc_tag now local remote tag i w)
    | None => Ok (- EBUSY, None) w
    end.
Proof.
  intros Hm Hl (f & Hf & Hclock). unfold tag_choice.
  apply wp_run_eq. unfold mctp_alloc_tag. wp_steps; [done|]. unfold mctp_now. wp_steps.
  { by rewrite Hf. }
  rewrite Hf. simpl. wp_steps. eapply wp_ok; [exact Hclock|]. wp_steps.
  destruct (scan_tags now local remote _ 0 0 None) as [used [spare|]]; [|by wp_steps].
  destruct (pick_tag used _) as [tag|] eqn:Hp; [|by wp_steps].
  unfold upd_req_tag. wp_steps. f_equal. unfold after_alloc_tag. simpl.
  destruct w as [h b ml ops m bd tr d]; simpl. unfold set_w_mctp; simpl. f_equal.
  destruct m; unfold set_m_tag_round_robin, set_m_req_tags; simpl in *. f_equal.
  apply alter_const_insert.
Qed.

(** C11: Tag allocation.  On success the tag returned is the first one, in
    round-robin order, that no live entry of the pair of endpoints uses; it is
    recorded in a spare slot with a new deadline and nothing else changes but
    the round-robin counter.  It fails, with [-EBUSY] and without effect, only
    when every slot is live or the pair uses all 8 tags. *)
Theorem mctp_alloc_tag_spec mctp local remote now w :
  mctp <> NULL -> local <> 0 -> clock_reads now w -> tags_range (m_req_tags (w_mctp w)) ->
  let rs := m_req_tags (w_mctp w) in
  let in_use := tag_in_use now local remote rs in
  (exists tag i r,
     mctp_alloc_tag mctp local remote w = Ok (0, Some tag) (after_alloc_tag now local remote tag i w) /\
     rs !! i = Some r /\ tag_spare now r /\ 0 <= tag < 8 /\ ~ in_use tag /\
     exists k : nat, tag = (Z.of_nat k + m_tag_round_robin (w_mctp w)) mod 8 /\
       forall j : nat, (j < k)%nat -> in_use ((Z.of_nat j + m_tag_round_robin (w_mctp w)) mod 8))
  \/
  (mctp_alloc_tag mctp local remote w = Ok (- EBUSY, None) w /\
   (Forall (tag_live now) rs \/ forall t, 0 <= t < 8 -> in_use t)).
Proof.
  intros Hm Hl Hc Hr rs in_use. rewrite (mctp_alloc_tag_run _ _ _ now) by done.
  pose proof (tag_choice_spec now local remote (m_tag_round_robin (w_mctp w)) rs Hr) as Hch.
  fold rs. destruct (tag_choice _ _ _ _ rs) as [[tag i]|]; [left|by right].
  destruct Hch as ((r & Hi & Hs) & Hrest). exists tag, i, r. done.
Qed.

Lemma mctp_dealloc_tag_run bus b bd local remote tag w :
  m_busses (w_mctp w) !! bus = Some b -> w_bindings w !! bus_binding b = Some bd ->
  bd_mctp bd <> NULL ->
  mctp_dealloc_tag bus local remote tag w = Ok tt
    (if decide (local = 0) then w else
     set_w_mctp (set_m_req_tags (dealloc_in local remote tag (m_req_tags (w_mctp w))) (w_mctp w)) w).
Proof.
  intros Hb Hbd Hm. apply wp_run_eq. unfold mctp_dealloc_tag. wp_steps.
  case_decide; by wp_steps.
Qed.

(** An answer releases its tag: if the entries of the endpoints and tag are
    all live, none is left after [mctp_dealloc_tag], and the entries of other
    requests are kept. *)
Theorem mctp_dealloc_tag_spec bus b bd local remote tag now w :
  m_busses (w_mctp w) !! bus = Some b -> w_bindings w !! bus_binding b = Some bd ->
  bd_mctp bd <> NULL -> local <> 0 ->
  tags_unique now (m_req_tags (w_mctp w)) ->
  Forall (fun r => tag_match local remote tag r -> tag_live now r) (m_req_tags (w_mctp w)) ->
  exists w', mctp_dealloc_tag bus local remote tag w = Ok tt w' /\
    Forall (fun r => ~ tag_match local remote tag r) (m_req_tags (w_mctp w')) /\
    (forall i r, m_req_tags (w_mctp w) !! i = Some r -> ~ tag_match local remote tag r ->
       m_req_tags (w_mctp w') !! i = Some r).
Proof.
  intros Hb Hbd Hm Hl Hu Hlive. eexists. split; [by apply (mctp_dealloc_tag_run bus b bd)|].
  rewrite decide_False by done. simpl. unfold dealloc_in.
  destruct (list_find _ _) as [[i r]|] eqn:Hf.
  - apply list_find_Some in Hf as (Hi & Hmatch & _). split.
    + rewrite Forall_lookup in *. intros j s Hj Hs.
      apply list_lookup_insert_Some in Hj as [(-> & <- & _)|[Hij Hj]];
        [by destruct Hs as (? & _)|].
      apply Hij. pose proof Hmatch as (E1 & E2 & E3). pose proof Hs as (E4 & E5 & E6).
      apply (Hu i j r s); eauto; congruence.
    + intros j s Hj Hs. rewrite list_lookup_insert_ne; [done|]. intros ->. naive_solver.
  - apply list_find_None in Hf. done.
Qed.

(** C35: An expired entry hides the live one.  [mctp_dealloc_tag] does not look at
    the deadlines: when an expired entry of the same endpoints and tag stands
    before the live one, the reply clears an entry of theirs that is not the
    live one, the first there is ([k], which is expired when no two live entries
    share endpoints and tag), and nothing else; the tag of the answered request
    stays in use until it expires. *)
Theorem mctp_dealloc_tag_stale bus b bd local remote tag now i j old new w :
  m_busses (w_mctp w) !! bus = Some b -> w_bindings w !! bus_binding b = Some bd ->
  bd_mctp bd <> NULL -> local <> 0 ->
  let rs := m_req_tags (w_mctp w) in
  rs !! i = Some old -> tag_match local remote tag old -> ~ tag_live now old ->
  rs !! j = Some new -> tag_match local remote tag new -> tag_live now new -> (i < j)%nat ->
  exists k r w', mctp_dealloc_tag bus local remote tag w = Ok tt w' /\
    (k <= i)%nat /\ rs !! k = Some r /\ tag_match local remote tag r /\
    (tags_unique now rs -> ~ tag_live now r) /\
    m_req_tags (w_mctp w') = <[k := mk_req_tag 0 0 0 0]> rs /\ mk_req_tag 0 0 0 0 <> r /\
    m_req_tags (w_mctp w') !! j = Some new /\ tag_in_use now local remote (m_req_tags (w_mctp w')) tag /\
    (tags_unique now rs -> forall k r, rs !! k = Some r -> tag_live now r ->
       m_req_tags (w_mctp w') !! k = Some r).
Proof.
  intros Hb Hbd Hm Hl rs Hi Mi Ei Hj Mj Lj Hij.
  pose proof (mctp_dealloc_tag_run bus b bd local remote tag w Hb Hbd Hm) as Hrun.
  rewrite decide_False in Hrun by done. fold rs in Hrun. unfold dealloc_in in Hrun.
  destruct (list_find _ rs) as [[k r]|] eqn:Hf.
  2: { apply list_find_None in Hf. by destruct (Forall_lookup_1 _ _ _ _ Hf Hi). }
  apply list_find_Some in Hf as (Hk & Mk & Hmin). exists k, r. eexists. split; [exact Hrun|]. simpl.
  assert (Hki : (k <= i)%nat) by (apply Nat.le_ngt; intros H; by apply (Hmin i old)).
  assert (Hex : tags_unique now rs -> ~ tag_live now r).
  { intros Hu Lr. destruct Mj as (E1 & E2 & E3), Mk as (E4 & E5 & E6).
    assert (k = j); [eapply (Hu k j r new); eauto; congruence|lia]. }
  assert (Hj' : <[k := mk_req_tag 0 0 0 0]> rs !! j = Some new) by by rewrite list_lookup_insert_ne by lia.
  do 5 (split; [done|]). split; [intros <-; by destruct Mk|]. split; [done|]. split.
  { exists new. split; [by eapply list_elem_of_lookup_2|]. destruct Mj as (? & ? & ?). by repeat split. }
  intros Hu k' r' Hk' Lr'. destruct (decide (k' = k)) as [->|]; [|by rewrite list_lookup_insert_ne].
  exfalso. apply (Hex Hu). congruence.
Qed.

(** Tables and times reached by allocations and releases, with a clock that
    does not go back. *)
Inductive tags_reachable : Z -> list mctp_req_tag -> Prop :=
  | tr_init now : tags_reachable now (replicate 16 (mk_req_tag 0 0 0 0))
  | tr_tick now now' rs : tags_reachable now rs -> now <= now' -> tags_reachable now' rs
  | tr_alloc now mctp local remote w r w' :
      tags_reachable now (m_req_tags (w_mctp w)) ->
      mctp <> NULL -> local <> 0 -> clock_reads now w ->
      mctp_alloc_tag mctp local remote w = Ok r w' ->
      tags_reachable now (m_req_tags (w_mctp w'))
  | tr_dealloc now bus b bd local remote tag w w' :
      tags_reachable now (m_req_tags (w_mctp w)) ->
      m_busses (w_mctp w) !! bus = Some b -> w_bindings w !! bus_binding b = Some bd ->
      bd_mctp bd <> NULL ->
      mctp_dealloc_tag bus local remote tag w = Ok tt w' ->
      tags_reachable now (m_req_tags (w_mctp w')).

Lemma reachable_inv now rs :
  tags_reachable now rs -> tags_unique now rs /\ tags_range rs /\ length rs = 16%nat.
Proof.
  induction 1 as [now|now now' rs _ (Hu & Hr & Hn) Hle
    |now mctp local remote w r w' _ (Hu & Hr & Hn) Hm Hl Hc Hrun
    |now bus b bd local remote tag w w' _ (Hu & Hr & Hn) Hb Hbd Hm Hrun].
  - split; [|split; [|done]].
    + intros i j r s Hi. apply lookup_replicate in Hi as [-> _]. intros _ Hlive.
      exfalso. apply Hlive. by left.
    + by apply Forall_replicate.
  - split; [by eapply tags_unique_later|done].
  - rewrite (mctp_alloc_tag_run _ _ _ now) in Hrun by done.
    pose proof (tag_choice_spec now local remote (m_tag_round_robin (w_mctp w)) _ Hr) as Hch.
    destruct (tag_choice _ _ _ _ _) as [[tag i]|]; [|by injection Hrun as _ <-].
    injection Hrun as _ <-. destruct Hch as (_ & Ht & Hfree & _). simpl.
    rewrite length_insert. split; [|split; [by apply tags_range_insert|done]].
    apply tags_unique_insert; [done|]. simpl. intros s Hin Ls _ (E1 & E2 & E3).
    apply Hfree. exists s. done.
  - rewrite (mctp_dealloc_tag_run _ b bd) in Hrun by done. injection Hrun as <-.
    case_decide; [done|]. simpl. split; [by apply dealloc_in_unique|].
    split; [by apply dealloc_in_range|]. unfold dealloc_in.
    destruct (list_find _ _) as [[]|]; [by rewrite length_insert|done].
Qed.

Lemma live_tags_NoDup now local remote rs :
  tags_unique now rs ->
  NoDup (rt_tag <$> filter (fun r => tag_live now r /\ tag_for local remote r) rs).
Proof.
  induction rs as [|r rs IH]; intros Hu; [constructor|].
  assert (Hu' : tags_unique now rs).
  { intros i j s t Hi Hj. intros. assert (S i = S j); [by eapply (Hu (S i) (S j) s t)|lia]. }
  rewrite filter_cons. case_decide as Hp; [|auto]. rewrite fmap_cons. constructor; [|auto].
  rewrite list_elem_of_fmap. intros (s & Htag & Hs).
  apply list_elem_of_filter in Hs as [(Ls & Es1 & Es2) Hin].
  destruct Hp as (Lr & Er1 & Er2). apply list_elem_of_lookup in Hin as [j Hj].
  assert (0%nat = S j); [|done]. apply (Hu 0%nat (S j) r s); simpl; congruence || done.
Qed.

(** C20: Between two endpoints, never are more than 8 requests outstanding, each
    with its own tag. *)
Theorem outstanding_tags_bound now rs local remote :
  tags_reachable now rs ->
  let live := filter (fun r => tag_live now r /\ tag_for local remote r) rs in
  NoDup (rt_tag <$> live) /\ (length live <= 8)%nat.
Proof.
  intros Hreach. apply reachable_inv in Hreach as (Hu & Hr & _). intros live.
  assert (Hnd : NoDup (rt_tag <$> live)) by by apply live_tags_NoDup.
  split; [done|]. rewrite <- (length_fmap rt_tag).
  change 8%nat with (length (Z.of_nat <$> seq 0 8)). apply submseteq_length, NoDup_submseteq; [done|].
  intros t Ht. apply list_elem_of_fmap in Ht as (r & -> & Hin).
  apply list_elem_of_filter in Hin as [_ Hin].
  unfold tags_range in Hr. rewrite Forall_forall in Hr. specialize (Hr r Hin).
  apply list_elem_of_fmap. exists (Z.to_nat (rt_tag r)). split; [lia|]. apply elem_of_seq. lia.
Qed.
End tags.
