(* ===== verification/Tx.v ===== *)
(** * Transmission (src/core.c)

    The one message each bus can be sending, cut into packets by
    [mctp_next_tx_pkt] and handed to the binding by [mctp_send_tx_queue]; the
    bus state machine of [mctp_binding_set_tx_enabled]; the entry points of the
    API.  A bus is designated by its index in [mctp->busses]. *)

From S2P Require Import Prelude State Alloc Pktbuf Reasm Tags.

Section tx.
Context {D : Type} `{!ExtAlloc D, !BindingOps D, !ClockOps D}.
Local Abbreviation IO := (M (world D)).

(** The capture callback, when one is set. *)
Definition call_capture (mctp pkt : Z) (outgoing : bool) : IO unit :=
  m ← mctp_get mctp;
  match m_capture m with
  | None => mret tt
  | Some f =>
      p ← load_pkt pkt;
      emit (EvCapture outgoing (pkt_wire p));;
      bop_capture f pkt outgoing (m_capture_data m)
  end.

Definition mctp_packet_tx (bus : nat) (pkt : Z) : IO Z :=
  b ← get_bus bus;
  bd ← get_binding (bus_binding b);
  if decide (bus_st b <> mctp_bus_state_tx_enabled) then mret (-1) else
  call_capture (bd_mctp bd) pkt true;;
  b ← get_bus bus;
  bd ← get_binding (bus_binding b);
  f ← call_target (bd_tx bd);
  p ← load_pkt pkt;
  rc ← bop_tx f (bus_binding b) pkt;
  emit (EvTx (bus_binding b) (pkt_wire p) rc);;
  mret rc.

(** The [flags_seq_tag] byte of an outgoing packet. *)
Definition tx_flags_seq_tag (to : bool) (tag seq : Z) (som eom : bool) : Z :=
  let f := u8 (Z.lor (Z.shiftl (Z.b2z to) MCTP_HDR_TO_SHIFT) (Z.shiftl tag MCTP_HDR_TAG_SHIFT)) in
  let f := if som then u8 (Z.lor f MCTP_HDR_FLAG_SOM) else f in
  let f := if eom then u8 (Z.lor f MCTP_HDR_FLAG_EOM) else f in
  u8 (Z.lor f (Z.shiftl seq MCTP_HDR_SEQ_SHIFT)).

Definition mctp_next_tx_pkt (bus : nat) : IO Z :=
  b ← get_bus bus;
  if decide (bus_tx_msg b = NULL) then mret NULL else
  bd ← get_binding (bus_binding b);
  let p := bus_tx_msgpos b in
  let msg_len := bus_tx_msglen b in
  let payload_len := msg_len -s p in
  let max_payload_len := MCTP_BODY_SIZE (bd_pkt_size bd) in
  let payload_len := if decide (payload_len > max_payload_len) then max_payload_len
                     else payload_len in
  pkt ← mctp_pktbuf_init (bus_binding b) (bd_tx_storage bd);
  pk ← load_pkt pkt;
  let hdr := mk_hdr (Z.land (bd_version bd) 15) (bus_tx_dest b) (bus_tx_src b)
    (tx_flags_seq_tag (bus_tx_to b) (bus_tx_tag b) (bus_tx_seq b)
       (bool_decide (p = 0)) (bool_decide (p +s payload_len >= msg_len))) in
  pkt_write pkt (mctp_pktbuf_hdr pk) (bytes_of_hdr hdr);;
  bs ← load_bytes (bus_tx_msg b) p payload_len;
  pkt_write pkt (mctp_pktbuf_data pk) bs;;
  pk ← load_pkt pkt;
  store_obj pkt (HPkt (set_pb_end (pb_start pk +s sizeof_mctp_hdr +s payload_len) pk));;
  upd_bus bus (set_bus_tx_pktlen payload_len);;
  mret pkt.

Definition mctp_tx_complete (bus : nat) : IO unit :=
  b ← get_bus bus;
  if decide (bus_tx_msg b = NULL) then mret tt else
  upd_bus bus (set_bus_tx_seq (Z.land (bus_tx_seq b + 1) MCTP_HDR_SEQ_MASK));;
  upd_bus bus (set_bus_tx_msgpos (bus_tx_msgpos b +s bus_tx_pktlen b));;
  if decide (bus_tx_msgpos b +s bus_tx_pktlen b >= bus_tx_msglen b) then
    bd ← get_binding (bus_binding b);
    __mctp_msg_free (bus_tx_msg b) (bd_mctp bd);;
    upd_bus bus (set_bus_tx_msg NULL)
  else mret tt.

(** The loop of [mctp_send_tx_queue], with at most [n] tests of its guard. *)
Fixpoint send_tx_queue_loop (n : nat) (bus : nat) : IO unit :=
  match n with
  | O => stuck OutOfFuel
  | S n =>
      b ← get_bus bus;
      if decide (bus_tx_msg b <> NULL /\ bus_st b = mctp_bus_state_tx_enabled) then
        pkt ← mctp_next_tx_pkt bus;
        rc ← mctp_packet_tx bus pkt;
        if decide (rc = 0) then
          mctp_tx_complete bus;;
          send_tx_queue_loop n bus
        else if decide (rc = - EBUSY) then mret tt
        else mctp_tx_complete bus
      else mret tt
  end.

(** Every packet but the only one of an empty message carries a byte of it:
    the length bounds the number of packets. *)
Definition mctp_send_tx_queue (bus : nat) : IO unit :=
  b ← get_bus bus;
  send_tx_queue_loop (S (S (Z.to_nat (bus_tx_msglen b)))) bus.

Definition mctp_binding_set_tx_enabled (binding : Z) (enable : bool) : IO unit :=
  bd ← get_binding binding;
  bus ← deref_bus (bd_bus bd);
  b ← get_bus bus;
  match bus_st b with
  | mctp_bus_state_constructed =>
      if negb enable then mret tt else
      if decide (bd_pkt_size bd < MCTP_PACKET_SIZE MCTP_BTU) then mret tt else
      upd_bus bus (set_bus_st mctp_bus_state_tx_enabled)
  | mctp_bus_state_tx_enabled =>
      if enable then mret tt else
      upd_bus bus (set_bus_st mctp_bus_state_tx_disabled)
  | mctp_bus_state_tx_disabled =>
      if negb enable then mret tt else
      upd_bus bus (set_bus_st mctp_bus_state_tx_enabled);;
      mctp_send_tx_queue bus
  end.

(** The [err:] path of [mctp_message_tx_on_bus]. *)
Definition tx_on_bus_err (bus : nat) (msg rc : Z) : IO Z :=
  b ← get_bus bus;
  bd ← get_binding (bus_binding b);
  __mctp_msg_free msg (bd_mctp bd);;
  mret rc.

Definition mctp_message_tx_on_bus (bus : nat) (src dest : Z) (tag_owner : bool)
    (msg_tag msg msg_len : Z) : IO Z :=
  b ← get_bus bus;
  if decide (bus_st b = mctp_bus_state_constructed) then tx_on_bus_err bus msg (- ENXIO) else
  if decide (Z.land msg_tag MCTP_HDR_TAG_MASK <> msg_tag) then tx_on_bus_err bus msg (- EINVAL) else
  bd ← get_binding (bus_binding b);
  massert (MCTP_BODY_SIZE (bd_pkt_size bd) >= MCTP_BTU);;
  if decide (bus_tx_msg b <> NULL) then tx_on_bus_err bus msg (- EBUSY) else
  upd_bus bus (fun b => set_bus_tx_tag msg_tag (set_bus_tx_to tag_owner
    (set_bus_tx_dest dest (set_bus_tx_src src (set_bus_tx_msgpos 0
      (set_bus_tx_msglen msg_len (set_bus_tx_msg msg b)))))));;
  mctp_send_tx_queue bus;;
  mret 0.

(** The bus towards an endpoint: for now, the first one. *)
Definition find_bus_for_eid (mctp dest : Z) : IO (option nat) :=
  m ← mctp_get mctp;
  mret (if decide (m_n_busses m = 0) then None else Some 0%nat).

Definition mctp_message_tx_alloced (mctp eid : Z) (tag_owner : bool)
    (msg_tag msg msg_len : Z) : IO Z :=
  if decide (Z.land msg_tag MCTP_HDR_TAG_MASK <> msg_tag) then
    __mctp_msg_free msg mctp;; mret (- EINVAL)
  else
  bus ← find_bus_for_eid mctp eid;
  match bus with
  | None => __mctp_msg_free msg mctp;; mret 0
  | Some bus =>
      b ← get_bus bus;
      mctp_message_tx_on_bus bus (bus_eid b) eid tag_owner msg_tag msg msg_len
  end.

(** [msg] is the memory the caller's pointer designates. *)
Definition mctp_message_tx (mctp eid : Z) (tag_owner : bool) (msg_tag : Z)
    (msg : list Z) (msg_len : Z) : IO Z :=
  copy ← mctp_msg_dup
    (if decide (0 <= msg_len <= zlen msg) then mret (slice 0 msg_len msg)
     else stuck BadAccess) msg_len mctp;
  if decide (copy = NULL) then mret (- ENOMEM) else
  mctp_message_tx_alloced mctp eid tag_owner msg_tag copy msg_len.

(** Returns the code and what was stored in [*ret_alloc_msg_tag]; [want] says
    whether that pointer is non-null. *)
Definition mctp_message_tx_request (mctp eid msg msg_len : Z) (want : bool)
    : IO (Z * option Z) :=
  bus ← find_bus_for_eid mctp eid;
  match bus with
  | None => __mctp_msg_free msg mctp;; mret (0, None)
  | Some bus =>
      b ← get_bus bus;
      '(rc, tag) ← mctp_alloc_tag mctp (bus_eid b) eid;
      match tag with
      | None => __mctp_msg_free msg mctp;; mret (rc, None)
      | Some alloc_tag =>
          rc ← mctp_message_tx_alloced mctp eid true alloc_tag msg msg_len;
          mret (rc, if want then Some alloc_tag else None)
      end
  end.

Definition mctp_is_tx_ready (mctp eid : Z) : IO bool :=
  bus ← find_bus_for_eid mctp eid;
  match bus with
  | None => mret true
  | Some bus => b ← get_bus bus; mret (bool_decide (bus_tx_msg b = NULL))
  end.
End tx.

(** ** Facts about transmission *)

(** What the capture callback sees of a packet. *)
Definition capture_of (m : mctp) (out : bool) (pkt : list Z) : list event :=
  match m_capture m with Some _ => [EvCapture out pkt] | None => [] end.

Section txfacts.
Context {D : Type} `{!ExtAlloc D, !BindingOps D, !ClockOps D}.
Implicit Types w : world D.

(** [I] is kept by the capture callback. *)
Lemma wp_capture_inv `{!QuietCapture D} (I : D -> Prop) mctp pkt p out (Q : unit -> world D -> Prop) w :
  mctp <> NULL -> w_heap w !! pkt = Some (HPkt p) -> I (w_dev w) ->
  (forall g data w1 w2, I (w_dev w1) -> bop_capture g pkt out data w1 = Ok tt w2 -> I (w_dev w2)) ->
  (forall d, I d -> Q tt (set_w_dev d (set_w_trace
     (w_trace w ++ capture_of (w_mctp w) out (pkt_wire p)) w))) ->
  wp (call_capture mctp pkt out) Q w.
Proof.
  intros Hm Hp HI0 HI HQ. unfold call_capture, capture_of in *. do 2 wp_step.
  destruct (m_capture (w_mctp w)) as [g|].
  - do 4 wp_step. set (w1 := set_w_trace _ w).
    destruct (quiet_capture g pkt out (m_capture_data (w_mctp w)) w1) as [d Hd].
    eapply wp_ok; [exact Hd|]. apply HQ. by apply (HI _ _ w1 _ HI0 Hd).
  - wp_step. specialize (HQ (w_dev w) HI0). rewrite app_nil_r in HQ. by destruct w.
Qed.

Lemma wp_capture `{!QuietCapture D} mctp pkt p out (Q : unit -> world D -> Prop) w :
  mctp <> NULL -> w_heap w !! pkt = Some (HPkt p) ->
  (forall d, Q tt (set_w_dev d (set_w_trace (w_trace w ++ capture_of (w_mctp w) out (pkt_wire p)) w))) ->
  wp (call_capture mctp pkt out) Q w.
Proof.
  intros Hm Hp HQ. by apply (wp_capture_inv (fun _ => True) _ _ p).
Qed.
End txfacts.

