(* ===== verification/Control.v ===== *)
(** * The control protocol handler (src/control.c)

    The mandatory MCTP control commands, answered by the stack itself.  Request
    and response structures are packed byte sequences (include/libmctp-cmds.h). *)

From S2P Require Import Prelude State Alloc Pktbuf Reasm Tags Tx.

Definition MCTP_CTRL_HDR_MSG_TYPE := 0.
Definition MCTP_CTRL_HDR_FLAG_REQUEST := 128.
Definition MCTP_CTRL_HDR_FLAG_DGRAM := 64.
Definition MCTP_CTRL_HDR_INSTANCE_ID_MASK := 31.
Definition MCTP_CTRL_CMD_SET_ENDPOINT_ID := 1.
Definition MCTP_CTRL_CMD_GET_ENDPOINT_ID := 2.
Definition MCTP_CTRL_CMD_GET_VERSION_SUPPORT := 4.
Definition MCTP_CTRL_CMD_GET_MESSAGE_TYPE_SUPPORT := 5.
Definition MCTP_CTRL_CMD_FIRST_TRANSPORT := 240.
Definition MCTP_CTRL_CMD_LAST_TRANSPORT := 255.
Definition MCTP_CTRL_CC_SUCCESS := 0.
Definition MCTP_CTRL_CC_ERROR := 1.
Definition MCTP_CTRL_CC_ERROR_INVALID_DATA := 2.
Definition MCTP_CTRL_CC_ERROR_INVALID_LENGTH := 3.
Definition MCTP_CTRL_CC_ERROR_UNSUPPORTED_CMD := 5.
Definition MCTP_CTRL_SET_EID_OP_MASK := 3.
Definition MCTP_CTRL_SET_EID_OP_SET := 0.
Definition MCTP_CTRL_SET_EID_OP_FORCE := 1.
Definition MCTP_CTRL_SET_EID_STATUS_ACCEPTED := 0.
Definition MCTP_CTRL_ENDPOINT_TYPE_SIMPLE := 0.
Definition MCTP_CTRL_ENDPOINT_ID_TYPE_STATIC := 1.
Definition MCTP_CTRL_VERSIONS_NOT_SUPPORTED := 128.

Definition sizeof_ctrl_msg_hdr := 3.
Definition sizeof_empty_resp := 4.
Definition sizeof_set_endpoint_id_req := 5.
Definition sizeof_set_endpoint_id_resp := 7.
Definition sizeof_get_endpoint_id_resp := 7.
Definition sizeof_get_version_req := 4.
Definition sizeof_get_version_resp := 5.
Definition sizeof_get_types_resp := 5.

Definition MCTP_PROTOCOL_COUNT := 4.
Definition MCTP_PROTOCOL_VERSIONS : list Z :=
  [241; 240; 255; 0;  241; 241; 255; 0;  241; 242; 255; 0;  241; 243; 243; 0].

Section control.
Context {D : Type} `{!ExtAlloc D, !BindingOps D}.
Local Abbreviation IO := (M (world D)).

(** One byte of a message. *)
Definition load_byte (p off : Z) : IO Z :=
  bs ← load_bytes p off 1;
  from_option_or BadAccess (head bs).

(** Fills the header at the start of the response [resp] from the request
    [req]. *)
Definition fill_resp (req resp : Z) : IO unit :=
  inst ← load_byte req 1;
  cmd ← load_byte req 2;
  store_bytes resp 0 [MCTP_CTRL_HDR_MSG_TYPE];;
  store_bytes resp 1 [Z.land inst MCTP_CTRL_HDR_INSTANCE_ID_MASK];;
  store_bytes resp 2 [cmd].

(** core.c *)
Definition mctp_bus_set_eid (binding eid : Z) : IO Z :=
  if decide (eid < 8 \/ eid = 255) then mret (- EINVAL) else
  bd ← get_binding binding;
  bus ← deref_bus (bd_bus bd);
  upd_bus bus (set_bus_eid eid);;
  mret 0.

Definition mctp_ctrl_set_endpoint_id (bus : nat) (src_eid msg_tag data len : Z) : IO Z :=
  if decide (len <> sizeof_set_endpoint_id_req) then mret MCTP_CTRL_CC_ERROR_INVALID_LENGTH else
  operation ← load_byte data 3;
  let op := Z.land operation MCTP_CTRL_SET_EID_OP_MASK in
  if decide (~ (op = MCTP_CTRL_SET_EID_OP_SET \/ op = MCTP_CTRL_SET_EID_OP_FORCE))
  then mret MCTP_CTRL_CC_ERROR_INVALID_DATA else
  b ← get_bus bus;
  eid ← load_byte data 4;
  rc ← mctp_bus_set_eid (bus_binding b) eid;
  if decide (rc <> 0) then mret MCTP_CTRL_CC_ERROR_INVALID_DATA else
  resp ← __mctp_msg_alloc sizeof_set_endpoint_id_resp (bus_mctp b);
  if decide (resp = NULL) then mret MCTP_CTRL_CC_ERROR else
  store_bytes resp 0 (replicate 7 0);;
  fill_resp data resp;;
  store_bytes resp 3 [MCTP_CTRL_CC_SUCCESS];;
  store_bytes resp 4 [MCTP_CTRL_SET_EID_STATUS_ACCEPTED];;
  store_bytes resp 5 [eid];;
  store_bytes resp 6 [0];;
  mctp_message_tx_alloced (bus_mctp b) src_eid false msg_tag resp sizeof_set_endpoint_id_resp;;
  mret MCTP_CTRL_CC_SUCCESS.

Definition mctp_ctrl_get_endpoint_id (bus : nat) (src_eid msg_tag data len : Z) : IO Z :=
  if decide (len <> sizeof_ctrl_msg_hdr) then mret MCTP_CTRL_CC_ERROR_INVALID_LENGTH else
  b ← get_bus bus;
  resp ← __mctp_msg_alloc sizeof_get_endpoint_id_resp (bus_mctp b);
  if decide (resp = NULL) then mret MCTP_CTRL_CC_ERROR else
  store_bytes resp 0 (replicate 7 0);;
  fill_resp data resp;;
  store_bytes resp 3 [MCTP_CTRL_CC_SUCCESS];;
  store_bytes resp 4 [bus_eid b];;
  store_bytes resp 5 [Z.lor MCTP_CTRL_ENDPOINT_TYPE_SIMPLE MCTP_CTRL_ENDPOINT_ID_TYPE_STATIC];;
  store_bytes resp 6 [0];;
  mctp_message_tx_alloced (bus_mctp b) src_eid false msg_tag resp sizeof_get_endpoint_id_resp;;
  mret MCTP_CTRL_CC_SUCCESS.

Definition mctp_ctrl_get_version (bus : nat) (src_eid msg_tag data len : Z) : IO Z :=
  if decide (len <> sizeof_get_version_req) then mret MCTP_CTRL_CC_ERROR_INVALID_LENGTH else
  msg_type ← load_byte data 3;
  if decide (~ (msg_type = 0 \/ msg_type = 255)) then mret MCTP_CTRL_VERSIONS_NOT_SUPPORTED else
  let total_sz := sizeof_get_version_resp + zlen MCTP_PROTOCOL_VERSIONS in
  b ← get_bus bus;
  resp ← __mctp_msg_alloc total_sz (bus_mctp b);
  if decide (resp = NULL) then mret MCTP_CTRL_CC_ERROR else
  store_bytes resp 0 (replicate (Z.to_nat total_sz) 0);;
  fill_resp data resp;;
  store_bytes resp 3 [MCTP_CTRL_CC_SUCCESS];;
  store_bytes resp 4 [MCTP_PROTOCOL_COUNT];;
  store_bytes resp 5 MCTP_PROTOCOL_VERSIONS;;
  mctp_message_tx_alloced (bus_mctp b) src_eid false msg_tag resp total_sz;;
  mret MCTP_CTRL_CC_SUCCESS.

Definition mctp_ctrl_get_types (bus : nat) (src_eid msg_tag data len : Z) : IO Z :=
  if decide (len <> sizeof_ctrl_msg_hdr) then mret MCTP_CTRL_CC_ERROR_INVALID_LENGTH else
  b ← get_bus bus;
  m ← mctp_get (bus_mctp b);
  let num := ct_num_msg_types (m_control m) in
  let total_sz := sizeof_get_types_resp +s num in
  resp ← __mctp_msg_alloc total_sz (bus_mctp b);
  if decide (resp = NULL) then mret MCTP_CTRL_CC_ERROR else
  store_bytes resp 0 (replicate (Z.to_nat total_sz) 0);;
  fill_resp data resp;;
  store_bytes resp 3 [MCTP_CTRL_CC_SUCCESS];;
  store_bytes resp 4 [u8 num];;
  (if decide (num <= zlen (ct_msg_types (m_control m))) then mret tt else stuck BadAccess);;
  store_bytes resp 5 (slice 0 num (ct_msg_types (m_control m)));;
  mctp_message_tx_alloced (bus_mctp b) src_eid false msg_tag resp total_sz;;
  mret MCTP_CTRL_CC_SUCCESS.

Definition reply_error (mctp src_eid msg_tag ctrl_hdr ccode : Z) : IO unit :=
  resp ← __mctp_msg_alloc sizeof_empty_resp mctp;
  if decide (resp = NULL) then mret tt else
  store_bytes resp 0 (replicate 4 0);;
  fill_resp ctrl_hdr resp;;
  store_bytes resp 3 [ccode];;
  mctp_message_tx_alloced mctp src_eid false msg_tag resp sizeof_empty_resp;;
  mret tt.

(** The [switch] of [mctp_control_handler]: the completion code. *)
Definition ctrl_dispatch (bus : nat) (src_eid msg_tag data len cmd : Z) : IO Z :=
  if decide (cmd = MCTP_CTRL_CMD_SET_ENDPOINT_ID) then
    mctp_ctrl_set_endpoint_id bus src_eid msg_tag data len
  else if decide (cmd = MCTP_CTRL_CMD_GET_ENDPOINT_ID) then
    mctp_ctrl_get_endpoint_id bus src_eid msg_tag data len
  else if decide (cmd = MCTP_CTRL_CMD_GET_VERSION_SUPPORT) then
    mctp_ctrl_get_version bus src_eid msg_tag data len
  else if decide (cmd = MCTP_CTRL_CMD_GET_MESSAGE_TYPE_SUPPORT) then
    mctp_ctrl_get_types bus src_eid msg_tag data len
  else mret MCTP_CTRL_CC_ERROR_UNSUPPORTED_CMD.

Definition mctp_control_handler (bus : nat) (src_eid : Z) (tag_owner : bool)
    (msg_tag data len : Z) : IO bool :=
  if negb tag_owner then mret false else
  if decide (len < 1) then mret false else
  ic_msg_type ← load_byte data 0;
  if decide (ic_msg_type <> MCTP_CTRL_HDR_MSG_TYPE) then mret false else
  if decide (len < sizeof_ctrl_msg_hdr) then mret true else
  rq_dgram_inst ← load_byte data 1;
  if decide (Z.land rq_dgram_inst (Z.lor MCTP_CTRL_HDR_FLAG_REQUEST MCTP_CTRL_HDR_FLAG_DGRAM)
             <> MCTP_CTRL_HDR_FLAG_REQUEST) then mret true else
  cmd ← load_byte data 2;
  cc ← ctrl_dispatch bus src_eid msg_tag data len cmd;
  (if decide (cc <> 0) then
     b ← get_bus bus;
     reply_error (bus_mctp b) src_eid msg_tag data cc
   else mret tt);;
  mret true.

(** The types reported by Get Message Type Support. *)
Definition ctrl_types (c : mctp_control) : list Z :=
  take (Z.to_nat (ct_num_msg_types c)) (ct_msg_types c).

Definition mctp_control_add_type (mctp msg_type : Z) : IO Z :=
  m ← mctp_get mctp;
  let c := m_control m in
  if decide (msg_type ∈ ctrl_types c) then mret 0 else
  if decide (ct_num_msg_types c = MCTP_CONTROL_MAX_TYPES) then mret (- ENOSPC) else
  mctp_upd mctp (set_m_control (mk_control
    (<[Z.to_nat (ct_num_msg_types c) := msg_type]> (ct_msg_types c))
    (ct_num_msg_types c +s 1)));;
  mret 0.

(** The loop of [mctp_control_remove_type] from index [i], with [n] bounding
    the iterations left. *)
Fixpoint remove_type_loop (n : nat) (i msg_type : Z) (c : mctp_control) : mctp_control :=
  match n with
  | O => c
  | S n =>
      if decide (i < ct_num_msg_types c) then
        if decide (ct_msg_types c !! Z.to_nat i = Some msg_type) then
          remove_type_loop n (i + 1) msg_type (mk_control
            (splice i (slice (i + 1) (ct_num_msg_types c - (i + 1)) (ct_msg_types c))
               (ct_msg_types c))
            (ct_num_msg_types c - 1))
        else remove_type_loop n (i + 1) msg_type c
      else c
  end.

Definition mctp_control_remove_type (mctp msg_type : Z) : IO unit :=
  mctp_upd mctp (fun m => set_m_control
    (remove_type_loop (Z.to_nat (ct_num_msg_types (m_control m))) 0 msg_type (m_control m)) m).
End control.
