(* ===== verification/Types.v ===== *)
(** * The list of supported message types

    [mctp_control_add_type] and [mctp_control_remove_type] keep the array of
    control.c a list without repetitions, of at most ten types. *)

From S2P Require Import Prelude State Alloc Pktbuf Reasm Tags Tx Control.

(** The array has its ten bytes, the first [ct_num_msg_types] of them distinct. *)
Record types_ok (c : mctp_control) : Prop := {
  ty_len : zlen (ct_msg_types c) = MCTP_CONTROL_MAX_TYPES;
  ty_num : 0 <= ct_num_msg_types c <= MCTP_CONTROL_MAX_TYPES;
  ty_distinct : NoDup (ctrl_types c);
}.

Lemma zlen_ctrl_types c : types_ok c -> zlen (ctrl_types c) = ct_num_msg_types c.
Proof.
  intros [Hl Hn _]. unfold ctrl_types, zlen in *. rewrite length_take. lia.
Qed.

(** ** Adding *)

Definition type_added (ty : Z) (c : mctp_control) : mctp_control :=
  mk_control (<[Z.to_nat (ct_num_msg_types c) := ty]> (ct_msg_types c))
    (ct_num_msg_types c +s 1).

Lemma type_added_ok ty c :
  types_ok c -> ty ∉ ctrl_types c -> ct_num_msg_types c <> MCTP_CONTROL_MAX_TYPES ->
  types_ok (type_added ty c) /\ ctrl_types (type_added ty c) = ctrl_types c ++ [ty].
Proof.
  intros [Hl Hn Hd] Hty Hmax. unfold MCTP_CONTROL_MAX_TYPES in *.
  assert (E : ct_num_msg_types (type_added ty c) = ct_num_msg_types c + 1)
    by (simpl; apply sz_small; lia).
  assert (Et : ctrl_types (type_added ty c) = ctrl_types c ++ [ty]).
  { unfold ctrl_types. rewrite E. unfold type_added. cbn [ct_msg_types].
    set (k := Z.to_nat (ct_num_msg_types c)).
    replace (Z.to_nat (ct_num_msg_types c + 1)) with (S k) by lia.
    assert (Hk : (k < length (ct_msg_types c))%nat) by (unfold zlen in Hl; lia).
    rewrite (take_S_r _ _ ty) by by apply list_lookup_insert_eq.
    by rewrite take_insert_ge by lia. }
  split; [|done]. split; [|rewrite E; unfold MCTP_CONTROL_MAX_TYPES; lia|].
  - simpl. unfold zlen in *. by rewrite length_insert.
  - rewrite Et. apply NoDup_app. split; [done|]. split; [set_solver|apply NoDup_singleton].
Qed.

(** ** Removing *)

Definition type_deleted (k : nat) (c : mctp_control) : mctp_control :=
  mk_control
    (splice (Z.of_nat k)
       (slice (Z.of_nat k + 1) (ct_num_msg_types c - (Z.of_nat k + 1)) (ct_msg_types c))
       (ct_msg_types c)) (ct_num_msg_types c - 1).

Lemma type_deleted_types k c :
  types_ok c -> Z.of_nat k < ct_num_msg_types c ->
  ctrl_types (type_deleted k c) = take k (ctrl_types c) ++ drop (S k) (ctrl_types c).
Proof.
  intros [Hl Hn _] Hk. unfold MCTP_CONTROL_MAX_TYPES, zlen in *.
  unfold ctrl_types, type_deleted. cbn [ct_msg_types ct_num_msg_types].
  unfold splice, slice. rewrite Nat2Z.id.
  replace (Z.to_nat (Z.of_nat k + 1)) with (S k) by lia.
  set (l := ct_msg_types c) in *. set (num := Z.to_nat (ct_num_msg_types c)).
  replace (Z.to_nat (ct_num_msg_types c - (Z.of_nat k + 1))) with (num - S k)%nat by lia.
  replace (Z.to_nat (ct_num_msg_types c - 1)) with (k + (num - S k))%nat by lia.
  rewrite take_take, Nat.min_l by lia. rewrite skipn_firstn_comm, app_assoc.
  rewrite take_app_le by (rewrite length_app, !length_take, length_drop; lia).
  rewrite take_ge; [done|]. rewrite length_app, !length_take, length_drop. lia.
Qed.

Lemma filter_one_out (l1 l2 : list Z) ty :
  NoDup (l1 ++ ty :: l2) -> filter (fun x => x <> ty) (l1 ++ ty :: l2) = l1 ++ l2.
Proof.
  intros Hd. apply NoDup_app in Hd as (H1 & H12 & H2). apply NoDup_cons in H2 as [H2 H2'].
  assert (Hall : forall l : list Z, ty ∉ l -> filter (fun x => x <> ty) l = l).
  { induction l as [|x l IH]; intros Hn; [done|]. rewrite filter_cons, decide_True by set_solver.
    by rewrite IH by set_solver. }
  rewrite filter_app, filter_cons, decide_False by naive_solver.
  rewrite !Hall; [done|done|]. intros Hin. apply (H12 ty Hin). set_solver.
Qed.

Lemma type_deleted_ok k ty c :
  types_ok c -> ctrl_types c !! k = Some ty ->
  types_ok (type_deleted k c) /\
  ctrl_types (type_deleted k c) = filter (fun x => x <> ty) (ctrl_types c).
Proof.
  intros Hok Hk. pose proof (zlen_ctrl_types c Hok) as Hz.
  pose proof (lookup_lt_Some _ _ _ Hk) as Hlt. unfold zlen in Hz.
  pose proof Hok as [Hl Hn Hd].
  assert (Et : ctrl_types (type_deleted k c) = filter (fun x => x <> ty) (ctrl_types c)).
  { rewrite type_deleted_types by (done || lia).
    rewrite <- (take_drop_middle _ _ _ Hk) at 3. rewrite filter_one_out; [done|].
    by rewrite take_drop_middle. }
  split; [|done]. split.
  - simpl. unfold MCTP_CONTROL_MAX_TYPES in *. rewrite zlen_splice; [done|lia|].
    rewrite zlen_slice; unfold zlen in *; lia.
  - simpl. lia.
  - rewrite Et. by apply NoDup_filter.
Qed.

(** The loop when the type does not occur from [i] on, and when it does. *)
Lemma remove_loop_none n i ty c :
  0 <= i -> (forall k, i <= Z.of_nat k < ct_num_msg_types c -> ct_msg_types c !! k <> Some ty) ->
  remove_type_loop n i ty c = c.
Proof.
  revert i. induction n as [|n IH]; intros i Hi Hno; [done|]. simpl. case_decide; [|done].
  rewrite decide_False by (apply Hno; lia). apply IH; [lia|]. intros k Hk. apply Hno. lia.
Qed.

Lemma ctrl_types_lookup c k :
  Z.of_nat k < ct_num_msg_types c -> ctrl_types c !! k = ct_msg_types c !! k.
Proof. intros Hk. unfold ctrl_types. apply lookup_take_lt. lia. Qed.

Lemma remove_loop_at n i ty c k :
  types_ok c -> 0 <= i <= Z.of_nat k -> ctrl_types c !! k = Some ty ->
  Z.of_nat k - i < Z.of_nat n -> remove_type_loop n i ty c = type_deleted k c.
Proof.
  intros Hok. pose proof (zlen_ctrl_types c Hok) as Hz. revert i.
  induction n as [|n IH]; intros i Hi Hk Hn; [lia|].
  pose proof (lookup_lt_Some _ _ _ Hk) as Hlt. unfold zlen in Hz.
  cbn [remove_type_loop]. rewrite decide_True by lia.
  destruct (decide (i = Z.of_nat k)) as [->|Hne].
  - rewrite Nat2Z.id, decide_True by (by rewrite <- ctrl_types_lookup by lia).
    fold (type_deleted k c). destruct (type_deleted_ok k ty c Hok Hk) as [Hok' Et].
    apply remove_loop_none; [lia|]. intros j Hj Hc.
    rewrite <- ctrl_types_lookup, Et in Hc by lia. apply list_elem_of_lookup_2 in Hc.
    by apply list_elem_of_filter in Hc as [? _].
  - rewrite decide_False; [apply IH; [lia|done|lia]|]. intros Hc.
    rewrite <- ctrl_types_lookup in Hc by lia.
    pose proof (NoDup_lookup _ _ _ _ (ty_distinct c Hok) Hc Hk). lia.
Qed.

Lemma remove_type_ok ty c :
  types_ok c ->
  let c' := remove_type_loop (Z.to_nat (ct_num_msg_types c)) 0 ty c in
  types_ok c' /\ ctrl_types c' = filter (fun x => x <> ty) (ctrl_types c).
Proof.
  intros Hok c'. destruct (decide (ty ∈ ctrl_types c)) as [Hin|Hni].
  - apply list_elem_of_lookup in Hin as [k Hk]. unfold c'.
    pose proof (lookup_lt_Some _ _ _ Hk) as Hlt. pose proof (zlen_ctrl_types c Hok) as Hz.
    unfold zlen in Hz. rewrite (remove_loop_at _ _ _ _ k) by (done || lia).
    by apply type_deleted_ok.
  - assert (Hc : c' = c).
    { apply remove_loop_none; [lia|]. intros k Hk Hc. apply Hni.
      rewrite <- ctrl_types_lookup in Hc by lia. by eapply list_elem_of_lookup_2. }
    rewrite Hc. split; [done|]. clear -Hni. induction (ctrl_types c) as [|x l IH]; [done|].
    rewrite filter_cons, decide_True by set_solver. by rewrite <- IH by set_solver.
Qed.

Section ops.
Context {D : Type} `{!ExtAlloc D}.
Implicit Types w : world D.

Definition with_control (c : mctp_control) (w : world D) : world D :=
  set_w_mctp (set_m_control c (w_mctp w)) w.

(** C32: The list of supported message types behaves as a set of at most ten:
    adding a type that is there has no effect, adding one to a full list is
    refused with [-ENOSPC], and otherwise it comes last; removing a type leaves
    the others in order.  No type is ever listed twice. *)
Theorem control_types_set mctp ty w :
  mctp <> NULL -> types_ok (m_control (w_mctp w)) ->
  let ts := ctrl_types (m_control (w_mctp w)) in
  (exists c' rc, mctp_control_add_type mctp ty w = Ok rc (with_control c' w) /\ types_ok c' /\
     if decide (ty ∈ ts) then rc = 0 /\ ctrl_types c' = ts
     else if decide (zlen ts = MCTP_CONTROL_MAX_TYPES) then rc = - ENOSPC /\ ctrl_types c' = ts
     else rc = 0 /\ ctrl_types c' = ts ++ [ty]) /\
  (exists c', mctp_control_remove_type mctp ty w = Ok tt (with_control c' w) /\ types_ok c' /\
     ctrl_types c' = filter (fun x => x <> ty) ts).
Proof.
  intros Hm Hok ts. unfold ts. set (c := m_control (w_mctp w)) in *.
  assert (Hid : w = with_control c w) by (by destruct w as [? ? ? ? []]).
  split; [|destruct (remove_type_ok ty c Hok) as [H1 H2]; eexists; split; [|by split];
    by apply wp_run_eq, wp_mctp_upd].
  rewrite (zlen_ctrl_types c Hok). unfold mctp_control_add_type, mbind, M_bind, mctp_get, gets.
  rewrite decide_False by done. fold c. unfold mctp_upd, modify.
  rewrite (decide_False (P := mctp = NULL)) by done.
  case_decide; [|case_decide].
  - exists c, 0. by rewrite <- Hid.
  - exists c, (- ENOSPC). by rewrite <- Hid.
  - destruct (type_added_ok ty c Hok) as [H1 H2]; [done..|]. by exists (type_added ty c), 0.
Qed.
End ops.
