(* ===== verification/Rx.v ===== *)
(** * Reception (src/core.c, mctp_bus_rx and mctp_rx)

    A packet handed up by a binding is either a whole message or a fragment
    that is added to a reassembly context; a complete message is delivered
    locally (control handler, then the application's callback) or bridged to
    the other busses. *)

From S2P Require Import Prelude State Alloc Pktbuf Reasm Tags Tx Control.

Section rx.
Context {D : Type} `{!ExtAlloc D, !BindingOps D, !RxOps D}.
Local Abbreviation IO := (M (world D)).

Definition mctp_ctrl_cmd_is_transport (command_code : Z) : Prop :=
  MCTP_CTRL_CMD_FIRST_TRANSPORT <= command_code /\
  command_code <= MCTP_CTRL_CMD_LAST_TRANSPORT.
#[export] Instance is_transport_dec c : Decision (mctp_ctrl_cmd_is_transport c).
Proof. unfold mctp_ctrl_cmd_is_transport. apply _. Defined.

Definition mctp_ctrl_handle_msg (bus : nat) (src msg_tag : Z) (tag_owner : bool)
    (buffer length : Z) : IO bool :=
  command_code ← load_byte buffer 2;
  if decide (mctp_ctrl_cmd_is_transport command_code) then
    b ← get_bus bus;
    bd ← get_binding (bus_binding b);
    match bd_control_rx bd with
    | Some f =>
        bs ← load_bytes buffer 0 length;
        emit (EvCtrlRx f (bd_control_rx_data bd) src tag_owner msg_tag bs);;
        rop_rx f src tag_owner msg_tag (bd_control_rx_data bd) buffer length;;
        mret true
    | None => mret false
    end
  else mctp_control_handler bus src tag_owner msg_tag buffer length.

Definition mctp_rx_dest_is_local (b : mctp_bus) (dest : Z) : Prop :=
  dest = bus_eid b \/ dest = MCTP_EID_NULL \/ dest = MCTP_EID_BROADCAST.
#[export] Instance dest_is_local_dec b d : Decision (mctp_rx_dest_is_local b d).
Proof. unfold mctp_rx_dest_is_local. apply _. Defined.

Definition mctp_ctrl_cmd_is_request (buf : Z) : IO bool :=
  ic_msg_type ← load_byte buf 0;
  if decide (ic_msg_type = MCTP_CTRL_HDR_MSG_TYPE) then
    rq_dgram_inst ← load_byte buf 1;
    mret (bool_decide (Z.land rq_dgram_inst MCTP_CTRL_HDR_FLAG_REQUEST <> 0))
  else mret false.

(** The [message_rx] callback, when one is set. *)
Definition call_message_rx (mctp src : Z) (tag_owner : bool) (msg_tag buf len : Z) : IO unit :=
  m ← mctp_get mctp;
  match m_message_rx m with
  | None => mret tt
  | Some f =>
      bs ← load_bytes buf 0 len;
      emit (EvRx f (m_message_rx_data m) src tag_owner msg_tag bs);;
      rop_rx f src tag_owner msg_tag (m_message_rx_data m) buf len
  end.

(** The bridging loop of [mctp_rx] from bus [i] on, with [n] bounding the
    iterations left. *)
Fixpoint bridge_loop (n i : nat) (mctp : Z) (bus : nat) (src dest : Z) (tag_owner : bool)
    (msg_tag buf len : Z) : IO unit :=
  match n with
  | O => stuck OutOfFuel
  | S n =>
      m ← mctp_get mctp;
      if decide (Z.of_nat i < m_n_busses m) then
        if decide (i = bus) then
          bridge_loop n (S i) mctp bus src dest tag_owner msg_tag buf len
        else
          copy ← mctp_msg_dup (load_bytes buf 0 len) len mctp;
          if decide (copy = NULL) then mret tt else
          mctp_message_tx_on_bus i src dest tag_owner msg_tag copy len;;
          bridge_loop n (S i) mctp bus src dest tag_owner msg_tag buf len
      else mret tt
  end.

(** The local half of [mctp_rx]. *)
Definition rx_local (mctp : Z) (bus : nat) (src dest : Z) (tag_owner : bool)
    (msg_tag buf len : Z) : IO bool :=
  (if tag_owner then mret tt else mctp_dealloc_tag bus dest src msg_tag);;
  handled ←
    (if decide (len >= sizeof_ctrl_msg_hdr) then
       req ← mctp_ctrl_cmd_is_request buf;
       if req : bool then mctp_ctrl_handle_msg bus src msg_tag tag_owner buf len
       else mret false
     else mret false);
  (if handled : bool then mret tt
   else call_message_rx mctp src tag_owner msg_tag buf len);;
  mret handled.

Definition mctp_rx (mctp : Z) (bus : nat) (src dest : Z) (tag_owner : bool)
    (msg_tag buf len : Z) : IO unit :=
  massert (buf <> NULL);;
  m ← mctp_get mctp;
  b ← get_bus bus;
  handled ←
    (if decide (m_route_policy m = ROUTE_ENDPOINT /\ mctp_rx_dest_is_local b dest)
     then rx_local mctp bus src dest tag_owner msg_tag buf len
     else mret false);
  if handled : bool then mret tt else
  m ← mctp_get mctp;
  if decide (m_route_policy m = ROUTE_BRIDGE)
  then bridge_loop (S (Z.to_nat MCTP_MAX_BUSSES)) 0 mctp bus src dest tag_owner msg_tag buf len
  else mret tt.

(** The four cases of the [switch] of [mctp_bus_rx].  [hdr] is the packet's
    header; [seq], [tag] and [tag_owner] are decoded from it. *)
Definition rx_single (mctp : Z) (bus : nat) (pkt : Z) (hdr : mctp_hdr)
    (tag_owner : bool) (tag : Z) : IO unit :=
  p ← load_pkt pkt;
  let len := pb_end p -s pb_mctp_hdr_off p -s sizeof_mctp_hdr in
  buf ← mctp_msg_dup (pkt_read pkt (mctp_pktbuf_data p) len) len mctp;
  if decide (buf = NULL) then mret tt else
  mctp_rx mctp bus (src hdr) (dest hdr) tag_owner tag buf len;;
  __mctp_msg_free buf mctp.

Definition rx_start (mctp : Z) (bus : nat) (pkt : Z) (hdr : mctp_hdr) (tag seq : Z) : IO unit :=
  ctx ← mctp_msg_ctx_lookup mctp (src hdr) (dest hdr) tag;
  ctx ← match ctx with
        | Some ctx => mctp_msg_ctx_reset ctx;; mret (Some ctx)
        | None => mctp_msg_ctx_create mctp (src hdr) (dest hdr) tag
        end;
  match ctx with
  | None => mret tt
  | Some ctx =>
      p ← load_pkt pkt;
      upd_ctx ctx (set_mc_fragment_size (mctp_pktbuf_size p));;
      rc ← mctp_msg_ctx_add_pkt ctx pkt;
      if decide (rc <> 0) then mctp_msg_ctx_drop bus ctx
      else upd_ctx ctx (set_mc_last_seq seq)
  end.

Definition rx_end (mctp : Z) (bus : nat) (pkt : Z) (hdr : mctp_hdr)
    (tag_owner : bool) (tag seq : Z) : IO unit :=
  ctx ← mctp_msg_ctx_lookup mctp (src hdr) (dest hdr) tag;
  match ctx with
  | None => mret tt
  | Some ctx =>
      c ← get_ctx ctx;
      let exp_seq := (mc_last_seq c + 1) mod 4 in
      if decide (exp_seq <> seq) then mctp_msg_ctx_drop bus ctx else
      p ← load_pkt pkt;
      if decide (mctp_pktbuf_size p > mc_fragment_size c) then mctp_msg_ctx_drop bus ctx else
      rc ← mctp_msg_ctx_add_pkt ctx pkt;
      (if decide (rc = 0) then
         c ← get_ctx ctx;
         mctp_rx mctp bus (mc_src c) (mc_dest c) tag_owner tag (mc_buf c) (mc_buf_size c)
       else mret tt);;
      mctp_msg_ctx_drop bus ctx
  end.

Definition rx_middle (mctp : Z) (bus : nat) (pkt : Z) (hdr : mctp_hdr) (tag seq : Z) : IO unit :=
  ctx ← mctp_msg_ctx_lookup mctp (src hdr) (dest hdr) tag;
  match ctx with
  | None => mret tt
  | Some ctx =>
      c ← get_ctx ctx;
      let exp_seq := (mc_last_seq c + 1) mod 4 in
      if decide (exp_seq <> seq) then mctp_msg_ctx_drop bus ctx else
      p ← load_pkt pkt;
      if decide (mctp_pktbuf_size p <> mc_fragment_size c) then mctp_msg_ctx_drop bus ctx else
      rc ← mctp_msg_ctx_add_pkt ctx pkt;
      if decide (rc <> 0) then mctp_msg_ctx_drop bus ctx
      else upd_ctx ctx (set_mc_last_seq seq)
  end.

(** The fields of [flags_seq_tag]. *)
Definition fst_flags (f : Z) : Z := Z.land f (Z.lor MCTP_HDR_FLAG_SOM MCTP_HDR_FLAG_EOM).
Definition fst_tag (f : Z) : Z := Z.land (Z.shiftr f MCTP_HDR_TAG_SHIFT) MCTP_HDR_TAG_MASK.
Definition fst_seq (f : Z) : Z := Z.land (Z.shiftr f MCTP_HDR_SEQ_SHIFT) MCTP_HDR_SEQ_MASK.
Definition fst_to (f : Z) : bool :=
  bool_decide (Z.land (Z.shiftr f MCTP_HDR_TO_SHIFT) MCTP_HDR_TO_MASK <> 0).

Definition mctp_bus_rx (binding pkt : Z) : IO unit :=
  bd ← get_binding binding;
  let mctp := bd_mctp bd in
  massert (bd_bus bd <> None);;
  bus ← deref_bus (bd_bus bd);
  p ← load_pkt pkt;
  if decide (mctp_pktbuf_size p < sizeof_mctp_hdr) then mret tt else
  call_capture mctp pkt false;;
  hdr ← load_hdr pkt;
  if decide (src hdr = MCTP_EID_BROADCAST) then mret tt else
  m ← mctp_get mctp;
  b ← get_bus bus;
  if decide (m_route_policy m = ROUTE_ENDPOINT /\ ~ mctp_rx_dest_is_local b (dest hdr))
  then mret tt else
  let f := flags_seq_tag hdr in
  let flags := fst_flags f in
  if decide (flags = Z.lor MCTP_HDR_FLAG_SOM MCTP_HDR_FLAG_EOM) then
    rx_single mctp bus pkt hdr (fst_to f) (fst_tag f)
  else if decide (flags = MCTP_HDR_FLAG_SOM) then
    rx_start mctp bus pkt hdr (fst_tag f) (fst_seq f)
  else if decide (flags = MCTP_HDR_FLAG_EOM) then
    rx_end mctp bus pkt hdr (fst_to f) (fst_tag f) (fst_seq f)
  else if decide (flags = 0) then
    rx_middle mctp bus pkt hdr (fst_tag f) (fst_seq f)
  else mret tt.
End rx.
