(* ===== verification/RxSpec.v ===== *)
(** * Reception against its specification

    [spec_rx] says what receiving one packet means, on the finite map of the
    messages being received; [RxRefine] and [Endpoint] show that [mctp_bus_rx] does
    exactly that on an endpoint: it returns, completes the messages the
    specification completes and neither loses nor leaks a buffer. *)

From S2P Require Import Prelude State Alloc Pktbuf Reasm Tags Tx Control Rx.

(** ** The specification *)

(** A message handed to the application. *)
Record delivery := mk_delivery {
  dl_src : Z; dl_dest : Z; dl_to : bool; dl_tag : Z; dl_msg : list Z;
}.

Lemma fst_tag_range f : 0 <= fst_tag f < 8.
Proof.
  unfold fst_tag. change MCTP_HDR_TAG_MASK with (Z.ones 3). rewrite Z.land_ones by lia.
  apply Z.mod_pos_bound. lia.
Qed.

Definition hdr_key (h : mctp_hdr) : rkey := (src h, dest h, fst_tag (flags_seq_tag h)).
Definition hdr_seq (h : mctp_hdr) : Z := fst_seq (flags_seq_tag h).

Definition hdr_delivery (h : mctp_hdr) (msg : list Z) : delivery :=
  mk_delivery (src h) (dest h) (fst_to (flags_seq_tag h)) (fst_tag (flags_seq_tag h)) msg.

Definition pkt_len (payload : list Z) : Z := zlen payload + sizeof_mctp_hdr.

Definition fits (p : partial) (payload : list Z) : Prop :=
  zlen (p_data p) + zlen payload <= p_cap p.
#[export] Instance fits_dec p l : Decision (fits p l).
Proof. unfold fits. apply _. Defined.

Definition in_sequence (p : partial) (h : mctp_hdr) : Prop := hdr_seq h = (p_seq p + 1) mod 4.
#[export] Instance in_sequence_dec p h : Decision (in_sequence p h).
Proof. unfold in_sequence. apply _. Defined.

Abbreviation rmap := (gmap rkey partial).

(** The only packet of a message. *)
Definition spec_single (mem_ok : bool) (r : rmap) (h : mctp_hdr) (payload : list Z)
    : rmap * option delivery :=
  (r, if mem_ok then Some (hdr_delivery h payload) else None).

(** The first packet of several: starts, or starts over. *)
Definition spec_start (max : Z) (mem_ok : bool) (r : rmap) (h : mctp_hdr) (payload : list Z)
    : rmap * option delivery :=
  let begin cap := <[hdr_key h := mk_partial payload cap (pkt_len payload) (hdr_seq h)]> r in
  (match r !! hdr_key h with
   | Some p => if decide (zlen payload <= p_cap p) then begin (p_cap p)
               else delete (hdr_key h) r
   | None => if decide (Z.of_nat (size r) < MCTP_REASSEMBLY_CTXS /\ mem_ok = true /\
                        zlen payload <= max) then begin max else r
   end, None).

(** The last packet: delivers the message or gives it up. *)
Definition spec_end (r : rmap) (h : mctp_hdr) (payload : list Z) : rmap * option delivery :=
  match r !! hdr_key h with
  | None => (r, None)
  | Some p =>
      (delete (hdr_key h) r,
       if decide (in_sequence p h /\ pkt_len payload <= p_frag p /\ fits p payload)
       then Some (hdr_delivery h (p_data p ++ payload)) else None)
  end.

(** A packet in the middle: extends the message or gives it up. *)
Definition spec_middle (r : rmap) (h : mctp_hdr) (payload : list Z) : rmap * option delivery :=
  (match r !! hdr_key h with
   | None => r
   | Some p =>
       if decide (in_sequence p h /\ pkt_len payload = p_frag p /\ fits p payload)
       then <[hdr_key h := mk_partial (p_data p ++ payload) (p_cap p) (p_frag p) (hdr_seq h)]> r
       else delete (hdr_key h) r
   end, None).

Definition spec_flags (max : Z) (mem_ok : bool) (r : rmap) (h : mctp_hdr) (payload : list Z)
    : rmap * option delivery :=
  let flags := fst_flags (flags_seq_tag h) in
  if decide (flags = Z.lor MCTP_HDR_FLAG_SOM MCTP_HDR_FLAG_EOM) then spec_single mem_ok r h payload
  else if decide (flags = MCTP_HDR_FLAG_SOM) then spec_start max mem_ok r h payload
  else if decide (flags = MCTP_HDR_FLAG_EOM) then spec_end r h payload
  else if decide (flags = 0) then spec_middle r h payload
  else (r, None).

(** Receiving the bytes of a packet: what an endpoint [eid] accepts. *)
Definition rx_accepts (eid : Z) (h : mctp_hdr) : Prop :=
  src h <> MCTP_EID_BROADCAST /\
  (dest h = eid \/ dest h = MCTP_EID_NULL \/ dest h = MCTP_EID_BROADCAST).
#[export] Instance rx_accepts_dec eid h : Decision (rx_accepts eid h).
Proof. unfold rx_accepts. apply _. Defined.

Definition spec_rx (eid max : Z) (mem_ok : bool) (r : rmap) (bytes : list Z)
    : rmap * option delivery :=
  match bytes with
  | v :: d :: s :: f :: payload =>
      if decide (rx_accepts eid (mk_hdr v d s f))
      then spec_flags max mem_ok r (mk_hdr v d s f) payload else (r, None)
  | _ => (r, None)
  end.

(** Messages the control handler may take instead of the application. *)
Definition ctrl_request (msg : list Z) : bool :=
  match msg with
  | t :: rq :: _ :: _ =>
      bool_decide (t = MCTP_CTRL_HDR_MSG_TYPE) &&
      bool_decide (Z.land rq MCTP_CTRL_HDR_FLAG_REQUEST <> 0)
  | _ => false
  end.

(** What the application sees, and what delivery does to the table of tags. *)
Definition delivery_events (m : mctp) (dl : delivery) : list event :=
  match m_message_rx m with
  | None => []
  | Some f => [EvRx f (m_message_rx_data m) (dl_src dl) (dl_to dl) (dl_tag dl) (dl_msg dl)]
  end.

Definition delivery_tags (dl : delivery) (rs : list mctp_req_tag) : list mctp_req_tag :=
  if dl_to dl then rs else if decide (dl_dest dl = 0) then rs
  else dealloc_in (dl_dest dl) (dl_src dl) (dl_tag dl) rs.

Definition capture_events (m : mctp) (bytes : list Z) : list event :=
  if decide (zlen bytes < sizeof_mctp_hdr) then [] else capture_of m false bytes.

(** A sequence of packets, with memory for every message. *)
Fixpoint spec_run (eid max : Z) (r : rmap) (pkts : list (list Z)) : rmap * list delivery :=
  match pkts with
  | [] => (r, [])
  | bs :: pkts =>
      let '(r, out) := spec_rx eid max true r bs in
      let '(r, outs) := spec_run eid max r pkts in
      (r, option_list out ++ outs)
  end.

Lemma spec_run_app eid max r ps qs :
  spec_run eid max r (ps ++ qs) =
    let '(r1, o1) := spec_run eid max r ps in
    let '(r2, o2) := spec_run eid max r1 qs in (r2, o1 ++ o2).
Proof.
  revert r. induction ps as [|bs ps IH]; intros r; simpl; [by destruct (spec_run _ _ r qs)|].
  destruct (spec_rx eid max true r bs) as [r1 o]. rewrite IH.
  destruct (spec_run _ _ r1 ps) as [r2 os]. destruct (spec_run _ _ r2 qs).
  by rewrite app_assoc.
Qed.

(** ** Messages do not interfere

    The packets of one key only concern the messages of that key, as long as
    there are contexts enough for all keys. *)

Definition pkt_key (bs : list Z) : option rkey :=
  match bs with
  | v :: d :: s :: f :: _ => Some (s, d, fst_tag f)
  | _ => None
  end.

Definition dl_key (dl : delivery) : rkey := (dl_src dl, dl_dest dl, dl_tag dl).

Section keys.
Context (eid max : Z).
Implicit Types r : rmap.

Lemma spec_rx_key r bs dl :
  (spec_rx eid max true r bs).2 = Some dl -> pkt_key bs = Some (dl_key dl).
Proof.
  destruct bs as [|v [|d [|s [|f pl]]]]; try done. unfold spec_rx, spec_flags. simpl.
  case_decide; [|done].
  case_decide; [by intros [= <-]|]. case_decide; [done|]. case_decide; [|by case_decide].
  unfold spec_end. destruct (r !! _) as [p|]; [|done]. simpl. case_decide; by intros [= <-].
Qed.

(** A packet only changes the entry of its key. *)
Lemma spec_rx_other r bs k :
  pkt_key bs <> Some k -> (spec_rx eid max true r bs).1 !! k = r !! k.
Proof.
  destruct bs as [|v [|d [|s [|f pl]]]]; try done. unfold spec_rx, spec_flags. simpl. intros Hk.
  assert (Hne : hdr_key (mk_hdr v d s f) <> k) by (unfold hdr_key; simpl; congruence).
  case_decide; [|done]. case_decide; [done|]. case_decide.
  { unfold spec_start. simpl. destruct (r !! _); case_decide; simpl; try done;
      by rewrite ?lookup_insert_ne, ?lookup_delete_ne. }
  case_decide.
  { unfold spec_end. destruct (r !! _); simpl; [by rewrite lookup_delete_ne|done]. }
  case_decide; [|done]. unfold spec_middle. simpl. destruct (r !! _); [|done].
  case_decide; by rewrite ?lookup_insert_ne, ?lookup_delete_ne.
Qed.

(** There is a context for the key. *)
Definition room (k : rkey) r : Prop :=
  is_Some (r !! k) \/ Z.of_nat (size r) < MCTP_REASSEMBLY_CTXS.

(** What happens to a key only depends on its entry. *)
Lemma spec_rx_same r1 r2 bs k :
  pkt_key bs = Some k -> r1 !! k = r2 !! k -> room k r1 -> room k r2 ->
  (spec_rx eid max true r1 bs).2 = (spec_rx eid max true r2 bs).2 /\
  (spec_rx eid max true r1 bs).1 !! k = (spec_rx eid max true r2 bs).1 !! k.
Proof.
  destruct bs as [|v [|d [|s [|f pl]]]]; try done. unfold spec_rx, spec_flags.
  intros Hk E R1 R2. set (h := mk_hdr v d s f).
  assert (Hkey : hdr_key h = k) by (simpl in Hk; by injection Hk as <-).
  case_decide; [|done]. case_decide; [done|]. case_decide.
  { unfold spec_start. simpl. split; [done|]. rewrite Hkey, E. destruct (r2 !! k) as [p|] eqn:E2.
    - case_decide; by rewrite ?lookup_insert_eq, ?lookup_delete_eq.
    - destruct R1 as [[? ?]|R1]; [congruence|]. destruct R2 as [[? ?]|R2]; [congruence|].
      destruct (decide (zlen pl <= max)).
      + rewrite !decide_True by done. by rewrite !lookup_insert_eq.
      + rewrite !decide_False by naive_solver. by rewrite E, E2. }
  case_decide.
  { unfold spec_end. rewrite Hkey, E. destruct (r2 !! k) eqn:E2; simpl; [|by rewrite E, E2].
    by rewrite !lookup_delete_eq. }
  case_decide; [|done]. unfold spec_middle. simpl. split; [done|].
  rewrite Hkey, E. destruct (r2 !! k) eqn:E2; [|by rewrite E, E2].
  case_decide; by rewrite ?lookup_insert_eq, ?lookup_delete_eq.
Qed.

Context (K : gset rkey).
Hypothesis (HK : Z.of_nat (size K) <= MCTP_REASSEMBLY_CTXS).

Definition in_keys (bs : list Z) : Prop := forall k, pkt_key bs = Some k -> k ∈ K.

Lemma spec_rx_dom r bs : dom r ⊆ K -> in_keys bs -> dom (spec_rx eid max true r bs).1 ⊆ K.
Proof.
  intros Hr Hbs k Hk. destruct (decide (pkt_key bs = Some k)) as [E|E]; [by apply Hbs|].
  apply Hr. apply elem_of_dom. apply elem_of_dom in Hk. by rewrite spec_rx_other in Hk.
Qed.

Lemma dom_room r k : dom r ⊆ K -> k ∈ K -> room k r.
Proof.
  intros Hr Hk. unfold room. destruct (r !! k) eqn:E; [left; eauto|right].
  assert (Hsub : dom r ⊂ K).
  { split; [done|]. intros H. apply not_elem_of_dom in E. by apply E, H. }
  apply subset_size in Hsub. rewrite size_dom in Hsub. lia.
Qed.

Lemma spec_run_interleave r1 r2 k pkts :
  dom r1 ⊆ K -> dom r2 ⊆ K -> Forall in_keys pkts -> r1 !! k = r2 !! k ->
  let all := spec_run eid max r1 pkts in
  let own := spec_run eid max r2 (filter (fun bs => pkt_key bs = Some k) pkts) in
  filter (fun dl => dl_key dl = k) all.2 = own.2 /\ all.1 !! k = own.1 !! k.
Proof.
  revert r1 r2. induction pkts as [|bs pkts IH]; intros r1 r2 H1 H2 Hp E; [done|].
  apply Forall_cons in Hp as [Hb Hp]. simpl. rewrite filter_cons.
  pose proof (spec_rx_key r1 bs) as Hk1. pose proof (spec_rx_dom r1 bs H1 Hb) as D1.
  destruct (spec_rx eid max true r1 bs) as [r1' o1] eqn:E1. simpl in Hk1, D1.
  destruct (decide (pkt_key bs = Some k)) as [Hk|Hk].
  - pose proof (spec_rx_same r1 r2 bs k Hk E (dom_room r1 k H1 (Hb k Hk))
      (dom_room r2 k H2 (Hb k Hk))) as [Eo Er].
    pose proof (spec_rx_dom r2 bs H2 Hb) as D2. simpl. rewrite E1 in Eo, Er.
    destruct (spec_rx eid max true r2 bs) as [r2' o2] eqn:E2. simpl in *. subst o2.
    specialize (IH r1' r2' D1 D2 Hp Er). simpl in IH.
    destruct (spec_run _ _ r1' pkts) as [ra oa]. destruct (spec_run _ _ r2' _) as [rb ob].
    simpl in *. destruct IH as [IH1 IH2]. split; [|done]. rewrite filter_app, IH1. f_equal.
    destruct o1 as [dl|]; [|done]. simpl. rewrite filter_cons, decide_True; [done|].
    specialize (Hk1 dl eq_refl). congruence.
  - assert (Er : r1' !! k = r2 !! k).
    { rewrite <- E, <- (spec_rx_other r1 bs k Hk). by rewrite E1. }
    specialize (IH r1' r2 D1 H2 Hp Er). simpl in IH.
    destruct (spec_run _ _ r1' pkts) as [ra oa]. simpl in *. destruct IH as [IH1 IH2].
    split; [|done]. rewrite filter_app, IH1. destruct o1 as [dl|]; [|done]. simpl.
    rewrite filter_cons, decide_False; [done|]. specialize (Hk1 dl eq_refl). congruence.
Qed.
End keys.
