(* ===== verification/RxRefine.v ===== *)
(** * Reception, packet by packet

    Every case of [mctp_bus_rx] against [spec_rx], for whoever takes the complete
    messages ([takes], [wp_bus_rx_taken]); then with messages for the application
    ([wp_bus_rx]), over sequences of packets, and for packets interleaved. *)

From S2P Require Import Prelude State Alloc Pktbuf Reasm Tags Tx Control Rx RxSpec.

Section refine.
Context {D : Type} `{!ExtAlloc D, !BindingOps D, !RxOps D, !RxReady D, !QuietCapture D, !QuietRx D}.
Context (keep : D -> D -> Prop) `{!KeepOps D keep}.
Implicit Types w : world D.

(** ** Delivery *)

(** The state after a delivery: events, tags, environment. *)
Definition after_delivery (evs : list event) (dl : delivery) (d : D) (w : world D) : world D :=
  set_w_dev d (set_w_trace (w_trace w ++ evs)
    (set_w_mctp (set_m_req_tags (delivery_tags dl (m_req_tags (w_mctp w))) (w_mctp w)) w)).

Lemma wp_load_byte a bs (n : nat) x (Q : Z -> world D -> Prop) w :
  w_heap w !! a = Some (HBytes bs) -> bs !! n = Some x -> Q x w ->
  wp (load_byte a (Z.of_nat n)) Q w.
Proof.
  intros Ha Hx HQ. unfold load_byte. wp_step.
  pose proof (lookup_lt_Some _ _ _ Hx) as Hlt.
  eapply wp_load_bytes; [done|lia|lia|unfold zlen; lia|].
  unfold slice. rewrite Nat2Z.id, (drop_S _ x) by done. by wp_steps.
Qed.

Lemma slice_is_app {A} n (bs : list A) : exists rest, bs = slice 0 n bs ++ rest.
Proof. exists (drop (Z.to_nat n) bs). unfold slice. by rewrite drop_0, take_drop. Qed.

Lemma ctrl_request_short msg : zlen msg < sizeof_ctrl_msg_hdr -> ctrl_request msg = false.
Proof.
  unfold zlen, sizeof_ctrl_msg_hdr. destruct msg as [|? [|? [|? ?]]]; simpl; [done..|lia].
Qed.

(** The test that selects control requests. *)
Lemma wp_is_request a bs len (Q : bool -> world D -> Prop) w :
  w_heap w !! a = Some (HBytes bs) -> sizeof_ctrl_msg_hdr <= len <= zlen bs ->
  Q (ctrl_request (slice 0 len bs)) w -> wp (mctp_ctrl_cmd_is_request a) Q w.
Proof.
  unfold sizeof_ctrl_msg_hdr. intros Ha Hlen HQ.
  assert (Hz : zlen (slice 0 len bs) = len) by (apply zlen_slice; lia).
  destruct (slice_is_app len bs) as [rest Hbs].
  destruct (slice 0 len bs) as [|t [|rq [|c msg]]] eqn:Hs;
    [unfold zlen in Hz; simpl in Hz; lia..|].
  unfold mctp_ctrl_cmd_is_request. wp_step.
  eapply (wp_load_byte a bs 0 t); [done|by rewrite Hbs|]. simpl in HQ.
  case_decide as Ht; [|wp_steps; by rewrite bool_decide_false in HQ by done].
  do 2 wp_step. eapply (wp_load_byte a bs 1 rq); [done|by rewrite Hbs|]. wp_steps.
  by rewrite bool_decide_true in HQ by done.
Qed.

(** The application can be called. *)
Definition rx_can (w : world D) : Prop :=
  forall f, m_message_rx (w_mctp w) = Some f -> rx_ready f (m_message_rx_data (w_mctp w)) (w_dev w).

Lemma wp_message_rx mctp dl buf bs len (Q : unit -> world D -> Prop) w :
  mctp <> NULL -> rx_can w -> w_heap w !! buf = Some (HBytes bs) -> 0 <= len <= zlen bs ->
  slice 0 len bs = dl_msg dl ->
  (forall d, keep (w_dev w) d ->
     Q tt (set_w_dev d (set_w_trace (w_trace w ++ delivery_events (w_mctp w) dl) w))) ->
  wp (call_message_rx mctp (dl_src dl) (dl_to dl) (dl_tag dl) buf len) Q w.
Proof.
  intros Hm Hcan Hbuf Hlen Hmsg HQ. unfold call_message_rx. wp_steps. unfold delivery_events in HQ.
  destruct (m_message_rx (w_mctp w)) as [f|] eqn:Hf.
  - wp_step. eapply wp_load_bytes; [done|lia..|]. rewrite Hmsg. do 2 wp_step.
    set (w1 := set_w_trace _ _).
    destruct (quiet_rx f (dl_src dl) (dl_to dl) (dl_tag dl) (m_message_rx_data (w_mctp w))
      buf len w1 (Hcan f Hf)) as [d Hd].
    eapply wp_ok; [exact Hd|]. apply HQ. by apply keep_rx in Hd.
  - wp_step. specialize (HQ (w_dev w) ltac:(reflexivity)). rewrite app_nil_r in HQ. by destruct w.
Qed.

(** The tags after a delivery. *)
Definition after_tags (dl : delivery) (w : world D) : world D :=
  set_w_mctp (set_m_req_tags (delivery_tags dl (m_req_tags (w_mctp w))) (w_mctp w)) w.

(** A message for an endpoint: control requests are given to the control
    handlers, what these leave and other messages to the application. *)
Lemma wp_rx_at mctp bus b bd dl buf bs len (Q : unit -> world D -> Prop) w :
  mctp <> NULL -> buf <> NULL ->
  m_busses (w_mctp w) !! bus = Some b -> w_bindings w !! bus_binding b = Some bd ->
  bd_mctp bd <> NULL -> m_route_policy (w_mctp w) = ROUTE_ENDPOINT ->
  mctp_rx_dest_is_local b (dl_dest dl) ->
  w_heap w !! buf = Some (HBytes bs) -> 0 <= len <= zlen bs -> slice 0 len bs = dl_msg dl ->
  let application := wp (call_message_rx mctp (dl_src dl) (dl_to dl) (dl_tag dl) buf len)
    (fun _ w' => m_route_policy (w_mctp w') = ROUTE_ENDPOINT /\ Q tt w') in
  (if ctrl_request (dl_msg dl) then
     wp (mctp_ctrl_handle_msg bus (dl_src dl) (dl_tag dl) (dl_to dl) buf len)
       (fun handled w' => if handled then Q tt w' else application w') (after_tags dl w)
   else application (after_tags dl w)) ->
  wp (mctp_rx mctp bus (dl_src dl) (dl_dest dl) (dl_to dl) (dl_tag dl) buf len) Q w.
Proof.
  intros Hm Hbn Hb Hbd Hbm Hpol Hloc Hbuf Hlen Hmsg application HQ.
  unfold mctp_rx. do 2 wp_step; [done|]. do 5 wp_step. cbv beta.
  rewrite decide_True by done. unfold rx_local. wp_step.
  assert (Htags : wp (if dl_to dl then mret tt
      else mctp_dealloc_tag bus (dl_dest dl) (dl_src dl) (dl_tag dl)) (fun _ s => s = after_tags dl w) w).
  { unfold after_tags, delivery_tags. destruct (dl_to dl).
    - wp_step. destruct w as [h k ml ops m bs' tr d]. by destruct m.
    - eapply wp_ok; [by apply (mctp_dealloc_tag_run _ b bd)|]. case_decide; [|done].
      destruct w as [h k ml ops m bs' tr d]. by destruct m. }
  eapply wp_mono; [exact Htags|]. intros _ ? ->. wp_step.
  apply (wp_mono _ (fun (h : bool) s => if h then Q tt s else application s)).
  { case_decide as H3.
    - wp_step. eapply (wp_is_request _ bs len); [done|lia|]. rewrite Hmsg.
      destruct (ctrl_request (dl_msg dl)); [exact HQ|by wp_step].
    - wp_step. rewrite ctrl_request_short in HQ; [exact HQ|]. rewrite <- Hmsg, zlen_slice by lia. lia. }
  intros handled w' H. destruct handled; [by wp_steps|]. wp_step.
  eapply wp_mono; [exact H|]. intros [] w2 [Hpol' HQ']. do 3 wp_step. by rewrite Hpol'.
Qed.

Lemma wp_deliver mctp bus b bd dl buf bs len (Q : unit -> world D -> Prop) w :
  mctp <> NULL -> rx_can w -> buf <> NULL ->
  m_busses (w_mctp w) !! bus = Some b -> w_bindings w !! bus_binding b = Some bd ->
  bd_mctp bd <> NULL -> m_route_policy (w_mctp w) = ROUTE_ENDPOINT ->
  mctp_rx_dest_is_local b (dl_dest dl) ->
  w_heap w !! buf = Some (HBytes bs) -> 0 <= len <= zlen bs -> slice 0 len bs = dl_msg dl ->
  ctrl_request (dl_msg dl) = false ->
  (forall d, keep (w_dev w) d -> Q tt (after_delivery (delivery_events (w_mctp w) dl) dl d w)) ->
  wp (mctp_rx mctp bus (dl_src dl) (dl_dest dl) (dl_to dl) (dl_tag dl) buf len) Q w.
Proof.
  intros Hm Hcan Hbn Hb Hbd Hbm Hpol Hloc Hbuf Hlen Hmsg Hreq HQ.
  eapply (wp_rx_at mctp bus b bd dl buf bs len); [done..|]. rewrite Hreq.
  eapply (wp_message_rx _ dl _ bs len); [done|exact Hcan|done..|]. intros d Hd.
  split; [done|]. by apply HQ.
Qed.

(** ** The cases of [mctp_bus_rx] *)

(** An endpoint with EID [eid] on [binding]. *)
Record endpoint (mctp binding : Z) (bus : nat) (eid : Z) (w : world D) : Prop := {
  ep_mctp : mctp <> NULL;
  ep_route : m_route_policy (w_mctp w) = ROUTE_ENDPOINT;
  ep_bus : exists b, m_busses (w_mctp w) !! bus = Some b /\ bus_mctp b = mctp /\
    bus_binding b = binding /\ bus_eid b = eid;
  ep_binding : exists bd, w_bindings w !! binding = Some bd /\ bd_mctp bd = mctp /\
    bd_bus bd = Some bus;
  ep_rx : rx_can w;
}.

(** What receiving a packet changes: the map of partial messages, the tags,
    the events; all else is kept, the other heap blocks [F] included. *)
Record rx_effect (w w' : world D) (F : gmap Z hobj) (res : rmap * option delivery) : Prop := {
  re_ctxs : ctxs_inv w' F res.1;
  re_mctp : w_mctp w' = set_m_req_tags
    (from_option (fun dl => delivery_tags dl (m_req_tags (w_mctp w))) (m_req_tags (w_mctp w)) res.2)
    (set_m_msg_ctxs (m_msg_ctxs (w_mctp w')) (w_mctp w));
  re_bindings : w_bindings w' = w_bindings w;
  re_trace : w_trace w' = w_trace w ++ from_option (delivery_events (w_mctp w)) [] res.2;
  re_mallocs : w_mallocs w = [] -> w_mallocs w' = [];
  re_keep : keep (w_dev w) (w_dev w');
}.

Lemma effect_of_step w w' F r :
  ctx_step w w' -> ctxs_inv w' F r -> rx_effect w w' F (r, None).
Proof.
  intros [E1 E2 E3 E4 E5 E6] HI. split; [done| |done| |done|].
  - simpl. rewrite E2. by destruct (w_mctp w), (w_mctp w').
  - simpl. by rewrite app_nil_r.
  - by rewrite E5.
Qed.

Lemma endpoint_mctp_eq mctp binding bus eid w w' :
  m_route_policy (w_mctp w') = m_route_policy (w_mctp w) ->
  m_busses (w_mctp w') = m_busses (w_mctp w) -> w_bindings w' = w_bindings w ->
  (rx_can w -> rx_can w') -> endpoint mctp binding bus eid w -> endpoint mctp binding bus eid w'.
Proof. intros E1 E2 E3 E4 []. split; [done|congruence|by rewrite E2|by rewrite E3|auto]. Qed.

Lemma rx_can_keep w w' :
  m_message_rx (w_mctp w') = m_message_rx (w_mctp w) ->
  m_message_rx_data (w_mctp w') = m_message_rx_data (w_mctp w) ->
  keep (w_dev w) (w_dev w') -> rx_can w -> rx_can w'.
Proof.
  intros E1 E2 Hk H f Hf. rewrite E1 in Hf. rewrite E2. eapply keep_ready; [exact Hk|by apply H].
Qed.

Lemma rx_can_step w w' : ctx_step w w' -> rx_can w -> rx_can w'.
Proof. intros [_ Em _ _ Ed _] H. unfold rx_can in *. rewrite Em, Ed. by destruct (w_mctp w). Qed.

(** ** Who takes a message

    [takes R dl w0 F0]: whoever takes the complete message [dl], in the states
    that [w0], where all other blocks are [F0], becomes while it is reassembled,
    [mctp_rx] returns, leaves the messages being received alone, and relates by
    [R] the states and their other blocks before and after. *)
Definition outcome_rel : Type := world D -> gmap Z hobj -> world D -> gmap Z hobj -> Prop.

(** Neither the reassembly nor the copy of the message matters to [R]. *)
Record outcome_ok (R : outcome_rel) : Prop := {
  oo_keep w d F w' F' : keep (w_dev w) d -> R (set_w_dev d w) F w' F' -> R w F w' F';
  oo_steps w0 w1 w2 w3 F F' : ctx_step w0 w1 -> R w1 F w2 F' -> ctx_step w2 w3 -> R w0 F w3 F';
  oo_frame w w' F F' a o : F !! a = None -> R w (<[a := o]> F) w' F' -> R w F w' (delete a F');
}.

Definition local_dest (eid d : Z) : Prop :=
  d = eid \/ d = MCTP_EID_NULL \/ d = MCTP_EID_BROADCAST.

(** The message [dl] is in the block [buf]. *)
Definition held (dl : delivery) (buf len : Z) (bs : list Z) (w : world D) : Prop :=
  buf <> NULL /\ w_heap w !! buf = Some (HBytes bs) /\ 0 <= len <= zlen bs /\
  slice 0 len bs = dl_msg dl.

(** The state after the message has been taken. *)
Record taken_in (bus : nat) (R : outcome_rel) (buf : Z) (F : gmap Z hobj) r w w' : Prop := {
  ti_outcome : exists F', ctxs_inv w' F' r /\ F' !! buf = F !! buf /\ R w F w' F';
  ti_ctxs : m_msg_ctxs (w_mctp w') = m_msg_ctxs (w_mctp w);
  ti_buf : w_heap w' !! buf = w_heap w !! buf;
  ti_bus : exists b, m_busses (w_mctp w') !! bus = Some b /\ bus_mctp b <> NULL;
}.

Definition takes (mctp binding : Z) (bus : nat) (eid : Z) (R : outcome_rel) (dl : delivery)
    (w0 : world D) (F0 : gmap Z hobj) : Prop :=
  forall F r buf len bs w, ctxs_inv w F r -> endpoint mctp binding bus eid w -> ctx_step w0 w ->
    F0 ⊆ F -> F0 !! buf = None -> held dl buf len bs w -> local_dest eid (dl_dest dl) -> 0 <= dl_tag dl < 8 ->
    wp (mctp_rx mctp bus (dl_src dl) (dl_dest dl) (dl_to dl) (dl_tag dl) buf len)
      (fun _ w' => taken_in bus R buf F r w w') w.

(** The effect of a packet, when [R] is what becomes of a complete message. *)
Definition rx_outcome (R : delivery -> outcome_rel) w w' (F : gmap Z hobj) (res : rmap * option delivery) : Prop :=
  match res.2 with
  | None => rx_effect w w' F res
  | Some dl => exists F', ctxs_inv w' F' res.1 /\ R dl w F w' F'
  end.

(** A message taken without any effect on the stack but on the tags: [evs] are
    the events. *)
Record quietly (evs : list event) (dl : delivery) (w w' : world D) : Prop := {
  qu_mctp : w_mctp w' = set_m_req_tags (delivery_tags dl (m_req_tags (w_mctp w)))
    (set_m_msg_ctxs (m_msg_ctxs (w_mctp w')) (w_mctp w));
  qu_bindings : w_bindings w' = w_bindings w;
  qu_trace : w_trace w' = w_trace w ++ evs;
  qu_mallocs : w_mallocs w = [] -> w_mallocs w' = [];
  qu_keep : keep (w_dev w) (w_dev w');
}.

Definition quiet_rel (evs : mctp -> delivery -> list event) (dl : delivery) : outcome_rel :=
  fun w F w' F' => F' = F /\ quietly (evs (w_mctp w) dl) dl w w'.

Lemma quiet_rel_ok evs dl :
  (forall m cs, evs (set_m_msg_ctxs cs m) dl = evs m dl) -> outcome_ok (quiet_rel evs dl).
Proof.
  intros Hev. split.
  - intros w d w' F F' Hk [-> []]. split; [done|]. split; try done. by transitivity d.
  - intros w0 w1 w2 w3 F F' [A1 A2 A3 A4 A5 A6] [-> [B1 B2 B3 B4 B5]] [C1 C2 C3 C4 C5 C6].
    split; [done|]. split.
    + rewrite C2, B1, A2. by destruct (w_mctp w0), (w_mctp w3).
    + congruence.
    + rewrite C4, B3, A4, A2. by rewrite Hev.
    + auto.
    + by rewrite C5, <- A5.
  - intros w w' F F' a o Ha [-> H]. split; [by rewrite delete_insert_id|done].
Qed.

Lemma quiet_effect evs w w' F res :
  (forall m dl, res.2 = Some dl -> evs m dl = delivery_events m dl) ->
  rx_outcome (quiet_rel evs) w w' F res -> rx_effect w w' F res.
Proof.
  destruct res as [r [dl|]]; [|done]. intros Hev (F' & HI & -> & []).
  rewrite Hev in * by done. by split.
Qed.

Lemma quietly_taken mctp binding bus eid evs dl d buf F r w :
  ctxs_inv w F r -> endpoint mctp binding bus eid w -> keep (w_dev w) d ->
  taken_in bus (quiet_rel evs dl) buf F r w (after_delivery (evs (w_mctp w) dl) dl d w).
Proof.
  intros HI Hep Hd. destruct (ep_bus _ _ _ _ _ Hep) as (b & Hb & Hbm & _). split.
  - exists F. split; [destruct HI; by split|]. split; [done|].
    split; [done|]. by split.
  - simpl. by destruct (w_mctp w).
  - done.
  - exists b. split; [simpl; by destruct (w_mctp w)|]. rewrite Hbm. apply Hep.
Qed.

(** Messages that are not control requests are the application's. *)
Lemma takes_message mctp binding bus eid dl w F :
  ctrl_request (dl_msg dl) = false ->
  takes mctp binding bus eid (quiet_rel delivery_events dl) dl w F.
Proof.
  intros Hreq F1 r buf len bs w1 HI Hep _ _ _ (Hbn & Hbuf & Hlen & Hmsg) Hloc _.
  destruct (ep_bus _ _ _ _ _ Hep) as (b & Hb & Hbm & Hbb & Hbe).
  destruct (ep_binding _ _ _ _ _ Hep) as (bd & Hbd & Hbdm & _).
  eapply (wp_deliver mctp bus b bd dl buf bs len); try done; try apply Hep.
  - by rewrite Hbb.
  - rewrite Hbdm. apply Hep.
  - unfold mctp_rx_dest_is_local. by rewrite Hbe.
  - intros d Hd. by eapply (quietly_taken _ _ _ _ delivery_events).
Qed.

Section cases.
Context (mctp binding : Z) (bus : nat) (eid pkt : Z) (p : mctp_pktbuf) (h : mctp_hdr).
Context (F : gmap Z hobj).
Hypothesis (HF : F !! pkt = Some (HPkt p)) (Hwf : pkt_wf p).
Hypothesis (Hsize : sizeof_mctp_hdr <= mctp_pktbuf_size p).

Local Abbreviation f := (flags_seq_tag h).

Lemma endpoint_step w w' :
  ctx_step w w' -> endpoint mctp binding bus eid w -> endpoint mctp binding bus eid w'.
Proof.
  intros S. apply endpoint_mctp_eq; [|by apply ctx_step_busses|apply S|by apply rx_can_step].
  rewrite (cs_mctp _ _ S). by destruct (w_mctp w).
Qed.

Lemma pkt_len_payload : pkt_len (pkt_payload p) = mctp_pktbuf_size p.
Proof.
  destruct (pkt_wire_split p Hwf Hsize) as (_ & _ & _ & E). unfold pkt_len. lia.
Qed.

(** Storing the first payload in a context that is empty or starts over. *)
Lemma wp_start_in i c bs r w0 w :
  ctxs_inv w F r -> ctx_at w i c bs -> ctx_step w0 w -> endpoint mctp binding bus eid w ->
  ctx_key c = hdr_key h -> mc_buf_size c = 0 ->
  wp (p ← load_pkt pkt;
      upd_ctx i (set_mc_fragment_size (mctp_pktbuf_size p));;
      rc ← mctp_msg_ctx_add_pkt i pkt;
      if decide (rc <> 0) then mctp_msg_ctx_drop bus i
      else upd_ctx i (set_mc_last_seq (fst_seq f)))
    (fun _ w' => rx_effect w0 w' F
       (if decide (zlen (pkt_payload p) <= mc_buf_alloc_size c)
        then <[hdr_key h := mk_partial (pkt_payload p) (mc_buf_alloc_size c)
                 (pkt_len (pkt_payload p)) (hdr_seq h)]> r
        else delete (hdr_key h) r, None)) w.
Proof.
  intros HI Hc Hst Hep Hk H0. pose proof (frame_lookup _ _ _ _ _ HI HF) as Hh.
  pose proof (ctx_at_rep _ _ _ _ _ _ HI Hc) as (_ & _ & Hcap & _).
  rewrite pkt_len_payload, <- Hk. do 3 wp_step.
  eapply wp_ctx_fields; [done..|simpl; lia|]. intros w1 S1 I1 C1 _. wp_step.
  eapply wp_add_pkt; [done..| |]; simpl in *; rewrite H0; intros Hfit.
  - intros w2 bs' S2 I2 C2 Hd. rewrite (decide_True (P := zlen _ <= _)) by lia.
    eapply wp_ctx_fields; [done..| |]; simpl.
    { pose proof (ctx_at_rep _ _ _ _ _ _ I2 C2) as (_ & _ & Hs & _). simpl in Hs. lia. }
    intros w3 S3 I3 _ _. apply effect_of_step; [by do 3 (eapply ctx_step_trans; [done|])|].
    simpl in I3. rewrite !insert_insert_eq in I3. unfold partial_of in *. simpl in *.
    rewrite H0 in *. by rewrite Hd in I3.
  - rewrite (decide_False (P := zlen _ <= _)) by lia.
    destruct (ep_bus _ _ _ _ _ Hep) as (b & Hb & Hbm & _).
    rewrite <- (ctx_step_busses _ _ S1) in Hb.
    eapply (wp_ctx_drop bus b); [done..|rewrite Hbm; apply Hep|].
    intros w2 S2 I2. apply effect_of_step; [by do 2 (eapply ctx_step_trans; [done|])|].
    simpl in I2. by rewrite delete_insert_eq in I2.
Qed.

Lemma wp_rx_start r w :
  ctxs_inv w F r -> endpoint mctp binding bus eid w ->
  wp (rx_start mctp bus pkt h (fst_tag f) (fst_seq f))
    (fun _ w' => rx_effect w w' F (spec_start (m_max_message_size (w_mctp w)) (malloc_ok w)
                                     r h (pkt_payload p))) w.
Proof.
  intros HI Hep. unfold rx_start, spec_start. fold (hdr_key h). wp_step.
  eapply wp_ctx_lookup; [done|apply Hep| |].
  - intros i c bs Hc Hk Hr. fold (hdr_key h) in Hr. rewrite Hr. do 2 wp_step. unfold mctp_msg_ctx_reset.
    eapply wp_ctx_fields; [done..|simpl|].
    { pose proof (ctx_at_rep _ _ _ _ _ _ HI Hc). lia. }
    intros w1 S1 I1 C1 _. wp_step. cbv beta match.
    eapply wp_mono; [apply (wp_start_in i _ bs _ w w1 I1 C1 S1); [|done|done]|].
    { by apply (endpoint_step w). }
    intros [] w' H. simpl in H. rewrite Hk in H. fold (hdr_key h) in H.
    rewrite insert_insert_eq, delete_insert_eq in H.
    simpl. done.
  - intros Hr. fold (hdr_key h) in Hr. rewrite Hr. wp_step.
    eapply wp_ctx_create; [done|apply Hep|done|..]; fold (hdr_key h).
    + intros Hn Hok i c bs w1 S1 I1 C1 Hk H0 Ha.
      eapply wp_mono; [apply (wp_start_in i c bs _ w w1 I1 C1 S1); [|done|done]|].
      { by apply (endpoint_step w). }
      intros [] w' H. rewrite Ha in H.
      rewrite insert_insert_eq, delete_insert_eq, delete_id in H by done.
      case_decide as Hm; [by rewrite decide_True|]. rewrite decide_False by naive_solver. done.
    + intros Hn Hok w1 S1 I1. wp_step. rewrite decide_False by (rewrite Hok; naive_solver).
      by apply effect_of_step.
    + intros Hn. wp_step. rewrite decide_False by naive_solver.
      apply effect_of_step; [apply ctx_step_refl|done].
Qed.

(** Giving up a message. *)
Lemma wp_give_up i c bs r w0 w :
  ctxs_inv w F r -> ctx_at w i c bs -> ctx_step w0 w -> endpoint mctp binding bus eid w ->
  ctx_key c = hdr_key h ->
  wp (mctp_msg_ctx_drop bus i)
    (fun _ w' => rx_effect w0 w' F (delete (hdr_key h) r, None)) w.
Proof.
  intros HI Hc Hst Hep <-. destruct (ep_bus _ _ _ _ _ Hep) as (b & Hb & Hbm & _).
  eapply (wp_ctx_drop bus b); [done..|rewrite Hbm; apply Hep|].
  intros w1 S1 I1. apply effect_of_step; [by eapply ctx_step_trans|done].
Qed.

Lemma fits_at i c bs r w :
  ctxs_inv w F r -> ctx_at w i c bs ->
  fits (partial_of bs c) (pkt_payload p) <->
  mc_buf_size c + zlen (pkt_payload p) <= mc_buf_alloc_size c.
Proof.
  intros HI Hc. pose proof (ctx_at_rep _ _ _ _ _ _ HI Hc) as (_ & Hz & Hs & _).
  unfold fits, partial_of. simpl. rewrite zlen_slice by lia. done.
Qed.

Lemma wp_rx_middle r w :
  ctxs_inv w F r -> endpoint mctp binding bus eid w ->
  wp (rx_middle mctp bus pkt h (fst_tag f) (fst_seq f))
    (fun _ w' => rx_effect w w' F (spec_middle r h (pkt_payload p))) w.
Proof.
  intros HI Hep. pose proof (frame_lookup _ _ _ _ _ HI HF) as Hh.
  unfold rx_middle, spec_middle. fold (hdr_key h). wp_step.
  eapply wp_ctx_lookup; [done|apply Hep| |]; fold (hdr_key h).
  2: { intros Hr. rewrite Hr. wp_step. apply effect_of_step; [apply ctx_step_refl|done]. }
  intros i c bs Hc Hk Hr. rewrite Hr. pose proof (ctx_at_rep _ _ _ _ _ _ HI Hc) as Hrep.
  pose proof Hc as (Hi & _ & _). do 2 wp_step. pose proof (fits_at _ _ _ _ _ HI Hc) as Hfa.
  pose proof (wp_give_up i c bs r w w HI Hc (ctx_step_refl w) Hep Hk) as Hdrop.
  case_decide as Hseq; [rewrite decide_False; [exact Hdrop|intros [E _]; by rewrite E in Hseq]|].
  do 2 wp_step. cbv beta. rewrite pkt_len_payload.
  case_decide as Hfr; [rewrite decide_False by (simpl; naive_solver); exact Hdrop|]. wp_step.
  eapply wp_add_pkt; [done..| |]; intros Hfit.
  - intros w1 bs' c' S1 I1 C1 Hd. wp_step. rewrite (decide_True (P := _ /\ _)).
    2: { split; [by unfold in_sequence|]. split; [done|by apply Hfa]. }
    eapply wp_ctx_fields; [done..| |].
    { pose proof (ctx_at_rep _ _ _ _ _ _ I1 C1) as (_ & _ & Hs & _). simpl in *. lia. }
    intros w2 S2 I2 _ _. apply effect_of_step; [by eapply ctx_step_trans|].
    unfold c', partial_of in *. simpl in *. rewrite insert_insert_eq, Hd in I2.
    by rewrite Hk in I2.
  - wp_step. rewrite (decide_False (P := _ /\ _)); [exact Hdrop|].
    intros (_ & _ & E%Hfa). lia.
Qed.

(** ** Delivering cases *)

Hypothesis (Hacc : rx_accepts eid h).
Context (R : delivery -> outcome_rel) (HR : forall dl, outcome_ok (R dl)).
Local Abbreviation taken_by dl w := (takes mctp binding bus eid (R dl) dl w F).

Lemma wp_rx_end r w :
  ctxs_inv w F r -> endpoint mctp binding bus eid w ->
  (forall dl, (spec_end r h (pkt_payload p)).2 = Some dl -> taken_by dl w) ->
  wp (rx_end mctp bus pkt h (fst_to f) (fst_tag f) (fst_seq f))
    (fun _ w' => rx_outcome R w w' F (spec_end r h (pkt_payload p))) w.
Proof.
  intros HI Hep Htake. pose proof (frame_lookup _ _ _ _ _ HI HF) as Hh.
  unfold rx_end. unfold spec_end at 1. fold (hdr_key h). wp_step.
  eapply wp_ctx_lookup; [done|apply Hep| |]; fold (hdr_key h).
  2: { intros Hr. rewrite Hr. wp_step. apply effect_of_step; [apply ctx_step_refl|done]. }
  intros i c bs Hc Hk Hr. rewrite Hr.
  pose proof Hc as (Hi & _ & _). do 2 wp_step. pose proof (fits_at _ _ _ _ _ HI Hc) as Hfa.
  pose proof (wp_give_up i c bs r w w HI Hc (ctx_step_refl w) Hep Hk) as Hdrop.
  case_decide as Hseq; [rewrite decide_False; [exact Hdrop|intros [E _]; by rewrite E in Hseq]|].
  do 2 wp_step. cbv beta. rewrite pkt_len_payload.
  case_decide as Hfr; [rewrite decide_False by (simpl; intros (_ & ? & _); lia); exact Hdrop|].
  wp_step. eapply wp_add_pkt; [done..| |]; intros Hfit.
  - intros w1 bs' c' S1 I1 C1 Hd. assert (Hall : in_sequence (partial_of bs c) h /\
        mctp_pktbuf_size p <= p_frag (partial_of bs c) /\ fits (partial_of bs c) (pkt_payload p)).
    { split; [by unfold in_sequence|]. split; [simpl; lia|by apply Hfa]. }
    rewrite (decide_True (P := in_sequence _ _ /\ _)) by done.
    pose proof C1 as (Hi1 & Hl1 & Hb1). do 4 wp_step.
    pose proof Hk as Hk'. injection Hk' as Es Ed Et. set (dl := hdr_delivery h _) in *.
    pose proof (ctx_at_rep _ _ _ _ _ _ I1 C1) as (_ & Hz & Hs & _).
    replace (mc_src c') with (dl_src dl) by done. replace (mc_dest c') with (dl_dest dl) by done.
    assert (Hdl : taken_by dl w).
    { apply Htake. unfold spec_end. by rewrite Hr, pkt_len_payload, decide_True by done. }
    destruct (rr_ctx _ _ _ _ (ci_rep _ _ _ I1) i c' Hi1 Hl1) as (_ & _ & _ & _ & _ & Hown).
    eapply wp_mono; [eapply (Hdl F _ _ _ bs' w1 I1); try done|].
    { by eapply endpoint_step. }
    { split; [done|]. split; [done|]. split; [lia|].
      change (slice 0 (mc_buf_size c') bs') with (p_data (partial_of bs' c')). by rewrite Hd. }
    { apply Hacc. }
    { apply fst_tag_range. }
    intros [] w2 [(F' & I2 & _ & Ho) Ecs Ebuf (b & Hb & Hbm)].
    eapply (wp_ctx_drop bus b); [exact I2| |done..|].
    { unfold ctx_at. rewrite Ecs, Ebuf. exact C1. }
    intros w3 S3 I3. exists F'. split; [|by eapply (oo_steps _ (HR dl))].
    change (ctx_key c') with (ctx_key c) in I3. rewrite Hk, delete_insert_eq in I3. exact I3.
  - do 2 wp_step. rewrite (decide_False (P := _ /\ _)); [exact Hdrop|].
    intros (_ & _ & E%Hfa). lia.
Qed.

Lemma frame_fresh r w : ctxs_inv w F r -> F !! w_brk w = None.
Proof.
  intros HI. pose proof (heap_wf_fresh _ (ci_heap _ _ _ HI)) as Hn.
  rewrite <- (rr_frame _ _ _ _ (ci_rep _ _ _ HI)); [done|].
  intros i c Hi Hl E. destruct (rr_ctx _ _ _ _ (ci_rep _ _ _ HI) i c Hi Hl) as (? & Hb & _).
  congruence.
Qed.

Lemma ctxs_inv_dup bs r w :
  ctxs_inv w F r ->
  ctxs_inv (after_dup bs w) (<[w_brk w := HBytes bs]> F) r /\ ctx_step w (after_dup bs w).
Proof.
  intros [Hops Hh Hrep Hmax]. split.
  - split; [done| |simpl|done].
    { by apply heap_wf_dup. }
    apply rep_frame; [done|by apply heap_wf_fresh].
  - split; try done; [by destruct w as [? ? ? ? []]|]. simpl. intros E. by rewrite E.
Qed.

Lemma wp_free_frame a bs F1 r w (Q : unit -> world D -> Prop) :
  ctxs_inv w F1 r -> mctp <> NULL -> F1 !! a = Some (HBytes bs) ->
  (forall w', ctx_step w w' -> ctxs_inv w' (delete a F1) r -> Q tt w') ->
  wp (__mctp_msg_free a mctp) Q w.
Proof.
  intros HI Hm Ha HQ. pose proof (frame_lookup _ _ _ _ _ HI Ha) as Hb. destruct HI as [Hops Hh Hrep Hmax].
  eapply wp_msg_free; [done|done|eauto|by apply heap_wf_null|]. apply HQ.
  - split; try done. by destruct w as [? ? ? ? []].
  - split; [done|by apply heap_wf_free|simpl; apply rep_unframe; [done|eauto]|done].
Qed.

Lemma wp_rx_single r w :
  ctxs_inv w F r -> endpoint mctp binding bus eid w ->
  (forall dl, (spec_single (malloc_ok w) r h (pkt_payload p)).2 = Some dl -> taken_by dl w) ->
  wp (rx_single mctp bus pkt h (fst_to f) (fst_tag f))
    (fun _ w' => rx_outcome R w w' F (spec_single (malloc_ok w) r h (pkt_payload p))) w.
Proof.
  intros HI Hep Htake. pose proof (frame_lookup _ _ _ _ _ HI HF) as Hh.
  pose proof (pkt_wire_split p Hwf Hsize) as (_ & _ & _ & Hpl).
  pose proof (pkt_wf_size p Hwf) as Hw. pose proof Hwf as (E0 & E1 & E2 & E3).
  unfold rx_single. do 2 wp_step. unfold sizeof_mctp_hdr in *.
  assert (Hlen : pb_end p -s pb_mctp_hdr_off p -s 4 = zlen (pkt_payload p)).
  { rewrite <- E0. change (mctp_pktbuf_size p -s 4 = zlen (pkt_payload p)).
    rewrite Hpl. apply sz_small. lia. }
  cbv zeta. rewrite Hlen. wp_step. pose proof (frame_fresh _ _ HI) as Hfr.
  destruct (ctxs_inv_dup (pkt_payload p) r w HI) as [I1 S1].
  assert (Hb : w_brk w <> NULL) by (destruct (ci_heap _ _ _ HI); unfold NULL; lia).
  apply wp_msg_dup; [apply HI|apply Hep|apply HI| | |].
  - unfold pkt_read. eapply wp_run_eq. wp_steps. eapply wp_load_pkt.
    { simpl. rewrite lookup_insert_ne; [exact Hh|]. intros <-. congruence. }
    pose proof (zlen_nonneg (pkt_payload p)). unfold mctp_pktbuf_data, sizeof_mctp_hdr in *.
    rewrite decide_True by lia. wp_steps. f_equal. by rewrite Hpl.
  - intros Hok. wp_steps. set (dl := hdr_delivery h (pkt_payload p)).
    unfold spec_single in *. rewrite Hok in *. pose proof (zlen_nonneg (pkt_payload p)) as H0.
    eapply wp_mono; [eapply (Htake dl eq_refl _ _ _ _ (pkt_payload p) _ I1); try done|].
    { by eapply endpoint_step. }
    { by apply insert_subseteq. }
    { split; [done|]. split; [apply lookup_insert_eq|]. split; [lia|by rewrite slice_all]. }
    { apply Hacc. }
    { apply fst_tag_range. }
    intros [] w2 [(F' & I2 & Hbuf & Ho) _ _ _]. rewrite lookup_insert_eq in Hbuf.
    eapply wp_free_frame; [exact I2|apply Hep|exact Hbuf|]. intros w3 S3 I3.
    exists (delete (w_brk w) F'). split; [exact I3|].
    eapply (oo_frame _ (HR dl)); [exact Hfr|]. by eapply (oo_steps _ (HR dl)).
  - intros Hok. wp_steps. unfold spec_single. rewrite Hok. apply effect_of_step.
    + split; try done; [by destruct w as [? ? ? ? []]|]. simpl. intros E. by rewrite E.
    + destruct HI. by split.
Qed.

(** The [switch] on the flags. *)
Lemma wp_flags r w :
  ctxs_inv w F r -> endpoint mctp binding bus eid w ->
  let res := spec_flags (m_max_message_size (w_mctp w)) (malloc_ok w) r h (pkt_payload p) in
  (forall dl, res.2 = Some dl -> taken_by dl w) ->
  wp (if decide (fst_flags f = Z.lor MCTP_HDR_FLAG_SOM MCTP_HDR_FLAG_EOM)
      then rx_single mctp bus pkt h (fst_to f) (fst_tag f)
      else if decide (fst_flags f = MCTP_HDR_FLAG_SOM)
      then rx_start mctp bus pkt h (fst_tag f) (fst_seq f)
      else if decide (fst_flags f = MCTP_HDR_FLAG_EOM)
      then rx_end mctp bus pkt h (fst_to f) (fst_tag f) (fst_seq f)
      else if decide (fst_flags f = 0)
      then rx_middle mctp bus pkt h (fst_tag f) (fst_seq f)
      else mret tt) (fun _ w' => rx_outcome R w w' F res) w.
Proof.
  intros HI Hep res Htake. subst res. unfold spec_flags in *. cbv zeta in *.
  case_decide; [|case_decide; [|case_decide; [|case_decide]]].
  - by apply wp_rx_single.
  - by apply wp_rx_start.
  - by apply wp_rx_end.
  - by apply wp_rx_middle.
  - wp_step. apply effect_of_step; [apply ctx_step_refl|done].
Qed.
End cases.

(** ** The whole of [mctp_bus_rx] *)

Lemma spec_rx_short eid max ok r bs :
  zlen bs < sizeof_mctp_hdr -> spec_rx eid max ok r bs = (r, None).
Proof.
  unfold zlen, sizeof_mctp_hdr.
  destruct bs as [|? [|? [|? [|? ?]]]]; simpl; [done..|lia].
Qed.

(** The state in which the packet's flags are looked at. *)
Definition captured (p : mctp_pktbuf) (w : world D) : world D :=
  set_w_trace (w_trace w ++ capture_events (w_mctp w) (pkt_wire p)) w.

Lemma wp_bus_rx_taken mctp binding bus eid F r pkt p R w :
  (forall dl, outcome_ok (R dl)) ->
  ctxs_inv w F r -> endpoint mctp binding bus eid w ->
  F !! pkt = Some (HPkt p) -> pkt_wf p ->
  let res := spec_rx eid (m_max_message_size (w_mctp w)) (malloc_ok w) r (pkt_wire p) in
  (forall dl d, res.2 = Some dl -> keep (w_dev w) d ->
     takes mctp binding bus eid (R dl) dl (set_w_dev d (captured p w)) F) ->
  wp (mctp_bus_rx binding pkt) (fun _ w' => rx_outcome R (captured p w) w' F res) w.
Proof.
  intros HR HI Hep HF Hp res Htake. pose proof (frame_lookup _ _ _ _ _ HI HF) as Hh.
  destruct (ep_binding _ _ _ _ _ Hep) as (bd & Hbd & Hbdm & Hbdb).
  destruct (ep_bus _ _ _ _ _ Hep) as (b & Hb & Hbm & Hbb & Hbe).
  pose proof (ep_mctp _ _ _ _ _ Hep) as Hmn. pose proof (zlen_pkt_wire p Hp) as Hz.
  unfold mctp_bus_rx.
  do 4 wp_step; [by rewrite Hbdb|]. rewrite Hbdm, Hbdb. do 4 wp_step.
  destruct (decide (mctp_pktbuf_size p < sizeof_mctp_hdr)) as [Hshort|Hs].
  { wp_step. unfold res, captured, capture_events. rewrite spec_rx_short, decide_True by lia.
    apply effect_of_step; [split; try done; simpl|by destruct HI].
    - by destruct (w_mctp w).
    - by rewrite app_nil_r. }
  destruct (pkt_wire_split p Hp) as (h & Hhdr & Hwire & _); [lia|].
  wp_step. apply (wp_capture_inv (keep (w_dev w)) _ _ p);
    [done|done|reflexivity|intros; etransitivity; [done|by eapply keep_capture]|]. intros d Hkd.
  set (w0 := set_w_trace _ w).
  assert (Ecap : captured p w = w0) by (unfold captured, capture_events; by rewrite Hz, decide_False).
  rewrite Ecap in *. set (w1 := set_w_dev d w0).
  assert (I1 : ctxs_inv w1 F r) by (destruct HI; by split).
  assert (E1 : endpoint mctp binding bus eid w1).
  { apply (endpoint_mctp_eq _ _ _ _ w); [done..| |exact Hep]. by apply rx_can_keep. }
  assert (Hlift : forall res w', rx_effect w1 w' F res -> rx_effect w0 w' F res)
    by (intros ? ? []; split; try done; by transitivity d).
  assert (Hlift' : forall res w', rx_outcome R w1 w' F res -> rx_outcome R w0 w' F res).
  { unfold rx_outcome. intros [r' [dl|]] w'; [|apply Hlift]. intros (F' & H1 & H2). exists F'.
    split; [done|]. by apply (oo_keep _ (HR dl) _ d). }
  assert (Hnone : rx_effect w0 w1 F (r, None))
    by (apply Hlift, effect_of_step; [apply ctx_step_refl|done]).
  unfold res in *. clear res. rewrite Hwire in *. destruct h as [v dst s f].
  cbn [bytes_of_hdr ver dest src flags_seq_tag app] in *.
  pose proof Hp as (P0 & P1 & P2 & P3). pose proof (pkt_wf_size p Hp) as Hsz.
  wp_step. eapply (wp_load_hdr _ p (mk_hdr v dst s f)); [done|lia| |done|].
  { unfold sizeof_mctp_hdr in *. lia. }
  cbn [dest src flags_seq_tag]. unfold spec_rx in *.
  destruct (decide (rx_accepts eid (mk_hdr v dst s f))) as [Hacc|Hacc].
  2: { destruct (decide (s = MCTP_EID_BROADCAST)) as [|Hsrc]; [by wp_step|]. do 4 wp_step.
       rewrite (decide_True (P := _ /\ _)); [by wp_step|]. split; [apply Hep|]. intros Hloc.
       apply Hacc. split; [done|]. unfold mctp_rx_dest_is_local in Hloc. by rewrite <- Hbe. }
  pose proof Hacc as [Hsrc Hloc]. cbn [src dest] in *. wp_step. do 4 wp_step. cbv beta match.
  rewrite (decide_False (P := _ /\ _)).
  2: { intros [_ Hn]. apply Hn. unfold mctp_rx_dest_is_local. by rewrite Hbe. }
  pose proof (wp_flags mctp binding bus eid pkt p (mk_hdr v dst s f) F HF Hp
    ltac:(lia) Hacc R HR r w1 I1 E1) as Hsw.
  eapply wp_mono; [apply Hsw|intros [] w' H; by apply Hlift']. intros dl Hdl. by apply Htake.
Qed.

Lemma wp_bus_rx mctp binding bus eid F r pkt p w :
  ctxs_inv w F r -> endpoint mctp binding bus eid w ->
  F !! pkt = Some (HPkt p) -> pkt_wf p ->
  let res := spec_rx eid (m_max_message_size (w_mctp w)) (malloc_ok w) r (pkt_wire p) in
  (forall dl, res.2 = Some dl -> ctrl_request (dl_msg dl) = false) ->
  wp (mctp_bus_rx binding pkt) (fun _ w' => rx_effect (captured p w) w' F res) w.
Proof.
  intros HI Hep HF Hp res Hreq.
  eapply wp_mono;
    [apply (wp_bus_rx_taken mctp binding bus eid F r pkt p (quiet_rel delivery_events)); try done|].
  - intros dl. by apply quiet_rel_ok.
  - intros dl d Hdl _. by apply takes_message, Hreq.
  - intros [] w' H. by apply (quiet_effect delivery_events).
Qed.


(** A packet that carries a whole message: it is copied, and the copy handed to
    [mctp_rx] and released. *)
Lemma wp_bus_rx_one mctp binding bus eid h msg pkt p (Q : unit -> world D -> Prop) w :
  endpoint mctp binding bus eid w -> w_ops w = default_alloc_ops -> heap_wf w -> w_mallocs w = [] ->
  m_capture (w_mctp w) = None -> w_heap w !! pkt = Some (HPkt p) -> pkt_wf p ->
  pkt_wire p = bytes_of_hdr h ++ msg -> rx_accepts eid h ->
  fst_flags (flags_seq_tag h) = Z.lor MCTP_HDR_FLAG_SOM MCTP_HDR_FLAG_EOM ->
  wp (mctp_rx mctp bus (src h) (dest h) (fst_to (flags_seq_tag h)) (fst_tag (flags_seq_tag h))
        (w_brk w) (zlen msg))
    (fun _ w2 => wp (__mctp_msg_free (w_brk w) mctp) Q w2) (after_dup msg w) ->
  wp (mctp_bus_rx binding pkt) Q w.
Proof.
  intros Hep Hops Hheap Hmem Hcap Hpkt Hwf Hwire [Hsrc Hloc] Hone HQ.
  destruct (ep_binding _ _ _ _ _ Hep) as (bd & Hbd & Hbdm & Hbdb).
  destruct (ep_bus _ _ _ _ _ Hep) as (b & Hb & Hbm & Hbb & Hbe).
  pose proof (zlen_pkt_wire p Hwf) as Hz. pose proof (pkt_wf_size p Hwf) as Hsz.
  pose proof (zlen_nonneg msg) as H0.
  assert (Hlen : mctp_pktbuf_size p = 4 + zlen msg) by (rewrite <- Hz, Hwire, zlen_app; done).
  destruct (pkt_wire_split p Hwf) as (h' & Hhdr & Hwire' & _); [unfold sizeof_mctp_hdr; lia|].
  assert (h' = h /\ pkt_payload p = msg) as [-> Hpl].
  { rewrite Hwire' in Hwire. destruct h, h'. by injection Hwire as -> -> -> -> ->. }
  pose proof Hwf as (P0 & P1 & P2 & P3). pose proof (ep_mctp _ _ _ _ _ Hep) as Hmn.
  unfold mctp_bus_rx. wp_step. eapply wp_get_binding; [exact Hbd|]. rewrite Hbdb, Hbdm.
  do 2 wp_step; [done|]. do 4 wp_step. unfold sizeof_mctp_hdr in *. do 2 wp_step.
  unfold call_capture. do 2 wp_step. rewrite Hcap. do 2 wp_step.
  eapply (wp_load_hdr _ p h); [done|lia|unfold sizeof_mctp_hdr; lia|done|].
  rewrite decide_False by done. do 3 wp_step. eapply wp_get_bus; [exact Hb|]. rewrite decide_False.
  2: { intros [_ Hn]. apply Hn. unfold mctp_rx_dest_is_local. by rewrite Hbe. }
  cbv zeta. rewrite Hone, decide_True by done. unfold rx_single. do 2 wp_step. cbv zeta.
  assert (Hlen' : pb_end p -s pb_mctp_hdr_off p -s sizeof_mctp_hdr = zlen msg).
  { rewrite <- P0. change (mctp_pktbuf_size p -s 4 = zlen msg). rewrite sz_small; lia. }
  rewrite Hlen'. wp_step. pose proof (heap_wf_fresh _ Hheap) as Hfr.
  assert (Hbn : w_brk w <> NULL) by (destruct Hheap; unfold NULL; lia).
  apply wp_msg_dup; [done|done|done| |intros _|intros E; unfold malloc_ok in E; by rewrite Hmem in E].
  - unfold pkt_read. eapply wp_run_eq. wp_steps. eapply wp_load_pkt.
    { simpl. rewrite lookup_insert_ne by congruence. exact Hpkt. }
    unfold mctp_pktbuf_data, sizeof_mctp_hdr in *. wp_steps. f_equal.
    transitivity (pkt_payload p); [|done].
    unfold pkt_payload, mctp_pktbuf_data, sizeof_mctp_hdr. f_equal. lia.
  - wp_steps. eapply wp_mono; [exact HQ|]. intros [] w2 H. done.
Qed.

Lemma endpoint_effect mctp binding bus eid F p res w w' :
  rx_effect (captured p w) w' F res ->
  endpoint mctp binding bus eid w -> endpoint mctp binding bus eid w'.
Proof.
  intros [_ Em Eb _ _ Hk]. apply endpoint_mctp_eq; [rewrite Em|rewrite Em|exact Eb|];
    [by destruct w as [? ? ? ? []]..|].
  by apply rx_can_keep; [rewrite Em|rewrite Em|]; try (destruct w as [? ? ? ? []]).
Qed.

(** ** Sequences of packets *)

Fixpoint rx_packets (binding : Z) (pkts : list Z) : M (world D) unit :=
  match pkts with
  | [] => mret tt
  | pkt :: pkts => mctp_bus_rx binding pkt;; rx_packets binding pkts
  end.

Definition wire (F : gmap Z hobj) (pkt : Z) : list Z :=
  match F !! pkt with Some (HPkt p) => pkt_wire p | _ => [] end.

Definition wires (F : gmap Z hobj) (pkts : list Z) : list (list Z) := wire F <$> pkts.

(** Packets as the binding owns them. *)
Definition pkts_ok (F : gmap Z hobj) (pkts : list Z) : Prop :=
  Forall (fun pkt => exists p, F !! pkt = Some (HPkt p) /\ pkt_wf p) pkts.

(** A sequence of packets, however the messages in it are interleaved,
    delivers to the application, in order, exactly the messages that
    [spec_run] delivers. *)
Lemma rx_packets_run mctp binding bus eid F r pkts w :
  ctxs_inv w F r -> endpoint mctp binding bus eid w ->
  w_mallocs w = [] -> m_capture (w_mctp w) = None ->
  pkts_ok F pkts ->
  let res := spec_run eid (m_max_message_size (w_mctp w)) r (wires F pkts) in
  Forall (fun dl => ctrl_request (dl_msg dl) = false) res.2 ->
  exists w', rx_packets binding pkts w = Ok tt w' /\ ctxs_inv w' F res.1 /\
    w_trace w' = w_trace w ++ mbind (delivery_events (w_mctp w)) res.2.
Proof.
  revert r w. induction pkts as [|pkt pkts IH]; intros r w HI Hep Hmem Hcap Hpkts res Hreq.
  { exists w. split; [done|]. split; [done|]. simpl. by rewrite app_nil_r. }
  apply Forall_cons in Hpkts as [(p & HF & Hp) Hpkts]. subst res. simpl in *.
  assert (Hw : wire F pkt = pkt_wire p) by (unfold wire; by rewrite HF).
  rewrite Hw in *.
  destruct (spec_rx _ _ true r (pkt_wire p)) as [r1 o] eqn:E1.
  destruct (spec_run _ _ r1 _) as [r2 os] eqn:E2. simpl in *.
  apply Forall_app in Hreq as [Hreq1 Hreq2].
  assert (Hok : malloc_ok w = true) by (unfold malloc_ok; by rewrite Hmem).
  assert (Ho : forall dl, o = Some dl -> ctrl_request (dl_msg dl) = false).
  { intros dl ->. by inversion Hreq1. }
  destruct (wp_inv _ _ _ (wp_bus_rx mctp binding bus eid F r pkt p w HI Hep HF Hp
    ltac:(rewrite Hok, E1; exact Ho)))
    as ([] & w1 & Hrun & He).
  pose proof (endpoint_effect _ _ _ _ _ _ _ _ _ He Hep) as Hep1.
  rewrite Hok, E1 in He. destruct He as [I1 Em _ Et Em'].
  assert (Hm1 : m_max_message_size (w_mctp w1) = m_max_message_size (w_mctp w) /\
    m_capture (w_mctp w1) = None /\ delivery_events (w_mctp w1) = delivery_events (w_mctp w)).
  { rewrite Em. unfold captured. destruct w as [? ? ? ? []]. done. }
  destruct Hm1 as (Hmax & Hcap1 & Hev).
  destruct (IH r1 w1 I1 Hep1 (Em' Hmem) Hcap1 Hpkts) as (w2 & Hrun2 & I2 & Ht2).
  { by rewrite Hmax, E2. }
  exists w2. split; [by rewrite (bind_run _ _ _ _ _ Hrun)|].
  rewrite Hmax, E2 in I2, Ht2. split; [done|]. rewrite Ht2, Et, Hev. simpl.
  assert (Hce : capture_events (w_mctp w) (pkt_wire p) = []).
  { unfold capture_events, capture_of. rewrite Hcap. by case_decide. }
  rewrite Hce, app_nil_r, bind_app, app_assoc. f_equal. f_equal.
  destruct o; simpl; [by rewrite app_nil_r|done].
Qed.
End refine.

(** ** Interleaved messages *)
Section interleaving.
Context {D : Type} `{!ExtAlloc D, !BindingOps D, !RxOps D, !RxReady D, !QuietCapture D, !QuietRx D}.
Context (keep : D -> D -> Prop) `{!KeepOps D keep}.

(** C8: Messages do not interfere.  While there are no more than 16 keys
    (source, destination, tag) about, the messages of a key that a mixed
    sequence of packets delivers are those that the packets of this key alone
    deliver, in the same order. *)
Theorem interleaved_messages mctp binding bus eid F r k K pkts (w : world D) :
  ctxs_inv w F r -> endpoint mctp binding bus eid w ->
  w_mallocs w = [] -> m_capture (w_mctp w) = None -> pkts_ok F pkts ->
  Z.of_nat (size K) <= MCTP_REASSEMBLY_CTXS -> dom r ⊆ K ->
  Forall (fun pkt => in_keys K (wire F pkt)) pkts ->
  Forall (fun dl => ctrl_request (dl_msg dl) = false)
    (spec_run eid (m_max_message_size (w_mctp w)) r (wires F pkts)).2 ->
  exists w1 w2 dls,
    rx_packets binding pkts w = Ok tt w1 /\
    rx_packets binding (filter (fun pkt => pkt_key (wire F pkt) = Some k) pkts) w = Ok tt w2 /\
    w_trace w1 = w_trace w ++ mbind (delivery_events (w_mctp w)) dls /\
    w_trace w2 = w_trace w ++
      mbind (delivery_events (w_mctp w)) (filter (fun dl => dl_key dl = k) dls).
Proof.
  intros HI Hep Hmem Hcap Hpkts HK Hr Hkeys Hctl.
  set (max := m_max_message_size (w_mctp w)) in *. set (own := filter _ pkts).
  assert (Hwires : wires F own = filter (fun bs => pkt_key bs = Some k) (wires F pkts)).
  { unfold wires, own. clear. induction pkts as [|p pkts IH]; [done|].
    rewrite fmap_cons, !filter_cons. case_decide; [by rewrite fmap_cons, IH|done]. }
  pose proof (spec_run_interleave eid max K HK r r k (wires F pkts) Hr Hr) as Hint.
  rewrite <- Hwires in Hint. destruct Hint as [Hint _]; [by apply Forall_fmap|done|].
  destruct (rx_packets_run keep mctp binding bus eid F r pkts w HI Hep Hmem Hcap Hpkts Hctl)
    as (w1 & Hrun1 & _ & Ht1).
  destruct (rx_packets_run keep mctp binding bus eid F r own w HI Hep Hmem Hcap)
    as (w2 & Hrun2 & _ & Ht2).
  { unfold own. by apply Forall_filter. }
  { fold max. rewrite <- Hint. by apply Forall_filter. }
  exists w1, w2, (spec_run eid max r (wires F pkts)).2. fold max in Ht2. rewrite Hint. done.
Qed.
End interleaving.
