(* ===== verification/Frag.v ===== *)
(** * Packets of a message

    The packets a message is cut into, by index, and the proof that receiving
    them in order gives the message back. *)

From S2P Require Import Prelude State Alloc Pktbuf Reasm Tags Tx Control Rx RxSpec.

(** ** The flag byte *)

Lemma tag_cases (P : Z -> Prop) :
  P 0 -> P 1 -> P 2 -> P 3 -> P 4 -> P 5 -> P 6 -> P 7 -> forall t, 0 <= t < 8 -> P t.
Proof.
  intros H0 H1 H2 H3 H4 H5 H6 H7 t Ht.
  assert (t = 0 \/ t = 1 \/ t = 2 \/ t = 3 \/ t = 4 \/ t = 5 \/ t = 6 \/ t = 7) as E by lia.
  naive_solver.
Qed.

Lemma seq_cases (P : Z -> Prop) :
  P 0 -> P 1 -> P 2 -> P 3 -> forall t, 0 <= t < 4 -> P t.
Proof.
  intros H0 H1 H2 H3 t Ht. assert (t = 0 \/ t = 1 \/ t = 2 \/ t = 3) as E by lia. naive_solver.
Qed.

Definition flags_of (som eom : bool) : Z :=
  (if som then MCTP_HDR_FLAG_SOM else 0) + (if eom then MCTP_HDR_FLAG_EOM else 0).

Lemma flags_decode to tag seq som eom :
  0 <= tag < 8 -> 0 <= seq < 4 ->
  let f := tx_flags_seq_tag to tag seq som eom in
  fst_flags f = flags_of som eom /\ fst_to f = to /\ fst_tag f = tag /\ fst_seq f = seq /\
  0 <= f < 256.
Proof.
  intros Ht Hs. revert seq Hs. revert tag Ht.
  refine (tag_cases _ _ _ _ _ _ _ _ _); refine (seq_cases _ _ _ _ _);
    destruct to, som, eom; vm_compute; done.
Qed.

(** ** The packets *)

(** The number of packets of a message of [len] bytes, [mtu] bytes to each. *)
Definition frag_count (mtu len : Z) : Z :=
  if decide (len = 0) then 1 else (len + mtu - 1) / mtu.

(** The fields of the headers of one message. *)
Record tx_params := mk_tx_params {
  tp_ver : Z; tp_dest : Z; tp_src : Z; tp_to : bool; tp_tag : Z; tp_seq : Z; tp_mtu : Z;
}.

(** Packet [i]. *)
Definition fragment (t : tx_params) (msg : list Z) (i : Z) : list Z :=
  bytes_of_hdr (mk_hdr (tp_ver t) (tp_dest t) (tp_src t)
    (tx_flags_seq_tag (tp_to t) (tp_tag t) ((tp_seq t + i) mod 4)
       (bool_decide (i = 0)) (bool_decide (i = frag_count (tp_mtu t) (zlen msg) - 1)))) ++
  slice (i * tp_mtu t) (tp_mtu t) msg.

Definition fragments (t : tx_params) (msg : list Z) : list (list Z) :=
  fragment t msg <$> seqZ 0 (frag_count (tp_mtu t) (zlen msg)).

Section facts.
Context (t : tx_params) (msg : list Z).
Hypothesis (Hmtu : 0 < tp_mtu t).
Local Abbreviation mtu := (tp_mtu t).
Local Abbreviation n := (frag_count (tp_mtu t) (zlen msg)).

Lemma frag_count_pos : 1 <= n.
Proof.
  pose proof (zlen_nonneg msg). unfold frag_count. case_decide; [lia|].
  apply Z.div_le_lower_bound; lia.
Qed.

Lemma frag_count_covers : zlen msg <= n * mtu.
Proof.
  pose proof (zlen_nonneg msg). unfold frag_count. case_decide; [lia|].
  pose proof (Z.mul_succ_div_gt (zlen msg + mtu - 1) mtu). lia.
Qed.

(** All packets but the last are full. *)
Lemma frag_full i : 0 <= i < n - 1 -> (i + 1) * mtu < zlen msg.
Proof.
  pose proof (zlen_nonneg msg). unfold frag_count. case_decide; [lia|]. intros Hi.
  assert ((zlen msg + mtu - 1) / mtu * mtu <= zlen msg + mtu - 1).
  { rewrite Z.mul_comm. apply Z.mul_div_le. lia. }
  nia.
Qed.

Lemma frag_last : (n - 1) * mtu <= zlen msg.
Proof.
  pose proof (zlen_nonneg msg). destruct (decide (n = 1)) as [->|Hn]; [lia|].
  pose proof frag_count_pos. pose proof (frag_full (n - 2)). lia.
Qed.

(** Which packet is last, in terms of what is left to send. *)
Lemma frag_is_last i : 0 <= i < n -> i = n - 1 <-> zlen msg - i * mtu <= mtu.
Proof.
  intros Hi. pose proof frag_count_covers. split; intros E.
  - subst i. lia.
  - destruct (decide (i = n - 1)); [done|]. pose proof (frag_full i). lia.
Qed.

Lemma zlen_fragment i : 0 <= i < n ->
  zlen (fragment t msg i) = sizeof_mctp_hdr + Z.min mtu (zlen msg - i * mtu).
Proof.
  intros Hi. pose proof frag_last. unfold fragment. rewrite zlen_app.
  change (zlen (bytes_of_hdr _)) with 4. unfold sizeof_mctp_hdr. f_equal.
  assert (i * mtu <= zlen msg) by nia.
  destruct (decide (mtu <= zlen msg - i * mtu)).
  - rewrite zlen_slice; lia.
  - rewrite slice_cut by lia. rewrite zlen_slice; lia.
Qed.

(** ** Receiving them *)

Local Abbreviation k := (tp_src t, tp_dest t, tp_tag t).
Local Abbreviation dl := (mk_delivery (tp_src t) (tp_dest t) (tp_to t) (tp_tag t) msg).

Hypothesis (Htag : 0 <= tp_tag t < 8).
Context (eid max : Z).
Hypothesis (Hacc : tp_src t <> MCTP_EID_BROADCAST /\
  (tp_dest t = eid \/ tp_dest t = MCTP_EID_NULL \/ tp_dest t = MCTP_EID_BROADCAST)).

Lemma spec_rx_fragment mem r i :
  let h := mk_hdr (tp_ver t) (tp_dest t) (tp_src t)
    (tx_flags_seq_tag (tp_to t) (tp_tag t) ((tp_seq t + i) mod 4)
       (bool_decide (i = 0)) (bool_decide (i = n - 1))) in
  let payload := slice (i * mtu) mtu msg in
  hdr_key h = k /\ hdr_seq h = (tp_seq t + i) mod 4 /\
  (forall m, hdr_delivery h m = mk_delivery (tp_src t) (tp_dest t) (tp_to t) (tp_tag t) m) /\
  spec_rx eid max mem r (fragment t msg i) =
    if decide (i = 0) then
      if decide (i = n - 1) then spec_single mem r h payload else spec_start max mem r h payload
    else if decide (i = n - 1) then spec_end r h payload else spec_middle r h payload.
Proof.
  intros h payload.
  destruct (flags_decode (tp_to t) (tp_tag t) ((tp_seq t + i) mod 4) (bool_decide (i = 0))
    (bool_decide (i = n - 1)) Htag) as (Ef & Eto & Et & Es & _); [apply Z.mod_pos_bound; lia|].
  unfold hdr_key, hdr_seq, hdr_delivery. simpl. rewrite Et, Es, Eto. do 3 (split; [done|]).
  unfold rx_accepts. rewrite decide_True by done.
  unfold spec_flags. simpl. rewrite Ef. unfold flags_of, h.
  repeat case_bool_decide; repeat case_decide; try done.
Qed.

Lemma slice_upto i : 0 <= i -> slice 0 (i * mtu) msg ++ slice (i * mtu) mtu msg
  = slice 0 ((i + 1) * mtu) msg.
Proof.
  intros. replace ((i + 1) * mtu) with (i * mtu + mtu) by lia.
  rewrite (slice_split 0 (i * mtu)) by lia. done.
Qed.

Lemma zlen_upto i : 0 <= i <= n - 1 -> zlen (slice 0 (i * mtu) msg) = i * mtu.
Proof.
  intros. pose proof frag_last. apply zlen_slice; [lia|nia|]. nia.
Qed.

(** What is known of the message after packet [i - 1]. *)
Definition partial_upto (cap i : Z) : partial :=
  mk_partial (slice 0 (i * mtu) msg) cap (mtu + 4) ((tp_seq t + (i - 1)) mod 4).

Lemma seq_next i : (tp_seq t + i) mod 4 = ((tp_seq t + (i - 1)) mod 4 + 1) mod 4.
Proof. rewrite Z.add_mod_idemp_l by lia. f_equal. lia. Qed.

Lemma spec_run_rest (r : rmap) cap (m : nat) i :
  zlen msg <= cap -> 1 <= i -> i + Z.of_nat m = n -> (0 < m)%nat ->
  r !! k = Some (partial_upto cap i) ->
  spec_run eid max r (fragment t msg <$> seqZ i (Z.of_nat m)) = (delete k r, [dl]).
Proof.
  intros Hcap. revert i r. induction m as [|m IH]; intros i r Hi Hn Hm Hr; [lia|].
  rewrite seqZ_cons by lia. rewrite fmap_cons. cbn [spec_run].
  destruct (spec_rx_fragment true r i) as (Hk & Hs & Hd & ->).
  rewrite decide_False by lia.
  set (h := mk_hdr _ _ _ _) in *. set (pl := slice (i * mtu) mtu msg) in *.
  pose proof (zlen_upto i ltac:(lia)) as Hz. pose proof frag_last as Hl.
  pose proof (frag_is_last i ltac:(lia)) as Hlast.
  assert (Hpl : zlen pl = Z.min mtu (zlen msg - i * mtu)).
  { pose proof (zlen_fragment i ltac:(lia)) as E. unfold fragment in E. rewrite zlen_app in E.
    change (zlen (bytes_of_hdr _)) with 4 in E. fold pl in E. unfold sizeof_mctp_hdr in E. lia. }
  assert (Hseq : in_sequence (partial_upto cap i) h).
  { unfold in_sequence. rewrite Hs. simpl. apply seq_next. }
  assert (Hdata : slice 0 (i * mtu) msg ++ pl = slice 0 ((i + 1) * mtu) msg)
    by (apply slice_upto; lia).
  assert (Hfits : fits (partial_upto cap i) pl) by (unfold fits; simpl; lia).
  destruct (decide (i = n - 1)) as [E|E].
  - unfold spec_end. rewrite Hk, Hr, decide_True.
    2: { split; [done|]. split; [unfold pkt_len, sizeof_mctp_hdr; simpl; lia|done]. }
    replace (Z.pred (Z.of_nat (S m))) with 0 by lia. simpl. rewrite Hd. simpl.
    rewrite Hdata, slice_all; [done|]. pose proof frag_count_covers as Hcov.
    replace (i + 1) with n by lia. exact Hcov.
  - unfold spec_middle. rewrite Hk, Hr, decide_True.
    2: { split; [done|]. split; [unfold pkt_len, sizeof_mctp_hdr; simpl; lia|done]. }
    rewrite Hs. cbn [p_data p_cap p_frag partial_upto]. rewrite Hdata.
    replace (Z.pred (Z.of_nat (S m))) with (Z.of_nat m) by lia.
    rewrite <- Z.add_1_r, (IH (i + 1)); [|lia..|].
    + simpl. by rewrite delete_insert_eq.
    + rewrite lookup_insert_eq. unfold partial_upto. by replace (i + 1 - 1) with i by lia.
Qed.

(** Receiving the packets of a message in order delivers it, whatever was
    left of an earlier message of the same key. *)
Lemma spec_run_fragments (r : rmap) :
  match r !! k with
  | Some p => zlen msg <= p_cap p
  | None => zlen msg <= max /\ Z.of_nat (size r) < MCTP_REASSEMBLY_CTXS
  end ->
  spec_run eid max r (fragments t msg) =
    (if decide (n = 1) then r else delete k r, [dl]).
Proof.
  intros Hr. pose proof frag_count_pos as Hn. unfold fragments.
  rewrite seqZ_cons by lia. rewrite fmap_cons. cbn [spec_run].
  destruct (spec_rx_fragment true r 0) as (Hk & Hs & Hd & ->).
  rewrite decide_True by done. set (h := mk_hdr _ _ _ _) in *.
  set (pl := slice (0 * mtu) mtu msg) in *. pose proof frag_count_covers as Hc.
  destruct (decide (n = 1)) as [E|E].
  - rewrite decide_True by lia. unfold spec_single. rewrite E. simpl. rewrite Hd.
    unfold pl. rewrite slice_all by lia. done.
  - rewrite decide_False by lia. pose proof (frag_full 0 ltac:(lia)) as Hfull.
    assert (Hpl : zlen pl = mtu) by (apply zlen_slice; lia).
    set (cap := match r !! k with Some p => p_cap p | None => max end).
    assert (Hst : spec_start max true r h pl = (<[k := partial_upto cap 1]> r, None)).
    { unfold spec_start. rewrite Hk, Hs. unfold cap, pkt_len, sizeof_mctp_hdr, partial_upto.
      rewrite Hpl. destruct (r !! k) as [p|]; (rewrite decide_True; [|naive_solver lia]);
        unfold pl; by rewrite Z.mul_1_l, Z.mul_0_l. }
    rewrite Hst. replace (Z.pred n) with (Z.of_nat (Z.to_nat (n - 1))) by lia.
    replace (Z.succ 0) with 1 by lia.
    assert (Hcap : zlen msg <= cap) by (unfold cap; destruct (r !! k); lia).
    rewrite (spec_run_rest _ cap); [|done|lia..|].
    + simpl. by rewrite delete_insert_eq.
    + by rewrite lookup_insert_eq.
Qed.
End facts.

(** ** Messages of one packet *)

Lemma frag_count_one mtu len : 0 <= len <= mtu -> 0 < mtu -> frag_count mtu len = 1.
Proof.
  intros Hl Hm. unfold frag_count. case_decide; [done|]. symmetry.
  apply (Z.div_unique _ _ 1 (len - 1)); lia.
Qed.

Lemma one_fragment t msg :
  zlen msg <= tp_mtu t -> 0 < tp_mtu t -> 0 <= tp_seq t < 4 ->
  fragment t msg 0 = bytes_of_hdr (mk_hdr (tp_ver t) (tp_dest t) (tp_src t)
    (tx_flags_seq_tag (tp_to t) (tp_tag t) (tp_seq t) true true)) ++ msg.
Proof.
  intros Hl Hm Hs. unfold fragment. pose proof (zlen_nonneg msg).
  rewrite frag_count_one by lia. rewrite Z.add_0_r, Z.mod_small by lia.
  rewrite !bool_decide_true by lia. f_equal. by rewrite slice_all by lia.
Qed.
