(* ===== verification/TxRefine.v ===== *)
(** * Transmission against its specification

    [mctp_send_tx_queue] hands the binding the packets of the message that
    [Frag] describes, one after the other, until they are all sent or the
    binding refuses one. *)

From S2P Require Import Prelude State Alloc Pktbuf Reasm Tags Tx Control Rx RxSpec Frag.

(** The packet geometry of a binding: no header arithmetic wraps, and a packet
    carries at least the baseline transmission unit. *)
Record binding_wf (bd : mctp_binding) : Prop := {
  bw_pkt : MCTP_PACKET_SIZE MCTP_BTU <= bd_pkt_size bd;
  bw_header : 0 <= bd_pkt_header bd;
  bw_trailer : 0 <= bd_pkt_trailer bd;
  bw_sum : bd_pkt_size bd + bd_pkt_header bd + bd_pkt_trailer bd + sizeof_mctp_pktbuf < SIZE_MOD;
}.

Lemma binding_wf_mtu bd : binding_wf bd ->
  MCTP_BODY_SIZE (bd_pkt_size bd) = bd_pkt_size bd - 4 /\
  64 <= bd_pkt_size bd - 4 < SIZE_MOD.
Proof.
  intros [H1 H2 H3 H4]. change (MCTP_PACKET_SIZE MCTP_BTU) with 68 in H1.
  unfold MCTP_BODY_SIZE, sizeof_mctp_hdr, sizeof_mctp_pktbuf in *.
  split; [apply sz_small|]; lia.
Qed.

Lemma binding_wf_size bd : binding_wf bd ->
  binding_buf_size bd = bd_pkt_size bd + bd_pkt_header bd + bd_pkt_trailer bd.
Proof.
  intros [H1 H2 H3 H4]. change (MCTP_PACKET_SIZE MCTP_BTU) with 68 in H1.
  unfold binding_buf_size, sizeof_mctp_pktbuf in *. rewrite (sz_small (_ + bd_pkt_header bd)) by lia.
  apply sz_small. lia.
Qed.

(** How the binding answers: the codes it returns for the packets from [i] on
    of a message of [n] packets, and the packet the bus stands at after the
    loop.  A busy binding gets the same packet again; any other error skips a
    packet and ends the loop. *)
Inductive answers (answer : Z -> Prop) (n : Z) : Z -> list Z -> Z -> Prop :=
  | an_done : answers answer n n [] n
  | an_sent i rcs j : i < n -> answer 0 ->
      answers answer n (i + 1) rcs j -> answers answer n i (0 :: rcs) j
  | an_busy i : i < n -> answer (- EBUSY) -> answers answer n i [- EBUSY] i
  | an_error i rc : i < n -> answer rc -> rc <> 0 -> rc <> - EBUSY ->
      answers answer n i [rc] (i + 1).

Section tx.
Context {D : Type} `{!ExtAlloc D, !BindingOps D, !ClockOps D, !QuietCapture D}.
Context (ready : string -> Z -> D -> Prop) (answer : Z -> Prop) `{!QuietTx D ready answer}.
Context (binding : Z) (bus : nat) (bd : mctp_binding) (msgp : Z) (t : tx_params) (msg : list Z).
Implicit Types w : world D.

Local Abbreviation n := (frag_count (tp_mtu t) (zlen msg)).
Local Abbreviation storage := (bd_tx_storage bd).

(** The fields of the message being sent agree with [t]. *)
Record tx_ok : Prop := {
  to_wf : binding_wf bd;
  to_mtu : tp_mtu t = bd_pkt_size bd - 4;
  to_ver : tp_ver t = Z.land (bd_version bd) 15;
  to_tag : 0 <= tp_tag t < 8;
  to_seq : 0 <= tp_seq t < 4;
  to_len : zlen msg < SIZE_MOD;
  to_msg : msgp <> NULL;
  to_storage : msgp <> storage;
  to_align : storage mod 8 = 0;
  to_mctp : bd_mctp bd <> NULL;
  to_tx : is_Some (bd_tx bd);
}.

(** What transmission needs of the world besides the message. *)
Record tx_env (w : world D) : Prop := {
  te_ops : w_ops w = default_alloc_ops;
  te_heap : heap_wf w;
  te_binding : w_bindings w !! binding = Some bd;
  te_storage : exists o data, w_heap w !! storage = Some o /\ obj_pkt_data o = Some data /\
    bd_pkt_header bd + bd_pkt_size bd <= zlen data;
  te_ready : forall f, bd_tx bd = Some f -> ready f binding (w_dev w);
}.

(** The bus is to send packet [i] of the message. *)
Record tx_pending (b : mctp_bus) (i : Z) (w : world D) : Prop := {
  tp_bus : m_busses (w_mctp w) !! bus = Some b;
  tp_binding : bus_binding b = binding;
  tp_enabled : bus_st b = mctp_bus_state_tx_enabled;
  tp_msg : bus_tx_msg b = msgp;
  tp_mem : exists mem, w_heap w !! msgp = Some (HBytes mem) /\ slice 0 (zlen msg) mem = msg;
  tp_pos : bus_tx_msgpos b = i * tp_mtu t;
  tp_len : bus_tx_msglen b = zlen msg;
  tp_seqno : bus_tx_seq b = (tp_seq t + i) mod 4;
  tp_hdr : bus_tx_src b = tp_src t /\ bus_tx_dest b = tp_dest t /\ bus_tx_to b = tp_to t /\
    bus_tx_tag b = tp_tag t;
}.

Definition with_bus (b : mctp_bus) (w : world D) : world D :=
  set_w_mctp (set_m_busses (<[bus := b]> (m_busses (w_mctp w))) (w_mctp w)) w.

Lemma wp_upd_bus b f (Q : unit -> world D -> Prop) w :
  m_busses (w_mctp w) !! bus = Some b -> Q tt (with_bus (f b) w) -> wp (upd_bus bus f) Q w.
Proof.
  intros Hb HQ. unfold upd_bus. wp_step. by rewrite (alter_insert _ _ _ b).
Qed.

Hypothesis (Hok : tx_ok).

Lemma tx_mtu_pos : 0 < tp_mtu t.
Proof. rewrite (to_mtu Hok). pose proof (binding_wf_mtu bd (to_wf Hok)). lia. Qed.

(** The length of packet [i]'s payload, as the code computes it. *)
Lemma payload_len_eq i : 0 <= i < n ->
  let l := zlen msg -s i * tp_mtu t in
  (if decide (l > MCTP_BODY_SIZE (bd_pkt_size bd)) then MCTP_BODY_SIZE (bd_pkt_size bd) else l)
    = Z.min (tp_mtu t) (zlen msg - i * tp_mtu t) /\ 0 <= i * tp_mtu t <= zlen msg.
Proof.
  intros Hi l. pose proof tx_mtu_pos as Hm. pose proof (frag_last t msg Hm) as Hl.
  destruct (binding_wf_mtu bd (to_wf Hok)) as [Hb _]. pose proof (to_len Hok).
  assert (0 <= i * tp_mtu t <= zlen msg) by nia.
  unfold l. rewrite sz_small by lia. rewrite Hb, <- (to_mtu Hok). case_decide; lia.
Qed.

(** The storage block after packet [i] has been put in it. *)
Lemma packet_in_storage (data hdr pl : list Z) :
  zlen hdr = 4 -> zlen pl <= tp_mtu t ->
  bd_pkt_header bd + bd_pkt_size bd <= zlen data ->
  let p := mk_pktbuf (bd_pkt_header bd) (bd_pkt_header bd +s sizeof_mctp_hdr +s zlen pl)
    (binding_buf_size bd) (bd_pkt_header bd) false
    (splice (bd_pkt_header bd + 4) pl (splice (bd_pkt_header bd) hdr data)) in
  pkt_wire p = hdr ++ pl /\ zlen (pb_data p) = zlen data /\ pkt_readable p.
Proof.
  intros Hh Hpl Hdata p. pose proof (to_wf Hok) as Hwf. pose proof (binding_wf_mtu _ Hwf) as [_ Hm].
  pose proof (to_mtu Hok) as Hmtu. destruct Hwf as [W1 W2 W3 W4]. pose proof (zlen_nonneg pl).
  unfold sizeof_mctp_pktbuf in *.
  assert (Hz : zlen (splice (bd_pkt_header bd) hdr data) = zlen data) by (apply zlen_splice; lia).
  assert (Hzp : zlen (pb_data p) = zlen data) by (unfold p; simpl; rewrite zlen_splice; lia).
  assert (Hs : mctp_pktbuf_size p = zlen (hdr ++ pl)).
  { unfold p, mctp_pktbuf_size, sizeof_mctp_hdr. simpl. rewrite zlen_app, Hh.
    rewrite (sz_small (bd_pkt_header bd + 4)), !sz_small by (rewrite ?sz_small; lia). lia. }
  assert (Hend : bd_pkt_header bd +s sizeof_mctp_hdr +s zlen pl = bd_pkt_header bd + 4 + zlen pl).
  { unfold sizeof_mctp_hdr.
    rewrite (sz_small (bd_pkt_header bd + 4)), sz_small by (rewrite ?sz_small; lia). done. }
  split; [|split; [done|unfold pkt_readable; rewrite Hzp; unfold p; simpl; rewrite Hend; lia]].
  unfold pkt_wire. rewrite Hs. unfold p. simpl. unfold mctp_pktbuf_hdr. simpl.
  rewrite <- Hh at 1. rewrite splice_splice by lia. apply slice_splice_eq; [lia|].
  rewrite zlen_app. lia.
Qed.

Definition pending_flags (b : mctp_bus) (pl : Z) : Z :=
  tx_flags_seq_tag (bus_tx_to b) (bus_tx_tag b) (bus_tx_seq b)
    (bool_decide (bus_tx_msgpos b = 0)) (bool_decide (bus_tx_msgpos b +s pl >= bus_tx_msglen b)).

(** The header the code writes, and the bytes it copies, are packet [i]. *)
Lemma pending_fragment b i w mem :
  tx_pending b i w -> 0 <= i < n -> slice 0 (zlen msg) mem = msg -> zlen msg <= zlen mem ->
  let pl := Z.min (tp_mtu t) (zlen msg - i * tp_mtu t) in
  bytes_of_hdr (mk_hdr (Z.land (bd_version bd) 15) (bus_tx_dest b) (bus_tx_src b)
    (pending_flags b pl)) ++ slice (bus_tx_msgpos b) pl mem = fragment t msg i /\
  zlen (slice (bus_tx_msgpos b) pl mem) = pl.
Proof.
  intros Hp Hi Hmem Hlen pl. pose proof tx_mtu_pos as Hm.
  pose proof (frag_last t msg Hm) as Hl. pose proof (frag_is_last t msg Hm i Hi) as Hlast.
  pose proof (to_len Hok) as Hsz. assert (0 <= i * tp_mtu t <= zlen msg) by nia.
  destruct (tp_hdr _ _ _ Hp) as (Es & Ed & Et & Eg).
  unfold pending_flags. rewrite (tp_pos _ _ _ Hp), (tp_len _ _ _ Hp), (tp_seqno _ _ _ Hp).
  rewrite Es, Ed, Et, Eg.
  split; [|apply zlen_slice; lia]. unfold fragment. f_equal.
  - rewrite (to_ver Hok). unfold bytes_of_hdr. simpl. do 4 f_equal. f_equal.
    + apply bool_decide_ext. split; [nia|intros ->; lia].
    + apply bool_decide_ext. rewrite sz_small by lia. lia.
  - transitivity (slice (i * tp_mtu t) pl msg).
    + rewrite <- Hmem at 1. by rewrite slice_slice by lia.
    + unfold pl. destruct (decide (tp_mtu t <= zlen msg - i * tp_mtu t)).
      * by rewrite Z.min_l by lia.
      * rewrite Z.min_r by lia. symmetry. apply slice_cut; lia.
Qed.

(** The world with a packet in the storage. *)
Definition with_packet (p : mctp_pktbuf) (w : world D) : world D :=
  set_w_heap (<[storage := HPkt p]> (w_heap w)) w.

Lemma wp_next_tx_pkt b i (Q : Z -> world D -> Prop) w :
  tx_env w -> tx_pending b i w -> 0 <= i < n ->
  (forall p, pkt_wire p = fragment t msg i -> bd_pkt_header bd + bd_pkt_size bd <= zlen (pb_data p) ->
     pkt_readable p ->
     Q storage (with_bus (set_bus_tx_pktlen (Z.min (tp_mtu t) (zlen msg - i * tp_mtu t)) b)
                  (with_packet p w))) ->
  wp (mctp_next_tx_pkt bus) Q w.
Proof.
  intros He Hp Hi HQ. destruct (tp_mem _ _ _ Hp) as (mem & Hmem & Hmsg).
  pose proof (tp_bus _ _ _ Hp) as Hb. pose proof (te_binding _ He) as Hbd.
  destruct (te_storage _ He) as (o & data & Ho & Hdata & Hsz).
  pose proof (to_wf Hok) as Hwf. pose proof (binding_wf_mtu _ Hwf) as [_ Hm2].
  pose proof (to_mtu Hok) as Hmtu. destruct (payload_len_eq i Hi) as [Hpl Hpos].
  destruct Hwf as [W1 W2 W3 W4]. unfold sizeof_mctp_pktbuf in *.
  assert (Hml : zlen msg <= zlen mem).
  { rewrite <- Hmsg at 1. unfold zlen, slice. rewrite length_take, length_drop. lia. }
  destruct (pending_fragment b i w mem Hp Hi Hmsg Hml) as [Hfr Hzl]. cbv zeta in Hfr, Hzl.
  unfold pending_flags in Hfr.
  unfold mctp_next_tx_pkt. do 2 wp_step. rewrite (tp_msg _ _ _ Hp).
  rewrite decide_False by apply (to_msg Hok). rewrite (tp_binding _ _ _ Hp). do 2 wp_step.
  rewrite (tp_pos _ _ _ Hp), (tp_len _ _ _ Hp) in *.
  cbv zeta. rewrite Hpl. set (pl := Z.min _ _) in *. wp_step.
  eapply wp_pktbuf_init; [apply (to_align Hok)|done..|]. wp_step.
  eapply wp_load_pkt; [simpl; apply lookup_insert_eq|]. wp_step.
  eapply wp_pkt_write; [simpl; apply lookup_insert_eq|simpl; lia| |].
  { unfold mctp_pktbuf_hdr. simpl. change (zlen (bytes_of_hdr _)) with 4. lia. }
  wp_step. eapply wp_load_bytes;
    [simpl; rewrite !lookup_insert_ne by (apply not_eq_sym, (to_storage Hok)); exact Hmem|lia..|].
  wp_step. eapply wp_pkt_write; [simpl; apply lookup_insert_eq| | |].
  { unfold mctp_pktbuf_data, sizeof_mctp_hdr. simpl. lia. }
  { unfold mctp_pktbuf_data, sizeof_mctp_hdr, mctp_pktbuf_hdr. simpl. rewrite Hzl, zlen_splice.
    - lia.
    - lia.
    - change (zlen (bytes_of_hdr _)) with 4. lia. }
  wp_step. eapply wp_load_pkt; [simpl; apply lookup_insert_eq|]. do 3 wp_step.
  eapply wp_upd_bus; [simpl; exact Hb|]. wp_step.
  set (hdr := bytes_of_hdr _). set (bs := slice (i * tp_mtu t) pl mem) in *.
  destruct (packet_in_storage data hdr bs eq_refl) as (Hw & Hd & Hr); [lia|done|].
  rewrite Hzl in Hw, Hd, Hr.
  unfold with_bus, set_w_heap, set_w_mctp. simpl. rewrite !insert_insert_eq.
  apply (HQ _ (eq_trans Hw Hfr)); [by rewrite Hd|exact Hr].
Qed.

(** ** One packet *)

Definition tx_events (m : mctp) (pkt : list Z) (rc : Z) : list event :=
  capture_of m true pkt ++ [EvTx binding pkt rc].

(** The most that can be said of what sending a packet did to the environment. *)
Definition tx_did (pkt : list Z) (rc : Z) (d d' : D) : Prop :=
  forall sent, TxEffect D ready sent -> sent binding pkt rc d d'.

Lemma wp_packet_tx b p (Q : Z -> world D -> Prop) w :
  w_bindings w !! binding = Some bd -> m_busses (w_mctp w) !! bus = Some b ->
  bus_binding b = binding -> bus_st b = mctp_bus_state_tx_enabled ->
  w_heap w !! storage = Some (HPkt p) -> pkt_readable p ->
  (forall f, bd_tx bd = Some f -> ready f binding (w_dev w)) ->
  (forall rc d, answer rc -> (forall f, bd_tx bd = Some f -> ready f binding d) ->
     tx_did (pkt_wire p) rc (w_dev w) d -> Q rc (set_w_dev d (set_w_trace
     (w_trace w ++ tx_events (w_mctp w) (pkt_wire p) rc) w))) ->
  wp (mctp_packet_tx bus storage) Q w.
Proof.
  intros Hbd Hb Hbb Hst Hp Hr Hrdy HQ. destruct (to_tx Hok) as [f Hf]. unfold mctp_packet_tx. do 2 wp_step. rewrite Hbb. do 2 wp_step.
  rewrite Hst. wp_step. wp_step.
  apply (wp_capture_inv (fun d => ready f binding d /\ forall sent, TxEffect D ready sent ->
    forall bs rc d', sent binding bs rc d d' -> sent binding bs rc (w_dev w) d') _ _ p);
    [apply (to_mctp Hok)|done|split; [by apply Hrdy|done]| |].
  { intros g data w1 w2 [Hr1 He1] Hc. split; [by eapply quiet_tx_capture|].
    intros sent Hsent bs rc d' H. by eapply He1, tx_effect_capture. }
  intros d [Hd Heff]. do 2 wp_step. rewrite Hbb. do 2 wp_step. rewrite Hf. do 5 wp_step.
  set (w1 := set_w_dev d _).
  destruct (quiet_tx f binding storage p w1) as (rc & d' & Hans & Hd' & Hrun); [done..|].
  eapply wp_ok; [exact Hrun|]. do 3 wp_step.
  specialize (HQ rc d' Hans ltac:(intros; congruence)).
  assert (Hdid : tx_did (pkt_wire p) rc (w_dev w) d').
  { intros sent Hsent. apply (Heff sent Hsent). change d with (w_dev w1).
    change d' with (w_dev (set_w_dev d' w1)). by eapply tx_effect. }
  specialize (HQ Hdid).
  unfold tx_events in HQ. by rewrite app_assoc in HQ.
Qed.

(** What transmission does not touch. *)
Record tx_keep (w w' : world D) : Prop := {
  tk_ops : w_ops w' = w_ops w;
  tk_bindings : w_bindings w' = w_bindings w;
  tk_heap : forall a, a <> storage -> a <> msgp -> w_heap w' !! a = w_heap w !! a;
  tk_brk : w_brk w' = w_brk w;
  tk_mallocs : w_mallocs w' = w_mallocs w;
  tk_mctp : w_mctp w' = set_m_busses (m_busses (w_mctp w')) (w_mctp w);
  tk_busses : forall k, k <> bus -> m_busses (w_mctp w') !! k = m_busses (w_mctp w) !! k;
}.

Lemma tx_keep_refl w : tx_keep w w.
Proof. split; try done. by destruct w as [? ? ? ? []]. Qed.

Lemma tx_keep_trans w1 w2 w3 : tx_keep w1 w2 -> tx_keep w2 w3 -> tx_keep w1 w3.
Proof.
  intros [A1 A2 A3 A4 A5 A6 A7] [B1 B2 B3 B4 B5 B6 B7].
  split; try congruence.
  - intros a ? ?. by rewrite B3, A3.
  - rewrite B6, A6. by destruct (w_mctp w1), (w_mctp w3).
  - intros k ?. by rewrite B7, A7.
Qed.

Lemma tx_keep_capture w w' : tx_keep w w' -> m_capture (w_mctp w') = m_capture (w_mctp w).
Proof. intros H. rewrite (tk_mctp _ _ H). by destruct (w_mctp w). Qed.

(** The bus stands at packet [j]: it is to send it, or, after the last one,
    it is idle and the message is released. *)
Definition tx_at (b : mctp_bus) (j : Z) (w : world D) : Prop :=
  if decide (j = n) then
    m_busses (w_mctp w) !! bus = Some b /\ bus_tx_msg b = NULL /\ w_heap w !! msgp = None /\
    bus_tx_seq b = (tp_seq t + n) mod 4 /\ bus_st b = mctp_bus_state_tx_enabled /\
    bus_binding b = binding
  else tx_pending b j w.

Lemma wp_advance b seq pos (k : M (world D) unit) Q w :
  m_busses (w_mctp w) !! bus = Some b ->
  wp k Q (with_bus (set_bus_tx_msgpos pos (set_bus_tx_seq seq b)) w) ->
  wp (upd_bus bus (set_bus_tx_seq seq);; upd_bus bus (set_bus_tx_msgpos pos);; k) Q w.
Proof.
  intros Hb HQ. assert (Hlt : (bus < length (m_busses (w_mctp w)))%nat) by by eapply lookup_lt_Some.
  wp_step. eapply wp_upd_bus; [exact Hb|]. wp_step.
  eapply wp_upd_bus; [simpl; by apply list_lookup_insert_eq|].
  unfold with_bus at 1. simpl. rewrite list_insert_insert_eq. exact HQ.
Qed.

Lemma with_bus_lookup b b' w : m_busses (w_mctp w) !! bus = Some b ->
  m_busses (w_mctp (with_bus b' w)) !! bus = Some b'.
Proof. intros Hb. simpl. apply list_lookup_insert_eq. by eapply lookup_lt_Some. Qed.

Lemma tx_keep_with_bus b w : tx_keep w (with_bus b w).
Proof. split; try done. intros k Hk. simpl. by apply list_lookup_insert_ne. Qed.

Lemma tx_env_with_bus b w : tx_env w -> tx_env (with_bus b w).
Proof. by intros []. Qed.

(** The message is released. *)
Lemma tx_env_free w : tx_env w -> tx_env (after_free msgp w) /\ tx_keep w (after_free msgp w).
Proof.
  intros [E1 E2 E3 (o & data & E4) E5]. split.
  - split; [done|by apply heap_wf_free|done| |done]. exists o, data. simpl.
    by rewrite lookup_delete_ne by apply (to_storage Hok).
  - split; try done; [|by destruct w as [? ? ? ? []]].
    intros a _ Ha. simpl. by rewrite lookup_delete_ne by done.
Qed.

Lemma next_seq i :
  Z.land ((tp_seq t + i) mod 4 + 1) MCTP_HDR_SEQ_MASK = (tp_seq t + (i + 1)) mod 4.
Proof.
  change MCTP_HDR_SEQ_MASK with (Z.ones 2). rewrite Z.land_ones by lia.
  change (2 ^ 2) with 4. rewrite Z.add_mod_idemp_l by lia. f_equal. lia.
Qed.

Lemma wp_tx_complete b i (Q : unit -> world D -> Prop) w :
  tx_env w -> 0 <= i < n ->
  tx_pending b i w -> bus_tx_pktlen b = Z.min (tp_mtu t) (zlen msg - i * tp_mtu t) ->
  (forall b' w', tx_env w' -> tx_keep w w' -> tx_at b' (i + 1) w' ->
     w_trace w' = w_trace w -> w_dev w' = w_dev w -> bus_eid b' = bus_eid b -> bus_mctp b' = bus_mctp b -> Q tt w') ->
  wp (mctp_tx_complete bus) Q w.
Proof.
  intros He Hi Hp Hpl HQ.
  pose proof (tp_bus _ _ _ Hp) as Hb. pose proof (te_binding _ He) as Hbd.
  pose proof tx_mtu_pos as Hm. pose proof (frag_last t msg Hm) as Hl.
  pose proof (frag_is_last t msg Hm i Hi) as Hlast. pose proof (to_len Hok) as Hsz.
  assert (0 <= i * tp_mtu t <= zlen msg) by nia.
  destruct (tp_mem _ _ _ Hp) as (mem & Hmem & Hmsg).
  unfold mctp_tx_complete. do 2 wp_step. rewrite (tp_msg _ _ _ Hp).
  rewrite decide_False by apply (to_msg Hok). eapply wp_advance; [exact Hb|].
  rewrite (tp_pos _ _ _ Hp), (tp_len _ _ _ Hp), (tp_seqno _ _ _ Hp), next_seq, Hpl.
  rewrite sz_small by lia. set (b2 := set_bus_tx_msgpos _ _). set (w2 := with_bus b2 w).
  pose proof (with_bus_lookup b b2 w Hb) as Hb2. fold w2 in Hb2.
  pose proof (tx_env_with_bus b2 w He) as He2. fold w2 in He2.
  pose proof (tx_keep_with_bus b2 w) as Hk2. fold w2 in Hk2.
  case_decide as Hend.
  - wp_step. rewrite (tp_binding _ _ _ Hp).
    eapply wp_get_binding; [exact Hbd|]. wp_step.
    eapply wp_msg_free; [apply He2|apply (to_mctp Hok)|eauto|apply heap_wf_null, He2|].
    destruct (tx_env_free w2 He2) as [He3 Hk3].
    eapply wp_upd_bus; [exact Hb2|]. apply (HQ (set_bus_tx_msg NULL b2)); [|..|done|done|done|done].
    + by apply tx_env_with_bus.
    + eapply tx_keep_trans; [exact Hk2|]. eapply tx_keep_trans; [exact Hk3|].
      apply tx_keep_with_bus.
    + assert (Hin : i + 1 = n) by lia. unfold tx_at. rewrite decide_True by done.
      split; [by eapply with_bus_lookup|]. split; [done|].
      split; [simpl; apply lookup_delete_eq|]. split; [simpl; by rewrite Hin|].
      split; [apply (tp_enabled _ _ _ Hp)|apply (tp_binding _ _ _ Hp)].
  - wp_step. apply (HQ b2); [done..| |done|done|done|done].
    unfold tx_at. rewrite decide_False by lia. split; try done.
    + apply (tp_binding _ _ _ Hp).
    + apply (tp_enabled _ _ _ Hp).
    + apply (tp_msg _ _ _ Hp).
    + eauto.
    + simpl. lia.
    + apply (tp_len _ _ _ Hp).
    + apply (tp_hdr _ _ _ Hp).
Qed.

(** ** The queue *)

(** The calls made for the packets from [i] on. *)
Fixpoint tx_log (m : mctp) (i : Z) (rcs : list Z) : list event :=
  match rcs with
  | [] => []
  | rc :: rcs => tx_events m (fragment t msg i) rc ++ tx_log m (i + 1) rcs
  end.

Lemma tx_log_mctp m m' i rcs : m_capture m = m_capture m' -> tx_log m i rcs = tx_log m' i rcs.
Proof.
  intros E. revert i. induction rcs as [|rc rcs IH]; intros i; [done|]. simpl.
  rewrite IH. unfold tx_events, capture_of. by rewrite E.
Qed.

(** What the packets from [i] on did to the environment. *)
Fixpoint tx_devs (i : Z) (rcs : list Z) (d d' : D) : Prop :=
  match rcs with
  | [] => d' = d
  | rc :: rcs => exists d1, tx_did (fragment t msg i) rc d d1 /\ tx_devs (i + 1) rcs d1 d'
  end.

(** One packet is built and handed to the binding. *)
Lemma wp_send_one b i (k : Z -> M (world D) unit) (Q : unit -> world D -> Prop) w :
  tx_env w -> tx_pending b i w -> 0 <= i < n ->
  (forall b' rc w', answer rc -> tx_env w' -> tx_keep w w' -> tx_pending b' i w' ->
     bus_tx_pktlen b' = Z.min (tp_mtu t) (zlen msg - i * tp_mtu t) ->
     bus_eid b' = bus_eid b -> bus_mctp b' = bus_mctp b ->
     w_trace w' = w_trace w ++ tx_events (w_mctp w) (fragment t msg i) rc ->
     tx_did (fragment t msg i) rc (w_dev w) (w_dev w') -> wp (k rc) Q w') ->
  wp (pkt ← mctp_next_tx_pkt bus; rc ← mctp_packet_tx bus pkt; k rc) Q w.
Proof.
  intros He Hp Hi HQ. wp_step. eapply wp_next_tx_pkt; [done..|]. intros p Hw Hd Hr. wp_step.
  set (b1 := set_bus_tx_pktlen _ b). set (w1 := with_bus b1 (with_packet p w)).
  pose proof (with_bus_lookup b b1 (with_packet p w) (tp_bus _ _ _ Hp)) as Hb1. fold w1 in Hb1.
  destruct (te_storage _ He) as (o & data & Ho & _ & _).
  assert (Hp1 : w_heap w1 !! storage = Some (HPkt p)) by (simpl; apply lookup_insert_eq).
  eapply (wp_packet_tx b1 p); [apply He|exact Hb1|apply (tp_binding _ _ _ Hp)
    |apply (tp_enabled _ _ _ Hp)|exact Hp1|exact Hr|apply He|].
  intros rc d Hans Hrdy Hdid. rewrite Hw in Hdid.
  apply (HQ b1); [done| | | |done|done|done|by rewrite Hw|exact Hdid].
  - destruct He as [E1 E2 E3 E4 E5]. split; [done| |done| |done].
    + apply (heap_wf_insert storage (HPkt p) w E2). eauto.
    + exists (HPkt p), (pb_data p). done.
  - split; try done.
    + intros a Ha _. simpl. by rewrite lookup_insert_ne by done.
    + intros j Hj. simpl. by rewrite list_lookup_insert_ne by done.
  - destruct Hp. split; try done. simpl.
    rewrite lookup_insert_ne by apply not_eq_sym, (to_storage Hok). done.
Qed.

(** What the bus has become when it stands at packet [j]. *)
Definition tx_stands (b : mctp_bus) (j : Z) (w w' : world D) : Prop :=
  tx_env w' /\ tx_keep w w' /\ exists b', tx_at b' j w' /\
    bus_eid b' = bus_eid b /\ bus_mctp b' = bus_mctp b.

Lemma tx_stands_trans b b1 j w w1 w2 :
  tx_keep w w1 -> bus_eid b1 = bus_eid b -> bus_mctp b1 = bus_mctp b ->
  tx_stands b1 j w1 w2 -> tx_stands b j w w2.
Proof.
  intros Hk E1 E2 (He & Hk' & b' & Ha & E3 & E4). split; [done|].
  split; [by eapply tx_keep_trans|]. exists b'. rewrite E3, E4. done.
Qed.

Lemma wp_send_loop fuel b i w :
  tx_env w -> tx_at b i w -> 0 <= i <= n -> n - i < Z.of_nat fuel ->
  wp (send_tx_queue_loop fuel bus) (fun _ w' => exists rcs j, answers answer n i rcs j /\
    w_trace w' = w_trace w ++ tx_log (w_mctp w) i rcs /\
       tx_devs i rcs (w_dev w) (w_dev w') /\ tx_stands b j w w') w.
Proof.
  revert b i w. induction fuel as [|fuel IH]; intros b i w He Hat Hi Hf; [lia|].
  cbn [send_tx_queue_loop]. unfold tx_at in Hat. case_decide as Hin.
  { destruct Hat as (Hb & Hmsg & Hfree & Hseq & Hst). do 2 wp_step.
    rewrite decide_False by (intros [E _]; done). wp_step. exists [], i. subst i.
    split; [constructor|]. split; [simpl; by rewrite app_nil_r|]. split; [done|]. split; [done|].
    split; [apply tx_keep_refl|]. exists b. unfold tx_at. rewrite decide_True by done. done. }
  pose proof (tp_bus _ _ _ Hat) as Hb. do 2 wp_step.
  rewrite (decide_True (P := _ /\ _)).
  2: { rewrite (tp_msg _ _ _ Hat). split; [apply (to_msg Hok)|apply (tp_enabled _ _ _ Hat)]. }
  eapply wp_send_one; [done|done|lia|]. intros b1 rc w1 Hrca He1 Hk1 Hp1 Hpl E1 E2 Ht1 Hd1.
  assert (Hin' : 0 <= i < n) by lia.
  case_decide as Hrc; [subst rc; wp_step|case_decide as Hrc'].
  - eapply wp_tx_complete; [done..|]. intros b2 w2 He2 Hk2 Ha2 Ht2 Hd2 E3 E4.
    eapply wp_mono; [apply (IH b2 (i + 1)); [done..|lia|lia]|].
    intros [] w3 (rcs & j & Hans & Ht3 & Hdev & Hst). exists (0 :: rcs), j.
    split; [by constructor; [lia|done|]|]. split; [|split].
    + rewrite Ht3, Ht2, Ht1. simpl. rewrite <- app_assoc. do 2 f_equal.
      apply tx_log_mctp. rewrite (tx_keep_capture _ _ Hk2). by apply tx_keep_capture.
    + simpl. exists (w_dev w1). split; [done|]. by rewrite <- Hd2.
    + eapply tx_stands_trans; [by eapply tx_keep_trans|..|exact Hst]; congruence.
  - wp_step. exists [rc], i. split; [subst rc; by constructor; [lia|]|].
    split; [simpl; by rewrite app_nil_r|]. split; [simpl; by eexists|]. split; [done|].
    split; [done|]. exists b1. unfold tx_at. by rewrite decide_False by done.
  - eapply wp_tx_complete; [done..|]. intros b2 w2 He2 Hk2 Ha2 Ht2 Hd2 E3 E4.
    exists [rc], (i + 1). split; [by constructor; [lia|..]|].
    split; [rewrite Ht2, Ht1; simpl; by rewrite app_nil_r|].
    split; [simpl; rewrite Hd2; by eexists|]. split; [done|].
    split; [by eapply tx_keep_trans|]. exists b2. split; [done|]. split; congruence.
Qed.

(** More tests of the guard change nothing once the loop ends. *)
Lemma send_loop_more k m i w w' :
  send_tx_queue_loop k i w = Ok tt w' -> (k <= m)%nat -> send_tx_queue_loop m i w = Ok tt w'.
Proof.
  revert m w. induction k as [|k IH]; intros [|m] w H Hle; [done|done|lia|].
  cbn [send_tx_queue_loop] in *. unfold mbind, M_bind in *.
  destruct (get_bus i w) as [b w1|]; [|done]. case_decide; [|done].
  destruct (mctp_next_tx_pkt i w1) as [pkt w2|]; [|done].
  destruct (mctp_packet_tx i pkt w2) as [rc w3|]; [|done]. case_decide; [|done].
  destruct (mctp_tx_complete i w3) as [[] w4|]; [|done]. apply IH; [done|lia].
Qed.

Lemma frag_count_fuel : n <= zlen msg + 1.
Proof.
  pose proof tx_mtu_pos. pose proof (zlen_nonneg msg). unfold frag_count. case_decide; [lia|].
  apply Z.div_le_upper_bound; nia.
Qed.

Lemma wp_send_queue b i w :
  tx_env w -> tx_pending b i w -> 0 <= i < n ->
  wp (mctp_send_tx_queue bus) (fun _ w' => exists rcs j, answers answer n i rcs j /\
    w_trace w' = w_trace w ++ tx_log (w_mctp w) i rcs /\
       tx_devs i rcs (w_dev w) (w_dev w') /\ tx_stands b j w w') w.
Proof.
  intros He Hp Hi. pose proof (tp_bus _ _ _ Hp) as Hb. unfold mctp_send_tx_queue. do 2 wp_step.
  pose proof frag_count_fuel. rewrite (tp_len _ _ _ Hp). apply wp_send_loop; [done| |lia|lia].
  unfold tx_at. by rewrite decide_False by lia.
Qed.

(** The message to send is in memory, on a bus with nothing else to send. *)
Record tx_idle (b : mctp_bus) (w : world D) : Prop := {
  ti_bus : m_busses (w_mctp w) !! bus = Some b;
  ti_binding : bus_binding b = binding;
  ti_enabled : bus_st b = mctp_bus_state_tx_enabled;
  ti_idle : bus_tx_msg b = NULL;
  ti_seq : bus_tx_seq b = tp_seq t;
  ti_mem : exists mem, w_heap w !! msgp = Some (HBytes mem) /\ slice 0 (zlen msg) mem = msg;
}.

Lemma wp_message_tx_on_bus b w :
  tx_env w -> tx_idle b w ->
  wp (mctp_message_tx_on_bus bus (tp_src t) (tp_dest t) (tp_to t) (tp_tag t) msgp (zlen msg))
    (fun rc w' => rc = 0 /\ exists rcs j, answers answer n 0 rcs j /\
       w_trace w' = w_trace w ++ tx_log (w_mctp w) 0 rcs /\
       tx_devs 0 rcs (w_dev w) (w_dev w') /\ tx_stands b j w w') w.
Proof.
  intros He [Hb Hbb Hst Hidle Hseq Hmem]. pose proof (te_binding _ He) as Hbd.
  unfold mctp_message_tx_on_bus. do 2 wp_step. rewrite Hst, decide_False by done.
  assert (Htag : Z.land (tp_tag t) MCTP_HDR_TAG_MASK = tp_tag t).
  { change MCTP_HDR_TAG_MASK with (Z.ones 3). rewrite Z.land_ones by lia.
    apply Z.mod_small, (to_tag Hok). }
  rewrite Htag. wp_step. rewrite Hbb. do 4 wp_step.
  { destruct (binding_wf_mtu bd (to_wf Hok)) as [-> ?]. unfold MCTP_BTU. lia. }
  rewrite Hidle. do 2 wp_step. eapply wp_upd_bus; [exact Hb|]. wp_step.
  set (b1 := set_bus_tx_tag _ _). pose proof (frag_count_pos t msg tx_mtu_pos) as Hn.
  eapply wp_mono; [apply (wp_send_queue b1 0); [by apply tx_env_with_bus| |lia]|].
  - destruct (to_seq Hok). split; try done.
    + by eapply with_bus_lookup.
    + simpl. rewrite Z.add_0_r, Z.mod_small by lia. done.
  - intros [] w' (rcs & j & Hans & Ht & Hd & Hs). wp_step. split; [done|]. exists rcs, j.
    split; [done|]. split; [|split; [done|]].
    + rewrite Ht. simpl. f_equal. apply tx_log_mctp. by destruct (w_mctp w).
    + eapply tx_stands_trans; [apply tx_keep_with_bus|..|exact Hs]; done.
Qed.

(** C7: Transmission refines the cutting of a message into packets.  On a bus
    that is enabled and idle, [mctp_message_tx_on_bus] returns 0 and hands the
    binding the packets of the message in order, from the first on, until all
    are accepted, the binding answers [-EBUSY] (it then stands at that packet)
    or it answers another error (that packet is skipped and the rest is left
    waiting).  When all are accepted the message is released and the bus
    idle.  No other memory, bus or binding changes. *)
Theorem mctp_message_tx_on_bus_sends b w :
  tx_env w -> tx_idle b w ->
  exists rcs j w',
    mctp_message_tx_on_bus bus (tp_src t) (tp_dest t) (tp_to t) (tp_tag t) msgp (zlen msg) w
      = Ok 0 w' /\
    answers answer n 0 rcs j /\ w_trace w' = w_trace w ++ tx_log (w_mctp w) 0 rcs /\
    tx_stands b j w w'.
Proof.
  intros He Hi. destruct (wp_inv _ _ _ (wp_message_tx_on_bus b w He Hi))
    as (rc & w' & Hrun & -> & rcs & j & Ha & Ht & _ & H). by exists rcs, j, w'.
Qed.

(** C13: The loop of [mctp_send_tx_queue] terminates whatever the binding answers:
    from packet [i] of [n] it tests its guard at most [n - i + 1] times, and the
    state it ends in does not depend on how many more tests are allowed, that
    of [mctp_send_tx_queue] among them. *)
Theorem mctp_send_tx_queue_terminates b i w :
  tx_env w -> tx_pending b i w -> 0 <= i < n ->
  exists w', mctp_send_tx_queue bus w = Ok tt w' /\
    forall fuel, n - i < Z.of_nat fuel -> send_tx_queue_loop fuel bus w = Ok tt w'.
Proof.
  intros He Hp Hi. pose proof (tp_bus _ _ _ Hp) as Hb. pose proof frag_count_fuel as Hn.
  assert (Hwp : wp (send_tx_queue_loop (Z.to_nat (n - i + 1)) bus) (fun _ _ => True) w).
  { eapply wp_mono; [apply (wp_send_loop _ b i); [done| |lia|lia]|done].
    unfold tx_at. by rewrite decide_False by lia. }
  destruct (wp_inv _ _ _ Hwp) as ([] & w' & Hrun & _). exists w'. split.
  - unfold mctp_send_tx_queue, get_bus, mbind, M_bind. rewrite Hb.
    rewrite (tp_len _ _ _ Hp). eapply send_loop_more; [exact Hrun|lia].
  - intros fuel Hf. eapply send_loop_more; [exact Hrun|lia].
Qed.

Lemma tx_log_bound m i rcs j :
  answers answer n i rcs j -> 0 <= i ->
  Forall (fun e => match e with EvTx _ pkt _ => zlen pkt <= bd_pkt_size bd | _ => True end)
    (tx_log m i rcs).
Proof.
  intros H. pose proof tx_mtu_pos as Hm. pose proof (to_mtu Hok) as Hmtu.
  assert (Hone : forall i rc, 0 <= i < n -> Forall (fun e => match e with
    EvTx _ pkt _ => zlen pkt <= bd_pkt_size bd | _ => True end) (tx_events m (fragment t msg i) rc)).
  { intros k rc Hk. unfold tx_events, capture_of. apply Forall_app. split.
    - destruct (m_capture m); by repeat constructor.
    - constructor; [|done]. rewrite zlen_fragment by done. unfold sizeof_mctp_hdr. lia. }
  induction H as [|i rcs j Hi _ _ IH|i Hi _|i rc Hi _]; intros Hge; simpl; [done|..];
    apply Forall_app; split; try (apply Hone; lia); [apply IH; lia|done|done].
Qed.

(** C34: No packet handed to a binding is longer than the packet size it
    declares, header included. *)
Theorem tx_packets_fit b w rc w' :
  tx_env w -> tx_idle b w ->
  mctp_message_tx_on_bus bus (tp_src t) (tp_dest t) (tp_to t) (tp_tag t) msgp (zlen msg) w
    = Ok rc w' ->
  exists evs, w_trace w' = w_trace w ++ evs /\
    Forall (fun e => match e with EvTx _ pkt _ => zlen pkt <= bd_pkt_size bd | _ => True end) evs.
Proof.
  intros He Hi Hrun. destruct (wp_inv _ _ _ (wp_message_tx_on_bus b w He Hi))
    as (rc' & w2 & Hrun2 & _ & rcs & j & Hans & Ht & _ & _).
  rewrite Hrun in Hrun2. injection Hrun2 as <- <-. eexists. split; [exact Ht|].
  by eapply tx_log_bound.
Qed.

(** ** Enabling and disabling *)

(** C18: A bus that was disabled while it had a message to send resumes, when it
    is enabled, at exactly the packet it stood at, with the sequence number of
    that packet. *)
Theorem set_tx_enabled_resumes b i w :
  let b1 := set_bus_st mctp_bus_state_tx_enabled b in
  tx_env w -> bd_bus bd = Some bus ->
  m_busses (w_mctp w) !! bus = Some b -> bus_st b = mctp_bus_state_tx_disabled ->
  tx_pending b1 i (with_bus b1 w) -> 0 <= i < n ->
  exists rcs j w',
    mctp_binding_set_tx_enabled binding true w = Ok tt w' /\
    answers answer n i rcs j /\ w_trace w' = w_trace w ++ tx_log (w_mctp w) i rcs /\
    tx_stands b j w w'.
Proof.
  intros b1 He Hbus Hb Hst Hp Hi. pose proof (te_binding _ He) as Hbd.
  assert (Hwp : wp (mctp_binding_set_tx_enabled binding true) (fun _ w' =>
    exists rcs j, answers answer n i rcs j /\ w_trace w' = w_trace w ++ tx_log (w_mctp w) i rcs /\
      tx_stands b j w w') w).
  { unfold mctp_binding_set_tx_enabled. do 3 wp_step. rewrite Hbus. do 3 wp_step. rewrite Hst.
    simpl. wp_step. eapply wp_upd_bus; [exact Hb|].
    eapply wp_mono; [apply (wp_send_queue b1 i); [by apply tx_env_with_bus|done|done]|].
    intros [] w' (rcs & j & Hans & Ht & _ & Hs). exists rcs, j. split; [done|]. split.
    - rewrite Ht. simpl. f_equal. apply tx_log_mctp. by destruct (w_mctp w).
    - eapply tx_stands_trans; [apply tx_keep_with_bus|..|exact Hs]; done. }
  destruct (wp_inv _ _ _ Hwp) as ([] & w' & Hrun & rcs & j & H). by exists rcs, j, w'.
Qed.
End tx.
