(* ===== verification/TxApi.v ===== *)
(** * The transmit API: errors, states, and whole messages

    The paths on which a message is refused, the bus state machine, and
    [mctp_message_tx] from the caller's buffer to the binding. *)

From S2P Require Import Prelude State Alloc Pktbuf Reasm Tags Tx Control Rx RxSpec Frag.
From S2P Require Import TxRefine.

(** Why a bus refuses a message, in the order of the tests. *)
Definition tx_error (b : mctp_bus) (tag : Z) : option Z :=
  if decide (bus_st b = mctp_bus_state_constructed) then Some (- ENXIO)
  else if decide (Z.land tag MCTP_HDR_TAG_MASK <> tag) then Some (- EINVAL)
  else if decide (bus_tx_msg b <> NULL) then Some (- EBUSY)
  else None.

(** The state machine of a bus. *)
Definition next_bus_state (st : mctp_bus_state) (enable : bool) (pkt_size : Z) : mctp_bus_state :=
  match st, enable with
  | mctp_bus_state_constructed, true =>
      if decide (pkt_size < MCTP_PACKET_SIZE MCTP_BTU) then st else mctp_bus_state_tx_enabled
  | mctp_bus_state_tx_enabled, false => mctp_bus_state_tx_disabled
  | mctp_bus_state_tx_disabled, true => mctp_bus_state_tx_enabled
  | _, _ => st
  end.

Section api.
Context {D : Type} `{!ExtAlloc D, !BindingOps D, !ClockOps D}.
Implicit Types w : world D.

Lemma wp_tx_on_bus_err bus b bd msgp rc w :
  w_ops w = default_alloc_ops -> w_heap w !! NULL = None ->
  m_busses (w_mctp w) !! bus = Some b -> w_bindings w !! bus_binding b = Some bd ->
  bd_mctp bd <> NULL -> is_Some (w_heap w !! msgp) ->
  wp (tx_on_bus_err bus msgp rc) (fun r w' => Ok r w' = Ok rc (after_free msgp w)) w.
Proof.
  intros. unfold tx_on_bus_err. do 5 wp_step. apply wp_msg_free; [done..|]. by wp_step.
Qed.

Lemma tx_on_bus_rejects bus b bd src dest to tag msgp len rc w :
  w_ops w = default_alloc_ops -> w_heap w !! NULL = None ->
  m_busses (w_mctp w) !! bus = Some b -> w_bindings w !! bus_binding b = Some bd ->
  bd_mctp bd <> NULL -> binding_wf bd -> is_Some (w_heap w !! msgp) ->
  tx_error b tag = Some rc ->
  mctp_message_tx_on_bus bus src dest to tag msgp len w = Ok rc (after_free msgp w).
Proof.
  intros Hops Hn Hb Hbd Hm Hwf Hmsg Herr. apply wp_run_eq.
  pose proof (fun r => wp_tx_on_bus_err bus b bd msgp r w Hops Hn Hb Hbd Hm Hmsg) as He.
  unfold tx_error in Herr. unfold mctp_message_tx_on_bus. do 2 wp_step.
  repeat case_decide; simplify_eq; try apply He.
  - do 4 wp_step; [|apply He]. destruct (binding_wf_mtu bd Hwf) as [-> ?]. unfold MCTP_BTU. lia.
Qed.

(** C33: A message a bus cannot take is refused with the documented error:
    [-ENXIO] before the bus was ever enabled, [-EINVAL] for a tag of more than
    three bits, [-EBUSY] while another message is being sent.  Ownership of the
    message was taken: it is released, and nothing else changes. *)
Theorem mctp_message_tx_on_bus_rejects bus b bd src dest to tag msgp len rc w :
  w_ops w = default_alloc_ops -> w_heap w !! NULL = None ->
  m_busses (w_mctp w) !! bus = Some b -> w_bindings w !! bus_binding b = Some bd ->
  bd_mctp bd <> NULL -> binding_wf bd -> is_Some (w_heap w !! msgp) ->
  tx_error b tag = Some rc ->
  mctp_message_tx_on_bus bus src dest to tag msgp len w = Ok rc (after_free msgp w).
Proof. by apply tx_on_bus_rejects. Qed.

(** The bus state machine.  Enabling needs a packet size of at least the
    baseline unit; disabling a bus that was never enabled does nothing.  When
    nothing is waiting to be sent, a transition has no other effect. *)
Theorem set_tx_enabled_states binding enable bd bus b w :
  w_bindings w !! binding = Some bd -> bd_bus bd = Some bus ->
  m_busses (w_mctp w) !! bus = Some b -> bus_tx_msg b = NULL ->
  mctp_binding_set_tx_enabled binding enable w =
    Ok tt (with_bus bus (set_bus_st (next_bus_state (bus_st b) enable (bd_pkt_size bd)) b) w).
Proof.
  intros Hbd Hbus Hb Hidle. apply wp_run_eq. unfold mctp_binding_set_tx_enabled.
  do 3 wp_step. rewrite Hbus. do 3 wp_step.
  assert (Hsame : with_bus bus (set_bus_st (bus_st b) b) w = w).
  { unfold with_bus. replace (set_bus_st (bus_st b) b) with b by by destruct b.
    rewrite list_insert_id by done. by destruct w as [? ? ? ? []]. }
  destruct (bus_st b) eqn:Hst, enable; simpl; try (wp_step; by rewrite Hsame).
  - case_decide; wp_step; [by rewrite Hsame|]. by rewrite (alter_insert _ _ _ b).
  - wp_step. by rewrite (alter_insert _ _ _ b).
  - wp_step. eapply wp_upd_bus; [done|]. unfold mctp_send_tx_queue.
    wp_step. eapply wp_get_bus; [by eapply with_bus_lookup|]. cbn [send_tx_queue_loop].
    wp_step. eapply wp_get_bus; [by eapply with_bus_lookup|].
    rewrite decide_False by (simpl; naive_solver). by wp_step.
Qed.
End api.

(** ** Whole messages *)
Section message.
Context {D : Type} `{!ExtAlloc D, !BindingOps D, !ClockOps D, !QuietCapture D}.
Context (ready : string -> Z -> D -> Prop) (answer : Z -> Prop) `{!QuietTx D ready answer}.
Implicit Types w : world D.

(** A stack that can send: one enabled, idle bus, on a well-formed binding. *)
Record sender (mctp binding : Z) (bd : mctp_binding) (b : mctp_bus) (w : world D) : Prop := {
  se_mctp : mctp <> NULL;
  se_env : tx_env ready binding bd w;
  se_wf : binding_wf bd;
  se_align : bd_tx_storage bd mod 8 = 0;
  se_bd_mctp : bd_mctp bd <> NULL;
  se_tx : is_Some (bd_tx bd);
  se_busses : m_n_busses (w_mctp w) <> 0;
  se_bus : m_busses (w_mctp w) !! 0%nat = Some b;
  se_binding : bus_binding b = binding;
  se_enabled : bus_st b = mctp_bus_state_tx_enabled;
  se_idle : bus_tx_msg b = NULL;
  se_seq : 0 <= bus_tx_seq b < 4;
}.

Definition sender_params (bd : mctp_binding) (b : mctp_bus) (eid : Z) (to : bool) (tag : Z)
    : tx_params :=
  mk_tx_params (Z.land (bd_version bd) 15) eid (bus_eid b) to tag (bus_tx_seq b)
    (bd_pkt_size bd - 4).

(** The message [msg] is in the block [msgp], which is not the transmit storage. *)
Definition msg_in (msgp : Z) (msg : list Z) (bd : mctp_binding) (w : world D) : Prop :=
  msgp <> NULL /\ msgp <> bd_tx_storage bd /\
  exists mem, w_heap w !! msgp = Some (HBytes mem) /\ slice 0 (zlen msg) mem = msg.

Lemma land_tag tag : 0 <= tag < 8 -> Z.land tag MCTP_HDR_TAG_MASK = tag.
Proof.
  intros Ht. change MCTP_HDR_TAG_MASK with (Z.ones 3). rewrite Z.land_ones by lia.
  by apply Z.mod_small.
Qed.

Lemma wp_message_tx_alloced mctp binding bd b eid to tag msgp msg w :
  let t := sender_params bd b eid to tag in let n := frag_count (tp_mtu t) (zlen msg) in
  sender mctp binding bd b w -> 0 <= tag < 8 -> zlen msg < SIZE_MOD -> msg_in msgp msg bd w ->
  wp (mctp_message_tx_alloced mctp eid to tag msgp (zlen msg)) (fun rc w' => rc = 0 /\
    exists rcs j, answers answer n 0 rcs j /\
      w_trace w' = w_trace w ++ tx_log binding t msg (w_mctp w) 0 rcs /\
      tx_devs ready binding t msg 0 rcs (w_dev w) (w_dev w') /\
      tx_stands ready binding 0 bd msgp t msg b j w w') w.
Proof.
  intros t n Hs Ht Hl (Hp & Hst & Hmem). pose proof Hs as [].
  unfold mctp_message_tx_alloced. rewrite (land_tag tag Ht). wp_step. unfold find_bus_for_eid.
  do 3 wp_step. rewrite decide_False by done. do 3 wp_step.
  eapply wp_mono; [apply (wp_message_tx_on_bus ready answer binding 0 bd msgp t msg
    ltac:(by split) b); [done|by split]|].
  intros rc w' (-> & rcs & j & Hans & Htr & Hdev & Hstand). split; [done|]. by exists rcs, j.
Qed.

(** A fresh copy of the message. *)
Lemma tx_env_after_dup binding bd bs w :
  tx_env ready binding bd w -> tx_env ready binding bd (after_dup bs w).
Proof.
  intros [E1 E2 E3 (o & data & E4 & E5) E6]. pose proof (heap_wf_fresh _ E2) as Hfresh.
  split; [done|by apply heap_wf_dup|done| |done]. exists o, data. simpl.
  rewrite lookup_insert_ne by congruence. done.
Qed.

Lemma msg_in_after_dup binding bd msg w :
  tx_env ready binding bd w -> msg_in (w_brk w) msg bd (after_dup msg w).
Proof.
  intros [E1 E2 E3 (o & data & E4 & E5) E6]. pose proof (heap_wf_fresh _ E2) as Hfresh.
  split; [destruct E2; unfold NULL; lia|]. split; [congruence|]. exists msg. simpl.
  rewrite lookup_insert_eq. split; [done|]. by apply slice_all.
Qed.

Lemma sender_after_dup mctp binding bd b msg w :
  sender mctp binding bd b w ->
  sender mctp binding bd b (after_dup msg w) /\ msg_in (w_brk w) msg bd (after_dup msg w).
Proof.
  intros []. split; [|by eapply msg_in_after_dup]. split; try done. by apply tx_env_after_dup.
Qed.

Lemma wp_mctp_message_tx mctp binding bd b eid to tag msg w :
  let t := sender_params bd b eid to tag in let n := frag_count (tp_mtu t) (zlen msg) in
  sender mctp binding bd b w -> 0 <= tag < 8 -> zlen msg < SIZE_MOD -> malloc_ok w = true ->
  wp (mctp_message_tx mctp eid to tag msg (zlen msg)) (fun rc w' => rc = 0 /\
    exists rcs j, answers answer n 0 rcs j /\
      w_trace w' = w_trace w ++ tx_log binding t msg (w_mctp w) 0 rcs /\
      tx_devs ready binding t msg 0 rcs (w_dev w) (w_dev w') /\
      tx_stands ready binding 0 bd (w_brk w) t msg b j (after_dup msg w) w') w.
Proof.
  intros t n Hs Ht Hl Hok. destruct (sender_after_dup mctp binding bd b msg w Hs) as [Hs' Hin].
  pose proof (zlen_nonneg msg) as Hn. pose proof (se_env _ _ _ _ _ Hs) as He.
  unfold mctp_message_tx. wp_step.
  apply wp_msg_dup; [apply He|apply Hs|apply He| |intros _|congruence].
  - rewrite decide_True by lia. by rewrite slice_all.
  - pose proof Hin as (Hbn & _). wp_step.
    by eapply wp_mono; [apply (wp_message_tx_alloced mctp binding bd b)|].
Qed.

(** A stack that has sent a whole message can send another. *)
Lemma sender_again mctp binding bd b msgp t msg w w' :
  sender mctp binding bd b w ->
  tx_stands ready binding 0 bd msgp t msg b (frag_count (tp_mtu t) (zlen msg)) w w' ->
  exists b', sender mctp binding bd b' w' /\ bus_eid b' = bus_eid b.
Proof.
  intros [] (He & Hk & b' & Hat & Ee & _). unfold tx_at in Hat. rewrite decide_True in Hat by done.
  destruct Hat as (Hb & Hidle & _ & Hseq & Hst & Hbb). exists b'. split; [|done]. split; try done.
  - rewrite (tk_mctp _ _ _ _ _ Hk). by destruct (w_mctp w).
  - rewrite Hseq. by apply Z.mod_pos_bound.
Qed.

(** C19: [mctp_message_tx] copies the caller's message and sends the copy: it
    returns 0 and the binding is handed the packets of the message; once they
    are all accepted the heap is as before, but for the transmit storage, so
    that nothing leaks. *)
Theorem mctp_message_tx_sends mctp binding bd b eid to tag msg w :
  let t := sender_params bd b eid to tag in let n := frag_count (tp_mtu t) (zlen msg) in
  sender mctp binding bd b w -> 0 <= tag < 8 -> zlen msg < SIZE_MOD -> malloc_ok w = true ->
  exists rcs j w', mctp_message_tx mctp eid to tag msg (zlen msg) w = Ok 0 w' /\
    answers answer n 0 rcs j /\ w_trace w' = w_trace w ++ tx_log binding t msg (w_mctp w) 0 rcs /\
    (j = n -> forall a, a <> bd_tx_storage bd -> w_heap w' !! a = w_heap w !! a).
Proof.
  intros t n Hs Ht Hl Hok.
  destruct (wp_inv _ _ _ (wp_mctp_message_tx mctp binding bd b eid to tag msg w Hs Ht Hl Hok))
    as (rc & w' & Hrun & -> & rcs & j & Hans & Htr & _ & _ & Hk & b' & Hat & _).
  exists rcs, j, w'. do 3 (split; [done|]). intros -> a Ha.
  unfold tx_at in Hat. rewrite decide_True in Hat by done. destruct Hat as (_ & _ & Hfree & _).
  destruct (decide (a = w_brk w)) as [->|Hb].
  - rewrite Hfree. symmetry. apply heap_wf_fresh, (te_heap _ _ _ _ (se_env _ _ _ _ _ Hs)).
  - rewrite (tk_heap _ _ _ _ _ Hk) by done. simpl. by rewrite lookup_insert_ne.
Qed.

(** The state once a copy of [msg] has been made and released. *)
Definition copy_released (msg : list Z) w : world D :=
  after_free (w_brk w) (after_dup msg w).

(** When memory for the copy is lacking, [mctp_message_tx] returns
    [-ENOMEM] and has no other effect; a tag of more than three bits gets
    [-EINVAL], and the copy is released. *)
Theorem mctp_message_tx_errors mctp eid to tag msg w :
  w_ops w = default_alloc_ops -> heap_wf w -> mctp <> NULL ->
  (malloc_ok w = false ->
     mctp_message_tx mctp eid to tag msg (zlen msg) w = Ok (- ENOMEM) (after_oom w)) /\
  (malloc_ok w = true -> Z.land tag MCTP_HDR_TAG_MASK <> tag ->
     mctp_message_tx mctp eid to tag msg (zlen msg) w
       = Ok (- EINVAL) (copy_released msg w)).
Proof.
  intros Hops Hwf Hm. pose proof (zlen_nonneg msg) as Hn.
  assert (Hb : w_brk w <> NULL) by (destruct Hwf; unfold NULL; lia).
  assert (Hrd : forall w' : world D, (if decide (0 <= zlen msg <= zlen msg)
    then mret (slice 0 (zlen msg) msg) else stuck BadAccess) w' = Ok msg w').
  { intros w'. rewrite decide_True by lia. by rewrite slice_all. }
  split; [intros Hok|intros Hok Htag]; apply wp_run_eq; unfold mctp_message_tx; wp_step;
    (apply wp_msg_dup; [done|done|done|apply Hrd|intros Hok'|intros Hok']; try congruence).
  - wp_step. unfold mctp_message_tx_alloced. rewrite decide_True by done. wp_step.
    apply wp_msg_free; [done|done|simpl; rewrite lookup_insert_eq; eauto| |by wp_step].
    apply heap_wf_null, heap_wf_dup, Hwf.
Qed.
End message.
