(* ===== verification/TxRequest.v ===== *)
(** * Requests, readiness, and a stack without a bus

    [mctp_message_tx_request], which allocates the tag of the request it sends,
    [mctp_is_tx_ready], and what sending does when no bus is registered. *)

From S2P Require Import Prelude State Alloc Pktbuf Reasm Tags Tx Control Rx RxSpec Frag.
From S2P Require Import TxRefine TxApi.

Section request.
Context {D : Type} `{!ExtAlloc D, !BindingOps D, !ClockOps D, !QuietCapture D}.
Context (ready : string -> Z -> D -> Prop) (answer : Z -> Prop) `{!QuietTx D ready answer}.
Implicit Types w : world D.

(** The tag a request to [eid] gets now. *)
Definition request_tag (now eid : Z) (b : mctp_bus) (m : mctp) : option (Z * nat) :=
  tag_choice now (bus_eid b) eid (m_tag_round_robin m) (m_req_tags m).

Lemma sender_after_alloc_tag mctp binding bd b now eid tag i w :
  sender ready mctp binding bd b w ->
  sender ready mctp binding bd b (after_alloc_tag now (bus_eid b) eid tag i w).
Proof.
  intros Hs. pose proof (se_env _ _ _ _ _ _ Hs) as [E1 E2 E3 E4 E5].
  assert (He : tx_env ready binding bd (after_alloc_tag now (bus_eid b) eid tag i w)) by done.
  by destruct Hs.
Qed.

(** With a tag to spare, a request is a message under that tag. *)
Lemma tx_request_run mctp binding bd b eid now msgp len (want : bool) tag i rc w w' :
  sender ready mctp binding bd b w -> bus_eid b <> 0 -> clock_reads now w ->
  request_tag now eid b (w_mctp w) = Some (tag, i) ->
  mctp_message_tx_alloced mctp eid true tag msgp len
    (after_alloc_tag now (bus_eid b) eid tag i w) = Ok rc w' ->
  mctp_message_tx_request mctp eid msgp len want w = Ok (rc, if want then Some tag else None) w'.
Proof.
  intros Hs He Hclock Htag Hrun'. pose proof (se_mctp _ _ _ _ _ _ Hs) as Hm.
  pose proof (se_busses _ _ _ _ _ _ Hs) as Hn. pose proof (se_bus _ _ _ _ _ _ Hs) as Hb.
  pose proof (mctp_alloc_tag_run mctp (bus_eid b) eid now w Hm He Hclock) as Hrun.
  unfold request_tag in Htag. rewrite Htag in Hrun.
  unfold mctp_message_tx_request. apply run_bind. unfold find_bus_for_eid. do 3 wp_step.
  rewrite decide_False by done. apply run_bind. wp_step. rewrite (bind_run _ _ _ _ _ Hrun).
  by rewrite (bind_run _ _ _ _ _ Hrun').
Qed.

(** C21: A request.  When a tag is spare for the pair of endpoints, the message is
    sent with it and with the tag owner bit, the caller who asks for it is told
    the tag, and the table of tags has it until the reply or the deadline.  When
    none is, the request fails with [-EBUSY]: the message is released and nothing
    else changes. *)
Theorem mctp_message_tx_request_sends mctp binding bd b eid now msgp msg (want : bool) w :
  sender ready mctp binding bd b w -> bus_eid b <> 0 -> clock_reads now w ->
  tags_range (m_req_tags (w_mctp w)) -> zlen msg < SIZE_MOD -> msg_in msgp msg bd w ->
  match request_tag now eid b (w_mctp w) with
  | Some (tag, i) =>
      let t := sender_params bd b eid true tag in
      exists rcs j w',
        mctp_message_tx_request mctp eid msgp (zlen msg) want w
          = Ok (0, if want then Some tag else None) w' /\
        0 <= tag < 8 /\ ~ tag_in_use now (bus_eid b) eid (m_req_tags (w_mctp w)) tag /\
        answers answer (frag_count (tp_mtu t) (zlen msg)) 0 rcs j /\
        w_trace w' = w_trace w ++ tx_log binding t msg (w_mctp w) 0 rcs /\
        m_req_tags (w_mctp w') =
          <[i := mk_req_tag (bus_eid b) eid tag (sz (now + MCTP_TAG_TIMEOUT))]>
            (m_req_tags (w_mctp w))
  | None =>
      mctp_message_tx_request mctp eid msgp (zlen msg) want w
        = Ok (- EBUSY, None) (after_free msgp w)
  end.
Proof.
  intros Hs He Hclock Hrange Hl Hin. pose proof (se_env _ _ _ _ _ _ Hs) as Henv.
  pose proof (se_mctp _ _ _ _ _ _ Hs) as Hm. pose proof (se_busses _ _ _ _ _ _ Hs) as Hn.
  pose proof (se_bus _ _ _ _ _ _ Hs) as Hb.
  pose proof (mctp_alloc_tag_run mctp (bus_eid b) eid now w Hm He Hclock) as Hrun.
  pose proof (tag_choice_spec now (bus_eid b) eid (m_tag_round_robin (w_mctp w)) _ Hrange) as Hch.
  unfold request_tag. destruct (tag_choice _ _ _ _ _) as [[tag i]|] eqn:Etag.
  - destruct Hch as (_ & Ht & Hfree & _). set (t := sender_params bd b eid true tag).
    set (w1 := after_alloc_tag now (bus_eid b) eid tag i w) in *.
    pose proof (sender_after_alloc_tag mctp binding bd b now eid tag i w Hs) as Hs1.
    destruct (wp_inv _ _ _ (wp_message_tx_alloced ready answer mctp binding bd b eid true tag msgp
      msg w1 Hs1 Ht Hl Hin)) as (rc & w' & Hrun' & -> & rcs & j & Hans & Htr & _ & Hst).
    exists rcs, j, w'. split; [|split; [done|]; split; [done|]; split; [done|]; split].
    + by eapply (tx_request_run mctp binding bd b eid now).
    + rewrite Htr. simpl. f_equal. apply tx_log_mctp. by destruct (w_mctp w).
    + destruct Hst as (_ & Hk & _). rewrite (tk_mctp _ _ _ _ _ Hk). done.
  - apply wp_run_eq. unfold mctp_message_tx_request. wp_step. unfold find_bus_for_eid. do 3 wp_step.
    rewrite decide_False by done. do 3 wp_step. eapply wp_ok; [exact Hrun|]. wp_step.
    destruct Hin as (Hp & _ & mem & Hmem & _).
    apply wp_msg_free; [apply Henv|done|eauto|apply heap_wf_null, Henv|by wp_step].
Qed.
End request.

(** ** A bus that is busy, or missing *)
Section busy.
Context {D : Type} `{!ExtAlloc D, !BindingOps D, !ClockOps D}.
Implicit Types w : world D.

(** A stack with a bus that has been enabled, whatever it is sending. *)
Record registered (mctp : Z) (bd : mctp_binding) (b : mctp_bus) w : Prop := {
  rg_mctp : mctp <> NULL;
  rg_ops : w_ops w = default_alloc_ops;
  rg_heap : heap_wf w;
  rg_busses : m_n_busses (w_mctp w) <> 0;
  rg_bus : m_busses (w_mctp w) !! 0%nat = Some b;
  rg_binding : w_bindings w !! bus_binding b = Some bd;
  rg_bd_mctp : bd_mctp bd <> NULL;
  rg_wf : binding_wf bd;
  rg_state : bus_st b <> mctp_bus_state_constructed;
}.

Lemma find_bus_registered mctp bd b eid w :
  registered mctp bd b w -> find_bus_for_eid mctp eid w = Ok (Some 0%nat) w.
Proof.
  intros [Hm _ _ Hn _ _ _ _ _]. apply wp_run_eq. unfold find_bus_for_eid. do 3 wp_step.
  by rewrite decide_False.
Qed.

Lemma tx_alloced_busy mctp bd b eid to tag msgp len w :
  registered mctp bd b w -> bus_tx_msg b <> NULL -> 0 <= tag < 8 -> is_Some (w_heap w !! msgp) ->
  mctp_message_tx_alloced mctp eid to tag msgp len w = Ok (- EBUSY) (after_free msgp w).
Proof.
  intros Hr Hbusy Ht Hm. pose proof (find_bus_registered mctp bd b eid w Hr) as Hf.
  destruct Hr. unfold mctp_message_tx_alloced. rewrite (land_tag tag Ht).
  rewrite decide_False by auto. rewrite (bind_run _ _ _ _ _ Hf). apply run_bind. wp_step.
  eapply tx_on_bus_rejects; [done|by apply heap_wf_null|done..|].
  unfold tx_error. rewrite (land_tag tag Ht). by rewrite !decide_False, decide_True by auto.
Qed.

(** C39: A request on a busy bus loses its tag.  When the previous message is still
    waiting to be sent, [mctp_message_tx_request] fails with [-EBUSY] and releases
    the message, but only after it has allocated a tag and told it to the caller:
    the tag stays in the table, although no request with it was sent. *)
Theorem mctp_message_tx_request_busy mctp bd b eid now tag i msgp len (want : bool) w :
  registered mctp bd b w -> bus_tx_msg b <> NULL -> bus_eid b <> 0 -> clock_reads now w ->
  tags_range (m_req_tags (w_mctp w)) -> is_Some (w_heap w !! msgp) ->
  request_tag now eid b (w_mctp w) = Some (tag, i) ->
  exists w', mctp_message_tx_request mctp eid msgp len want w
      = Ok (- EBUSY, if want then Some tag else None) w' /\
    m_req_tags (w_mctp w') =
      <[i := mk_req_tag (bus_eid b) eid tag (sz (now + MCTP_TAG_TIMEOUT))]>
        (m_req_tags (w_mctp w)) /\
    w_heap w' = delete msgp (w_heap w) /\ w_trace w' = w_trace w.
Proof.
  intros Hr Hbusy He Hclock Hrange Hmsg Htag. unfold request_tag in Htag.
  pose proof (mctp_alloc_tag_run mctp (bus_eid b) eid now w (rg_mctp _ _ _ _ Hr) He Hclock) as Hrun.
  pose proof (tag_choice_spec now (bus_eid b) eid (m_tag_round_robin (w_mctp w)) _ Hrange) as Hch.
  rewrite Htag in Hrun, Hch. destruct Hch as (_ & Ht & _).
  set (w1 := after_alloc_tag now (bus_eid b) eid tag i w) in *.
  assert (Hr1 : registered mctp bd b w1) by by destruct Hr.
  exists (after_free msgp w1). split; [|done]. unfold mctp_message_tx_request.
  rewrite (bind_run _ _ _ _ _ (find_bus_registered mctp bd b eid w Hr)).
  pose proof (rg_bus _ _ _ _ Hr) as Hb. apply run_bind. wp_step.
  rewrite (bind_run _ _ _ _ _ Hrun).
  by rewrite (bind_run _ _ _ _ _ (tx_alloced_busy mctp bd b eid true tag msgp len w1 Hr1 Hbusy Ht Hmsg)).
Qed.

(** A message on a busy bus: its copy is released. *)
Lemma message_tx_busy mctp bd b eid to tag msg w :
  registered mctp bd b w -> bus_tx_msg b <> NULL -> malloc_ok w = true -> 0 <= tag < 8 ->
  mctp_message_tx mctp eid to tag msg (zlen msg) w =
    Ok (- EBUSY) (after_free (w_brk w) (after_dup msg w)) /\
  w_heap (after_free (w_brk w) (after_dup msg w)) = w_heap w.
Proof.
  intros Hr Hbusy Hok Ht. pose proof (rg_heap _ _ _ _ Hr) as Hwf.
  assert (Hn : w_brk w <> NULL) by (destruct Hwf; unfold NULL; lia).
  assert (Hr1 : registered mctp bd b (after_dup msg w)).
  { destruct Hr. split; try done. by apply heap_wf_dup. }
  split; [|simpl; by rewrite delete_insert_id by by apply heap_wf_fresh].
  unfold mctp_message_tx. apply run_bind.
  apply wp_msg_dup; [apply Hr|apply Hr|done| |intros _|congruence].
  - pose proof (zlen_nonneg msg). rewrite decide_True by lia. by rewrite slice_all.
  - rewrite decide_False by done.
    apply (tx_alloced_busy mctp bd b); [done|done|done|simpl; rewrite lookup_insert_eq; eauto].
Qed.

(** [mctp_is_tx_ready] tells whether the bus has a message waiting; when it
    says no, [mctp_message_tx] fails with [-EBUSY] and leaves the heap, the
    stack and the binding as they were. *)
Theorem mctp_is_tx_ready_spec mctp bd b eid w :
  registered mctp bd b w ->
  mctp_is_tx_ready mctp eid w = Ok (bool_decide (bus_tx_msg b = NULL)) w /\
  (mctp_is_tx_ready mctp eid w = Ok false w -> malloc_ok w = true ->
   forall to tag msg, 0 <= tag < 8 -> exists w',
     mctp_message_tx mctp eid to tag msg (zlen msg) w = Ok (- EBUSY) w' /\
     w_heap w' = w_heap w /\ w_mctp w' = w_mctp w /\ w_trace w' = w_trace w).
Proof.
  intros Hr. pose proof (find_bus_registered mctp bd b eid w Hr) as Hf.
  pose proof (rg_bus _ _ _ _ Hr) as Hb.
  assert (Hrun : mctp_is_tx_ready mctp eid w = Ok (bool_decide (bus_tx_msg b = NULL)) w).
  { unfold mctp_is_tx_ready. rewrite (bind_run _ _ _ _ _ Hf). apply run_bind. by wp_step. }
  split; [done|]. intros Hno Hok to tag msg Ht. rewrite Hrun in Hno. injection Hno as Hno.
  apply bool_decide_eq_false in Hno.
  destruct (message_tx_busy mctp bd b eid to tag msg w Hr Hno Hok Ht) as [Hrun' Hh].
  by eexists.
Qed.

(** Without a bus, messages vanish: [mctp_message_tx_alloced] and
    [mctp_message_tx_request] return 0 as if the message had been sent, having
    released it; [mctp_is_tx_ready] says yes. *)
Theorem tx_without_bus mctp eid to tag msgp len (want : bool) w :
  mctp <> NULL -> w_ops w = default_alloc_ops -> heap_wf w -> m_n_busses (w_mctp w) = 0 ->
  0 <= tag < 8 -> is_Some (w_heap w !! msgp) ->
  mctp_message_tx_alloced mctp eid to tag msgp len w = Ok 0 (after_free msgp w) /\
  mctp_message_tx_request mctp eid msgp len want w = Ok (0, None) (after_free msgp w) /\
  mctp_is_tx_ready mctp eid w = Ok true w.
Proof.
  intros Hm Hops Hwf Hn Ht Hmsg.
  assert (Hf : find_bus_for_eid mctp eid w = Ok None w).
  { apply wp_run_eq. unfold find_bus_for_eid. do 3 wp_step. by rewrite decide_True. }
  pose proof (heap_wf_null w Hwf) as Hnull.
  split; [|split].
  - unfold mctp_message_tx_alloced. rewrite (land_tag tag Ht), decide_False by auto.
    rewrite (bind_run _ _ _ _ _ Hf). apply wp_run_eq. wp_step. apply wp_msg_free; [done..|].
    by wp_step.
  - unfold mctp_message_tx_request. rewrite (bind_run _ _ _ _ _ Hf). apply wp_run_eq. wp_step.
    apply wp_msg_free; [done..|]. by wp_step.
  - unfold mctp_is_tx_ready. by rewrite (bind_run _ _ _ _ _ Hf).
Qed.
End busy.
