(* ===== verification/ControlSpec.v ===== *)
(** * What the control protocol handler answers

    [spec_ctrl] says what a control request means: the endpoint ID it leaves and
    the response it gets.  [mctp_control_handler] on an endpoint that can send
    answers every request so. *)

From S2P Require Import Prelude State Alloc Pktbuf Reasm Tags Tx Control Types Rx RxSpec.
From S2P Require Import RxRefine Frag TxRefine TxApi.

(** ** The specification *)

Definition spec_set_eid (eid : Z) (resp : Z -> list Z -> list Z) (body : list Z) : Z * list Z :=
  match body with
  | [op; e] =>
      if decide ((Z.land op 3 = 0 \/ Z.land op 3 = 1) /\ 8 <= e /\ e <> 255)
      then (e, resp 0 [0; e; 0]) else (eid, resp 2 [])
  | _ => (eid, resp 3 [])
  end.

Definition spec_get_eid (eid : Z) (resp : Z -> list Z -> list Z) (body : list Z) : list Z :=
  match body with [] => resp 0 [eid; 1; 0] | _ => resp 3 [] end.

Definition spec_get_version (resp : Z -> list Z -> list Z) (body : list Z) : list Z :=
  match body with
  | [t] => if decide (t = 0 \/ t = 255) then resp 0 (MCTP_PROTOCOL_COUNT :: MCTP_PROTOCOL_VERSIONS)
           else resp 128 []
  | _ => resp 3 []
  end.

Definition spec_get_types (types : list Z) (resp : Z -> list Z -> list Z) (body : list Z) : list Z :=
  match body with [] => resp 0 (zlen types :: types) | _ => resp 3 [] end.

(** The new endpoint ID and the response to the request [msg], at an endpoint
    [eid] that supports [types]. *)
Definition spec_ctrl (eid : Z) (types msg : list Z) : Z * list Z :=
  match msg with
  | _ :: rq :: cmd :: body =>
      let resp cc rest := [0; Z.land rq 31; cmd; cc] ++ rest in
      if decide (cmd = 1) then spec_set_eid eid resp body
      else if decide (cmd = 2) then (eid, spec_get_eid eid resp body)
      else if decide (cmd = 4) then (eid, spec_get_version resp body)
      else if decide (cmd = 5) then (eid, spec_get_types types resp body)
      else (eid, resp 5 [])
  | _ => (eid, [])
  end.

Section answers.
Context {D : Type} `{!ExtAlloc D, !BindingOps D, !ClockOps D, !QuietCapture D}.
Context (ready : string -> Z -> D -> Prop) (answer : Z -> Prop) `{!QuietTx D ready answer}.
Implicit Types w : world D.

(** ** Building a response in a fresh block *)

Lemma wp_store_dup off data bs (Q : unit -> world D -> Prop) w :
  0 <= off -> off + zlen data <= zlen bs -> Q tt (after_dup (splice off data bs) w) ->
  wp (store_bytes (w_brk w) off data) Q (after_dup bs w).
Proof.
  intros Ho Hl HQ. eapply wp_store_bytes; [apply lookup_insert_eq|done|done|].
  unfold after_dup, set_w_heap in *. simpl in *. by rewrite insert_insert_eq.
Qed.

Lemma splice_whole {A} (data bs : list A) : zlen data = zlen bs -> splice 0 data bs = data.
Proof.
  intros H. unfold splice, zlen in *. simpl. rewrite drop_ge by lia. by rewrite app_nil_r.
Qed.

(** The block the request is in; [mem] is all of it. *)
Record request_at (data : Z) (rq cmd : Z) (body mem : list Z) (w : world D) : Prop := {
  ra_heap : w_heap w !! data = Some (HBytes mem);
  ra_mem : exists t rest, mem = t :: rq :: cmd :: body ++ rest;
}.

Lemma request_byte data rq cmd body mem w (n : nat) x :
  request_at data rq cmd body mem w -> body !! n = Some x -> mem !! (3 + n)%nat = Some x.
Proof.
  intros [_ (t & rest & ->)] Hx. simpl. rewrite lookup_app_l; [done|].
  by eapply lookup_lt_Some.
Qed.

Lemma wp_fill_resp data rq cmd body mem x y z bs (Q : unit -> world D -> Prop) w :
  heap_wf w -> request_at data rq cmd body mem w ->
  Q tt (after_dup ([0; Z.land rq 31; cmd] ++ bs) w) ->
  wp (fill_resp data (w_brk w)) Q (after_dup (x :: y :: z :: bs) w).
Proof.
  intros Hwf [Hd (t & rest & Hmem)] HQ.
  assert (Hd' : forall bs', w_heap (after_dup bs' w) !! data = Some (HBytes mem)).
  { intros bs'. simpl. rewrite lookup_insert_ne; [done|]. intros <-.
    rewrite heap_wf_fresh in Hd; done. }
  unfold fill_resp. wp_step. eapply (wp_load_byte data mem 1); [apply Hd'|by rewrite Hmem|].
  wp_step. eapply (wp_load_byte data mem 2); [apply Hd'|by rewrite Hmem|].
  assert (Hz : 3 <= zlen (x :: y :: z :: bs)) by (unfold zlen; simpl; lia).
  wp_step. apply wp_store_dup; [lia|unfold zlen in *; simpl in *; lia|].
  wp_step. apply wp_store_dup; [lia|unfold zlen in *; simpl in *; lia|].
  apply wp_store_dup; [lia|unfold zlen in *; simpl in *; lia|]. exact HQ.
Qed.

(** Zeroing the new block and filling in the header. *)
Lemma wp_resp_start {A} data rq cmd body mem size mctp (oom : A) (k : Z -> M (world D) A)
    (Q : A -> world D -> Prop) w :
  w_ops w = default_alloc_ops -> mctp <> NULL -> heap_wf w -> w_mallocs w = [] -> 3 <= size ->
  request_at data rq cmd body mem w ->
  wp (k (w_brk w)) Q (after_dup ([0; Z.land rq 31; cmd] ++ replicate (Z.to_nat (size - 3)) 0) w) ->
  wp (resp ← __mctp_msg_alloc size mctp;
      if decide (resp = NULL) then mret oom else
      store_bytes resp 0 (replicate (Z.to_nat size) 0);;
      fill_resp data resp;; k resp) Q w.
Proof.
  intros Hops Hm Hwf Hmem Hsz Hreq HQ.
  assert (Hok : malloc_ok w = true) by (unfold malloc_ok; by rewrite Hmem).
  assert (Hb : w_brk w <> NULL) by (destruct Hwf; unfold NULL; lia).
  wp_step. apply wp_msg_alloc; [done..|intros _|congruence]. do 2 wp_step.
  change (after_malloc size w) with (after_dup (replicate (Z.to_nat size) POISON) w).
  apply wp_store_dup; [lia|rewrite !zlen_replicate; lia|].
  rewrite splice_whole by (by rewrite !zlen_replicate).
  replace (Z.to_nat size) with (3 + Z.to_nat (size - 3))%nat by lia. wp_step.
  by eapply wp_fill_resp.
Qed.

(** ** The handlers *)

Context (mctp binding : Z) (bd : mctp_binding).

(** The response [resp] has been handed to the bus. *)
Definition replied (b : mctp_bus) (dst tag : Z) (resp : list Z) (w w' : world D) : Prop :=
  let t := sender_params bd b dst false tag in
  exists rcs j, answers answer (frag_count (tp_mtu t) (zlen resp)) 0 rcs j /\
    w_trace w' = w_trace w ++ tx_log binding t resp (w_mctp w) 0 rcs /\
    tx_devs ready binding t resp 0 rcs (w_dev w) (w_dev w') /\
    tx_stands ready binding 0 bd (w_brk w) t resp b j (after_dup resp w) w'.

Lemma wp_send_resp {A} (x : A) b dst tag resp n w :
  sender ready mctp binding bd b w -> 0 <= tag < 8 -> zlen resp = n -> n < SIZE_MOD ->
  wp (mctp_message_tx_alloced mctp dst false tag (w_brk w) n;; mret x)
    (fun y w' => y = x /\ replied b dst tag resp w w') (after_dup resp w).
Proof.
  intros Hs Ht <- Hl. destruct (sender_after_dup ready mctp binding bd b resp w Hs) as [Hs' Hin].
  wp_step. eapply wp_mono; [by apply (wp_message_tx_alloced ready answer mctp binding bd b)|].
  intros rc w' (-> & rcs & j & H1 & H2 & H3 & H4). wp_step. split; [done|]. by exists rcs, j.
Qed.

(** An endpoint about to handle a control request. *)
Record responder (b : mctp_bus) (w : world D) : Prop := {
  rs_sender : sender ready mctp binding bd b w;
  rs_mctp : bus_mctp b = mctp;
  rs_bus : bd_bus bd = Some 0%nat;
  rs_mem : w_mallocs w = [];
  rs_types : types_ok (m_control (w_mctp w));
}.

(** What a handler does: it answers, or gives the code of an error. *)
Definition outcome (b : mctp_bus) (dst tag rq cmd : Z) (res : Z * list Z) (cc : Z)
    (w w' : world D) : Prop :=
  (cc = 0 /\ let b' := set_bus_eid res.1 b in replied b' dst tag res.2 (with_bus 0 b' w) w') \/
  (cc <> 0 /\ w' = w /\ res = (bus_eid b, [0; Z.land rq 31; cmd; cc])).

Lemma with_bus_id b w : m_busses (w_mctp w) !! 0%nat = Some b -> with_bus 0 b w = w.
Proof.
  intros Hb. unfold with_bus. rewrite list_insert_id by done. by destruct w as [? ? ? ? []].
Qed.

Lemma outcome_same b dst tag rq cmd resp w w' :
  responder b w -> replied b dst tag resp w w' ->
  outcome b dst tag rq cmd (bus_eid b, resp) 0 w w'.
Proof.
  intros Hr H. left. split; [done|]. simpl.
  replace (set_bus_eid (bus_eid b) b) with b by by destruct b.
  by rewrite (with_bus_id b) by apply Hr.
Qed.

Section handler.
Context (b : mctp_bus) (src tag data rq cmd : Z) (w : world D).
Hypothesis (Hr : responder b w) (Ht : 0 <= tag < 8).
Implicit Types body mem : list Z.
Local Abbreviation resp := (fun cc rest => [0; Z.land rq 31; cmd; cc] ++ rest).

Lemma wp_resp {A} body mem size (oom : A) (k : Z -> M (world D) A) (Q : A -> world D -> Prop) :
  request_at data rq cmd body mem w -> 3 <= size ->
  wp (k (w_brk w)) Q (after_dup ([0; Z.land rq 31; cmd] ++ replicate (Z.to_nat (size - 3)) 0) w) ->
  wp (resp ← __mctp_msg_alloc size mctp;
      if decide (resp = NULL) then mret oom else
      store_bytes resp 0 (replicate (Z.to_nat size) 0);;
      fill_resp data resp;; k resp) Q w.
Proof.
  pose proof Hr as [Hs _ _ Hmem _]. pose proof (se_env _ _ _ _ _ _ Hs) as He. intros H0 H1 H2.
  eapply wp_resp_start; [apply He|apply Hs|apply He|done|done|exact H0|exact H2].
Qed.

Lemma wp_get_endpoint_id body mem :
  request_at data rq cmd body mem w ->
  wp (mctp_ctrl_get_endpoint_id 0 src tag data (3 + zlen body))
    (fun cc w' => outcome b src tag rq cmd (bus_eid b, spec_get_eid (bus_eid b) resp body) cc w w') w.
Proof.
  pose proof Hr as [Hs Hm _ _ _]. intros Hreq.
  unfold mctp_ctrl_get_endpoint_id, sizeof_ctrl_msg_hdr. destruct body as [|x l].
  - rewrite decide_False by (unfold zlen; simpl; lia). wp_step.
    eapply wp_get_bus; [apply Hs|]. rewrite Hm. eapply (wp_resp [] mem 7); [done|lia|].
    do 4 (wp_step; apply wp_store_dup; [lia|done|]).
    eapply wp_mono; [by apply (wp_send_resp _ b)|]. intros cc w' [-> H]. by apply outcome_same.
  - rewrite decide_True by (unfold zlen; simpl; lia). wp_step. by right.
Qed.

Lemma wp_body_byte body mem (n : nat) x (Q : Z -> world D -> Prop) :
  request_at data rq cmd body mem w -> body !! n = Some x -> Q x w ->
  wp (load_byte data (Z.of_nat (3 + n))) Q w.
Proof.
  intros Hreq Hx HQ. eapply wp_load_byte; [apply Hreq|by eapply request_byte|done].
Qed.

Lemma wp_get_version body mem :
  request_at data rq cmd body mem w ->
  wp (mctp_ctrl_get_version 0 src tag data (3 + zlen body))
    (fun cc w' => outcome b src tag rq cmd (bus_eid b, spec_get_version resp body) cc w w') w.
Proof.
  pose proof Hr as [Hs Hm _ _ _]. intros Hreq.
  unfold mctp_ctrl_get_version, sizeof_get_version_req. pose proof (zlen_nonneg (tail (tail body))).
  destruct body as [|x [|y l]];
    [rewrite decide_True by (unfold zlen; simpl; lia); wp_step; by right| |
     rewrite decide_True by (unfold zlen; simpl; lia); wp_step; by right].
  rewrite decide_False by (unfold zlen; simpl; lia). wp_step.
  eapply (wp_body_byte [x] mem 0); [done|done|]. unfold spec_get_version.
  destruct (decide (x = 0 \/ x = 255)) as [Hx|Hx]; [|wp_steps; by right].
  wp_step. cbv zeta. wp_step. eapply wp_get_bus; [apply Hs|]. rewrite Hm.
  eapply (wp_resp [x] mem 21); [done|lia|].
  do 3 (wp_step; apply wp_store_dup; [lia|done|]).
  eapply wp_mono; [by apply (wp_send_resp _ b)|]. intros cc w' [-> H']. by apply outcome_same.
Qed.

Lemma wp_get_types body mem :
  request_at data rq cmd body mem w ->
  wp (mctp_ctrl_get_types 0 src tag data (3 + zlen body))
    (fun cc w' => outcome b src tag rq cmd
       (bus_eid b, spec_get_types (ctrl_types (m_control (w_mctp w))) resp body) cc w w') w.
Proof.
  pose proof Hr as [Hs Hm _ _ Hty]. intros Hreq. pose proof (zlen_ctrl_types _ Hty) as Hz.
  pose proof Hty as [Hl Hnum _]. unfold MCTP_CONTROL_MAX_TYPES in *.
  set (c := m_control (w_mctp w)) in *. set (num := ct_num_msg_types c) in *.
  unfold mctp_ctrl_get_types, sizeof_ctrl_msg_hdr, sizeof_get_types_resp.
  destruct body as [|x l]; [|rewrite decide_True by (unfold zlen; simpl; lia); wp_step; by right].
  rewrite decide_False by (unfold zlen; simpl; lia). wp_step.
  eapply wp_get_bus; [apply Hs|]. rewrite Hm. wp_step. apply wp_mctp_get; [apply Hs|].
  fold c num. rewrite (sz_small (5 + num)) by lia. cbv zeta.
  eapply (wp_resp [] mem (5 + num)); [done|lia|].
  replace (Z.to_nat (5 + num - 3)) with (2 + Z.to_nat num)%nat by lia.
  assert (Hrep : zlen (replicate (Z.to_nat num) 0) = num) by (rewrite zlen_replicate; lia).
  assert (Hts : slice 0 num (ct_msg_types c) = ctrl_types c) by (unfold slice; by rewrite drop_0).
  rewrite Hts. do 2 (wp_step; apply wp_store_dup; [lia|unfold zlen in *; simpl in *; lia|]).
  assert (Hst : splice 4 [u8 num] (splice 3 [MCTP_CTRL_CC_SUCCESS]
      ([0; Z.land rq 31; cmd] ++ replicate (2 + Z.to_nat num) 0))
    = [0; Z.land rq 31; cmd; 0; num] ++ replicate (Z.to_nat num) 0).
  { by rewrite u8_small by lia. }
  rewrite Hst. wp_steps. apply wp_store_dup; [lia|rewrite zlen_app, Hrep, Hz; unfold zlen; simpl; lia|].
  assert (Hfin : splice 5 (ctrl_types c) ([0; Z.land rq 31; cmd; 0; num] ++ replicate (Z.to_nat num) 0)
    = resp 0 (zlen (ctrl_types c) :: ctrl_types c)).
  { rewrite Hz. unfold splice. change (take (Z.to_nat 5) _) with [0; Z.land rq 31; cmd; 0; num].
    rewrite drop_ge; [by rewrite app_nil_r|]. rewrite length_app, length_replicate.
    unfold zlen in Hz. simpl. lia. }
  rewrite Hfin. eapply wp_mono; [apply (wp_send_resp _ b); [done|done| |lia]|].
  { unfold zlen in *. simpl. lia. }
  intros cc w' [-> H']. by apply outcome_same.
Qed.
End handler.

(** ** Changing the endpoint ID *)

Lemma responder_eid b e w :
  responder b w -> responder (set_bus_eid e b) (with_bus 0 (set_bus_eid e b) w).
Proof.
  intros [Hs Hm Hb Hmem Hty]. pose proof Hs as []. split; [|done|done|done|by destruct w as [? ? ? ? []]].
  split; try done; [by apply tx_env_with_bus|by eapply with_bus_lookup].
Qed.

Lemma wp_bus_set_eid e b (Q : Z -> world D -> Prop) w :
  responder b w -> (e < 8 \/ e = 255 -> Q (- EINVAL) w) ->
  (8 <= e -> e <> 255 -> Q 0 (with_bus 0 (set_bus_eid e b) w)) ->
  wp (mctp_bus_set_eid binding e) Q w.
Proof.
  intros [Hs _ Hb _ _] H1 H2. pose proof (se_env _ _ _ _ _ _ Hs) as Henv.
  unfold mctp_bus_set_eid.
  case_decide as He; [wp_step; by apply H1|]. wp_step.
  eapply wp_get_binding; [apply Henv|]. rewrite Hb. do 3 wp_step.
  eapply wp_upd_bus; [apply Hs|]. wp_step. apply H2; lia.
Qed.

Lemma wp_set_endpoint_id b src tag data rq cmd body mem w :
  responder b w -> 0 <= tag < 8 -> request_at data rq cmd body mem w ->
  wp (mctp_ctrl_set_endpoint_id 0 src tag data (3 + zlen body))
    (fun cc w' => outcome b src tag rq cmd (spec_set_eid (bus_eid b)
       (fun cc rest => [0; Z.land rq 31; cmd; cc] ++ rest) body) cc w w') w.
Proof.
  intros Hr Ht Hreq. pose proof Hr as [Hs Hm _ _ _].
  unfold mctp_ctrl_set_endpoint_id, sizeof_set_endpoint_id_req.
  destruct body as [|op [|e [|? ?]]];
    try (rewrite decide_True by (unfold zlen; simpl; lia); wp_step; by right).
  rewrite decide_False by (unfold zlen; simpl; lia). wp_step.
  eapply (wp_body_byte data rq cmd _ [op; e] mem 0); [done|done|]. cbv zeta.
  unfold spec_set_eid, MCTP_CTRL_SET_EID_OP_MASK, MCTP_CTRL_SET_EID_OP_SET, MCTP_CTRL_SET_EID_OP_FORCE.
  destruct (decide (Z.land op 3 = 0 \/ Z.land op 3 = 1)) as [Hop|Hop].
  2: { rewrite decide_True by done. wp_step. rewrite decide_False by naive_solver. by right. }
  rewrite decide_False by naive_solver. wp_step. eapply wp_get_bus; [apply Hs|].
  wp_step. eapply (wp_body_byte data rq cmd _ [op; e] mem 1); [done|done|]. wp_step.
  rewrite (se_binding _ _ _ _ _ _ Hs).
  eapply wp_bus_set_eid; [done|intros He|intros He1 He2].
  { wp_steps. rewrite decide_False by lia. by right. }
  wp_step. rewrite Hm. rewrite decide_True by done. set (b1 := set_bus_eid e b).
  pose proof (responder_eid b e w Hr) as Hr1. fold b1 in Hr1. set (w1 := with_bus 0 b1 w) in *.
  assert (Hreq1 : request_at data rq cmd [op; e] mem w1) by (by destruct Hreq; split).
  eapply (wp_resp b1 data rq cmd w1 Hr1 [op; e] mem 7); [done|lia|].
  do 4 (wp_step; apply (wp_store_dup _ _ _ _ w1); [lia|done|]).
  eapply wp_mono; [by apply (wp_send_resp _ b1 src tag _ _ w1); [apply Hr1|..]|].
  intros cc w' [-> H]. by left.
Qed.

(** ** The whole handler *)

Lemma wp_ctrl_dispatch b src tag data rq cmd body mem t w :
  responder b w -> 0 <= tag < 8 -> request_at data rq cmd body mem w ->
  wp (ctrl_dispatch 0 src tag data (3 + zlen body) cmd)
    (fun cc w' => outcome b src tag rq cmd
       (spec_ctrl (bus_eid b) (ctrl_types (m_control (w_mctp w))) (t :: rq :: cmd :: body))
       cc w w') w.
Proof.
  intros Hr Ht Hreq. unfold ctrl_dispatch, spec_ctrl.
  unfold MCTP_CTRL_CMD_SET_ENDPOINT_ID, MCTP_CTRL_CMD_GET_ENDPOINT_ID,
    MCTP_CTRL_CMD_GET_VERSION_SUPPORT, MCTP_CTRL_CMD_GET_MESSAGE_TYPE_SUPPORT.
  case_decide; [by eapply wp_set_endpoint_id|].
  case_decide; [by eapply wp_get_endpoint_id|].
  case_decide; [by eapply wp_get_version|].
  case_decide; [by eapply wp_get_types|]. wp_step. by right.
Qed.

Lemma wp_reply_error b src tag data rq cmd body mem cc w :
  responder b w -> 0 <= tag < 8 -> request_at data rq cmd body mem w ->
  wp (reply_error mctp src tag data cc)
    (fun _ w' => replied b src tag [0; Z.land rq 31; cmd; cc] w w') w.
Proof.
  intros Hr Ht Hreq. unfold reply_error.
  eapply (wp_resp b data rq cmd w Hr body mem 4); [done|lia|].
  wp_step. apply wp_store_dup; [lia|done|].
  eapply wp_mono; [apply (wp_send_resp tt b src tag _ 4 w); [apply Hr|done..]|]. by intros [] w' [_ H].
Qed.

Lemma wp_control_handler b src tag data rq cmd body mem w :
  responder b w -> 0 <= tag < 8 -> w_heap w !! data = Some (HBytes mem) ->
  slice 0 (3 + zlen body) mem = 0 :: rq :: cmd :: body -> Z.land rq 192 = 128 ->
  wp (mctp_control_handler 0 src true tag data (3 + zlen body)) (fun r w' => r = true /\
    let res := spec_ctrl (bus_eid b) (ctrl_types (m_control (w_mctp w))) (0 :: rq :: cmd :: body) in
    let b' := set_bus_eid res.1 b in replied b' src tag res.2 (with_bus 0 b' w) w') w.
Proof.
  intros Hr Ht Hd Hmem Hrq. destruct (slice_is_app (3 + zlen body) mem) as [rest Hrest].
  rewrite Hmem in Hrest. simpl in Hrest. pose proof (zlen_nonneg body).
  assert (Hreq : request_at data rq cmd body mem w) by (split; [done|by exists 0, rest]).
  unfold mctp_control_handler. cbn [negb]. wp_step. wp_step.
  eapply (wp_load_byte data mem 0); [done|by rewrite Hrest|]. wp_step.
  unfold sizeof_ctrl_msg_hdr. do 2 wp_step.
  eapply (wp_load_byte data mem 1); [done|by rewrite Hrest|].
  change (Z.lor _ _) with 192. rewrite Hrq. do 2 wp_step.
  eapply (wp_load_byte data mem 2); [done|by rewrite Hrest|]. wp_step.
  eapply wp_mono; [by apply (wp_ctrl_dispatch b src tag data rq cmd body mem 0)|].
  intros cc w1 [(-> & H1)|(Hcc & -> & Hres)].
  - by wp_steps.
  - do 2 wp_step. wp_step. eapply wp_get_bus; [apply Hr|]. rewrite (rs_mctp _ _ Hr).
    eapply wp_mono; [by eapply wp_reply_error|]. intros [] w' H1. wp_step. split; [done|].
    rewrite Hres. simpl. replace (set_bus_eid (bus_eid b) b) with b by by destruct b.
    by rewrite (with_bus_id b) by apply Hr.
Qed.
End answers.
