(* ===== verification/ControlRx.v ===== *)
(** * Control requests on the wire

    The control handler as the application of the theorems: which messages it
    takes, and how an endpoint answers a control request that arrives in a
    packet. *)

From S2P Require Import Prelude State Alloc Pktbuf Reasm Tags Tx Control Types Rx RxSpec.
From S2P Require Import RxRefine Frag TxRefine TxApi ControlSpec.

(** What [mctp_control_handler] makes of a message before looking at its command. *)
Inductive ctrl_verdict := CtrlPass | CtrlDrop | CtrlRequest.

#[export] Instance ctrl_verdict_eq_dec : EqDecision ctrl_verdict.
Proof. solve_decision. Defined.

Definition ctrl_classify (tag_owner : bool) (msg : list Z) : ctrl_verdict :=
  match tag_owner, msg with
  | true, t :: rest =>
      if decide (t <> 0) then CtrlPass else
      match rest with
      | rq :: _ :: _ => if decide (Z.land rq 192 = 128) then CtrlRequest else CtrlDrop
      | _ => CtrlDrop
      end
  | _, _ => CtrlPass
  end.

Section ctrl.
Context {D : Type} `{!ExtAlloc D, !BindingOps D, !ClockOps D, !QuietCapture D}.
Context (ready : string -> Z -> D -> Prop) (answer : Z -> Prop) `{!QuietTx D ready answer}.
Context (mctp binding : Z) (bd : mctp_binding).
Implicit Types w : world D.

(** What the control handler takes: messages without the tag-owner bit, of
    another type or empty are left to the application, which is told by the
    result [false]; control messages that are too short, or not requests, or
    datagrams are dropped without an answer.  Neither has any effect. *)
Theorem control_handler_filters bus src to tag data len mem w :
  w_heap w !! data = Some (HBytes mem) -> 0 <= len <= zlen mem ->
  ctrl_classify to (slice 0 len mem) <> CtrlRequest ->
  mctp_control_handler bus src to tag data len w =
    Ok (bool_decide (ctrl_classify to (slice 0 len mem) = CtrlDrop)) w.
Proof.
  intros Hd Hl Hv. assert (Hz : zlen (slice 0 len mem) = len) by (apply zlen_slice; lia).
  destruct (slice_is_app len mem) as [rest Hmem].
  assert (Hb : forall t (Q : Z -> world D -> Prop), mem !! 0%nat = Some t -> Q t w ->
    wp (load_byte data 0) Q w) by (intros t Q Ht HQ; by eapply (wp_load_byte data mem 0)).
  unfold ctrl_classify in *. unfold zlen in Hz. apply wp_run_eq.
  unfold mctp_control_handler, sizeof_ctrl_msg_hdr in *.
  destruct to; cbn [negb] in *; [|by wp_step].
  destruct (slice 0 len mem) as [|t [|rq [|cmd msg]]]; simpl in Hz; [by wp_steps|..];
    do 2 wp_step; (apply (Hb t); [by rewrite Hmem|]);
    (destruct (decide (t <> 0)) as [Ht|Ht]; [rewrite decide_True by done; by wp_step|]);
    rewrite decide_False by done; try (by wp_steps).
  destruct (decide (Z.land rq 192 = 128)) as [Hrq|Hrq]; [done|].
  do 2 wp_step. eapply (wp_load_byte data mem 1); [done|by rewrite Hmem|].
  change (Z.lor _ _) with 192. rewrite decide_True by done. by wp_step.
Qed.

(** ** From the wire *)

Context `{!RxOps D, !RxReady D}.

(** A packet that carries a whole control request, to be answered by the stack. *)
Record request_packet (eid : Z) (h : mctp_hdr) (rq cmd : Z) (body : list Z) (p : mctp_pktbuf)
    : Prop := {
  rp_wf : pkt_wf p;
  rp_wire : pkt_wire p = bytes_of_hdr h ++ 0 :: rq :: cmd :: body;
  rp_accepts : rx_accepts eid h;
  rp_whole : fst_flags (flags_seq_tag h) = Z.lor MCTP_HDR_FLAG_SOM MCTP_HDR_FLAG_EOM;
  rp_to : fst_to (flags_seq_tag h) = true;
  rp_request : Z.land rq 192 = 128;
  rp_cmd : cmd < MCTP_CTRL_CMD_FIRST_TRANSPORT;
}.

Lemma request_is_request rq : Z.land rq 192 = 128 -> Z.land rq MCTP_CTRL_HDR_FLAG_REQUEST <> 0.
Proof.
  intros H E. unfold MCTP_CTRL_HDR_FLAG_REQUEST in E.
  assert (H' : Z.land (Z.land rq 192) 128 = 128) by by rewrite H.
  rewrite <- Z.land_assoc in H'. change (Z.land 192 128) with 128 in H'. lia.
Qed.

(** The state after a request from [peer] has been answered. *)
Definition answered (b : mctp_bus) (peer tag : Z) (res : Z * list Z) (w w' : world D) : Prop :=
  let b' := set_bus_eid res.1 b in
  replied ready answer binding bd b' peer tag res.2 (with_bus 0 b' w) w'.

Lemma wp_rx_request b dl rq cmd body buf len mem w :
  responder ready mctp binding bd b w -> endpoint mctp binding 0 (bus_eid b) w ->
  held dl buf len mem w -> local_dest (bus_eid b) (dl_dest dl) -> 0 <= dl_tag dl < 8 ->
  dl_msg dl = 0 :: rq :: cmd :: body -> dl_to dl = true -> Z.land rq 192 = 128 ->
  ~ mctp_ctrl_cmd_is_transport cmd ->
  wp (mctp_rx mctp 0 (dl_src dl) (dl_dest dl) (dl_to dl) (dl_tag dl) buf len)
    (fun _ w' => answered b (dl_src dl) (dl_tag dl)
       (spec_ctrl (bus_eid b) (ctrl_types (m_control (w_mctp w))) (dl_msg dl)) w w') w.
Proof.
  intros Hr Hep (Hbn & Hmem & Hlen & Hmsg) Hloc Ht Hdl Hto Hrq Hcmd. pose proof Hr as [Hs Hm Hb _ _].
  pose proof (se_env _ _ _ _ _ _ Hs) as He.
  assert (Ez : len = 3 + zlen body).
  { transitivity (zlen (slice 0 len mem)); [by rewrite zlen_slice by lia|].
    rewrite Hmsg, Hdl. unfold zlen. simpl. lia. }
  subst len. rewrite Hdl in Hmsg.
  eapply (wp_rx_at mctp 0 b bd dl buf mem (3 + zlen body)); try done; try apply Hep; try apply Hs.
  - rewrite (se_binding _ _ _ _ _ _ Hs). apply He.
  - by rewrite Hdl.
  - rewrite Hdl. simpl ctrl_request. rewrite bool_decide_true by by apply request_is_request.
    cbn [andb]. assert (Ew : after_tags dl w = w).
    { unfold after_tags, delivery_tags. rewrite Hto. by destruct w as [? ? ? ? []]. }
    rewrite Ew, Hto. destruct (slice_is_app (3 + zlen body) mem) as [rest Hrest]. rewrite Hmsg in Hrest.
    unfold mctp_ctrl_handle_msg. wp_step.
    eapply (wp_load_byte buf mem 2); [done|by rewrite Hrest|]. rewrite decide_False by done.
    eapply wp_mono; [by apply (wp_control_handler ready answer mctp binding bd b _ _ buf rq cmd body mem)|].
    by intros ? w1 (-> & H).
Qed.

Lemma responder_after_dup b msg w :
  responder ready mctp binding bd b w -> responder ready mctp binding bd b (after_dup msg w).
Proof.
  intros [Hs ? ? Hmem ?]. destruct (sender_after_dup ready mctp binding bd b msg w Hs) as [Hs' _].
  split; try done. simpl. by rewrite Hmem.
Qed.

Lemma wp_bus_rx_request b h rq cmd body pkt p w :
  responder ready mctp binding bd b w -> endpoint mctp binding 0 (bus_eid b) w ->
  m_capture (w_mctp w) = None -> w_heap w !! pkt = Some (HPkt p) ->
  request_packet (bus_eid b) h rq cmd body p ->
  let msg := 0 :: rq :: cmd :: body in
  wp (mctp_bus_rx binding pkt) (fun _ w' => exists w2, w' = after_free (w_brk w) w2 /\
    answered b (src h) (fst_tag (flags_seq_tag h)) (spec_ctrl (bus_eid b) (ctrl_types (m_control (w_mctp w))) msg)
      (after_dup msg w) w2) w.
Proof.
  intros Hr Hep Hcap Hpkt [Hwf Hwire Hacc Hone Hto Hrq Hcmd] msg. pose proof Hr as [Hs Hm Hb Hmem _].
  pose proof (se_env _ _ _ _ _ _ Hs) as He.
  eapply (wp_bus_rx_one mctp binding 0 _ h msg pkt p); [exact Hep|apply He|apply He|done..|].
  assert (Hbn : w_brk w <> NULL) by (destruct (te_heap _ _ _ _ He); unfold NULL; lia).
  pose proof (responder_after_dup b msg w Hr) as Hr'.
  eapply wp_mono; [apply (wp_rx_request b (hdr_delivery h msg) rq cmd body _ _ msg (after_dup msg w)); try done|].
  { by apply (endpoint_mctp_eq _ _ _ _ w). }
  { pose proof (zlen_nonneg msg). split; [done|]. split; [apply lookup_insert_eq|]. split; [lia|].
    by apply slice_all. }
  { apply Hacc. }
  { apply fst_tag_range. }
  { intros [H _]. lia. }
  intros [] w2 Hans. pose proof Hans as (rcs & j & _ & _ & _ & He2 & Hk & _).
  set (buf := w_brk w) in *.
  assert (Hst : buf <> bd_tx_storage bd).
  { intros E. destruct (te_storage _ _ _ _ He) as (o & ? & Ho & _).
    pose proof (heap_wf_fresh _ (te_heap _ _ _ _ He)). unfold buf in *. congruence. }
  eapply wp_msg_free; [apply He2|apply Hep| |apply heap_wf_null, He2|by exists w2].
  rewrite (tk_heap _ _ _ _ _ Hk buf Hst) by (simpl; lia). simpl.
  rewrite lookup_insert_ne by (simpl; lia). rewrite lookup_insert_eq. by eexists.
Qed.

(** Responses fit in one packet. *)
Lemma spec_ctrl_short eid types msg :
  zlen types <= MCTP_CONTROL_MAX_TYPES -> zlen (spec_ctrl eid types msg).2 <= 25.
Proof.
  unfold MCTP_CONTROL_MAX_TYPES, spec_ctrl, spec_set_eid, spec_get_eid, spec_get_version,
    spec_get_types. intros Hl.
  destruct msg as [|? [|rq [|cmd body]]]; [done..|]. unfold zlen in *.
  repeat (case_decide; [|]); try (destruct body as [|? [|? [|]]]);
    repeat (case_decide; [|]); simpl in *; lia.
Qed.

Lemma answers_one rcs j : answers answer 1 0 rcs j ->
  exists rc, answer rc /\ rcs = [rc] /\ j = if decide (rc = - EBUSY) then 0 else 1.
Proof.
  intros H. inversion H as [|i rcs' j' Hi Ha Hrest|i Hi Ha|i rc Hi Ha Hz Hb]; subst.
  - inversion Hrest; subst; [by exists 0|lia..].
  - exists (- EBUSY). done.
  - exists rc. by rewrite decide_False by done.
Qed.

(** The packet with the response [resp]. *)
Definition response_packet (b : mctp_bus) (peer tag : Z) (res : Z * list Z) : list Z :=
  bytes_of_hdr (mk_hdr (Z.land (bd_version bd) 15) peer res.1
    (tx_flags_seq_tag false tag (bus_tx_seq b) true true)) ++ res.2.

(** The bus after the binding has answered [rc] to the packet: the response in
    the block [buf] waits on it, or is gone. *)
Definition response_in (buf : Z) (resp : list Z) (rc : Z) (b' : mctp_bus) (w' : world D) : Prop :=
  if decide (rc = - EBUSY)
  then bus_tx_msg b' = buf /\
    exists mem, w_heap w' !! buf = Some (HBytes mem) /\ slice 0 (zlen resp) mem = resp
  else bus_tx_msg b' = NULL /\ w_heap w' !! buf = None.

Lemma answered_one b peer tag res w w' :
  responder ready mctp binding bd b w -> zlen res.2 <= 25 -> answered b peer tag res w w' ->
  let pkt := response_packet b peer tag res in
  exists rc b', answer rc /\ w_trace w' = w_trace w ++ tx_events binding (w_mctp w) pkt rc /\
    tx_did ready binding pkt rc (w_dev w) (w_dev w') /\ tx_env ready binding bd w' /\
    tx_keep 0 bd (w_brk w) (after_dup res.2 (with_bus 0 (set_bus_eid res.1 b) w)) w' /\
    m_busses (w_mctp w') !! 0%nat = Some b' /\ bus_eid b' = res.1 /\ bus_mctp b' = mctp /\
    bus_binding b' = binding /\ response_in (w_brk w) res.2 rc b' w'.
Proof.
  intros Hr Hshort (rcs & j & Ha & Htr & Hdev & He & Hk & b' & Hat & Eid & Em). pose proof Hr as [Hs Hm _ _ _].
  set (b1 := set_bus_eid res.1 b) in *. set (t := sender_params bd b1 _ _ _) in *.
  destruct (binding_wf_mtu bd (se_wf _ _ _ _ _ _ Hs)) as [_ Hmtu].
  assert (Et : tp_mtu t = bd_pkt_size bd - 4) by done. pose proof (zlen_nonneg res.2) as H0.
  assert (Hn : frag_count (tp_mtu t) (zlen res.2) = 1) by (apply frag_count_one; lia).
  assert (Hpkt : fragment t res.2 0 = response_packet b peer tag res).
  { apply one_fragment; [lia..|apply Hs]. }
  rewrite Hn in Ha. destruct (answers_one _ _ Ha) as (rc & Hrc & -> & ->).
  simpl in Htr. rewrite app_nil_r in Htr. destruct Hdev as (d1 & Hdev & ->).
  rewrite Hpkt in Htr, Hdev. exists rc, b'. split; [done|]. split; [done|]. split; [done|].
  split; [done|]. split; [done|]. unfold response_in, tx_at in *. rewrite Hn in Hat.
  rewrite Em, Eid. destruct (decide (rc = - EBUSY)) as [Hb|Hb].
  - rewrite decide_False in Hat by done. destruct Hat as [P1 P2 P3 P4 P5 _ _ _ _]. done.
  - rewrite decide_True in Hat by done. by destruct Hat as (P1 & P2 & P3 & _ & _ & P4).
Qed.

(** C10: An endpoint answers control requests.  A packet with a whole control
    request (not a datagram, and with a command below 0xF0: the others are the
    transport's), known or not, makes [mctp_bus_rx] send one packet back to the
    requester: the response [spec_ctrl] gives, under the request's tag and
    without the tag-owner bit.  The endpoint's ID is then the one [spec_ctrl]
    gives, nothing is delivered to the application, and the message's and the
    response's memory is released unless the binding keeps the response. *)
Theorem control_request_answered b h rq cmd body pkt p w :
  responder ready mctp binding bd b w -> endpoint mctp binding 0 (bus_eid b) w ->
  m_capture (w_mctp w) = None -> w_heap w !! pkt = Some (HPkt p) ->
  request_packet (bus_eid b) h rq cmd body p ->
  let res := spec_ctrl (bus_eid b) (ctrl_types (m_control (w_mctp w))) (0 :: rq :: cmd :: body) in
  exists rc w', answer rc /\ mctp_bus_rx binding pkt w = Ok tt w' /\
    w_trace w' = w_trace w ++ [EvTx binding (bytes_of_hdr (mk_hdr (Z.land (bd_version bd) 15)
      (src h) res.1 (tx_flags_seq_tag false (fst_tag (flags_seq_tag h)) (bus_tx_seq b) true true))
      ++ res.2) rc] /\
    (exists b', m_busses (w_mctp w') !! 0%nat = Some b' /\ bus_eid b' = res.1) /\
    (rc <> - EBUSY -> forall a, a <> bd_tx_storage bd -> w_heap w' !! a = w_heap w !! a).
Proof.
  intros Hr Hep Hcap Hpkt Hp res. pose proof Hr as [Hs _ _ _ Hty].
  pose proof (se_env _ _ _ _ _ _ Hs) as He.
  destruct (wp_inv _ _ _ (wp_bus_rx_request b h rq cmd body pkt p w Hr Hep Hcap Hpkt Hp))
    as ([] & w' & Hrun & w2 & -> & Hans). fold res in Hans. set (msg := 0 :: rq :: cmd :: body) in *.
  assert (Hshort : zlen res.2 <= 25).
  { apply spec_ctrl_short. rewrite zlen_ctrl_types by done. apply Hty. }
  destruct (answered_one b (src h) (fst_tag (flags_seq_tag h)) res (after_dup msg w) w2) as
    (rc & b' & Hrc & Htr & _ & _ & Hk & Hb & Eid & _ & _ & Hin); [by apply responder_after_dup|done..|].
  exists rc, (after_free (w_brk w) w2). split; [done|]. split; [done|]. split; [|split].
  - simpl. rewrite Htr. simpl. unfold tx_events, capture_of. simpl. by rewrite Hcap.
  - by exists b'.
  - intros Hnb a Ha'. unfold response_in in Hin. rewrite decide_False in Hin by done.
    destruct Hin as [_ Hfree]. simpl in Hfree.
    pose proof (te_heap _ _ _ _ He) as Hwf. simpl. destruct (decide (a = w_brk w)) as [->|Ha1].
    { rewrite lookup_delete_eq. symmetry. by apply heap_wf_fresh. }
    rewrite lookup_delete_ne by done. destruct (decide (a = w_brk w + 16)) as [->|Ha2].
    { rewrite Hfree. destruct (w_heap w !! (w_brk w + 16)) eqn:E; [|done].
      destruct Hwf as (_ & _ & Hd). specialize (Hd _ ltac:(eauto)). lia. }
    rewrite (tk_heap _ _ _ _ _ Hk) by done. simpl. by rewrite !lookup_insert_ne by done.
Qed.
End ctrl.
