(* ===== verification/Endpoint.v ===== *)
(** * Everything an endpoint receives

    Reception of any packet on an endpoint, the messages included that the
    stack takes for itself: who takes a complete message ([taker_of]), what then
    becomes of it, and [mctp_bus_rx_refines], which puts this together with the
    reassembly of [RxRefine] and the answers of [ControlRx]. *)

From S2P Require Import Prelude State Alloc Pktbuf Reasm Tags Tx Control Types Rx RxSpec.
From S2P Require Import RxRefine Frag TxRefine TxApi ControlSpec ControlRx.

(** ** Who takes a message *)

(** The application, the binding's control callback, nobody, or the control
    handler of the stack, which answers it. *)
Inductive taker := Application | Callback (f : string) | Nobody | Handler.

#[export] Instance taker_eq_dec : EqDecision taker.
Proof. solve_decision. Defined.

(** Control requests with a transport command are the binding's if it has a
    callback; of the others, those with the tag-owner bit are the handler's,
    which drops datagrams. *)
Definition taker_of (control_rx : fnptr) (dl : delivery) : taker :=
  match dl_msg dl with
  | _ :: _ :: cmd :: _ =>
      if ctrl_request (dl_msg dl) then
        if decide (mctp_ctrl_cmd_is_transport cmd)
        then match control_rx with Some f => Callback f | None => Application end
        else match ctrl_classify (dl_to dl) (dl_msg dl) with
             | CtrlPass => Application
             | CtrlDrop => Nobody
             | CtrlRequest => Handler
             end
      else Application
  | _ => Application
  end.

(** The events when it is not the handler. *)
Definition taken_events (bd : mctp_binding) (m : mctp) (dl : delivery) : list event :=
  match taker_of (bd_control_rx bd) dl with
  | Application => delivery_events m dl
  | Callback f => [EvCtrlRx f (bd_control_rx_data bd) (dl_src dl) (dl_to dl) (dl_tag dl) (dl_msg dl)]
  | Nobody | Handler => []
  end.

Lemma taker_plain control_rx dl :
  ctrl_request (dl_msg dl) = false -> taker_of control_rx dl = Application.
Proof. unfold taker_of. intros ->. by destruct (dl_msg dl) as [|? [|? [|? ?]]]. Qed.

(** What the handler takes is a request of the control protocol. *)
Lemma taker_handler control_rx dl :
  taker_of control_rx dl = Handler ->
  exists rq cmd body, dl_msg dl = 0 :: rq :: cmd :: body /\ dl_to dl = true /\
    Z.land rq 192 = 128 /\ ~ mctp_ctrl_cmd_is_transport cmd.
Proof.
  unfold taker_of, ctrl_classify. destruct (dl_msg dl) as [|t [|rq [|cmd body]]]; try done.
  destruct (ctrl_request _); [|done]. case_decide; [by destruct control_rx|].
  destruct (dl_to dl); [|done]. case_decide as Ht; [done|]. case_decide; [|done].
  intros _. by exists rq, cmd, body; subst.
Qed.

(** A Get Endpoint ID request is the handler's, its response the application's;
    a transport command is the callback's. *)
Example taker_get_eid : taker_of None (mk_delivery 10 9 true 3 [0; 129; 2]) = Handler.
Proof. reflexivity. Qed.
Example taker_response : taker_of None (mk_delivery 10 9 false 3 [0; 1; 2; 0; 9; 1; 0]) = Application.
Proof. reflexivity. Qed.
Example taker_datagram : taker_of None (mk_delivery 10 9 true 3 [0; 193; 2]) = Nobody.
Proof. reflexivity. Qed.
Example taker_transport : taker_of (Some "f"%string) (mk_delivery 10 9 true 3 [0; 129; 240]) = Callback "f".
Proof. reflexivity. Qed.

Section endpoint.
Context {D : Type} `{!ExtAlloc D, !BindingOps D, !RxOps D, !ClockOps D, !RxReady D}.
Context `{!QuietCapture D, !QuietRx D} (keep : D -> D -> Prop) `{!KeepOps D keep}.
Context (mctp binding : Z) (bus : nat) (bd : mctp_binding).
Implicit Types w : world D.

(** ** Taken without an answer *)

(** The binding's callback can be called. *)
Definition control_can (d : D) : Prop :=
  forall f, bd_control_rx bd = Some f -> rx_ready f (bd_control_rx_data bd) d.

Lemma control_can_keep d d' : keep d d' -> control_can d -> control_can d'.
Proof. intros Hk H f Hf. eapply keep_ready; [exact Hk|by apply H]. Qed.

(** What the control handlers make of a request that is not to be answered. *)
Lemma wp_control_msg b dl buf len bs w :
  m_busses (w_mctp w) !! bus = Some b -> w_bindings w !! bus_binding b = Some bd ->
  control_can (w_dev w) -> held dl buf len bs w -> ctrl_request (dl_msg dl) = true ->
  taker_of (bd_control_rx bd) dl <> Handler ->
  wp (mctp_ctrl_handle_msg bus (dl_src dl) (dl_tag dl) (dl_to dl) buf len)
    (fun handled w' => if handled
       then taker_of (bd_control_rx bd) dl <> Application /\ exists d, keep (w_dev w) d /\
         w' = set_w_dev d (set_w_trace (w_trace w ++ taken_events bd (w_mctp w) dl) w)
       else taker_of (bd_control_rx bd) dl = Application /\ w' = w) w.
Proof.
  intros Hb Hbd Hcan (Hbn & Hbuf & Hlen & Hmsg) Hreq Htk.
  assert (Hclass : taker_of (bd_control_rx bd) dl = taker_of (bd_control_rx bd) dl) by done.
  unfold taker_of in Htk, Hclass at 2. rewrite Hreq in Htk, Hclass.
  destruct (slice_is_app len bs) as [rest Hrest]. rewrite Hmsg in Hrest.
  destruct (dl_msg dl) as [|t [|rq [|cmd body]]] eqn:Edl; try done.
  unfold mctp_ctrl_handle_msg. wp_step. eapply (wp_load_byte buf bs 2); [done|by rewrite Hrest|].
  case_decide as Hcmd.
  - wp_step. eapply wp_get_bus; [exact Hb|]. wp_step. eapply wp_get_binding; [exact Hbd|].
    destruct (bd_control_rx bd) as [f|] eqn:Ef; [|by wp_step]. wp_step.
    eapply wp_load_bytes; [done|lia..|]. rewrite Hmsg. do 2 wp_step.
    set (w1 := set_w_trace (w_trace w ++ [EvCtrlRx _ _ _ _ _ _]) w).
    destruct (quiet_rx f (dl_src dl) (dl_to dl) (dl_tag dl) (bd_control_rx_data bd) buf len w1 (Hcan f Ef))
      as [d Hd].
    wp_step. eapply wp_ok; [exact Hd|]. wp_step. split; [by rewrite Hclass|]. exists d.
    split; [by apply keep_rx in Hd|]. unfold taken_events. by rewrite Ef, Hclass, Edl.
  - assert (Hv : ctrl_classify (dl_to dl) (slice 0 len bs) <> CtrlRequest).
    { rewrite Hmsg. intros E. by rewrite E in Htk. }
    eapply wp_ok; [by eapply (control_handler_filters bus _ _ _ buf len bs w)|]. rewrite Hmsg in *.
    destruct (ctrl_classify _ _); [by rewrite bool_decide_false| |done].
    rewrite bool_decide_true by done. split; [by rewrite Hclass|]. exists (w_dev w).
    split; [reflexivity|]. unfold taken_events. rewrite Hclass, app_nil_r. by destruct w.
Qed.

Lemma takes_quietly eid dl w0 F0 :
  w_bindings w0 !! binding = Some bd -> control_can (w_dev w0) ->
  taker_of (bd_control_rx bd) dl <> Handler ->
  takes mctp binding bus eid (quiet_rel keep (taken_events bd) dl) dl w0 F0.
Proof.
  intros Hbd0 Hcan0 Htk F r buf len bs w HI Hep [_ Em Eb _ Ed _] _ _ Hheld Hloc _.
  destruct (ep_bus _ _ _ _ _ Hep) as (b & Hb & Hbm & Hbb & Hbe).
  destruct (ep_binding _ _ _ _ _ Hep) as (bd' & Hbd & Hbdm & _).
  assert (bd' = bd) as -> by congruence. pose proof Hheld as (Hbn & Hbuf & Hlen & Hmsg).
  assert (Hcan : control_can (w_dev w)) by by rewrite Ed.
  eapply (wp_rx_at mctp bus b bd dl buf bs len); try done; try apply Hep.
  { by rewrite Hbb. }
  { rewrite Hbdm. apply Hep. }
  { unfold mctp_rx_dest_is_local. by rewrite Hbe. }
  assert (Happ : taker_of (bd_control_rx bd) dl = Application ->
    wp (call_message_rx mctp (dl_src dl) (dl_to dl) (dl_tag dl) buf len)
      (fun _ w' => m_route_policy (w_mctp w') = ROUTE_ENDPOINT /\
         taken_in bus (quiet_rel keep (taken_events bd) dl) buf F r w w') (after_tags dl w)).
  { intros Ha. eapply (wp_message_rx keep _ dl _ bs len); [apply Hep|exact (ep_rx _ _ _ _ _ Hep)|done..|].
    intros d Hd. split; [apply Hep|].
    pose proof (quietly_taken keep _ _ _ _ (taken_events bd) dl d buf F r w HI Hep Hd) as H.
    unfold taken_events in H at 2. rewrite Ha in H. exact H. }
  destruct (ctrl_request (dl_msg dl)) eqn:Hreq; [|by apply Happ, taker_plain].
  eapply wp_mono; [by eapply (wp_control_msg b dl buf len bs (after_tags dl w)); rewrite ?Hbb|].
  intros [|] w'; [|intros [Ha ->]; by apply Happ]. intros (_ & d & Hd & ->).
  exact (quietly_taken keep _ _ _ _ (taken_events bd) dl d buf F r w HI Hep Hd).
Qed.

(** ** Answered *)
Context (ready : string -> Z -> D -> Prop) (answer : Z -> Prop) `{!QuietTx D ready answer}.
Context `{!TxEffect D ready (fun _ _ _ => keep)}.
Context (Hready : forall f d d', keep d d' -> ready f binding d -> ready f binding d').
Context (b : mctp_bus).

Definition ctrl_answer (w : world D) (dl : delivery) : Z * list Z :=
  spec_ctrl (bus_eid b) (ctrl_types (m_control (w_mctp w))) (dl_msg dl).

(** The request [dl] has been answered with one packet, to which the binding has
    said [rc]; the bus is now [b'].  [F] and [F']: the blocks besides those of the
    messages being received; only the transmit storage differs, and the response
    in [buf] while the bus waits to send it. *)
Record replied_to (dl : delivery) (rc buf : Z) (b' : mctp_bus) w (F : gmap Z hobj) w'
    (F' : gmap Z hobj) : Prop := {
  rt_answer : answer rc;
  rt_trace : w_trace w' = w_trace w ++ tx_events binding (w_mctp w)
    (response_packet bd b (dl_src dl) (dl_tag dl) (ctrl_answer w dl)) rc;
  rt_mctp : w_mctp w' = set_m_msg_ctxs (m_msg_ctxs (w_mctp w'))
    (set_m_busses (m_busses (w_mctp w')) (w_mctp w));
  rt_busses k : k <> 0%nat -> m_busses (w_mctp w') !! k = m_busses (w_mctp w) !! k;
  rt_bus : m_busses (w_mctp w') !! 0%nat = Some b' /\ bus_eid b' = (ctrl_answer w dl).1 /\
    bus_mctp b' = mctp /\ bus_binding b' = binding;
  rt_bindings : w_bindings w' = w_bindings w;
  rt_mallocs : w_mallocs w = [] -> w_mallocs w' = [];
  rt_keep : keep (w_dev w) (w_dev w');
  rt_buf : F !! buf = None;
  rt_frame a : a <> bd_tx_storage bd -> a <> buf -> F' !! a = F !! a;
  rt_response : if decide (rc = - EBUSY)
    then bus_tx_msg b' = buf /\ exists mem, F' !! buf = Some (HBytes mem) /\
      slice 0 (zlen (ctrl_answer w dl).2) mem = (ctrl_answer w dl).2
    else bus_tx_msg b' = NULL /\ F' !! buf = None;
}.

Definition replied_rel (dl : delivery) : outcome_rel := fun w F w' F' =>
  exists rc buf b', replied_to dl rc buf b' w F w' F'.

Lemma ctrl_answer_ctxs dl w w' cs :
  w_mctp w' = set_m_msg_ctxs cs (w_mctp w) -> ctrl_answer w' dl = ctrl_answer w dl.
Proof. unfold ctrl_answer. by intros ->. Qed.

Lemma replied_rel_ok dl : outcome_ok keep (replied_rel dl).
Proof.
  split.
  - intros w d w' F F' Hk (rc & buf & b' & []). exists rc, buf, b'. split; try done. by transitivity d.
  - intros w0 w1 w2 w3 F F' [A1 A2 A3 A4 A5 A6] (rc & buf & b' & [B1 B2 B3 B4 B5 B6 B7 B8 B9 B10 B11])
      [C1 C2 C3 C4 C5 C6].
    pose proof (ctrl_answer_ctxs dl _ _ _ A2) as Ea. rewrite Ea in *.
    exists rc, buf, b'. split; try done.
    + rewrite C4, B2, A4, A2. done.
    + rewrite C2, B3, A2. by destruct (w_mctp w0), (w_mctp w3).
    + intros k Hk. rewrite C2. simpl. rewrite B4, A2 by done. done.
    + rewrite C2. simpl. exact B5.
    + congruence.
    + auto.
    + by rewrite C5, <- A5.
  - intros w w' F F' a o Ha (rc & buf & b' & [B1 B2 B3 B4 B5 B6 B7 B8 B9 B10 B11]).
    assert (Hne : a <> buf) by (intros ->; by rewrite lookup_insert_eq in B9).
    rewrite lookup_insert_ne in B9 by done. exists rc, buf, b'. split; try done.
    + intros x H1 H2. destruct (decide (x = a)) as [->|Hx]; [by rewrite lookup_delete_eq|].
      rewrite lookup_delete_ne, B10 by done. by rewrite lookup_insert_ne.
    + by rewrite lookup_delete_ne.
Qed.

(** A responder stays one while messages are reassembled. *)
Lemma responder_later w0 w F0 F r :
  responder ready mctp binding bd b w0 -> w_heap w0 !! bd_tx_storage bd = F0 !! bd_tx_storage bd ->
  ctxs_inv w F r -> ctx_step w0 w -> F0 ⊆ F -> responder ready mctp binding bd b w.
Proof.
  intros [Hs Hm Hb Hmem Hty] Hst HI [A1 A2 A3 A4 A5 A6] Hsub.
  destruct Hs as [S1 [E1 E2 E3 (o & data & E4 & E5) E6] S3 S4 S5 S6 S7 S8 S9 S10 S11 S12].
  assert (Ho : w_heap w !! bd_tx_storage bd = Some o).
  { eapply frame_lookup; [exact HI|]. eapply lookup_weaken; [|exact Hsub]. congruence. }
  split; [|done..|auto|by rewrite A2]. split; try done; try (by rewrite A2).
  split; [apply HI|apply HI|congruence|by exists o, data|by rewrite A5].
Qed.

Lemma takes_answered dl w0 F0 :
  responder ready mctp binding bd b w0 -> w_heap w0 !! bd_tx_storage bd = F0 !! bd_tx_storage bd ->
  taker_of (bd_control_rx bd) dl = Handler ->
  takes mctp binding 0 (bus_eid b) (replied_rel dl) dl w0 F0.
Proof.
  intros Hr0 Hst0 Htk F r buf len bs w HI Hep Hstep Hsub Hnb Hheld Hloc Htag.
  pose proof (responder_later w0 w F0 F r Hr0 Hst0 HI Hstep Hsub) as Hr.
  destruct (taker_handler _ _ Htk) as (rq & cmd & body & Hmsg & Hto & Hrq & Hcmd).
  eapply wp_mono; [by eapply (wp_rx_request ready answer mctp binding bd b dl rq cmd body buf len bs)|].
  intros [] w2 Hans. fold (ctrl_answer w dl) in Hans. pose proof Hheld as (_ & Hbuf & _).
  assert (Hshort : zlen (ctrl_answer w dl).2 <= 25).
  { apply spec_ctrl_short. rewrite zlen_ctrl_types by apply Hr. apply (rs_types _ _ _ _ _ _ Hr). }
  destruct (answered_one ready answer mctp binding bd b _ _ _ w w2 Hr Hshort Hans) as
    (rc & b' & Hrc & Htr & Hdid & He & Hk & Hb' & Eid & Em & Ebb & Hin).
  pose proof HI as [I1 I2 I3 I4]. pose proof (heap_wf_fresh _ I2) as Hfresh.
  assert (Hst : is_Some (F0 !! bd_tx_storage bd)).
  { rewrite <- Hst0. destruct (te_storage _ _ _ _ (se_env _ _ _ _ _ _ (rs_sender _ _ _ _ _ _ Hr0)))
      as (o & _ & Ho & _). by exists o. }
  assert (Hn1 : buf <> bd_tx_storage bd) by (intros ->; destruct Hst; congruence).
  assert (Hn2 : buf <> w_brk w) by (intros ->; congruence).
  assert (HstF : is_Some (F !! bd_tx_storage bd)) by (destruct Hst as [o Ho]; exists o; by eapply lookup_weaken).
  assert (Hrest0 : forall a, a <> bd_tx_storage bd -> a <> w_brk w -> w_heap w2 !! a = w_heap w !! a).
  { intros a H1 H2. rewrite (tk_heap _ _ _ _ _ Hk) by done. simpl. by rewrite lookup_insert_ne. }
  destruct (rep_change_two _ _ _ _ (w_heap w2) (bd_tx_storage bd) (w_brk w) I3)
    as (F' & Hrep & _ & Hb & Hrest); [by right|by left|done|].
  pose proof (tk_mctp _ _ _ _ _ Hk) as Emm. simpl in Emm.
  split.
  - exists F'. split; [|split; [by rewrite Hrest|]].
    { split; [by rewrite (tk_ops _ _ _ _ _ Hk)|apply He|by rewrite Emm|by rewrite Emm]. }
    exists rc, (w_brk w), b'. split; try done.
    + rewrite Emm. by destruct (w_mctp w).
    + intros k Hk0. rewrite (tk_busses _ _ _ _ _ Hk) by done. simpl. by rewrite list_lookup_insert_ne.
    + by rewrite (tk_bindings _ _ _ _ _ Hk).
    + intros Hmem. rewrite (tk_mallocs _ _ _ _ _ Hk). simpl. by rewrite Hmem.
    + exact (Hdid _ _).
    + by eapply frame_fresh.
    + unfold response_in in Hin. rewrite <- Hb in Hin. exact Hin.
  - rewrite Emm. done.
  - by apply Hrest0.
  - exists b'. rewrite Em. split; [done|]. apply Hep.
Qed.

(** ** Every packet *)

(** What becomes of the complete message [dl]. *)
Definition becomes (dl : delivery) : outcome_rel :=
  if decide (taker_of (bd_control_rx bd) dl = Handler) then replied_rel dl
  else quiet_rel keep (taken_events bd) dl.

(** The endpoint ID afterwards. *)
Definition eid_after (w : world D) (out : option delivery) : Z :=
  match out with
  | Some dl => if decide (taker_of (bd_control_rx bd) dl = Handler) then (ctrl_answer w dl).1
               else bus_eid b
  | None => bus_eid b
  end.

Lemma becomes_ok dl : outcome_ok keep (becomes dl).
Proof.
  unfold becomes. case_decide; [apply replied_rel_ok|]. apply quiet_rel_ok; [done|].
  intros m cs. unfold taken_events. by destruct (taker_of _ _).
Qed.

Lemma outcome_answered w w' F res dl :
  rx_outcome keep becomes w w' F res -> res.2 = Some dl ->
  taker_of (bd_control_rx bd) dl = Handler ->
  exists F' rc, ctxs_inv w' F' res.1 /\ answer rc /\
    w_trace w' = w_trace w ++ tx_events binding (w_mctp w)
      (response_packet bd b (dl_src dl) (dl_tag dl) (ctrl_answer w dl)) rc.
Proof.
  intros H E Htk. unfold rx_outcome, becomes in H. rewrite E, decide_True in H by done.
  destruct H as (F' & HI & rc & buf & b' & []). by exists F', rc.
Qed.

Lemma responder_captured p d w :
  keep (w_dev w) d -> responder ready mctp binding bd b w ->
  responder ready mctp binding bd b (set_w_dev d (captured p w)).
Proof.
  intros Hd [[S1 [E1 E2 E3 E4 E5] S3 S4 S5 S6 S7 S8 S9 S10 S11 S12] ? ? ? ?].
  split; try done. split; try done. split; try done. intros f Hf. simpl. eapply Hready; [exact Hd|auto].
Qed.

Lemma endpoint_becomes p F res w w' :
  rx_outcome keep becomes (captured p w) w' F res ->
  (forall dl, res.2 = Some dl -> taker_of (bd_control_rx bd) dl = Handler -> bus = 0%nat) ->
  endpoint mctp binding bus (bus_eid b) w -> endpoint mctp binding bus (eid_after w res.2) w'.
Proof.
  destruct res as [r [dl|]]; simpl.
  2: { intros H _. by apply (endpoint_effect keep _ _ _ _ F p (r, None)). }
  unfold rx_outcome, becomes. simpl.
  intros (F' & HI & H) Hbus Hep. case_decide as Htk.
  - specialize (Hbus dl eq_refl Htk). subst bus.
    destruct H as (rc & buf & b' & [_ _ B3 _ (B5 & B5e & B5m & B5b) B6 _ B8 _ _ _]).
    destruct Hep as [H1 H2 _ H4 H5]. split; [done|by rewrite B3| |by rewrite B6|].
    + exists b'. split; [done|]. by rewrite B5e.
    + revert H5. by apply (rx_can_keep keep w); [rewrite B3|rewrite B3|].
  - destruct H as [-> [B1 B2 B3 B4 B5]]. revert Hep.
    apply endpoint_mctp_eq; [by rewrite B1|by rewrite B1|exact B2|].
    by apply (rx_can_keep keep w); [rewrite B1|rewrite B1|].
Qed.

(** C1: Reception refines its specification.  On an endpoint, receiving any
    well-formed packet returns without undefined behaviour or failed assertion,
    and updates the table of partial messages as [spec_rx] says.  The message that
    [spec_rx] completes, if any, goes to whom [taker_of] says.  The application
    or the binding's control callback is given exactly this message, once, or it
    is dropped (a control datagram); the request tag that it answers is released,
    and no other heap block is changed.  A request for the control handler, of one
    packet or of several, is answered to its sender with one packet, the response
    of [spec_ctrl], which also gives the endpoint's ID from then on; of the other
    blocks only the transmit storage changes, and the response is held by the bus
    if the binding is busy, and otherwise released.  So every buffer is owned by one context or by
    the bus, or released.  Callbacks return without calling the stack and leave the
    binding ready; a request for the handler finds the first bus idle and memory for
    the response. *)
Theorem mctp_bus_rx_refines F r pkt p w :
  ctxs_inv w F r -> endpoint mctp binding bus (bus_eid b) w ->
  w_bindings w !! binding = Some bd -> control_can (w_dev w) ->
  F !! pkt = Some (HPkt p) -> pkt_wf p ->
  let res := spec_rx (bus_eid b) (m_max_message_size (w_mctp w)) (malloc_ok w) r (pkt_wire p) in
  (forall dl, res.2 = Some dl -> taker_of (bd_control_rx bd) dl = Handler ->
     bus = 0%nat /\ responder ready mctp binding bd b w /\ is_Some (F !! bd_tx_storage bd)) ->
  exists w', mctp_bus_rx binding pkt w = Ok tt w' /\
    rx_outcome keep becomes (captured p w) w' F res /\
    endpoint mctp binding bus (eid_after w res.2) w'.
Proof.
  intros HI Hep Hbd Hcan HF Hp res Hhand.
  assert (Htake : forall dl d, res.2 = Some dl -> keep (w_dev w) d ->
    takes mctp binding bus (bus_eid b) (becomes dl) dl (set_w_dev d (captured p w)) F).
  { intros dl d Hdl Hd. unfold becomes. case_decide as Htk.
    - destruct (Hhand dl Hdl Htk) as (-> & Hr & [o Hst]).
      apply takes_answered; [by apply responder_captured| |done]. simpl. rewrite Hst.
      by eapply frame_lookup.
    - apply takes_quietly; [done|by eapply control_can_keep|done]. }
  destruct (wp_inv _ _ _ (wp_bus_rx_taken keep mctp binding bus (bus_eid b) F r pkt p becomes w
    becomes_ok HI Hep HF Hp Htake)) as ([] & w' & Hrun & Ho).
  exists w'. split; [done|]. split; [done|]. eapply endpoint_becomes; [exact Ho| |done].
  intros dl Hdl Htk. by apply (Hhand dl).
Qed.
End endpoint.
