(* ===== verification/E2E.v ===== *)
(** * End to end

    Messages sent by one stack and received by another. *)

From S2P Require Import Prelude State Alloc Pktbuf Reasm Tags Tx Control Rx RxSpec RxRefine.
From S2P Require Import Frag TxRefine TxApi.

(** The packets a trace puts on the wire. *)
Definition tx_wires (evs : list event) : list (list Z) :=
  omap (fun e => match e with EvTx _ pkt _ => Some pkt | _ => None end) evs.

Lemma tx_wires_events binding m pkt rc : tx_wires (tx_events binding m pkt rc) = [pkt].
Proof. unfold tx_events, capture_of. by destruct (m_capture m). Qed.

(** A binding that accepts every packet is handed all of them. *)
Lemma answers_accept binding t msg m i rcs j :
  answers (eq 0) (frag_count (tp_mtu t) (zlen msg)) i rcs j ->
  j = frag_count (tp_mtu t) (zlen msg) /\
  tx_wires (tx_log binding t msg m i rcs)
    = fragment t msg <$> seqZ i (frag_count (tp_mtu t) (zlen msg) - i).
Proof.
  induction 1 as [|i rcs j Hi _ _ [-> IH]|i Hi Hz|i rc Hi Hz Hn]; [|..|done|by destruct Hn].
  - split; [done|]. by rewrite Z.sub_diag.
  - split; [done|]. simpl. unfold tx_wires in *. rewrite omap_app, IH.
    rewrite (seqZ_cons i) by lia. rewrite fmap_cons.
    fold (tx_wires (tx_events binding m (fragment t msg i) 0)). rewrite tx_wires_events. simpl.
    do 3 f_equal; lia.
Qed.

Section e2e.
(** The sender. *)
Context {D1 : Type} `{!ExtAlloc D1, !BindingOps D1, !ClockOps D1, !QuietCapture D1}.
Context (ready : string -> Z -> D1 -> Prop) `{!QuietTx D1 ready (eq 0)}.
(** The receiver. *)
Context {D2 : Type} `{!ExtAlloc D2, !BindingOps D2, !RxOps D2, !RxReady D2, !QuietCapture D2, !QuietRx D2}.
Context (keep : D2 -> D2 -> Prop) `{!KeepOps D2 keep}.

(** The receiver has room for a message of the key. *)
Definition has_room (max : Z) (r : rmap) (k : rkey) (msg : list Z) : Prop :=
  match r !! k with
  | Some p => zlen msg <= p_cap p
  | None => zlen msg <= max /\ Z.of_nat (size r) < MCTP_REASSEMBLY_CTXS
  end.

(** C2: End to end.  A message sent with [mctp_message_tx] over a binding that
    accepts its packets is delivered to the application of the receiving
    stack, once and unchanged, with the sender's EID, tag and tag-owner bit,
    when its packets arrive in order. *)
Theorem send_receive mctp binding bd b eid to tag msg (wA : world D1)
    mctp' binding' bus' F r pkts f (wB : world D2) :
  sender ready mctp binding bd b wA -> 0 <= tag < 8 -> zlen msg < SIZE_MOD -> malloc_ok wA = true ->
  bus_eid b <> MCTP_EID_BROADCAST -> ctrl_request msg = false ->
  ctxs_inv wB F r -> endpoint mctp' binding' bus' eid wB ->
  w_mallocs wB = [] -> m_capture (w_mctp wB) = None -> m_message_rx (w_mctp wB) = Some f ->
  has_room (m_max_message_size (w_mctp wB)) r (bus_eid b, eid, tag) msg ->
  exists wA' evs, mctp_message_tx mctp eid to tag msg (zlen msg) wA = Ok 0 wA' /\
    w_trace wA' = w_trace wA ++ evs /\
    (pkts_ok F pkts -> wires F pkts = tx_wires evs ->
     exists wB', rx_packets binding' pkts wB = Ok tt wB' /\
       w_trace wB' = w_trace wB ++
         [EvRx f (m_message_rx_data (w_mctp wB)) (bus_eid b) to tag msg]).
Proof.
  intros Hs Ht Hl Hok Hsrc Hctl HI Hep Hmem Hcap Hf Hroom.
  set (t := sender_params bd b eid to tag).
  destruct (wp_inv _ _ _ (wp_mctp_message_tx ready (eq 0) mctp binding bd b eid to tag msg wA
    Hs Ht Hl Hok)) as (rc & wA' & Hrun & -> & rcs & j & Hans & Htr & _).
  exists wA', (tx_log binding t msg (w_mctp wA) 0 rcs). do 2 (split; [done|]).
  intros Hpkts Hwires. apply (answers_accept binding t msg (w_mctp wA)) in Hans as [_ Hlog].
  rewrite Z.sub_0_r in Hlog. fold t in Hlog. rewrite Hlog in Hwires.
  assert (Hmtu : 0 < tp_mtu t).
  { pose proof (binding_wf_mtu bd (se_wf _ _ _ _ _ _ Hs)). simpl. lia. }
  pose proof (spec_run_fragments t msg Hmtu Ht eid (m_max_message_size (w_mctp wB))
    (conj Hsrc (or_introl eq_refl)) r Hroom) as Hspec.
  unfold fragments in Hspec. rewrite <- Hwires in Hspec.
  destruct (rx_packets_run keep mctp' binding' bus' eid F r pkts wB HI Hep Hmem Hcap Hpkts)
    as (wB' & HrunB & _ & HtrB).
  { rewrite Hspec. by repeat constructor. }
  exists wB'. split; [done|]. rewrite HtrB, Hspec. simpl. unfold delivery_events. by rewrite Hf.
Qed.
End e2e.
