(* ===== verification/Bus.v ===== *)
(** * Life cycle of the stack and its busses (src/core.c)

    Setting up and tearing down the [struct mctp], registering one bus as an
    endpoint or two as a bridge. *)

From S2P Require Import Prelude State Alloc Pktbuf Reasm Tags Tx Control Rx.

Definition zero_bus : mctp_bus :=
  mk_bus 0 NULL mctp_bus_state_constructed NULL NULL 0 0 0 0 0 0 false 0.
Definition zero_msg_ctx : mctp_msg_ctx := mk_msg_ctx NULL 0 0 0 0 0 0 0.
Definition zero_req_tag : mctp_req_tag := mk_req_tag 0 0 0 0.
Definition zero_control : mctp_control := mk_control (replicate 10 0) 0.

(** A [struct mctp] after [memset] to 0. *)
Definition zero_mctp : mctp :=
  mk_mctp 0 (replicate 2 zero_bus) None 0 None 0 (replicate 16 zero_msg_ctx)
    (replicate 16 zero_req_tag) 0 ROUTE_ENDPOINT 0 zero_control 0 None 0.

Section bus.
Context {D : Type} `{!ExtAlloc D, !StartOps D}.
Local Abbreviation IO := (M (world D)).

Definition mctp_setup (mctp struct_mctp_size : Z) : IO Z :=
  if decide (struct_mctp_size < sizeof_mctp) then mret (- EINVAL) else
  mctp_upd mctp (fun _ => zero_mctp);;
  mctp_upd mctp (set_m_max_message_size MCTP_MAX_MESSAGE_SIZE);;
  mctp_upd mctp (set_m_platform_now (Some "mctp_default_now"%string));;
  mctp_control_add_type mctp MCTP_CTRL_HDR_MSG_TYPE;;
  mret 0.

Definition mctp_init : IO Z :=
  mctp ← __mctp_alloc sizeof_mctp;
  if decide (mctp = NULL) then mret NULL else
  mctp_setup mctp sizeof_mctp;;
  mret mctp.

Definition mctp_set_max_message_size (mctp message_size : Z) : IO unit :=
  mctp_upd mctp (set_m_max_message_size message_size).

Definition mctp_set_capture_handler (mctp : Z) (fn : fnptr) (user : Z) : IO unit :=
  mctp_upd mctp (set_m_capture fn);;
  mctp_upd mctp (set_m_capture_data user).

Definition mctp_set_rx_all (mctp : Z) (fn : fnptr) (data : Z) : IO Z :=
  mctp_upd mctp (set_m_message_rx fn);;
  mctp_upd mctp (set_m_message_rx_data data);;
  mret 0.

Definition mctp_bus_destroy (bus : nat) (mctp : Z) : IO unit :=
  b ← get_bus bus;
  if decide (bus_tx_msg b <> NULL) then
    __mctp_msg_free (bus_tx_msg b) mctp;;
    upd_bus bus (set_bus_tx_msg NULL)
  else mret tt.

(** The first loop of [mctp_cleanup]: the contexts keep their pointers. *)
Fixpoint cleanup_ctxs (cs : list mctp_msg_ctx) (mctp : Z) : IO unit :=
  match cs with
  | [] => mret tt
  | c :: cs =>
      (if decide (mc_buf c <> NULL) then __mctp_msg_free (mc_buf c) mctp else mret tt);;
      cleanup_ctxs cs mctp
  end.

(** The second loop, [while (mctp->n_busses--)], with at most [n] tests of
    its guard. *)
Fixpoint cleanup_busses (n : nat) (mctp : Z) : IO unit :=
  match n with
  | O => stuck OutOfFuel
  | S n =>
      m ← mctp_get mctp;
      mctp_upd mctp (set_m_n_busses (m_n_busses m - 1));;
      if decide (m_n_busses m = 0) then mret tt else
      (if decide (0 <= m_n_busses m - 1) then mret tt else stuck BadAccess);;
      mctp_bus_destroy (Z.to_nat (m_n_busses m - 1)) mctp;;
      cleanup_busses n mctp
  end.

Definition mctp_cleanup (mctp : Z) : IO unit :=
  m ← mctp_get mctp;
  cleanup_ctxs (m_msg_ctxs m) mctp;;
  m ← mctp_get mctp;
  cleanup_busses (S (Z.to_nat (m_n_busses m))) mctp.

Definition mctp_destroy (mctp : Z) : IO unit :=
  mctp_cleanup mctp;;
  __mctp_free mctp.

Definition set_bus (i : nat) (b : mctp_bus) : IO unit := upd_bus i (fun _ => b).

(** The [start] callback of a binding, when it has one. *)
Definition call_start (binding : Z) : IO Z :=
  bd ← get_binding binding;
  match bd_start bd with
  | Some f => sop_start f binding
  | None => mret 0
  end.

Definition mctp_register_bus (mctp binding eid : Z) : IO Z :=
  m ← mctp_get mctp;
  massert (m_n_busses m = 0);;
  mctp_upd mctp (set_m_n_busses 1);;
  bd ← get_binding binding;
  massert (bd_tx_storage bd <> NULL);;
  set_bus 0 zero_bus;;
  upd_bus 0 (fun b => set_bus_eid eid (set_bus_binding binding (set_bus_mctp mctp b)));;
  upd_binding binding (fun bd => set_bd_mctp mctp (set_bd_bus (Some 0%nat) bd));;
  mctp_upd mctp (set_m_route_policy ROUTE_ENDPOINT);;
  bd ← get_binding binding;
  match bd_start bd with
  | None => mret 0
  | Some f =>
      rc ← sop_start f binding;
      if decide (rc < 0) then
        upd_binding binding (set_bd_bus None);;
        mctp_upd mctp (set_m_n_busses 0);;
        mret rc
      else mret rc
  end.

Definition mctp_unregister_bus (mctp binding : Z) : IO unit :=
  mctp_upd mctp (set_m_n_busses 0);;
  get_binding binding;;
  upd_binding binding (set_bd_mctp NULL);;
  upd_binding binding (set_bd_bus None).

Definition mctp_bridge_busses (mctp b1 b2 : Z) : IO Z :=
  bd1 ← get_binding b1;
  massert (bd_tx_storage bd1 <> NULL);;
  bd2 ← get_binding b2;
  massert (bd_tx_storage bd2 <> NULL);;
  m ← mctp_get mctp;
  massert (m_n_busses m = 0);;
  set_bus 0 zero_bus;;
  set_bus 1 zero_bus;;
  mctp_upd mctp (set_m_n_busses 2);;
  upd_bus 0 (set_bus_binding b1);;
  upd_binding b1 (fun bd => set_bd_mctp mctp (set_bd_bus (Some 0%nat) bd));;
  upd_bus 1 (set_bus_binding b2);;
  upd_binding b2 (fun bd => set_bd_mctp mctp (set_bd_bus (Some 1%nat) bd));;
  mctp_upd mctp (set_m_route_policy ROUTE_BRIDGE);;
  rc ← call_start b1;
  if decide (rc < 0) then mret rc else
  bd2 ← get_binding b2;
  match bd_start bd2 with
  | Some f => sop_start f b2
  | None => mret rc
  end.
End bus.
