(* ===== verification/Typed.v ===== *)
(** * Well-typed states

    Every field of the stack's structures, of the bindings and of the packet
    buffers holds a value of its C type, in the range its use gives it, and
    memory holds bytes.  Every function of the library keeps this, whatever the
    callbacks do that keep it: they may call back into the stack.  So every
    sequence of API calls and received packets does. *)

From S2P Require Import Prelude State Alloc Pktbuf Reasm Tags Tx Control Types Rx RxSpec Bus.

(** ** Values *)

Definition is_sz (x : Z) : Prop := 0 <= x < SIZE_MOD.

(** A byte of memory, which may never have been written. *)
Definition mem_byte (x : Z) : Prop := x = POISON \/ is_u8 x.

(** [struct mctp_bus] *)
Record bus_typed (b : mctp_bus) : Prop := {
  bt_eid : mem_byte (bus_eid b);
  bt_src : mem_byte (bus_tx_src b);
  bt_dest : mem_byte (bus_tx_dest b);
  bt_pos : is_sz (bus_tx_msgpos b);
  bt_len : is_sz (bus_tx_msglen b);
  bt_pktlen : is_sz (bus_tx_pktlen b);
  bt_seq : 0 <= bus_tx_seq b < 4;
  bt_tag : 0 <= bus_tx_tag b < 8;
}.

(** [struct mctp_msg_ctx] *)
Record ctx_typed (c : mctp_msg_ctx) : Prop := {
  xt_src : mem_byte (mc_src c);
  xt_dest : mem_byte (mc_dest c);
  xt_tag : 0 <= mc_tag c < 8;
  xt_seq : 0 <= mc_last_seq c < 4;
  xt_size : is_sz (mc_buf_size c);
  xt_alloc : is_sz (mc_buf_alloc_size c);
  xt_frag : is_sz (mc_fragment_size c);
}.

(** [struct mctp_req_tag] *)
Record tag_typed (r : mctp_req_tag) : Prop := {
  gt_local : mem_byte (rt_local r);
  gt_remote : mem_byte (rt_remote r);
  gt_tag : 0 <= rt_tag r < 8;
  gt_expiry : is_sz (rt_expiry r);
}.

(** [struct mctp]: the arrays have their lengths, the integers their ranges. *)
Record mctp_typed (m : mctp) : Prop := {
  mt_n_busses : -1 <= m_n_busses m <= 2;
  mt_busses : length (m_busses m) = 2%nat;
  mt_bus : Forall bus_typed (m_busses m);
  mt_ctxs : length (m_msg_ctxs m) = 16%nat;
  mt_ctx : Forall ctx_typed (m_msg_ctxs m);
  mt_tags : length (m_req_tags m) = 16%nat;
  mt_tag : Forall tag_typed (m_req_tags m);
  mt_round_robin : 0 <= m_tag_round_robin m < 8;
  mt_max : is_sz (m_max_message_size m);
  mt_types : types_ok (m_control m);
  mt_type_bytes : Forall mem_byte (ct_msg_types (m_control m));
}.

(** [struct mctp_binding] *)
Record binding_typed (bd : mctp_binding) : Prop := {
  nt_bus : forall i, bd_bus bd = Some i -> (i < 2)%nat;
  nt_size : is_sz (bd_pkt_size bd);
  nt_header : is_sz (bd_pkt_header bd);
  nt_trailer : is_sz (bd_pkt_trailer bd);
}.

(** [struct mctp_pktbuf] *)
Record pkt_typed (p : mctp_pktbuf) : Prop := {
  kt_start : is_sz (pb_start p);
  kt_end : is_sz (pb_end p);
  kt_size : is_sz (pb_size p);
  kt_hdr : is_sz (pb_mctp_hdr_off p);
  kt_data : Forall mem_byte (pb_data p);
}.

Definition obj_typed (o : hobj) : Prop :=
  match o with HBytes bs => Forall mem_byte bs | HPkt p => pkt_typed p end.

Record world_typed {D} (w : world D) : Prop := {
  wt_mctp : mctp_typed (w_mctp w);
  wt_heap : map_Forall (fun _ => obj_typed) (w_heap w);
  wt_bindings : map_Forall (fun _ => binding_typed) (w_bindings w);
}.

(** [typed m R]: [m] keeps the world typed and its results satisfy [R]. *)
Definition typed {D A} (m : M (world D) A) (R : A -> Prop) : Prop :=
  forall w a w', world_typed w -> m w = Ok a w' -> world_typed w' /\ R a.

Definition Any {A} : A -> Prop := fun _ => True.

(** ** Ranges *)

Lemma sz_typed x : is_sz (sz x).
Proof. apply sz_range. Qed.

Lemma u8_typed x : mem_byte (u8 x).
Proof. right. apply u8_range. Qed.

Lemma land_ones_range x n : 0 <= n -> 0 <= Z.land x (Z.ones n) < 2 ^ n.
Proof. intros Hn. rewrite Z.land_ones by done. apply Z.mod_pos_bound. lia. Qed.

Lemma seq_typed x : 0 <= Z.land x MCTP_HDR_SEQ_MASK < 4.
Proof. apply (land_ones_range x 2). lia. Qed.

Lemma fst_seq_range f : 0 <= fst_seq f < 4.
Proof. apply seq_typed. Qed.

Lemma low_bits_typed x n : 0 <= n <= 8 -> mem_byte (Z.land x (Z.ones n)).
Proof.
  intros Hn. right. pose proof (land_ones_range x n ltac:(lia)).
  pose proof (Z.pow_le_mono_r 2 n 8). unfold is_u8. lia.
Qed.

(** Constants, by computation. *)
Lemma const_byte x : (0 <=? x) && (x <? 256) = true -> mem_byte x.
Proof. intros H. right. unfold is_u8. lia. Qed.

Lemma const_sz x : (0 <=? x) && (x <? SIZE_MOD) = true -> is_sz x.
Proof. intros H. unfold is_sz. lia. Qed.

Lemma mod8_range x : 0 <= x mod 8 < 8.
Proof. apply Z.mod_pos_bound. lia. Qed.

Lemma typed_slice off len l : Forall mem_byte l -> Forall mem_byte (slice off len l).
Proof. intros H. by apply Forall_take, Forall_drop. Qed.

Lemma typed_splice off bs l :
  Forall mem_byte bs -> Forall mem_byte l -> Forall mem_byte (splice off bs l).
Proof.
  intros Hb Hl. apply Forall_app. split; [by apply Forall_take|].
  apply Forall_app. split; [done|by apply Forall_drop].
Qed.

Lemma typed_replicate n x : mem_byte x -> Forall mem_byte (replicate n x).
Proof. intros Hx. apply Forall_replicate, Hx. Qed.

(** ** Rules *)

Section rules.
Context {D : Type}.
Local Abbreviation IO := (M (world D)).

Lemma typed_ret {A} (a : A) (R : A -> Prop) : R a -> typed (D := D) (mret a) R.
Proof. intros Ha w a' w' Hw [= <- <-]. done. Qed.

Lemma typed_bind {A B} (m : IO A) (k : A -> IO B) R R' :
  typed m R -> (forall a, R a -> typed (k a) R') -> typed (m ≫= k) R'.
Proof.
  intros Hm Hk w b w' Hw. unfold mbind, M_bind. destruct (m w) as [a w1|] eqn:E; [|done].
  destruct (Hm w a w1 Hw E) as [Hw1 Ha]. by apply Hk.
Qed.

Lemma typed_mono {A} (m : IO A) (R R' : A -> Prop) :
  typed m R -> (forall a, R a -> R' a) -> typed m R'.
Proof. intros Hm HR w a w' Hw E. destruct (Hm w a w' Hw E). auto. Qed.

Lemma typed_stuck {A} e (R : A -> Prop) : typed (D := D) (stuck e) R.
Proof. by intros w a w' _ [=]. Qed.

Lemma typed_assert P `{Decision P} : typed (D := D) (massert P) (fun _ => P).
Proof. unfold massert. case_decide; [by apply typed_ret|apply typed_stuck]. Qed.

Lemma typed_from_option {A} e (o : option A) :
  typed (D := D) (from_option_or e o) (fun a => o = Some a).
Proof. destruct o; [by apply typed_ret|apply typed_stuck]. Qed.

Lemma typed_gets {A} (f : world D -> A) : typed (gets f) Any.
Proof. by intros w a w' Hw [= <- <-]. Qed.

Lemma typed_modify (f : world D -> world D) :
  (forall w, world_typed w -> world_typed (f w)) -> typed (modify f) Any.
Proof. intros Hf w a w' Hw [= <- <-]. split; [auto|done]. Qed.

(** The fields of the world. *)

Lemma typed_mctp_get p : typed (D := D) (mctp_get p) mctp_typed.
Proof.
  unfold mctp_get. case_decide; [apply typed_stuck|].
  intros w a w' Hw [= <- <-]. split; [done|apply (wt_mctp _ Hw)].
Qed.

Lemma typed_mctp_upd p f :
  (forall m, mctp_typed m -> mctp_typed (f m)) -> typed (D := D) (mctp_upd p f) Any.
Proof.
  intros Hf. unfold mctp_upd. case_decide; [apply typed_stuck|]. apply typed_modify.
  intros w [Hm Hh Hb]. split; simpl; auto.
Qed.

Lemma typed_get_bus i : typed (D := D) (get_bus i) bus_typed.
Proof.
  intros w a w' Hw. unfold get_bus. destruct (_ !! i) as [b|] eqn:E; [|done].
  intros [= <- <-]. split; [done|]. eapply Forall_lookup_1; [apply (mt_bus _ (wt_mctp _ Hw))|done].
Qed.

Lemma typed_upd_bus i f :
  (forall b, bus_typed b -> bus_typed (f b)) -> typed (D := D) (upd_bus i f) Any.
Proof.
  intros Hf. apply typed_modify. intros w [[] Hh Hb]. split; [|done..]. split; try done; simpl.
  - by rewrite length_alter.
  - apply Forall_alter; [done|auto].
Qed.

Lemma typed_get_ctx i : typed (D := D) (get_ctx i) ctx_typed.
Proof.
  intros w a w' Hw. unfold get_ctx. destruct (_ !! i) as [c|] eqn:E; [|done].
  intros [= <- <-]. split; [done|]. eapply Forall_lookup_1; [apply (mt_ctx _ (wt_mctp _ Hw))|done].
Qed.

Lemma typed_upd_ctx i f :
  (forall c, ctx_typed c -> ctx_typed (f c)) -> typed (D := D) (upd_ctx i f) Any.
Proof.
  intros Hf. apply typed_modify. intros w [[] Hh Hb]. split; [|done..]. split; try done; simpl.
  - by rewrite length_alter.
  - apply Forall_alter; [done|auto].
Qed.

Lemma typed_get_binding p : typed (D := D) (get_binding p) binding_typed.
Proof.
  intros w a w' Hw. unfold get_binding. destruct (_ !! p) as [bd|] eqn:E; [|done].
  intros [= <- <-]. split; [done|]. by apply (wt_bindings _ Hw p).
Qed.

Lemma typed_upd_binding p f :
  (forall bd, binding_typed bd -> binding_typed (f bd)) -> typed (D := D) (upd_binding p f) Any.
Proof.
  intros Hf. apply typed_modify. intros w [Hm Hh Hb]. split; [done..|]. simpl. intros q bd.
  rewrite lookup_alter. case_decide; [|by apply Hb]. subst q. intros Hq.
  apply fmap_Some in Hq as (bd0 & Hq & ->). apply Hf. by apply (Hb p).
Qed.

Lemma typed_emit e : typed (D := D) (emit e) Any.
Proof. apply typed_modify. by intros w [Hm Hh Hb]. Qed.

(** Memory. *)

Lemma typed_malloc size : typed (D := D) (malloc size) Any.
Proof.
  intros w a w' [Hm Hh Hb] E. split; [|done]. unfold malloc in E.
  destruct (w_mallocs w) as [|[] l]; injection E as <- <-; [..|by split].
  all: split; [done| |done]; apply map_Forall_insert_2; [|done].
  all: apply typed_replicate; by left.
Qed.

Lemma typed_free p : typed (D := D) (free p) Any.
Proof.
  intros w a w' [Hm Hh Hb] E. split; [|done]. unfold free in E. case_decide; [by simplify_eq|].
  destruct (w_heap w !! p); [|done]. injection E as <- <-. split; [done| |done].
  by apply map_Forall_delete.
Qed.

Lemma typed_load_obj p : typed (D := D) (load_obj p) obj_typed.
Proof.
  intros w a w' Hw. unfold load_obj. destruct (_ !! p) as [o|] eqn:E; [|done].
  intros [= <- <-]. split; [done|]. by apply (wt_heap _ Hw p).
Qed.

Lemma typed_store_obj p o : obj_typed o -> typed (D := D) (store_obj p o) Any.
Proof.
  intros Ho. apply typed_modify. intros w [Hm Hh Hb]. split; [done| |done].
  by apply map_Forall_insert_2.
Qed.

Lemma typed_load_bytes p off len : typed (D := D) (load_bytes p off len) (Forall mem_byte).
Proof.
  unfold load_bytes. eapply typed_bind; [apply typed_load_obj|]. intros [bs|pk] Ho.
  - case_decide; [|apply typed_stuck]. by apply typed_ret, typed_slice.
  - apply typed_stuck.
Qed.

Lemma typed_store_bytes p off data :
  Forall mem_byte data -> typed (D := D) (store_bytes p off data) Any.
Proof.
  intros Hd. unfold store_bytes. eapply typed_bind; [apply typed_load_obj|]. intros [bs|pk] Ho.
  - case_decide; [|apply typed_stuck]. by apply typed_store_obj, typed_splice.
  - apply typed_stuck.
Qed.

Lemma typed_load_pkt p : typed (D := D) (load_pkt p) pkt_typed.
Proof.
  unfold load_pkt. eapply typed_bind; [apply typed_load_obj|]. intros [bs|pk] Ho.
  - apply typed_stuck.
  - by apply typed_ret.
Qed.

Lemma typed_load_byte p off : typed (D := D) (load_byte p off) mem_byte.
Proof.
  unfold load_byte. eapply typed_bind; [apply typed_load_bytes|]. intros bs Hbs.
  eapply typed_mono; [apply typed_from_option|]. intros b Hb.
  destruct bs; [done|]. injection Hb as <-. by inversion Hbs.
Qed.
End rules.

(** What calls out of the library do to the state: whatever keeps it typed. *)
Class KeepTyped (D : Type) `{!ExtAlloc D, !BindingOps D, !StartOps D, !RxOps D, !ClockOps D} := {
  keep_alloc f n : typed (xa_alloc (D := D) f n) Any;
  keep_free f p : typed (xa_free (D := D) f p) Any;
  keep_msg_alloc f n ctx : typed (xa_msg_alloc (D := D) f n ctx) Any;
  keep_msg_free f p ctx : typed (xa_msg_free (D := D) f p ctx) Any;
  keep_tx f b pkt : typed (bop_tx (D := D) f b pkt) Any;
  keep_capture f pkt out data : typed (bop_capture (D := D) f pkt out data) Any;
  keep_start f b : typed (sop_start (D := D) f b) Any;
  keep_rx f src to tag data buf len :
    mem_byte src -> 0 <= tag < 8 -> is_sz len ->
    typed (rop_rx (D := D) f src to tag data buf len) Any;
  keep_ticks : typed (GetTickCount64 (D := D)) Any;
  keep_now f ctx : typed (cop_now (D := D) f ctx) Any;
}.

(** ** Automation *)

Ltac typed_destruct := repeat match goal with
  | H : bus_typed _ |- _ => destruct H | H : ctx_typed _ |- _ => destruct H
  | H : tag_typed _ |- _ => destruct H | H : mctp_typed _ |- _ => destruct H
  | H : binding_typed _ |- _ => destruct H | H : pkt_typed _ |- _ => destruct H
  end.

(** The goal is about constants. *)
Ltac some_variable := match goal with x : _ |- ?G => match G with context [x] => idtac end end.
Ltac no_variable := tryif some_variable then fail else idtac.

(** A value in its range, a list of bytes, a structure of such. *)
Ltac typed_val := intros; typed_destruct; simpl;
  repeat first
    [ done | exact I | assumption | apply sz_typed | apply seq_typed | apply fst_seq_range
    | apply fst_tag_range | apply u8_typed | apply mod8_range
    | apply (low_bits_typed _ 5); lia | apply (low_bits_typed _ 4); lia
    | apply typed_slice | apply typed_splice
    | apply typed_replicate | match goal with |- is_sz (if decide _ then _ else _) => case_decide end
    | match goal with |- Forall _ (_ :: _) => constructor end
    | match goal with |- Forall _ [] => constructor end
    | no_variable; first [apply const_byte; reflexivity | apply const_sz; reflexivity]
    | unfold is_sz in *; lia
    | split; simpl ].

Ltac typed_prim := fail.
Ltac typed_sub := fail.

Ltac typed_step := cbv beta;
  lazymatch goal with
  | |- typed (@mbind _ _ unit _ _ _) _ =>
      apply (typed_bind _ _ (Any (A := unit))); [|intros ? ?]
  | |- typed (_ ≫= _) _ => eapply typed_bind; [typed_sub|intros ? ?]
  | |- typed (mret _) ?R => tryif is_evar R then apply (typed_ret _ Any I) else apply typed_ret
  | |- typed (stuck _) _ => apply typed_stuck
  | |- typed (massert _) _ => first [apply typed_assert|eapply typed_mono; [apply typed_assert|]]
  | |- typed (gets _) _ => first [apply typed_gets|eapply typed_mono; [apply typed_gets|]]
  | |- typed (if decide _ then _ else _) _ => case_decide
  | |- typed (let _ := _ in _) _ => cbv zeta
  | |- typed (match ?x with _ => _ end) _ => destruct x
  | |- typed _ _ => typed_prim
  end.

Ltac typed_auto := repeat typed_step; try solve [typed_val].
Ltac typed_sub ::= solve [typed_auto].

Ltac typed_by H :=
  first [eapply H | eapply typed_mono; [eapply H|]]; try typeclasses eauto.

Ltac typed_base := lazymatch goal with
  | |- typed (mctp_get _) _ => typed_by @typed_mctp_get
  | |- typed (mctp_upd _ _) _ => typed_by @typed_mctp_upd
  | |- typed (get_bus _) _ => typed_by @typed_get_bus
  | |- typed (upd_bus _ _) _ => typed_by @typed_upd_bus
  | |- typed (get_ctx _) _ => typed_by @typed_get_ctx
  | |- typed (upd_ctx _ _) _ => typed_by @typed_upd_ctx
  | |- typed (get_binding _) _ => typed_by @typed_get_binding
  | |- typed (upd_binding _ _) _ => typed_by @typed_upd_binding
  | |- typed (emit _) _ => typed_by @typed_emit
  | |- typed (malloc _) _ => typed_by @typed_malloc
  | |- typed (free _) _ => typed_by @typed_free
  | |- typed (load_pkt _) _ => typed_by @typed_load_pkt
  | |- typed (load_byte _ _) _ => typed_by @typed_load_byte
  | |- typed (load_bytes _ _ _) _ => typed_by @typed_load_bytes
  | |- typed (store_bytes _ _ _) _ => typed_by @typed_store_bytes
  | |- typed (load_obj _) _ => typed_by @typed_load_obj
  | |- typed (store_obj _ _) _ => typed_by @typed_store_obj
  | |- typed (from_option_or _ _) _ => typed_by @typed_from_option
  | |- typed (xa_alloc _ _) _ => typed_by @keep_alloc
  | |- typed (xa_free _ _) _ => typed_by @keep_free
  | |- typed (xa_msg_alloc _ _ _) _ => typed_by @keep_msg_alloc
  | |- typed (xa_msg_free _ _ _) _ => typed_by @keep_msg_free
  | |- typed (bop_tx _ _ _) _ => typed_by @keep_tx
  | |- typed (bop_capture _ _ _ _) _ => typed_by @keep_capture
  | |- typed (sop_start _ _) _ => typed_by @keep_start
  | |- typed (rop_rx _ _ _ _ _ _ _) _ => typed_by @keep_rx
  | |- typed (GetTickCount64) _ => typed_by @keep_ticks
  | |- typed (cop_now _ _) _ => typed_by @keep_now
  end.

Ltac typed_prim ::= typed_base.

Section memory.
Context {D : Type} `{!ExtAlloc D, !BindingOps D, !StartOps D, !RxOps D, !ClockOps D, !KeepTyped D}.

(** ** Allocation *)

Lemma typed_alloc n : typed (D := D) (__mctp_alloc n) Any.
Proof. unfold __mctp_alloc. typed_auto. Qed.

Lemma typed_mctp_free p : typed (D := D) (__mctp_free p) Any.
Proof. unfold __mctp_free. typed_auto. Qed.

Lemma typed_msg_alloc n mctp : typed (D := D) (__mctp_msg_alloc n mctp) Any.
Proof.
  unfold __mctp_msg_alloc, mctp_get_alloc_ctx, default_msg_malloc.
  typed_auto. by eapply typed_bind; [apply typed_alloc|intros; apply typed_ret].
Qed.

Lemma typed_msg_free p mctp : typed (D := D) (__mctp_msg_free p mctp) Any.
Proof.
  unfold __mctp_msg_free, mctp_get_alloc_ctx, default_msg_free.
  typed_auto. typed_by typed_mctp_free.
Qed.

(** ** Packet buffers *)

Lemma typed_pktbuf_init binding storage : typed (D := D) (mctp_pktbuf_init binding storage) Any.
Proof.
  unfold mctp_pktbuf_init. typed_auto. unfold binding_buf_size.
  destruct a1 as [bs|p]; simpl in *; [case_decide; [|done]; simplify_eq|simplify_eq].
  - typed_val. by apply Forall_drop.
  - typed_val.
Qed.
End memory.

Ltac typed_memory := lazymatch goal with
  | |- typed (__mctp_alloc _) _ => typed_by @typed_alloc
  | |- typed (__mctp_free _) _ => typed_by @typed_mctp_free
  | |- typed (__mctp_msg_alloc _ _) _ => typed_by @typed_msg_alloc
  | |- typed (__mctp_msg_free _ _) _ => typed_by @typed_msg_free
  | |- typed (mctp_pktbuf_init _ _) _ => typed_by @typed_pktbuf_init
  | |- _ => typed_base
  end.
Ltac typed_prim ::= typed_memory.

Section buffers.
Context {D : Type} `{!ExtAlloc D, !BindingOps D, !StartOps D, !RxOps D, !ClockOps D, !KeepTyped D}.

Lemma typed_pktbuf_alloc binding len : typed (D := D) (mctp_pktbuf_alloc binding len) Any.
Proof. unfold mctp_pktbuf_alloc. typed_auto. Qed.

Lemma typed_pktbuf_free pkt : typed (D := D) (mctp_pktbuf_free pkt) Any.
Proof. unfold mctp_pktbuf_free. typed_auto. Qed.

Lemma typed_alloc_start pkt size : typed (D := D) (mctp_pktbuf_alloc_start pkt size) Any.
Proof. unfold mctp_pktbuf_alloc_start. typed_auto. Qed.

Lemma typed_alloc_end pkt size : typed (D := D) (mctp_pktbuf_alloc_end pkt size) Any.
Proof. unfold mctp_pktbuf_alloc_end. typed_auto. Qed.

Lemma typed_pkt_read pkt off len : typed (D := D) (pkt_read pkt off len) (Forall mem_byte).
Proof. unfold pkt_read. typed_auto. Qed.

Lemma typed_pkt_write pkt off bs :
  Forall mem_byte bs -> typed (D := D) (pkt_write pkt off bs) Any.
Proof. intros Hbs. unfold pkt_write. typed_auto. Qed.

Lemma typed_push pkt data len :
  Forall mem_byte data -> typed (D := D) (mctp_pktbuf_push pkt data len) Any.
Proof.
  intros Hd. unfold mctp_pktbuf_push. typed_auto. typed_by typed_pkt_write. typed_val.
Qed.

Lemma typed_pop pkt len : typed (D := D) (mctp_pktbuf_pop pkt len) Any.
Proof. unfold mctp_pktbuf_pop. typed_auto. Qed.

Definition hdr_typed (h : mctp_hdr) : Prop := mem_byte (src h) /\ mem_byte (dest h).

Lemma typed_load_hdr pkt : typed (D := D) (load_hdr pkt) hdr_typed.
Proof.
  unfold load_hdr. typed_step. eapply typed_bind; [apply typed_pkt_read|intros bs Hbs].
  eapply typed_mono; [apply typed_from_option|]. intros h Hh.
  destruct bs as [|v [|d [|s [|f []]]]]; simplify_eq/=.
  rewrite !Forall_cons in Hbs. split; apply Hbs.
Qed.

(** ** Reassembly contexts *)

Lemma typed_msg_dup rd len mctp :
  typed rd (Forall mem_byte) -> typed (D := D) (mctp_msg_dup rd len mctp) Any.
Proof. intros Hrd. unfold mctp_msg_dup. typed_auto. Qed.

Lemma typed_ctx_lookup mctp s d t : typed (D := D) (mctp_msg_ctx_lookup mctp s d t) Any.
Proof. unfold mctp_msg_ctx_lookup. typed_auto. Qed.

Lemma typed_ctx_create mctp s d t :
  mem_byte s -> mem_byte d -> 0 <= t < 8 -> typed (D := D) (mctp_msg_ctx_create mctp s d t) Any.
Proof. intros. unfold mctp_msg_ctx_create. typed_auto. Qed.

Lemma typed_ctx_drop bus ctx : typed (D := D) (mctp_msg_ctx_drop bus ctx) Any.
Proof. unfold mctp_msg_ctx_drop. typed_auto. Qed.

Lemma typed_ctx_reset ctx : typed (D := D) (mctp_msg_ctx_reset ctx) Any.
Proof. unfold mctp_msg_ctx_reset. typed_auto. Qed.

Lemma typed_add_pkt ctx pkt : typed (D := D) (mctp_msg_ctx_add_pkt ctx pkt) Any.
Proof. unfold mctp_msg_ctx_add_pkt. typed_auto.
  eapply typed_bind; [apply typed_pkt_read|intros bs Hbs]. typed_auto. Qed.
End buffers.

Ltac typed_buffers := lazymatch goal with
  | |- typed (mctp_pktbuf_alloc _ _) _ => typed_by @typed_pktbuf_alloc
  | |- typed (mctp_pktbuf_free _) _ => typed_by @typed_pktbuf_free
  | |- typed (pkt_read _ _ _) _ => typed_by @typed_pkt_read
  | |- typed (pkt_write _ _ _) _ => typed_by @typed_pkt_write
  | |- typed (mctp_pktbuf_push _ _ _) _ => typed_by @typed_push
  | |- typed (load_hdr _) _ => typed_by @typed_load_hdr
  | |- typed (mctp_msg_dup _ _ _) _ => typed_by @typed_msg_dup
  | |- typed (mctp_msg_ctx_lookup _ _ _ _) _ => typed_by @typed_ctx_lookup
  | |- typed (mctp_msg_ctx_create _ _ _ _) _ => typed_by @typed_ctx_create
  | |- typed (mctp_msg_ctx_drop _ _) _ => typed_by @typed_ctx_drop
  | |- typed (mctp_msg_ctx_reset _) _ => typed_by @typed_ctx_reset
  | |- typed (mctp_msg_ctx_add_pkt _ _) _ => typed_by @typed_add_pkt
  | |- _ => typed_memory
  end.
Ltac typed_prim ::= typed_buffers.

Section tags.
Context {D : Type} `{!ExtAlloc D, !BindingOps D, !StartOps D, !RxOps D, !ClockOps D, !KeepTyped D}.

(** ** Tags *)

Lemma typed_now mctp : typed (D := D) (mctp_now mctp) Any.
Proof. unfold mctp_now, call_target, call_now, mctp_default_now. typed_auto. Qed.

Lemma typed_set_now_op mctp f ctx : typed (D := D) (mctp_set_now_op mctp f ctx) Any.
Proof. unfold mctp_set_now_op. typed_auto. Qed.

Definition alloc_tag_typed (p : Z * option Z) : Prop := forall t, p.2 = Some t -> 0 <= t < 8.

Lemma typed_alloc_tag mctp local remote :
  mem_byte local -> mem_byte remote ->
  typed (D := D) (mctp_alloc_tag mctp local remote) alloc_tag_typed.
Proof.
  intros Hl Hr. unfold mctp_alloc_tag. typed_step; [typed_auto|].
  eapply typed_bind; [apply typed_now|intros now _]. typed_step. destruct (scan_tags _ _ _ _ _ _ _) as [used [spare|]]; [|by typed_step].
  destruct (pick_tag _ _) as [tag|] eqn:Ht; [|by typed_step]. apply pick_tag_Some in Ht as [Ht _].
  unfold upd_req_tag. typed_step; [|typed_step; [|typed_step]].
  - typed_step. intros m []. split; try done; simpl; [by rewrite length_alter|].
    apply Forall_alter; [done|]. intros r _ _. by split; try apply sz_typed.
  - typed_auto.
  - by intros t [= <-].
Qed.

Lemma typed_dealloc_in l r t rs : Forall tag_typed rs -> Forall tag_typed (dealloc_in l r t rs).
Proof.
  intros H. unfold dealloc_in. destruct (list_find _ _) as [[i x]|]; [|done].
  apply Forall_insert; [done|]. typed_val.
Qed.

Lemma typed_dealloc_tag bus l r t : typed (D := D) (mctp_dealloc_tag bus l r t) Any.
Proof.
  unfold mctp_dealloc_tag. typed_auto. typed_val; [|by apply typed_dealloc_in].
  unfold dealloc_in. destruct (list_find _ _) as [[i x]|]; [|done]. by rewrite length_insert.
Qed.
End tags.

Ltac typed_tags := lazymatch goal with
  | |- typed (mctp_now _) _ => typed_by @typed_now
  | |- typed (mctp_alloc_tag _ _ _) _ => typed_by @typed_alloc_tag
  | |- typed (mctp_dealloc_tag _ _ _ _) _ => typed_by @typed_dealloc_tag
  | |- _ => typed_buffers
  end.
Ltac typed_prim ::= typed_tags.

Section tx.
Context {D : Type} `{!ExtAlloc D, !BindingOps D, !StartOps D, !RxOps D, !ClockOps D, !KeepTyped D}.

(** ** Transmission *)

Lemma typed_call_capture mctp pkt out : typed (D := D) (call_capture mctp pkt out) Any.
Proof. unfold call_capture. typed_auto. Qed.

Lemma typed_packet_tx bus pkt : typed (D := D) (mctp_packet_tx bus pkt) Any.
Proof. unfold mctp_packet_tx, call_target. typed_auto. apply typed_call_capture. Qed.

Lemma typed_next_tx_pkt bus : typed (D := D) (mctp_next_tx_pkt bus) Any.
Proof.
  unfold mctp_next_tx_pkt, MCTP_BODY_SIZE, bytes_of_hdr, tx_flags_seq_tag. typed_auto.
Qed.

Lemma typed_tx_complete bus : typed (D := D) (mctp_tx_complete bus) Any.
Proof. unfold mctp_tx_complete. typed_auto. Qed.

Lemma typed_send_loop n bus : typed (D := D) (send_tx_queue_loop n bus) Any.
Proof.
  induction n as [|n IH]; simpl; typed_auto.
  eapply typed_bind; [apply typed_next_tx_pkt|intros pkt _].
  eapply typed_bind; [apply typed_packet_tx|intros rc _].
  typed_auto; apply typed_tx_complete.
Qed.

Lemma typed_send_queue bus : typed (D := D) (mctp_send_tx_queue bus) Any.
Proof. unfold mctp_send_tx_queue. typed_auto. apply typed_send_loop. Qed.

Lemma typed_set_tx_enabled b e : typed (D := D) (mctp_binding_set_tx_enabled b e) Any.
Proof.
  unfold mctp_binding_set_tx_enabled, deref_bus. destruct e; cbn [negb]; typed_auto.
  apply typed_send_queue.
Qed.

Lemma typed_tx_on_bus bus s d to tag msg len :
  mem_byte s -> mem_byte d -> is_sz len ->
  typed (D := D) (mctp_message_tx_on_bus bus s d to tag msg len) Any.
Proof.
  intros Hs Hd Hl. unfold mctp_message_tx_on_bus, tx_on_bus_err. typed_auto.
  - assert (0 <= tag < 8) by (rewrite <- H1; apply (land_ones_range tag 3); lia). typed_val.
  - apply typed_send_queue.
Qed.

Lemma typed_find_bus mctp eid : typed (D := D) (find_bus_for_eid mctp eid) Any.
Proof. unfold find_bus_for_eid. typed_auto. Qed.

Lemma typed_tx_alloced mctp eid to tag msg len :
  mem_byte eid -> is_sz len -> typed (D := D) (mctp_message_tx_alloced mctp eid to tag msg len) Any.
Proof.
  intros He Hl. unfold mctp_message_tx_alloced. typed_auto.
  eapply typed_bind; [apply typed_find_bus|intros [bus|] _]; typed_auto.
  apply typed_tx_on_bus; typed_val.
Qed.

Lemma typed_message_tx mctp eid to tag msg len :
  mem_byte eid -> is_sz len -> Forall mem_byte msg ->
  typed (D := D) (mctp_message_tx mctp eid to tag msg len) Any.
Proof.
  intros He Hl Hm. unfold mctp_message_tx. typed_auto; by apply typed_tx_alloced.
Qed.

Lemma typed_tx_request mctp eid msg len want :
  mem_byte eid -> is_sz len -> typed (D := D) (mctp_message_tx_request mctp eid msg len want) Any.
Proof.
  intros He Hl. unfold mctp_message_tx_request.
  eapply typed_bind; [apply typed_find_bus|intros [bus|] _]; typed_auto.
  eapply typed_bind; [by apply typed_tx_alloced|intros; typed_auto].
Qed.

Lemma typed_is_tx_ready mctp eid : typed (D := D) (mctp_is_tx_ready mctp eid) Any.
Proof.
  unfold mctp_is_tx_ready. eapply typed_bind; [apply typed_find_bus|intros [bus|] _]; typed_auto.
Qed.
End tx.

Ltac typed_sends := lazymatch goal with
  | |- typed (call_capture _ _ _) _ => typed_by @typed_call_capture
  | |- typed (mctp_binding_set_tx_enabled _ _) _ => typed_by @typed_set_tx_enabled
  | |- typed (mctp_message_tx_on_bus _ _ _ _ _ _ _) _ => typed_by @typed_tx_on_bus
  | |- typed (mctp_message_tx_alloced _ _ _ _ _ _) _ => typed_by @typed_tx_alloced
  | |- typed (mctp_message_tx _ _ _ _ _ _) _ => typed_by @typed_message_tx
  | |- _ => typed_tags
  end.
Ltac typed_prim ::= typed_sends.

Section control_prims.
Context {D : Type} `{!ExtAlloc D, !BindingOps D, !StartOps D, !RxOps D, !ClockOps D, !KeepTyped D}.

(** ** The control handler *)

Lemma typed_fill_resp req resp : typed (D := D) (fill_resp req resp) Any.
Proof. unfold fill_resp. typed_auto. Qed.

End control_prims.

Ltac typed_control := lazymatch goal with
  | |- typed (fill_resp _ _) _ => typed_by @typed_fill_resp
  | |- _ => typed_sends
  end.
Ltac typed_prim ::= typed_control.

Section control.
Context {D : Type} `{!ExtAlloc D, !BindingOps D, !StartOps D, !RxOps D, !ClockOps D, !KeepTyped D}.

Lemma typed_bus_set_eid b eid : mem_byte eid -> typed (D := D) (mctp_bus_set_eid b eid) Any.
Proof. intros He. unfold mctp_bus_set_eid, deref_bus. typed_auto. Qed.

Lemma typed_reply_error mctp s tag hdr cc :
  mem_byte s -> mem_byte cc -> typed (D := D) (reply_error mctp s tag hdr cc) Any.
Proof.
  intros Hs Hc. unfold reply_error. typed_auto.
Qed.

Lemma typed_set_endpoint_id bus s tag data len :
  mem_byte s -> typed (D := D) (mctp_ctrl_set_endpoint_id bus s tag data len) mem_byte.
Proof.
  intros Hs. unfold mctp_ctrl_set_endpoint_id. typed_auto.
  eapply typed_bind; [by apply typed_bus_set_eid|intros]. typed_auto.
Qed.

Lemma typed_get_endpoint_id bus s tag data len :
  mem_byte s -> typed (D := D) (mctp_ctrl_get_endpoint_id bus s tag data len) mem_byte.
Proof.
  intros Hs. unfold mctp_ctrl_get_endpoint_id. typed_auto.
Qed.

Lemma typed_get_version bus s tag data len :
  mem_byte s -> typed (D := D) (mctp_ctrl_get_version bus s tag data len) mem_byte.
Proof.
  intros Hs. unfold mctp_ctrl_get_version. typed_auto. unfold MCTP_PROTOCOL_VERSIONS. typed_val.
Qed.

Lemma typed_get_types bus s tag data len :
  mem_byte s -> typed (D := D) (mctp_ctrl_get_types bus s tag data len) mem_byte.
Proof.
  intros Hs. unfold mctp_ctrl_get_types. typed_auto.
Qed.

Lemma typed_control_handler bus s to tag data len :
  mem_byte s -> typed (D := D) (mctp_control_handler bus s to tag data len) Any.
Proof.
  intros Hs. unfold mctp_control_handler. destruct to; cbn [negb]; typed_auto.
  eapply (typed_bind _ _ mem_byte).
  - unfold ctrl_dispatch. repeat case_decide.
    + by apply typed_set_endpoint_id.
    + by apply typed_get_endpoint_id.
    + by apply typed_get_version.
    + by apply typed_get_types.
    + typed_auto.
  - intros cc Hcc. typed_auto. by apply typed_reply_error.
Qed.

Lemma typed_add_type mctp ty : mem_byte ty -> typed (D := D) (mctp_control_add_type mctp ty) Any.
Proof.
  intros Ht. unfold mctp_control_add_type. typed_auto.
  assert (Hok : types_ok (m_control a)) by apply H. intros m []. split; try done; simpl.
  - apply (type_added_ok ty (m_control a)); done.
  - apply Forall_insert; [apply H|done].
Qed.

Lemma typed_remove_loop n i ty c :
  Forall mem_byte (ct_msg_types c) -> Forall mem_byte (ct_msg_types (remove_type_loop n i ty c)).
Proof.
  revert i c. induction n as [|n IH]; intros i c Hc; [done|]. simpl. case_decide; [|done].
  case_decide; apply IH; [|done]. simpl. apply typed_splice; [by apply typed_slice|done].
Qed.

Lemma typed_remove_type mctp ty : typed (D := D) (mctp_control_remove_type mctp ty) Any.
Proof.
  unfold mctp_control_remove_type. apply typed_mctp_upd. intros m []. split; try done; simpl.
  - by apply remove_type_ok.
  - by apply typed_remove_loop.
Qed.
End control.

Ltac typed_handler := lazymatch goal with
  | |- typed (mctp_control_handler _ _ _ _ _ _) _ => typed_by @typed_control_handler
  | |- typed (mctp_control_add_type _ _) _ => typed_by @typed_add_type
  | |- _ => typed_control
  end.
Ltac typed_prim ::= typed_handler.

Section rx.
Context {D : Type} `{!ExtAlloc D, !BindingOps D, !StartOps D, !RxOps D, !ClockOps D, !KeepTyped D}.

(** ** Reception *)

Lemma typed_handle_msg bus s tag to buf len :
  mem_byte s -> 0 <= tag < 8 -> is_sz len ->
  typed (D := D) (mctp_ctrl_handle_msg bus s tag to buf len) Any.
Proof. intros Hs Ht Hl. unfold mctp_ctrl_handle_msg. typed_auto. Qed.

Lemma typed_is_request buf : typed (D := D) (mctp_ctrl_cmd_is_request buf) Any.
Proof. unfold mctp_ctrl_cmd_is_request. typed_auto. Qed.

Lemma typed_message_rx mctp s to tag buf len :
  mem_byte s -> 0 <= tag < 8 -> is_sz len ->
  typed (D := D) (call_message_rx mctp s to tag buf len) Any.
Proof. intros Hs Ht Hl. unfold call_message_rx. typed_auto. Qed.

Lemma typed_bridge_loop n i mctp bus s d to tag buf len :
  mem_byte s -> mem_byte d -> is_sz len ->
  typed (D := D) (bridge_loop n i mctp bus s d to tag buf len) Any.
Proof.
  intros Hs Hd Hl. revert i. induction n as [|n IH]; intros i; simpl; typed_auto; apply IH.
Qed.

Lemma typed_rx_local mctp bus s d to tag buf len :
  mem_byte s -> 0 <= tag < 8 -> is_sz len ->
  typed (D := D) (rx_local mctp bus s d to tag buf len) Any.
Proof.
  intros Hs Ht Hl. unfold rx_local. typed_step; [destruct to; typed_auto|].
  eapply (typed_bind _ _ Any).
  - case_decide; [|typed_auto]. eapply typed_bind; [apply typed_is_request|intros [] _].
    + by apply typed_handle_msg.
    + typed_auto.
  - intros [] _; typed_auto. by apply typed_message_rx.
Qed.

Lemma typed_rx mctp bus s d to tag buf len :
  mem_byte s -> mem_byte d -> 0 <= tag < 8 -> is_sz len ->
  typed (D := D) (mctp_rx mctp bus s d to tag buf len) Any.
Proof.
  intros Hs Hd Ht Hl. unfold mctp_rx. typed_auto. eapply (typed_bind _ _ Any).
  - case_decide; [by apply typed_rx_local|typed_auto].
  - intros [] _; typed_auto. by apply typed_bridge_loop.
Qed.

Lemma typed_rx_single mctp bus pkt h to tag :
  hdr_typed h -> 0 <= tag < 8 -> typed (D := D) (rx_single mctp bus pkt h to tag) Any.
Proof.
  intros [Hs Hd] Ht. unfold rx_single. typed_auto. apply typed_rx; typed_val.
Qed.

Lemma typed_rx_start mctp bus pkt h tag seq :
  hdr_typed h -> 0 <= tag < 8 -> 0 <= seq < 4 ->
  typed (D := D) (rx_start mctp bus pkt h tag seq) Any.
Proof.
  intros [Hs Hd] Ht Hq. unfold rx_start. typed_step. eapply (typed_bind _ _ Any).
  - destruct a as [c|]; typed_auto.
  - intros [c|] _; typed_auto.
Qed.

Lemma typed_rx_end mctp bus pkt h to tag seq :
  hdr_typed h -> 0 <= tag < 8 -> typed (D := D) (rx_end mctp bus pkt h to tag seq) Any.
Proof.
  intros [Hs Hd] Ht. unfold rx_end. typed_auto. typed_destruct. by apply typed_rx.
Qed.

Lemma typed_rx_middle mctp bus pkt h tag seq :
  0 <= seq < 4 -> typed (D := D) (rx_middle mctp bus pkt h tag seq) Any.
Proof. intros Hq. unfold rx_middle. typed_auto. Qed.

Lemma typed_bus_rx binding pkt : typed (D := D) (mctp_bus_rx binding pkt) Any.
Proof.
  unfold mctp_bus_rx, deref_bus. typed_auto.
  - apply typed_rx_single; [done|apply fst_tag_range].
  - apply typed_rx_start; [done|apply fst_tag_range|apply fst_seq_range].
  - apply typed_rx_end; [done|apply fst_tag_range].
  - apply typed_rx_middle, fst_seq_range.
Qed.

(** ** Life cycle *)

Lemma typed_bus_zero : bus_typed zero_bus.
Proof. typed_val. Qed.

Lemma typed_types_zero : types_ok zero_control.
Proof. split; [done|simpl; unfold MCTP_CONTROL_MAX_TYPES; lia|constructor]. Qed.

Lemma typed_mctp_zero : mctp_typed zero_mctp.
Proof.
  split; cbn [zero_mctp m_n_busses m_busses m_msg_ctxs m_req_tags m_tag_round_robin
    m_max_message_size m_control].
  all: try apply length_replicate. all: try lia.
  - apply Forall_replicate, typed_bus_zero.
  - apply Forall_replicate. typed_val.
  - apply Forall_replicate. typed_val.
  - by apply const_sz.
  - apply typed_types_zero.
  - apply typed_replicate. by apply const_byte.
Qed.

Lemma typed_setup mctp size : typed (D := D) (mctp_setup mctp size) Any.
Proof.
  unfold mctp_setup. typed_auto. intros _ _. apply typed_mctp_zero.
Qed.

Lemma typed_init : typed (D := D) mctp_init Any.
Proof.
  unfold mctp_init. typed_auto. eapply typed_bind; [apply typed_setup|intros]. typed_auto.
Qed.

Lemma typed_bus_destroy bus mctp : typed (D := D) (mctp_bus_destroy bus mctp) Any.
Proof. unfold mctp_bus_destroy. typed_auto. Qed.

Lemma typed_cleanup_ctxs cs mctp : typed (D := D) (cleanup_ctxs cs mctp) Any.
Proof. induction cs as [|c cs IH]; simpl; typed_auto. Qed.

Lemma typed_cleanup_busses n mctp : typed (D := D) (cleanup_busses n mctp) Any.
Proof.
  induction n as [|n IH]; simpl; [typed_auto|]. typed_step. rename a into m.
  destruct (decide (0 <= m_n_busses m)) as [H0|H0].
  - typed_auto. apply typed_bus_destroy.
  - intros w a w' _. rewrite (decide_False (P := m_n_busses m = 0)), decide_False by lia.
    unfold mctp_upd. by case_decide.
Qed.

Lemma typed_cleanup mctp : typed (D := D) (mctp_cleanup mctp) Any.
Proof. unfold mctp_cleanup. typed_auto; [apply typed_cleanup_ctxs|apply typed_cleanup_busses]. Qed.

Lemma typed_destroy mctp : typed (D := D) (mctp_destroy mctp) Any.
Proof. unfold mctp_destroy. typed_auto. apply typed_cleanup. Qed.

Lemma typed_register_bus mctp b eid :
  mem_byte eid -> typed (D := D) (mctp_register_bus mctp b eid) Any.
Proof.
  intros He. unfold mctp_register_bus, set_bus. typed_auto.
  all: intros; try apply typed_bus_zero; typed_destruct; split; try done; intros; simplify_eq/=; lia.
Qed.

Lemma typed_unregister_bus mctp b : typed (D := D) (mctp_unregister_bus mctp b) Any.
Proof. unfold mctp_unregister_bus. typed_auto. Qed.

Lemma typed_bridge_busses mctp b1 b2 : typed (D := D) (mctp_bridge_busses mctp b1 b2) Any.
Proof.
  unfold mctp_bridge_busses, set_bus, call_start. typed_auto.
  all: intros; try apply typed_bus_zero; typed_destruct; split; try done; intros; simplify_eq/=; lia.
Qed.
End rx.

(** ** The API *)

(** A call of a function of libmctp.h. *)
Inductive api_call :=
  | Call_mctp_init
  | Call_mctp_setup (mctp struct_mctp_size : Z)
  | Call_mctp_cleanup (mctp : Z)
  | Call_mctp_destroy (mctp : Z)
  | Call_mctp_set_max_message_size (mctp message_size : Z)
  | Call_mctp_set_capture_handler (mctp : Z) (fn : fnptr) (user : Z)
  | Call_mctp_register_bus (mctp binding eid : Z)
  | Call_mctp_unregister_bus (mctp binding : Z)
  | Call_mctp_bus_set_eid (binding eid : Z)
  | Call_mctp_bridge_busses (mctp b1 b2 : Z)
  | Call_mctp_set_rx_all (mctp : Z) (fn : fnptr) (data : Z)
  | Call_mctp_message_tx_alloced (mctp eid : Z) (tag_owner : bool) (msg_tag msg msg_len : Z)
  | Call_mctp_message_tx (mctp eid : Z) (tag_owner : bool) (msg_tag : Z) (msg : list Z) (msg_len : Z)
  | Call_mctp_message_tx_request (mctp eid msg msg_len : Z) (want : bool)
  | Call_mctp_is_tx_ready (mctp eid : Z)
  | Call_mctp_binding_set_tx_enabled (binding : Z) (enable : bool)
  | Call_mctp_bus_rx (binding pkt : Z)
  | Call_mctp_set_alloc_ops (m_alloc m_free m_msg_alloc m_msg_free : fnptr)
  | Call_mctp_set_alloc_ctx (mctp ctx : Z)
  | Call_mctp_set_now_op (mctp : Z) (now : fnptr) (ctx : Z)
  | Call_mctp_now (mctp : Z)
  | Call_mctp_control_add_type (mctp msg_type : Z)
  | Call_mctp_control_remove_type (mctp msg_type : Z)
  | Call_mctp_pktbuf_alloc (binding len : Z)
  | Call_mctp_pktbuf_init (binding storage : Z)
  | Call_mctp_pktbuf_free (pkt : Z)
  | Call_mctp_pktbuf_alloc_start (pkt size : Z)
  | Call_mctp_pktbuf_alloc_end (pkt size : Z)
  | Call_mctp_pktbuf_push (pkt : Z) (data : list Z) (len : Z)
  | Call_mctp_pktbuf_pop (pkt len : Z).

(** The arguments are values of their C types. *)
Definition call_typed (c : api_call) : Prop :=
  match c with
  | Call_mctp_set_max_message_size _ n => is_sz n
  | Call_mctp_register_bus _ _ eid | Call_mctp_bus_set_eid _ eid => mem_byte eid
  | Call_mctp_message_tx_alloced _ eid _ _ _ len => mem_byte eid /\ is_sz len
  | Call_mctp_message_tx _ eid _ _ msg len => mem_byte eid /\ is_sz len /\ Forall mem_byte msg
  | Call_mctp_message_tx_request _ eid _ len _ => mem_byte eid /\ is_sz len
  | Call_mctp_control_add_type _ ty => mem_byte ty
  | Call_mctp_pktbuf_push _ data _ => Forall mem_byte data
  | _ => True
  end.

Section api.
Context {D : Type} `{!ExtAlloc D, !BindingOps D, !StartOps D, !RxOps D, !ClockOps D}.
Local Abbreviation IO := (M (world D)).

(** A call, its result dropped. *)
Definition run_call (c : api_call) : IO unit :=
  match c with
  | Call_mctp_init => mctp_init;; mret tt
  | Call_mctp_setup m n => mctp_setup m n;; mret tt
  | Call_mctp_cleanup m => mctp_cleanup m
  | Call_mctp_destroy m => mctp_destroy m
  | Call_mctp_set_max_message_size m n => mctp_set_max_message_size m n
  | Call_mctp_set_capture_handler m f u => mctp_set_capture_handler m f u
  | Call_mctp_register_bus m b e => mctp_register_bus m b e;; mret tt
  | Call_mctp_unregister_bus m b => mctp_unregister_bus m b
  | Call_mctp_bus_set_eid b e => mctp_bus_set_eid b e;; mret tt
  | Call_mctp_bridge_busses m b1 b2 => mctp_bridge_busses m b1 b2;; mret tt
  | Call_mctp_set_rx_all m f d => mctp_set_rx_all m f d;; mret tt
  | Call_mctp_message_tx_alloced m e o t p n => mctp_message_tx_alloced m e o t p n;; mret tt
  | Call_mctp_message_tx m e o t bs n => mctp_message_tx m e o t bs n;; mret tt
  | Call_mctp_message_tx_request m e p n want => mctp_message_tx_request m e p n want;; mret tt
  | Call_mctp_is_tx_ready m e => mctp_is_tx_ready m e;; mret tt
  | Call_mctp_binding_set_tx_enabled b e => mctp_binding_set_tx_enabled b e
  | Call_mctp_bus_rx b p => mctp_bus_rx b p
  | Call_mctp_set_alloc_ops f1 f2 f3 f4 => mctp_set_alloc_ops f1 f2 f3 f4
  | Call_mctp_set_alloc_ctx m x => mctp_set_alloc_ctx m x
  | Call_mctp_set_now_op m f x => mctp_set_now_op m f x
  | Call_mctp_now m => mctp_now m;; mret tt
  | Call_mctp_control_add_type m ty => mctp_control_add_type m ty;; mret tt
  | Call_mctp_control_remove_type m ty => mctp_control_remove_type m ty
  | Call_mctp_pktbuf_alloc b n => mctp_pktbuf_alloc b n;; mret tt
  | Call_mctp_pktbuf_init b s => mctp_pktbuf_init b s;; mret tt
  | Call_mctp_pktbuf_free p => mctp_pktbuf_free p
  | Call_mctp_pktbuf_alloc_start p n => mctp_pktbuf_alloc_start p n;; mret tt
  | Call_mctp_pktbuf_alloc_end p n => mctp_pktbuf_alloc_end p n;; mret tt
  | Call_mctp_pktbuf_push p bs n => mctp_pktbuf_push p bs n;; mret tt
  | Call_mctp_pktbuf_pop p n => mctp_pktbuf_pop p n;; mret tt
  end.

Fixpoint run_calls (cs : list api_call) : IO unit :=
  match cs with [] => mret tt | c :: cs => run_call c;; run_calls cs end.

Context `{!KeepTyped D}.

Lemma typed_drop {A} (m : IO A) R : typed m R -> typed (m;; mret tt) Any.
Proof. intros Hm. eapply typed_bind; [exact Hm|intros]. by apply typed_ret. Qed.

Lemma typed_call c : call_typed c -> typed (run_call c) Any.
Proof.
  destruct c; cbn [run_call call_typed]; intros Hc; try (eapply typed_drop).
  - apply typed_init.
  - apply typed_setup.
  - apply typed_cleanup.
  - apply typed_destroy.
  - unfold mctp_set_max_message_size. typed_auto.
  - unfold mctp_set_capture_handler. typed_auto.
  - by apply typed_register_bus.
  - apply typed_unregister_bus.
  - by apply typed_bus_set_eid.
  - apply typed_bridge_busses.
  - unfold mctp_set_rx_all. typed_auto.
  - apply typed_tx_alloced; apply Hc.
  - apply typed_message_tx; apply Hc.
  - apply typed_tx_request; apply Hc.
  - apply typed_is_tx_ready.
  - apply typed_set_tx_enabled.
  - apply typed_bus_rx.
  - apply typed_modify. by intros w [].
  - unfold mctp_set_alloc_ctx. typed_auto.
  - apply typed_set_now_op.
  - apply typed_now.
  - by apply typed_add_type.
  - apply typed_remove_type.
  - apply typed_pktbuf_alloc.
  - apply typed_pktbuf_init.
  - apply typed_pktbuf_free.
  - apply typed_alloc_start.
  - apply typed_alloc_end.
  - by apply typed_push.
  - apply typed_pop.
Qed.

Lemma typed_calls cs : Forall call_typed cs -> typed (run_calls cs) Any.
Proof.
  induction 1 as [|c cs Hc Hcs IH]; simpl; [by apply typed_ret|].
  eapply typed_bind; [by apply typed_call|auto].
Qed.

(** C12: Type soundness of the API.  From a state in which every field has a value
    of its C type and range, every sequence of API calls with arguments of their
    types, packets received included, leads to such a state, if it returns: sequence numbers
    stay below 4, tags below 8, sizes within [size_t], the arrays keep their
    lengths, the list of control types stays a duplicate-free list of at most
    ten, no binding points to a bus that does not exist.  The callbacks may do
    anything that itself keeps states typed: they may call back into the stack. *)
Theorem api_keeps_types cs w w' :
  world_typed w -> Forall call_typed cs -> run_calls cs w = Ok tt w' -> world_typed w'.
Proof. intros Hw Hcs Hrun. by destruct (typed_calls cs Hcs w tt w' Hw Hrun). Qed.
End api.
