(* ===== verification/Frame.v ===== *)
(** * What the library does to its environment

    The core keeps its state in the [struct mctp], the bindings and the heap; the
    environment (devices, locks, the application) it changes through the
    callbacks only.  So whatever relation the callbacks keep between the
    environment before and after, every call of the API keeps. *)

From S2P Require Import Prelude State Alloc Pktbuf Reasm Tags Tx Control Rx Bus Typed.

(** When the computation returns, the environment has changed as [R] says. *)
Definition keeps {D A} (R : D -> D -> Prop) (m : M (world D) A) : Prop :=
  forall w a w', m w = Ok a w' -> R (w_dev w) (w_dev w').

(** What the callbacks keep. *)
Class KeepEnv (D : Type) `{!ExtAlloc D, !BindingOps D, !StartOps D, !RxOps D, !ClockOps D}
    (R : D -> D -> Prop) := {
  env_pre :: PreOrder R;
  env_alloc f n : keeps R (xa_alloc f n);
  env_free f p : keeps R (xa_free f p);
  env_msg_alloc f n ctx : keeps R (xa_msg_alloc f n ctx);
  env_msg_free f p ctx : keeps R (xa_msg_free f p ctx);
  env_tx f b pkt : keeps R (bop_tx f b pkt);
  env_capture f pkt out data : keeps R (bop_capture f pkt out data);
  env_start f b : keeps R (sop_start f b);
  env_rx f src to tag data buf len : keeps R (rop_rx f src to tag data buf len);
  env_ticks : keeps R GetTickCount64;
  env_now f ctx : keeps R (cop_now f ctx);
}.

Create HintDb keeps discriminated.

(** ** Rules *)
Section rules.
Context {D : Type} (R : D -> D -> Prop) `{!PreOrder R}.
Local Abbreviation IO := (M (world D)).

Lemma keeps_ret {A} (a : A) : keeps R (mret a : IO A).
Proof. intros w a' w' [= <- <-]. reflexivity. Qed.

Lemma keeps_stuck {A} e : keeps R (stuck e : IO A).
Proof. by intros w a w'. Qed.

Lemma keeps_bind {A B} (m : IO A) (k : A -> IO B) :
  keeps R m -> (forall a, keeps R (k a)) -> keeps R (m ≫= k).
Proof.
  intros Hm Hk w b w' Hrun. unfold mbind, M_bind in Hrun.
  destruct (m w) as [a w1|e] eqn:E1; [|done]. transitivity (w_dev w1); [by eapply Hm|].
  by eapply Hk.
Qed.

(** A step that leaves the environment alone. *)
Lemma keeps_same {A} (m : IO A) :
  (forall w a w', m w = Ok a w' -> w_dev w' = w_dev w) -> keeps R m.
Proof. intros H w a w' Hrun. by rewrite (H w a w' Hrun). Qed.

Lemma keeps_modify (f : world D -> world D) :
  (forall w, w_dev (f w) = w_dev w) -> keeps R (modify f : IO unit).
Proof. intros Hf. apply keeps_same. by intros w [] w' [= <-]. Qed.
End rules.

(** Steps on the rest of the state. *)
Ltac keeps_state := apply keeps_same; try apply _;
  intros ? ? ? H; unfold gets, massert, from_option_or in H;
  repeat (case_match; simplify_eq); by try injection H as <- <-.

Section prims.
Context {D : Type} (R : D -> D -> Prop) `{!PreOrder R}.
Local Abbreviation IO := (M (world D)).

Lemma keeps_gets {A} (f : world D -> A) : keeps R (gets f).
Proof. keeps_state. Qed.
Lemma keeps_assert P `{!Decision P} : keeps (D := D) R (massert P).
Proof. unfold massert. case_decide; [by apply keeps_ret|apply keeps_stuck]. Qed.
Lemma keeps_option {A} e (o : option A) : keeps (D := D) R (from_option_or e o).
Proof. destruct o; [by apply keeps_ret|apply keeps_stuck]. Qed.
Lemma keeps_mctp_get p : keeps (D := D) R (mctp_get p).
Proof. unfold mctp_get. case_decide; [apply keeps_stuck|apply keeps_gets]. Qed.
Lemma keeps_malloc n : keeps (D := D) R (malloc n).
Proof. unfold malloc. keeps_state. Qed.
Lemma keeps_free p : keeps (D := D) R (free p).
Proof. unfold free. keeps_state. Qed.
Lemma keeps_load_obj p : keeps (D := D) R (load_obj p).
Proof. unfold load_obj. keeps_state. Qed.
Lemma keeps_get_bus i : keeps (D := D) R (get_bus i).
Proof. unfold get_bus. keeps_state. Qed.
Lemma keeps_get_binding b : keeps (D := D) R (get_binding b).
Proof. unfold get_binding. keeps_state. Qed.
End prims.

#[export] Hint Resolve keeps_ret keeps_stuck keeps_gets keeps_assert keeps_option keeps_mctp_get
  keeps_malloc keeps_free keeps_load_obj keeps_get_bus keeps_get_binding
  env_alloc env_free env_msg_alloc env_msg_free env_tx env_capture env_start env_rx env_ticks
  env_now : keeps.

(** What is known of an operation, or its definition, step by step. *)
Ltac head_of t := lazymatch t with ?f _ => head_of f | _ => t end.

Ltac keeps_step := cbv beta;
  lazymatch goal with
  | |- keeps _ (_ ≫= _) => apply keeps_bind; [try apply _| |intros ?]
  | |- keeps _ (modify _) => apply keeps_modify; [try apply _|by intros []]
  | |- keeps _ (let _ := _ in _) => cbv zeta
  | |- keeps _ (match ?x with _ => _ end) => destruct x
  | |- keeps _ ?m => first
      [ assumption
      | solve [unshelve typeclasses eauto with keeps typeclass_instances; apply _]
      | let h := head_of m in progress unfold h ]
  end.

Ltac keeps_auto := repeat keeps_step.

(** ** The operations *)
Section core.
Context {D : Type} `{!ExtAlloc D, !BindingOps D, !StartOps D, !RxOps D, !ClockOps D}.
Context (R : D -> D -> Prop) `{!KeepEnv D R}.

Lemma keeps_mctp_alloc n : keeps (D := D) R (__mctp_alloc n).
Proof. keeps_auto. Qed.
Lemma keeps_mctp_free p : keeps (D := D) R (__mctp_free p).
Proof. keeps_auto. Qed.
Lemma keeps_msg_alloc n mctp : keeps (D := D) R (__mctp_msg_alloc n mctp).
Proof. keeps_auto. Qed.
Lemma keeps_msg_free p mctp : keeps (D := D) R (__mctp_msg_free p mctp).
Proof. keeps_auto. Qed.
Lemma keeps_load_bytes p off n : keeps (D := D) R (load_bytes p off n).
Proof. keeps_auto. Qed.
Lemma keeps_load_pkt p : keeps (D := D) R (load_pkt p).
Proof. keeps_auto. Qed.
Lemma keeps_get_ctx i : keeps (D := D) R (get_ctx i).
Proof. unfold get_ctx. keeps_state. Qed.
End core.

#[export] Hint Resolve keeps_mctp_alloc keeps_mctp_free keeps_msg_alloc keeps_msg_free
  keeps_load_bytes keeps_load_pkt keeps_get_ctx : keeps.

Section operations.
Context {D : Type} `{!ExtAlloc D, !BindingOps D, !StartOps D, !RxOps D, !ClockOps D}.
Context (R : D -> D -> Prop) `{!KeepEnv D R}.

Lemma keeps_alloc_tag mctp l r : keeps (D := D) R (mctp_alloc_tag mctp l r).
Proof. keeps_auto. Qed.
Lemma keeps_dealloc_tag bus l r t : keeps (D := D) R (mctp_dealloc_tag bus l r t).
Proof. keeps_auto. Qed.
Lemma keeps_ctx_lookup mctp a b t : keeps (D := D) R (mctp_msg_ctx_lookup mctp a b t).
Proof. keeps_auto. Qed.
Lemma keeps_ctx_create mctp a b t : keeps (D := D) R (mctp_msg_ctx_create mctp a b t).
Proof. keeps_auto. Qed.
Lemma keeps_ctx_drop bus i : keeps (D := D) R (mctp_msg_ctx_drop bus i).
Proof. keeps_auto. Qed.
Lemma keeps_add_pkt i pkt : keeps (D := D) R (mctp_msg_ctx_add_pkt i pkt).
Proof. keeps_auto. Qed.
Lemma keeps_load_hdr pkt : keeps (D := D) R (load_hdr pkt).
Proof. keeps_auto. Qed.
Lemma keeps_packet_tx bus pkt : keeps (D := D) R (mctp_packet_tx bus pkt).
Proof. keeps_auto. Qed.
Lemma keeps_next_tx_pkt bus : keeps (D := D) R (mctp_next_tx_pkt bus).
Proof. keeps_auto. Qed.
Lemma keeps_tx_complete bus : keeps (D := D) R (mctp_tx_complete bus).
Proof. keeps_auto. Qed.
End operations.

#[export] Hint Resolve keeps_alloc_tag keeps_dealloc_tag keeps_ctx_lookup keeps_ctx_create keeps_ctx_drop
  keeps_add_pkt keeps_load_hdr keeps_packet_tx keeps_next_tx_pkt keeps_tx_complete : keeps.

Section sends.
Context {D : Type} `{!ExtAlloc D, !BindingOps D, !StartOps D, !RxOps D, !ClockOps D}.
Context (R : D -> D -> Prop) `{!KeepEnv D R}.

Lemma keeps_send_loop n bus : keeps (D := D) R (send_tx_queue_loop n bus).
Proof. induction n as [|n IH]; simpl; keeps_auto. Qed.
Lemma keeps_set_tx_enabled b e : keeps (D := D) R (mctp_binding_set_tx_enabled b e).
Proof. pose proof keeps_send_loop. keeps_auto. Qed.
Lemma keeps_tx_on_bus bus s d to tag msg len :
  keeps (D := D) R (mctp_message_tx_on_bus bus s d to tag msg len).
Proof. pose proof keeps_send_loop. keeps_auto. Qed.
Lemma keeps_msg_dup rd len mctp : keeps (D := D) R rd -> keeps R (mctp_msg_dup rd len mctp).
Proof. intros Hrd. keeps_auto. Qed.
End sends.

#[export] Hint Resolve keeps_set_tx_enabled keeps_tx_on_bus keeps_msg_dup : keeps.

Section routing.
Context {D : Type} `{!ExtAlloc D, !BindingOps D, !StartOps D, !RxOps D, !ClockOps D}.
Context (R : D -> D -> Prop) `{!KeepEnv D R}.

Lemma keeps_tx_alloced mctp eid to tag msg len :
  keeps (D := D) R (mctp_message_tx_alloced mctp eid to tag msg len).
Proof. keeps_auto. Qed.
Lemma keeps_message_tx mctp eid to tag msg len :
  keeps (D := D) R (mctp_message_tx mctp eid to tag msg len).
Proof. pose proof keeps_tx_alloced. keeps_auto. Qed.
Lemma keeps_bridge_loop n i mctp bus s d to tag buf len :
  keeps (D := D) R (bridge_loop n i mctp bus s d to tag buf len).
Proof. revert i. induction n as [|n IH]; intros i; simpl; keeps_auto. Qed.
End routing.

#[export] Hint Resolve keeps_tx_alloced keeps_message_tx keeps_bridge_loop : keeps.

Section api.
Context {D : Type} `{!ExtAlloc D, !BindingOps D, !StartOps D, !RxOps D, !ClockOps D}.
Context (R : D -> D -> Prop) `{!KeepEnv D R}.

Lemma keeps_control_handler bus s to tag data len :
  keeps (D := D) R (mctp_control_handler bus s to tag data len).
Proof. keeps_auto. Qed.
Lemma keeps_rx mctp bus s d to tag buf len :
  keeps (D := D) R (mctp_rx mctp bus s d to tag buf len).
Proof. pose proof keeps_control_handler. keeps_auto. Qed.
Lemma keeps_bus_rx b pkt : keeps (D := D) R (mctp_bus_rx b pkt).
Proof. pose proof keeps_rx. keeps_auto. Qed.
Lemma keeps_cleanup_ctxs cs mctp : keeps (D := D) R (cleanup_ctxs cs mctp).
Proof. induction cs as [|c cs IH]; simpl; keeps_auto. Qed.
Lemma keeps_cleanup_busses n mctp : keeps (D := D) R (cleanup_busses n mctp).
Proof. induction n as [|n IH]; simpl; keeps_auto. Qed.
Lemma keeps_cleanup mctp : keeps (D := D) R (mctp_cleanup mctp).
Proof. pose proof keeps_cleanup_ctxs. pose proof keeps_cleanup_busses. keeps_auto. Qed.
Lemma keeps_setup mctp n : keeps (D := D) R (mctp_setup mctp n).
Proof. keeps_auto. Qed.
Lemma keeps_register_bus mctp b eid : keeps (D := D) R (mctp_register_bus mctp b eid).
Proof. keeps_auto. Qed.

Lemma keeps_call c : keeps (D := D) R (run_call c).
Proof.
  pose proof keeps_bus_rx. pose proof keeps_cleanup. pose proof keeps_setup.
  pose proof keeps_register_bus. destruct c; simpl; keeps_auto.
Qed.

(** Any sequence of calls. *)
Lemma keeps_calls cs : keeps (D := D) R (run_calls cs).
Proof. pose proof keeps_call. induction cs as [|c cs IH]; simpl; keeps_auto. Qed.
End api.

#[export] Hint Resolve keeps_bus_rx keeps_cleanup keeps_setup keeps_register_bus keeps_call : keeps.
