(* ===== verification/Bridge.v ===== *)
(** * Bridging

    A stack with two busses forwards a message received on one bus to the
    other.  A message of one packet is forwarded as it came; a message of
    several packets makes the stack dereference a null pointer, since
    [mctp_bridge_busses] never sets the [mctp] field of its busses. *)

From S2P Require Import Prelude State Alloc Pktbuf Reasm Tags Tx Control Rx RxSpec RxRefine.
From S2P Require Import Frag TxRefine TxApi Bus.

Section bridge.
Context {D : Type} `{!ExtAlloc D, !BindingOps D, !RxOps D, !ClockOps D, !QuietCapture D}.
Context (ready : string -> Z -> D -> Prop) (answer : Z -> Prop) `{!QuietTx D ready answer}.
Implicit Types w : world D.

(** A bridge that receives on bus [i], whose binding is [bin], and can send on
    the other bus, [b], whose binding [bout] is [bd]. *)
Record bridge (mctp bin : Z) (i : nat) (bout : Z) (bd : mctp_binding) (b : mctp_bus) w : Prop := {
  br_mctp : mctp <> NULL;
  br_route : m_route_policy (w_mctp w) = ROUTE_BRIDGE;
  br_busses : m_n_busses (w_mctp w) = 2;
  br_index : (i < 2)%nat;
  br_in : exists b0, m_busses (w_mctp w) !! i = Some b0;
  br_binding : exists bd0, w_bindings w !! bin = Some bd0 /\ bd_mctp bd0 = mctp /\
    bd_bus bd0 = Some i;
  br_env : tx_env ready bout bd w;
  br_wf : binding_wf bd;
  br_align : bd_tx_storage bd mod 8 = 0;
  br_bd_mctp : bd_mctp bd <> NULL;
  br_tx : is_Some (bd_tx bd);
  br_bus : m_busses (w_mctp w) !! (1 - i)%nat = Some b;
  br_out : bus_binding b = bout;
  br_enabled : bus_st b = mctp_bus_state_tx_enabled;
  br_idle : bus_tx_msg b = NULL;
  br_seq : 0 <= bus_tx_seq b < 4;
}.

(** How the message of a packet with header [h] is sent on: the addresses, tag
    and tag owner are those of the packet. *)
Definition forward_params (bd : mctp_binding) (b : mctp_bus) (h : mctp_hdr) : tx_params :=
  mk_tx_params (Z.land (bd_version bd) 15) (dest h) (src h) (fst_to (flags_seq_tag h))
    (fst_tag (flags_seq_tag h)) (bus_tx_seq b) (bd_pkt_size bd - 4).

(** The block [buf] starts with the bytes [msg]. *)
Definition msg_at (buf : Z) (msg : list Z) w : Prop :=
  exists mem, w_heap w !! buf = Some (HBytes mem) /\ slice 0 (zlen msg) mem = msg.

Lemma msg_at_room (msg mem : list Z) : slice 0 (zlen msg) mem = msg -> zlen msg <= zlen mem.
Proof.
  intros H. apply (f_equal length) in H. unfold slice in H. rewrite drop_0, length_take in H.
  unfold zlen in *. lia.
Qed.

Lemma forward_ok mctp bin i bout bd b h msgp msg w :
  bridge mctp bin i bout bd b w -> zlen msg < SIZE_MOD -> msgp <> NULL ->
  msgp <> bd_tx_storage bd -> tx_ok bd msgp (forward_params bd b h) msg.
Proof.
  intros [] Hl Hm Hs. split; try done. simpl. apply fst_tag_range.
Qed.

(** One message handed to the outgoing bus. *)
Lemma wp_forward mctp bin i bout bd b h buf msg (k : M (world D) unit) (Q : unit -> world D -> Prop) w :
  let t := forward_params bd b h in let n := frag_count (tp_mtu t) (zlen msg) in
  bridge mctp bin i bout bd b w -> malloc_ok w = true -> zlen msg < SIZE_MOD ->
  msg_at buf msg w ->
  (forall rcs j w', answers answer n 0 rcs j ->
     w_trace w' = w_trace w ++ tx_log bout t msg (w_mctp w) 0 rcs ->
     tx_stands ready bout (1 - i) bd (w_brk w) t msg b j (after_dup msg w) w' -> wp k Q w') ->
  wp (copy ← mctp_msg_dup (load_bytes buf 0 (zlen msg)) (zlen msg) mctp;
      if decide (copy = NULL) then mret tt else
      mctp_message_tx_on_bus (1 - i) (src h) (dest h) (fst_to (flags_seq_tag h))
        (fst_tag (flags_seq_tag h)) copy (zlen msg);; k) Q w.
Proof.
  intros t n Hbr Hok Hl Hbuf HQ. pose proof Hbr as [].
  pose proof (zlen_nonneg msg) as Hn. pose proof (te_heap _ _ _ _ br_env0) as Hwf.
  destruct (msg_in_after_dup ready bout bd msg w br_env0) as (Hbn & Hst & Hmem).
  destruct Hbuf as (mem & Hbuf & Hsl). pose proof (msg_at_room _ _ Hsl) as Hroom.
  wp_step. apply wp_msg_dup; [apply br_env0|done|done| |intros _|congruence].
  { eapply wp_run_eq, (wp_load_bytes _ mem); [|lia..|by rewrite Hsl].
    simpl. rewrite lookup_insert_ne; [exact Hbuf|]. intros E. subst buf.
    rewrite (heap_wf_fresh _ Hwf) in Hbuf. done. }
  do 2 wp_step. fold t.
  eapply wp_mono; [apply (wp_message_tx_on_bus ready answer bout (1 - i) bd (w_brk w) t msg
    ltac:(by eapply forward_ok) b); [by apply tx_env_after_dup|by split]|].
  intros rc w' (-> & rcs & j & Hans & Htr & _ & Hstand). by eapply HQ.
Qed.

Lemma wp_bridge_loop mctp bin i bout bd b h buf msg (Q : unit -> world D -> Prop) w :
  let t := forward_params bd b h in let n := frag_count (tp_mtu t) (zlen msg) in
  bridge mctp bin i bout bd b w -> malloc_ok w = true -> zlen msg < SIZE_MOD ->
  msg_at buf msg w ->
  (forall rcs j w', answers answer n 0 rcs j ->
     w_trace w' = w_trace w ++ tx_log bout t msg (w_mctp w) 0 rcs ->
     tx_stands ready bout (1 - i) bd (w_brk w) t msg b j (after_dup msg w) w' -> Q tt w') ->
  wp (bridge_loop (S (Z.to_nat MCTP_MAX_BUSSES)) 0 mctp i (src h) (dest h)
        (fst_to (flags_seq_tag h)) (fst_tag (flags_seq_tag h)) buf (zlen msg)) Q w.
Proof.
  intros t n Hbr Hok Hl Hbuf HQ. pose proof Hbr as [].
  assert (Hkeep : forall j w', tx_stands ready bout (1 - i) bd (w_brk w) t msg b j (after_dup msg w) w'
    -> m_n_busses (w_mctp w') = 2).
  { intros j w' (_ & Hk & _). rewrite (tk_mctp _ _ _ _ _ Hk). simpl. exact br_busses0. }
  change (S (Z.to_nat MCTP_MAX_BUSSES)) with 3%nat.
  destruct i as [|[|]]; [..|lia]; cbn [bridge_loop]; do 2 wp_step; rewrite br_busses0;
    rewrite (decide_True (P := Z.of_nat 0 < 2)) by lia.
  - rewrite decide_True by done. do 2 wp_step. rewrite br_busses0, decide_True, decide_False by lia.
    eapply (wp_forward mctp bin 0 bout bd b h); [done..|]. intros rcs j w' H1 H2 H3.
    do 2 wp_step. rewrite (Hkeep _ _ H3), decide_False by lia. wp_step. by eapply HQ.
  - rewrite decide_False by done. eapply (wp_forward mctp bin 1 bout bd b h); [done..|].
    intros rcs j w' H1 H2 H3. do 2 wp_step. rewrite (Hkeep _ _ H3), decide_True by lia.
    rewrite decide_True by done. do 2 wp_step. rewrite (Hkeep _ _ H3), decide_False by lia.
    wp_step. by eapply HQ.
Qed.

(** ** Receiving on a bridge *)


Lemma bridge_env mctp bin i bout bd b w w' :
  bridge mctp bin i bout bd b w -> w_mctp w' = w_mctp w -> w_bindings w' = w_bindings w ->
  tx_env ready bout bd w' -> bridge mctp bin i bout bd b w'.
Proof. intros [] Em Eb He. split; rewrite ?Em, ?Eb; done. Qed.

(** [mctp_rx] forwards. *)
Lemma wp_bridge_mctp_rx mctp bin i bout bd b h buf msg (Q : unit -> world D -> Prop) w :
  let t := forward_params bd b h in let n := frag_count (tp_mtu t) (zlen msg) in
  bridge mctp bin i bout bd b w -> malloc_ok w = true -> zlen msg < SIZE_MOD ->
  msg_at buf msg w ->
  (forall rcs j w', answers answer n 0 rcs j ->
     w_trace w' = w_trace w ++ tx_log bout t msg (w_mctp w) 0 rcs ->
     tx_stands ready bout (1 - i) bd (w_brk w) t msg b j (after_dup msg w) w' -> Q tt w') ->
  wp (mctp_rx mctp i (src h) (dest h) (fst_to (flags_seq_tag h)) (fst_tag (flags_seq_tag h))
        buf (zlen msg)) Q w.
Proof.
  intros t n Hbr Hok Hl Hbuf HQ. pose proof Hbr as []. destruct br_in0 as [b0 Hb0].
  assert (Hbn : buf <> NULL).
  { destruct Hbuf as (mem & Hbuf & _). intros ->.
    by rewrite (heap_wf_null _ (te_heap _ _ _ _ br_env0)) in Hbuf. }
  unfold mctp_rx. do 2 wp_step; [done|]. do 5 wp_step. rewrite br_route0.
  rewrite decide_False by naive_solver. do 4 wp_step.
  by eapply wp_bridge_loop.
Qed.

Lemma wp_bridge_single mctp bin i bout bd b h pkt p (Q : unit -> world D -> Prop) w :
  let t := forward_params bd b h in let n := frag_count (tp_mtu t) (zlen (pkt_payload p)) in
  bridge mctp bin i bout bd b w -> w_mallocs w = [] ->
  w_heap w !! pkt = Some (HPkt p) -> pkt_wf p -> sizeof_mctp_hdr <= mctp_pktbuf_size p ->
  (forall rcs j w', answers answer n 0 rcs j ->
     w_trace w' = w_trace w ++ tx_log bout t (pkt_payload p) (w_mctp w) 0 rcs ->
     (j = n -> forall a, a <> bd_tx_storage bd -> w_heap w' !! a = w_heap w !! a) -> Q tt w') ->
  wp (rx_single mctp i pkt h (fst_to (flags_seq_tag h)) (fst_tag (flags_seq_tag h))) Q w.
Proof.
  intros t n Hbr Hmem Hp Hwf Hs HQ. pose proof Hbr as [].
  set (pl := pkt_payload p) in *.
  pose proof (pkt_wire_split p Hwf Hs) as (_ & _ & _ & Hpl). fold pl in Hpl.
  pose proof (pkt_wf_size p Hwf) as Hw. pose proof Hwf as (E0 & E1 & E2 & E3).
  pose proof (te_heap _ _ _ _ br_env0) as Hh. pose proof (zlen_nonneg pl) as Hn.
  unfold sizeof_mctp_hdr in *.
  assert (Hlen : pb_end p -s pb_mctp_hdr_off p -s sizeof_mctp_hdr = zlen pl).
  { rewrite <- E0. change (mctp_pktbuf_size p -s 4 = zlen pl). rewrite Hpl. apply sz_small. lia. }
  unfold rx_single. do 2 wp_step. cbv zeta. rewrite Hlen. wp_step.
  apply wp_msg_dup; [apply br_env0|done|done| |intros _|unfold malloc_ok; by rewrite Hmem].
  { eapply wp_run_eq, wp_pkt_read.
    - simpl. rewrite lookup_insert_ne; [exact Hp|]. intros E. subst pkt.
      by rewrite (heap_wf_fresh _ Hh) in Hp.
    - unfold mctp_pktbuf_data, sizeof_mctp_hdr. lia.
    - lia.
    - unfold mctp_pktbuf_data, sizeof_mctp_hdr. lia.
    - rewrite Hpl. done. }
  assert (Hb1 : w_brk w <> NULL) by (destruct Hh; unfold NULL; lia).
  assert (Hbr1 : bridge mctp bin i bout bd b (after_dup pl w)).
  { eapply bridge_env; [exact Hbr|done|done|by apply tx_env_after_dup]. }
  do 2 wp_step. eapply (wp_bridge_mctp_rx mctp bin i bout bd b h (w_brk w) pl).
  { exact Hbr1. }
  { unfold malloc_ok. simpl. by rewrite Hmem. }
  { lia. }
  { exists pl. split; [apply lookup_insert_eq|by apply slice_all]. }
  intros rcs j w' Hans Htr (He & Hk & b' & Hat & _).
  assert (Hst : bd_tx_storage bd <> w_brk w).
  { destruct (te_storage _ _ _ _ br_env0) as (o & data & Ho & _). intros E.
    rewrite E, (heap_wf_fresh _ Hh) in Ho. done. }
  assert (Hbuf : w_heap w' !! w_brk w = Some (HBytes pl)).
  { rewrite (tk_heap _ _ _ _ _ Hk); simpl; [|done|lia].
    rewrite lookup_insert_ne by lia. apply lookup_insert_eq. }
  apply wp_msg_free; [apply He|done|by eexists|apply heap_wf_null, He|].
  apply (HQ rcs j); [done|done|]. intros -> a Ha. unfold tx_at in Hat.
  rewrite decide_True in Hat by done. destruct Hat as (_ & _ & Hfree & _). simpl in Hfree.
  unfold after_free. simpl. destruct (decide (a = w_brk w)) as [->|Hne].
  { rewrite lookup_delete_eq. symmetry. by apply heap_wf_fresh. }
  rewrite lookup_delete_ne by done. destruct (decide (a = w_brk w + 16)) as [->|Hne'].
  { rewrite Hfree. symmetry. pose proof (heap_wf_malloc 0 w Hh) as H1.
    apply heap_wf_fresh in H1. simpl in H1. by apply lookup_insert_None in H1 as [H1 _]. }
  rewrite (tk_heap _ _ _ _ _ Hk); simpl; [|done|done]. by rewrite !lookup_insert_ne.
Qed.

Lemma wire_hdr_size h p :
  pkt_wf p -> pkt_wire p = bytes_of_hdr h ++ pkt_payload p ->
  sizeof_mctp_hdr <= mctp_pktbuf_size p.
Proof.
  intros Hwf Hwire. rewrite <- (zlen_pkt_wire p Hwf), Hwire, zlen_app. unfold zlen at 1. simpl.
  pose proof (zlen_nonneg (pkt_payload p)). unfold sizeof_mctp_hdr. lia.
Qed.

(** The [switch] of [mctp_bus_rx]. *)
Definition rx_switch (mctp : Z) (bus : nat) (pkt : Z) (h : mctp_hdr) : M (world D) unit :=
  let f := flags_seq_tag h in
  if decide (fst_flags f = Z.lor MCTP_HDR_FLAG_SOM MCTP_HDR_FLAG_EOM) then
    rx_single mctp bus pkt h (fst_to f) (fst_tag f)
  else if decide (fst_flags f = MCTP_HDR_FLAG_SOM) then
    rx_start mctp bus pkt h (fst_tag f) (fst_seq f)
  else if decide (fst_flags f = MCTP_HDR_FLAG_EOM) then
    rx_end mctp bus pkt h (fst_to f) (fst_tag f) (fst_seq f)
  else if decide (fst_flags f = 0) then
    rx_middle mctp bus pkt h (fst_tag f) (fst_seq f)
  else mret tt.

(** A bridge looks at no address but the broadcast source. *)
Lemma bridge_switch mctp bin i bout bd b h pkt p w :
  bridge mctp bin i bout bd b w -> w_heap w !! pkt = Some (HPkt p) -> pkt_wf p ->
  pkt_wire p = bytes_of_hdr h ++ pkt_payload p -> src h <> MCTP_EID_BROADCAST ->
  exists d, let w' := set_w_dev d
      (set_w_trace (w_trace w ++ capture_of (w_mctp w) false (pkt_wire p)) w) in
    bridge mctp bin i bout bd b w' /\ mctp_bus_rx bin pkt w = rx_switch mctp i pkt h w'.
Proof.
  intros Hbr Hp Hwf Hwire Hsrc. pose proof Hbr as [].
  destruct br_binding0 as (bd0 & Hbd0 & Hbm & Hbb). destruct br_in0 as [b0 Hb0].
  pose proof (zlen_pkt_wire p Hwf) as Hz. pose proof (zlen_nonneg (pkt_payload p)) as Hn.
  pose proof Hwf as (E0 & E1 & E2 & E3). pose proof (pkt_wf_size p Hwf) as Hw.
  pose proof (wire_hdr_size h p Hwf Hwire) as Hs. unfold sizeof_mctp_hdr in Hs.
  destruct br_tx0 as [f Hf].
  assert (Hcap : wp (call_capture mctp pkt false) (fun _ w' => exists d, ready f bout d /\
    w' = set_w_dev d (set_w_trace (w_trace w ++ capture_of (w_mctp w) false (pkt_wire p)) w)) w).
  { apply (wp_capture_inv (ready f bout) _ _ p); [done|done|by apply br_env0| |by eauto].
    intros g data w1 w2 Hr Hc. by eapply quiet_tx_capture. }
  destruct (wp_inv _ _ _ Hcap) as ([] & w1 & Hrun & d & Hd & Ew1). exists d. intros w'.
  subst w1. fold w' in Hrun.
  assert (Hbr1 : bridge mctp bin i bout bd b w').
  { eapply bridge_env; [exact Hbr|done|done|]. destruct br_env0. split; try done.
    intros g Hg. by simplify_eq. }
  split; [done|]. unfold mctp_bus_rx.
  apply run_bind. wp_step. cbv zeta. apply run_bind. apply wp_assert; [by rewrite Hbb|].
  rewrite Hbm, Hbb. do 2 (apply run_bind; wp_step).
  unfold sizeof_mctp_hdr. rewrite decide_False by lia. rewrite (bind_run _ _ _ _ _ Hrun).
  apply run_bind. eapply (wp_load_hdr _ p h); [done|unfold mctp_pktbuf_hdr; lia..| |].
  { destruct (pkt_wire_split p Hwf) as (h' & Hh' & Hw' & _); [unfold sizeof_mctp_hdr; lia|].
    rewrite Hw' in Hwire. apply app_inv_tail in Hwire. by rewrite Hh'. }
  rewrite decide_False by done. do 2 (apply run_bind; wp_step).
  rewrite decide_False; [done|]. change (w_mctp w') with (w_mctp w). rewrite br_route0. naive_solver.
Qed.

(** C26: A bridge forwards.  A message received on one bus in a single packet is
    sent on the other: the packets handed to the outgoing binding carry the
    payload, cut to that binding's packet size, under the addresses, tag and tag
    owner of the packet received.  Once they are all accepted the heap is as
    before, but for the transmit storage: both copies made on the way are
    released. *)
Theorem mctp_bus_rx_forwards mctp bin i bout bd b h pkt p w :
  let t := forward_params bd b h in let n := frag_count (tp_mtu t) (zlen (pkt_payload p)) in
  bridge mctp bin i bout bd b w -> w_mallocs w = [] ->
  w_heap w !! pkt = Some (HPkt p) -> pkt_wf p ->
  pkt_wire p = bytes_of_hdr h ++ pkt_payload p -> src h <> MCTP_EID_BROADCAST ->
  fst_flags (flags_seq_tag h) = Z.lor MCTP_HDR_FLAG_SOM MCTP_HDR_FLAG_EOM ->
  exists rcs j w', mctp_bus_rx bin pkt w = Ok tt w' /\ answers answer n 0 rcs j /\
    w_trace w' = w_trace w ++ capture_of (w_mctp w) false (pkt_wire p) ++
      tx_log bout t (pkt_payload p) (w_mctp w) 0 rcs /\
    (j = n -> forall a, a <> bd_tx_storage bd -> w_heap w' !! a = w_heap w !! a).
Proof.
  intros t n Hbr Hmem Hp Hwf Hwire Hsrc Hfl.
  destruct (bridge_switch mctp bin i bout bd b h pkt p w) as (d & Hbr1 & ->); [done..|].
  set (w1 := set_w_dev d _) in *. unfold rx_switch. rewrite Hfl, decide_True by done.
  pose proof (wire_hdr_size h p Hwf Hwire) as Hs.
  destruct (wp_inv (rx_single mctp i pkt h (fst_to (flags_seq_tag h)) (fst_tag (flags_seq_tag h)))
    (fun _ w' => exists rcs j, answers answer n 0 rcs j /\
      w_trace w' = w_trace w ++ capture_of (w_mctp w) false (pkt_wire p) ++
        tx_log bout t (pkt_payload p) (w_mctp w) 0 rcs /\
      (j = n -> forall a, a <> bd_tx_storage bd -> w_heap w' !! a = w_heap w !! a)) w1)
    as ([] & w' & Hrun & rcs & j & H); [|by exists rcs, j, w'].
  eapply (wp_bridge_single mctp bin i bout bd b h); [exact Hbr1|done..|].
  intros rcs j w' Hans Htr Hheap. exists rcs, j. split; [done|]. split; [|done].
  rewrite Htr. simpl. by rewrite <- app_assoc.
Qed.

(** ** Messages of several packets *)

(** Releasing a context on a bus without a stack. *)
Lemma drop_crashes i b0 c x w :
  m_busses (w_mctp w) !! i = Some b0 -> bus_mctp b0 = NULL ->
  m_msg_ctxs (w_mctp w) !! c = Some x -> mctp_msg_ctx_drop i c w = Stuck NullDeref.
Proof.
  intros Hb Hn Hc. unfold mctp_msg_ctx_drop. apply run_bind. wp_step. apply run_bind. wp_step.
  rewrite Hn. unfold __mctp_msg_free, mctp_get_alloc_ctx, mctp_get. unfold mbind, M_bind.
  by rewrite decide_True.
Qed.

Lemma bridge_ctx_step mctp bin i bout bd b F r r' w w' :
  bridge mctp bin i bout bd b w -> ctxs_inv w F r -> is_Some (F !! bd_tx_storage bd) ->
  ctx_step w w' -> ctxs_inv w' F r' -> bridge mctp bin i bout bd b w'.
Proof.
  intros [] HI [o Ho] Hs HI'.
  assert (He : tx_env ready bout bd w').
  { destruct br_env0 as [_ _ E3 (o' & data & E4 & E5) E6].
    split; [apply HI'|apply HI'|by rewrite (cs_bindings _ _ Hs)| |by rewrite (cs_dev _ _ Hs)].
    exists o', data. rewrite (frame_lookup _ _ _ _ _ HI Ho) in E4.
    by rewrite (frame_lookup _ _ _ _ _ HI' Ho). }
  pose proof (cs_mctp _ _ Hs) as Em. pose proof (ctx_step_busses _ _ Hs) as Eb.
  split; rewrite ?Eb, ?(cs_bindings _ _ Hs); try done; by rewrite Em.
Qed.

(** C27: A bridge cannot take a message of several packets.  When the bus that
    receives has no stack, as [mctp_bridge_busses] leaves it, the last packet of
    a message that is being received makes the stack dereference a null
    pointer, whether it completes the message, which has been sent on by then,
    or is out of sequence. *)
Theorem bridge_long_message_crashes mctp bin i bout bd b b0 h pkt p F r w :
  bridge mctp bin i bout bd b w -> ctxs_inv w F r -> w_mallocs w = [] ->
  m_busses (w_mctp w) !! i = Some b0 -> bus_mctp b0 = NULL ->
  is_Some (F !! bd_tx_storage bd) -> F !! pkt = Some (HPkt p) -> pkt_wf p ->
  pkt_wire p = bytes_of_hdr h ++ pkt_payload p -> src h <> MCTP_EID_BROADCAST ->
  fst_flags (flags_seq_tag h) = MCTP_HDR_FLAG_EOM -> is_Some (r !! hdr_key h) ->
  mctp_bus_rx bin pkt w = Stuck NullDeref.
Proof.
  intros Hbr HI Hmem Hb0 Hnull Hst HF Hwf Hwire Hsrc Hfl Hr.
  pose proof (frame_lookup _ _ _ _ _ HI HF) as Hp.
  destruct (bridge_switch mctp bin i bout bd b h pkt p w) as (d & Hbr1 & ->); [done..|].
  set (w1 := set_w_dev d _) in *. assert (I1 : ctxs_inv w1 F r) by (destruct HI; by split).
  assert (M1 : w_mallocs w1 = [] /\ m_busses (w_mctp w1) !! i = Some b0 /\
    w_heap w1 !! pkt = Some (HPkt p)) by done. clearbody w1.
  destruct M1 as (M1 & M2 & M3).
  unfold rx_switch. rewrite Hfl. rewrite !decide_False, decide_True by done.
  unfold rx_end. apply run_bind. eapply wp_ctx_lookup; [done|apply Hbr1| |].
  2: { fold (hdr_key h). intros E. destruct Hr as [x Hr]. congruence. }
  intros c x bs Hc Hk _. pose proof Hc as (Hi & Hl & Hbs).
  pose proof (drop_crashes i b0 c x w1 M2 Hnull Hi) as Hdrop.
  apply run_bind. wp_step. cbv zeta. case_decide; [exact Hdrop|].
  apply run_bind. wp_step. case_decide; [exact Hdrop|].
  pose proof (wire_hdr_size h p Hwf Hwire) as Hs.
  apply run_bind. eapply wp_add_pkt; [done..| |]; intros Hfit.
  2: { apply run_bind. by wp_step. }
  intros w2 bs' x' S2 I2 C2 Hd. pose proof C2 as (Hi2 & Hl2 & Hbs2).
  assert (Hbr2 : bridge mctp bin i bout bd b w2) by by eapply bridge_ctx_step.
  pose proof (ctx_at_rep _ _ _ _ _ _ I2 C2) as (_ & Hz & Hs2 & Hcap).
  assert (Hmsg : zlen (slice 0 (mc_buf_size x') bs') = mc_buf_size x') by (apply zlen_slice; lia).
  injection Hk as Es Ed Et. change (mc_src x) with (mc_src x') in Es.
  change (mc_dest x) with (mc_dest x') in Ed.
  apply run_bind. do 3 wp_step.
  rewrite Es, Ed, <- Hmsg.
  eapply (wp_bridge_mctp_rx mctp bin i bout bd b h); [done| |lia| |].
  - unfold malloc_ok. by rewrite (cs_mallocs _ _ S2 M1).
  - exists bs'. split; [done|]. by rewrite Hmsg.
  - intros rcs j w3 _ _ (_ & Hk3 & _). apply (drop_crashes i b0 c x').
    + rewrite (tk_busses _ _ _ _ _ Hk3); [|pose proof (br_index _ _ _ _ _ _ _ Hbr); lia].
      simpl. by rewrite (ctx_step_busses _ _ S2).
    + done.
    + rewrite (tk_mctp _ _ _ _ _ Hk3). simpl. exact Hi2.
Qed.
End bridge.
