(* ===== verification/Cleanup.v ===== *)
(** * Releasing a stack's memory

    [mctp_cleanup] frees what the stack owns and nothing else: the buffers of
    the messages being received and the messages waiting to be sent. *)

From S2P Require Import Prelude State Alloc Pktbuf Reasm Tags Tx Control Rx Bus.

(** The buffers of the contexts in use, and the messages waiting on the busses
    in use. *)
Definition ctx_bufs (cs : list mctp_msg_ctx) : list Z := mc_buf <$> filter ctx_live cs.

Definition pending_msgs (bs : list mctp_bus) : list Z :=
  filter (fun a => a <> NULL) (bus_tx_msg <$> bs).

Section cleanup.
Context {D : Type} `{!ExtAlloc D, !StartOps D}.
Implicit Types w : world D.

Definition freed (l : list Z) (h : gmap Z hobj) : gmap Z hobj := foldr delete h l.

Lemma lookup_freed l h a : freed l h !! a = if decide (a ∈ l) then None else h !! a.
Proof.
  induction l as [|x l IH]; [done|]. simpl. destruct (decide (x = a)) as [->|Hne].
  - rewrite lookup_delete_eq, decide_True by set_solver. done.
  - rewrite lookup_delete_ne, IH by done. repeat case_decide; set_solver.
Qed.

Lemma freed_delete x l h : x ∉ l -> freed l (delete x h) = delete x (freed l h).
Proof.
  intros Hx. apply map_eq. intros a. rewrite lookup_freed. destruct (decide (x = a)) as [->|Hne].
  - rewrite !lookup_delete_eq. by case_decide.
  - rewrite !lookup_delete_ne, lookup_freed by done. done.
Qed.

Definition with_freed (l : list Z) (w : world D) : world D :=
  set_w_heap (freed l (w_heap w)) w.

Lemma wp_cleanup_ctxs cs mctp (Q : unit -> world D -> Prop) w :
  w_ops w = default_alloc_ops -> mctp <> NULL -> w_heap w !! NULL = None ->
  NoDup (ctx_bufs cs) -> Forall (fun a => is_Some (w_heap w !! a)) (ctx_bufs cs) ->
  Q tt (with_freed (ctx_bufs cs) w) -> wp (cleanup_ctxs cs mctp) Q w.
Proof.
  intros Hops Hm Hnull Hd Hl HQ. revert w Hops Hnull Hl HQ Hd.
  induction cs as [|c cs IH]; intros w Hops Hnull Hl HQ Hd.
  { unfold with_freed in HQ. by destruct w. }
  unfold ctx_bufs in *. rewrite filter_cons in *. cbn [cleanup_ctxs]. wp_step.
  destruct (decide (ctx_live c)) as [Hc|Hc].
  - rewrite fmap_cons in *. apply NoDup_cons in Hd as [Hni Hd]. apply Forall_cons in Hl as [Hb Hl].
    unfold ctx_live in Hc. rewrite decide_True by done.
    apply wp_msg_free; [done..|]. apply IH; [done| | | |done].
    + simpl. by rewrite lookup_delete_ne.
    + rewrite Forall_forall in *. intros a Ha. simpl. rewrite lookup_delete_ne by set_solver. auto.
    + unfold with_freed, after_free in *. simpl in *. by rewrite freed_delete.
  - unfold ctx_live in Hc. rewrite decide_False by done. wp_step. by apply IH.
Qed.

(** The busses once the first [k] have been destroyed. *)
Definition closed_busses (k : nat) (bs : list mctp_bus) : list mctp_bus :=
  (set_bus_tx_msg NULL <$> take k bs) ++ drop k bs.

Lemma closed_busses_S k bs b :
  bs !! k = Some b -> closed_busses k (<[k := set_bus_tx_msg NULL b]> bs) = closed_busses (S k) bs.
Proof.
  intros Hb. pose proof (lookup_lt_Some _ _ _ Hb). unfold closed_busses.
  rewrite take_insert_ge by lia. rewrite (take_S_r _ _ b) by done.
  rewrite fmap_app, <- app_assoc. f_equal.
  rewrite (drop_S _ (set_bus_tx_msg NULL b)) by (by rewrite list_lookup_insert_eq).
  by rewrite drop_insert_lt by lia.
Qed.

Lemma set_bus_tx_msg_id b : bus_tx_msg b = NULL -> set_bus_tx_msg NULL b = b.
Proof. destruct b; simpl. by intros ->. Qed.

Lemma pending_msgs_S k bs b :
  bs !! k = Some b -> pending_msgs (take (S k) bs) =
    pending_msgs (take k bs) ++ (if decide (bus_tx_msg b = NULL) then [] else [bus_tx_msg b]).
Proof.
  intros Hb. unfold pending_msgs. rewrite (take_S_r _ _ b) by done.
  rewrite fmap_app, filter_app, fmap_cons, filter_cons. f_equal. simpl.
  destruct (decide (bus_tx_msg b = NULL)); [rewrite decide_False by auto|rewrite decide_True by done];
    by rewrite filter_nil.
Qed.

Definition with_closed (k : nat) (w : world D) : world D :=
  let bs := m_busses (w_mctp w) in
  with_freed (pending_msgs (take k bs))
    (set_w_mctp (set_m_n_busses (-1) (set_m_busses (closed_busses k bs) (w_mctp w))) w).

Lemma with_closed_0 w : m_n_busses (w_mctp w) = 0 ->
  with_closed 0 w = set_w_mctp (set_m_n_busses (m_n_busses (w_mctp w) - 1) (w_mctp w)) w.
Proof. intros Hn. unfold with_closed. rewrite Hn. by destruct w as [? ? ? ? []]. Qed.

Lemma with_closed_S k b w w' :
  m_busses (w_mctp w) !! k = Some b ->
  w_mctp w' = set_m_busses (<[k := set_bus_tx_msg NULL b]> (m_busses (w_mctp w)))
                (set_m_n_busses (m_n_busses (w_mctp w')) (w_mctp w)) ->
  w' = set_w_mctp (w_mctp w')
         (with_freed (if decide (bus_tx_msg b = NULL) then [] else [bus_tx_msg b]) w) ->
  with_closed k w' = with_closed (S k) w.
Proof.
  intros Hb Hm ->. unfold with_closed, with_freed. simpl. rewrite Hm. simpl.
  rewrite take_insert_ge by done. erewrite closed_busses_S, pending_msgs_S by done.
  unfold freed. by rewrite foldr_app.
Qed.

(** The messages of the first [k] busses are distinct live blocks. *)
Definition pending_ok (k : nat) w : Prop :=
  let l := pending_msgs (take k (m_busses (w_mctp w))) in
  NoDup l /\ Forall (fun a => is_Some (w_heap w !! a)) l.

Lemma pending_ok_S k b w w' :
  m_busses (w_mctp w) !! k = Some b -> pending_ok (S k) w ->
  m_busses (w_mctp w') = <[k := set_bus_tx_msg NULL b]> (m_busses (w_mctp w)) ->
  w_heap w' = freed (if decide (bus_tx_msg b = NULL) then [] else [bus_tx_msg b]) (w_heap w) ->
  pending_ok k w'.
Proof.
  unfold pending_ok. intros Hb [Hd Hl] -> ->. rewrite take_insert_ge by done.
  erewrite pending_msgs_S in Hd, Hl by done.
  apply NoDup_app in Hd as (Hd & Hni & _). apply Forall_app in Hl as [Hl _].
  split; [done|]. rewrite Forall_forall in *. intros a Ha.
  rewrite lookup_freed, decide_False by auto. auto.
Qed.

Lemma wp_bus_destroy k b mctp (Q : unit -> world D -> Prop) w :
  w_ops w = default_alloc_ops -> mctp <> NULL -> w_heap w !! NULL = None ->
  m_busses (w_mctp w) !! k = Some b -> pending_ok (S k) w ->
  Q tt (set_w_mctp (set_m_busses (<[k := set_bus_tx_msg NULL b]> (m_busses (w_mctp w))) (w_mctp w))
          (with_freed (if decide (bus_tx_msg b = NULL) then [] else [bus_tx_msg b]) w)) ->
  wp (mctp_bus_destroy k mctp) Q w.
Proof.
  intros Hops Hm Hnull Hb [_ Hl] HQ. erewrite pending_msgs_S in Hl by done.
  apply Forall_app in Hl as [_ Hl]. unfold mctp_bus_destroy. do 2 wp_step.
  destruct (decide (bus_tx_msg b = NULL)) as [Hz|Hz].
  - rewrite decide_False by auto. wp_step. rewrite set_bus_tx_msg_id, list_insert_id in HQ by done.
    unfold with_freed in HQ. by destruct w as [? ? ? ? []].
  - rewrite decide_True by done. apply Forall_cons in Hl as [Hl _].
    wp_step. apply wp_msg_free; [done..|]. wp_step. simpl. by erewrite alter_insert by done.
Qed.

Lemma wp_cleanup_busses k mctp (Q : unit -> world D -> Prop) w :
  mctp <> NULL -> w_ops w = default_alloc_ops -> w_heap w !! NULL = None ->
  m_n_busses (w_mctp w) = Z.of_nat k -> (k <= length (m_busses (w_mctp w)))%nat ->
  pending_ok k w -> Q tt (with_closed k w) -> wp (cleanup_busses (S k) mctp) Q w.
Proof.
  intros Hm. revert w. induction k as [|k IH]; intros w Hops Hnull Hn Hk Hp HQ.
  { cbn [cleanup_busses]. do 4 wp_step. rewrite decide_True by lia. wp_step.
    by rewrite with_closed_0 in HQ by lia. }
  destruct (lookup_lt_is_Some_2 (m_busses (w_mctp w)) k) as [b Hb]; [lia|].
  cbn [cleanup_busses]. do 4 wp_step. rewrite decide_False by lia. wp_step.
  rewrite decide_True by lia. do 2 wp_step. replace (Z.to_nat _) with k by lia.
  apply wp_bus_destroy with b; [done|done|done|done|done|].
  apply IH; simpl; [done| |lia|rewrite length_insert; lia| |].
  - rewrite lookup_freed. by destruct (decide _).
  - by eapply pending_ok_S.
  - by erewrite with_closed_S.
Qed.

Lemma rep_released (h F : gmap Z hobj) (cs : list mctp_msg_ctx) (r : gmap rkey partial) :
  reasm_rep h cs F r -> freed (ctx_bufs cs) h = F.
Proof.
  intros Hr. apply map_eq. intros a. rewrite lookup_freed. unfold ctx_bufs.
  destruct (decide (a ∈ _)) as [Ha|Ha].
  - apply list_elem_of_fmap in Ha as (c & -> & Hc). apply list_elem_of_filter in Hc as [Hl Hc].
    apply list_elem_of_lookup in Hc as [i Hi].
    by destruct (rr_ctx _ _ _ _ Hr i c Hi Hl) as (bs & _ & _ & _ & _ & ->).
  - apply (rr_frame _ _ _ _ Hr). intros i c Hi Hl E. apply Ha. subst a.
    apply list_elem_of_fmap. exists c. split; [done|]. apply list_elem_of_filter.
    split; [done|]. by eapply list_elem_of_lookup_2.
Qed.

Lemma rep_bufs (h F : gmap Z hobj) (cs : list mctp_msg_ctx) (r : gmap rkey partial) :
  reasm_rep h cs F r ->
  NoDup (ctx_bufs cs) /\ Forall (fun a => is_Some (h !! a) /\ F !! a = None) (ctx_bufs cs).
Proof.
  intros Hr. split.
  - apply live_NoDup. intros i j c d Hi Hj Hc _. by apply (rr_inj _ _ _ _ Hr i j c d).
  - rewrite Forall_forall. intros a Ha.
    apply list_elem_of_fmap in Ha as (c & -> & Hc). apply list_elem_of_filter in Hc as [Hl Hc].
    apply list_elem_of_lookup in Hc as [i Hi].
    destruct (rr_ctx _ _ _ _ Hr i c Hi Hl) as (bs & Hbs & _ & _ & _ & HF). eauto.
Qed.

Definition after_cleanup (n : nat) w : world D :=
  with_closed n (with_freed (ctx_bufs (m_msg_ctxs (w_mctp w))) w).

Lemma cleanup_run mctp F r w n :
  mctp <> NULL -> ctxs_inv w F r ->
  m_n_busses (w_mctp w) = Z.of_nat n -> (n <= length (m_busses (w_mctp w)))%nat ->
  NoDup (pending_msgs (take n (m_busses (w_mctp w)))) ->
  Forall (fun a => is_Some (F !! a)) (pending_msgs (take n (m_busses (w_mctp w)))) ->
  mctp_cleanup mctp w = Ok tt (after_cleanup n w) /\
  w_heap (after_cleanup n w) = freed (pending_msgs (take n (m_busses (w_mctp w)))) F.
Proof.
  intros Hm HI Hn Hle Hd Hl. pose proof (ci_rep _ _ _ HI) as Hr.
  destruct (rep_bufs _ _ _ _ Hr) as [Hbd Hbl].
  pose proof (rep_released _ _ _ _ Hr) as HF.
  pose proof (heap_wf_null _ (ci_heap _ _ _ HI)) as Hnull.
  split; [|simpl; by rewrite HF].
  apply wp_run. unfold mctp_cleanup. do 3 wp_step.
  apply wp_cleanup_ctxs; [apply HI|done|done|done| |].
  { eapply Forall_impl; [exact Hbl|]. naive_solver. }
  do 2 wp_step. simpl. rewrite Hn, Nat2Z.id.
  apply wp_cleanup_busses; simpl; [done|apply HI| |done|done| |done].
  - rewrite lookup_freed. by destruct (decide _).
  - split; [done|]. simpl. by rewrite HF.
Qed.

Lemma closed_not_pending n bs :
  (n <= length bs)%nat -> pending_msgs (take n (closed_busses n bs)) = [].
Proof.
  intros Hle.
  unfold closed_busses. rewrite take_app_length' by (rewrite length_fmap, length_take; lia).
  unfold pending_msgs. clear. induction (take n _) as [|b l IH]; [done|].
  rewrite !fmap_cons, filter_cons. by destruct (decide _).
Qed.

(** C25: Shutting a stack down.  Let the first [n_busses] busses hold distinct
    messages waiting to be sent, in blocks outside the reassembly buffers.
    [mctp_cleanup] returns, having freed exactly these messages and every
    buffer of a message being received, each once, and nothing else: what is
    left of the heap is the rest [F] without the messages.  Each of these busses
    holds no message any more, and [n_busses] is left at -1: the loop
    decrements it once more when it stops. *)
Theorem mctp_cleanup_releases mctp F r w n :
  mctp <> NULL -> ctxs_inv w F r ->
  m_n_busses (w_mctp w) = Z.of_nat n -> (n <= length (m_busses (w_mctp w)))%nat ->
  NoDup (pending_msgs (take n (m_busses (w_mctp w)))) ->
  Forall (fun a => is_Some (F !! a)) (pending_msgs (take n (m_busses (w_mctp w)))) ->
  exists w', mctp_cleanup mctp w = Ok tt w' /\
    (forall a, w_heap w' !! a =
       if decide (a ∈ pending_msgs (take n (m_busses (w_mctp w)))) then None else F !! a) /\
    pending_msgs (take n (m_busses (w_mctp w'))) = [] /\
    m_n_busses (w_mctp w') = -1 /\ w_trace w' = w_trace w /\ w_bindings w' = w_bindings w.
Proof.
  intros Hm HI Hn Hle Hd Hl.
  destruct (cleanup_run mctp F r w n) as [Hrun Hh]; [done..|].
  exists (after_cleanup n w). split; [done|]. rewrite Hh. split; [intros a; apply lookup_freed|].
  split; [by apply closed_not_pending|done].
Qed.

(** Unregistering before shutting down leaks.  If an endpoint's binding is
    unregistered while its bus holds the message [a] waiting to be sent,
    [mctp_cleanup] no longer sees the bus, [n_busses] being 0: both calls
    return, the reassembly buffers are freed, but the message stays allocated
    with nothing left to free it. *)
Theorem unregister_leaks_pending mctp binding F r w b a :
  mctp <> NULL -> ctxs_inv w F r -> is_Some (w_bindings w !! binding) ->
  m_busses (w_mctp w) !! 0%nat = Some b -> bus_tx_msg b = a -> is_Some (F !! a) ->
  exists w', (mctp_unregister_bus mctp binding;; mctp_cleanup mctp) w = Ok tt w' /\
    w_heap w' = F /\ is_Some (w_heap w' !! a) /\
    bus_tx_msg <$> m_busses (w_mctp w') !! 0%nat = Some a.
Proof.
  intros Hm HI [bd Hbd] Hb Ha HF.
  set (w1 := set_w_bindings (alter (set_bd_bus None) binding
       (alter (set_bd_mctp NULL) binding (w_bindings w)))
       (set_w_mctp (set_m_n_busses 0 (w_mctp w)) w)).
  assert (HI1 : ctxs_inv w1 F r) by (destruct HI; by split).
  destruct (cleanup_run mctp F r w1 0) as [Hrun Hh]; [done..|simpl; lia|constructor|constructor|].
  exists (after_cleanup 0 w1). rewrite Hh.
  change (m_busses (w_mctp (after_cleanup 0 w1))) with (m_busses (w_mctp w)).
  rewrite Hb, <- Ha. split; [|by subst]. apply wp_run.
  unfold mctp_unregister_bus. wp_steps. eapply wp_ok; [exact Hrun|done].
Qed.
End cleanup.
