(* ===== verification/Mmbi.v ===== *)
(** * The MMBI binding and its high-level API (src/mmbi.c)

    The binding of the Windows port: a device (or named pipe) opened by path, or
    a pair of memory regions; and the [mctp_mmbi_context] API on top.  The
    operating system is a parameter ([WinOps]). *)

From S2P Require Import Prelude State Alloc Pktbuf Reasm Tags Tx Control Rx Bus.

(** ** The operating system

    The Win32 calls the code makes, on a state [E] of the system.  [WriteFile]
    gives success and the number of bytes written, [ReadFile] success and the
    bytes read, [PeekNamedPipe] the bytes available, or [None] when it fails. *)
Class WinOps (E : Type) := {
  CreateFileA : string -> E -> Z * E;
  GetFileType_is_pipe : Z -> E -> bool;
  SetNamedPipeHandleState : Z -> E -> E;
  PeekNamedPipe : Z -> E -> option Z * E;
  WriteFile : Z -> list Z -> E -> bool * Z * E;
  ReadFile : Z -> Z -> E -> bool * list Z * E;
  GetLastError : E -> Z;
  Sleep : Z -> E -> E;
}.

Definition INVALID_HANDLE_VALUE := 18446744073709551615.
Definition ERROR_BROKEN_PIPE := 109.
Definition sizeof_mctp_binding_mmbi := 168.
Definition sizeof_mctp_mmbi_context := 40.
Definition sizeof_rx_buf := 65546.

(** ** Structures *)

(** [struct mctp_binding_mmbi] without its first member, the binding, which is
    found at the same address in [w_bindings]; [mb_lock] is how often the
    critical section has been entered, [None] when it is not initialised. *)
Record mctp_binding_mmbi := mk_mmbi {
  mb_rx_storage : Z;
  mb_tx_storage : Z;
  mb_memory_size : Z;
  mb_device_handle : Z;
  mb_lock : option Z;
}.

Definition set_mb_rx_storage (x : Z) (r : mctp_binding_mmbi) : mctp_binding_mmbi :=
  mk_mmbi x (mb_tx_storage r) (mb_memory_size r) (mb_device_handle r) (mb_lock r).
Definition set_mb_tx_storage (x : Z) (r : mctp_binding_mmbi) : mctp_binding_mmbi :=
  mk_mmbi (mb_rx_storage r) x (mb_memory_size r) (mb_device_handle r) (mb_lock r).
Definition set_mb_memory_size (x : Z) (r : mctp_binding_mmbi) : mctp_binding_mmbi :=
  mk_mmbi (mb_rx_storage r) (mb_tx_storage r) x (mb_device_handle r) (mb_lock r).
Definition set_mb_device_handle (x : Z) (r : mctp_binding_mmbi) : mctp_binding_mmbi :=
  mk_mmbi (mb_rx_storage r) (mb_tx_storage r) (mb_memory_size r) x (mb_lock r).
Definition set_mb_lock (x : option Z) (r : mctp_binding_mmbi) : mctp_binding_mmbi :=
  mk_mmbi (mb_rx_storage r) (mb_tx_storage r) (mb_memory_size r) (mb_device_handle r) x.

(** [struct mctp_mmbi_context]. *)
Record mctp_mmbi_context := mk_mmbi_context {
  cx_mctp : Z;
  cx_mmbi : Z;
  cx_rx_cb : fnptr;
  cx_user_ctx : Z;
  cx_debug : bool;
}.

Definition set_cx_mctp (x : Z) (r : mctp_mmbi_context) : mctp_mmbi_context :=
  mk_mmbi_context x (cx_mmbi r) (cx_rx_cb r) (cx_user_ctx r) (cx_debug r).
Definition set_cx_mmbi (x : Z) (r : mctp_mmbi_context) : mctp_mmbi_context :=
  mk_mmbi_context (cx_mctp r) x (cx_rx_cb r) (cx_user_ctx r) (cx_debug r).
Definition set_cx_rx_cb (x : fnptr) (r : mctp_mmbi_context) : mctp_mmbi_context :=
  mk_mmbi_context (cx_mctp r) (cx_mmbi r) x (cx_user_ctx r) (cx_debug r).
Definition set_cx_user_ctx (x : Z) (r : mctp_mmbi_context) : mctp_mmbi_context :=
  mk_mmbi_context (cx_mctp r) (cx_mmbi r) (cx_rx_cb r) x (cx_debug r).
Definition set_cx_debug (x : bool) (r : mctp_mmbi_context) : mctp_mmbi_context :=
  mk_mmbi_context (cx_mctp r) (cx_mmbi r) (cx_rx_cb r) (cx_user_ctx r) x.

(** [struct mctp_transport] (src/transport.c). *)
Record mctp_transport := mk_transport {
  tr_mctp : Z;
  tr_mmbi : Z;
  tr_rx_cb : fnptr;
  tr_user_context : Z;
}.

Definition set_tr_mctp (x : Z) (r : mctp_transport) : mctp_transport :=
  mk_transport x (tr_mmbi r) (tr_rx_cb r) (tr_user_context r).
Definition set_tr_mmbi (x : Z) (r : mctp_transport) : mctp_transport :=
  mk_transport (tr_mctp r) x (tr_rx_cb r) (tr_user_context r).
Definition set_tr_rx_cb (x : fnptr) (r : mctp_transport) : mctp_transport :=
  mk_transport (tr_mctp r) (tr_mmbi r) x (tr_user_context r).
Definition set_tr_user_context (x : Z) (r : mctp_transport) : mctp_transport :=
  mk_transport (tr_mctp r) (tr_mmbi r) (tr_rx_cb r) x.

(** The environment of the core in this configuration: the objects of mmbi.c and
    transport.c by address, the operating system, and a record of how deep the
    binding's critical section was entered at each [WriteFile]. *)
Record mmbi_env (E : Type) := mk_env {
  dv_mmbis : gmap Z mctp_binding_mmbi;
  dv_ctxs : gmap Z mctp_mmbi_context;
  dv_transports : gmap Z mctp_transport;
  dv_os : E;
  dv_write_depths : list (option Z);
}.
Arguments mk_env {E}.
Arguments dv_mmbis {E} _.
Arguments dv_ctxs {E} _.
Arguments dv_transports {E} _.
Arguments dv_os {E} _.
Arguments dv_write_depths {E} _.

Section mmbi.
Context {E : Type} `{!WinOps E}.
Context `{!ExtAlloc (mmbi_env E), !BindingOps (mmbi_env E), !RxOps (mmbi_env E),
          !StartOps (mmbi_env E)}.
Local Abbreviation D := (mmbi_env E).
Local Abbreviation IO := (M (world D)).

(** ** Access to the environment *)

Definition upd_env (f : D -> D) : IO unit := modify (fun w => set_w_dev (f (w_dev w)) w).

Definition get_mmbi (p : Z) : IO mctp_binding_mmbi := fun w =>
  match dv_mmbis (w_dev w) !! p with Some m => Ok m w | None => Stuck BadAccess end.

Definition set_mmbis (g : gmap Z mctp_binding_mmbi -> gmap Z mctp_binding_mmbi) (d : D) : D :=
  mk_env (g (dv_mmbis d)) (dv_ctxs d) (dv_transports d) (dv_os d) (dv_write_depths d).

Definition upd_mmbi (p : Z) (f : mctp_binding_mmbi -> mctp_binding_mmbi) : IO unit :=
  upd_env (set_mmbis (alter f p)).

Definition get_mmbi_ctx (p : Z) : IO mctp_mmbi_context := fun w =>
  match dv_ctxs (w_dev w) !! p with Some c => Ok c w | None => Stuck BadAccess end.

Definition set_ctxs_map (g : gmap Z mctp_mmbi_context -> gmap Z mctp_mmbi_context) (d : D) : D :=
  mk_env (dv_mmbis d) (g (dv_ctxs d)) (dv_transports d) (dv_os d) (dv_write_depths d).

Definition upd_mmbi_ctx (p : Z) (f : mctp_mmbi_context -> mctp_mmbi_context) : IO unit :=
  upd_env (set_ctxs_map (alter f p)).

(** A call to the operating system. *)
Definition os_call {A} (f : E -> A * E) : IO A := fun w =>
  let d := w_dev w in
  let '(a, e) := f (dv_os d) in
  Ok a (set_w_dev (mk_env (dv_mmbis d) (dv_ctxs d) (dv_transports d) e (dv_write_depths d)) w).

Definition os_do (f : E -> E) : IO unit := os_call (fun e => (tt, f e)).
Definition os_get {A} (f : E -> A) : IO A := os_call (fun e => (f e, e)).

(** ** The critical section *)

Definition InitializeCriticalSection (mmbi : Z) : IO unit := upd_mmbi mmbi (set_mb_lock (Some 0)).

Definition DeleteCriticalSection (mmbi : Z) : IO unit := upd_mmbi mmbi (set_mb_lock None).

Definition EnterCriticalSection (mmbi : Z) : IO unit :=
  m ← get_mmbi mmbi;
  match mb_lock m with
  | Some n => upd_mmbi mmbi (set_mb_lock (Some (n + 1)))
  | None => stuck BadCall
  end.

Definition LeaveCriticalSection (mmbi : Z) : IO unit :=
  m ← get_mmbi mmbi;
  match mb_lock m with
  | Some n => if decide (0 < n) then upd_mmbi mmbi (set_mb_lock (Some (n - 1))) else stuck BadCall
  | None => stuck BadCall
  end.

(** ** The binding *)

Definition zero_binding : mctp_binding :=
  mk_binding 0 None NULL 0 0 0 NULL None None None 0.
Definition zero_mmbi : mctp_binding_mmbi := mk_mmbi NULL NULL 0 NULL None.

(** [memset] of a new [struct mctp_binding_mmbi]. *)
Definition create_mmbi (p : Z) : IO unit :=
  modify (fun w => set_w_bindings (<[p := zero_binding]> (w_bindings w)) w);;
  upd_env (set_mmbis (<[p := zero_mmbi]>)).

Definition mctp_mmbi_init : IO Z :=
  mmbi ← __mctp_alloc sizeof_mctp_binding_mmbi;
  if decide (mmbi = NULL) then mret NULL else
  create_mmbi mmbi;;
  upd_binding mmbi (set_bd_version 1);;
  upd_binding mmbi (set_bd_tx None);;
  upd_binding mmbi (set_bd_start None);;
  upd_binding mmbi (set_bd_pkt_size (MCTP_PACKET_SIZE 65536));;
  upd_binding mmbi (set_bd_pkt_header 0);;
  upd_binding mmbi (set_bd_pkt_trailer 0);;
  InitializeCriticalSection mmbi;;
  mret mmbi.

Definition mctp_mmbi_destroy (mmbi : Z) : IO unit :=
  if decide (mmbi = NULL) then mret tt else
  DeleteCriticalSection mmbi;;
  __mctp_free mmbi.

(** The retry loop of [mctp_mmbi_tx], with [n] attempts left; [res] and
    [written] are what the last attempt gave. *)
Fixpoint write_loop (n : nat) (handle : Z) (buf : list Z) (len : Z) (res : bool) (written : Z)
    (mmbi : Z) : IO (bool * Z) :=
  match n with
  | O => mret (res, written)
  | S n =>
      m ← get_mmbi mmbi;
      upd_env (fun d => mk_env (dv_mmbis d) (dv_ctxs d) (dv_transports d) (dv_os d)
        (dv_write_depths d ++ [mb_lock m]));;
      '(res, written) ← os_call (fun e => WriteFile handle (slice 0 (u32 len) buf) e);
      if decide (res = true /\ written = len) then mret (res, written) else
      os_do (Sleep 1);;
      write_loop n handle buf len res written mmbi
  end.

Definition handle_valid (h : Z) : Prop := h <> NULL /\ h <> INVALID_HANDLE_VALUE.
#[export] Instance handle_valid_dec h : Decision (handle_valid h).
Proof. unfold handle_valid. apply _. Defined.

Definition mctp_mmbi_tx (b pkt : Z) : IO Z :=
  mmbi ← get_mmbi b;
  p ← load_pkt pkt;
  let len := mctp_pktbuf_size p in
  if decide (handle_valid (mb_device_handle mmbi)) then
    buf ← pkt_read pkt (mctp_pktbuf_hdr p) len;
    '(res, written) ← write_loop 3 (mb_device_handle mmbi) buf len false 0 b;
    if decide (res = false \/ written <> len) then mret (- EIO) else mret 0
  else
  if decide (mb_tx_storage mmbi = NULL) then mret (-1) else
  if decide (len > mb_memory_size mmbi) then mret (- EMSGSIZE) else
  buf ← pkt_read pkt (mctp_pktbuf_hdr p) len;
  store_bytes (mb_tx_storage mmbi) 0 buf;;
  mret 0.

Definition mctp_mmbi_start (b : Z) : IO Z :=
  mctp_binding_set_tx_enabled b true;;
  mret 0.

(** What both ways of initialising share. *)
Definition mmbi_set_ops (mmbi : Z) : IO Z :=
  upd_binding mmbi (set_bd_tx (Some "mctp_mmbi_tx"%string));;
  upd_binding mmbi (set_bd_start (Some "mctp_mmbi_start"%string));;
  s ← __mctp_alloc (MCTP_PKTBUF_SIZE 65536);
  upd_binding mmbi (set_bd_tx_storage s);;
  if decide (s = NULL) then mret (- ENOMEM) else mret 0.

Definition mctp_mmbi_init_mem (mmbi tx_addr rx_addr size : Z) : IO Z :=
  if decide (mmbi = NULL) then mret (- EINVAL) else
  upd_mmbi mmbi (set_mb_tx_storage tx_addr);;
  upd_mmbi mmbi (set_mb_rx_storage rx_addr);;
  upd_mmbi mmbi (set_mb_memory_size size);;
  mmbi_set_ops mmbi.

Definition mctp_mmbi_init_device (mmbi : Z) (device_path : string) : IO Z :=
  hDevice ← os_call (CreateFileA device_path);
  if decide (hDevice = INVALID_HANDLE_VALUE) then mret (-1) else
  upd_mmbi mmbi (set_mb_device_handle hDevice);;
  pipe ← os_get (GetFileType_is_pipe hDevice);
  (if pipe : bool then os_do (SetNamedPipeHandleState hDevice) else mret tt);;
  mmbi_set_ops mmbi.

(** What [mctp_mmbi_poll] does with the bytes it has read. *)
Definition poll_deliver (mmbi : Z) (rx_buf : list Z) : IO Z :=
  EnterCriticalSection mmbi;;
  pkt ← mctp_pktbuf_alloc mmbi (zlen rx_buf);
  if decide (pkt = NULL) then LeaveCriticalSection mmbi;; mret (- ENOMEM) else
  p ← load_pkt pkt;
  pkt_write pkt (mctp_pktbuf_hdr p) rx_buf;;
  mctp_bus_rx mmbi pkt;;
  LeaveCriticalSection mmbi;;
  mret 0.

Definition mctp_mmbi_poll (mmbi : Z) : IO Z :=
  m ← get_mmbi mmbi;
  if decide (handle_valid (mb_device_handle m)) then
    avail ← os_call (PeekNamedPipe (mb_device_handle m));
    if decide (avail = Some 0) then os_do (Sleep 1);; mret 0 else
    bd ← get_binding mmbi;
    let max_to_read := u32 (u32 (bd_pkt_size bd) + 4) in
    let max_to_read := if decide (max_to_read > sizeof_rx_buf) then sizeof_rx_buf
                       else max_to_read in
    '(res, rx_buf) ← os_call (ReadFile (mb_device_handle m) max_to_read);
    if decide (res = true /\ 0 < zlen rx_buf) then poll_deliver mmbi rx_buf
    else if decide (res = false) then
      err ← os_get GetLastError;
      if decide (err = ERROR_BROKEN_PIPE) then mret (- EPIPE) else mret 0
    else mret 0
  else mret 0.

Definition mctp_mmbi_rx (mmbi len : Z) : IO Z :=
  if decide (mmbi = NULL) then mret (- EINVAL) else
  m ← get_mmbi mmbi;
  if decide (mb_rx_storage m = NULL) then mret (- EINVAL) else
  if decide (len > mb_memory_size m) then mret (- EMSGSIZE) else
  pkt ← mctp_pktbuf_alloc mmbi len;
  if decide (pkt = NULL) then mret (- ENOMEM) else
  region ← load_bytes (mb_rx_storage m) 0 len;
  rc ← mctp_pktbuf_push pkt region len;
  if decide (rc <> 0) then mctp_pktbuf_free pkt;; mret (-1) else
  mctp_bus_rx mmbi pkt;;
  mret 0.
End mmbi.

(** ** The high-level API *)

(** [mctp_mmbi_rx_cb] and [mctp_transport_rx_cb]: source EID, message, length,
    user context. *)
Class UserOps (D : Type) := { uop_rx : string -> Z -> Z -> Z -> Z -> M (world D) unit }.

Section context.
Context {E : Type} `{!WinOps E}.
Context `{!ExtAlloc (mmbi_env E), !BindingOps (mmbi_env E), !RxOps (mmbi_env E),
          !StartOps (mmbi_env E), !UserOps (mmbi_env E), !ClockOps (mmbi_env E)}.
Local Abbreviation D := (mmbi_env E).
Local Abbreviation IO := (M (world D)).

(** The callback the core is given, with the context as its data. *)
Definition mmbi_internal_rx (eid : Z) (tag_owner : bool) (msg_tag data msg len : Z) : IO unit :=
  if decide (data = NULL) then mret tt else
  ctx ← get_mmbi_ctx data;
  match cx_rx_cb ctx with
  | Some cb => uop_rx cb eid msg len (cx_user_ctx ctx)
  | None => mret tt
  end.

Definition create_mmbi_ctx (p : Z) : IO unit :=
  upd_env (set_ctxs_map (<[p := mk_mmbi_context NULL NULL None NULL false]>)).

(** The loop that opens the device, with [n] attempts left. *)
Fixpoint open_loop (n : nat) (mmbi : Z) (device_path : string) : IO unit :=
  match n with
  | O => mret tt
  | S n =>
      rc ← mctp_mmbi_init_device mmbi device_path;
      if decide (rc = 0) then mret tt else
      os_do (Sleep 100);;
      open_loop n mmbi device_path
  end.

Definition mctp_mmbi_context_init (device_path : string) (local_eid : Z) : IO Z :=
  ctx ← __mctp_alloc sizeof_mctp_mmbi_context;
  if decide (ctx = NULL) then mret NULL else
  create_mmbi_ctx ctx;;
  mctp ← mctp_init;
  upd_mmbi_ctx ctx (set_cx_mctp mctp);;
  if decide (mctp = NULL) then __mctp_free ctx;; mret NULL else
  mmbi ← mctp_mmbi_init;
  upd_mmbi_ctx ctx (set_cx_mmbi mmbi);;
  if decide (mmbi = NULL) then mctp_destroy mctp;; __mctp_free ctx;; mret NULL else
  open_loop 5 mmbi device_path;;
  m ← get_mmbi mmbi;
  if decide (mb_device_handle m = NULL) then
    mctp_mmbi_destroy mmbi;; mctp_destroy mctp;; __mctp_free ctx;; mret NULL
  else
  mctp_register_bus mctp mmbi local_eid;;
  mctp_binding_set_tx_enabled mmbi true;;
  mctp_set_rx_all mctp (Some "mmbi_internal_rx"%string) ctx;;
  mret ctx.

Definition mctp_mmbi_context_destroy (ctx : Z) : IO unit :=
  if decide (ctx = NULL) then mret tt else
  c ← get_mmbi_ctx ctx;
  (if decide (cx_mctp c <> NULL /\ cx_mmbi c <> NULL)
   then mctp_unregister_bus (cx_mctp c) (cx_mmbi c) else mret tt);;
  (if decide (cx_mmbi c <> NULL) then mctp_mmbi_destroy (cx_mmbi c) else mret tt);;
  (if decide (cx_mctp c <> NULL) then mctp_destroy (cx_mctp c) else mret tt);;
  __mctp_free ctx.

(** [data] is the memory the caller's pointer designates. *)
Definition mctp_mmbi_send (ctx dst_eid : Z) (data : list Z) (len : Z) : IO Z :=
  if decide (ctx = NULL) then mret (-1) else
  c ← get_mmbi_ctx ctx;
  if decide (cx_mctp c = NULL) then mret (-1) else
  EnterCriticalSection (cx_mmbi c);;
  rc ← mctp_message_tx (cx_mctp c) dst_eid false 0 data len;
  LeaveCriticalSection (cx_mmbi c);;
  mret rc.

Definition mctp_mmbi_set_rx_callback (ctx : Z) (cb : fnptr) (user_context : Z) : IO unit :=
  if decide (ctx = NULL) then mret tt else
  upd_mmbi_ctx ctx (set_cx_rx_cb cb);;
  upd_mmbi_ctx ctx (set_cx_user_ctx user_context).

Definition mctp_mmbi_set_debug (ctx : Z) (enable : bool) : IO unit :=
  if decide (ctx = NULL) then mret tt else
  upd_mmbi_ctx ctx (set_cx_debug enable).

Definition mctp_mmbi_context_poll (ctx : Z) : IO Z :=
  if decide (ctx = NULL) then mret (-1) else
  c ← get_mmbi_ctx ctx;
  if decide (cx_mmbi c = NULL) then mret (-1) else
  mctp_mmbi_poll (cx_mmbi c).

(** ** src/transport.c *)

Definition sizeof_mctp_transport := 32.

Definition get_transport (p : Z) : IO mctp_transport := fun w =>
  match dv_transports (w_dev w) !! p with Some c => Ok c w | None => Stuck BadAccess end.

Definition set_transports (g : gmap Z mctp_transport -> gmap Z mctp_transport) (d : D) : D :=
  mk_env (dv_mmbis d) (dv_ctxs d) (g (dv_transports d)) (dv_os d) (dv_write_depths d).

Definition upd_transport (p : Z) (f : mctp_transport -> mctp_transport) : IO unit :=
  upd_env (set_transports (alter f p)).

Definition transport_rx_handler (eid : Z) (tag_owner : bool) (msg_tag data msg len : Z) : IO unit :=
  if decide (data = NULL) then mret tt else
  ctx ← get_transport data;
  match tr_rx_cb ctx with
  | Some cb => uop_rx cb eid msg len (tr_user_context ctx)
  | None => mret tt
  end.

(** [calloc] and [free] of the C library, not the allocator of alloc.c. *)
Definition mctp_transport_init (device_path : string) (local_eid : Z) : IO Z :=
  ctx ← malloc sizeof_mctp_transport;
  if decide (ctx = NULL) then mret NULL else
  upd_env (set_transports (<[ctx := mk_transport NULL NULL None NULL]>));;
  mctp ← mctp_init;
  upd_transport ctx (set_tr_mctp mctp);;
  if decide (mctp = NULL) then free ctx;; mret NULL else
  mmbi ← mctp_mmbi_init;
  upd_transport ctx (set_tr_mmbi mmbi);;
  if decide (mmbi = NULL) then mctp_destroy mctp;; free ctx;; mret NULL else
  rc ← mctp_mmbi_init_device mmbi device_path;
  if decide (rc <> 0) then
    mctp_mmbi_destroy mmbi;; mctp_destroy mctp;; free ctx;; mret NULL
  else
  mctp_register_bus mctp mmbi local_eid;;
  mctp_binding_set_tx_enabled mmbi true;;
  mctp_set_rx_all mctp (Some "transport_rx_handler"%string) ctx;;
  mret ctx.

Definition mctp_transport_destroy (ctx : Z) : IO unit :=
  if decide (ctx = NULL) then mret tt else
  c ← get_transport ctx;
  (if decide (tr_mctp c <> NULL /\ tr_mmbi c <> NULL)
   then mctp_unregister_bus (tr_mctp c) (tr_mmbi c) else mret tt);;
  (if decide (tr_mmbi c <> NULL) then mctp_mmbi_destroy (tr_mmbi c) else mret tt);;
  (if decide (tr_mctp c <> NULL) then mctp_destroy (tr_mctp c) else mret tt);;
  free ctx.

Definition mctp_transport_set_rx_callback (ctx : Z) (cb : fnptr) (user_context : Z) : IO unit :=
  if decide (ctx = NULL) then mret tt else
  upd_transport ctx (set_tr_rx_cb cb);;
  upd_transport ctx (set_tr_user_context user_context).

Definition mctp_transport_send (ctx dst_eid : Z) (data : list Z) (len : Z) : IO Z :=
  if decide (ctx = NULL) then mret (-1) else
  c ← get_transport ctx;
  if decide (tr_mctp c = NULL) then mret (-1) else
  mctp_message_tx (tr_mctp c) dst_eid false 0 data len.

Definition mctp_transport_poll (ctx : Z) : IO Z :=
  if decide (ctx = NULL) then mret (-1) else
  c ← get_transport ctx;
  if decide (tr_mmbi c = NULL) then mret (-1) else
  mctp_mmbi_poll (tr_mmbi c).
End context.
