(* ===== verification/MmbiFacts.v ===== *)
(** * What the MMBI binding does

    [mctp_mmbi_tx] on a device, as an implementation of the interface the core's
    transmit theorems are proved against, and sending over it. *)

From S2P Require Import Prelude State Alloc Pktbuf Reasm Tags Tx Control Rx RxSpec RxRefine.
From S2P Require Import Frag TxRefine TxApi Bus Mmbi.

Section tx.
Context {E : Type} `{!WinOps E}.
Local Abbreviation D := (mmbi_env E).

(** ** Transmission *)

(** An attempt at writing [bs] that does not write all of it, and the pause
    after it. *)
Definition write_fails (h : Z) (bs : list Z) (e e' : E) : Prop :=
  exists res written e1, WriteFile h bs e = (res, written, e1) /\
    ~ (res = true /\ written = zlen bs) /\ e' = Sleep 1 e1.

Definition write_succeeds (h : Z) (bs : list Z) (e e' : E) : Prop :=
  WriteFile h bs e = (true, zlen bs, e').

(** The environment after [k] more writes. *)
Definition env_written (d : D) (lock : option Z) (k : nat) (e : E) : D :=
  mk_env (dv_mmbis d) (dv_ctxs d) (dv_transports d) e (dv_write_depths d ++ replicate k lock).

Lemma env_written_0 d lock : env_written d lock 0 (dv_os d) = d.
Proof. unfold env_written. rewrite app_nil_r. by destruct d. Qed.

Lemma write_loop_run n h bs m mmbi res written (w : world D) :
  dv_mmbis (w_dev w) !! mmbi = Some m -> zlen bs < U32_MOD ->
  (exists k e e', (k < n)%nat /\ nsteps (write_fails h bs) k (dv_os (w_dev w)) e /\
     write_succeeds h bs e e' /\
     write_loop n h bs (zlen bs) res written mmbi w =
       Ok (true, zlen bs) (set_w_dev (env_written (w_dev w) (mb_lock m) (S k) e') w)) \/
  (exists res' written' e, nsteps (write_fails h bs) n (dv_os (w_dev w)) e /\
     ((n = 0%nat /\ res' = res /\ written' = written) \/ ~ (res' = true /\ written' = zlen bs)) /\
     write_loop n h bs (zlen bs) res written mmbi w =
       Ok (res', written') (set_w_dev (env_written (w_dev w) (mb_lock m) n e) w)).
Proof.
  intros Hm Hlen. pose proof (zlen_nonneg bs) as Hn.
  assert (Hbs : slice 0 (u32 (zlen bs)) bs = bs).
  { rewrite u32_small by lia. by apply slice_all. }
  revert res written w Hm. induction n as [|n IH]; intros res written w Hm.
  { right. exists res, written, (dv_os (w_dev w)). split; [constructor|]. split; [by left|].
    rewrite env_written_0. by destruct w. }
  cbn [write_loop]. unfold get_mmbi, upd_env, os_call, os_do, mbind, M_bind, modify. rewrite Hm.
  simpl. rewrite Hbs.
  destruct (WriteFile h bs (dv_os (w_dev w))) as [[r wr] e1] eqn:Hw. simpl.
  case_decide as Hd.
  - destruct Hd as [-> ->]. left. exists 0%nat, (dv_os (w_dev w)), e1.
    split; [lia|]. split; [constructor|]. split; [done|]. done.
  - set (w1 := set_w_dev _ _).
    assert (Hf : write_fails h bs (dv_os (w_dev w)) (dv_os (w_dev w1))) by by exists r, wr, e1.
    specialize (IH r wr w1 Hm).
    assert (Henv : forall k e, set_w_dev (env_written (w_dev w1) (mb_lock m) k e) w1
      = set_w_dev (env_written (w_dev w) (mb_lock m) (S k) e) w).
    { intros k e. unfold env_written. simpl. by rewrite <- app_assoc. }
    destruct IH as [(k & e & e' & Hk & Hs & Hsucc & ->)|(r' & wr' & e & Hs & Hr & ->)];
      rewrite Henv; [left|right].
    + exists (S k), e, e'. split; [lia|]. split; [by econstructor|]. done.
    + exists r', wr', e. split; [by econstructor|]. split; [|done].
      destruct Hr as [(_ & -> & ->)|Hr]; by right.
Qed.

Lemma readable_size p : pkt_readable p ->
  mctp_pktbuf_size p = pb_end p - pb_start p /\ zlen (pkt_wire p) = mctp_pktbuf_size p.
Proof.
  intros (H1 & H2 & H3). assert (E0 : mctp_pktbuf_size p = pb_end p - pb_start p).
  { apply sz_small. lia. }
  split; [done|]. unfold pkt_wire, mctp_pktbuf_hdr. apply zlen_slice; lia.
Qed.

Lemma mmbi_tx_start b m pkt p (w : world D) :
  dv_mmbis (w_dev w) !! b = Some m -> handle_valid (mb_device_handle m) ->
  w_heap w !! pkt = Some (HPkt p) -> pkt_readable p ->
  mctp_mmbi_tx b pkt w =
    ('(res, written) ← write_loop 3 (mb_device_handle m) (pkt_wire p) (zlen (pkt_wire p)) false 0 b;
     if decide (res = false \/ written <> zlen (pkt_wire p)) then mret (- EIO) else mret 0) w.
Proof.
  intros Hm Hh Hp Hr. destruct (readable_size p Hr) as [Hsz Hz]. pose proof Hr as (R1 & R2 & R3).
  unfold mctp_mmbi_tx, get_mmbi, load_pkt, load_obj, pkt_read, mbind, M_bind.
  rewrite Hm, Hp. simpl. rewrite decide_True by done. unfold load_pkt, load_obj, mbind, M_bind.
  rewrite Hp. simpl. rewrite decide_True by (unfold mctp_pktbuf_hdr; lia). simpl.
  by rewrite Hz.
Qed.

Lemma mmbi_tx_run b m pkt p (w : world D) :
  dv_mmbis (w_dev w) !! b = Some m -> handle_valid (mb_device_handle m) ->
  w_heap w !! pkt = Some (HPkt p) -> pkt_readable p -> zlen (pkt_wire p) < U32_MOD ->
  let h := mb_device_handle m in let e0 := dv_os (w_dev w) in
  (exists k e e', (k < 3)%nat /\ nsteps (write_fails h (pkt_wire p)) k e0 e /\
     write_succeeds h (pkt_wire p) e e' /\
     mctp_mmbi_tx b pkt w = Ok 0 (set_w_dev (env_written (w_dev w) (mb_lock m) (S k) e') w)) \/
  (exists e, nsteps (write_fails h (pkt_wire p)) 3 e0 e /\
     mctp_mmbi_tx b pkt w = Ok (- EIO) (set_w_dev (env_written (w_dev w) (mb_lock m) 3 e) w)).
Proof.
  intros Hm Hh Hp Hr Hlen h e0. rewrite (mmbi_tx_start b m pkt p) by done.
  unfold mbind, M_bind. fold h.
  destruct (write_loop_run 3 h (pkt_wire p) m b false 0 w Hm Hlen)
    as [(k & e & e' & Hk & Hs & Hsucc & ->)|(r & wr & e & Hs & Hres & ->)]; [left|right].
  - exists k, e, e'. do 3 (split; [done|]). by rewrite decide_False by naive_solver.
  - exists e. split; [done|]. destruct Hres as [[? _]|Hres]; [done|].
    rewrite decide_True; [done|]. destruct r; [right|by left]. intros ->. by apply Hres.
Qed.

(** Without a device the packet is copied to the memory region. *)
Lemma mmbi_tx_memory b m pkt p (w : world D) :
  dv_mmbis (w_dev w) !! b = Some m -> ~ handle_valid (mb_device_handle m) ->
  w_heap w !! pkt = Some (HPkt p) -> pkt_readable p ->
  let bs := pkt_wire p in
  if decide (mb_tx_storage m = NULL) then mctp_mmbi_tx b pkt w = Ok (-1) w else
  if decide (zlen bs > mb_memory_size m) then mctp_mmbi_tx b pkt w = Ok (- EMSGSIZE) w else
  forall region, w_heap w !! mb_tx_storage m = Some (HBytes region) -> mb_memory_size m <= zlen region ->
    mctp_mmbi_tx b pkt w =
      Ok 0 (set_w_heap (<[mb_tx_storage m := HBytes (splice 0 bs region)]> (w_heap w)) w).
Proof.
  intros Hm Hh Hp Hr bs. destruct (readable_size p Hr) as [Hsz Hz]. pose proof Hr as (R1 & R2 & R3).
  fold bs in Hz. pose proof (zlen_nonneg bs) as Hn.
  assert (Hstart : forall (Q : Z -> world D -> Prop),
    wp (if decide (mb_tx_storage m = NULL) then mret (-1) else
        if decide (zlen bs > mb_memory_size m) then mret (- EMSGSIZE) else
        buf ← pkt_read pkt (mctp_pktbuf_hdr p) (zlen bs);
        store_bytes (mb_tx_storage m) 0 buf;; mret 0) Q w -> wp (mctp_mmbi_tx b pkt) Q w).
  { intros Q HQ. unfold mctp_mmbi_tx. wp_step. eapply wp_ok; [unfold get_mmbi; by rewrite Hm|].
    wp_step. eapply wp_load_pkt; [exact Hp|]. cbv zeta.
    rewrite (decide_False (P := handle_valid _)) by done. rewrite <- Hz. exact HQ. }
  case_decide as H1; [|case_decide as H2; [|intros region Hreg Hlen]];
    apply wp_run_eq, Hstart; [done..|].
  wp_step.
  eapply wp_pkt_read; [exact Hp|unfold mctp_pktbuf_hdr; lia|lia|unfold mctp_pktbuf_hdr; lia|].
  assert (Hbs : slice (mctp_pktbuf_hdr p) (zlen bs) (pb_data p) = bs) by (rewrite Hz; done).
  rewrite Hbs. wp_step. eapply wp_store_bytes; [exact Hreg|lia|lia|]. by wp_step.
Qed.

(** C37: Sending a packet, on every branch.  On a device the whole packet is
    offered to [WriteFile] up to three times, from its first byte each time and
    with a pause after each failure; [mctp_mmbi_tx] returns 0 as soon as one
    attempt takes all of it, and [-EIO] after three that did not.  Without a
    device the packet is copied to the start of the memory region, over the
    packet before, and never beyond the region's size: a longer packet gives
    [-EMSGSIZE], a missing region -1. *)
Theorem mctp_mmbi_tx_spec b m pkt p (w : world D) :
  dv_mmbis (w_dev w) !! b = Some m -> w_heap w !! pkt = Some (HPkt p) -> pkt_readable p ->
  zlen (pkt_wire p) < U32_MOD ->
  let h := mb_device_handle m in let e0 := dv_os (w_dev w) in let bs := pkt_wire p in
  if decide (handle_valid h) then
    (exists k e e', (k < 3)%nat /\ nsteps (write_fails h bs) k e0 e /\ write_succeeds h bs e e' /\
       mctp_mmbi_tx b pkt w = Ok 0 (set_w_dev (env_written (w_dev w) (mb_lock m) (S k) e') w)) \/
    (exists e, nsteps (write_fails h bs) 3 e0 e /\
       mctp_mmbi_tx b pkt w = Ok (- EIO) (set_w_dev (env_written (w_dev w) (mb_lock m) 3 e) w))
  else if decide (mb_tx_storage m = NULL) then mctp_mmbi_tx b pkt w = Ok (-1) w
  else if decide (zlen bs > mb_memory_size m) then mctp_mmbi_tx b pkt w = Ok (- EMSGSIZE) w
  else forall region, w_heap w !! mb_tx_storage m = Some (HBytes region) ->
    mb_memory_size m <= zlen region ->
    mctp_mmbi_tx b pkt w =
      Ok 0 (set_w_heap (<[mb_tx_storage m := HBytes (splice 0 bs region)]> (w_heap w)) w).
Proof.
  intros Hm Hp Hr Hlen h e0 bs. case_decide; [by apply mmbi_tx_run|by apply mmbi_tx_memory].
Qed.
End tx.

(** ** The binding as an implementation of the core's interface *)
Section instances.
Context {E : Type} `{!WinOps E, !UserOps (mmbi_env E)}.
Local Abbreviation D := (mmbi_env E).

(** The function pointers this configuration sets; nothing captures packets. *)
#[export] Instance mmbi_binding_ops : BindingOps D := {|
  bop_tx f b pkt := if decide (f = "mctp_mmbi_tx"%string) then mctp_mmbi_tx b pkt
                    else stuck BadCall;
  bop_capture _ _ _ _ := mret tt |}.

#[export] Instance mmbi_rx_ops : RxOps D := {|
  rop_rx f src to tag data buf len :=
    if decide (f = "mmbi_internal_rx"%string) then mmbi_internal_rx src to tag data buf len
    else if decide (f = "transport_rx_handler"%string)
    then transport_rx_handler src to tag data buf len
    else stuck BadCall |}.

(** The two APIs' callbacks, given their own objects. *)
#[export] Instance mmbi_rx_ready : RxReady D := fun f data d =>
  (f = "mmbi_internal_rx"%string /\ (data = NULL \/ is_Some (dv_ctxs d !! data))) \/
  (f = "transport_rx_handler"%string /\ (data = NULL \/ is_Some (dv_transports d !! data))).

#[export] Instance mmbi_start_ops `{!ExtAlloc D, !ClockOps D} : StartOps D := {|
  sop_start f b := if decide (f = "mctp_mmbi_start"%string) then mctp_mmbi_start b
                   else stuck BadCall |}.

#[export] Instance mmbi_quiet_capture : QuietCapture D.
Proof. split. intros. exists (w_dev w). by destruct w. Qed.

Lemma write_loop_total n h buf len r wr mmbi m (w : world D) :
  dv_mmbis (w_dev w) !! mmbi = Some m ->
  exists r' wr' d, write_loop n h buf len r wr mmbi w = Ok (r', wr') (set_w_dev d w) /\
    dv_mmbis d = dv_mmbis (w_dev w).
Proof.
  revert r wr w. induction n as [|n IH]; intros r wr w Hm.
  { exists r, wr, (w_dev w). split; [by destruct w|done]. }
  cbn [write_loop]. unfold get_mmbi, upd_env, os_call, os_do, mbind, M_bind, modify. rewrite Hm.
  simpl. destruct (WriteFile h _ _) as [[r1 wr1] e1]. simpl. case_decide; [by eexists _, _, _|].
  set (w1 := set_w_dev _ _). destruct (IH r1 wr1 w1 Hm) as (r' & wr' & d & -> & Hd).
  by exists r', wr', d.
Qed.

(** The binding's transmit function, once the device is open. *)
Definition mmbi_ready (f : string) (b : Z) (d : D) : Prop :=
  f = "mctp_mmbi_tx"%string /\
  exists m, dv_mmbis d !! b = Some m /\ handle_valid (mb_device_handle m).

#[export] Instance mmbi_quiet_tx : QuietTx D mmbi_ready (fun rc => rc = 0 \/ rc = - EIO).
Proof.
  split; [|by intros f b g pkt out data w w' H [= <-]].
  intros f b pkt p w [-> (m & Hm & Hh)] Hp Hr. destruct (readable_size p Hr) as [Hsz Hz].
  unfold bop_tx, mmbi_binding_ops. rewrite decide_True by done.
  rewrite (mmbi_tx_start b m pkt p) by done.
  unfold mbind, M_bind.
  destruct (write_loop_total 3 (mb_device_handle m) (pkt_wire p) (zlen (pkt_wire p))
    false 0 b m w Hm) as (r & wr & d & -> & Hd).
  case_decide; eexists _, d; (split; [|split; [|done]]); try (by right); try (by left);
    (split; [done|]; exists m; by rewrite Hd).
Qed.
End instances.

(** Over the MMBI device, [mctp_message_tx] hands the packets of the message
    to the device in order; since the binding never answers [-EBUSY], sending
    stops only when the message is complete or at the first packet that could
    not be written, and the packets after that one are left waiting on the bus
    although 0 is returned. *)
Theorem mmbi_message_tx {E : Type} `{!WinOps E, !ExtAlloc (mmbi_env E), !ClockOps (mmbi_env E)}
    mctp mmbi bd b eid to tag msg (w : world (mmbi_env E)) :
  let t := sender_params bd b eid to tag in let n := frag_count (tp_mtu t) (zlen msg) in
  sender mmbi_ready mctp mmbi bd b w -> 0 <= tag < 8 -> zlen msg < SIZE_MOD -> malloc_ok w = true ->
  exists rcs j w', mctp_message_tx mctp eid to tag msg (zlen msg) w = Ok 0 w' /\
    w_trace w' = w_trace w ++ tx_log mmbi t msg (w_mctp w) 0 rcs /\
    (rcs = replicate (Z.to_nat n) 0 /\ j = n \/
     exists k, rcs = replicate k 0 ++ [- EIO] /\ j = Z.of_nat k + 1 /\ j <= n /\
       (j < n -> exists b', m_busses (w_mctp w') !! 0%nat = Some b' /\ bus_tx_msg b' = w_brk w)).
Proof.
  intros t n Hs Ht Hl Hok.
  destruct (wp_inv _ _ _ (wp_mctp_message_tx mmbi_ready (fun rc => rc = 0 \/ rc = - EIO)
    mctp mmbi bd b eid to tag msg w Hs Ht Hl Hok))
    as (rc & w' & Hrun & -> & rcs & j & Hans & Htr & _ & _ & _ & b' & Hat & _).
  exists rcs, j, w'. do 2 (split; [done|]).
  assert (Hshape : forall i, answers (fun rc => rc = 0 \/ rc = - EIO) n i rcs j -> 
    rcs = replicate (Z.to_nat (n - i)) 0 /\ j = n \/
    exists k, rcs = replicate k 0 ++ [- EIO] /\ j = i + Z.of_nat k + 1 /\ j <= n).
  { clear. intros i H. induction H as [|i rcs j Hi _ _ IH|i Hi Hb|i rc Hi Hrc Hz Hn].
    - left. by rewrite Z.sub_diag.
    - destruct IH as [[-> ->]|(k & -> & -> & Hk)]; [left|right].
      + split; [|done]. replace (Z.to_nat (n - i)) with (S (Z.to_nat (n - (i + 1)))) by lia. done.
      + exists (S k). split; [done|]. lia.
    - unfold EBUSY, EIO in Hb. lia.
    - right. exists 0%nat. destruct Hrc as [?| ->]; [done|]. split; [done|]. lia. }
  destruct (Hshape 0 Hans) as [[Hr ->]|(k & Hr & Hj & Hk)]; [left|right].
  - split; [|done]. by rewrite Z.sub_0_r in Hr.
  - exists k. split; [done|]. split; [lia|]. split; [done|]. intros Hjn. exists b'.
    unfold tx_at in Hat. rewrite decide_False in Hat by (fold t n; lia).
    split; [apply (tp_bus _ _ _ _ _ _ _ _ Hat)|apply (tp_msg _ _ _ _ _ _ _ _ Hat)].
Qed.
