(* ===== verification/TypedMmbi.v ===== *)
(** * Well-typed states on MMBI

    The MMBI binding, the two APIs on top of it and their callbacks keep states
    typed, so that they can be used together with the API of the core in any
    order. *)

From S2P Require Import Prelude State Alloc Pktbuf Reasm Tags Tx Control Types Rx RxSpec Bus Typed.
From S2P Require Import Mmbi MmbiFacts.

(** What the operating system and the application are assumed to do: devices
    give bytes; the callbacks, the custom allocators and the clocks keep states
    typed. *)
Class KeepUser (E : Type) `{!WinOps E, !ExtAlloc (mmbi_env E), !UserOps (mmbi_env E),
    !ClockOps (mmbi_env E)} := {
  user_read h n e : Forall is_u8 (ReadFile h n e).1.2;
  user_rx cb src msg len ctx : mem_byte src -> is_sz len ->
    typed (uop_rx (D := mmbi_env E) cb src msg len ctx) Any;
  user_alloc f n : typed (xa_alloc (D := mmbi_env E) f n) Any;
  user_free f p : typed (xa_free (D := mmbi_env E) f p) Any;
  user_msg_alloc f n ctx : typed (xa_msg_alloc (D := mmbi_env E) f n ctx) Any;
  user_msg_free f p ctx : typed (xa_msg_free (D := mmbi_env E) f p ctx) Any;
  user_ticks : typed (GetTickCount64 (D := mmbi_env E)) Any;
  user_now f ctx : typed (cop_now (D := mmbi_env E) f ctx) Any;
}.

(** ** The environment of the binding *)

Section env.
Context {E : Type}.
Local Abbreviation D := (mmbi_env E).

Lemma typed_upd_env f : typed (upd_env (E := E) f) Any.
Proof. apply typed_modify. by intros w []. Qed.

Lemma typed_os_call {A} (f : E -> A * E) (R : A -> Prop) :
  (forall e, R (f e).1) -> typed (os_call f) R.
Proof.
  intros Hf w a w' [Hm Hh Hb] H. unfold os_call in H. specialize (Hf (dv_os (w_dev w))).
  destruct (f (dv_os (w_dev w))) as [a' e]. injection H as <- <-. done.
Qed.

Lemma typed_get_mmbi p : typed (get_mmbi (E := E) p) Any.
Proof. intros w a w' Hw. unfold get_mmbi. destruct (_ !! p); [|done]. by intros [= <- <-]. Qed.

Lemma typed_get_mmbi_ctx p : typed (get_mmbi_ctx (E := E) p) Any.
Proof. intros w a w' Hw. unfold get_mmbi_ctx. destruct (_ !! p); [|done]. by intros [= <- <-]. Qed.

Lemma typed_get_transport p : typed (get_transport (E := E) p) Any.
Proof. intros w a w' Hw. unfold get_transport. destruct (_ !! p); [|done]. by intros [= <- <-]. Qed.
End env.

Lemma typed_read {E} `{KeepUser E} h n :
  typed (os_call (ReadFile h n)) (fun r => Forall is_u8 r.2).
Proof. apply typed_os_call, user_read. Qed.

Ltac typed_env := lazymatch goal with
  | |- typed (upd_env _) _ => typed_by @typed_upd_env
  | |- typed (upd_mmbi _ _) _ => typed_by @typed_upd_env
  | |- typed (upd_mmbi_ctx _ _) _ => typed_by @typed_upd_env
  | |- typed (upd_transport _ _) _ => typed_by @typed_upd_env
  | |- typed (get_mmbi _) _ => typed_by @typed_get_mmbi
  | |- typed (get_mmbi_ctx _) _ => typed_by @typed_get_mmbi_ctx
  | |- typed (get_transport _) _ => typed_by @typed_get_transport
  | |- typed (os_call (ReadFile _ _)) _ => apply typed_read
  | |- typed (os_call _) _ => apply (typed_os_call _ Any)
  | |- typed (os_do _) _ => apply (typed_os_call _ Any)
  | |- typed (os_get _) _ => apply (typed_os_call _ Any)
  | |- typed (uop_rx _ _ _ _ _) _ => typed_by @user_rx
  | |- _ => typed_handler
  end.
Ltac typed_prim ::= typed_env.

(** ** The callbacks *)

Section callbacks.
Context {E : Type} `{!WinOps E, !ExtAlloc (mmbi_env E), !UserOps (mmbi_env E),
  !ClockOps (mmbi_env E), !KeepUser E}.
Local Abbreviation D := (mmbi_env E).

Lemma typed_write_loop n h buf len res wr p :
  typed (D := D) (write_loop n h buf len res wr p) Any.
Proof.
  revert res wr. induction n as [|n IH]; intros res wr; simpl; typed_auto.
Qed.

Lemma typed_mmbi_tx b pkt : typed (D := D) (mctp_mmbi_tx b pkt) Any.
Proof.
  unfold mctp_mmbi_tx. typed_auto.
  eapply typed_bind; [apply typed_write_loop|intros [r wr] _]. typed_auto.
Qed.

Lemma typed_internal_rx s to tag data msg len :
  mem_byte s -> is_sz len -> typed (D := D) (mmbi_internal_rx s to tag data msg len) Any.
Proof. intros Hs Hl. unfold mmbi_internal_rx. typed_auto. Qed.

Lemma typed_transport_rx s to tag data msg len :
  mem_byte s -> is_sz len -> typed (D := D) (transport_rx_handler s to tag data msg len) Any.
Proof. intros Hs Hl. unfold transport_rx_handler. typed_auto. Qed.

(** The binding without a start function: enough for the transmission that the
    start function itself may resume. *)
Lemma keep_without_start :
  let _ : StartOps D := {| sop_start _ _ := stuck BadCall |} in KeepTyped D.
Proof.
  intros S. split; intros; unfold bop_tx, bop_capture, sop_start, rop_rx; simpl; repeat case_decide.
  all: try apply typed_stuck.
  all: try solve [by apply typed_ret].
  - apply user_alloc.
  - apply user_free.
  - apply user_msg_alloc.
  - apply user_msg_free.
  - apply typed_mmbi_tx.
  - by apply typed_internal_rx.
  - by apply typed_transport_rx.
  - apply user_ticks.
  - apply user_now.
Qed.

Lemma typed_mmbi_start b : typed (D := D) (mctp_mmbi_start b) Any.
Proof.
  pose proof keep_without_start as K. unfold mctp_mmbi_start.
  eapply typed_bind; [|intros; by apply typed_ret]. eapply (@typed_set_tx_enabled _ _ _ _ _ _ K).
Qed.

#[export] Instance keep_mmbi : KeepTyped D.
Proof.
  destruct keep_without_start. split; try done.
  intros f b. unfold sop_start. simpl. case_decide; [apply typed_mmbi_start|apply typed_stuck].
Qed.
End callbacks.

(** ** The APIs *)

Section mmbi.
Context {E : Type} `{!WinOps E, !ExtAlloc (mmbi_env E), !UserOps (mmbi_env E),
  !ClockOps (mmbi_env E), !KeepUser E}.
Local Abbreviation D := (mmbi_env E).

Lemma typed_enter p : typed (D := D) (EnterCriticalSection p) Any.
Proof. unfold EnterCriticalSection. typed_auto. Qed.

Lemma typed_leave p : typed (D := D) (LeaveCriticalSection p) Any.
Proof. unfold LeaveCriticalSection. typed_auto. Qed.

Lemma typed_binding_zero : binding_typed zero_binding.
Proof. split; simpl; [done|by apply const_sz..]. Qed.

Lemma typed_create_mmbi p : typed (D := D) (create_mmbi p) Any.
Proof.
  unfold create_mmbi. typed_auto. apply typed_modify. intros w [Hm Hh Hb]. split; [done..|].
  apply map_Forall_insert_2; [apply typed_binding_zero|done].
Qed.

Lemma typed_mmbi_init : typed (D := D) mctp_mmbi_init Any.
Proof.
  unfold mctp_mmbi_init, InitializeCriticalSection. typed_auto. apply typed_create_mmbi.
Qed.

Lemma typed_mmbi_destroy p : typed (D := D) (mctp_mmbi_destroy p) Any.
Proof. unfold mctp_mmbi_destroy, DeleteCriticalSection. typed_auto. Qed.

Lemma typed_set_ops p : typed (D := D) (mmbi_set_ops p) Any.
Proof. unfold mmbi_set_ops. typed_auto. Qed.

Lemma typed_init_mem p tx rx n : typed (D := D) (mctp_mmbi_init_mem p tx rx n) Any.
Proof. unfold mctp_mmbi_init_mem. typed_auto. apply typed_set_ops. Qed.

Lemma typed_init_device p path : typed (D := D) (mctp_mmbi_init_device p path) Any.
Proof. unfold mctp_mmbi_init_device. typed_auto; apply typed_set_ops. Qed.

Lemma typed_poll_deliver p bs :
  Forall is_u8 bs -> typed (D := D) (poll_deliver p bs) Any.
Proof.
  intros Hbs. assert (Hm : Forall mem_byte bs) by (eapply Forall_impl; [done|by right]).
  unfold poll_deliver. typed_auto; try apply typed_enter; try apply typed_leave.
  apply typed_bus_rx.
Qed.

Lemma typed_poll p : typed (D := D) (mctp_mmbi_poll p) Any.
Proof.
  unfold mctp_mmbi_poll. typed_auto. all: by apply typed_poll_deliver.
Qed.

Lemma typed_mmbi_rx p len : typed (D := D) (mctp_mmbi_rx p len) Any.
Proof. unfold mctp_mmbi_rx. typed_auto. apply typed_bus_rx. Qed.
End mmbi.

Ltac typed_mmbi := lazymatch goal with
  | |- typed (EnterCriticalSection _) _ => typed_by @typed_enter
  | |- typed (LeaveCriticalSection _) _ => typed_by @typed_leave
  | |- typed mctp_mmbi_init _ => typed_by @typed_mmbi_init
  | |- typed (mctp_mmbi_destroy _) _ => typed_by @typed_mmbi_destroy
  | |- typed (mctp_mmbi_init_device _ _) _ => typed_by @typed_init_device
  | |- typed (mctp_mmbi_poll _) _ => typed_by @typed_poll
  | |- typed mctp_init _ => typed_by @typed_init
  | |- typed (mctp_destroy _) _ => typed_by @typed_destroy
  | |- typed (mctp_register_bus _ _ _) _ => typed_by @typed_register_bus
  | |- typed (mctp_unregister_bus _ _) _ => typed_by @typed_unregister_bus
  | |- _ => typed_env
  end.
Ltac typed_prim ::= typed_mmbi.

(** A call of a function of libmctp-mmbi.h or mctp_transport.h, or of the
    core. *)
Inductive mmbi_call :=
  | Call_core (c : api_call)
  | Call_mctp_mmbi_init
  | Call_mctp_mmbi_destroy (mmbi : Z)
  | Call_mctp_mmbi_init_mem (mmbi tx_addr rx_addr size : Z)
  | Call_mctp_mmbi_init_device (mmbi : Z) (device_path : string)
  | Call_mctp_mmbi_poll (mmbi : Z)
  | Call_mctp_mmbi_rx (mmbi len : Z)
  | Call_mctp_mmbi_context_init (device_path : string) (local_eid : Z)
  | Call_mctp_mmbi_context_destroy (ctx : Z)
  | Call_mctp_mmbi_send (ctx dst_eid : Z) (data : list Z) (len : Z)
  | Call_mctp_mmbi_set_rx_callback (ctx : Z) (cb : fnptr) (user_context : Z)
  | Call_mctp_mmbi_set_debug (ctx : Z) (enable : bool)
  | Call_mctp_mmbi_context_poll (ctx : Z)
  | Call_mctp_transport_init (device_path : string) (local_eid : Z)
  | Call_mctp_transport_destroy (ctx : Z)
  | Call_mctp_transport_set_rx_callback (ctx : Z) (cb : fnptr) (user_context : Z)
  | Call_mctp_transport_send (ctx dst_eid : Z) (data : list Z) (len : Z)
  | Call_mctp_transport_poll (ctx : Z).

Definition mmbi_call_typed (c : mmbi_call) : Prop :=
  match c with
  | Call_core c => call_typed c
  | Call_mctp_mmbi_context_init _ eid | Call_mctp_transport_init _ eid => mem_byte eid
  | Call_mctp_mmbi_send _ eid data len | Call_mctp_transport_send _ eid data len =>
      mem_byte eid /\ is_sz len /\ Forall mem_byte data
  | _ => True
  end.

Section api.
Context {E : Type} `{!WinOps E, !ExtAlloc (mmbi_env E), !UserOps (mmbi_env E),
  !ClockOps (mmbi_env E)}.
Local Abbreviation D := (mmbi_env E).
Local Abbreviation IO := (M (world D)).

Definition run_mmbi_call (c : mmbi_call) : IO unit :=
  match c with
  | Call_core c => run_call c
  | Call_mctp_mmbi_init => mctp_mmbi_init;; mret tt
  | Call_mctp_mmbi_destroy p => mctp_mmbi_destroy p
  | Call_mctp_mmbi_init_mem p tx rx n => mctp_mmbi_init_mem p tx rx n;; mret tt
  | Call_mctp_mmbi_init_device p path => mctp_mmbi_init_device p path;; mret tt
  | Call_mctp_mmbi_poll p => mctp_mmbi_poll p;; mret tt
  | Call_mctp_mmbi_rx p n => mctp_mmbi_rx p n;; mret tt
  | Call_mctp_mmbi_context_init path e => mctp_mmbi_context_init path e;; mret tt
  | Call_mctp_mmbi_context_destroy c => mctp_mmbi_context_destroy c
  | Call_mctp_mmbi_send c e bs n => mctp_mmbi_send c e bs n;; mret tt
  | Call_mctp_mmbi_set_rx_callback c f u => mctp_mmbi_set_rx_callback c f u
  | Call_mctp_mmbi_set_debug c b => mctp_mmbi_set_debug c b
  | Call_mctp_mmbi_context_poll c => mctp_mmbi_context_poll c;; mret tt
  | Call_mctp_transport_init path e => mctp_transport_init path e;; mret tt
  | Call_mctp_transport_destroy c => mctp_transport_destroy c
  | Call_mctp_transport_set_rx_callback c f u => mctp_transport_set_rx_callback c f u
  | Call_mctp_transport_send c e bs n => mctp_transport_send c e bs n;; mret tt
  | Call_mctp_transport_poll c => mctp_transport_poll c;; mret tt
  end.

Fixpoint run_mmbi_calls (cs : list mmbi_call) : IO unit :=
  match cs with [] => mret tt | c :: cs => run_mmbi_call c;; run_mmbi_calls cs end.

Context `{!KeepUser E}.

Lemma typed_open_loop n p path : typed (D := D) (open_loop n p path) Any.
Proof. induction n as [|n IH]; simpl; typed_auto. Qed.

Lemma typed_context_init path eid :
  mem_byte eid -> typed (D := D) (mctp_mmbi_context_init path eid) Any.
Proof.
  intros He. unfold mctp_mmbi_context_init, create_mmbi_ctx, mctp_set_rx_all. typed_auto.
  all: apply typed_open_loop.
Qed.

Lemma typed_context_destroy c : typed (D := D) (mctp_mmbi_context_destroy c) Any.
Proof. unfold mctp_mmbi_context_destroy. typed_auto. Qed.

Lemma typed_send c eid bs len :
  mem_byte eid -> is_sz len -> Forall mem_byte bs ->
  typed (D := D) (mctp_mmbi_send c eid bs len) Any.
Proof. intros He Hl Hb. unfold mctp_mmbi_send. typed_auto. Qed.

Lemma typed_transport_init path eid :
  mem_byte eid -> typed (D := D) (mctp_transport_init path eid) Any.
Proof.
  intros He. unfold mctp_transport_init, mctp_set_rx_all. typed_auto.
Qed.

Lemma typed_transport_destroy c : typed (D := D) (mctp_transport_destroy c) Any.
Proof. unfold mctp_transport_destroy. typed_auto. Qed.

Lemma typed_transport_send c eid bs len :
  mem_byte eid -> is_sz len -> Forall mem_byte bs ->
  typed (D := D) (mctp_transport_send c eid bs len) Any.
Proof. intros He Hl Hb. unfold mctp_transport_send. typed_auto. Qed.

Lemma typed_mmbi_call c : mmbi_call_typed c -> typed (run_mmbi_call c) Any.
Proof.
  destruct c; cbn [run_mmbi_call mmbi_call_typed]; intros Hc; try (eapply typed_drop).
  - by apply typed_call.
  - apply typed_mmbi_init.
  - apply typed_mmbi_destroy.
  - apply typed_init_mem.
  - apply typed_init_device.
  - apply typed_poll.
  - apply typed_mmbi_rx.
  - by apply typed_context_init.
  - apply typed_context_destroy.
  - apply typed_send; apply Hc.
  - unfold mctp_mmbi_set_rx_callback. typed_auto.
  - unfold mctp_mmbi_set_debug. typed_auto.
  - unfold mctp_mmbi_context_poll. typed_auto.
  - by apply typed_transport_init.
  - apply typed_transport_destroy.
  - unfold mctp_transport_set_rx_callback. typed_auto.
  - apply typed_transport_send; apply Hc.
  - unfold mctp_transport_poll. typed_auto.
Qed.

(** C30: The same for the whole library on MMBI: any sequence of calls of the core
    API, of the MMBI API and of the transport API that returns leads from typed
    states to typed states, on any operating system whose devices give bytes, whatever the
    applications' callbacks do that keeps states typed. *)
Theorem mmbi_api_keeps_types cs w w' :
  world_typed w -> Forall mmbi_call_typed cs -> run_mmbi_calls cs w = Ok tt w' -> world_typed w'.
Proof.
  intros Hw Hcs Hrun. assert (Ht : typed (run_mmbi_calls cs) Any).
  { clear Hrun. induction Hcs as [|c cs Hc Hcs IH]; simpl; [by apply typed_ret|].
    eapply typed_bind; [by apply typed_mmbi_call|auto]. }
  by destruct (Ht w tt w' Hw Hrun).
Qed.
End api.
