(* ===== verification/Locks.v ===== *)
(** * The lock of the MMBI binding

    [mctp_mmbi_poll] and [mctp_mmbi_send] work under the binding's lock.  Every
    call of the library that returns leaves all locks as deep as it found them,
    on every path, whatever the callbacks do that itself does so; and what is
    written to a device meanwhile is written at the depth the lock then has. *)

From S2P Require Import Prelude State Alloc Pktbuf Reasm Tags Tx Control Types Rx Bus Typed Frame.
From S2P Require Import Mmbi MmbiFacts TypedMmbi.

(** ** The relation *)

(** The depth of the lock of each binding; [None] before it is initialised and
    after it is deleted. *)
Definition locks {E} (d : mmbi_env E) : gmap Z (option Z) := mb_lock <$> dv_mmbis d.

Definition deeper (o x : option Z) : Prop :=
  match o, x with Some n, Some k => n <= k | None, None => True | _, _ => False end.

(** A write made at a depth that a lock has at least in [ls]. *)
Definition written_at (ls : gmap Z (option Z)) (x : option Z) : Prop :=
  exists p o, ls !! p = Some o /\ deeper o x.

Definition wrote {E} (d d' : mmbi_env E) : Prop :=
  exists l, dv_write_depths d' = dv_write_depths d ++ l /\ Forall (written_at (locks d)) l.

(** The locks are as they were. *)
Definition lock_keep {E} (d d' : mmbi_env E) : Prop := locks d' = locks d /\ wrote d d'.

(** The lock of [b] has been left once more than entered. *)
Definition lock_left {E} (b : Z) (d d' : mmbi_env E) : Prop :=
  locks d' = alter (fmap Z.pred) b (locks d) /\ wrote d d'.

Lemma wrote_none {E} (d d' : mmbi_env E) : dv_write_depths d' = dv_write_depths d -> wrote d d'.
Proof. intros Hd. exists []. by rewrite app_nil_r. Qed.

Lemma wrote_trans {E} (d1 d2 d3 : mmbi_env E) :
  locks d2 = locks d1 -> wrote d1 d2 -> wrote d2 d3 -> wrote d1 d3.
Proof.
  intros El (l1 & E1 & F1) (l2 & E2 & F2). exists (l1 ++ l2). rewrite E2, E1, app_assoc.
  split; [done|]. rewrite El in F2. by apply Forall_app.
Qed.

#[export] Instance lock_keep_pre {E} : PreOrder (@lock_keep E).
Proof.
  split.
  - intros d. split; [done|by apply wrote_none].
  - intros d1 d2 d3 [L1 W1] [L2 W2]. split; [congruence|]. by eapply wrote_trans.
Qed.

Lemma lock_left_after {E} b (d1 d2 d3 : mmbi_env E) :
  lock_keep d1 d2 -> lock_left b d2 d3 -> lock_left b d1 d3.
Proof. intros [L1 W1] [L2 W2]. split; [by rewrite L2, L1|]. by eapply wrote_trans. Qed.

(** The lock entered, left in the end: as it was. *)
Lemma lock_bracket {E} b n (d d1 d2 : mmbi_env E) :
  locks d !! b = Some (Some n) -> locks d1 = <[b := Some (n + 1)]> (locks d) ->
  dv_write_depths d1 = dv_write_depths d -> lock_left b d1 d2 -> lock_keep d d2.
Proof.
  intros Hb L1 W1 [L2 (l & W2 & F2)]. split.
  - rewrite L2, L1, fin_maps.alter_insert_eq. cbn. replace (Z.pred (n + 1)) with n by lia.
    by apply insert_id.
  - exists l. rewrite W2, W1. split; [done|]. eapply Forall_impl; [exact F2|].
    intros x (p & o & Hp & Hx). rewrite L1 in Hp.
    apply lookup_insert_Some in Hp as [[<- <-]|[_ Hp]]; [|by exists p, o].
    exists b, (Some n). split; [done|]. destruct x; simpl in *; [lia|done].
Qed.

(** ** The binding's operations *)

Section prims.
Context {E : Type}.
Local Abbreviation D := (mmbi_env E).
Local Abbreviation IO := (M (world D)).

Lemma keeps_upd_env (f : D -> D) : (forall d, lock_keep d (f d)) -> keeps lock_keep (upd_env f).
Proof. intros Hf w a w' [= <- <-]. apply Hf. Qed.

Lemma keeps_upd_mmbi p (f : mctp_binding_mmbi -> mctp_binding_mmbi) :
  (forall m, mb_lock (f m) = mb_lock m) -> keeps lock_keep (upd_mmbi (E := E) p f).
Proof.
  intros Hf. apply keeps_upd_env. intros d. split; [|by apply wrote_none].
  unfold locks. simpl. apply map_eq. intros q. rewrite !lookup_fmap, lookup_alter.
  case_decide as Hq; [rewrite Hq|done]. destruct (dv_mmbis d !! q); simpl; by rewrite ?Hf.
Qed.

Lemma keeps_upd_ctx p f : keeps lock_keep (upd_mmbi_ctx (E := E) p f).
Proof. apply keeps_upd_env. intros d. split; [done|by apply wrote_none]. Qed.

Lemma keeps_upd_transport p f : keeps lock_keep (upd_transport (E := E) p f).
Proof. apply keeps_upd_env. intros d. split; [done|by apply wrote_none]. Qed.

Lemma keeps_os_call {A} (f : E -> A * E) : keeps lock_keep (os_call f).
Proof.
  intros w a w'. unfold os_call. destruct (f _). intros [= <- <-].
  split; [done|by apply wrote_none].
Qed.

Lemma keeps_get_mmbi p : keeps lock_keep (get_mmbi (E := E) p).
Proof. unfold get_mmbi. keeps_state. Qed.
Lemma keeps_get_mmbi_ctx p : keeps lock_keep (get_mmbi_ctx (E := E) p).
Proof. unfold get_mmbi_ctx. keeps_state. Qed.
Lemma keeps_get_transport p : keeps lock_keep (get_transport (E := E) p).
Proof. unfold get_transport. keeps_state. Qed.

(** A write to the device is noted with the depth of the lock. *)
Lemma keeps_note {A} p (k : mctp_binding_mmbi -> IO A) :
  (forall m, keeps lock_keep (k m)) ->
  keeps lock_keep (m ← get_mmbi p;
    upd_env (fun d => mk_env (dv_mmbis d) (dv_ctxs d) (dv_transports d) (dv_os d)
      (dv_write_depths d ++ [mb_lock m]));; k m).
Proof.
  intros Hk w a w' Hrun. unfold get_mmbi, upd_env, modify, mbind, M_bind in Hrun.
  destruct (dv_mmbis (w_dev w) !! p) as [m|] eqn:Hm; [|done].
  transitivity (w_dev (set_w_dev (mk_env (dv_mmbis (w_dev w)) (dv_ctxs (w_dev w))
    (dv_transports (w_dev w)) (dv_os (w_dev w)) (dv_write_depths (w_dev w) ++ [mb_lock m])) w)).
  - split; [done|]. exists [mb_lock m]. split; [done|]. constructor; [|constructor].
    exists p, (mb_lock m). split; [unfold locks; by rewrite lookup_fmap, Hm|].
    by destruct (mb_lock m); simpl.
  - by eapply Hk.
Qed.

(** ** Entering and leaving *)

(** A computation that leaves the lock of [b] once. *)
Definition leaves {A} (b : Z) (m : IO A) : Prop :=
  forall w a w', m w = Ok a w' -> lock_left b (w_dev w) (w_dev w').

Lemma leaves_bind {A B} b (m : IO A) (k : A -> IO B) :
  keeps lock_keep m -> (forall a, leaves b (k a)) -> leaves b (m ≫= k).
Proof.
  intros Hm Hk w a w' Hrun. unfold mbind, M_bind in Hrun.
  destruct (m w) as [x w1|] eqn:E1; [|done].
  eapply lock_left_after; [by eapply Hm|by eapply Hk].
Qed.

Lemma locks_set_lock d b m o :
  dv_mmbis d !! b = Some m ->
  locks (set_mmbis (E := E) (alter (set_mb_lock o) b) d) = <[b := o]> (locks d).
Proof.
  intros Hm. unfold locks. simpl. apply map_eq. intros q. rewrite lookup_fmap, lookup_alter.
  case_decide as Hq; [rewrite <- Hq, Hm, lookup_insert_eq; done|].
  by rewrite lookup_insert_ne, lookup_fmap.
Qed.

Lemma leaves_leave {A} b (a : A) : leaves b (LeaveCriticalSection b;; mret a).
Proof.
  intros w x w' Hrun. unfold LeaveCriticalSection, get_mmbi, upd_mmbi, upd_env, modify, mbind, M_bind in Hrun.
  destruct (dv_mmbis (w_dev w) !! b) as [m|] eqn:Hm; [|done].
  destruct (mb_lock m) as [n|] eqn:Hn; [|done]. case_decide; [|done]. injection Hrun as _ <-.
  split; [|by apply wrote_none]. cbn [w_dev set_w_dev]. rewrite (locks_set_lock _ _ m) by done.
  symmetry. rewrite <- (insert_id (locks (w_dev w)) b (Some n)) at 1.
  - rewrite fin_maps.alter_insert_eq. cbn. by rewrite <- Z.sub_1_r.
  - unfold locks. by rewrite lookup_fmap, Hm, <- Hn.
Qed.

(** What follows entering starts in a state with the lock once deeper. *)
Lemma enter_inv {A} b (m : IO A) w a w' :
  (EnterCriticalSection b;; m) w = Ok a w' ->
  exists n w1, locks (w_dev w) !! b = Some (Some n) /\
    locks (w_dev w1) = <[b := Some (n + 1)]> (locks (w_dev w)) /\
    dv_write_depths (w_dev w1) = dv_write_depths (w_dev w) /\ m w1 = Ok a w'.
Proof.
  intros Hrun. unfold EnterCriticalSection, get_mmbi, upd_mmbi, upd_env, modify, mbind, M_bind in Hrun.
  destruct (dv_mmbis (w_dev w) !! b) as [x|] eqn:Hm; [|done].
  destruct (mb_lock x) as [n|] eqn:Hn; [|done]. exists n. eexists.
  split; [unfold locks; by rewrite lookup_fmap, Hm, <- Hn|]. split; [|split; [|exact Hrun]]; [|done].
  by eapply locks_set_lock.
Qed.

Lemma keeps_bracket {A} b (m : IO A) :
  leaves b m -> keeps lock_keep (EnterCriticalSection b;; m).
Proof.
  intros Hl w a w' Hrun. apply enter_inv in Hrun as (n & w1 & Hn & L1 & W1 & Hrun).
  eapply lock_bracket; [exact Hn|exact L1|exact W1|by eapply Hl].
Qed.

(** Writes inside, when there is no other lock. *)
Lemma bracket_writes {A} b n (m : IO A) w a w' :
  leaves b m -> locks (w_dev w) = {[ b := Some n ]} ->
  (EnterCriticalSection b;; m) w = Ok a w' ->
  exists l, dv_write_depths (w_dev w') = dv_write_depths (w_dev w) ++ l /\
    Forall (fun o => exists k, o = Some k /\ n < k) l.
Proof.
  intros Hl Hb Hrun. apply enter_inv in Hrun as (n' & w1 & Hn & L1 & W1 & Hrun).
  rewrite Hb in Hn, L1. rewrite lookup_singleton_eq in Hn. injection Hn as <-.
  destruct (Hl _ _ _ Hrun) as [_ (l & W2 & F2)]. exists l. split; [by rewrite W2, W1|].
  eapply Forall_impl; [exact F2|]. intros x (p & o & Hp & Hx). rewrite L1 in Hp.
  rewrite insert_singleton_eq in Hp. apply lookup_singleton_Some in Hp as [_ <-].
  destruct x as [k|]; [|done]. exists k. simpl in Hx. split; [done|lia].
Qed.
End prims.

#[export] Hint Resolve keeps_upd_ctx keeps_upd_transport keeps_os_call keeps_get_mmbi keeps_get_mmbi_ctx
  keeps_get_transport : keeps.

(** ** The callbacks *)

(** What the application, its allocators and its clock may do: anything that
    itself keeps the locks, calls of the library included. *)
Class KeepLocks (E : Type) `{!ExtAlloc (mmbi_env E), !UserOps (mmbi_env E),
    !ClockOps (mmbi_env E)} := {
  lk_rx cb src msg len ctx : keeps lock_keep (uop_rx (D := mmbi_env E) cb src msg len ctx);
  lk_alloc f n : keeps lock_keep (xa_alloc (D := mmbi_env E) f n);
  lk_free f p : keeps lock_keep (xa_free (D := mmbi_env E) f p);
  lk_msg_alloc f n ctx : keeps lock_keep (xa_msg_alloc (D := mmbi_env E) f n ctx);
  lk_msg_free f p ctx : keeps lock_keep (xa_msg_free (D := mmbi_env E) f p ctx);
  lk_ticks : keeps lock_keep (GetTickCount64 (D := mmbi_env E));
  lk_now f ctx : keeps lock_keep (cop_now (D := mmbi_env E) f ctx);
}.

Section callbacks.
Context {E : Type} `{!WinOps E, !ExtAlloc (mmbi_env E), !UserOps (mmbi_env E),
  !ClockOps (mmbi_env E), !KeepLocks E}.
Local Abbreviation D := (mmbi_env E).

Lemma keeps_write_loop n h buf len res wr p :
  keeps (D := D) lock_keep (write_loop n h buf len res wr p).
Proof.
  revert res wr. induction n as [|n IH]; intros res wr; simpl; [keeps_auto|].
  apply keeps_note. intros m. keeps_auto.
Qed.

Lemma keeps_mmbi_tx b pkt : keeps (D := D) lock_keep (mctp_mmbi_tx b pkt).
Proof. pose proof keeps_write_loop. keeps_auto. Qed.

Lemma keeps_rx_callback f src to tag data buf len :
  keeps (D := D) lock_keep (rop_rx f src to tag data buf len).
Proof.
  pose proof lk_rx. unfold rop_rx, mmbi_rx_ops. keeps_auto.
Qed.

(** As for types: first without the start function. *)
Lemma env_without_start :
  let _ : StartOps D := {| sop_start _ _ := stuck BadCall |} in KeepEnv D lock_keep.
Proof.
  intros S. split; try apply _; intros.
  - apply lk_alloc.
  - apply lk_free.
  - apply lk_msg_alloc.
  - apply lk_msg_free.
  - unfold bop_tx, mmbi_binding_ops. case_decide; [apply keeps_mmbi_tx|apply keeps_stuck].
  - by apply keeps_ret, _.
  - apply keeps_stuck.
  - apply keeps_rx_callback.
  - apply lk_ticks.
  - apply lk_now.
Qed.

Lemma keeps_mmbi_start b : keeps (D := D) lock_keep (mctp_mmbi_start b).
Proof.
  pose proof env_without_start as K. cbv zeta in K. unfold mctp_mmbi_start.
  apply keeps_bind; [apply _| |intros; by apply keeps_ret, _].
  eapply (@keeps_set_tx_enabled _ _ _ _ _ _ _ K).
Qed.

#[export] Instance env_locks : KeepEnv D lock_keep.
Proof.
  destruct env_without_start. split; try done.
  intros f b. unfold sop_start, mmbi_start_ops. case_decide; [apply keeps_mmbi_start|apply keeps_stuck].
Qed.
End callbacks.

(** ** The API *)

(** The calls that neither create nor delete a lock. *)
Definition lock_call (c : mmbi_call) : Prop :=
  match c with
  | Call_mctp_mmbi_init | Call_mctp_mmbi_destroy _ | Call_mctp_mmbi_context_init _ _
  | Call_mctp_mmbi_context_destroy _ | Call_mctp_transport_init _ _
  | Call_mctp_transport_destroy _ => False
  | _ => True
  end.

Section api.
Context {E : Type} `{!WinOps E, !ExtAlloc (mmbi_env E), !UserOps (mmbi_env E),
  !ClockOps (mmbi_env E), !KeepLocks E}.
Local Abbreviation D := (mmbi_env E).

Lemma keeps_poll_deliver b bs : keeps (D := D) lock_keep (poll_deliver b bs).
Proof.
  unfold poll_deliver. apply keeps_bracket, leaves_bind; [keeps_auto|intros pkt].
  case_decide; [apply leaves_leave|]. apply leaves_bind; [keeps_auto|intros p].
  apply leaves_bind; [keeps_auto|intros []]. apply leaves_bind; [keeps_auto|intros []].
  apply leaves_leave.
Qed.

Lemma keeps_poll b : keeps (D := D) lock_keep (mctp_mmbi_poll b).
Proof. pose proof keeps_poll_deliver. keeps_auto. Qed.

Lemma leaves_send mctp b eid data len :
  leaves (E := E) b (rc ← mctp_message_tx mctp eid false 0 data len; LeaveCriticalSection b;; mret rc).
Proof. apply leaves_bind; [keeps_auto|intros rc]. apply leaves_leave. Qed.

Lemma keeps_send c eid data len : keeps (D := D) lock_keep (mctp_mmbi_send c eid data len).
Proof.
  unfold mctp_mmbi_send. case_decide; [keeps_auto|].
  apply keeps_bind; [apply _|keeps_auto|intros x]. case_decide; [keeps_auto|].
  apply keeps_bracket, leaves_send.
Qed.

Lemma keeps_set_ops p : keeps (D := D) lock_keep (mmbi_set_ops p).
Proof. keeps_auto. Qed.

Lemma keeps_init_mem p tx rx n : keeps (D := D) lock_keep (mctp_mmbi_init_mem p tx rx n).
Proof.
  pose proof keeps_set_ops. unfold mctp_mmbi_init_mem. case_decide; [keeps_auto|].
  repeat (apply keeps_bind; [apply _|by apply keeps_upd_mmbi|intros []]). keeps_auto.
Qed.

Lemma keeps_init_device p path : keeps (D := D) lock_keep (mctp_mmbi_init_device p path).
Proof.
  pose proof keeps_set_ops. unfold mctp_mmbi_init_device.
  apply keeps_bind; [apply _|keeps_auto|intros h]. case_decide; [keeps_auto|].
  apply keeps_bind; [apply _|by apply keeps_upd_mmbi|intros []]. keeps_auto.
Qed.

Lemma keeps_mmbi_call c : lock_call c -> keeps (D := D) lock_keep (run_mmbi_call c).
Proof.
  pose proof keeps_poll. pose proof keeps_send. pose proof keeps_init_mem. pose proof keeps_init_device.
  intros Hc. destruct c; try done; cbn [run_mmbi_call]; keeps_auto.
Qed.

(** C14: The locking discipline.  Whatever calls of the core, the binding and the
    two APIs are made but those that create or destroy a binding, in any order,
    polling and sending included, and on every path through them, the locks are
    in the end as deep as they were: no call
    returns with the lock of a binding held, or having released one it did not
    take.  Each write to a device was made at the depth at least that a lock had
    before.  The callbacks may do anything that keeps to this, such as calling
    back into the library. *)
Theorem locks_balanced cs (w w' : world D) :
  Forall lock_call cs -> run_mmbi_calls cs w = Ok tt w' ->
  (forall p m, dv_mmbis (w_dev w) !! p = Some m -> exists m',
     dv_mmbis (w_dev w') !! p = Some m' /\ mb_lock m' = mb_lock m) /\
  wrote (w_dev w) (w_dev w').
Proof.
  intros Hcs Hrun. assert (Hk : keeps lock_keep (run_mmbi_calls cs)).
  { clear Hrun. pose proof keeps_mmbi_call. induction Hcs; simpl; keeps_auto. }
  destruct (Hk w tt w' Hrun) as [Hl Hw]. split; [|done]. intros p m Hm.
  assert (Hp : locks (w_dev w') !! p = Some (mb_lock m)) by (rewrite Hl; unfold locks; by rewrite lookup_fmap, Hm).
  unfold locks in Hp. rewrite lookup_fmap in Hp. apply fmap_Some in Hp as (m' & Hm' & E1).
  by exists m'.
Qed.

(** C38: The lock is held while writing.  During [mctp_mmbi_send] every write to a
    device is made with the lock of the context's binding held, more deeply than
    when it was called, if the binding is the only one: the blocking [WriteFile]
    and the pauses between attempts are inside the critical section. *)
Theorem send_writes_locked c x eid data len n rc (w w' : world D) :
  dv_ctxs (w_dev w) !! c = Some x -> locks (w_dev w) = {[ cx_mmbi x := Some n ]} ->
  c <> NULL -> cx_mctp x <> NULL -> mctp_mmbi_send c eid data len w = Ok rc w' ->
  exists l, dv_write_depths (w_dev w') = dv_write_depths (w_dev w) ++ l /\
    Forall (fun o => exists k, o = Some k /\ n < k) l.
Proof.
  intros Hx Hl Hc Hm Hrun. unfold mctp_mmbi_send in Hrun. rewrite decide_False in Hrun by done.
  rewrite (bind_run _ _ x w w) in Hrun by (unfold get_mmbi_ctx; by rewrite Hx).
  rewrite decide_False in Hrun by done.
  eapply bracket_writes; [apply leaves_send|exact Hl|exact Hrun].
Qed.
End api.
