(* ===== verification/MmbiRx.v ===== *)
(** * Receiving on the MMBI binding

    [mctp_mmbi_poll], which reads a packet from the device and hands it to the
    core under the binding's lock, and [mctp_mmbi_rx], its counterpart for the
    memory-mapped interface. *)

From S2P Require Import Prelude State Alloc Pktbuf Reasm Tags Tx Control Rx RxSpec RxRefine Bus.
From S2P Require Import Mmbi.

(** The objects of the binding stay as they are. *)
Definition keeps_mmbis {E} (d d' : mmbi_env E) : Prop := dv_mmbis d' = dv_mmbis d.

#[export] Instance keeps_mmbis_pre {E} : PreOrder (@keeps_mmbis E).
Proof. split; [done|]. intros x y z H1 H2. unfold keeps_mmbis in *. by rewrite H2. Qed.

(** What the receive callback needs is in the contexts and the transports. *)
Class ApiReady (E : Type) `{!RxReady (mmbi_env E)} := api_ready f x (d d' : mmbi_env E) :
  dv_ctxs d' = dv_ctxs d -> dv_transports d' = dv_transports d ->
  rx_ready f x d -> rx_ready f x d'.

Lemma rx_can_api {E} `{!RxReady (mmbi_env E), !ApiReady E} (w w' : world (mmbi_env E)) :
  m_message_rx (w_mctp w') = m_message_rx (w_mctp w) ->
  m_message_rx_data (w_mctp w') = m_message_rx_data (w_mctp w) ->
  dv_ctxs (w_dev w') = dv_ctxs (w_dev w) -> dv_transports (w_dev w') = dv_transports (w_dev w) ->
  rx_can w -> rx_can w'.
Proof.
  intros E1 E2 E3 E4 H f Hf. rewrite E1 in Hf. rewrite E2. by eapply api_ready; [..|apply H].
Qed.

(** The environment changed elsewhere. *)
Lemma endpoint_api {E} `{!RxReady (mmbi_env E), !ApiReady E} mctp b bus eid
    (w w' : world (mmbi_env E)) :
  w_mctp w' = w_mctp w -> w_bindings w' = w_bindings w ->
  dv_ctxs (w_dev w') = dv_ctxs (w_dev w) -> dv_transports (w_dev w') = dv_transports (w_dev w) ->
  endpoint mctp b bus eid w -> endpoint mctp b bus eid w'.
Proof.
  intros Em Eb E1 E2. apply endpoint_mctp_eq; try congruence.
  apply rx_can_api; congruence.
Qed.

Section rx.
Context {E : Type} `{!WinOps E}.
Local Abbreviation D := (mmbi_env E).
Context `{!ExtAlloc D, !BindingOps D, !RxOps D, !RxReady D, !QuietCapture D, !QuietRx D, !ApiReady E}.
(** What the callbacks keep: the objects of the binding at least. *)
Context (keep : D -> D -> Prop) `{!KeepOps D keep}.
Hypothesis (Hkeep : forall d d', keep d d' -> keeps_mmbis d d').
Implicit Types w : world D.

(** ** The primitives *)

Lemma wp_get_mmbi b m (Q : mctp_binding_mmbi -> world D -> Prop) w :
  dv_mmbis (w_dev w) !! b = Some m -> Q m w -> wp (get_mmbi b) Q w.
Proof. intros Hm HQ. unfold wp, get_mmbi. by rewrite Hm. Qed.

Definition env_os (e : E) (d : D) : D :=
  mk_env (dv_mmbis d) (dv_ctxs d) (dv_transports d) e (dv_write_depths d).

Lemma wp_os_call {A} (f : E -> A * E) a e (Q : A -> world D -> Prop) w :
  f (dv_os (w_dev w)) = (a, e) -> Q a (set_w_dev (env_os e (w_dev w)) w) -> wp (os_call f) Q w.
Proof. intros Hf HQ. unfold wp, os_call. by rewrite Hf. Qed.

(** The state with the binding's lock entered [n] times. *)
Definition locked (b : Z) (m : mctp_binding_mmbi) (n : Z) (w : world D) : world D :=
  set_w_dev (set_mmbis (<[b := set_mb_lock (Some n) m]>) (w_dev w)) w.

Lemma alter_lock b m n (g : gmap Z mctp_binding_mmbi) :
  g !! b = Some m -> alter (set_mb_lock n) b g = <[b := set_mb_lock n m]> g.
Proof.
  intros Hm. apply map_eq. intros i. destruct (decide (i = b)) as [->|Hne].
  - by rewrite lookup_alter_eq, lookup_insert_eq, Hm.
  - by rewrite lookup_alter_ne, lookup_insert_ne by done.
Qed.

Lemma wp_enter b m n (Q : unit -> world D -> Prop) w :
  dv_mmbis (w_dev w) !! b = Some m -> mb_lock m = Some n -> Q tt (locked b m (n + 1) w) ->
  wp (EnterCriticalSection b) Q w.
Proof.
  intros Hm Hn HQ. unfold EnterCriticalSection. wp_step. eapply wp_get_mmbi; [done|].
  rewrite Hn. apply wp_modify. unfold set_mmbis. by rewrite (alter_lock _ m).
Qed.

Lemma wp_leave b m n (Q : unit -> world D -> Prop) w :
  dv_mmbis (w_dev w) !! b = Some m -> mb_lock m = Some n -> 0 < n ->
  Q tt (locked b m (n - 1) w) -> wp (LeaveCriticalSection b) Q w.
Proof.
  intros Hm Hn Hpos HQ. unfold LeaveCriticalSection. wp_step. eapply wp_get_mmbi; [done|].
  rewrite Hn, decide_True by done. apply wp_modify. unfold set_mmbis. by rewrite (alter_lock _ m).
Qed.

(** ** A packet buffer on top of the invariant *)

(** The state in which a new block holds the packet [p]. *)
Definition with_new_pkt (p : mctp_pktbuf) (w : world D) : world D :=
  set_w_mallocs (tail (w_mallocs w)) (set_w_brk (w_brk w + 16) (with_pkt (w_brk w) p w)).

Lemma ctxs_inv_new_pkt p F r w :
  ctxs_inv w F r -> ctxs_inv (with_new_pkt p w) (<[w_brk w := HPkt p]> F) r.
Proof.
  intros [Hops Hh Hrep Hmax]. split; [done| |simpl|done].
  - pose proof (heap_wf_dup [] w Hh) as (H1 & H2 & H3). split; [done|]. split; [done|].
    intros a Ha. apply H3. simpl in *. rewrite lookup_insert_is_Some' in *. tauto.
  - apply rep_frame; [done|by apply heap_wf_fresh].
Qed.

(** The sizes [mctp_mmbi_init] gives the binding. *)
Definition mmbi_sized (bd : mctp_binding) : Prop :=
  bd_pkt_size bd = MCTP_PACKET_SIZE 65536 /\ bd_pkt_header bd = 0 /\ bd_pkt_trailer bd = 0.

Lemma mmbi_buf_size bd : mmbi_sized bd -> binding_buf_size bd = 65540.
Proof. intros (E1 & E2 & E3). unfold binding_buf_size. by rewrite E1, E2, E3. Qed.

(** The packet buffer for the bytes [bs]. *)
Definition mmbi_pkt (bd : mctp_binding) (bs : list Z) : mctp_pktbuf :=
  set_pb_data (splice 0 bs (pb_data (pkt_alloced bd (zlen bs)))) (pkt_alloced bd (zlen bs)).

Lemma mmbi_alloced_data bd n : mmbi_sized bd -> zlen (pb_data (pkt_alloced bd n)) = 65547.
Proof. intros Hs. simpl. rewrite zlen_replicate, mmbi_buf_size by done. lia. Qed.

Lemma mmbi_pkt_ok bd bs :
  mmbi_sized bd -> zlen bs <= 65540 ->
  pkt_wf (mmbi_pkt bd bs) /\ pkt_wire (mmbi_pkt bd bs) = bs.
Proof.
  intros Hs Hl. pose proof (zlen_nonneg bs) as H0.
  pose proof (mmbi_alloced_data bd (zlen bs) Hs) as Hd. pose proof Hs as (_ & Hh & _).
  unfold mmbi_pkt. set (data := pb_data _) in *. clearbody data.
  assert (Hz : zlen (splice 0 bs data) = 65547) by (rewrite zlen_splice; lia).
  unfold pkt_wf, pkt_wire, mctp_pktbuf_hdr, mctp_pktbuf_size.
  cbn [pkt_alloced set_pb_data pb_start pb_end pb_mctp_hdr_off pb_data].
  rewrite Hh, Hz, Z.add_0_l, (sz_small (zlen bs)) by lia. split; [lia|].
  rewrite Z.sub_0_r, sz_small by lia.
  apply slice_splice_eq; lia.
Qed.

(** ** Polling *)

(** What the theorems about [mctp_mmbi_poll] are for: a binding on an open
    device, initialised by the library, whose lock the caller may hold. *)
Record mmbi_open (b : Z) (m : mctp_binding_mmbi) (bd : mctp_binding) (w : world D) : Prop := {
  mo_mmbi : dv_mmbis (w_dev w) !! b = Some m;
  mo_handle : handle_valid (mb_device_handle m);
  mo_lock : exists n, mb_lock m = Some n /\ 0 <= n;
  mo_binding : w_bindings w !! b = Some bd;
  mo_sized : mmbi_sized bd;
}.

(** The device has the bytes [bs] to read next. *)
Definition device_gives (h : Z) (bs : list Z) (e e' : E) : Prop :=
  exists av e1, PeekNamedPipe h e = (av, e1) /\ av <> Some 0 /\
    ReadFile h 65544 e1 = (true, bs, e').

(** Polling up to [mctp_bus_rx], and after it. *)
Lemma wp_poll_into b m bd n bs (Q : Z -> world D -> Prop) w :
  w_ops w = default_alloc_ops -> heap_wf w -> w_mallocs w = [] ->
  dv_mmbis (w_dev w) !! b = Some m -> mb_lock m = Some n -> 0 <= n ->
  w_bindings w !! b = Some bd -> mmbi_sized bd -> zlen bs <= 65540 ->
  wp (mctp_bus_rx b (w_brk w)) (fun _ w1 =>
      dv_mmbis (w_dev w1) !! b = Some (set_mb_lock (Some (n + 1)) m) /\ Q 0 (locked b m n w1))
    (locked b m (n + 1) (with_new_pkt (mmbi_pkt bd bs) w)) ->
  wp (poll_deliver b bs) Q w.
Proof.
  intros Hops Hwf0 Hmem Hm Hn Hn0 Hbd Hs Hl HQ.
  pose proof (mmbi_buf_size bd Hs) as Hbuf. pose proof Hs as (_ & Hh & _).
  pose proof (zlen_nonneg bs) as H0. pose proof (mmbi_alloced_data bd (zlen bs) Hs) as Hd.
  assert (Hb : w_brk w <> NULL) by (destruct Hwf0; unfold NULL; lia).
  unfold poll_deliver. wp_step. eapply wp_enter; [done..|]. wp_step.
  eapply wp_pktbuf_alloc; [done|done|exact Hbd|lia|
    unfold sizeof_mctp_pktbuf; lia|lia|unfold malloc_ok; simpl; by rewrite Hmem|].
  intros _ _. do 2 wp_step. eapply wp_load_pkt; [simpl; apply lookup_insert_eq|]. wp_step.
  eapply wp_pkt_write; [simpl; apply lookup_insert_eq| | |].
  { unfold mctp_pktbuf_hdr. simpl. lia. }
  { unfold mctp_pktbuf_hdr. simpl pb_mctp_hdr_off. lia. }
  cbn [w_heap set_w_mallocs set_w_brk with_pkt set_w_heap locked set_w_dev w_brk].
  rewrite insert_insert_eq. unfold mctp_pktbuf_hdr.
  simpl pb_mctp_hdr_off. rewrite Hh. fold (mmbi_pkt bd bs). wp_step.
  set (w0 := set_w_heap _ _).
  assert (E0 : w0 = locked b m (n + 1) (with_new_pkt (mmbi_pkt bd bs) w)) by done.
  clearbody w0. subst w0. eapply wp_mono; [exact HQ|]. intros [] w1 [Hk HQ1]. wp_step.
  eapply (wp_leave b (set_mb_lock (Some (n + 1)) m) (n + 1)); [done|done|lia|].
  wp_step. by replace (n + 1 - 1) with n by lia.
Qed.

Lemma wp_poll_received mctp b bus eid F r m bd n bs (Q : Z -> world D -> Prop) w :
  ctxs_inv w F r -> endpoint mctp b bus eid w -> w_mallocs w = [] ->
  dv_mmbis (w_dev w) !! b = Some m -> mb_lock m = Some n -> 0 <= n ->
  w_bindings w !! b = Some bd -> mmbi_sized bd -> zlen bs <= 65540 ->
  let res := spec_rx eid (m_max_message_size (w_mctp w)) true r bs in
  (forall dl, res.2 = Some dl -> ctrl_request (dl_msg dl) = false) ->
  (forall w1, rx_effect keep
      (captured (mmbi_pkt bd bs) (locked b m (n + 1) (with_new_pkt (mmbi_pkt bd bs) w)))
      w1 (<[w_brk w := HPkt (mmbi_pkt bd bs)]> F) res -> Q 0 (locked b m n w1)) ->
  wp (poll_deliver b bs) Q w.
Proof.
  intros HI Hep Hmem Hm Hn Hn0 Hbd Hs Hl res Hreq HQ.
  destruct (mmbi_pkt_ok bd bs Hs Hl) as [Hwf Hwire].
  eapply wp_poll_into; [apply HI|apply HI|done..|].
  assert (HI0 : ctxs_inv (locked b m (n + 1) (with_new_pkt (mmbi_pkt bd bs) w))
    (<[w_brk w := HPkt (mmbi_pkt bd bs)]> F) r).
  { destruct (ctxs_inv_new_pkt (mmbi_pkt bd bs) F r w HI). by split. }
  assert (Hep0 : endpoint mctp b bus eid (locked b m (n + 1) (with_new_pkt (mmbi_pkt bd bs) w)))
    by by apply (endpoint_api _ _ _ _ w).
  eapply wp_mono; [eapply (wp_bus_rx keep _ _ _ _ _ _ _ _ _ HI0 Hep0);
    [apply lookup_insert_eq|done|]|].
  { rewrite Hwire. unfold malloc_ok. simpl. rewrite Hmem. exact Hreq. }
  intros [] w1 He. rewrite Hwire in He. unfold malloc_ok in He. simpl in He.
  rewrite Hmem in He. pose proof (Hkeep _ _ (re_keep _ _ _ _ _ He)) as Hk.
  unfold keeps_mmbis in Hk. simpl in Hk. split; [|by apply HQ].
  rewrite Hk. apply lookup_insert_eq.
Qed.

Lemma locked_id b m n w :
  dv_mmbis (w_dev w) !! b = Some m -> mb_lock m = Some n -> locked b m n w = w.
Proof.
  intros Hm Hn. unfold locked, set_mmbis.
  replace (set_mb_lock (Some n) m) with m by (destruct m; simpl in *; by subst).
  rewrite insert_id by done. destruct w as [? ? ? ? ? ? ? []]. done.
Qed.

Lemma locked_twice b m n k w : locked b m n (locked b m k w) = locked b m n w.
Proof. unfold locked, set_mmbis. simpl. by rewrite insert_insert_eq. Qed.

(** [mctp_mmbi_poll] up to the read. *)
Lemma wp_poll_reads b m bd av e1 res bs e2 (Q : Z -> world D -> Prop) w :
  mmbi_open b m bd w ->
  PeekNamedPipe (mb_device_handle m) (dv_os (w_dev w)) = (av, e1) -> av <> Some 0 ->
  ReadFile (mb_device_handle m) 65544 e1 = (res, bs, e2) ->
  wp (if decide (res = true /\ 0 < zlen bs) then poll_deliver b bs
      else if decide (res = false) then
        err ← os_get GetLastError;
        if decide (err = ERROR_BROKEN_PIPE) then mret (- EPIPE) else mret 0
      else mret 0) Q (set_w_dev (env_os e2 (w_dev w)) w) ->
  wp (mctp_mmbi_poll b) Q w.
Proof.
  intros [Hm Hh _ Hbd (Hps & _)] Hpeek Hav Hread HQ.
  unfold mctp_mmbi_poll. wp_step. eapply wp_get_mmbi; [done|].
  do 2 wp_step. eapply wp_os_call; [exact Hpeek|]. do 4 wp_step. rewrite Hps.
  assert (Emax : (if decide (u32 (u32 (MCTP_PACKET_SIZE 65536) + 4) > sizeof_rx_buf)
    then sizeof_rx_buf else u32 (u32 (MCTP_PACKET_SIZE 65536) + 4)) = 65544)
    by (vm_compute; reflexivity).
  rewrite Emax. eapply wp_os_call; [exact Hread|exact HQ].
Qed.

(** What [mctp_mmbi_poll] leaves when it has received the bytes [bs], [res]
    being what they mean. *)
Record polled (mctp b : Z) (bus : nat) (eid : Z) (bd : mctp_binding) (bs : list Z) (e : E)
    (F : gmap Z hobj) (res : rmap * option delivery) (w w' : world D) : Prop := {
  po_trace : w_trace w' = w_trace w ++ capture_events (w_mctp w) bs ++
    from_option (delivery_events (w_mctp w)) [] res.2;
  po_ctxs : ctxs_inv w' (<[w_brk w := HPkt (mmbi_pkt bd bs)]> F) res.1;
  po_endpoint : endpoint mctp b bus eid w';
  po_mmbis : dv_mmbis (w_dev w') = dv_mmbis (w_dev w);
  po_mallocs : w_mallocs w' = [];
  po_bindings : w_bindings w' = w_bindings w;
  po_mctp : exists ctxs, w_mctp w' = set_m_req_tags
    (from_option (fun dl => delivery_tags dl (m_req_tags (w_mctp w))) (m_req_tags (w_mctp w)) res.2)
    (set_m_msg_ctxs ctxs (w_mctp w));
  po_keep : exists d d', dv_os d = e /\ keep d d' /\ dv_os (w_dev w') = dv_os d';
}.

Lemma wp_poll_receives mctp b bus eid F r m bd bs e w :
  ctxs_inv w F r -> endpoint mctp b bus eid w -> w_mallocs w = [] -> mmbi_open b m bd w ->
  0 < zlen bs <= 65540 -> device_gives (mb_device_handle m) bs (dv_os (w_dev w)) e ->
  let res := spec_rx eid (m_max_message_size (w_mctp w)) true r bs in
  (forall dl, res.2 = Some dl -> ctrl_request (dl_msg dl) = false) ->
  wp (mctp_mmbi_poll b) (fun rc w' => rc = 0 /\ polled mctp b bus eid bd bs e F res w w') w.
Proof.
  intros HI Hep Hmem Ho [Hpos Hl] Hdev res Hreq.
  pose proof Ho as [Hm Hh (n & Hn & Hn0) Hbd Hs].
  destruct (mmbi_pkt_ok bd bs Hs Hl) as [Hwf Hwire].
  destruct Hdev as (av & e1 & Hpeek & Hav & Hread).
  eapply wp_poll_reads; [exact Ho|done..|]. rewrite decide_True by done. set (w0 := set_w_dev _ w).
  assert (I0 : ctxs_inv w0 F r) by (destruct HI; by split).
  assert (E0 : endpoint mctp b bus eid w0) by by apply (endpoint_api _ _ _ _ w).
  eapply (wp_poll_received _ _ _ _ _ _ m bd n bs _ w0 I0 E0); [done..|].
  intros w1 He. pose proof (re_keep _ _ _ _ _ He) as Hk.
  pose proof (Hkeep _ _ Hk) as Hk'. unfold keeps_mmbis in Hk'. simpl in Hk'. split; [done|]. split.
  - simpl. rewrite (re_trace _ _ _ _ _ He). simpl. by rewrite Hwire, <- app_assoc.
  - destruct (re_ctxs _ _ _ _ _ He); by split.
  - apply (endpoint_api _ _ _ _ w1); [done..|].
    eapply (endpoint_effect keep); [exact He|]. by apply (endpoint_api _ _ _ _ w0).
  - simpl. rewrite Hk', insert_insert_eq. apply insert_id. rewrite Hm. f_equal.
    destruct m; simpl in *; by subst.
  - apply (re_mallocs _ _ _ _ _ He). simpl. by rewrite Hmem.
  - apply (re_bindings _ _ _ _ _ He).
  - simpl. rewrite (re_mctp _ _ _ _ _ He). by eexists.
  - eexists _, _. split; [|split; [exact Hk|done]]. done.
Qed.

(** C17: Polling an endpoint's device when it has a packet to read.  The bytes
    read are received as [spec_rx] says, [mctp_mmbi_poll] returns 0, and the
    lock is left as it was; but the packet buffer made for the bytes stays
    allocated: neither the binding nor [mctp_bus_rx] frees it. *)
Theorem mctp_mmbi_poll_receives mctp b bus eid F r m bd bs e w :
  ctxs_inv w F r -> endpoint mctp b bus eid w -> w_mallocs w = [] -> mmbi_open b m bd w ->
  0 < zlen bs <= 65540 -> device_gives (mb_device_handle m) bs (dv_os (w_dev w)) e ->
  let res := spec_rx eid (m_max_message_size (w_mctp w)) true r bs in
  (forall dl, res.2 = Some dl -> ctrl_request (dl_msg dl) = false) ->
  exists w' p, mctp_mmbi_poll b w = Ok 0 w' /\
    w_trace w' = w_trace w ++ capture_events (w_mctp w) bs ++
      from_option (delivery_events (w_mctp w)) [] res.2 /\
    pkt_wire p = bs /\ ctxs_inv w' (<[w_brk w := HPkt p]> F) res.1 /\
    endpoint mctp b bus eid w' /\ dv_mmbis (w_dev w') = dv_mmbis (w_dev w).
Proof.
  intros HI Hep Hmem Ho Hl Hdev res Hreq.
  destruct (mmbi_pkt_ok bd bs (mo_sized _ _ _ _ Ho)) as [_ Hwire]; [lia|].
  destruct (wp_inv _ _ _ (wp_poll_receives mctp b bus eid F r m bd bs e w HI Hep Hmem Ho Hl Hdev
    Hreq)) as (rc & w' & Hrun & -> & H).
  exists w', (mmbi_pkt bd bs). destruct H. naive_solver.
Qed.

(** A read that is too long for a packet buffer. *)
Lemma wp_deliver_long b m bd bs (Q : Z -> world D -> Prop) w :
  mmbi_open b m bd w -> 65540 < zlen bs -> w_ops w = default_alloc_ops -> heap_wf w ->
  Q (- ENOMEM) w -> wp (poll_deliver b bs) Q w.
Proof.
  intros [Hm Hh (n & Hn & Hn0) Hbd Hs] Hl Hops Hwf HQ. pose proof (mmbi_buf_size bd Hs) as Hb.
  unfold poll_deliver. wp_step. eapply wp_enter; [done..|]. wp_step.
  eapply wp_pktbuf_alloc; [done..|exact Hbd|lia|unfold sizeof_mctp_pktbuf; lia| |lia|lia].
  intros _. do 2 wp_step. eapply wp_leave; [apply lookup_insert_eq|done|lia|]. wp_step.
  replace (n + 1 - 1) with n by lia.
  change (Q (- ENOMEM) (locked b m n (locked b m (n + 1) w))).
  by rewrite locked_twice, locked_id.
Qed.

(** Polling when there is no packet to receive: without a device nothing
    happens; with no bytes available it pauses; a failed read gives [-EPIPE]
    when the other end is gone and 0 otherwise, as does an empty one; and a
    read longer than any packet gives [-ENOMEM], with the lock released. *)
Theorem mctp_mmbi_poll_otherwise b m w :
  dv_mmbis (w_dev w) !! b = Some m ->
  let h := mb_device_handle m in
  let after e := set_w_dev (env_os e (w_dev w)) w in
  (~ handle_valid h -> mctp_mmbi_poll b w = Ok 0 w) /\
  forall bd av e1, mmbi_open b m bd w -> w_ops w = default_alloc_ops -> heap_wf w ->
    PeekNamedPipe h (dv_os (w_dev w)) = (av, e1) ->
    if decide (av = Some 0) then mctp_mmbi_poll b w = Ok 0 (after (Sleep 1 e1)) else
    forall res bs e2, ReadFile h 65544 e1 = (res, bs, e2) ->
    (res = false ->
      mctp_mmbi_poll b w =
        Ok (if decide (GetLastError e2 = ERROR_BROKEN_PIPE) then - EPIPE else 0) (after e2)) /\
    (res = true -> bs = [] -> mctp_mmbi_poll b w = Ok 0 (after e2)) /\
    (res = true -> 65540 < zlen bs -> mctp_mmbi_poll b w = Ok (- ENOMEM) (after e2)).
Proof.
  intros Hm h after. split.
  { intros Hh. apply wp_run_eq. unfold mctp_mmbi_poll. wp_step. eapply wp_get_mmbi; [done|].
    by wp_steps. }
  intros bd av e1 Ho Hops Hwf Hpeek. pose proof Ho as [_ Hh (n & Hn & Hn0) Hbd Hs].
  case_decide as Hav.
  { apply wp_run_eq. unfold mctp_mmbi_poll. wp_step. eapply wp_get_mmbi; [done|].
    do 2 wp_step. eapply wp_os_call; [exact Hpeek|]. do 2 wp_step.
    eapply wp_os_call; [done|]. by wp_steps. }
  intros res bs e2 Hr. split; [|split]; intros ->; [|intros ->|intros Hl];
    apply wp_run_eq; (eapply wp_poll_reads; [exact Ho|exact Hpeek|exact Hav|exact Hr|]).
  - wp_steps. eapply wp_os_call; [done|]. simpl. by case_decide; wp_step.
  - by wp_steps.
  - rewrite decide_True by lia. eapply wp_deliver_long; [|done..].
    split; try done. by exists n.
Qed.

(** ** The memory-mapped interface *)

(** The buffer [mctp_mmbi_rx] makes of [len] bytes of the region. *)
Definition mmbi_rx_pkt (bd : mctp_binding) (len : Z) (region : list Z) : mctp_pktbuf :=
  pkt_append (slice 0 len region) (pkt_alloced bd len).

Lemma mmbi_alloced_inv bd len :
  mmbi_sized bd -> 0 <= len <= 65540 ->
  pkt_inv (pkt_alloced bd len) /\ pb_end (pkt_alloced bd len) = len.
Proof.
  intros Hs Hl. pose proof (mmbi_alloced_data bd len Hs) as Hd.
  pose proof (mmbi_buf_size bd Hs) as Hb. pose proof Hs as (_ & Hh & _).
  assert (He : pb_end (pkt_alloced bd len) = len) by (simpl; rewrite Hh, sz_small; lia).
  split; [|done]. split; rewrite ?He, ?Hd; simpl; lia.
Qed.

Lemma mmbi_rx_pkt_ok bd len region :
  mmbi_sized bd -> 0 <= len <= zlen region -> 2 * len <= 65540 ->
  pkt_wf (mmbi_rx_pkt bd len region) /\
  pkt_wire (mmbi_rx_pkt bd len region) = replicate (Z.to_nat len) 0 ++ slice 0 len region.
Proof.
  intros Hs Hl H2. destruct (mmbi_alloced_inv bd len Hs) as [_ He]; [lia|].
  pose proof (mmbi_alloced_data bd len Hs) as Hd. pose proof Hs as (_ & Hh & _).
  assert (Hz : zlen (slice 0 len region) = len) by (apply zlen_slice; lia).
  assert (Hzs : zlen (splice len (slice 0 len region) (pb_data (pkt_alloced bd len))) = 65547)
    by (rewrite zlen_splice; lia).
  unfold pkt_wf, pkt_wire, mctp_pktbuf_hdr, mctp_pktbuf_size, mmbi_rx_pkt, pkt_append.
  cbn [pb_start pb_end pb_mctp_hdr_off pb_data]. rewrite He, Hz, Hzs.
  cbn [pb_start pb_mctp_hdr_off pkt_alloced]. rewrite Hh. split; [lia|].
  rewrite Z.sub_0_r, sz_small, slice_split by lia. rewrite Z.add_0_l.
  pose proof (slice_splice_eq len (slice 0 len region) (pb_data (pkt_alloced bd len))
    ltac:(lia) ltac:(lia)) as E1. rewrite Hz in E1. rewrite E1. f_equal.
  rewrite slice_splice_below by lia. simpl. unfold slice.
  rewrite drop_0, take_replicate. f_equal. rewrite mmbi_buf_size by done. lia.
Qed.

Lemma spec_rx_zeros eid max ok r n pl :
  (4 <= n)%nat -> (spec_rx eid max ok r (replicate n 0 ++ pl)).2 = None.
Proof.
  intros Hn. destruct n as [|[|[|[|n]]]]; try lia. simpl.
  case_decide; [|done]. unfold spec_flags. by rewrite !decide_False, decide_True by done.
Qed.

(** [mctp_mmbi_rx] up to the push. *)
Lemma wp_mmbi_rx b m bd F r region len (Q : Z -> world D -> Prop) w :
  ctxs_inv w F r -> w_mallocs w = [] -> b <> NULL ->
  dv_mmbis (w_dev w) !! b = Some m -> w_bindings w !! b = Some bd -> mmbi_sized bd ->
  mb_rx_storage m <> NULL -> w_heap w !! mb_rx_storage m = Some (HBytes region) ->
  0 <= len <= mb_memory_size m -> len <= zlen region -> len <= 65540 ->
  (2 * len <= 65540 ->
     wp (mctp_bus_rx b (w_brk w)) (fun _ => Q 0) (with_new_pkt (mmbi_rx_pkt bd len region) w)) ->
  (2 * len > 65540 -> forall w', w_trace w' = w_trace w -> Q (-1) w') ->
  wp (mctp_mmbi_rx b len) Q w.
Proof.
  intros HI Hmem Hb Hm Hbd Hs Hst Hreg Hl Hlr Hmax Hfit Hfull.
  pose proof (mmbi_buf_size bd Hs) as Hbuf.
  destruct (mmbi_alloced_inv bd len Hs) as [Hinv He]; [lia|].
  pose proof (ci_heap _ _ _ HI) as Hwf. pose proof (heap_wf_fresh _ Hwf) as Hfr.
  assert (Hbn : w_brk w <> NULL) by (destruct Hwf; unfold NULL; lia).
  assert (Hz : zlen (slice 0 len region) = len) by (apply zlen_slice; lia).
  unfold mctp_mmbi_rx. do 2 wp_step. eapply wp_get_mmbi; [done|]. do 3 wp_step.
  eapply wp_pktbuf_alloc; [apply HI|done|exact Hbd|lia|unfold sizeof_mctp_pktbuf; lia|lia
    |unfold malloc_ok; by rewrite Hmem|].
  intros _ _. do 2 wp_step. eapply (wp_load_bytes _ region); [|lia..|].
  { simpl. rewrite lookup_insert_ne by congruence. exact Hreg. }
  wp_step. fold (with_new_pkt (pkt_alloced bd len) w).
  assert (Hp : w_heap (with_new_pkt (pkt_alloced bd len) w) !! w_brk w
    = Some (HPkt (pkt_alloced bd len))) by apply lookup_insert_eq.
  pose proof (pktbuf_push_run (w_brk w) _ (slice 0 len region) len _ Hp Hinv
    ltac:(lia) ltac:(lia)) as Hpush.
  rewrite (slice_all (slice 0 len region)), He in Hpush by lia.
  change (pb_size (pkt_alloced bd len)) with (binding_buf_size bd) in Hpush.
  rewrite Hbuf in Hpush. destruct (decide (2 * len <= 65540)) as [H2|H2].
  - rewrite decide_True in Hpush by lia. eapply wp_ok; [exact Hpush|].
    specialize (Hfit H2). wp_steps. unfold with_pkt, with_new_pkt, set_w_heap in *.
    simpl in *. rewrite insert_insert_eq. eapply wp_mono; [exact Hfit|]. intros [] w' HQ.
    by wp_step.
  - rewrite decide_False in Hpush by lia. eapply wp_ok; [exact Hpush|]. wp_steps.
    unfold mctp_pktbuf_free. wp_step. eapply wp_load_pkt; [exact Hp|]. simpl pb_alloc. cbv match.
    apply wp_free; [apply HI|eauto| |].
    { simpl. rewrite lookup_insert_ne by (unfold NULL in *; congruence). by apply heap_wf_null. }
    wp_step. apply Hfull; [lia|done].
Qed.

(** C36: The memory-mapped interface cannot receive: [mctp_pktbuf_alloc] already
    puts a window of [len] zero bytes in the buffer and [mctp_pktbuf_push]
    appends the packet behind them, so for any packet with a header ([len] of at least 4) the core
    sees a header of zeros and delivers nothing, whatever is in the region;
    longer packets are refused with -1. *)
Theorem mctp_mmbi_rx_never_delivers mctp b bus eid F r m bd region len w :
  ctxs_inv w F r -> endpoint mctp b bus eid w -> w_mallocs w = [] -> b <> NULL ->
  dv_mmbis (w_dev w) !! b = Some m -> w_bindings w !! b = Some bd -> mmbi_sized bd ->
  mb_rx_storage m <> NULL -> w_heap w !! mb_rx_storage m = Some (HBytes region) ->
  sizeof_mctp_hdr <= len <= mb_memory_size m -> len <= zlen region -> len <= 65540 ->
  exists w', mctp_mmbi_rx b len w = Ok (if decide (2 * len <= 65540) then 0 else -1) w' /\
    w_trace w' = w_trace w ++ if decide (2 * len <= 65540)
      then capture_events (w_mctp w) (replicate (Z.to_nat len) 0 ++ slice 0 len region) else [].
Proof.
  intros HI Hep Hmem Hb Hm Hbd Hs Hst Hreg Hl Hlr Hmax. unfold sizeof_mctp_hdr in Hl.
  set (ans := if decide (2 * len <= 65540) then 0 else -1). set (evs := if decide _ then _ else []).
  assert (Hwp : wp (mctp_mmbi_rx b len) (fun rc w' => rc = ans /\ w_trace w' = w_trace w ++ evs) w).
  { eapply (wp_mmbi_rx b m bd F r region); try done; [lia|intros H2|intros H2 w' Ht].
    2: { unfold ans, evs. rewrite !decide_False by lia. by rewrite app_nil_r. }
    destruct (mmbi_rx_pkt_ok bd len region Hs) as [Hwf Hwire]; [lia..|].
    pose proof (ctxs_inv_new_pkt (mmbi_rx_pkt bd len region) F r w HI) as I1.
    set (w1 := with_new_pkt _ w) in *.
    assert (E1 : endpoint mctp b bus eid w1) by by apply (endpoint_api _ _ _ _ w).
    pose proof (spec_rx_zeros eid (m_max_message_size (w_mctp w1)) (malloc_ok w1) r
      (Z.to_nat len) (slice 0 len region) ltac:(lia)) as Hnone. rewrite <- Hwire in Hnone.
    eapply wp_mono; [eapply (wp_bus_rx keep _ _ _ _ _ _ _ _ _ I1 E1);
      [apply lookup_insert_eq|done|by rewrite Hnone]|].
    intros [] w2 He. unfold ans, evs. rewrite !decide_True by lia. split; [done|].
    rewrite (re_trace _ _ _ _ _ He), Hnone. simpl. by rewrite Hwire, app_nil_r. }
  destruct (wp_inv _ _ _ Hwp) as (rc & w' & Hrun & -> & Ht). by exists w'.
Qed.
End rx.
