(* ===== verification/MmbiInit.v ===== *)
(** * Opening and closing an MMBI endpoint

    [mctp_mmbi_context_init] builds a stack, a binding and a context on top; the
    theorems say that what it returns is what the theorems about sending and
    receiving are for, and what becomes of the memory when opening fails or the
    context is destroyed. *)

From S2P Require Import Prelude State Alloc Pktbuf Reasm Tags Tx Control Rx RxSpec RxRefine.
From S2P Require Import Frag TxRefine TxApi Bus Cleanup Mmbi MmbiFacts MmbiRx.

(** ** The callbacks of the two APIs *)

#[export] Instance mmbi_api_ready {E} : ApiReady E.
Proof. intros f x d d' E1 E2. unfold rx_ready, mmbi_rx_ready. by rewrite E1, E2. Qed.

(** The application's callback, which [mmbi_internal_rx] and
    [transport_rx_handler] call: it returns, and changes the environment at most,
    as [keep] says; contexts and transports stay. *)
Class QuietUser (E : Type) `{!UserOps (mmbi_env E)} (keep : mmbi_env E -> mmbi_env E -> Prop) := {
  quiet_user cb src msg len ctx (w : world (mmbi_env E)) :
    exists d, uop_rx cb src msg len ctx w = Ok tt (set_w_dev d w) /\ keep (w_dev w) d;
  quiet_user_pre :: PreOrder keep;
  quiet_user_api d d' :
    keep d d' -> dv_ctxs d' = dv_ctxs d /\ dv_transports d' = dv_transports d;
}.

Section callbacks.
Context {E : Type} `{!WinOps E, !UserOps (mmbi_env E)}.
Local Abbreviation D := (mmbi_env E).
Context (keep : D -> D -> Prop) `{!QuietUser E keep}.

Lemma mmbi_callback_run f src to tag data buf len (w : world D) :
  rx_ready f data (w_dev w) ->
  exists d, rop_rx f src to tag data buf len w = Ok tt (set_w_dev d w) /\ keep (w_dev w) d.
Proof.
  assert (Hid : exists d, Ok tt w = Ok tt (set_w_dev d w) /\ keep (w_dev w) d).
  { exists (w_dev w). split; [by destruct w|reflexivity]. }
  unfold rop_rx, mmbi_rx_ops. intros [[-> Hx]|[-> Hx]].
  - rewrite decide_True by done. unfold mmbi_internal_rx. case_decide; [exact Hid|].
    destruct Hx as [|[x Hx]]; [done|].
    rewrite (bind_run _ _ x w w) by (unfold get_mmbi_ctx; by rewrite Hx).
    destruct (cx_rx_cb x); [apply quiet_user|exact Hid].
  - rewrite decide_False, decide_True by done. unfold transport_rx_handler. case_decide; [exact Hid|].
    destruct Hx as [|[x Hx]]; [done|].
    rewrite (bind_run _ _ x w w) by (unfold get_transport; by rewrite Hx).
    destruct (tr_rx_cb x); [apply quiet_user|exact Hid].
Qed.

#[export] Instance mmbi_quiet_rx : QuietRx D.
Proof.
  split. intros f src to tag data buf len w Hr.
  destruct (mmbi_callback_run f src to tag data buf len w Hr) as (d & Hrun & _). by exists d.
Qed.

(** Whenever a callback returns at all. *)
#[export] Instance mmbi_keep_ops : KeepOps D keep.
Proof.
  split; [apply _| |by intros ? ? ? ? ? ? [= <-]|].
  - intros f x d d' Hk. destruct (quiet_user_api d d' Hk) as [E1 E2]. by apply api_ready.
  - intros f src to tag data buf len w w' Hrun.
    assert (Hr : data = NULL \/ rx_ready f data (w_dev w)).
    { revert Hrun. unfold rop_rx, mmbi_rx_ops, rx_ready, mmbi_rx_ready.
      destruct (decide (data = NULL)) as [|Hd]; [by left|]. right.
      destruct (decide (f = "mmbi_internal_rx"%string)) as [->|]; [left; split; [done|right]|].
      { revert Hrun. unfold mmbi_internal_rx, get_mmbi_ctx, mbind, M_bind.
        rewrite decide_False by done. destruct (dv_ctxs (w_dev w) !! data); [by eexists|done]. }
      destruct (decide (f = "transport_rx_handler"%string)) as [->|]; [right; split; [done|right]|done].
      revert Hrun. unfold transport_rx_handler, get_transport, mbind, M_bind.
      rewrite decide_False by done. destruct (dv_transports (w_dev w) !! data); [by eexists|done]. }
    destruct Hr as [->|Hr].
    + revert Hrun. unfold rop_rx, mmbi_rx_ops, mmbi_internal_rx, transport_rx_handler.
      repeat case_decide; try done; by intros [= <-].
    + destruct (mmbi_callback_run f src to tag data buf len w Hr) as (d & Hrun' & Hk).
      rewrite Hrun in Hrun'. by injection Hrun' as ->.
Qed.
End callbacks.

(** ** A new stack *)

Definition types0 : mctp_control := mk_control (replicate 10 0) 1.

(** What [mctp_setup] leaves in the [struct mctp]. *)
Definition fresh_mctp : mctp :=
  set_m_control types0 (set_m_platform_now (Some "mctp_default_now"%string)
    (set_m_max_message_size MCTP_MAX_MESSAGE_SIZE zero_mctp)).

Section stack.
Context {D : Type} `{!ExtAlloc D, !StartOps D}.
Implicit Types w : world D.

Definition with_stack w : world D := set_w_mctp fresh_mctp (after_malloc sizeof_mctp w).

Lemma wp_mctp_init (Q : Z -> world D -> Prop) w :
  w_ops w = default_alloc_ops -> heap_wf w ->
  (malloc_ok w = true -> Q (w_brk w) (with_stack w)) ->
  (malloc_ok w = false -> Q NULL (after_oom w)) -> wp mctp_init Q w.
Proof.
  intros Hops Hwf HQ HN. unfold mctp_init. wp_step.
  apply wp_alloc; [done|intros Hok|intros Hok]; [|wp_steps; auto].
  assert (Hb : w_brk w <> NULL) by (destruct Hwf; unfold NULL; lia).
  do 2 wp_step. unfold mctp_setup. rewrite decide_False by (unfold sizeof_mctp; lia).
  do 7 wp_step. unfold mctp_control_add_type. do 2 wp_step.
  rewrite decide_False by (simpl; set_solver). wp_step. do 5 wp_step.
  by apply HQ.
Qed.

Lemma with_stack_inv w :
  w_ops w = default_alloc_ops -> heap_wf w ->
  ctxs_inv (with_stack w) (w_heap (with_stack w)) ∅.
Proof.
  intros Hops Hwf. split; [done|by apply (heap_wf_malloc sizeof_mctp)| |].
  - apply rep_empty; [done|]. apply Forall_replicate. intros H. by apply H.
  - vm_compute. done.
Qed.
End stack.

(** ** A new binding *)

Definition init_binding : mctp_binding :=
  set_bd_pkt_size (MCTP_PACKET_SIZE 65536) (set_bd_version 1 zero_binding).

Definition open_binding (storage : Z) (bd : mctp_binding) : mctp_binding :=
  set_bd_tx_storage storage (set_bd_start (Some "mctp_mmbi_start"%string)
    (set_bd_tx (Some "mctp_mmbi_tx"%string) bd)).

Section open.
Context {E : Type} `{!WinOps E, !UserOps (mmbi_env E)}.
Local Abbreviation D := (mmbi_env E).
Context `{!ExtAlloc D, !ClockOps D}.
Implicit Types w : world D.

Definition with_mmbi w : world D :=
  set_w_dev (set_mmbis (<[w_brk w := set_mb_lock (Some 0) zero_mmbi]>) (w_dev w))
    (set_w_bindings (<[w_brk w := init_binding]> (w_bindings w))
      (after_malloc sizeof_mctp_binding_mmbi w)).

Lemma wp_mmbi_init (Q : Z -> world D -> Prop) w :
  w_ops w = default_alloc_ops -> heap_wf w ->
  (malloc_ok w = true -> Q (w_brk w) (with_mmbi w)) ->
  (malloc_ok w = false -> Q NULL (after_oom w)) -> wp mctp_mmbi_init Q w.
Proof.
  intros Hops Hwf HQ HN. unfold mctp_mmbi_init. wp_step.
  apply wp_alloc; [done|intros Hok|intros Hok]; [|wp_steps; auto].
  assert (Hb : w_brk w <> NULL) by (destruct Hwf; unfold NULL; lia).
  unfold create_mmbi, InitializeCriticalSection, upd_mmbi, upd_env. wp_steps.
  unfold set_mmbis. simpl. rewrite !fin_maps.alter_insert_eq. by apply HQ.
Qed.

(** ** Opening the device *)

(** The state of the system once the device has been opened with handle [h]. *)
Definition pipe_state (h : Z) (e : E) : E :=
  if GetFileType_is_pipe h e then SetNamedPipeHandleState h e else e.

Definition with_device (p : Z) bd m (h : Z) (e : E) w : world D :=
  set_w_dev (env_os (pipe_state h e)
      (set_mmbis (<[p := set_mb_device_handle h m]>) (w_dev w)))
    (set_w_bindings (<[p := open_binding (w_brk w) bd]> (w_bindings w))
      (after_malloc (MCTP_PKTBUF_SIZE 65536) w)).

Lemma with_device_mctp p bd m h e w : w_mctp (with_device p bd m h e w) = w_mctp w.
Proof. done. Qed.

Lemma alter_Some_insert {A} (f : A -> A) p x (g : gmap Z A) :
  g !! p = Some x -> alter f p g = <[p := f x]> g.
Proof. intros Hp. rewrite <- (insert_id g p x) at 1 by done. apply fin_maps.alter_insert_eq. Qed.

Lemma wp_init_device p path bd m h e (Q : Z -> world D -> Prop) w :
  w_ops w = default_alloc_ops -> heap_wf w -> malloc_ok w = true ->
  w_bindings w !! p = Some bd -> dv_mmbis (w_dev w) !! p = Some m ->
  CreateFileA path (dv_os (w_dev w)) = (h, e) -> h <> INVALID_HANDLE_VALUE ->
  Q 0 (with_device p bd m h e w) -> wp (mctp_mmbi_init_device p path) Q w.
Proof.
  intros Hops Hwf Hok Hbd Hm Hopen Hh HQ. unfold mctp_mmbi_init_device. wp_step.
  eapply wp_os_call; [exact Hopen|]. wp_step.
  assert (Hb : w_brk w <> NULL) by (destruct Hwf; unfold NULL; lia).
  unfold upd_mmbi, upd_env, mmbi_set_ops. do 3 wp_step. eapply wp_os_call; [done|]. wp_step.
  set (w1 := set_w_dev _ _).
  assert (Hw1 : wp (if GetFileType_is_pipe h e then os_do (SetNamedPipeHandleState h)
    else mret tt) (fun _ w2 => w2 = set_w_dev (env_os (pipe_state h e) (w_dev w1)) w1) w1).
  { unfold pipe_state. simpl. by destruct (GetFileType_is_pipe h e). }
  eapply wp_mono; [exact Hw1|]. intros _ w2 ->. do 5 wp_step.
  apply wp_alloc; [done|intros _|unfold malloc_ok in *; simpl; congruence].
  wp_steps. unfold with_device, set_mmbis in *. simpl in *.
  rewrite (alter_Some_insert _ p m), (alter_Some_insert (set_bd_tx _) p bd) by done.
  rewrite !fin_maps.alter_insert_eq. exact HQ.
Qed.

(** An attempt at opening the device that fails, and the pause after it. *)
Definition open_fails (path : string) (e e' : E) : Prop :=
  exists e1, CreateFileA path e = (INVALID_HANDLE_VALUE, e1) /\ e' = Sleep 100 e1.

Definition with_os (e : E) w : world D := set_w_dev (env_os e (w_dev w)) w.

Lemma with_os_trace e w : w_trace (with_os e w) = w_trace w.
Proof. done. Qed.

Lemma with_os_mctp e w : w_mctp (with_os e w) = w_mctp w.
Proof. done. Qed.

Lemma open_loop_fails k n p path e w :
  nsteps (open_fails path) k (dv_os (w_dev w)) e ->
  open_loop (k + n) p path w = open_loop n p path (with_os e w).
Proof.
  revert w. induction k as [|k IH]; intros w Hk; inversion Hk as [|? ? e1 ? He Hs]; subst.
  { unfold with_os. by destruct w as [? ? ? ? ? ? ? []]. }
  destruct He as (e2 & Hopen & ->). cbn [open_loop Nat.add].
  rewrite (bind_run _ _ (-1) w (with_os e2 w)).
  { rewrite decide_False by done. rewrite (bind_run _ _ tt _ (with_os (Sleep 100 e2) w)) by done.
    rewrite IH by done. done. }
  unfold mctp_mmbi_init_device. erewrite bind_run by (unfold os_call; by rewrite Hopen).
  by rewrite decide_True by done.
Qed.

Lemma open_loop_gives_up p path e w :
  nsteps (open_fails path) 5 (dv_os (w_dev w)) e ->
  open_loop 5 p path w = Ok tt (with_os e w).
Proof. intros H. exact (open_loop_fails 5 0 p path e w H). Qed.

(** ** Registering the binding *)

Definition endpoint_bus (mctp p eid : Z) : mctp_bus :=
  set_bus_st mctp_bus_state_tx_enabled
    (set_bus_eid eid (set_bus_binding p (set_bus_mctp mctp zero_bus))).

Definition registered_binding (mctp : Z) (bd : mctp_binding) : mctp_binding :=
  set_bd_mctp mctp (set_bd_bus (Some 0%nat) bd).

Definition with_endpoint (mctp p eid : Z) bd w : world D :=
  set_w_bindings (<[p := registered_binding mctp bd]> (w_bindings w))
    (set_w_mctp (set_m_route_policy ROUTE_ENDPOINT
       (set_m_busses (<[0%nat := endpoint_bus mctp p eid]> (m_busses (w_mctp w)))
         (set_m_n_busses 1 (w_mctp w)))) w).

Lemma wp_register_bus mctp p eid bd b0 (Q : Z -> world D -> Prop) w :
  mctp <> NULL -> m_n_busses (w_mctp w) = 0 -> m_busses (w_mctp w) !! 0%nat = Some b0 ->
  w_bindings w !! p = Some bd -> bd_tx_storage bd <> NULL ->
  bd_start bd = Some "mctp_mmbi_start"%string -> MCTP_PACKET_SIZE MCTP_BTU <= bd_pkt_size bd ->
  Q 0 (with_endpoint mctp p eid bd w) -> wp (mctp_register_bus mctp p eid) Q w.
Proof.
  intros Hm Hn Hb Hbd Hst Hs Hps HQ. unfold mctp_register_bus. do 4 wp_step; [done|].
  do 6 wp_step; [done|]. unfold set_bus. do 8 wp_step.
  set (w1 := set_w_mctp (set_m_route_policy _ _) _).
  set (bd' := registered_binding mctp bd).
  set (b1 := set_bus_eid eid (set_bus_binding p (set_bus_mctp mctp zero_bus))).
  assert (E1 : w_bindings w1 = <[p := bd']> (w_bindings w)) by by apply alter_Some_insert.
  assert (W : forall bs, set_w_mctp (set_m_busses bs (w_mctp w1)) w1 =
    set_w_bindings (w_bindings w1) (set_w_mctp (set_m_route_policy ROUTE_ENDPOINT
      (set_m_busses bs (set_m_n_busses 1 (w_mctp w)))) w)) by done.
  assert (E2 : m_busses (w_mctp w1) = <[0%nat := b1]> (m_busses (w_mctp w))).
  { change (m_busses (w_mctp w1)) with
      (alter (fun b => set_bus_eid eid (set_bus_binding p (set_bus_mctp mctp b))) 0%nat
         (alter (fun _ => zero_bus) 0%nat (m_busses (w_mctp w)))).
    rewrite (alter_insert (fun _ => zero_bus) _ _ b0), (alter_insert _ _ _ zero_bus)
      by (try apply list_lookup_insert_eq; eauto using lookup_lt_Some).
    by rewrite list_insert_insert_eq. }
  wp_step. eapply wp_get_binding; [rewrite E1; apply lookup_insert_eq|].
  change (bd_start bd') with (bd_start bd). rewrite Hs. wp_step.
  assert (Hbus : m_busses (w_mctp w1) !! 0%nat = Some b1).
  { rewrite E2. apply list_lookup_insert_eq. by eapply lookup_lt_Some. }
  eapply wp_mono with (P := fun rc w2 => rc = 0 /\ w2 = with_endpoint mctp p eid bd w).
  { change (wp (mctp_mmbi_start p) (fun rc w2 => rc = 0 /\ w2 = with_endpoint mctp p eid bd w) w1).
    unfold mctp_mmbi_start, mctp_binding_set_tx_enabled. do 2 wp_step.
    eapply wp_get_binding; [rewrite E1; apply lookup_insert_eq|]. simpl bd_bus.
    do 3 wp_step. eapply wp_get_bus; [exact Hbus|].
    simpl bus_st. cbv match. simpl negb. cbv match. rewrite decide_False by (simpl; lia).
    eapply wp_upd_bus; [exact Hbus|]. wp_step. split; [done|].
    unfold with_bus. by rewrite W, E1, E2, list_insert_insert_eq. }
  intros rc w2 [-> ->]. rewrite decide_False by lia. by wp_step.
Qed.

(** ** The context *)

Definition with_ctx (c : Z) (x : mctp_mmbi_context) w : world D :=
  set_w_dev (set_ctxs_map (<[c := x]>) (w_dev w)) w.

Lemma with_ctx_alter c x f w :
  set_w_dev (set_ctxs_map (alter f c) (w_dev (with_ctx c x w))) (with_ctx c x w) =
    with_ctx c (f x) w.
Proof. unfold with_ctx, set_ctxs_map. simpl. by rewrite fin_maps.alter_insert_eq, ?insert_insert_eq. Qed.

(** Receiving goes to the handler [cb], with [c] as its data. *)
Definition with_rx (cb : string) (c : Z) w : world D :=
  set_w_mctp (set_m_message_rx_data c (set_m_message_rx (Some cb) (w_mctp w))) w.

(** The state before the device is opened: the context at [c], the stack and the
    binding behind it. *)
Definition with_parts w : world D :=
  let c := w_brk w in
  with_ctx c (mk_mmbi_context (c + 16) (c + 16 + 16) None NULL false)
    (with_mmbi (with_stack (after_malloc sizeof_mctp_mmbi_context w))).

Lemma wp_context_parts path eid (Q : Z -> world D -> Prop) w :
  let c := w_brk w in let mctp := c + 16 in let p := c + 16 + 16 in
  w_ops w = default_alloc_ops -> heap_wf w -> w_mallocs w = [] ->
  wp (open_loop 5 p path;;
      m ← get_mmbi p;
      if decide (mb_device_handle m = NULL) then
        mctp_mmbi_destroy p;; mctp_destroy mctp;; __mctp_free c;; mret NULL
      else
        mctp_register_bus mctp p eid;;
        mctp_binding_set_tx_enabled p true;;
        mctp_set_rx_all mctp (Some "mmbi_internal_rx"%string) c;;
        mret c) Q (with_parts w) ->
  wp (mctp_mmbi_context_init path eid) Q w.
Proof.
  intros c mctp p Hops Hwf Hmem HQ. unfold mctp_mmbi_context_init. wp_step.
  assert (Hc : c <> NULL) by (destruct Hwf; unfold c, NULL; lia).
  apply wp_alloc; [done|intros _|unfold malloc_ok; by rewrite Hmem].
  do 2 wp_step. unfold create_mmbi_ctx, upd_mmbi_ctx, upd_env. do 2 wp_step.
  pose proof (heap_wf_malloc sizeof_mctp_mmbi_context w Hwf) as H1.
  apply wp_mctp_init; [done|exact H1|intros _|unfold malloc_ok; simpl; by rewrite Hmem].
  do 2 wp_step. simpl w_brk. fold c.
  rewrite decide_False by (destruct Hwf; unfold c, NULL; lia). wp_step.
  apply wp_mmbi_init; [done| |intros _|unfold malloc_ok; simpl; by rewrite Hmem].
  { exact (heap_wf_malloc sizeof_mctp _ H1). }
  do 2 wp_step. simpl w_brk. fold c mctp p.
  rewrite decide_False by (destruct Hwf; unfold p, c, NULL; lia).
  match goal with |- wp _ _ ?W => assert (W = with_parts w) as -> end; [|exact HQ].
  unfold with_parts, with_ctx, with_mmbi, with_stack, set_ctxs_map. simpl.
  by rewrite !fin_maps.alter_insert_eq.
Qed.

Definition mmbi_at_init : mctp_binding_mmbi := set_mb_lock (Some 0) zero_mmbi.

(** What the parts are to each other. *)
Record parts_ok (c : Z) (os : E) w : Prop := {
  po_alloc : w_ops w = default_alloc_ops /\ heap_wf w /\ w_brk w = c + 16 + 16 + 16;
  po_ctxs : ctxs_inv w (w_heap w) ∅;
  po_os : dv_os (w_dev w) = os;
  po_binding : w_bindings w !! (c + 16 + 16) = Some init_binding;
  po_mmbi : dv_mmbis (w_dev w) !! (c + 16 + 16) = Some mmbi_at_init;
  po_mctp : w_mctp w = fresh_mctp;
}.

Lemma with_parts_ok w :
  w_ops w = default_alloc_ops -> heap_wf w ->
  parts_ok (w_brk w) (dv_os (w_dev w)) (with_parts w).
Proof.
  intros Hops Hwf.
  pose proof (heap_wf_malloc sizeof_mctp_mmbi_context w Hwf) as H1.
  pose proof (heap_wf_malloc sizeof_mctp _ H1) as H2.
  pose proof (heap_wf_malloc sizeof_mctp_binding_mmbi _ H2) as H3.
  split; [| |done|apply lookup_insert_eq|apply lookup_insert_eq|done].
  - split; [done|]. by split; [exact H3|].
  - destruct (with_stack_inv (after_malloc sizeof_mctp_mmbi_context w) Hops H1) as [_ _ Hr Hx].
    split; [done|exact H3| |done]. apply rep_empty; [done|].
    apply Forall_replicate. intros H. by apply H.
Qed.

(** The parts [w] behind [c], the device opened with handle [h], which left the
    system in the state [e]. *)
Definition with_opened (cb : string) (c eid h : Z) (e : E) w : world D :=
  with_rx cb c (with_endpoint (c + 16) (c + 16 + 16) eid (open_binding (c + 16 + 16 + 16) init_binding)
    (with_device (c + 16 + 16) init_binding mmbi_at_init h e w)).

Definition with_context (eid h : Z) (e : E) w : world D :=
  with_opened "mmbi_internal_rx" (w_brk w) eid h e (with_parts w).

Lemma wp_open_loop path k e0 h e p bd m (Q : unit -> world D -> Prop) w :
  w_ops w = default_alloc_ops -> heap_wf w -> malloc_ok w = true ->
  w_bindings w !! p = Some bd -> dv_mmbis (w_dev w) !! p = Some m ->
  (k < 5)%nat -> nsteps (open_fails path) k (dv_os (w_dev w)) e0 ->
  CreateFileA path e0 = (h, e) -> h <> INVALID_HANDLE_VALUE ->
  Q tt (with_device p bd m h e w) -> wp (open_loop 5 p path) Q w.
Proof.
  intros Hops Hwf Hok Hbd Hm Hk Hfails Hopen Hh HQ.
  replace 5%nat with (k + S (4 - k))%nat by lia. unfold wp.
  rewrite (open_loop_fails k _ p path e0) by done. cbn [open_loop].
  match goal with |- match ?f ?s with _ => _ end => change (wp f Q s) end.
  wp_step. eapply wp_init_device; [done..|]. by wp_steps.
Qed.

(** Registering the opened binding and setting the callback. *)
Lemma wp_context_register mctp p eid bd b0 cb c (Q : Z -> world D -> Prop) w :
  mctp <> NULL -> m_n_busses (w_mctp w) = 0 -> m_busses (w_mctp w) !! 0%nat = Some b0 ->
  w_bindings w !! p = Some bd -> bd_tx_storage bd <> NULL ->
  bd_start bd = Some "mctp_mmbi_start"%string -> MCTP_PACKET_SIZE MCTP_BTU <= bd_pkt_size bd ->
  Q c (with_rx cb c (with_endpoint mctp p eid bd w)) ->
  wp (mctp_register_bus mctp p eid;;
      mctp_binding_set_tx_enabled p true;;
      mctp_set_rx_all mctp (Some cb) c;;
      mret c) Q w.
Proof.
  intros Hm Hn Hb Hbd Hst Hs Hps HQ. wp_step. eapply wp_register_bus; [done..|].
  set (w2 := with_endpoint mctp p eid bd w) in *.
  assert (H1 : w_bindings w2 !! p = Some (registered_binding mctp bd)) by apply lookup_insert_eq.
  assert (H2 : m_busses (w_mctp w2) !! 0%nat = Some (endpoint_bus mctp p eid)).
  { apply list_lookup_insert_eq. by eapply lookup_lt_Some. }
  clearbody w2. unfold mctp_binding_set_tx_enabled. do 4 wp_step. simpl bd_bus. do 3 wp_step.
  simpl bus_st. wp_step. unfold mctp_set_rx_all. by wp_steps.
Qed.

Lemma wp_context_finish mctp p eid bd b0 m c (Q : Z -> world D -> Prop) w :
  dv_mmbis (w_dev w) !! p = Some m -> mb_device_handle m <> NULL ->
  mctp <> NULL -> m_n_busses (w_mctp w) = 0 -> m_busses (w_mctp w) !! 0%nat = Some b0 ->
  w_bindings w !! p = Some bd -> bd_tx_storage bd <> NULL ->
  bd_start bd = Some "mctp_mmbi_start"%string -> MCTP_PACKET_SIZE MCTP_BTU <= bd_pkt_size bd ->
  Q c (with_rx "mmbi_internal_rx" c (with_endpoint mctp p eid bd w)) ->
  wp (m ← get_mmbi p;
      if decide (mb_device_handle m = NULL) then
        mctp_mmbi_destroy p;; mctp_destroy mctp;; __mctp_free c;; mret NULL
      else
        mctp_register_bus mctp p eid;;
        mctp_binding_set_tx_enabled p true;;
        mctp_set_rx_all mctp (Some "mmbi_internal_rx"%string) c;;
        mret c) Q w.
Proof.
  intros Hd Hh Hm Hn Hb Hbd Hst Hs Hps HQ. wp_step. eapply wp_get_mmbi; [exact Hd|].
  rewrite decide_False by done. by eapply wp_context_register.
Qed.

Lemma context_init_run path eid k e0 h e w :
  w_ops w = default_alloc_ops -> heap_wf w -> w_mallocs w = [] ->
  (k < 5)%nat -> nsteps (open_fails path) k (dv_os (w_dev w)) e0 ->
  CreateFileA path e0 = (h, e) -> handle_valid h ->
  mctp_mmbi_context_init path eid w = Ok (w_brk w) (with_context eid h e w).
Proof.
  intros Hops Hwf Hmem Hk Hfails Hopen [Hh0 Hh]. apply wp_run.
  unfold with_context, with_opened. apply wp_context_parts; [done..|]. pose proof (with_parts_ok w Hops Hwf) as [(P1a & P1b & P1d) P2 P3 P4 P5 P6].
  assert (Hc : 0 < w_brk w) by (by destruct Hwf).
  assert (Hn : w_brk w + 16 <> NULL /\ w_brk w + 16 + 16 + 16 <> NULL) by (unfold NULL; lia).
  set (c := w_brk w) in *. set (p := c + 16 + 16) in *.
  assert (P1c : malloc_ok (with_parts w) = true) by (unfold malloc_ok; simpl; by rewrite Hmem).
  set (w1 := with_parts w) in *. clearbody w1.
  wp_step. eapply (wp_open_loop path k e0); [done..|by rewrite P3|exact Hopen|done|].
  set (w2 := with_device p init_binding mmbi_at_init h e w1).
  assert (D1 : w_bindings w2 !! p = Some (open_binding (p + 16) init_binding)).
  { rewrite <- P1d. apply lookup_insert_eq. }
  assert (D2 : dv_mmbis (w_dev w2) !! p = Some (set_mb_device_handle h mmbi_at_init))
    by apply lookup_insert_eq.
  assert (D3 : w_mctp w2 = fresh_mctp) by (unfold w2; by rewrite with_device_mctp).
  eapply (wp_context_finish _ _ _ (open_binding (p + 16) init_binding) zero_bus);
    [exact D2|done|apply Hn|by rewrite D3|by rewrite D3|exact D1|apply Hn|done|done|done].
Qed.

(** ** What the context is *)

(** A new block provides for packet buffers. *)
Lemma fresh_block_storage n :
  offsetof_pktbuf_data <= n ->
  exists data, obj_pkt_data (fresh_block n) = Some data /\ zlen data = n - offsetof_pktbuf_data.
Proof.
  intros Hn. unfold fresh_block, obj_pkt_data, offsetof_pktbuf_data in *.
  assert (Hz : zlen (replicate (Z.to_nat n) POISON) = n) by (rewrite zlen_replicate; lia).
  rewrite decide_True by lia. eexists. split; [done|]. unfold zlen in *. rewrite length_drop. lia.
Qed.

Lemma opened_heap cb c eid h e w :
  w_heap (with_opened cb c eid h e w) =
    <[w_brk w := fresh_block (MCTP_PKTBUF_SIZE 65536)]> (w_heap w).
Proof. done. Qed.

Lemma opened_wf cb c eid h e w : heap_wf w -> heap_wf (with_opened cb c eid h e w).
Proof. intros Hwf. exact (heap_wf_malloc (MCTP_PKTBUF_SIZE 65536) w Hwf). Qed.

Lemma opened_binding cb c eid h e w :
  w_bindings (with_opened cb c eid h e w) !! (c + 16 + 16) =
    Some (registered_binding (c + 16) (open_binding (c + 16 + 16 + 16) init_binding)).
Proof. apply lookup_insert_eq. Qed.

Lemma opened_mmbi cb c eid h e w :
  dv_mmbis (w_dev (with_opened cb c eid h e w)) !! (c + 16 + 16) =
    Some (set_mb_device_handle h mmbi_at_init).
Proof. apply lookup_insert_eq. Qed.

Lemma opened_mctp cb c eid h e w :
  w_mctp (with_opened cb c eid h e w) =
    set_m_message_rx_data c (set_m_message_rx (Some cb)
      (set_m_route_policy ROUTE_ENDPOINT (set_m_busses
        (<[0%nat := endpoint_bus (c + 16) (c + 16 + 16) eid]> (m_busses (w_mctp w)))
        (set_m_n_busses 1 (w_mctp w))))).
Proof. done. Qed.

Lemma opened_ctxs cb c eid h e w :
  ctxs_inv w (w_heap w) ∅ ->
  ctxs_inv (with_opened cb c eid h e w) (w_heap (with_opened cb c eid h e w)) ∅.
Proof.
  intros [Hops Hwf Hr Hx]. split; [done|by apply opened_wf| |by rewrite opened_mctp].
  rewrite opened_heap, opened_mctp. apply rep_frame; [done|by apply heap_wf_fresh].
Qed.

Lemma opened_sender cb c eid h e os w :
  parts_ok c os w -> 0 < c -> c mod 16 = 0 -> handle_valid h ->
  sender mmbi_ready (c + 16) (c + 16 + 16)
    (registered_binding (c + 16) (open_binding (c + 16 + 16 + 16) init_binding))
    (endpoint_bus (c + 16) (c + 16 + 16) eid) (with_opened cb c eid h e w).
Proof.
  intros [(P1a & P1b & P1d) P2 P3 P4 P5 P6] Hc Hal Hh.
  destruct (fresh_block_storage (MCTP_PKTBUF_SIZE 65536) ltac:(by vm_compute)) as (data & Hd & Hz).
  assert (Hbus : m_busses (w_mctp (with_opened cb c eid h e w)) !! 0%nat
    = Some (endpoint_bus (c + 16) (c + 16 + 16) eid)) by (by rewrite opened_mctp, P6).
  assert (Hn : m_n_busses (w_mctp (with_opened cb c eid h e w)) = 1) by (by rewrite opened_mctp).
  pose proof (opened_mmbi cb c eid h e w) as Hm. pose proof (opened_wf cb c eid h e w P1b) as Hwf.
  pose proof (opened_binding cb c eid h e w) as Hbd. pose proof (opened_heap cb c eid h e w) as Hheap.
  assert (Hops : w_ops (with_opened cb c eid h e w) = default_alloc_ops) by exact P1a.
  set (w' := with_opened cb c eid h e w) in *. clearbody w'.
  set (o := fresh_block (MCTP_PKTBUF_SIZE 65536)) in *. clearbody o.
  split; [unfold NULL; lia| | | |unfold NULL; simpl; lia|done|by rewrite Hn|done..].
  - split; [done|done|done| |].
    + exists o, data.
      rewrite Hheap, P1d, lookup_insert_eq. split; [done|]. split; [done|]. rewrite Hz. by vm_compute.
    + intros f [= <-]. split; [done|]. by exists (set_mb_device_handle h mmbi_at_init).
  - split; by vm_compute.
  - simpl. replace (c + 16 + 16 + 16) with (c + 3 * 2 * 8) by lia. rewrite Z.mod_add by lia.
    pose proof (Z.div_mod c 16). replace c with (2 * (c / 16) * 8) by lia. apply Z_mod_mult.
Qed.

Lemma opened_env cb c eid h e w :
  let w' := with_opened cb c eid h e w in
  dv_ctxs (w_dev w') = dv_ctxs (w_dev w) /\ dv_os (w_dev w') = pipe_state h e /\
  w_trace w' = w_trace w.
Proof. done. Qed.

Lemma with_parts_heap w a : a < w_brk w -> w_heap (with_parts w) !! a = w_heap w !! a.
Proof. intros Ha. simpl. rewrite !lookup_insert_ne by lia. done. Qed.

(** The [struct mctp] behind [c], up to its busses. *)
Definition opened_stack (cb : string) (c : Z) (bs : list mctp_bus) : mctp :=
  set_m_message_rx_data c (set_m_message_rx (Some cb)
    (set_m_route_policy ROUTE_ENDPOINT (set_m_busses bs (set_m_n_busses 1 fresh_mctp)))).

(** An endpoint just opened, with its stack, its binding and its memory: what the
    theorems about sending and receiving ask for. *)
Record opened (cb : string) (c eid h : Z) (e : E) (bd : mctp_binding) (b : mctp_bus)
    (m : mctp_binding_mmbi) w : Prop := {
  op_ctxs : ctxs_inv w (w_heap w) ∅;
  op_endpoint : endpoint (c + 16) (c + 16 + 16) 0 eid w;
  op_open : mmbi_open (c + 16 + 16) m bd w;
  op_handle : mb_device_handle m = h;
  op_sender : sender mmbi_ready (c + 16) (c + 16 + 16) bd b w;
  op_eid : bus_eid b = eid;
  op_os : dv_os (w_dev w) = pipe_state h e;
  op_stack : exists bs, w_mctp w = opened_stack cb c bs;
}.

Lemma opened_ready cb c eid h e os w :
  parts_ok c os w -> rx_ready cb c (w_dev w) -> 0 < c -> c mod 16 = 0 -> handle_valid h ->
  exists bd b m, opened cb c eid h e bd b m (with_opened cb c eid h e w).
Proof.
  intros Hp Hrx Hc Hal Hh. pose proof Hp as [_ P2 _ _ _ P6].
  pose proof (Hrx : rx_ready cb c (w_dev (with_opened cb c eid h e w))) as Hrx'.
  pose proof (opened_sender cb c eid h e _ w Hp Hc Hal Hh) as Hs.
  set (bd := registered_binding _ _) in Hs. set (b := endpoint_bus _ _ _) in Hs.
  pose proof (opened_mmbi cb c eid h e w) as Hm.
  exists bd, b, (set_mb_device_handle h mmbi_at_init).
  pose proof (opened_env cb c eid h e w) as (_ & Eo & _).
  pose proof (opened_ctxs cb c eid h e _ P2) as Hctxs.
  pose proof (opened_binding cb c eid h e w) as Hbd.
  pose proof (opened_mctp cb c eid h e w) as Em. rewrite P6 in Em.
  set (w' := with_opened cb c eid h e w) in *. clearbody w'.
  split; [exact Hctxs| | |done|exact Hs|done|exact Eo|by eexists].
  - split; [apply Hs|by rewrite Em| | |].
    + exists b. split; [apply Hs|done].
    + exists bd. split; [exact Hbd|done].
    + intros f. rewrite Em. by intros [= <-].
  - split; [exact Hm|done|by exists 0|exact Hbd|by vm_compute].
Qed.

Lemma context_init_ready path eid k e0 h e w :
  w_ops w = default_alloc_ops -> heap_wf w -> w_mallocs w = [] ->
  (k < 5)%nat -> nsteps (open_fails path) k (dv_os (w_dev w)) e0 ->
  CreateFileA path e0 = (h, e) -> handle_valid h ->
  let c := w_brk w in
  exists w' bd b m, mctp_mmbi_context_init path eid w = Ok c w' /\
    opened "mmbi_internal_rx" c eid h e bd b m w' /\
    dv_ctxs (w_dev w') !! c = Some (mk_mmbi_context (c + 16) (c + 16 + 16) None NULL false) /\
    w_trace w' = w_trace w /\ w_mallocs w' = [] /\ forall a, a < c -> w_heap w' !! a = w_heap w !! a.
Proof.
  intros Hops Hwf Hmem Hk Hfails Hopen Hh c.
  pose proof (with_parts_ok w Hops Hwf) as Hp. pose proof Hp as [(_ & _ & Pd) _ _ _ _ _].
  pose proof Hwf as (Hc & Hal & _).
  assert (Hrx : rx_ready "mmbi_internal_rx" c (w_dev (with_parts w))).
  { left. split; [done|]. right. eexists. apply lookup_insert_eq. }
  destruct (opened_ready "mmbi_internal_rx" c eid h e _ _ Hp Hrx Hc Hal Hh) as (bd & b & m & Ho).
  exists (with_context eid h e w), bd, b, m. split; [by eapply context_init_run|].
  split; [exact Ho|]. unfold with_context. fold c.
  pose proof (opened_env "mmbi_internal_rx" c eid h e (with_parts w)) as (Ec & _ & Et).
  pose proof (opened_heap "mmbi_internal_rx" c eid h e (with_parts w)) as Eheap.
  assert (Emal : w_mallocs (with_opened "mmbi_internal_rx" c eid h e (with_parts w)) = [])
    by (simpl; by rewrite Hmem).
  set (w' := with_opened _ c eid h e (with_parts w)) in *. clearbody w'.
  split; [rewrite Ec; apply lookup_insert_eq|]. split; [exact Et|]. split; [done|].
  intros a Ha. rewrite Eheap, Pd. rewrite lookup_insert_ne by lia. by apply with_parts_heap.
Qed.

(** C22: Opening an endpoint.  If one of the first five attempts at opening the
    device gives a handle [h], [mctp_mmbi_context_init] returns a context whose
    binding is open on [h] and registered as the endpoint [eid]: the invariant of
    the reassembly contexts holds with no message partially received, the
    binding satisfies the hypotheses of the theorems about polling, and bus 0
    those of the theorems about sending.  Nothing has been sent or delivered,
    received messages go to the context, and the memory that was in use before
    is as it was. *)
Theorem mctp_mmbi_context_init_ready path eid k e0 h e w :
  w_ops w = default_alloc_ops -> heap_wf w -> w_mallocs w = [] ->
  (k < 5)%nat -> nsteps (open_fails path) k (dv_os (w_dev w)) e0 ->
  CreateFileA path e0 = (h, e) -> handle_valid h ->
  let c := w_brk w in let mctp := c + 16 in let p := c + 16 + 16 in
  exists w' bd b m, mctp_mmbi_context_init path eid w = Ok c w' /\
    ctxs_inv w' (w_heap w') ∅ /\ endpoint mctp p 0 eid w' /\ mmbi_open p m bd w' /\
    mb_device_handle m = h /\ sender mmbi_ready mctp p bd b w' /\ bus_eid b = eid /\
    dv_ctxs (w_dev w') !! c = Some (mk_mmbi_context mctp p None NULL false) /\
    m_message_rx (w_mctp w') = Some "mmbi_internal_rx"%string /\
    m_message_rx_data (w_mctp w') = c /\ dv_os (w_dev w') = pipe_state h e /\
    w_trace w' = w_trace w /\ forall a, a < c -> w_heap w' !! a = w_heap w !! a.
Proof.
  intros Hops Hwf Hmem Hk Hf Ho Hh c mctp p.
  destruct (context_init_ready path eid k e0 h e w Hops Hwf Hmem Hk Hf Ho Hh)
    as (w' & bd & b & m & Hrun & [O1 O2 O3 O4 O5 O6 O7 (bs & O8)] & H1 & H2 & _ & H3).
  exists w', bd, b, m. rewrite O8. repeat (split; [done|]). done.
Qed.

(** ** Closing *)

Lemma ctxs_inv_free p F r w :
  ctxs_inv w F r -> is_Some (F !! p) -> ctxs_inv (after_free p w) (delete p F) r.
Proof.
  intros [Hops Hwf Hr Hx] Hp.
  split; [done|by apply heap_wf_free|by apply rep_unframe|done].
Qed.

Lemma frame_heap F r a w : ctxs_inv w F r -> is_Some (F !! a) -> is_Some (w_heap w !! a).
Proof. intros HI [o Ho]. eexists. by eapply frame_lookup. Qed.

Lemma frame_null F r w : ctxs_inv w F r -> F !! NULL = None.
Proof.
  intros HI. destruct (F !! NULL) as [o|] eqn:Eo; [|done]. eapply frame_lookup in Eo; [|done].
  pose proof (heap_wf_null w (ci_heap _ _ _ HI)). congruence.
Qed.

Lemma wp_get_mmbi_ctx c x (Q : mctp_mmbi_context -> world D -> Prop) w :
  dv_ctxs (w_dev w) !! c = Some x -> Q x w -> wp (get_mmbi_ctx c) Q w.
Proof. intros Hx HQ. unfold wp, get_mmbi_ctx. by rewrite Hx. Qed.

(** The binding at [p] deleted. *)
Definition without_mmbi (p : Z) w : world D :=
  set_w_dev (set_mmbis (alter (set_mb_lock None) p) (w_dev w)) (after_free p w).

Lemma wp_mmbi_destroy p F r (Q : unit -> world D -> Prop) w :
  ctxs_inv w F r -> is_Some (F !! p) -> p <> NULL ->
  Q tt (without_mmbi p w) -> wp (mctp_mmbi_destroy p) Q w.
Proof.
  intros HI Hp Hn HQ. pose proof (frame_heap _ _ _ _ HI Hp) as Hh.
  unfold mctp_mmbi_destroy, DeleteCriticalSection, upd_mmbi, upd_env. do 3 wp_step.
  apply wp_free; [apply HI|done|apply heap_wf_null, HI|done].
Qed.

(** Destroying a stack without busses. *)
Lemma wp_mctp_destroy mctp F r (Q : unit -> world D -> Prop) w :
  ctxs_inv w F r -> is_Some (F !! mctp) -> mctp <> NULL -> m_n_busses (w_mctp w) = 0 ->
  (forall w', w_heap w' = delete mctp F -> w_ops w' = w_ops w -> w_dev w' = w_dev w ->
     w_bindings w' = w_bindings w -> w_trace w' = w_trace w -> Q tt w') ->
  wp (mctp_destroy mctp) Q w.
Proof.
  intros HI Hp Hm Hn HQ.
  destruct (cleanup_run mctp F r w 0) as [Hrun Hh]; [done..|lia|constructor|constructor|].
  pose proof (frame_null F r w HI) as Hnull.
  unfold mctp_destroy. wp_step. eapply wp_ok; [exact Hrun|].
  apply wp_free; [apply HI|by rewrite Hh|by rewrite Hh|]. apply HQ; [|done..].
  change (delete mctp (w_heap (after_cleanup 0 w)) = delete mctp F). by rewrite Hh.
Qed.

(** The binding and the stack released. *)
Lemma wp_release_parts {A} mctp p F r (k : M (world D) A) (Q : A -> world D -> Prop) w :
  ctxs_inv w F r -> m_n_busses (w_mctp w) = 0 -> mctp <> NULL -> p <> NULL -> mctp <> p ->
  is_Some (F !! mctp) -> is_Some (F !! p) ->
  (forall w', w_heap w' = delete mctp (delete p F) -> w_ops w' = w_ops w ->
     dv_os (w_dev w') = dv_os (w_dev w) -> w_trace w' = w_trace w -> wp k Q w') ->
  wp (mctp_mmbi_destroy p;; mctp_destroy mctp;; k) Q w.
Proof.
  intros HI Hn Hm Hp Hne Fm Fp HQ. wp_step. apply (wp_mmbi_destroy p F r); [done..|].
  assert (I2 : ctxs_inv (without_mmbi p w) (delete p F) r).
  { destruct (ctxs_inv_free p F r w HI Fp). by split. }
  wp_step. eapply (wp_mctp_destroy mctp (delete p F) r); [done|by rewrite lookup_delete_ne|done..|].
  intros w3 Hh3 Ho3 Hd3 _ Ht3. apply HQ; [done|by rewrite Ho3|by rewrite Hd3|by rewrite Ht3].
Qed.

(** The context [c] freed too. *)
Lemma wp_release c mctp p F r (Q : unit -> world D -> Prop) w :
  ctxs_inv w F r -> m_n_busses (w_mctp w) = 0 -> mctp <> NULL -> p <> NULL ->
  NoDup [c; mctp; p] -> is_Some (F !! c) -> is_Some (F !! mctp) -> is_Some (F !! p) ->
  (forall w', w_heap w' = delete c (delete mctp (delete p F)) ->
     dv_os (w_dev w') = dv_os (w_dev w) -> w_trace w' = w_trace w -> Q tt w') ->
  wp (mctp_mmbi_destroy p;; mctp_destroy mctp;; __mctp_free c) Q w.
Proof.
  intros HI Hn Hm Hp Hd Fc Fm Fp HQ.
  assert (Hne : c <> mctp /\ c <> p /\ mctp <> p).
  { apply NoDup_cons in Hd as [H1 Hd]. apply NoDup_cons in Hd as [H2 _]. set_solver. }
  destruct Hne as (N1 & N2 & N3). eapply wp_release_parts; [done..|].
  intros w3 Hh3 Ho3 Hd3 Ht3.
  apply wp_free; [rewrite Ho3; apply HI|by rewrite Hh3, !lookup_delete_ne|..].
  - rewrite Hh3, !lookup_delete_None. do 2 right. by eapply frame_null.
  - apply HQ; simpl; [by rewrite Hh3|by rewrite Hd3|by rewrite Ht3].
Qed.

(** Destroying a context frees its binding, its stack with every message
    being received, and the context, each once, and nothing else: the packet
    storage that opening the device allocated for transmission ([F] has it)
    stays allocated, and the operating system is not called, so that the
    device is never closed. *)
Theorem mctp_mmbi_context_destroy_leaks c cx bd m F r w :
  ctxs_inv w F r -> c <> NULL -> dv_ctxs (w_dev w) !! c = Some cx ->
  cx_mctp cx <> NULL -> cx_mmbi cx <> NULL -> NoDup [c; cx_mctp cx; cx_mmbi cx] ->
  is_Some (F !! c) -> is_Some (F !! cx_mctp cx) -> is_Some (F !! cx_mmbi cx) ->
  w_bindings w !! cx_mmbi cx = Some bd -> dv_mmbis (w_dev w) !! cx_mmbi cx = Some m ->
  bd_tx_storage bd ∉ [c; cx_mctp cx; cx_mmbi cx] -> is_Some (F !! bd_tx_storage bd) ->
  exists w', mctp_mmbi_context_destroy c w = Ok tt w' /\
    w_heap w' = delete c (delete (cx_mctp cx) (delete (cx_mmbi cx) F)) /\
    is_Some (w_heap w' !! bd_tx_storage bd) /\ dv_os (w_dev w') = dv_os (w_dev w) /\
    w_trace w' = w_trace w.
Proof.
  intros HI Hc Hcx Hm Hp Hd Fc Fm Fp Hbd Hmm Hst Fst.
  set (mctp := cx_mctp cx) in *. set (p := cx_mmbi cx) in *.
  assert (Hwp : wp (mctp_mmbi_context_destroy c) (fun _ w' =>
    w_heap w' = delete c (delete mctp (delete p F)) /\ dv_os (w_dev w') = dv_os (w_dev w) /\
    w_trace w' = w_trace w) w).
  { unfold mctp_mmbi_context_destroy. do 2 wp_step. eapply wp_get_mmbi_ctx; [exact Hcx|].
    fold mctp p. rewrite !decide_True by done. unfold mctp_unregister_bus. do 8 wp_step.
    set (w1 := set_w_bindings _ _).
    assert (I1 : ctxs_inv w1 F r) by (destruct HI; by split).
    by eapply (wp_release c mctp p F r _ w1). }
  destruct (wp_inv _ _ _ Hwp) as ([] & w' & Hrun & Hh & H). exists w'.
  split; [done|]. split; [done|]. split; [|done]. rewrite Hh.
  rewrite !lookup_delete_ne by set_solver. done.
Qed.

Lemma wp_seq3 {A} (a b : M (world D) unit) (c : M (world D) unit) (k : M (world D) A)
    (Q : A -> world D -> Prop) w :
  wp (a;; b;; c) (fun _ w' => wp k Q w') w -> wp (a;; b;; c;; k) Q w.
Proof.
  unfold wp, mbind, M_bind. destruct (a w) as [? w1|]; [|done].
  destruct (b w1) as [? w2|]; [|done]. by destruct (c w2).
Qed.

(** When none of five attempts opens the device,
    [mctp_mmbi_context_init] gives up: it returns [NULL], a pause after each
    attempt, having released all it allocated, so that the heap is as it was. *)
Theorem mctp_mmbi_context_init_fails path eid e w :
  w_ops w = default_alloc_ops -> heap_wf w -> w_mallocs w = [] ->
  nsteps (open_fails path) 5 (dv_os (w_dev w)) e ->
  exists w', mctp_mmbi_context_init path eid w = Ok NULL w' /\ w_heap w' = w_heap w /\
    dv_os (w_dev w') = e /\ w_trace w' = w_trace w.
Proof.
  intros Hops Hwf Hmem Hfails. set (c := w_brk w).
  pose proof (with_parts_ok w Hops Hwf) as [_ P2 P3 P4 P5 P6]. fold c in P4, P5.
  assert (Hp : w_heap (with_parts w) = <[c + 16 + 16 := fresh_block sizeof_mctp_binding_mmbi]>
    (<[c + 16 := fresh_block sizeof_mctp]> (<[c := fresh_block sizeof_mctp_mmbi_context]>
      (w_heap w)))) by done.
  assert (Ht : w_trace (with_parts w) = w_trace w) by done.
  assert (Hc : 0 < c) by (by destruct Hwf).
  assert (Hfresh : forall a, c <= a -> w_heap w !! a = None) by (intros a; by apply heap_wf_above).
  assert (Hwp : wp (mctp_mmbi_context_init path eid) (fun rc w' => rc = NULL /\
    w_heap w' = w_heap w /\ dv_os (w_dev w') = e /\ w_trace w' = w_trace w) w).
  { apply wp_context_parts; [done..|]. fold c. set (w1 := with_parts w) in *. clearbody w1.
    wp_step. rewrite <- P3 in Hfails.
    eapply wp_ok; [exact (open_loop_gives_up (c + 16 + 16) path e w1 Hfails)|].
    wp_step. eapply wp_get_mmbi; [exact P5|]. wp_step. apply wp_seq3.
    eapply (wp_release c _ _ (w_heap w1) ∅).
    - destruct P2. by split.
    - by rewrite with_os_mctp, P6.
    - unfold NULL. lia.
    - unfold NULL. lia.
    - repeat (constructor; [set_unfold; lia|]). constructor.
    - rewrite Hp, !lookup_insert_ne, lookup_insert_eq by lia. eauto.
    - rewrite Hp, !lookup_insert_ne, lookup_insert_eq by lia. eauto.
    - rewrite Hp, lookup_insert_eq. eauto.
    - intros w' Hh Ho Ht'. wp_step. split; [done|]. split; [|by rewrite Ht', Ho, with_os_trace, Ht].
      rewrite Hh, Hp. rewrite !delete_insert_id; [done|apply Hfresh; lia|..].
      all: rewrite ?lookup_insert_ne by lia; apply Hfresh; lia. }
  destruct (wp_inv _ _ _ Hwp) as (rc & w' & Hrun & -> & H). by exists w'.
Qed.
End open.
