(* ===== verification/Ring.v ===== *)
(** * The MMBI driver (windows_driver/MmbiDriver.c)

    Two ring buffers, one for each direction between the host (device 0) and
    the BMC (device 1), filled by the write handler and drained by the read
    handler.  [ULONG] is 32 bits wide.  A copy that leaves a buffer's bounds is
    [None].  The WDF calls that retrieve a request's buffer are parameters. *)

From S2P Require Import Prelude.

Definition RING_BUFFER_SIZE := 1048576.

Record MMBI_RING_BUFFER := mk_ring {
  Buffer : list Z;
  WriteIdx : Z;
  ReadIdx : Z;
  DataAvailable : Z;
}.

(** [RtlCopyMemory] out of and into a buffer. *)
Definition copy_from (off len : Z) (buf : list Z) : option (list Z) :=
  if decide (0 <= off /\ 0 <= len /\ off + len <= zlen buf)
  then Some (slice off len buf) else None.

Definition copy_to (off : Z) (bs buf : list Z) : option (list Z) :=
  if decide (0 <= off /\ off + zlen bs <= zlen buf) then Some (splice off bs buf) else None.

(** Returns the ring and [*BytesWritten]. *)
Definition RingBufferWrite (Ring : MMBI_RING_BUFFER) (Data : list Z) (Length : Z)
    : option (MMBI_RING_BUFFER * Z) :=
  let spaceFree := u32 (RING_BUFFER_SIZE - DataAvailable Ring) in
  let toWrite := if decide (Length > spaceFree) then spaceFree else Length in
  if decide (toWrite = 0) then Some (Ring, 0) else
  let firstChunk := u32 (RING_BUFFER_SIZE - WriteIdx Ring) in
  if decide (toWrite <= firstChunk) then
    bs ← copy_from 0 toWrite Data;
    buf ← copy_to (WriteIdx Ring) bs (Buffer Ring);
    Some (mk_ring buf (u32 (WriteIdx Ring + toWrite) mod RING_BUFFER_SIZE) (ReadIdx Ring)
            (u32 (DataAvailable Ring + toWrite)), toWrite)
  else
    bs ← copy_from 0 firstChunk Data;
    buf ← copy_to (WriteIdx Ring) bs (Buffer Ring);
    let secondChunk := u32 (toWrite - firstChunk) in
    bs ← copy_from firstChunk secondChunk Data;
    buf ← copy_to 0 bs buf;
    Some (mk_ring buf secondChunk (ReadIdx Ring) (u32 (DataAvailable Ring + toWrite)), toWrite).

(** Returns the ring and the [*BytesRead] bytes stored at the front of the
    output buffer. *)
Definition RingBufferRead (Ring : MMBI_RING_BUFFER) (Length : Z)
    : option (MMBI_RING_BUFFER * list Z) :=
  let toRead := if decide (Length > DataAvailable Ring) then DataAvailable Ring else Length in
  if decide (toRead = 0) then Some (Ring, []) else
  let firstChunk := u32 (RING_BUFFER_SIZE - ReadIdx Ring) in
  if decide (toRead <= firstChunk) then
    out ← copy_from (ReadIdx Ring) toRead (Buffer Ring);
    Some (mk_ring (Buffer Ring) (WriteIdx Ring) (u32 (ReadIdx Ring + toRead) mod RING_BUFFER_SIZE)
            (u32 (DataAvailable Ring - toRead)), out)
  else
    out1 ← copy_from (ReadIdx Ring) firstChunk (Buffer Ring);
    let secondChunk := u32 (toRead - firstChunk) in
    out2 ← copy_from 0 secondChunk (Buffer Ring);
    Some (mk_ring (Buffer Ring) (WriteIdx Ring) secondChunk
            (u32 (DataAvailable Ring - toRead)), out1 ++ out2).

(** ** The request handlers *)

Record MMBI_SHARED_CONTEXT := mk_shared {
  Lock : bool;  (* held *)
  HostToBmc : MMBI_RING_BUFFER;
  BmcToHost : MMBI_RING_BUFFER;
}.

Definition STATUS_SUCCESS := 0.
(** 0x80000011, a negative [NTSTATUS] *)
Definition STATUS_DEVICE_BUSY := 2147483665 - 4294967296.
Definition NT_SUCCESS (status : Z) : Prop := 0 <= status.
#[export] Instance nt_success_dec s : Decision (NT_SUCCESS s).
Proof. unfold NT_SUCCESS. apply _. Defined.

(** How a request is completed: its status, the information field of
    [WdfRequestCompleteWithInformation] (0 when [WdfRequestComplete] is used)
    and the bytes handed to the reader. *)
Record completion := mk_completion { cp_status : Z; cp_info : Z; cp_data : list Z }.

Definition acquire (g : MMBI_SHARED_CONTEXT) : option MMBI_SHARED_CONTEXT :=
  if Lock g then None else Some (mk_shared true (HostToBmc g) (BmcToHost g)).
Definition release (g : MMBI_SHARED_CONTEXT) : option MMBI_SHARED_CONTEXT :=
  if Lock g then Some (mk_shared false (HostToBmc g) (BmcToHost g)) else None.

Section handlers.
Context {WDFREQUEST : Type}.
(** The status and the buffer [WdfRequestRetrieveInputBuffer] and
    [WdfRequestRetrieveOutputBuffer] give for a request and a minimum length. *)
Context (WdfRequestRetrieveInputBuffer : WDFREQUEST -> Z -> Z * list Z)
        (WdfRequestRetrieveOutputBuffer : WDFREQUEST -> Z -> Z * list Z).

Definition MmbiEvtIoWrite (DeviceID : Z) (Request : WDFREQUEST) (Length : Z)
    (g : MMBI_SHARED_CONTEXT) : option (MMBI_SHARED_CONTEXT * completion) :=
  let '(status, buffer) := WdfRequestRetrieveInputBuffer Request Length in
  if decide (~ NT_SUCCESS status) then Some (g, mk_completion status 0 []) else
  g ← acquire g;
  '(g, bytesWritten) ←
    (if decide (DeviceID = 0) then
       '(r, n) ← RingBufferWrite (HostToBmc g) buffer (u32 Length);
       Some (mk_shared (Lock g) r (BmcToHost g), n)
     else
       '(r, n) ← RingBufferWrite (BmcToHost g) buffer (u32 Length);
       Some (mk_shared (Lock g) (HostToBmc g) r, n));
  g ← release g;
  if decide (bytesWritten = 0 /\ Length > 0)
  then Some (g, mk_completion STATUS_DEVICE_BUSY 0 [])
  else Some (g, mk_completion STATUS_SUCCESS bytesWritten []).

Definition MmbiEvtIoRead (DeviceID : Z) (Request : WDFREQUEST) (Length : Z)
    (g : MMBI_SHARED_CONTEXT) : option (MMBI_SHARED_CONTEXT * completion) :=
  let '(status, buffer) := WdfRequestRetrieveOutputBuffer Request Length in
  if decide (~ NT_SUCCESS status) then Some (g, mk_completion status 0 []) else
  g ← acquire g;
  '(g, out) ←
    (if decide (DeviceID = 0) then
       '(r, out) ← RingBufferRead (BmcToHost g) (u32 Length);
       Some (mk_shared (Lock g) (HostToBmc g) r, out)
     else
       '(r, out) ← RingBufferRead (HostToBmc g) (u32 Length);
       Some (mk_shared (Lock g) r (BmcToHost g), out));
  (if decide (zlen out <= zlen buffer) then Some tt else None);;
  g ← release g;
  Some (g, mk_completion STATUS_SUCCESS (zlen out) out).
End handlers.

(** ** The ring as a bounded queue of bytes *)

(** The bytes available to a reader, oldest first. *)
Definition ring_contents (r : MMBI_RING_BUFFER) : list Z :=
  slice (ReadIdx r) (DataAvailable r) (Buffer r ++ Buffer r).

Record ring_wf (r : MMBI_RING_BUFFER) : Prop := {
  wf_buffer : zlen (Buffer r) = RING_BUFFER_SIZE;
  wf_read : 0 <= ReadIdx r < RING_BUFFER_SIZE;
  wf_avail : 0 <= DataAvailable r <= RING_BUFFER_SIZE;
  wf_write : WriteIdx r = (ReadIdx r + DataAvailable r) mod RING_BUFFER_SIZE;
}.

#[local] Abbreviation N := RING_BUFFER_SIZE.

Lemma mod_ring_cases x : 0 <= x < 2 * N ->
  x mod N = x /\ x < N \/ x mod N = x - N /\ N <= x.
Proof.
  unfold N. intros Hx. destruct (decide (x < 1048576)).
  - left. rewrite Z.mod_small; lia.
  - right. split; [|lia]. symmetry. apply (Z.mod_unique_pos _ _ 1); lia.
Qed.

Ltac ring_mod x :=
  let H := fresh "Hmod" in
  pose proof (mod_ring_cases x ltac:(unfold RING_BUFFER_SIZE in *; lia)) as H;
  unfold RING_BUFFER_SIZE in H;
  destruct H as [[H ?]|[H ?]]; rewrite H in *.

Lemma zlen_contents r : ring_wf r -> zlen (ring_contents r) = DataAvailable r.
Proof.
  intros [Hb Hr Ha Hw]. apply zlen_slice; [lia..|]. rewrite zlen_app. lia.
Qed.

Lemma contents_lookup r (i : nat) :
  ring_wf r -> Z.of_nat i < DataAvailable r ->
  ring_contents r !! i = Buffer r !! Z.to_nat ((ReadIdx r + Z.of_nat i) mod N).
Proof.
  intros [Hb Hr Ha Hw] Hi. unfold ring_contents. rewrite lookup_slice by lia.
  rewrite decide_True by done. unfold zlen, RING_BUFFER_SIZE in *.
  ring_mod (ReadIdx r + Z.of_nat i).
  - rewrite lookup_app_l by lia. f_equal. lia.
  - rewrite lookup_app_r by lia. f_equal. lia.
Qed.

#[local] Arguments copy_from : simpl never.
#[local] Arguments copy_to : simpl never.

Lemma copy_from_ok off len (buf : list Z) :
  0 <= off -> 0 <= len -> off + len <= zlen buf -> copy_from off len buf = Some (slice off len buf).
Proof. intros. unfold copy_from. by rewrite decide_True. Qed.

Lemma copy_to_ok off (bs buf : list Z) :
  0 <= off -> off + zlen bs <= zlen buf -> copy_to off bs buf = Some (splice off bs buf).
Proof. intros. unfold copy_to. by rewrite decide_True. Qed.

(** What both branches of a write do: the [n] bytes go, in order, to the
    positions from [WriteIdx] on, modulo the size; nothing else changes. *)
Lemma RingBufferWrite_run r Data Length :
  ring_wf r -> 0 <= Length < U32_MOD -> Length <= zlen Data ->
  let n := Length `min` (N - DataAvailable r) in
  exists buf,
    RingBufferWrite r Data Length =
      Some (mk_ring buf ((WriteIdx r + n) mod N) (ReadIdx r) (DataAvailable r + n), n) /\
    zlen buf = N /\
    (forall k : nat, Z.of_nat k < n ->
       buf !! Z.to_nat ((WriteIdx r + Z.of_nat k) mod N) = Data !! k) /\
    (forall j : nat, (forall k : Z, 0 <= k < n -> Z.of_nat j <> (WriteIdx r + k) mod N) ->
       buf !! j = Buffer r !! j).
Proof.
  intros [Hb Hr Ha Hw] HL HD n.
  assert (Hwi : 0 <= WriteIdx r < N) by (rewrite Hw; apply Z.mod_pos_bound; done).
  unfold RingBufferWrite. unfold RING_BUFFER_SIZE in *.
  rewrite (u32_small (1048576 - DataAvailable r)) by lia.
  rewrite (u32_small (1048576 - WriteIdx r)) by lia.
  replace (if decide _ then _ else _) with n by (subst n; case_decide; lia).
  assert (Hn : 0 <= n <= 1048576 - DataAvailable r /\ n <= zlen Data) by lia.
  clearbody n. case_decide as H0; [|case_decide as H1].
  - exists (Buffer r). rewrite H0, !Z.add_0_r, (Z.mod_small (WriteIdx r)) by lia.
    split; [by destruct r|]. split; [done|]. split; [lia|done].
  - rewrite copy_from_ok by lia. simpl. rewrite copy_to_ok by (rewrite ?zlen_take_0; lia). simpl.
    exists (splice (WriteIdx r) (slice 0 n Data) (Buffer r)).
    rewrite (u32_small (WriteIdx r + n)), (u32_small (DataAvailable r + n)) by lia.
    split; [done|]. split; [rewrite zlen_splice; [done|lia|rewrite zlen_take_0; lia]|].
    split.
    + intros k Hk. rewrite Z.mod_small by lia.
      rewrite lookup_splice by (rewrite ?zlen_take_0; lia). rewrite zlen_take_0 by lia.
      rewrite decide_True by lia. rewrite lookup_slice, decide_True by lia. f_equal. lia.
    + intros j Hj. rewrite lookup_splice by (rewrite ?zlen_take_0; lia).
      rewrite zlen_take_0 by lia. case_decide as Hc; [|done]. exfalso.
      apply (Hj (Z.of_nat j - WriteIdx r)); [lia|]. rewrite Z.mod_small; lia.
  - pose (m := 1048576 - WriteIdx r).
    rewrite (u32_small (n - (1048576 - WriteIdx r))) by lia.
    rewrite !copy_from_ok by lia. simpl. rewrite copy_to_ok by (rewrite ?zlen_take_0; lia). simpl.
    assert (Hz : zlen (splice (WriteIdx r) (slice 0 (1048576 - WriteIdx r) Data) (Buffer r)) = 1048576).
    { rewrite zlen_splice; [done|lia|rewrite zlen_take_0; lia]. }
    rewrite copy_to_ok by (rewrite ?zlen_slice; lia). simpl.
    rewrite (u32_small (DataAvailable r + n)) by lia.
    eexists. split.
    { f_equal. f_equal. f_equal. apply (Z.mod_unique_pos _ _ 1); lia. }
    split; [by rewrite zlen_splice; [|lia|rewrite zlen_slice; lia]|].
    split.
    + intros k Hk. rewrite lookup_splice by (rewrite ?zlen_slice; lia).
      rewrite zlen_slice by lia. ring_mod (WriteIdx r + Z.of_nat k).
      * rewrite decide_False by lia. rewrite lookup_splice by (rewrite ?zlen_take_0; lia).
        rewrite zlen_take_0 by lia. rewrite decide_True by lia.
        rewrite lookup_slice, decide_True by lia. f_equal. lia.
      * rewrite decide_True by lia. rewrite lookup_slice, decide_True by lia. f_equal. lia.
    + intros j Hj. rewrite lookup_splice by (rewrite ?zlen_slice; lia).
      rewrite zlen_slice by lia. case_decide as Hc.
      { exfalso. apply (Hj (Z.of_nat j + m)); [lia|]. apply (Z.mod_unique_pos _ _ 1); lia. }
      rewrite lookup_splice by (rewrite ?zlen_take_0; lia). rewrite zlen_take_0 by lia.
      case_decide as Hc'; [|done]. exfalso.
      apply (Hj (Z.of_nat j - WriteIdx r)); [lia|]. rewrite Z.mod_small; lia.
Qed.

Lemma write_pos r k : ring_wf r -> 0 <= k ->
  (WriteIdx r + k) mod N = (ReadIdx r + (DataAvailable r + k)) mod N.
Proof.
  intros [Hb Hr Ha Hw] Hk. rewrite Hw, Z.add_mod_idemp_l by done. f_equal. lia.
Qed.

Lemma RingBufferWrite_queue r Data Length :
  ring_wf r -> 0 <= Length < U32_MOD -> Length <= zlen Data ->
  exists r',
    RingBufferWrite r Data Length = Some (r', Length `min` (N - DataAvailable r)) /\
    ring_wf r' /\
    ring_contents r' = ring_contents r ++ slice 0 (Length `min` (N - DataAvailable r)) Data.
Proof.
  intros Hwf HL HD.
  destruct (RingBufferWrite_run r Data Length Hwf HL HD) as (buf & Hrun & Hz & Hnew & Hold).
  set (n := Length `min` (N - DataAvailable r)) in *.
  pose proof Hwf as [Hb Hr Ha Hw].
  assert (Hn : 0 <= n /\ DataAvailable r + n <= N) by lia.
  eexists. split; [exact Hrun|].
  assert (Hwf' : ring_wf (mk_ring buf ((WriteIdx r + n) mod N) (ReadIdx r) (DataAvailable r + n))).
  { split; simpl; [done..|lia|]. rewrite write_pos by (done || lia). done. }
  split; [done|].
  apply list_eq_zlen.
  { rewrite zlen_app, !zlen_contents by done. rewrite zlen_take_0 by lia. done. }
  intros i. rewrite zlen_contents by done. simpl. intros Hi.
  rewrite contents_lookup by done. simpl.
  destruct (decide (Z.of_nat i < DataAvailable r)) as [Hlt|Hge].
  - rewrite lookup_app_l by (pose proof (zlen_contents r Hwf); unfold zlen in *; lia).
    rewrite contents_lookup by done. apply Hold. intros k Hk.
    rewrite write_pos by (done || lia). unfold RING_BUFFER_SIZE in *.
    rewrite Z2Nat.id by (apply Z.mod_pos_bound; lia).
    ring_mod (ReadIdx r + Z.of_nat i); ring_mod (ReadIdx r + (DataAvailable r + k)); lia.
  - rewrite lookup_app_r by (pose proof (zlen_contents r Hwf); unfold zlen in *; lia).
    pose proof (zlen_contents r Hwf) as Hc. unfold zlen in Hc.
    rewrite lookup_slice, decide_True by lia. simpl.
    rewrite <- (Hnew (i - length (ring_contents r))%nat) by lia.
    rewrite write_pos by (done || lia). do 3 f_equal. lia.
Qed.

(** C31: A write appends to the queue the prefix of the data that fits, and
    reports its length. *)
Theorem RingBufferWrite_refines r Data Length :
  ring_wf r -> 0 <= Length < U32_MOD -> Length <= zlen Data ->
  exists r',
    RingBufferWrite r Data Length = Some (r', Length `min` (N - DataAvailable r)) /\
    ring_wf r' /\
    ring_contents r' = ring_contents r ++ slice 0 (Length `min` (N - DataAvailable r)) Data.
Proof.
  apply RingBufferWrite_queue.
Qed.

Lemma RingBufferRead_queue r Length :
  ring_wf r -> 0 <= Length < U32_MOD ->
  exists r',
    RingBufferRead r Length = Some (r', slice 0 (Length `min` DataAvailable r) (ring_contents r)) /\
    ring_wf r' /\
    ring_contents r' = drop (Z.to_nat (Length `min` DataAvailable r)) (ring_contents r).
Proof.
  intros Hwf HL. pose proof Hwf as [Hb Hr Ha Hw].
  set (n := Length `min` DataAvailable r). assert (Hn : 0 <= n <= DataAvailable r) by lia.
  set (r' := mk_ring (Buffer r) (WriteIdx r) ((ReadIdx r + n) mod N) (DataAvailable r - n)).
  assert (Hwf' : ring_wf r').
  { split; simpl; [done|by apply Z.mod_pos_bound|lia|].
    rewrite Hw, Z.add_mod_idemp_l by done. f_equal. lia. }
  exists r'. split; [|split; [done|]].
  - unfold RingBufferRead. unfold RING_BUFFER_SIZE in *.
    replace (if decide _ then _ else _) with n by (subst n; case_decide; lia).
    rewrite (u32_small (1048576 - ReadIdx r)) by lia. subst r'. clearbody n.
    case_decide as H0; [|case_decide as H1].
    + rewrite H0, !Z.add_0_r, Z.sub_0_r, Z.mod_small by lia. by destruct r.
    + rewrite copy_from_ok by lia. simpl.
      rewrite (u32_small (ReadIdx r + n)), (u32_small (DataAvailable r - n)) by lia.
      do 2 f_equal. unfold ring_contents. rewrite slice_slice by lia.
      rewrite Z.add_0_r. unfold slice. rewrite drop_app_le by (unfold zlen in *; lia).
      by rewrite take_app_le by (rewrite length_drop; unfold zlen in *; lia).
    + rewrite (u32_small (n - (1048576 - ReadIdx r))) by lia.
      rewrite !copy_from_ok by lia. simpl.
      rewrite (u32_small (DataAvailable r - n)) by lia.
      assert (E : n - (1048576 - ReadIdx r) = (ReadIdx r + n) mod 1048576)
        by (apply (Z.mod_unique_pos _ _ 1); lia). rewrite E.
      do 2 f_equal. unfold ring_contents. rewrite slice_slice by lia. rewrite Z.add_0_r.
      rewrite <- E. replace n with (1048576 - ReadIdx r + (n - (1048576 - ReadIdx r))) at 2 by lia.
      rewrite slice_split by lia. f_equal.
      * unfold slice. rewrite drop_app_le by (unfold zlen in *; lia).
        by rewrite take_app_le by (rewrite length_drop; unfold zlen in *; lia).
      * rewrite slice_app_r by lia. done.
  - apply list_eq_zlen.
    { rewrite zlen_contents by done. pose proof (zlen_contents r Hwf).
      unfold zlen in *. rewrite length_drop. simpl. lia. }
    intros i. rewrite zlen_contents by done. simpl. intros Hi.
    rewrite contents_lookup by done. rewrite lookup_drop.
    rewrite contents_lookup by (done || lia). simpl. do 2 f_equal.
    rewrite Z.add_mod_idemp_l by done. f_equal. lia.
Qed.

(** A read takes the oldest bytes, as many as asked for or available. *)
Theorem RingBufferRead_refines r Length :
  ring_wf r -> 0 <= Length < U32_MOD ->
  exists r',
    RingBufferRead r Length = Some (r', slice 0 (Length `min` DataAvailable r) (ring_contents r)) /\
    ring_wf r' /\
    ring_contents r' = drop (Z.to_nat (Length `min` DataAvailable r)) (ring_contents r).
Proof.
  apply RingBufferRead_queue.
Qed.

(** ** The driver as a pair of byte channels *)

Definition shared_wf (g : MMBI_SHARED_CONTEXT) : Prop :=
  Lock g = false /\ ring_wf (HostToBmc g) /\ ring_wf (BmcToHost g).

(** The ring a device writes to, and the one it reads from. *)
Definition tx_ring (DeviceID : Z) (g : MMBI_SHARED_CONTEXT) : MMBI_RING_BUFFER :=
  if decide (DeviceID = 0) then HostToBmc g else BmcToHost g.
Definition rx_ring (DeviceID : Z) (g : MMBI_SHARED_CONTEXT) : MMBI_RING_BUFFER :=
  if decide (DeviceID = 0) then BmcToHost g else HostToBmc g.

(** A request to the driver: a device, a direction, a WDF request, a length. *)
Record io_request (WDFREQUEST : Type) := mk_io {
  io_dev : Z; io_is_write : bool; io_req : WDFREQUEST; io_len : Z }.
Arguments mk_io {WDFREQUEST}. Arguments io_dev {WDFREQUEST}. Arguments io_is_write {WDFREQUEST}.
Arguments io_req {WDFREQUEST}. Arguments io_len {WDFREQUEST}.

Section driver.
Context {WDFREQUEST : Type}
        (WdfRequestRetrieveInputBuffer : WDFREQUEST -> Z -> Z * list Z)
        (WdfRequestRetrieveOutputBuffer : WDFREQUEST -> Z -> Z * list Z).

(** Documented: the buffers retrieved have at least the length asked for. *)
Definition wdf_buffers_ok : Prop :=
  (forall req len, NT_SUCCESS (WdfRequestRetrieveInputBuffer req len).1 ->
     len <= zlen (WdfRequestRetrieveInputBuffer req len).2) /\
  (forall req len, NT_SUCCESS (WdfRequestRetrieveOutputBuffer req len).1 ->
     len <= zlen (WdfRequestRetrieveOutputBuffer req len).2).

(** The write handler queues what fits on the caller's ring, leaves the
    other ring alone, releases the lock, and completes the request as busy
    exactly when it could queue nothing. *)
Theorem MmbiEvtIoWrite_spec DeviceID req Length g :
  wdf_buffers_ok -> shared_wf g -> 0 <= Length < U32_MOD ->
  let status := (WdfRequestRetrieveInputBuffer req Length).1 in
  let data := (WdfRequestRetrieveInputBuffer req Length).2 in
  let n := Length `min` (RING_BUFFER_SIZE - DataAvailable (tx_ring DeviceID g)) in
  exists g' c,
    MmbiEvtIoWrite WdfRequestRetrieveInputBuffer DeviceID req Length g = Some (g', c) /\
    shared_wf g' /\
    (~ NT_SUCCESS status -> g' = g /\ c = mk_completion status 0 []) /\
    (NT_SUCCESS status ->
       ring_contents (tx_ring DeviceID g') = ring_contents (tx_ring DeviceID g) ++ slice 0 n data /\
       rx_ring DeviceID g' = rx_ring DeviceID g /\
       c = if decide (n = 0 /\ Length > 0) then mk_completion STATUS_DEVICE_BUSY 0 []
           else mk_completion STATUS_SUCCESS n []).
Proof.
  intros [Hin _] (Hlock & Hh & Hb) HL status data n.
  unfold MmbiEvtIoWrite. specialize (Hin req Length). subst status data.
  destruct (WdfRequestRetrieveInputBuffer req Length) as [status data]. simpl in *.
  case_decide as Hs; [by eexists _, _|].
  assert (HD : Length <= zlen data) by (apply Hin; destruct (decide (NT_SUCCESS status)); naive_solver).
  unfold acquire. rewrite Hlock, (u32_small Length) by done. simpl.
  unfold tx_ring, rx_ring in *. case_decide as Hd.
  - destruct (RingBufferWrite_queue (HostToBmc g) data Length Hh HL HD) as (r & -> & Hr & Hc).
    simpl. fold n. case_decide; (eexists _, _; split; [done|]); simpl; done.
  - destruct (RingBufferWrite_queue (BmcToHost g) data Length Hb HL HD) as (r & -> & Hr & Hc).
    simpl. fold n. case_decide; (eexists _, _; split; [done|]); simpl; done.
Qed.

(** The read handler hands over the oldest queued bytes of the ring the
    other device writes to, and completes with success even when there are
    none. *)
Theorem MmbiEvtIoRead_spec DeviceID req Length g :
  wdf_buffers_ok -> shared_wf g -> 0 <= Length < U32_MOD ->
  let status := (WdfRequestRetrieveOutputBuffer req Length).1 in
  let n := Length `min` DataAvailable (rx_ring DeviceID g) in
  exists g' c,
    MmbiEvtIoRead WdfRequestRetrieveOutputBuffer DeviceID req Length g = Some (g', c) /\
    shared_wf g' /\
    (~ NT_SUCCESS status -> g' = g /\ c = mk_completion status 0 []) /\
    (NT_SUCCESS status ->
       ring_contents (rx_ring DeviceID g) = cp_data c ++ ring_contents (rx_ring DeviceID g') /\
       tx_ring DeviceID g' = tx_ring DeviceID g /\
       cp_status c = STATUS_SUCCESS /\ cp_info c = n /\ zlen (cp_data c) = n).
Proof.
  intros [_ Hout] (Hlock & Hh & Hb) HL status n.
  unfold MmbiEvtIoRead. specialize (Hout req Length). subst status.
  destruct (WdfRequestRetrieveOutputBuffer req Length) as [status buffer]. simpl in *.
  case_decide as Hs; [by eexists _, _|].
  assert (HD : Length <= zlen buffer) by (apply Hout; destruct (decide (NT_SUCCESS status)); naive_solver).
  unfold acquire. rewrite Hlock, (u32_small Length) by done. simpl.
  assert (Hlen : forall r, ring_wf r -> zlen (slice 0 (Length `min` DataAvailable r) (ring_contents r))
                     = Length `min` DataAvailable r).
  { intros r Hr. pose proof (zlen_contents r Hr). pose proof (wf_avail r Hr).
    apply zlen_take_0. lia. }
  unfold tx_ring, rx_ring in *. case_decide as Hd.
  - destruct (RingBufferRead_queue (BmcToHost g) Length Hb HL) as (r & -> & Hr & Hc).
    simpl. specialize (Hlen _ Hb). fold n in Hlen, Hc |- *.
    rewrite decide_True by lia. simpl. eexists _, _. split; [done|]. simpl.
    split; [done|]. split; [done|]. rewrite Hc. unfold slice at 1. by rewrite drop_0, take_drop.
  - destruct (RingBufferRead_queue (HostToBmc g) Length Hh HL) as (r & -> & Hr & Hc).
    simpl. specialize (Hlen _ Hh). fold n in Hlen, Hc |- *.
    rewrite decide_True by lia. simpl. eexists _, _. split; [done|]. simpl.
    split; [done|]. split; [done|]. rewrite Hc. unfold slice at 1. by rewrite drop_0, take_drop.
Qed.

(** One request, and a sequence of them with the log of completions. *)
Definition io_step (io : io_request WDFREQUEST) (g : MMBI_SHARED_CONTEXT) :=
  if io_is_write io
  then MmbiEvtIoWrite WdfRequestRetrieveInputBuffer (io_dev io) (io_req io) (io_len io) g
  else MmbiEvtIoRead WdfRequestRetrieveOutputBuffer (io_dev io) (io_req io) (io_len io) g.

Fixpoint run_io (ios : list (io_request WDFREQUEST)) (g : MMBI_SHARED_CONTEXT)
    : option (MMBI_SHARED_CONTEXT * list (io_request WDFREQUEST * completion)) :=
  match ios with
  | [] => Some (g, [])
  | io :: ios =>
      '(g, c) ← io_step io g;
      '(g, log) ← run_io ios g;
      Some (g, (io, c) :: log)
  end.

(** The bytes the driver accepted from, and handed to, the device [dev],
    according to the completions. *)
Definition accepted_from (dev0 : bool) (log : list (io_request WDFREQUEST * completion)) : list Z :=
  concat ((fun '(io, c) =>
    if io_is_write io && Bool.eqb (bool_decide (io_dev io = 0)) dev0
    then slice 0 (cp_info c) (WdfRequestRetrieveInputBuffer (io_req io) (io_len io)).2
    else []) <$> log).

Definition delivered_to (dev0 : bool) (log : list (io_request WDFREQUEST * completion)) : list Z :=
  concat ((fun '(io, c) =>
    if negb (io_is_write io) && Bool.eqb (bool_decide (io_dev io = 0)) dev0
    then cp_data c else []) <$> log).

(** Conservation of the bytes of a channel composes. *)
Lemma channel_trans (q1 q2 q3 a1 a2 d1 d2 : list Z) :
  q1 ++ a1 = d1 ++ q2 -> q2 ++ a2 = d2 ++ q3 -> q1 ++ (a1 ++ a2) = (d1 ++ d2) ++ q3.
Proof. intros H1 H2. by rewrite (app_assoc q1), H1, <- (app_assoc d1), H2, (app_assoc d1). Qed.

Lemma io_step_channels io g :
  wdf_buffers_ok -> shared_wf g -> 0 <= io_len io < U32_MOD ->
  exists g' c,
    io_step io g = Some (g', c) /\ shared_wf g' /\
    ring_contents (HostToBmc g) ++ accepted_from true [(io, c)] =
      delivered_to false [(io, c)] ++ ring_contents (HostToBmc g') /\
    ring_contents (BmcToHost g) ++ accepted_from false [(io, c)] =
      delivered_to true [(io, c)] ++ ring_contents (BmcToHost g').
Proof.
  intros Hok Hwf HL. unfold io_step, accepted_from, delivered_to.
  destruct io as [dev [] req len]; simpl in *.
  - destruct (MmbiEvtIoWrite_spec dev req len g Hok Hwf HL) as (g' & c & Hrun & Hwf' & Hf & Hs).
    eexists _, _. split; [exact Hrun|]. split; [done|]. unfold tx_ring, rx_ring in Hs.
    destruct (decide (NT_SUCCESS (WdfRequestRetrieveInputBuffer req len).1)) as [HS|HS].
    + destruct (Hs HS) as (Hc & Heq & ->).
      destruct (decide (dev = 0)) as [Hd|Hd];
        [rewrite bool_decide_true by done|rewrite bool_decide_false by done];
        simpl; rewrite Heq, Hc, !app_nil_r; split; try done;
        (case_decide as Hb; simpl; [by rewrite (proj1 Hb)|done]).
    + destruct (Hf HS) as (-> & ->). simpl. rewrite slice_0_len.
      by destruct (bool_decide (dev = 0)); simpl; rewrite !app_nil_r.
  - destruct (MmbiEvtIoRead_spec dev req len g Hok Hwf HL) as (g' & c & Hrun & Hwf' & Hf & Hs).
    eexists _, _. split; [exact Hrun|]. split; [done|]. unfold tx_ring, rx_ring in Hs.
    destruct (decide (NT_SUCCESS (WdfRequestRetrieveOutputBuffer req len).1)) as [HS|HS].
    + destruct (Hs HS) as (Hc & Heq & _).
      destruct (decide (dev = 0)) as [Hd|Hd];
        [rewrite bool_decide_true by done|rewrite bool_decide_false by done];
        simpl; by rewrite Heq, Hc, !app_nil_r.
    + destruct (Hf HS) as (-> & ->). simpl.
      by destruct (bool_decide (dev = 0)); simpl; rewrite !app_nil_r.
Qed.

(** C15: In any sequence of requests, each direction is a lossless byte channel:
    what was queued, followed by what the writes were told they wrote, is what
    the reads returned followed by what is still queued. *)
Theorem driver_channels ios g :
  wdf_buffers_ok -> shared_wf g -> Forall (fun io => 0 <= io_len io < U32_MOD) ios ->
  exists g' log,
    run_io ios g = Some (g', log) /\ shared_wf g' /\
    ring_contents (HostToBmc g) ++ accepted_from true log =
      delivered_to false log ++ ring_contents (HostToBmc g') /\
    ring_contents (BmcToHost g) ++ accepted_from false log =
      delivered_to true log ++ ring_contents (BmcToHost g').
Proof.
  intros Hok. revert g. induction ios as [|io ios IH]; intros g Hwf HF.
  { exists g, []. simpl. rewrite !app_nil_r. done. }
  apply Forall_cons in HF as [HL HF].
  destruct (io_step_channels io g Hok Hwf HL) as (g1 & c & Hrun & Hwf1 & H1 & H2).
  destruct (IH g1 Hwf1 HF) as (g2 & log & Hrun2 & Hwf2 & H3 & H4).
  exists g2, ((io, c) :: log). split; [simpl; rewrite Hrun; simpl; by rewrite Hrun2|].
  split; [done|]. unfold accepted_from, delivered_to in *. simpl in *.
  rewrite !app_nil_r in H1, H2.
  by split; eapply channel_trans.
Qed.

(** The driver keeps no packet boundaries: when the BMC asks for as many
    bytes as two packets the host has queued, it is given both in one read,
    as one run of bytes. *)
Theorem driver_merges_packets req1 req2 req3 len1 len2 len3 g :
  wdf_buffers_ok -> shared_wf g ->
  NT_SUCCESS (WdfRequestRetrieveInputBuffer req1 len1).1 ->
  NT_SUCCESS (WdfRequestRetrieveInputBuffer req2 len2).1 ->
  NT_SUCCESS (WdfRequestRetrieveOutputBuffer req3 len3).1 ->
  0 < len1 -> 0 < len2 -> len1 + len2 <= len3 < U32_MOD ->
  DataAvailable (HostToBmc g) = 0 -> len1 + len2 <= RING_BUFFER_SIZE ->
  exists g' c1 c2 c3,
    run_io [mk_io 0 true req1 len1; mk_io 0 true req2 len2; mk_io 1 false req3 len3] g =
      Some (g', [(mk_io 0 true req1 len1, c1); (mk_io 0 true req2 len2, c2);
                 (mk_io 1 false req3 len3, c3)]) /\
    cp_info c1 = len1 /\ cp_info c2 = len2 /\
    cp_data c3 = slice 0 len1 (WdfRequestRetrieveInputBuffer req1 len1).2 ++
                 slice 0 len2 (WdfRequestRetrieveInputBuffer req2 len2).2.
Proof.
  intros Hok Hwf S1 S2 S3 L1 L2 L3 He Hfit.
  destruct (MmbiEvtIoWrite_spec 0 req1 len1 g Hok Hwf) as (g1 & c1 & R1 & Hwf1 & _ & H1); [lia|].
  destruct (H1 S1) as (Hc1 & _ & E1); clear H1. unfold tx_ring in *. simpl in *.
  rewrite He in *. rewrite Z.sub_0_r in *. rewrite Z.min_l in * by lia.
  rewrite decide_False in E1 by lia.
  assert (Ha1 : DataAvailable (HostToBmc g1) = len1).
  { rewrite <- zlen_contents by apply Hwf1. rewrite Hc1, zlen_app, zlen_contents by apply Hwf.
    destruct Hok as [Hin _]. specialize (Hin req1 len1 S1). rewrite zlen_take_0; lia. }
  destruct (MmbiEvtIoWrite_spec 0 req2 len2 g1 Hok Hwf1) as (g2 & c2 & R2 & Hwf2 & _ & H2); [lia|].
  destruct (H2 S2) as (Hc2 & _ & E2); clear H2. unfold tx_ring in *. simpl in *.
  rewrite Ha1 in *. rewrite Z.min_l in * by lia. rewrite decide_False in E2 by lia.
  assert (Ha2 : DataAvailable (HostToBmc g2) = len1 + len2).
  { rewrite <- zlen_contents by apply Hwf2. rewrite Hc2, zlen_app, zlen_contents by apply Hwf1.
    destruct Hok as [Hin _]. specialize (Hin req2 len2 S2). rewrite zlen_take_0; lia. }
  destruct (MmbiEvtIoRead_spec 1 req3 len3 g2 Hok Hwf2) as (g3 & c3 & R3 & Hwf3 & _ & H3); [lia|].
  destruct (H3 S3) as (Hc3 & _ & _ & _ & E3); clear H3. unfold rx_ring in *. simpl in *.
  rewrite Ha2 in *. rewrite Z.min_r in * by lia.
  exists g3, c1, c2, c3. split.
  { simpl. unfold io_step. simpl. rewrite R1. simpl. rewrite R2. simpl. by rewrite R3. }
  rewrite E1, E2. split; [done|]. split; [done|].
  assert (Hnil : ring_contents (HostToBmc g3) = []).
  { apply zlen_nil_inv. apply (f_equal zlen) in Hc3. rewrite zlen_app, zlen_contents in Hc3 by apply Hwf2.
    lia. }
  rewrite Hnil, app_nil_r in Hc3. rewrite <- Hc3, Hc2, Hc1.
  assert (ring_contents (HostToBmc g) = []) as ->.
  { apply zlen_nil_inv. by rewrite zlen_contents by apply Hwf. }
  done.
Qed.
End driver.

(** ** Concrete requests *)

Definition zero_buffer : list Z := replicate (Z.to_nat RING_BUFFER_SIZE) 0.

Lemma zlen_zero_buffer : zlen zero_buffer = RING_BUFFER_SIZE.
Proof. unfold zero_buffer. by rewrite zlen_replicate, Z2Nat.id. Qed.

#[global] Opaque zero_buffer.

Definition empty_ring : MMBI_RING_BUFFER := mk_ring zero_buffer 0 0 0.
Definition empty_shared : MMBI_SHARED_CONTEXT := mk_shared false empty_ring empty_ring.

Lemma empty_ring_wf : ring_wf empty_ring.
Proof.
  split; cbn [empty_ring Buffer WriteIdx ReadIdx DataAvailable].
  - apply zlen_zero_buffer.
  - unfold RING_BUFFER_SIZE; lia.
  - unfold RING_BUFFER_SIZE; lia.
  - reflexivity.
Qed.

Lemma empty_shared_wf : shared_wf empty_shared.
Proof. split; [done|]. split; apply empty_ring_wf. Qed.

(** Requests whose input buffer is the request itself and whose output buffer
    has the length asked for. *)
Definition own_input (req : list Z) (len : Z) : Z * list Z :=
  if decide (len <= zlen req) then (STATUS_SUCCESS, req) else (-1, []).
Definition sized_output (req : list Z) (len : Z) : Z * list Z :=
  (STATUS_SUCCESS, replicate (Z.to_nat len) 0).

Lemma own_buffers_ok : wdf_buffers_ok own_input sized_output.
Proof.
  split; intros req len; unfold own_input, sized_output; simpl.
  - case_decide; simpl; [done|]. unfold NT_SUCCESS. lia.
  - rewrite zlen_replicate. lia.
Qed.

Lemma RingBufferWrite_refines_witness :
  exists r', RingBufferWrite empty_ring [1; 2; 3] 3 = Some (r', 3) /\ ring_wf r' /\
    ring_contents r' = ring_contents empty_ring ++ [1; 2; 3].
Proof.
  destruct (RingBufferWrite_refines empty_ring [1; 2; 3] 3 empty_ring_wf) as (r & H);
    [lia|done|]. exists r. exact H.
Defined.

Lemma RingBufferRead_refines_witness :
  exists r', RingBufferRead empty_ring 4 = Some (r', slice 0 (4 `min` 0) (ring_contents empty_ring)) /\
    ring_wf r' /\ ring_contents r' = drop (Z.to_nat (4 `min` 0)) (ring_contents empty_ring).
Proof. apply (RingBufferRead_refines empty_ring 4 empty_ring_wf). lia. Defined.

Lemma MmbiEvtIoWrite_spec_witness :
  exists g' c, MmbiEvtIoWrite own_input 1 [7; 8] 2 empty_shared = Some (g', c) /\ shared_wf g' /\
    c = mk_completion STATUS_SUCCESS 2 [].
Proof.
  destruct (MmbiEvtIoWrite_spec own_input sized_output 1 [7; 8] 2 empty_shared
              own_buffers_ok empty_shared_wf) as (g' & c & H1 & H2 & _ & H3); [lia|].
  exists g', c. split; [exact H1|]. split; [exact H2|].
  destruct H3 as (_ & _ & H3); [by unfold NT_SUCCESS|]. exact H3.
Defined.

Lemma MmbiEvtIoRead_spec_witness :
  exists g' c, MmbiEvtIoRead sized_output 1 [] 2 empty_shared = Some (g', c) /\ shared_wf g' /\
    cp_status c = STATUS_SUCCESS /\ cp_info c = 0.
Proof.
  destruct (MmbiEvtIoRead_spec own_input sized_output 1 [] 2 empty_shared
              own_buffers_ok empty_shared_wf) as (g' & c & H1 & H2 & _ & H3); [lia|].
  destruct H3 as (_ & _ & H3 & H4 & _); [by unfold NT_SUCCESS|].
  exists g', c. exact (conj H1 (conj H2 (conj H3 H4))).
Defined.

(** Two packets written by the host, then one read by the BMC. *)
Definition two_writes_one_read : list (io_request (list Z)) :=
  [mk_io 0 true [1; 2; 3] 3; mk_io 0 true [4; 5] 2; mk_io 1 false [] 65544].

Lemma driver_channels_witness :
  exists g' log, run_io own_input sized_output two_writes_one_read empty_shared = Some (g', log) /\
    shared_wf g'.
Proof.
  destruct (driver_channels own_input sized_output two_writes_one_read empty_shared
              own_buffers_ok empty_shared_wf) as (g' & log & H1 & H2 & _).
  { unfold two_writes_one_read. repeat constructor; simpl; lia. }
  exists g', log. exact (conj H1 H2).
Defined.

Lemma driver_merges_packets_witness :
  exists g' c1 c2 c3,
    run_io own_input sized_output two_writes_one_read empty_shared =
      Some (g', [(mk_io 0 true [1; 2; 3] 3, c1); (mk_io 0 true [4; 5] 2, c2);
                 (mk_io 1 false [] 65544, c3)]) /\
    cp_data c3 = [1; 2; 3; 4; 5].
Proof.
  destruct (driver_merges_packets own_input sized_output [1; 2; 3] [4; 5] [] 3 2 65544 empty_shared
              own_buffers_ok empty_shared_wf) as (g' & c1 & c2 & c3 & H1 & _ & _ & H2).
  - exact (Z.le_refl 0).
  - exact (Z.le_refl 0).
  - exact (Z.le_refl 0).
  - lia.
  - lia.
  - lia.
  - exact (eq_refl 0).
  - unfold RING_BUFFER_SIZE. lia.
  - exists g', c1, c2, c3. split; [exact H1|exact H2].
Defined.
