(* ===== verification/Channel.v ===== *)
(** * The MMBI binding on the driver

    mmbi.c on one side of the driver of MmbiDriver.c and mmbi.c on the other:
    what a message sent becomes in the driver's ring, and what polling makes of
    it.  The driver keeps no packet boundaries and accepts part of a packet when
    the ring is nearly full; the theorems say when messages cross and when they
    are corrupted. *)

From S2P Require Import Prelude State Alloc Pktbuf Reasm Tags Tx Control Rx RxSpec RxRefine.
From S2P Require Import Frag TxRefine TxApi Bus Mmbi MmbiFacts MmbiRx MmbiInit Ring.

(** ** The device of the driver *)

(** The Win32 calls on a handle [h] of the device [dev] of the driver, whose
    state is part of the system's: writes and reads are the driver's handlers
    run to completion (a failed request gives [FALSE]), the device is not a
    pipe, and nobody else uses the driver during a pause. *)
Class DriverDevice (E : Type) `{!WinOps E} (h dev : Z) (shared : E -> MMBI_SHARED_CONTEXT) := {
  dd_write bs e g c :
    MmbiEvtIoWrite own_input dev bs (zlen bs) (shared e) = Some (g, c) ->
    exists e', WriteFile h bs e = (bool_decide (NT_SUCCESS (cp_status c)), cp_info c, e') /\
      shared e' = g;
  dd_read n e g c :
    MmbiEvtIoRead sized_output dev [] n (shared e) = Some (g, c) ->
    exists e', ReadFile h n e = (bool_decide (NT_SUCCESS (cp_status c)), cp_data c, e') /\
      shared e' = g;
  dd_peek e : exists e', PeekNamedPipe h e = (None, e') /\ shared e' = shared e;
  dd_sleep n e : shared (Sleep n e) = shared e;
}.

(** The bytes a device can still write. *)
Definition ring_free (dev : Z) (g : MMBI_SHARED_CONTEXT) : Z :=
  RING_BUFFER_SIZE - DataAvailable (tx_ring dev g).

(** The bytes [bs] have been written by [dev], and nothing else has happened. *)
Definition queued (dev : Z) (bs : list Z) (g g' : MMBI_SHARED_CONTEXT) : Prop :=
  shared_wf g' /\ rx_ring dev g' = rx_ring dev g /\
  ring_contents (tx_ring dev g') = ring_contents (tx_ring dev g) ++ bs.

Lemma shared_wf_tx dev g : shared_wf g -> ring_wf (tx_ring dev g).
Proof. intros (_ & H1 & H2). unfold tx_ring. by case_decide. Qed.

Lemma shared_wf_rx dev g : shared_wf g -> ring_wf (rx_ring dev g).
Proof. intros (_ & H1 & H2). unfold rx_ring. by case_decide. Qed.

Lemma ring_free_range dev g : shared_wf g -> 0 <= ring_free dev g <= RING_BUFFER_SIZE.
Proof. intros H. pose proof (wf_avail _ (shared_wf_tx dev g H)). unfold ring_free. lia. Qed.

Lemma empty_ring_free dev g : shared_wf g -> ring_contents (tx_ring dev g) = [] ->
  ring_free dev g = RING_BUFFER_SIZE.
Proof.
  intros Hg He. pose proof (zlen_contents _ (shared_wf_tx dev g Hg)) as Hz. rewrite He in Hz.
  unfold ring_free. change (zlen (@nil Z)) with 0 in Hz. lia.
Qed.

Lemma queued_free dev bs g g' : shared_wf g -> queued dev bs g g' ->
  ring_free dev g' = ring_free dev g - zlen bs.
Proof.
  intros Hg (Hg' & _ & Hc). apply (f_equal zlen) in Hc.
  rewrite zlen_app, !zlen_contents in Hc by by apply shared_wf_tx. unfold ring_free. lia.
Qed.

Lemma queued_nil dev g : shared_wf g -> queued dev [] g g.
Proof. intros H. split; [done|]. split; [done|]. by rewrite app_nil_r. Qed.

Lemma queued_trans dev b1 b2 g1 g2 g3 :
  queued dev b1 g1 g2 -> queued dev b2 g2 g3 -> queued dev (b1 ++ b2) g1 g3.
Proof.
  intros (_ & E1 & E2) (H & E3 & E4). split; [done|]. split; [congruence|].
  by rewrite E4, E2, app_assoc.
Qed.

Section device.
Context {E : Type} `{!WinOps E} (h dev : Z) (shared : E -> MMBI_SHARED_CONTEXT)
        `{!DriverDevice E h dev shared}.

(** One attempt at writing a packet. *)
Lemma write_attempt bs e :
  shared_wf (shared e) -> zlen bs < U32_MOD ->
  exists ok n e1, WriteFile h bs e = (ok, n, e1) /\
    queued dev (slice 0 (ring_free dev (shared e)) bs) (shared e) (shared e1) /\
    ((ok = true /\ n = zlen bs) <-> zlen bs <= ring_free dev (shared e)).
Proof.
  intros Hg Hl. pose proof (zlen_nonneg bs) as Hz. pose proof (ring_free_range dev _ Hg) as Hf.
  destruct (MmbiEvtIoWrite_spec own_input sized_output dev bs (zlen bs) (shared e)
    own_buffers_ok Hg ltac:(lia)) as (g' & c & Hrun & Hg' & _ & Hs).
  assert (Eo : own_input bs (zlen bs) = (STATUS_SUCCESS, bs))
    by (unfold own_input; by rewrite decide_True by lia).
  rewrite Eo in Hs. destruct Hs as (Hc & Hr & ->); [by unfold NT_SUCCESS|]. simpl in Hc.
  destruct (dd_write (h := h) bs e g' _ Hrun) as (e' & Hw & <-). clear Hrun.
  fold (ring_free dev (shared e)) in *. eexists _, _, e'. split; [exact Hw|]. split.
  - split; [done|]. split; [done|]. rewrite Hc. f_equal.
    destruct (decide (zlen bs <= ring_free dev (shared e))) as [H|H].
    + by rewrite !slice_all by lia.
    + by rewrite Z.min_r by lia.
  - case_decide as Hb; simpl.
    + split; [by intros [? _]|lia].
    + split; [lia|]. intros. split; [done|lia].
Qed.

Lemma write_attempt_fails bs e e' :
  shared_wf (shared e) -> zlen bs < U32_MOD -> write_fails h bs e e' ->
  ring_free dev (shared e) < zlen bs /\
  queued dev (slice 0 (ring_free dev (shared e)) bs) (shared e) (shared e').
Proof.
  intros Hg Hl (ok & n & e1 & Hw & Hn & ->).
  destruct (write_attempt bs e Hg Hl) as (ok' & n' & e1' & Hw' & Hq & Hi).
  rewrite Hw in Hw'. injection Hw' as <- <- <-. rewrite (dd_sleep (h := h) (dev := dev)).
  split; [|done]. destruct (decide (zlen bs <= ring_free dev (shared e))); [|lia]. tauto.
Qed.

Lemma write_succeeds_at bs e e' :
  shared_wf (shared e) -> zlen bs < U32_MOD -> write_succeeds h bs e e' ->
  queued dev (slice 0 (ring_free dev (shared e)) bs) (shared e) (shared e') /\
  0 = if decide (zlen bs <= ring_free dev (shared e)) then 0 else - EIO.
Proof.
  intros Hg Hl Hs. destruct (write_attempt bs e Hg Hl) as (ok & n & e1 & Hw & Hq & Hi).
  unfold write_succeeds in Hs. rewrite Hw in Hs. injection Hs as -> -> ->.
  split; [done|]. rewrite decide_True; [done|]. by apply Hi.
Qed.

(** Failing leaves the ring full, so that the attempts after it do nothing. *)
Lemma write_attempts_fail bs k e e' :
  shared_wf (shared e) -> zlen bs < U32_MOD -> nsteps (write_fails h bs) (S k) e e' ->
  ring_free dev (shared e) < zlen bs /\ ring_free dev (shared e') = 0 /\
  queued dev (slice 0 (ring_free dev (shared e)) bs) (shared e) (shared e').
Proof.
  intros Hg Hl H. inversion H as [|? ? e1 ? Hf Hs]; subst. clear H.
  destruct (write_attempt_fails bs e e1 Hg Hl Hf) as [Hlt Hq]. split; [done|].
  pose proof (ring_free_range dev _ Hg) as Hr.
  assert (H0 : ring_free dev (shared e1) = 0).
  { rewrite (queued_free _ _ _ _ Hg Hq), zlen_take_0; lia. }
  assert (Hg1 : shared_wf (shared e1)) by apply Hq. clear Hf.
  cut (queued dev [] (shared e1) (shared e')).
  { intros Hn. split; [by rewrite (queued_free _ _ _ _ Hg1 Hn), H0|].
    rewrite <- (app_nil_r (slice _ _ _)). by eapply queued_trans. }
  clear Hq Hg Hlt Hr e. induction Hs as [e1|k e1 e2 e3 Hf _ IH]; [by apply queued_nil|].
  destruct (write_attempt_fails bs e1 e2 Hg1 Hl Hf) as [_ Hq]. rewrite H0, slice_0_len in Hq.
  rewrite <- (app_nil_r []). eapply queued_trans; [exact Hq|]. apply IH; [|apply Hq].
  rewrite (queued_free _ _ _ _ Hg1 Hq), H0. done.
Qed.
End device.

(** ** Sending *)

(** The bytes [mctp_message_tx] has to write for a message. *)
Definition packet_stream (bd : mctp_binding) (b : mctp_bus) (eid : Z) (to : bool) (tag : Z)
    (msg : list Z) : list Z :=
  concat (fragments (sender_params bd b eid to tag) msg).

(** How many packets the core goes past when the ring has room for [free]
    bytes: those that fit and the first that does not. *)
Fixpoint handed (free : Z) (pkts : list (list Z)) : Z :=
  match pkts with
  | [] => 0
  | p :: pkts => if decide (zlen p <= free) then 1 + handed (free - zlen p) pkts else 1
  end.

(** The bytes of a message of one packet. *)
Definition single_packet (bd : mctp_binding) (b : mctp_bus) (eid : Z) (to : bool) (tag : Z)
    (msg : list Z) : list Z :=
  bytes_of_hdr (mk_hdr (Z.land (bd_version bd) 15) eid (bus_eid b)
    (tx_flags_seq_tag to tag (bus_tx_seq b) true true)) ++ msg.

Lemma single_packet_stream bd b eid to tag msg :
  mmbi_sized bd -> 0 <= bus_tx_seq b < 4 -> zlen msg <= 65536 ->
  packet_stream bd b eid to tag msg = single_packet bd b eid to tag msg.
Proof.
  intros (Hps & _) Hs Hl. pose proof (zlen_nonneg msg). set (t := sender_params bd b eid to tag).
  assert (Hm : tp_mtu t = 65536) by (simpl; rewrite Hps; by vm_compute).
  unfold packet_stream, fragments. fold t. rewrite frag_count_one by (rewrite Hm; lia).
  change (seqZ 0 1) with [0]. cbn [fmap list_fmap concat]. rewrite app_nil_r.
  rewrite one_fragment by (rewrite ?Hm; simpl; lia). done.
Qed.

Lemma zlen_single_packet bd b eid to tag msg :
  zlen (single_packet bd b eid to tag msg) = 4 + zlen msg.
Proof. unfold single_packet. by rewrite zlen_app. Qed.

(** The objects in the environment. *)
Definition objects {E} (d : mmbi_env E) := (dv_mmbis d, dv_ctxs d, dv_transports d).

Lemma objects_mmbis {E} (d d' : mmbi_env E) : objects d' = objects d -> dv_mmbis d' = dv_mmbis d.
Proof. by intros [=]. Qed.

Lemma objects_api {E} (d d' : mmbi_env E) :
  objects d' = objects d -> dv_ctxs d' = dv_ctxs d /\ dv_transports d' = dv_transports d.
Proof. by intros [=]. Qed.

Section sender.
Context {E : Type} `{!WinOps E, !UserOps (mmbi_env E), !ExtAlloc (mmbi_env E), !ClockOps (mmbi_env E)}.
Context (h dev : Z) (shared : E -> MMBI_SHARED_CONTEXT) `{!DriverDevice E h dev shared}.
Local Abbreviation D := (mmbi_env E).
Local Abbreviation drv d := (shared (dv_os d)).
Implicit Types w : world D.

(** What the binding's transmit function does to the driver: the packet, or as
    much of it as there is room for, is written, and the answer says which. *)
Definition driver_sent (b : Z) (bs : list Z) (rc : Z) (d d' : D) : Prop :=
  forall m, dv_mmbis d !! b = Some m -> mb_device_handle m = h -> shared_wf (drv d) ->
  zlen bs < U32_MOD ->
  objects d' = objects d /\
  queued dev (slice 0 (ring_free dev (drv d)) bs) (drv d) (drv d') /\
  rc = if decide (zlen bs <= ring_free dev (drv d)) then 0 else - EIO.

#[export] Instance driver_tx_effect : TxEffect D mmbi_ready driver_sent.
Proof.
  split; [|by intros b bs rc g pkt out data d w w' [= <-]].
  intros f b pkt p rc w w' [-> (m & Hm & Hv)] Hp Hr Hrun m' Hm' Hh Hg Hl.
  rewrite Hm in Hm'. injection Hm' as <-.
  fold (mctp_pktbuf_size p) (mctp_pktbuf_hdr p) in *. fold (pkt_wire p) in *.
  unfold bop_tx, mmbi_binding_ops in Hrun. rewrite decide_True in Hrun by done.
  pose proof (mmbi_tx_run b m pkt p w Hm Hv Hp Hr Hl) as Hcases. cbv zeta in Hcases.
  rewrite Hh in Hcases. clear Hh. destruct Hcases
    as [(k & e & e' & Hk & Hs & Hsucc & Hrun')|(e & Hs & Hrun')];
    rewrite Hrun in Hrun'; injection Hrun' as -> ->; (split; [done|]); simpl.
  - destruct k as [|k].
    + inversion Hs; subst. by destruct (write_succeeds_at h dev shared _ _ _ Hg Hl Hsucc).
    + exfalso. destruct (write_attempts_fail h dev shared _ _ _ _ Hg Hl Hs) as (Hlt & Hfull & Hq).
      destruct (write_succeeds_at h dev shared _ _ _ (proj1 Hq) Hl Hsucc) as [_ H].
      rewrite Hfull in H. pose proof (ring_free_range dev _ Hg). case_decide; [lia|done].
  - destruct (write_attempts_fail h dev shared _ _ _ _ Hg Hl Hs) as (Hlt & _ & Hq).
    split; [done|]. by rewrite decide_False by lia.
Qed.

Local Abbreviation answered := (fun rc => rc = 0 \/ rc = - EIO).

(** A whole message: the ring takes the longest prefix of its packets' bytes
    for which there is room, and the core goes past the first packet that does
    not fit. *)
Lemma driver_tx_devs b t msg m i rcs j d d' :
  let n := frag_count (tp_mtu t) (zlen msg) in
  let stream := concat (fragment t msg <$> seqZ i (n - i)) in
  0 < tp_mtu t < U32_MOD - 4 -> 0 <= i ->
  answers answered n i rcs j -> tx_devs mmbi_ready b t msg i rcs d d' ->
  dv_mmbis d !! b = Some m -> mb_device_handle m = h -> shared_wf (drv d) ->
  objects d' = objects d /\
  queued dev (slice 0 (ring_free dev (drv d)) stream) (drv d) (drv d') /\
  (zlen stream <= ring_free dev (drv d) -> j = n /\ rcs = replicate (Z.to_nat (n - i)) 0) /\
  j = i + handed (ring_free dev (drv d)) (fragment t msg <$> seqZ i (n - i)).
Proof.
  intros n stream Hmtu Hi Ha Hd Hm Hh Hg. revert d Hd Hm Hg. unfold stream. clear stream.
  assert (Hone : forall i rc rcs d, 0 <= i < n -> tx_devs mmbi_ready b t msg i (rc :: rcs) d d' ->
    dv_mmbis d !! b = Some m -> shared_wf (drv d) -> exists d1,
    driver_sent b (fragment t msg i) rc d d1 /\ tx_devs mmbi_ready b t msg (i + 1) rcs d1 d' /\
    objects d1 = objects d /\
    queued dev (slice 0 (ring_free dev (drv d)) (fragment t msg i)) (drv d) (drv d1) /\
    rc = if decide (zlen (fragment t msg i) <= ring_free dev (drv d)) then 0 else - EIO).
  { intros i' rc rcs' d Hi' (d1 & Hdid & Hrest) Hm Hg. exists d1.
    pose proof (Hdid driver_sent driver_tx_effect) as Hs. do 2 (split; [done|]).
    apply (Hs m); [done..|]. rewrite zlen_fragment by (done || lia). unfold sizeof_mctp_hdr. lia. }
  induction Ha as [|i rcs j Hin _ _ IH|i Hin Hb|i rc Hin Hrc Hz Hnb]; intros d Hd Hm Hg.
  - rewrite Z.sub_diag. simpl in *. subst d'. unfold slice. rewrite drop_nil, take_nil.
    split; [done|]. split; [by apply queued_nil|]. split; [done|lia].
  - destruct (Hone i 0 rcs d ltac:(lia) Hd Hm Hg) as (d1 & _ & Hrest & Hmm & Hq & Hrc).
    case_decide as Hfit; [|done]. rewrite (slice_all (fragment t msg i)) in Hq by done.
    destruct (IH ltac:(lia) d1 Hrest) as (Hmm' & Hq' & Hj & Hh'); [by rewrite (objects_mmbis _ _ Hmm)|apply Hq|].
    rewrite (queued_free _ _ _ _ Hg Hq) in Hq', Hj, Hh'. split; [congruence|].
    rewrite (seqZ_cons i) by lia. rewrite fmap_cons. cbn [concat].
    replace (Z.pred (n - i)) with (n - (i + 1)) by lia. rewrite <- Z.add_1_r, zlen_app.
    cbn [handed]. rewrite decide_True by done. split; [|split; [|lia]].
    + rewrite (slice_app_prefix _ _ _ Hfit). by eapply queued_trans.
    + intros Hfits. destruct Hj as [-> ->]; [lia|]. split; [done|].
      by replace (Z.to_nat (n - i)) with (S (Z.to_nat (n - (i + 1)))) by lia.
  - by destruct Hb.
  - destruct (Hone i rc [] d ltac:(lia) Hd Hm Hg) as (d1 & _ & Hrest & Hmm & Hq & Hrc').
    simpl in Hrest. subst d1. split; [done|].
    rewrite (seqZ_cons i) by lia. rewrite fmap_cons. cbn [concat].
    cbn [handed]. case_decide as Hfit; [done|]. rewrite slice_app_l by lia. split; [done|].
    split; [|done]. rewrite zlen_app. pose proof (zlen_nonneg (concat (fragment t msg <$> seqZ (Z.succ i) (Z.pred (n - i))))). lia.
Qed.

(** What the calls of [tx] for a message leave in the driver's ring. *)
Lemma driver_tx_stream mmbi bd b eid to tag msg m rcs j d d' :
  mmbi_sized bd -> dv_mmbis d !! mmbi = Some m -> mb_device_handle m = h -> shared_wf (drv d) ->
  let t := sender_params bd b eid to tag in let n := frag_count (tp_mtu t) (zlen msg) in
  let stream := packet_stream bd b eid to tag msg in let free := ring_free dev (drv d) in
  answers answered n 0 rcs j -> tx_devs mmbi_ready mmbi t msg 0 rcs d d' ->
  objects d' = objects d /\ queued dev (slice 0 free stream) (drv d) (drv d') /\
  (zlen stream <= free -> j = n /\ rcs = replicate (Z.to_nat n) 0) /\
  j = handed free (fragments t msg).
Proof.
  intros (Hps & _) Hm Hh Hg t n stream free Hans Hdev.
  destruct (driver_tx_devs mmbi t msg m 0 rcs j d d'
    ltac:(simpl; rewrite Hps; by vm_compute) ltac:(lia) Hans Hdev Hm Hh Hg) as (Hmm & Hq & Hj).
  unfold stream, packet_stream, fragments. fold t n. rewrite Z.sub_0_r in Hq, Hj. by destruct Hj.
Qed.

(** A stack that can send, on a handle of the device. *)
Record driver_sender (mctp mmbi : Z) (bd : mctp_binding) (b : mctp_bus) (w : world D) : Prop := {
  ds_sender : sender mmbi_ready mctp mmbi bd b w;
  ds_mmbi : exists m, dv_mmbis (w_dev w) !! mmbi = Some m /\ mb_device_handle m = h;
  ds_sized : mmbi_sized bd;
  ds_shared : shared_wf (drv (w_dev w));
}.

Lemma driver_tx_result mctp mmbi bd b eid to tag msg rcs j w d :
  driver_sender mctp mmbi bd b w ->
  let t := sender_params bd b eid to tag in let n := frag_count (tp_mtu t) (zlen msg) in
  let stream := packet_stream bd b eid to tag msg in
  let free := ring_free dev (drv (w_dev w)) in
  answers answered n 0 rcs j -> tx_devs mmbi_ready mmbi t msg 0 rcs (w_dev w) d ->
  objects d = objects (w_dev w) /\
  queued dev (slice 0 free stream) (drv (w_dev w)) (drv d) /\
  (zlen stream <= free -> j = n /\ rcs = replicate (Z.to_nat n) 0).
Proof.
  intros [Hs (m & Hm & Hh) Hsz Hg] t n stream free Ha Hd.
  destruct (driver_tx_stream mmbi bd b eid to tag msg m rcs j _ _ Hsz Hm Hh Hg Ha Hd) as (H1 & H2 & H3 & _).
  done.
Qed.

(** One packet, for which there is room. *)
Lemma driver_tx_packet mmbi bd b eid to tag msg m rcs j d d' :
  mmbi_sized bd -> dv_mmbis d !! mmbi = Some m -> mb_device_handle m = h -> shared_wf (drv d) ->
  0 <= bus_tx_seq b < 4 -> zlen msg <= 65536 -> 4 + zlen msg <= ring_free dev (drv d) ->
  let t := sender_params bd b eid to tag in let n := frag_count (tp_mtu t) (zlen msg) in
  answers answered n 0 rcs j -> tx_devs mmbi_ready mmbi t msg 0 rcs d d' ->
  objects d' = objects d /\ queued dev (single_packet bd b eid to tag msg) (drv d) (drv d') /\
  j = n /\ rcs = replicate (Z.to_nat n) 0.
Proof.
  intros Hsz Hm Hh Hg Hseq Hl Hroom t n Hans Hdev.
  destruct (driver_tx_stream mmbi bd b eid to tag msg m rcs j d d' Hsz Hm Hh Hg Hans Hdev)
    as (Hmm & Hq & Hj & _).
  rewrite single_packet_stream in Hq, Hj by done.
  assert (Hz : zlen (single_packet bd b eid to tag msg) = 4 + zlen msg) by apply zlen_single_packet.
  rewrite slice_all in Hq by lia. split; [done|]. split; [done|]. apply Hj. lia.
Qed.

(** The stack after a message of which everything was taken. *)
Lemma driver_sender_again mctp mmbi bd b msgp t msg w w0 w' :
  driver_sender mctp mmbi bd b w -> sender mmbi_ready mctp mmbi bd b w0 ->
  dv_mmbis (w_dev w') = dv_mmbis (w_dev w) -> shared_wf (drv (w_dev w')) ->
  tx_stands mmbi_ready mmbi 0 bd msgp t msg b (frag_count (tp_mtu t) (zlen msg)) w0 w' ->
  exists b', driver_sender mctp mmbi bd b' w' /\ bus_eid b' = bus_eid b.
Proof.
  intros [_ (m & Hm & Hh) Hsz _] Hs0 Hmm Hg' Hst.
  destruct (sender_again _ mctp mmbi bd b _ _ msg _ w' Hs0 Hst) as (b' & Hs' & He).
  exists b'. split; [|done]. split; [done| |done|done]. exists m. by rewrite Hmm.
Qed.

Lemma wp_driver_message_tx mctp mmbi bd b eid to tag msg w :
  driver_sender mctp mmbi bd b w -> 0 <= tag < 8 -> zlen msg < SIZE_MOD -> malloc_ok w = true ->
  let stream := packet_stream bd b eid to tag msg in
  let free := ring_free dev (drv (w_dev w)) in
  wp (mctp_message_tx mctp eid to tag msg (zlen msg)) (fun rc w' => rc = 0 /\
    queued dev (slice 0 free stream) (drv (w_dev w)) (drv (w_dev w')) /\
    w_mallocs w' = tail (w_mallocs w) /\
    (zlen stream <= free ->
     exists b', driver_sender mctp mmbi bd b' w' /\ bus_eid b' = bus_eid b)) w.
Proof.
  intros Hs Ht Hl Hok stream free.
  eapply wp_mono; [apply (wp_mctp_message_tx mmbi_ready answered mctp mmbi bd b); (done || apply Hs)|].
  intros rc w' (-> & rcs & j & Hans & _ & Hdev & Hst). split; [done|].
  destruct (driver_tx_result mctp mmbi bd b eid to tag msg rcs j w _ Hs Hans Hdev)
    as (Hmm & Hq & Hj). split; [done|].
  destruct (sender_after_dup _ mctp mmbi bd b msg w (ds_sender _ _ _ _ _ Hs)) as [Hs1 _].
  split; [apply (tk_mallocs _ _ _ _ _ (proj1 (proj2 Hst)))|].
  intros Hfit. destruct (Hj Hfit) as [-> _].
  by apply (driver_sender_again mctp mmbi bd b _ _ msg w _ w' Hs Hs1 (objects_mmbis _ _ Hmm) (proj1 Hq) Hst).
Qed.

(** A message of one packet, when there is room. *)
Lemma wp_driver_sends_packet mctp mmbi bd b eid to tag msg w :
  driver_sender mctp mmbi bd b w -> 0 <= tag < 8 -> zlen msg <= 65536 -> w_mallocs w = [] ->
  4 + zlen msg <= ring_free dev (drv (w_dev w)) ->
  wp (mctp_message_tx mctp eid to tag msg (zlen msg)) (fun rc w' => rc = 0 /\
    queued dev (single_packet bd b eid to tag msg) (drv (w_dev w)) (drv (w_dev w')) /\
    w_mallocs w' = [] /\
    exists b', driver_sender mctp mmbi bd b' w' /\ bus_eid b' = bus_eid b) w.
Proof.
  intros Hs Ht Hl Hmem Hroom. pose proof (se_seq _ _ _ _ _ _ (ds_sender _ _ _ _ _ Hs)) as Hseq.
  eapply wp_mono; [apply (wp_driver_message_tx mctp mmbi bd b);
    [done|done|lia|unfold malloc_ok; by rewrite Hmem]|].
  intros rc w' (-> & Hq & Hmem' & Hagain). split; [done|].
  rewrite single_packet_stream in Hq, Hagain by (done || apply Hs).
  pose proof (zlen_single_packet bd b eid to tag msg).
  rewrite slice_all in Hq by lia. split; [done|]. rewrite Hmem', Hmem. split; [done|].
  apply Hagain. lia.
Qed.

(** Sending over the driver.  The ring takes the longest prefix of the
    message's packets for which there is room, in order and unchanged; the call
    returns 0 however much that is, so that a message can be cut in the middle
    of a packet without notice.  When all of it fits the stack can send again. *)
Theorem driver_message_tx mctp mmbi bd b eid to tag msg w :
  driver_sender mctp mmbi bd b w -> 0 <= tag < 8 -> zlen msg < SIZE_MOD -> malloc_ok w = true ->
  let stream := packet_stream bd b eid to tag msg in
  let g := drv (w_dev w) in
  exists w', mctp_message_tx mctp eid to tag msg (zlen msg) w = Ok 0 w' /\
    rx_ring dev (drv (w_dev w')) = rx_ring dev g /\
    ring_contents (tx_ring dev (drv (w_dev w'))) =
      ring_contents (tx_ring dev g) ++ slice 0 (ring_free dev g) stream /\
    (zlen stream <= ring_free dev g -> exists b', driver_sender mctp mmbi bd b' w').
Proof.
  intros Hs Ht Hl Hok stream g.
  destruct (wp_inv _ _ _ (wp_driver_message_tx mctp mmbi bd b eid to tag msg w Hs Ht Hl Hok))
    as (rc & w' & Hrun & -> & (_ & Hr & Hc) & _ & Hagain). exists w'. do 3 (split; [done|]).
  intros Hfit. destruct (Hagain Hfit) as (b' & H & _). by exists b'.
Qed.
End sender.

(** ** Receiving *)

(** The bytes [bs] have been read by [dev], and nothing else has happened. *)
Definition drained (dev : Z) (bs : list Z) (g g' : MMBI_SHARED_CONTEXT) : Prop :=
  shared_wf g' /\ tx_ring dev g' = tx_ring dev g /\
  ring_contents (rx_ring dev g) = bs ++ ring_contents (rx_ring dev g').

(** What one read of [mctp_mmbi_poll] is given. *)
Definition next_read (dev : Z) (g : MMBI_SHARED_CONTEXT) : list Z :=
  slice 0 65544 (ring_contents (rx_ring dev g)).

(** Callbacks keep the objects and stay away from the driver. *)
Definition keeps_driver {E} (shared : E -> MMBI_SHARED_CONTEXT) (d d' : mmbi_env E) : Prop :=
  objects d' = objects d /\ shared (dv_os d') = shared (dv_os d).

#[export] Instance keeps_driver_pre {E} shared : PreOrder (@keeps_driver E shared).
Proof.
  split; [done|]. intros x y z [H1 H2] [H3 H4]. by split; [rewrite H3|rewrite H4].
Qed.

Section receiver.
Context {E : Type} `{!WinOps E}.
Context (h dev : Z) (shared : E -> MMBI_SHARED_CONTEXT) `{!DriverDevice E h dev shared}.
Local Abbreviation D := (mmbi_env E).
Local Abbreviation drv d := (shared (dv_os d)).
Context `{!ExtAlloc D, !BindingOps D, !RxOps D, !RxReady D, !QuietCapture D, !QuietRx D,
          !ApiReady E, !KeepOps D (keeps_driver shared)}.
Implicit Types w : world D.

Lemma driver_read e :
  shared_wf (shared e) ->
  exists e1 e2, PeekNamedPipe h e = (None, e1) /\
    ReadFile h 65544 e1 = (true, next_read dev (shared e), e2) /\
    drained dev (next_read dev (shared e)) (shared e) (shared e2).
Proof.
  intros Hg. destruct (dd_peek (h := h) (dev := dev) e) as (e1 & Hpeek & E1).
  destruct (MmbiEvtIoRead_spec own_input sized_output dev [] 65544 (shared e1)
    own_buffers_ok ltac:(by rewrite E1) ltac:(lia)) as (g & c & Hrun & Hg' & _ & Hs).
  destruct Hs as (Hc & Ht & Hst & _ & Hz); [by unfold NT_SUCCESS|].
  destruct (dd_read (h := h) 65544 e1 g c Hrun) as (e2 & Hread & <-). rewrite E1 in *.
  assert (Hn : cp_data c = next_read dev (shared e)).
  { unfold next_read. rewrite Hc.
    pose proof (zlen_contents _ (shared_wf_rx dev _ Hg)) as Hz1. rewrite Hc, zlen_app in Hz1.
    destruct (decide (65544 <= DataAvailable (rx_ring dev (shared e)))).
    - rewrite slice_app_l, slice_all by lia. done.
    - rewrite slice_app_prefix by lia.
      rewrite (zlen_nil_inv (ring_contents (rx_ring dev (shared e2)))) by lia.
      unfold slice. by rewrite drop_nil, take_nil, app_nil_r. }
  exists e1, e2. split; [done|]. rewrite Hread, Hst, Hn. split; [done|].
  split; [done|]. split; [done|]. by rewrite <- Hn.
Qed.

(** An endpoint that can receive, on a handle of the device. *)
Record driver_receiver (mctp b : Z) (bus : nat) (eid : Z) (w : world D) : Prop := {
  dr_ctxs : exists F r, ctxs_inv w F r;
  dr_endpoint : endpoint mctp b bus eid w;
  dr_mallocs : w_mallocs w = [];
  dr_open : exists m bd, mmbi_open b m bd w /\ mb_device_handle m = h;
  dr_shared : shared_wf (drv (w_dev w));
}.

Lemma driver_polls mctp b bus eid F r w :
  driver_receiver mctp b bus eid w -> ctxs_inv w F r ->
  let bs := next_read dev (drv (w_dev w)) in
  let res := spec_rx eid (m_max_message_size (w_mctp w)) true r bs in
  0 < zlen bs <= 65540 -> (forall dl, res.2 = Some dl -> ctrl_request (dl_msg dl) = false) ->
  wp (mctp_mmbi_poll b) (fun rc w' => rc = 0 /\ driver_receiver mctp b bus eid w' /\
    drained dev bs (drv (w_dev w)) (drv (w_dev w')) /\
    w_trace w' = w_trace w ++ capture_events (w_mctp w) bs ++
      from_option (delivery_events (w_mctp w)) [] res.2 /\
    exists ctxs, w_mctp w' = set_m_req_tags
      (from_option (fun dl => delivery_tags dl (m_req_tags (w_mctp w))) (m_req_tags (w_mctp w)) res.2)
      (set_m_msg_ctxs ctxs (w_mctp w))) w.
Proof.
  intros [_ Hep Hmem (m & bd & Ho & Hh) Hg] HI bs res Hl Hctl.
  destruct (driver_read (dv_os (w_dev w)) Hg) as (e1 & e2 & Hpeek & Hread & Hd).
  fold bs in Hread, Hd.
  eapply wp_mono; [apply (wp_poll_receives (keeps_driver shared) (fun _ _ H => objects_mmbis _ _ (proj1 H)) mctp b bus eid
    F r m bd bs e2); try done; rewrite Hh; by exists None, e1|].
  intros rc w' (-> & []). split; [done|].
  destruct po_keep as (d1 & d2 & <- & (_ & Hk) & Hk'). rewrite Hk', Hk. split; [|split; [done|]].
  - split; try done; [by eexists _, _| |rewrite Hk', Hk; apply Hd]. exists m, bd. split; [|done].
    destruct Ho. split; [by rewrite po_mmbis|done|done|by rewrite po_bindings|done].
  - by split.
Qed.

(** A read that is empty or too long for a packet buffer. *)
Lemma driver_polls_nothing mctp b bus eid w :
  driver_receiver mctp b bus eid w ->
  let bs := next_read dev (drv (w_dev w)) in
  bs = [] \/ 65540 < zlen bs ->
  exists e, drained dev bs (drv (w_dev w)) (shared e) /\
    mctp_mmbi_poll b w = Ok (if decide (bs = []) then 0 else - ENOMEM)
      (set_w_dev (env_os e (w_dev w)) w).
Proof.
  intros [(F & r & HI) Hep Hmem (m & bd & Ho & Hh) Hg] bs Hbs.
  destruct (driver_read (dv_os (w_dev w)) Hg) as (e1 & e2 & Hpeek & Hread & Hd).
  fold bs in Hread, Hd. exists e2. split; [done|]. apply wp_run_eq.
  eapply wp_poll_reads; [exact Ho|by rewrite Hh|done|by rewrite Hh|].
  destruct (decide (bs = [])) as [Hnil|Hnil].
  - rewrite Hnil. by wp_steps.
  - destruct Hbs as [|Hlong]; [done|]. rewrite decide_True by lia.
    eapply (wp_deliver_long b m bd); [|done|apply HI|apply HI|done].
    destruct Ho. by split.
Qed.

(** Polling over the driver.  One poll takes what is in the ring, at most
    65544 bytes, as if it were one packet: it is received as [spec_rx] says when
    it fits a packet buffer; longer reads are dropped with [-ENOMEM]. *)
Theorem driver_poll mctp b bus eid F r w :
  driver_receiver mctp b bus eid w -> ctxs_inv w F r ->
  let bs := next_read dev (drv (w_dev w)) in
  let res := spec_rx eid (m_max_message_size (w_mctp w)) true r bs in
  (forall dl, res.2 = Some dl -> ctrl_request (dl_msg dl) = false) ->
  exists rc w', mctp_mmbi_poll b w = Ok rc w' /\
    drained dev bs (drv (w_dev w)) (drv (w_dev w')) /\
    if decide (65540 < zlen bs) then rc = - ENOMEM /\ w_trace w' = w_trace w
    else rc = 0 /\ w_trace w' = w_trace w ++ capture_events (w_mctp w) bs ++
      from_option (delivery_events (w_mctp w)) [] res.2.
Proof.
  intros Hr HI bs res Hctl. pose proof (zlen_nonneg bs) as Hz.
  destruct (decide (0 < zlen bs <= 65540)) as [Hl|Hl].
  - destruct (wp_inv _ _ _ (driver_polls mctp b bus eid F r w Hr HI Hl Hctl))
      as (rc & w' & Hrun & -> & _ & Hd & Ht & _). exists 0, w'.
    rewrite decide_False by (fold bs; lia). done.
  - destruct (driver_polls_nothing mctp b bus eid w Hr) as (e & Hd & Hrun).
    { fold bs. destruct (decide (zlen bs = 0)); [left; by apply zlen_nil_inv|right; lia]. }
    fold bs in Hd, Hrun. eexists _, _. split; [exact Hrun|]. split; [done|].
    destruct (decide (bs = [])) as [Hb|Hb].
    + unfold res. rewrite Hb in *. rewrite decide_False by done. split; [done|].
      simpl. by rewrite app_nil_r.
    + rewrite decide_True; [done|]. destruct (decide (zlen bs = 0)) as [H0|]; [|lia].
      by apply zlen_nil_inv in H0.
Qed.
End receiver.

(** ** Both ends *)

(** A message of one packet, with whatever follows it in the same read. *)
Lemma spec_rx_single eid max r t payload :
  0 <= tp_tag t < 8 -> 0 <= tp_seq t < 4 -> tp_src t <> MCTP_EID_BROADCAST -> tp_dest t = eid ->
  spec_rx eid max true r (bytes_of_hdr (mk_hdr (tp_ver t) (tp_dest t) (tp_src t)
    (tx_flags_seq_tag (tp_to t) (tp_tag t) (tp_seq t) true true)) ++ payload) =
  (r, Some (mk_delivery (tp_src t) (tp_dest t) (tp_to t) (tp_tag t) payload)).
Proof.
  intros Ht Hs Hsrc Hdest. pose proof (zlen_nonneg payload) as Hz.
  set (t' := mk_tx_params (tp_ver t) (tp_dest t) (tp_src t) (tp_to t) (tp_tag t) (tp_seq t)
    (zlen payload + 1)).
  assert (Hm : 0 < tp_mtu t') by (simpl; lia).
  assert (Hl : zlen payload <= tp_mtu t') by (simpl; lia).
  change (bytes_of_hdr _) with (bytes_of_hdr (mk_hdr (tp_ver t') (tp_dest t') (tp_src t')
    (tx_flags_seq_tag (tp_to t') (tp_tag t') (tp_seq t') true true))).
  rewrite <- (one_fragment t' payload Hl Hm Hs).
  destruct (spec_rx_fragment t' payload Ht eid max (conj Hsrc (or_introl Hdest)) true r 0)
    as (_ & _ & Hd & ->).
  pose proof (frag_count_one (tp_mtu t') (zlen payload) ltac:(lia) Hm).
  rewrite (decide_True (P := 0 = 0)), decide_True by (done || lia). unfold spec_single. rewrite Hd.
  by rewrite Z.mul_0_l, slice_all by lia.
Qed.

Lemma spec_rx_packet eid max r bd b to tag msg more :
  0 <= tag < 8 -> 0 <= bus_tx_seq b < 4 -> bus_eid b <> MCTP_EID_BROADCAST ->
  spec_rx eid max true r (single_packet bd b eid to tag msg ++ more) =
  (r, Some (mk_delivery (bus_eid b) eid to tag (msg ++ more))).
Proof.
  intros Ht Hs Hsrc. unfold single_packet. rewrite <- app_assoc.
  by apply (spec_rx_single eid max r (sender_params bd b eid to tag) (msg ++ more)).
Qed.

Lemma spec_rx_single_packet eid max r bd b to tag msg :
  0 <= tag < 8 -> 0 <= bus_tx_seq b < 4 -> bus_eid b <> MCTP_EID_BROADCAST ->
  spec_rx eid max true r (single_packet bd b eid to tag msg) =
  (r, Some (mk_delivery (bus_eid b) eid to tag msg)).
Proof.
  intros Ht Hs Hb. pose proof (spec_rx_packet eid max r bd b to tag msg [] Ht Hs Hb) as H.
  by rewrite !app_nil_r in H.
Qed.

(** A longer message has at least the bytes of a full packet and of the header
    of another. *)
Lemma long_packet_stream bd b eid to tag msg :
  mmbi_sized bd -> 65536 < zlen msg ->
  65544 <= zlen (packet_stream bd b eid to tag msg).
Proof.
  intros (Hps & _) Hl. set (t := sender_params bd b eid to tag).
  assert (Hm : tp_mtu t = 65536) by (simpl; rewrite Hps; by vm_compute).
  assert (Hn : 1 < frag_count (tp_mtu t) (zlen msg)).
  { pose proof (frag_count_covers t msg ltac:(lia)). nia. }
  unfold packet_stream, fragments. fold t. set (n := frag_count _ _) in *.
  pose proof (zlen_fragment t msg ltac:(lia) 0 ltac:(unfold n in *; lia)) as H0.
  pose proof (zlen_fragment t msg ltac:(lia) 1 ltac:(unfold n in *; lia)) as H1.
  rewrite (seqZ_cons 0), fmap_cons by lia. cbn [concat]. rewrite zlen_app.
  rewrite (seqZ_cons (Z.succ 0)), fmap_cons by lia. cbn [concat]. rewrite zlen_app.
  unfold sizeof_mctp_hdr in *. change (Z.succ 0) with 1.
  match goal with |- context [zlen (concat ?l)] => pose proof (zlen_nonneg (concat l)) end. lia.
Qed.

(** A message to send. *)
Record outgoing := mk_outgoing { og_to : bool; og_tag : Z; og_msg : list Z }.

(** It fits a packet of the binding and is not a control request. *)
Definition one_packet (o : outgoing) : Prop :=
  0 <= og_tag o < 8 /\ zlen (og_msg o) <= 65536 /\ ctrl_request (og_msg o) = false.

Section channel.
Context {E1 E2 : Type} `{!WinOps E1, !WinOps E2}.
Context (h1 dev1 : Z) (shared1 : E1 -> MMBI_SHARED_CONTEXT) `{!DriverDevice E1 h1 dev1 shared1}.
Context (h2 dev2 : Z) (shared2 : E2 -> MMBI_SHARED_CONTEXT) `{!DriverDevice E2 h2 dev2 shared2}.
Context `{!UserOps (mmbi_env E1), !ExtAlloc (mmbi_env E1), !ClockOps (mmbi_env E1)}.
Context `{!ExtAlloc (mmbi_env E2), !BindingOps (mmbi_env E2), !RxOps (mmbi_env E2),
  !RxReady (mmbi_env E2), !QuietCapture (mmbi_env E2), !QuietRx (mmbi_env E2), !ApiReady E2,
  !KeepOps (mmbi_env E2) (keeps_driver shared2)}.

(** The driver is one: what one side does to it the other side sees. *)
Context (put1 : MMBI_SHARED_CONTEXT -> E1 -> E1) (put2 : MMBI_SHARED_CONTEXT -> E2 -> E2).
Hypothesis (Hput1 : forall g e, shared1 (put1 g e) = g).
Hypothesis (Hput2 : forall g e, shared2 (put2 g e) = g).
(** The two sides are the two devices. *)
Hypothesis (Hdevs : dev1 = 0 <-> dev2 <> 0).

Local Abbreviation drv1 w := (shared1 (dv_os (w_dev w))).
Local Abbreviation drv2 w := (shared2 (dv_os (w_dev w))).

Definition sees1 (g : MMBI_SHARED_CONTEXT) (w : world (mmbi_env E1)) : world (mmbi_env E1) :=
  set_w_dev (env_os (put1 g (dv_os (w_dev w))) (w_dev w)) w.
Definition sees2 (g : MMBI_SHARED_CONTEXT) (w : world (mmbi_env E2)) : world (mmbi_env E2) :=
  set_w_dev (env_os (put2 g (dv_os (w_dev w))) (w_dev w)) w.

Lemma peer_rx g : rx_ring dev2 g = tx_ring dev1 g.
Proof. unfold rx_ring, tx_ring. repeat case_decide; tauto. Qed.

Lemma peer_tx g : tx_ring dev2 g = rx_ring dev1 g.
Proof. unfold rx_ring, tx_ring. repeat case_decide; tauto. Qed.

Lemma driver_sender_sees mctp mmbi bd b g w :
  shared_wf g -> driver_sender h1 shared1 mctp mmbi bd b w ->
  driver_sender h1 shared1 mctp mmbi bd b (sees1 g w).
Proof.
  intros Hg [[] (m & Hm & Hh) Hs _].
  split; [split; try done|by exists m|done|simpl; by rewrite Hput1].
  destruct se_env as [T1 T2 T3 T4 T5]. split; try done.
Qed.

Lemma driver_receiver_sees mctp b bus eid g w :
  shared_wf g -> driver_receiver h2 shared2 mctp b bus eid w ->
  driver_receiver h2 shared2 mctp b bus eid (sees2 g w).
Proof.
  intros Hg [(F & r & []) Hep Hmem (m & bd & [] & Hh) _].
  split; [exists F, r; by split|by apply (endpoint_api _ _ _ _ w)|done| |simpl; by rewrite Hput2].
  exists m, bd. by split; [split|].
Qed.

(** The channel is empty, the sender has the EID [src], and the receiver's
    application gets its messages through [f]. *)
Record channel_ready (mctp1 mmbi1 src mctp2 mmbi2 : Z) (bus2 : nat) (eid : Z) (f : string) (data : Z)
    (wA : world (mmbi_env E1)) (wB : world (mmbi_env E2)) : Prop := {
  cr_sender : exists bd b, driver_sender h1 shared1 mctp1 mmbi1 bd b wA /\ bus_eid b = src;
  cr_mallocs : w_mallocs wA = [];
  cr_empty : ring_contents (tx_ring dev1 (drv1 wA)) = [];
  cr_receiver : driver_receiver h2 shared2 mctp2 mmbi2 bus2 eid wB;
  cr_capture : m_capture (w_mctp wB) = None;
  cr_rx : m_message_rx (w_mctp wB) = Some f;
  cr_data : m_message_rx_data (w_mctp wB) = data;
  cr_src : src <> MCTP_EID_BROADCAST;
}.

(** One message is sent, and the other side polls. *)
Definition exchange_one (mctp1 mmbi2 eid : Z) (o : outgoing)
    (ws : world (mmbi_env E1) * world (mmbi_env E2)) :
    option (world (mmbi_env E1) * world (mmbi_env E2)) :=
  match mctp_message_tx mctp1 eid (og_to o) (og_tag o) (og_msg o) (zlen (og_msg o)) ws.1 with
  | Ok 0 wA =>
      match mctp_mmbi_poll mmbi2 (sees2 (drv1 wA) ws.2) with
      | Ok 0 wB => Some (sees1 (drv2 wB) wA, wB)
      | _ => None
      end
  | _ => None
  end.

Fixpoint exchange (mctp1 mmbi2 eid : Z) (os : list outgoing)
    (ws : world (mmbi_env E1) * world (mmbi_env E2)) :
    option (world (mmbi_env E1) * world (mmbi_env E2)) :=
  match os with
  | [] => Some ws
  | o :: os => ws ← exchange_one mctp1 mmbi2 eid o ws; exchange mctp1 mmbi2 eid os ws
  end.

Lemma exchange_one_inv mctp1 mmbi2 eid o wA wB wA' wB' :
  exchange_one mctp1 mmbi2 eid o (wA, wB) = Some (wA', wB') ->
  exists wA1, mctp_message_tx mctp1 eid (og_to o) (og_tag o) (og_msg o) (zlen (og_msg o)) wA = Ok 0 wA1 /\
    mctp_mmbi_poll mmbi2 (sees2 (drv1 wA1) wB) = Ok 0 wB' /\ wA' = sees1 (drv2 wB') wA1.
Proof.
  unfold exchange_one. cbn [fst snd]. destruct (mctp_message_tx _ _ _ _ _ _ wA) as [[] wA1|]; try done.
  destruct (mctp_mmbi_poll _ _) as [[] wB1|] eqn:Hp; try done. intros [= <- <-]. by exists wA1.
Qed.

(** The receiver polls when the ring holds the bytes [bs] that mean the message
    [dl]. *)
Lemma peer_polls mctp2 mmbi2 bus2 eid f data g bs dl wB :
  driver_receiver h2 shared2 mctp2 mmbi2 bus2 eid wB -> m_capture (w_mctp wB) = None ->
  m_message_rx (w_mctp wB) = Some f -> m_message_rx_data (w_mctp wB) = data ->
  shared_wf g -> ring_contents (tx_ring dev1 g) = bs -> 0 < zlen bs <= 65540 ->
  (forall max r, spec_rx eid max true r bs = (r, Some dl)) -> ctrl_request (dl_msg dl) = false ->
  exists wB', mctp_mmbi_poll mmbi2 (sees2 g wB) = Ok 0 wB' /\
    driver_receiver h2 shared2 mctp2 mmbi2 bus2 eid wB' /\
    ring_contents (tx_ring dev1 (drv2 wB')) = [] /\
    w_trace wB' = w_trace wB ++ [EvRx f data (dl_src dl) (dl_to dl) (dl_tag dl) (dl_msg dl)] /\
    exists ctxs, w_mctp wB' = set_m_req_tags (delivery_tags dl (m_req_tags (w_mctp wB)))
      (set_m_msg_ctxs ctxs (w_mctp wB)).
Proof.
  intros Hr Hcap Hf Hdata Hg Hc Hl Hspec Hctl.
  pose proof (driver_receiver_sees _ _ _ _ g wB Hg Hr) as Hr0.
  destruct (dr_ctxs _ _ _ _ _ _ _ Hr0) as (F & r & HI).
  assert (Hnext : next_read dev2 (drv2 (sees2 g wB)) = bs).
  { unfold next_read. simpl. rewrite Hput2, peer_rx, Hc, slice_all by lia. done. }
  pose proof (driver_polls h2 dev2 shared2 mctp2 mmbi2 bus2 eid F r _ Hr0 HI) as Hp.
  cbv zeta in Hp. rewrite Hnext in Hp. change (w_mctp (sees2 _ wB)) with (w_mctp wB) in Hp.
  rewrite Hspec in Hp.
  destruct (wp_inv _ _ _ (Hp Hl ltac:(by intros dl' [= <-])))
    as (rc & wB' & -> & -> & Hr' & (Hg2 & Ht2 & Hc2) & Htr & Hm).
  simpl in Hc2, Ht2. rewrite Hput2 in Hc2, Ht2. rewrite !peer_rx, Hc in Hc2.
  exists wB'. split; [done|]. split; [done|]. split; [|split; [|done]].
  - apply (app_inv_head bs). by rewrite app_nil_r.
  - rewrite Htr. simpl. unfold capture_events, capture_of, delivery_events.
    rewrite Hcap, Hf, Hdata. by case_decide.
Qed.

Lemma exchange_one_delivers mctp1 mmbi1 src mctp2 mmbi2 bus2 eid f data o wA wB :
  channel_ready mctp1 mmbi1 src mctp2 mmbi2 bus2 eid f data wA wB -> one_packet o ->
  exists wA' wB', exchange_one mctp1 mmbi2 eid o (wA, wB) = Some (wA', wB') /\
    channel_ready mctp1 mmbi1 src mctp2 mmbi2 bus2 eid f data wA' wB' /\
    w_trace wB' = w_trace wB ++ [EvRx f data src (og_to o) (og_tag o) (og_msg o)].
Proof.
  intros [(bd & b & Hs & Hsrc) Hmem Hempty Hr Hcap Hf Hdata Hbc] (Ht & Hl & Hctl).
  pose proof Hs as [Hse _ Hsz Hg]. pose proof (se_seq _ _ _ _ _ _ Hse) as Hseq.
  pose proof (empty_ring_free dev1 _ Hg Hempty) as Hfree. unfold RING_BUFFER_SIZE in Hfree.
  pose proof (zlen_nonneg (og_msg o)) as Hn. unfold exchange_one. cbn [fst snd].
  destruct (wp_inv _ _ _ (wp_driver_sends_packet h1 dev1 shared1 mctp1 mmbi1 bd b eid (og_to o)
    (og_tag o) (og_msg o) wA Hs Ht Hl Hmem ltac:(lia)))
    as (rc & wA' & -> & -> & (Hg' & _ & Hc) & Hmem' & b' & Hs' & Hb').
  rewrite Hempty, app_nil_l in Hc.
  destruct (peer_polls mctp2 mmbi2 bus2 eid f data (drv1 wA') _
    (mk_delivery src eid (og_to o) (og_tag o) (og_msg o)) wB Hr Hcap Hf Hdata Hg' Hc)
    as (wB' & -> & Hr' & Hempty' & Htr & ctxs & Em); [..|done|].
  { rewrite zlen_single_packet. lia. }
  { intros max r. rewrite <- Hsrc. by apply spec_rx_single_packet; [..|congruence]. }
  exists (sees1 (drv2 wB') wA'), wB'. split; [done|]. split; [|done].
  split; try (by rewrite Em); [|done| |done..].
  - exists bd, b'. split; [apply driver_sender_sees; [apply Hr'|done]|congruence].
  - simpl. by rewrite Hput1.
Qed.

(** Across the driver.  Any sequence of messages of one packet each, sent
    with [mctp_message_tx] at one end and polled for at the other after each,
    is delivered to the other end's application: every message once, in order
    and unchanged, with the sender's EID, tag and tag-owner bit; and both ends
    and the driver are ready for more. *)
Theorem messages_cross_driver mctp1 mmbi1 src mctp2 mmbi2 bus2 eid f data os wA wB :
  channel_ready mctp1 mmbi1 src mctp2 mmbi2 bus2 eid f data wA wB -> Forall one_packet os ->
  exists wA' wB', exchange mctp1 mmbi2 eid os (wA, wB) = Some (wA', wB') /\
    channel_ready mctp1 mmbi1 src mctp2 mmbi2 bus2 eid f data wA' wB' /\
    w_trace wB' = w_trace wB ++
      ((fun o => EvRx f data src (og_to o) (og_tag o) (og_msg o)) <$> os).
Proof.
  intros Hr Hos. revert wA wB Hr. induction Hos as [|o os Ho _ IH]; intros wA wB Hr.
  { exists wA, wB. simpl. by rewrite app_nil_r. }
  destruct (exchange_one_delivers _ _ _ _ _ _ _ _ _ o wA wB Hr Ho) as (wA1 & wB1 & H1 & Hr1 & Ht1).
  destruct (IH wA1 wB1 Hr1) as (wA2 & wB2 & H2 & Hr2 & Ht2). exists wA2, wB2.
  cbn [exchange]. rewrite H1. split; [exact H2|]. split; [done|].
  by rewrite Ht2, Ht1, <- app_assoc.
Qed.

(** Two messages sent before the other side polls. *)
Definition send_two (mctp1 eid : Z) (o1 o2 : outgoing) : M (world (mmbi_env E1)) Z :=
  mctp_message_tx mctp1 eid (og_to o1) (og_tag o1) (og_msg o1) (zlen (og_msg o1));;
  mctp_message_tx mctp1 eid (og_to o2) (og_tag o2) (og_msg o2) (zlen (og_msg o2)).

Lemma ctrl_request_type ty body :
  ty <> MCTP_CTRL_HDR_MSG_TYPE -> ctrl_request (ty :: body) = false.
Proof.
  intros H. destruct body as [|? []]; [done..|]. unfold ctrl_request. by rewrite bool_decide_false.
Qed.


Lemma next_read_full g stream wB :
  ring_contents (tx_ring dev1 g) = slice 0 RING_BUFFER_SIZE stream -> 65544 <= zlen stream ->
  zlen (next_read dev2 (drv2 (sees2 g wB))) = 65544.
Proof.
  intros Hc Hz. change (drv2 (sees2 g wB)) with (shared2 (put2 g (dv_os (w_dev wB)))).
  rewrite Hput2. unfold next_read. rewrite peer_rx, Hc.
  rewrite slice_slice by (unfold RING_BUFFER_SIZE; lia). apply zlen_slice; lia.
Qed.

(** C29: Long messages are lost.  [mctp_mmbi_poll] asks for up to 65544 bytes, more
    than a packet buffer of the binding holds: when a message of more than one
    packet is sent, the first poll takes its first packet and the header of the
    second from the driver and drops them with [-ENOMEM]; nothing is delivered,
    although the sender was told that the message was sent. *)
Theorem long_message_lost mctp1 mmbi1 src mctp2 mmbi2 bus2 eid f data to tag msg wA wB :
  channel_ready mctp1 mmbi1 src mctp2 mmbi2 bus2 eid f data wA wB ->
  0 <= tag < 8 -> 65536 < zlen msg < SIZE_MOD ->
  exists wA' wB' lost, mctp_message_tx mctp1 eid to tag msg (zlen msg) wA = Ok 0 wA' /\
    mctp_mmbi_poll mmbi2 (sees2 (drv1 wA') wB) = Ok (- ENOMEM) wB' /\
    w_trace wB' = w_trace wB /\ zlen lost = 65544 /\
    ring_contents (tx_ring dev1 (drv1 wA')) = lost ++ ring_contents (rx_ring dev2 (drv2 wB')).
Proof.
  intros [(bd & b & Hs & Hsrc) Hmem Hempty Hr Hcap Hf Hdata Hbc] Ht Hl.
  pose proof Hs as [_ _ Hsz Hg]. pose proof (empty_ring_free dev1 _ Hg Hempty) as Hfree.
  destruct (wp_inv _ _ _ (wp_driver_message_tx h1 dev1 shared1 mctp1 mmbi1 bd b eid to tag msg wA
    Hs Ht ltac:(lia) ltac:(unfold malloc_ok; by rewrite Hmem)))
    as (rc & wA' & Hrun & -> & (Hg' & _ & Hc) & _ & _).
  rewrite Hempty, Hfree, app_nil_l in Hc.
  pose proof (long_packet_stream bd b eid to tag msg Hsz ltac:(lia)) as Hz.
  pose proof (driver_receiver_sees _ _ _ _ (drv1 wA') wB Hg' Hr) as Hr0.
  pose proof (next_read_full (drv1 wA') _ wB Hc Hz) as Hlen.
  destruct (driver_polls_nothing h2 dev2 shared2 mctp2 mmbi2 bus2 eid _ Hr0)
    as (e & (_ & _ & Hd) & Hpoll); [right; lia|].
  rewrite decide_False in Hpoll by (intros En; by rewrite En in Hlen).
  set (lost := next_read _ _) in *. clearbody lost.
  eexists wA', _, lost. do 3 (split; [done|]). split; [done|].
  rewrite <- (peer_rx (drv1 wA')). simpl in Hd. by rewrite Hput2 in Hd.
Qed.
End channel.

(** ** Opening both ends *)

(** An endpoint just opened on the device of the driver. *)
Lemma opened_driver {E : Type} `{!WinOps E, !UserOps (mmbi_env E), !ExtAlloc (mmbi_env E),
    !ClockOps (mmbi_env E)} h shared cb c eid e bd b m (w : world (mmbi_env E)) :
  opened cb c eid h e bd b m w -> w_mallocs w = [] ->
  GetFileType_is_pipe h e = false -> shared_wf (shared e) ->
  dv_os (w_dev w) = e /\ driver_sender h shared (c + 16) (c + 16 + 16) bd b w /\
  driver_receiver h shared (c + 16) (c + 16 + 16) 0 eid w.
Proof.
  intros [HI Hep Ho Hm Hs Hb Hos _] Hmem Hpipe Hg. unfold pipe_state in Hos. rewrite Hpipe in Hos.
  split; [done|]. split.
  - split; [done| |apply Ho|by rewrite Hos]. exists m. split; [apply Ho|done].
  - split; [by eexists _, _|done|done| |by rewrite Hos]. by exists m, bd.
Qed.

(** Two endpoints opened on the two devices of a driver whose ring is empty are
    the two ends of a channel. *)
Lemma opened_channel {E1 E2 : Type} `{!WinOps E1, !WinOps E2,
    !UserOps (mmbi_env E1), !ExtAlloc (mmbi_env E1), !ClockOps (mmbi_env E1),
    !UserOps (mmbi_env E2), !ExtAlloc (mmbi_env E2), !ClockOps (mmbi_env E2)}
    h1 dev1 (shared1 : E1 -> MMBI_SHARED_CONTEXT) h2 (shared2 : E2 -> MMBI_SHARED_CONTEXT)
    cb1 cb2 c1 c2 eid1 eid2 e1 e2 bd1 bd2 b1 b2 m1 m2
    (wA : world (mmbi_env E1)) (wB : world (mmbi_env E2)) :
  opened cb1 c1 eid1 h1 e1 bd1 b1 m1 wA -> w_mallocs wA = [] ->
  GetFileType_is_pipe h1 e1 = false -> shared_wf (shared1 e1) ->
  opened cb2 c2 eid2 h2 e2 bd2 b2 m2 wB -> w_mallocs wB = [] ->
  GetFileType_is_pipe h2 e2 = false -> shared_wf (shared2 e2) ->
  ring_contents (tx_ring dev1 (shared1 e1)) = [] -> eid1 <> MCTP_EID_BROADCAST ->
  channel_ready h1 dev1 shared1 h2 shared2 (c1 + 16) (c1 + 16 + 16) eid1
    (c2 + 16) (c2 + 16 + 16) 0 eid2 cb2 c2 wA wB.
Proof.
  intros OA MA PA GA OB MB PB GB Hempty Hbc.
  destruct (opened_driver h1 shared1 _ _ _ _ _ _ _ wA OA MA PA GA) as (Hos & Hs & _).
  destruct (opened_driver h2 shared2 _ _ _ _ _ _ _ wB OB MB PB GB) as (_ & _ & Hr).
  destruct (op_stack _ _ _ _ _ _ _ _ _ OB) as (bs & Em).
  split; try done; try by rewrite Em.
  - exists bd1, b1. split; [done|apply OA].
  - by rewrite Hos.
Qed.
