(* ===== verification/Link.v ===== *)
(** * Two systems on the driver, in any order

    An abstract link: two channels that carry bytes, what a send puts into one
    and what a poll takes out of it.  Whatever the two systems do, in whatever
    order they do it, is what the link does. *)

From S2P Require Import Prelude State Alloc Pktbuf Reasm Tags Tx Control Rx RxSpec RxRefine.
From S2P Require Import Frag TxRefine TxApi TxRequest Bus Mmbi MmbiFacts MmbiRx MmbiInit Ring Channel.

(** ** The link *)

(** One direction.  What is on its way; the sender's sequence number and whether
    it is stuck in the middle of a message; the receiver's partial messages and
    what has been delivered. *)
Record channel := mk_channel {
  ch_bytes : list Z;
  ch_seq : Z;
  ch_stuck : bool;
  ch_partial : rmap;
  ch_got : list delivery;
}.

Definition idle_channel (seq : Z) : channel := mk_channel [] seq false ∅ [].

(** What does not change: the header version and the EID of the sender, the EID
    and the size limit of the receiver. *)
Record direction := mk_direction { dn_ver : Z; dn_src : Z; dn_dst : Z; dn_max : Z }.

(** The headers of a message. *)
Definition channel_params (k : direction) (c : channel) (eid : Z) (o : outgoing) : tx_params :=
  mk_tx_params (Z.land (dn_ver k) 15) eid (dn_src k) (og_to o) (og_tag o) (ch_seq c) 65536.

(** Sending a message to [eid]. *)
Definition channel_send (k : direction) (eid : Z) (o : outgoing) (c : channel) : Z * channel :=
  if ch_stuck c then (- EBUSY, c) else
  let pkts := fragments (channel_params k c eid o) (og_msg o) in
  let free := RING_BUFFER_SIZE - zlen (ch_bytes c) in
  (0, mk_channel (ch_bytes c ++ slice 0 free (concat pkts)) ((ch_seq c + zlen pkts) mod 4)
        (bool_decide (handed free pkts <> zlen pkts)) (ch_partial c) (ch_got c)).

(** Polling; [None] when there is a control request to answer. *)
Definition channel_poll (k : direction) (c : channel) : option (Z * channel) :=
  let bs := slice 0 65544 (ch_bytes c) in
  let rest := drop (Z.to_nat 65544) (ch_bytes c) in
  let left r got := mk_channel rest (ch_seq c) (ch_stuck c) r got in
  if decide (65540 < zlen bs) then Some (- ENOMEM, left (ch_partial c) (ch_got c)) else
  let '(r, out) := spec_rx (dn_dst k) (dn_max k) true (ch_partial c) bs in
  match out with
  | None => Some (0, left r (ch_got c))
  | Some dl => if ctrl_request (dl_msg dl) then None else Some (0, left r (ch_got c ++ [dl]))
  end.

(** What the two systems do: [true] is the first.  A message is sent to an EID,
    not necessarily the other's. *)
Inductive link_op :=
  | Send (first : bool) (eid : Z) (o : outgoing)
  | Poll (first : bool).

(** The two channels, from the first system and to it. *)
Definition link : Type := channel * channel.

Definition link_spec (k1 k2 : direction) (op : link_op) (l : link) : option (Z * link) :=
  match op with
  | Send true eid o => let '(rc, c) := channel_send k1 eid o l.1 in Some (rc, (c, l.2))
  | Send false eid o => let '(rc, c) := channel_send k2 eid o l.2 in Some (rc, (l.1, c))
  | Poll true => '(rc, c) ← channel_poll k2 l.2; Some (rc, (l.1, c))
  | Poll false => '(rc, c) ← channel_poll k1 l.1; Some (rc, (c, l.2))
  end.

(** A run and its return codes. *)
Section run.
Context {S : Type} (step : link_op -> S -> option (Z * S)).

Fixpoint link_run (ops : list link_op) (s : S) : option (list Z * S) :=
  match ops with
  | [] => Some ([], s)
  | op :: ops => '(rc, s) ← step op s; '(rcs, s) ← link_run ops s; Some (rc :: rcs, s)
  end.
End run.

(** Step-by-step agreement is agreement of runs. *)
Lemma link_run_simulates {S T} (R : S -> T -> Prop) (P : link_op -> Prop)
    (spec : link_op -> S -> option (Z * S)) (step : link_op -> T -> option (Z * T)) :
  (forall op s t rc s', P op -> R s t -> spec op s = Some (rc, s') ->
    exists t', step op t = Some (rc, t') /\ R s' t') ->
  forall ops s t rcs s', Forall P ops -> R s t -> link_run spec ops s = Some (rcs, s') ->
    exists t', link_run step ops t = Some (rcs, t') /\ R s' t'.
Proof.
  intros Hstep ops s t rcs s' HP. revert s t rcs s'.
  induction HP as [|op ops Hop _ IH]; intros s t rcs s' HR Hrun; simpl in *.
  - injection Hrun as <- <-. by exists t.
  - destruct (spec op s) as [[rc s1]|] eqn:E1; [|done]. simpl in Hrun.
    destruct (link_run spec ops s1) as [[rcs1 s2]|] eqn:E2; [|done]. injection Hrun as <- <-.
    destruct (Hstep op s t rc s1 Hop HR E1) as (t1 & -> & HR1).
    destruct (IH s1 t1 rcs1 s2 HR1 E2) as (t2 & Hrun & HR2). exists t2. simpl. by rewrite Hrun.
Qed.

(** A message that can be sent: a tag of three bits, a length that is a [size_t]. *)
Definition op_ok (op : link_op) : Prop :=
  match op with
  | Send _ _ o => 0 <= og_tag o < 8 /\ zlen (og_msg o) < SIZE_MOD
  | Poll _ => True
  end.

(** ** Messages in turn *)

(** The message [o] of one packet is on its way in the channel, or none is. *)
Definition carries (k : direction) (p : option outgoing) (c : channel) : Prop :=
  ch_stuck c = false /\ 0 <= ch_seq c < 4 /\
  match p with
  | None => ch_bytes c = []
  | Some o => one_packet o /\ exists seq, 0 <= seq < 4 /\
      ch_bytes c = bytes_of_hdr (mk_hdr (Z.land (dn_ver k) 15) (dn_dst k) (dn_src k)
        (tx_flags_seq_tag (og_to o) (og_tag o) seq true true)) ++ og_msg o
  end.

Definition as_delivery (k : direction) (o : outgoing) : delivery :=
  mk_delivery (dn_src k) (dn_dst k) (og_to o) (og_tag o) (og_msg o).

Lemma channel_sends_one k o c :
  carries k None c -> one_packet o ->
  exists c', channel_send k (dn_dst k) o c = (0, c') /\ carries k (Some o) c' /\ ch_got c' = ch_got c.
Proof.
  intros (Hst & Hseq & Hb) Ho. pose proof Ho as (Ht & Hl & _). pose proof (zlen_nonneg (og_msg o)).
  unfold channel_send. rewrite Hst, Hb. set (t := channel_params k c (dn_dst k) o).
  assert (Hf : fragments t (og_msg o) = [bytes_of_hdr (mk_hdr (tp_ver t) (tp_dest t) (tp_src t)
    (tx_flags_seq_tag (tp_to t) (tp_tag t) (tp_seq t) true true)) ++ og_msg o]).
  { assert (Hm : tp_mtu t = 65536) by done. unfold fragments. rewrite frag_count_one by (rewrite ?Hm; lia).
    change (seqZ 0 1) with [0]. cbn [fmap list_fmap]. by rewrite one_fragment by (rewrite ?Hm; done || lia). }
  rewrite Hf. set (pkt := bytes_of_hdr _ ++ og_msg o).
  assert (Hz : zlen pkt = 4 + zlen (og_msg o)) by (unfold pkt; by rewrite zlen_app).
  change (zlen (@nil Z)) with 0. cbn [handed concat]. rewrite app_nil_r.
  change (zlen [pkt]) with 1. rewrite decide_True by (unfold RING_BUFFER_SIZE; lia).
  eexists. split; [done|]. split; [|done]. split; cbn; [done|]. split; [by apply Z.mod_pos_bound|].
  split; [done|]. exists (ch_seq c). split; [done|].
  apply (slice_all pkt). unfold RING_BUFFER_SIZE. lia.
Qed.

Lemma channel_polls_one k p c :
  carries k p c -> dn_src k <> MCTP_EID_BROADCAST ->
  exists c', channel_poll k c = Some (0, c') /\ carries k None c' /\
    ch_got c' = ch_got c ++ (as_delivery k <$> option_list p).
Proof.
  intros (Hst & Hseq & Hb) Hsrc. unfold channel_poll. destruct p as [o|].
  - destruct Hb as (Ho & seq & Hs & Hb). pose proof Ho as (Ht & Hl & Hctl).
    assert (Hz : zlen (ch_bytes c) = 4 + zlen (og_msg o)) by (rewrite Hb; by rewrite zlen_app).
    assert (Hd : drop (Z.to_nat 65544) (ch_bytes c) = []) by (apply drop_ge; unfold zlen in *; lia).
    rewrite slice_all, Hd by lia. rewrite decide_False by lia. rewrite Hb.
    pose proof (spec_rx_single (dn_dst k) (dn_max k) (ch_partial c) (mk_tx_params (Z.land (dn_ver k) 15)
      (dn_dst k) (dn_src k) (og_to o) (og_tag o) seq 65536) (og_msg o) Ht Hs Hsrc eq_refl) as Hrx.
    cbn [tp_ver tp_dest tp_src tp_to tp_tag tp_seq] in Hrx. rewrite Hrx. cbn. rewrite Hctl. by eexists.
  - rewrite Hb. cbn. eexists. split; [done|]. split; [|by rewrite app_nil_r].
    split; [done|]. split; [done|]. cbn. unfold carries in *. by rewrite drop_nil.
Qed.

(** Each message is of one packet, to the other system, and sent when what was
    sent before in its direction has been polled for; in the end all has.  [p1]
    and [p2]: something is on its way from the first and from the second. *)
Fixpoint in_turn (eid1 eid2 : Z) (ops : list link_op) (p1 p2 : bool) : Prop :=
  match ops with
  | [] => p1 = false /\ p2 = false
  | Send true eid o :: ops => p1 = false /\ eid = eid2 /\ one_packet o /\ in_turn eid1 eid2 ops true p2
  | Send false eid o :: ops => p2 = false /\ eid = eid1 /\ one_packet o /\ in_turn eid1 eid2 ops p1 true
  | Poll true :: ops => in_turn eid1 eid2 ops p1 false
  | Poll false :: ops => in_turn eid1 eid2 ops false p2
  end.

(** The messages one of the systems sends. *)
Definition sent (first : bool) (ops : list link_op) : list outgoing :=
  omap (fun op => match op with
    | Send f _ o => if bool_decide (f = first) then Some o else None | Poll _ => None end) ops.

Lemma in_turn_delivers k1 k2 ops p1 p2 l :
  in_turn (dn_dst k2) (dn_dst k1) ops (bool_decide (is_Some p1)) (bool_decide (is_Some p2)) ->
  carries k1 p1 l.1 -> carries k2 p2 l.2 ->
  dn_src k1 <> MCTP_EID_BROADCAST -> dn_src k2 <> MCTP_EID_BROADCAST ->
  exists l', link_run (link_spec k1 k2) ops l = Some (replicate (length ops) 0, l') /\
    carries k1 None l'.1 /\ carries k2 None l'.2 /\
    ch_got l'.1 = ch_got l.1 ++ (as_delivery k1 <$> option_list p1 ++ sent true ops) /\
    ch_got l'.2 = ch_got l.2 ++ (as_delivery k2 <$> option_list p2 ++ sent false ops).
Proof.
  intros Hops Hc1 Hc2 Hs1 Hs2. revert p1 p2 l Hops Hc1 Hc2.
  induction ops as [|op ops IH]; intros p1 p2 [c1 c2] Hops Hc1 Hc2; cbn [fst snd] in *.
  { destruct Hops as [H1%bool_decide_eq_false H2%bool_decide_eq_false].
    apply eq_None_not_Some in H1 as ->, H2 as ->. exists (c1, c2). cbn. by rewrite !app_nil_r. }
  destruct op as [[] eid o|[]]; cbn [in_turn] in Hops.
  - destruct Hops as (H1 & -> & Ho & Hops). apply bool_decide_eq_false, eq_None_not_Some in H1 as ->.
    destruct (channel_sends_one k1 o c1 Hc1 Ho) as (c' & Hrun & Hc' & Hg).
    destruct (IH (Some o) p2 (c', c2) Hops Hc' Hc2) as (l' & Hrun' & R1 & R2 & R3 & R4).
    exists l'. cbn [link_run link_spec fst snd]. rewrite Hrun. cbn. rewrite Hrun'. cbn in *.
    by rewrite <- Hg.
  - destruct Hops as (H2 & -> & Ho & Hops). apply bool_decide_eq_false, eq_None_not_Some in H2 as ->.
    destruct (channel_sends_one k2 o c2 Hc2 Ho) as (c' & Hrun & Hc' & Hg).
    destruct (IH p1 (Some o) (c1, c') Hops Hc1 Hc') as (l' & Hrun' & R1 & R2 & R3 & R4).
    exists l'. cbn [link_run link_spec fst snd]. rewrite Hrun. cbn. rewrite Hrun'. cbn in *.
    by rewrite <- Hg.
  - destruct (channel_polls_one k2 p2 c2 Hc2 Hs2) as (c' & Hrun & Hc' & Hg).
    destruct (IH p1 None (c1, c') Hops Hc1 Hc') as (l' & Hrun' & R1 & R2 & R3 & R4).
    exists l'. cbn [link_run link_spec fst snd]. rewrite Hrun. cbn. rewrite Hrun'. cbn [fst snd] in *.
    rewrite R4, Hg, <- app_assoc, <- fmap_app. done.
  - destruct (channel_polls_one k1 p1 c1 Hc1 Hs1) as (c' & Hrun & Hc' & Hg).
    destruct (IH None p2 (c', c2) Hops Hc' Hc2) as (l' & Hrun' & R1 & R2 & R3 & R4).
    exists l'. cbn [link_run link_spec fst snd]. rewrite Hrun. cbn. rewrite Hrun'. cbn [fst snd] in *.
    rewrite R3, Hg, <- app_assoc, <- fmap_app. done.
Qed.

Lemma in_turn_ok eid1 eid2 ops p1 p2 : in_turn eid1 eid2 ops p1 p2 -> Forall op_ok ops.
Proof.
  assert (Hone : forall o, one_packet o -> 0 <= og_tag o < 8 /\ zlen (og_msg o) < SIZE_MOD).
  { intros o (? & ? & _). split; [done|lia]. }
  revert p1 p2. induction ops as [|[[] eid o|[]] ops IH]; intros p1 p2 H; cbn in H; constructor;
    try done; try (by eapply IH); destruct H as (_ & _ & Ho & H); first [by apply Hone|by eapply IH].
Qed.

(** ** Messages longer than the ring *)

Lemma handed_all pkts p free :
  handed free (pkts ++ [p]) = zlen (pkts ++ [p]) -> zlen (concat pkts) <= free \/ pkts = [].
Proof.
  revert free. induction pkts as [|q pkts IH]; intros free; [by right|]. cbn. intros H. left.
  pose proof (zlen_nonneg (pkts ++ [p])) as H0.
  assert (Hz : zlen (q :: pkts ++ [p]) = 1 + zlen (pkts ++ [p])) by (unfold zlen; simpl; lia).
  assert (Hone : 1 <= zlen (pkts ++ [p]))
    by (rewrite zlen_app; pose proof (zlen_nonneg pkts); unfold zlen; simpl; lia).
  rewrite Hz in H. case_decide as Hfit; [|lia]. rewrite zlen_app.
  destruct (IH (free - zlen q) ltac:(lia)) as [Hc|Hc]; [lia|]. rewrite Hc.
  change (zlen (concat [])) with 0. lia.
Qed.

Lemma zlen_full_fragments t msg (k : nat) :
  0 < tp_mtu t -> Z.of_nat k <= frag_count (tp_mtu t) (zlen msg) - 1 ->
  zlen (concat (fragment t msg <$> seqZ 0 (Z.of_nat k))) = Z.of_nat k * (4 + tp_mtu t).
Proof.
  intros Hm. induction k as [|k IH]; intros Hk; [done|].
  rewrite seqZ_S, fmap_app, concat_app, zlen_app, IH by lia.
  pose proof (frag_full t msg Hm (Z.of_nat k) ltac:(lia)) as Hf.
  cbn [fmap list_fmap concat]. rewrite app_nil_r, Z.add_0_l, zlen_fragment by lia.
  unfold sizeof_mctp_hdr. lia.
Qed.

Lemma fragments_split t (msg : list Z) :
  1 <= frag_count (tp_mtu t) (zlen msg) ->
  let k := Z.to_nat (frag_count (tp_mtu t) (zlen msg) - 1) in
  fragments t msg = (fragment t msg <$> seqZ 0 (Z.of_nat k)) ++ [fragment t msg (Z.of_nat k)].
Proof.
  intros Hn k. unfold fragments.
  replace (frag_count (tp_mtu t) (zlen msg)) with (Z.of_nat (S k)) by lia.
  by rewrite seqZ_S, fmap_app.
Qed.

Lemma long_packets t (msg : list Z) :
  tp_mtu t = 65536 -> RING_BUFFER_SIZE < zlen msg -> 17 <= frag_count (tp_mtu t) (zlen msg).
Proof.
  unfold RING_BUFFER_SIZE. intros Hm Hl. pose proof (frag_count_covers t msg ltac:(lia)). nia.
Qed.

(** More than the ring holds: the core gives up before the last packet. *)
Lemma long_not_handed t (msg : list Z) free :
  tp_mtu t = 65536 -> RING_BUFFER_SIZE < zlen msg -> free <= RING_BUFFER_SIZE ->
  handed free (fragments t msg) <> zlen (fragments t msg) /\ free <= zlen (concat (fragments t msg)).
Proof.
  intros Hm Hl Hf. pose proof (long_packets t msg Hm Hl) as Hn.
  rewrite (fragments_split t msg) by lia.
  pose proof (zlen_full_fragments t msg (Z.to_nat (frag_count (tp_mtu t) (zlen msg) - 1))
    ltac:(lia) ltac:(lia)) as Hz. unfold RING_BUFFER_SIZE in *. split.
  - intros H. destruct (handed_all _ _ _ H) as [Hc|Hc]; [lia|].
    apply fmap_nil_inv, (f_equal length) in Hc. rewrite length_seqZ in Hc. simpl in Hc. lia.
  - rewrite concat_app, zlen_app, Hz.
    match goal with |- context [zlen (concat [?x])] => pose proof (zlen_nonneg (concat [x])) end. lia.
Qed.

(** The packets of such a message fill what is left of the ring. *)
Lemma channel_send_long k eid o c :
  ch_stuck c = false -> RING_BUFFER_SIZE < zlen (og_msg o) -> zlen (ch_bytes c) <= RING_BUFFER_SIZE ->
  exists c', channel_send k eid o c = (0, c') /\ ch_stuck c' = true /\
    zlen (ch_bytes c') = RING_BUFFER_SIZE.
Proof.
  intros Hst Hl Hfit. unfold channel_send. rewrite Hst. eexists. split; [done|]. cbn.
  pose proof (zlen_nonneg (ch_bytes c)).
  destruct (long_not_handed (channel_params k c eid o) (og_msg o)
    (RING_BUFFER_SIZE - zlen (ch_bytes c)) eq_refl Hl ltac:(lia)) as [Hn Hz].
  split; [by apply bool_decide_eq_true|]. rewrite zlen_app, zlen_take_0 by lia. lia.
Qed.

(** More than a packet in the ring is not read as one. *)
Lemma channel_poll_overlong k c :
  65544 <= zlen (ch_bytes c) ->
  exists c', channel_poll k c = Some (- ENOMEM, c') /\ ch_stuck c' = ch_stuck c.
Proof.
  intros Hz. unfold channel_poll. rewrite decide_True by (rewrite zlen_take_0; lia). eexists. by split.
Qed.

(** Stuck once, stuck for ever: polling does not help. *)
Lemma stuck_stays k1 k2 ops l rcs l' :
  ch_stuck l.1 = true -> link_run (link_spec k1 k2) ops l = Some (rcs, l') ->
  forall i eid o, ops !! i = Some (Send true eid o) -> rcs !! i = Some (- EBUSY).
Proof.
  revert l rcs l'. induction ops as [|op ops IH]; intros l rcs l' Hst Hrun i eid o Hi; [done|].
  cbn [link_run] in Hrun. destruct (link_spec k1 k2 op l) as [[rc l1]|] eqn:E1; [|done].
  cbn in Hrun. destruct (link_run (link_spec k1 k2) ops l1) as [[rcs1 l2]|] eqn:E2; [|done].
  cbn in Hrun. injection Hrun as <- <-.
  assert (Hnext : ch_stuck l1.1 = true /\ forall e p, op = Send true e p -> rc = - EBUSY).
  { destruct op as [[] e p|[]]; cbn [link_spec] in E1.
    - unfold channel_send in E1. rewrite Hst in E1. injection E1 as <- <-. done.
    - destruct (channel_send k2 e p l.2). injection E1 as <- <-. by split.
    - destruct (channel_poll k2 l.2) as [[]|]; [|done]. injection E1 as <- <-. by split.
    - unfold channel_poll in E1. destruct (decide _); [by injection E1 as <- <-|].
      destruct (spec_rx _ _ _ _ _) as [? dl]. destruct dl as [dl|]; [|by injection E1 as <- <-].
      destruct (ctrl_request _); [done|]. by injection E1 as <- <-. }
  destruct Hnext as [Hst1 Hrc]. destruct i as [|i]; simpl in *.
  - injection Hi as ->. f_equal. by eapply Hrc.
  - by eapply IH.
Qed.

(** ** A system on the driver *)

(** What the application has been given. *)
Definition is_delivery (e : event) : bool :=
  match e with EvRx _ _ _ _ _ _ => true | _ => false end.
Definition received {D} (w : world D) : list event :=
  List.filter is_delivery (w_trace w).

(** A system: its stack, its binding, its EID, its callbacks, its size limit. *)
Record system := mk_system {
  sy_mctp : Z; sy_mmbi : Z; sy_bd : mctp_binding; sy_eid : Z;
  sy_rx : fnptr; sy_data : Z; sy_capture : fnptr; sy_max : Z;
}.

Definition got_events (s : system) (dl : delivery) : list event :=
  match sy_rx s with
  | None => []
  | Some f => [EvRx f (sy_data s) (dl_src dl) (dl_to dl) (dl_tag dl) (dl_msg dl)]
  end.

Section system.
Context {E : Type} `{!WinOps E, !UserOps (mmbi_env E), !ExtAlloc (mmbi_env E), !ClockOps (mmbi_env E)}.
Context (h dev : Z) (shared : E -> MMBI_SHARED_CONTEXT) `{!DriverDevice E h dev shared}.
Local Abbreviation D := (mmbi_env E).
Local Abbreviation drv d := (shared (dv_os d)).
Context `{!RxOps D, !RxReady D, !QuietRx D, !ApiReady E, !KeepOps D (keeps_driver shared)}.
Implicit Types w : world D.

(** The parts of the stack that stay as they are. *)
Definition same_stack (s : system) (w : world D) : Prop :=
  m_message_rx (w_mctp w) = sy_rx s /\ m_message_rx_data (w_mctp w) = sy_data s /\
  m_capture (w_mctp w) = sy_capture s /\ m_max_message_size (w_mctp w) = sy_max s.

(** Blocks that are not buffers of partial messages. *)
Definition has_blocks (l : list Z) (F : gmap Z hobj) : Prop := Forall (fun a => is_Some (F !! a)) l.

(** A system ready to send and to poll, or stuck in the middle of a message; its
    bus is [b] and it has the partial messages [r].  [own]: blocks in use besides. *)
Record node (s : system) (own : list Z) (b : mctp_bus) (r : rmap) (w : world D) : Prop := {
  nd_registered : registered (sy_mctp s) (sy_bd s) b w;
  nd_env : tx_env mmbi_ready (sy_mmbi s) (sy_bd s) w;
  nd_align : bd_tx_storage (sy_bd s) mod 8 = 0;
  nd_tx : is_Some (bd_tx (sy_bd s));
  nd_sized : mmbi_sized (sy_bd s);
  nd_binding : bus_binding b = sy_mmbi s;
  nd_eid : bus_eid b = sy_eid s;
  nd_enabled : bus_st b = mctp_bus_state_tx_enabled;
  nd_seq : 0 <= bus_tx_seq b < 4;
  nd_receiver : driver_receiver h shared (sy_mctp s) (sy_mmbi s) 0 (sy_eid s) w;
  nd_ctxs : exists F, ctxs_inv w F r /\ has_blocks (bd_tx_storage (sy_bd s) :: own) F;
  nd_stack : same_stack s w;
}.

Lemma node_sender s own b r w :
  node s own b r w -> bus_tx_msg b = NULL ->
  driver_sender h shared (sy_mctp s) (sy_mmbi s) (sy_bd s) b w.
Proof.
  intros [[] He Hal Htx Hsz Hb _ Hen Hseq [_ _ _ (m & bd & Ho & Hh) Hg] _ _] Hidle.
  split; [by split| |done|done]. exists m. split; [apply Ho|done].
Qed.

(** [w'] is [w] but for its objects, which are the same, and what is in its
    environment besides. *)
Lemma node_dev s own b r d w :
  objects d = objects (w_dev w) -> shared_wf (drv d) -> node s own b r w ->
  node s own b r (set_w_dev d w).
Proof.
  intros Ho Hg [[] [T1 T2 T3 T4 T5] ? ? ? ? ? ? ? [R1 R2 R3 (m & bd & [O1 O2 O3 O4 O5] & Hh) R5]
    (F & [I1 I2 I3 I4] & HF) ?].
  pose proof (objects_mmbis _ _ Ho) as Hm. destruct (objects_api _ _ Ho) as [Hc Ht].
  split; try done.
  - split; try done. intros f Hf. destruct (T5 f Hf) as (-> & m' & Hm' & Hv).
    split; [done|]. exists m'. simpl. by rewrite Hm.
  - split; [exists F, r; by split| |done| |done].
    + by apply (endpoint_api _ _ _ _ w).
    + exists m, bd. split; [|done]. split; try done. simpl. by rewrite Hm.
  - exists F. by split; [split|].
Qed.

(** ** Sending *)

Lemma received_app w w' l :
  w_trace w' = w_trace w ++ l -> received w' = received w ++ List.filter is_delivery l.
Proof. unfold received. intros ->. apply List.filter_app. Qed.

Lemma tx_log_no_delivery b t msg m i rcs : List.filter is_delivery (tx_log b t msg m i rcs) = [].
Proof.
  revert i. induction rcs as [|rc rcs IH]; intros i; [done|]. simpl.
  rewrite List.filter_app, IH, app_nil_r. unfold tx_events, capture_of. by destruct (m_capture m).
Qed.

Lemma capture_no_delivery m bs : List.filter is_delivery (capture_events m bs) = [].
Proof. unfold capture_events, capture_of. case_decide; [done|]. by destruct (m_capture m). Qed.

(** What the receiving side is after a message, sent from a copy of it. *)
Lemma receiving_after_tx s own b r msg w w' :
  node s own b r w -> tx_env mmbi_ready (sy_mmbi s) (sy_bd s) w' ->
  tx_keep 0 (sy_bd s) (w_brk w) (after_dup msg w) w' ->
  objects (w_dev w') = objects (w_dev w) ->
  (exists F, ctxs_inv w' F r /\ has_blocks (bd_tx_storage (sy_bd s) :: own) F) /\ same_stack s w' /\
  rx_can w' /\ w_mallocs w' = [].
Proof.
  intros [_ _ _ _ _ _ _ _ _ Hrc (F & HI & HF) (S1 & S2 & S3 & S4)] He Hk Ho.
  pose proof (tk_mctp _ _ _ _ _ Hk) as Em. simpl in Em. pose proof HI as [I1 I2 I3 I4].
  destruct (rep_change_two _ _ _ _ (w_heap w') (bd_tx_storage (sy_bd s)) (w_brk w) I3)
    as (F' & Hrep & HF' & _ & Hrest); [right; by apply Forall_cons_1 in HF as []|left; by apply heap_wf_fresh| |].
  { intros a H1 H2. rewrite (tk_heap _ _ _ _ _ Hk) by done. simpl. by rewrite lookup_insert_ne. }
  pose proof He as [_ T2 _ (o & data & T4 & _) _]. split; [|split; [|split]].
  - exists F'. split.
    { split; [by rewrite (tk_ops _ _ _ _ _ Hk)|done|by rewrite Em|by rewrite Em]. }
    eapply Forall_impl; [exact HF|]. intros a [x Ha].
    destruct (decide (a = bd_tx_storage (sy_bd s))) as [->|Hne]; [by rewrite HF', T4|].
    rewrite Hrest; [by exists x|done|]. intros ->. pose proof (frame_lookup _ _ _ _ _ HI Ha) as Hx.
    by rewrite heap_wf_fresh in Hx.
  - unfold same_stack. rewrite Em. done.
  - destruct (objects_api _ _ Ho). apply (rx_can_api w); [by rewrite Em..|done|done|].
    apply (ep_rx _ _ _ _ _ (dr_endpoint _ _ _ _ _ _ _ Hrc)).
  - rewrite (tk_mallocs _ _ _ _ _ Hk). simpl. by rewrite (dr_mallocs _ _ _ _ _ _ _ Hrc).
Qed.

(** The bus of a system may have changed. *)
Lemma node_bus s own b r msg b' w w' :
  node s own b r w -> tx_env mmbi_ready (sy_mmbi s) (sy_bd s) w' ->
  tx_keep 0 (sy_bd s) (w_brk w) (after_dup msg w) w' ->
  objects (w_dev w') = objects (w_dev w) -> shared_wf (drv (w_dev w')) ->
  m_busses (w_mctp w') !! 0%nat = Some b' -> bus_eid b' = bus_eid b -> bus_mctp b' = bus_mctp b ->
  bus_binding b' = sy_mmbi s -> bus_st b' = mctp_bus_state_tx_enabled -> 0 <= bus_tx_seq b' < 4 ->
  node s own b' r w'.
Proof.
  intros Hn He Hk Ho Hg Hb Eid Ebm Ebb Est Hseq.
  destruct (receiving_after_tx s own b r msg w w' Hn He Hk Ho) as ((F & HI & HF) & Hst & Hcan & Hmem).
  pose proof (tk_mctp _ _ _ _ _ Hk) as Em. pose proof (tk_bindings _ _ _ _ _ Hk) as Eb. simpl in Em, Eb.
  destruct Hn as [[] _ ? ? ? Hbb ? ? ? [R1 R2 R3 (m & bd & [O1 O2 O3 O4 O5] & Hh) R5] _ _].
  split; try done.
  - split; try done; [apply He|apply He|by rewrite Em| |by rewrite Est].
    by rewrite Ebb, Eb, <- Hbb.
  - congruence.
  - split; [by exists F, r| |done| |done].
    + destruct R2 as [E1 E2 (b0 & B1 & B2 & B3 & B4) E4 E5]. rewrite rg_bus in B1.
      injection B1 as <-. split; [done|by rewrite Em| |by rewrite Eb|done].
      exists b'. split; [done|]. split; [congruence|]. split; congruence.
    + exists m, bd. split; [|done]. split; try done; [|by rewrite Eb].
      by rewrite (objects_mmbis _ _ Ho).
  - by exists F.
Qed.

Lemma zlen_fragments t msg : 1 <= frag_count (tp_mtu t) (zlen msg) ->
  zlen (fragments t msg) = frag_count (tp_mtu t) (zlen msg).
Proof. intros H. unfold fragments, zlen. rewrite length_fmap, length_seqZ. fold (zlen msg). lia. Qed.

Lemma wp_node_sends s own b r eid o w :
  node s own b r w -> bus_tx_msg b = NULL -> 0 <= og_tag o < 8 -> zlen (og_msg o) < SIZE_MOD ->
  let pkts := fragments (sender_params (sy_bd s) b eid (og_to o) (og_tag o)) (og_msg o) in
  let free := ring_free dev (drv (w_dev w)) in
  wp (mctp_message_tx (sy_mctp s) eid (og_to o) (og_tag o) (og_msg o) (zlen (og_msg o)))
    (fun rc w' => rc = 0 /\
      queued dev (slice 0 free (concat pkts)) (drv (w_dev w)) (drv (w_dev w')) /\
      received w' = received w /\ objects (w_dev w') = objects (w_dev w) /\
      exists b', node s own b' r w' /\
      if decide (handed free pkts = zlen pkts)
      then bus_tx_msg b' = NULL /\ bus_tx_seq b' = (bus_tx_seq b + zlen pkts) mod 4
      else bus_tx_msg b' <> NULL) w.
Proof.
  intros Hn Hidle Ht Hl pkts free. pose proof (node_sender s own b r w Hn Hidle) as Hds.
  pose proof Hds as [Hs (m & Hm & Hh) Hsz Hg]. pose proof (dr_mallocs _ _ _ _ _ _ _ (nd_receiver _ _ _ _ _ Hn)) as Hmem.
  eapply wp_mono; [apply (wp_mctp_message_tx mmbi_ready (fun rc => rc = 0 \/ rc = - EIO) _ _ _ _
    eid (og_to o) (og_tag o) (og_msg o) w Hs Ht Hl ltac:(unfold malloc_ok; by rewrite Hmem))|].
  set (t := sender_params _ _ _ _ _) in *. assert (Hmtu : tp_mtu t = 65536).
  { simpl. rewrite (proj1 Hsz). by vm_compute. }
  pose proof (frag_count_pos t (og_msg o) ltac:(lia)) as Hpos.
  intros rc w' (-> & rcs & j & Hans & Htr & Hdev & (He & Hk & b' & Hat & Eid & Ebm)).
  destruct (driver_tx_stream h dev shared _ _ b eid _ _ (og_msg o) m rcs j _ _ Hsz Hm Hh Hg Hans Hdev)
    as (Ho & Hq & _ & Hj). fold t in Hj. fold pkts free in Hj, Hq.
  split; [done|]. split; [exact Hq|]. split.
  { rewrite (received_app w w' _ Htr), tx_log_no_delivery. apply app_nil_r. }
  split; [exact Ho|]. exists b'. pose proof (zlen_fragments t (og_msg o) Hpos) as Hz. fold pkts in Hz.
  rewrite <- Hj, Hz. pose proof (se_seq _ _ _ _ _ _ Hs) as Hseq.
  pose proof (node_bus s own b r (og_msg o) b' w w' Hn He Hk Ho (proj1 Hq)) as Hnode.
  unfold tx_at in Hat. case_decide as Hjn.
  - destruct Hat as (B1 & B2 & _ & B4 & B5 & B6).
    split; [|done]. apply Hnode; try done. rewrite B4. by apply Z.mod_pos_bound.
  - destruct Hat as [B1 B2 B3 B4 _ _ _ B8 _].
    split; [apply Hnode; try done; rewrite B8; by apply Z.mod_pos_bound|].
    rewrite B4. pose proof (te_heap _ _ _ _ (se_env _ _ _ _ _ _ Hs)) as []. unfold NULL. lia.
Qed.

(** Stuck: the message is refused. *)
Lemma node_send_stuck s own b r eid o w :
  node s own b r w -> bus_tx_msg b <> NULL -> 0 <= og_tag o < 8 ->
  exists w', mctp_message_tx (sy_mctp s) eid (og_to o) (og_tag o) (og_msg o) (zlen (og_msg o)) w
      = Ok (- EBUSY) w' /\ w_dev w' = w_dev w /\ w_trace w' = w_trace w /\ node s own b r w'.
Proof.
  intros Hn Hbusy Ht. pose proof (dr_mallocs _ _ _ _ _ _ _ (nd_receiver _ _ _ _ _ Hn)) as Hmem.
  destruct (message_tx_busy (sy_mctp s) (sy_bd s) b eid (og_to o) (og_tag o) (og_msg o) w
    (nd_registered _ _ _ _ _ Hn) Hbusy ltac:(unfold malloc_ok; by rewrite Hmem) Ht) as [Hrun Hh].
  set (w' := after_free _ _) in *. exists w'. do 3 (split; [done|]).
  assert (Hwf : heap_wf w').
  { apply heap_wf_free, heap_wf_dup. apply (rg_heap _ _ _ _ (nd_registered _ _ _ _ _ Hn)). }
  destruct Hn as [[] [T1 T2 T3 T4 T5] ? ? ? ? ? ? ? [R1 R2 R3 (m & bd & [] & Hm) R5]
    (F & [I1 I2 I3 I4] & HF) ?].
  assert (HI : ctxs_inv w' F r) by (split; [done|done|by rewrite Hh|done]).
  split; try done.
  - split; try done. by rewrite Hh.
  - split; [by exists F, r|by apply (endpoint_api _ _ _ _ w)|simpl; by rewrite Hmem| |done].
    exists m, bd. by split; [split|].
  - by exists F.
Qed.

(** ** Polling *)

(** The node after a packet has been received. *)
Lemma node_polled s own b r bs e F res w w' :
  node s own b r w -> ctxs_inv w F r -> has_blocks (bd_tx_storage (sy_bd s) :: own) F ->
  polled (keeps_driver shared) (sy_mctp s) (sy_mmbi s) 0 (sy_eid s) (sy_bd s) bs e F res w w' ->
  shared_wf (shared e) ->
  drv (w_dev w') = shared e /\ node s own b res.1 w' /\
  received w' = received w ++ concat (got_events s <$> option_list res.2).
Proof.
  intros Hn HI HF [Htr HI' Hep Hmm Hmem Hbi (ctxs & Em) (d1 & d2 & <- & [_ Hd] & Hd')] Hg.
  pose proof Hn as [[] [T1 T2 T3 (o & data & T4 & T5) T6] ? ? ? ? ? ? ?
    [_ _ _ (m & bd & [O1 O2 O3 O4 O5] & Hh) _] _ (S1 & S2 & S3 & S4)].
  assert (Hdrv : drv (w_dev w') = shared (dv_os d1)) by (rewrite Hd'; exact Hd).
  assert (HF' : has_blocks (bd_tx_storage (sy_bd s) :: own) (<[w_brk w := HPkt (mmbi_pkt (sy_bd s) bs)]> F)).
  { eapply Forall_impl; [exact HF|]. intros a Ha. apply lookup_insert_is_Some'. by right. }
  assert (Hne : w_brk w <> bd_tx_storage (sy_bd s)).
  { intros E0. pose proof (heap_wf_fresh _ T2). congruence. }
  pose proof (Forall_cons_1 _ _ _ HF) as [[o' HF0] _]. pose proof (frame_lookup _ _ _ _ _ HI HF0) as Ho'.
  assert (Hst : w_heap w' !! bd_tx_storage (sy_bd s) = Some o).
  { rewrite (frame_lookup _ _ _ _ o' HI'); [congruence|]. by rewrite lookup_insert_ne. }
  split; [done|]. split.
  - split; try done.
    + split; try done; try (by rewrite Em); [apply HI'|apply HI'|by rewrite Hbi].
    + split; [apply HI'|apply HI'|by rewrite Hbi|by exists o, data|].
      intros f Hf. destruct (T6 f Hf) as (-> & m' & Hm' & Hv). split; [done|]. exists m'. by rewrite Hmm.
    + split; [by eexists _, _|done|done| |by rewrite Hdrv].
      exists m, bd. split; [|done]. split; [by rewrite Hmm|done|done|by rewrite Hbi|done].
    + by eexists.
    + unfold same_stack. by rewrite Em.
  - rewrite (received_app w w' _ Htr), List.filter_app, capture_no_delivery. f_equal. simpl.
    destruct res.2 as [dl|]; [|done]. simpl. rewrite app_nil_r.
    unfold delivery_events, got_events. rewrite S1, S2. by destruct (sy_rx s).
Qed.

(** A poll of the system takes what is in the channel [c] and leaves [c']. *)
Definition polls_channel (s : system) (own : list Z) (b : mctp_bus) (c : channel) (rc : Z) (c' : channel)
    w : Prop :=
  exists w' l, mctp_mmbi_poll (sy_mmbi s) w = Ok rc w' /\ node s own b (ch_partial c') w' /\
    tx_ring dev (drv (w_dev w')) = tx_ring dev (drv (w_dev w)) /\
    ring_contents (rx_ring dev (drv (w_dev w'))) = ch_bytes c' /\
    ch_got c' = ch_got c ++ l /\ received w' = received w ++ concat (got_events s <$> l).

Lemma drained_rest g g' : drained dev (next_read dev g) g g' ->
  ring_contents (rx_ring dev g') = drop (Z.to_nat 65544) (ring_contents (rx_ring dev g)).
Proof.
  intros (_ & _ & Hd). apply (app_inv_head (next_read dev g)).
  rewrite <- Hd. unfold next_read, slice. by rewrite drop_0, take_drop.
Qed.

Lemma node_polls_nothing s own b k c w rc c' :
  let bs := next_read dev (drv (w_dev w)) in
  node s own b (ch_partial c) w -> ch_bytes c = ring_contents (rx_ring dev (drv (w_dev w))) ->
  bs = [] \/ 65540 < zlen bs -> channel_poll k c = Some (rc, c') -> polls_channel s own b c rc c' w.
Proof.
  intros bs Hn Hc Hno Hpoll. unfold channel_poll in Hpoll. rewrite Hc in Hpoll.
  change (slice 0 65544 _) with bs in Hpoll.
  destruct (driver_polls_nothing h dev shared _ _ _ _ w (nd_receiver _ _ _ _ _ Hn) Hno) as (e & Hd & Hrun).
  pose proof (drained_rest _ _ Hd) as Hrest. destruct Hd as (Hg' & Ht & _). fold bs in Hrun.
  assert (Hn' : node s own b (ch_partial c) (set_w_dev (env_os e (w_dev w)) w)) by by apply node_dev.
  eexists _, []. rewrite Hrun. destruct (decide (65540 < zlen bs)) as [Hlong|Hlong].
  - injection Hpoll as <- <-. rewrite decide_False by (intros E0; by rewrite E0 in Hlong).
    simpl. by rewrite !app_nil_r.
  - destruct Hno as [Hno|]; [|done]. rewrite decide_True by done. rewrite Hno in Hpoll.
    simpl in Hpoll. injection Hpoll as <- <-. simpl. by rewrite !app_nil_r.
Qed.

Lemma node_polls_packet s own b k c w rc c' :
  let bs := next_read dev (drv (w_dev w)) in
  node s own b (ch_partial c) w -> ch_bytes c = ring_contents (rx_ring dev (drv (w_dev w))) ->
  dn_dst k = sy_eid s -> dn_max k = sy_max s -> 0 < zlen bs <= 65540 ->
  channel_poll k c = Some (rc, c') -> polls_channel s own b c rc c' w.
Proof.
  intros bs Hn Hc Hdst Hmax Hl Hpoll. unfold channel_poll in Hpoll. rewrite Hc in Hpoll.
  change (slice 0 65544 _) with bs in Hpoll. rewrite decide_False in Hpoll by lia.
  pose proof (nd_receiver _ _ _ _ _ Hn) as [_ Hep Hmem (m & bd & Ho & Hh) Hg].
  destruct (driver_read h dev shared (dv_os (w_dev w)) Hg) as (e1 & e2 & Hpeek & Hread & Hd).
  pose proof (drained_rest _ _ Hd) as Hrest. destruct Hd as (Hg' & Ht & _).
  destruct (nd_ctxs _ _ _ _ _ Hn) as (F & HI & HF). pose proof (nd_stack _ _ _ _ _ Hn) as (_ & _ & _ & Em).
  rewrite Hdst, Hmax, <- Em in Hpoll. destruct (spec_rx _ _ _ _ _) as [r out] eqn:Hspec.
  assert (Hctl : forall dl, out = Some dl -> ctrl_request (dl_msg dl) = false).
  { intros dl ->. by destruct (ctrl_request (dl_msg dl)). }
  assert (Hbd : bd = sy_bd s).
  { pose proof (te_binding _ _ _ _ (nd_env _ _ _ _ _ Hn)) as H1.
    pose proof (mo_binding _ _ _ _ Ho) as H2. congruence. }
  subst bd.
  destruct (wp_inv _ _ _ (wp_poll_receives (keeps_driver shared)
    (fun _ _ H => objects_mmbis _ _ (proj1 H)) (sy_mctp s) (sy_mmbi s) 0 (sy_eid s) F
    (ch_partial c) m (sy_bd s) bs e2 w HI Hep Hmem Ho Hl
    ltac:(rewrite Hh; by exists None, e1) ltac:(rewrite Hspec; exact Hctl)))
    as (rc0 & w' & Hrun & -> & Hpo).
  rewrite Hspec in Hpo.
  destruct (node_polled s own b _ bs e2 F (r, out) w w' Hn HI HF Hpo Hg') as (Hdrv & Hn' & Hrcv).
  exists w', (option_list out). simpl in Hn', Hrcv. rewrite Hdrv, Ht, Hrest, Hrun.
  destruct out as [dl|]; [rewrite (Hctl dl eq_refl) in Hpoll|];
    injection Hpoll as <- <-; cbn in Hrcv |- *; rewrite ?app_nil_r in *; done.
Qed.

Lemma node_polls s own b k c w rc c' :
  node s own b (ch_partial c) w -> ch_bytes c = ring_contents (rx_ring dev (drv (w_dev w))) ->
  dn_dst k = sy_eid s -> dn_max k = sy_max s -> channel_poll k c = Some (rc, c') ->
  polls_channel s own b c rc c' w.
Proof.
  intros Hn Hc Hdst Hmax Hpoll. pose proof (zlen_nonneg (next_read dev (drv (w_dev w)))) as Hz.
  destruct (decide (0 < zlen (next_read dev (drv (w_dev w))) <= 65540)) as [Hl|Hl].
  - by apply (node_polls_packet s own b k).
  - apply (node_polls_nothing s own b k); try done.
    destruct (decide (zlen (next_read dev (drv (w_dev w))) = 0)); [left; by apply zlen_nil_inv|right; lia].
Qed.

(** ** One end of the link *)

(** The system is one end of the link: [out] goes from it, [inc] to it. *)
Record link_end (s : system) (out inc : channel) (before : list event) w : Prop := {
  le_node : exists b, node s [] b (ch_partial inc) w /\
    if ch_stuck out then bus_tx_msg b <> NULL else bus_tx_msg b = NULL /\ bus_tx_seq b = ch_seq out;
  le_out : ring_contents (tx_ring dev (drv (w_dev w))) = ch_bytes out;
  le_inc : ring_contents (rx_ring dev (drv (w_dev w))) = ch_bytes inc;
  le_got : received w = before ++ concat (got_events s <$> ch_got inc);
}.

Lemma link_end_wf s out inc before w : link_end s out inc before w -> shared_wf (drv (w_dev w)).
Proof. intros [(b & Hn & _) _ _ _]. apply (nd_receiver _ _ _ _ _ Hn). Qed.

Lemma link_end_fits s out inc before w :
  link_end s out inc before w -> zlen (ch_bytes out) <= RING_BUFFER_SIZE.
Proof.
  intros H. pose proof (shared_wf_tx dev _ (link_end_wf _ _ _ _ _ H)) as Hr.
  rewrite <- (le_out _ _ _ _ _ H), zlen_contents by done. apply Hr.
Qed.

(** The direction from it. *)
Definition leads_from (s : system) (k : direction) : Prop :=
  dn_ver k = bd_version (sy_bd s) /\ dn_src k = sy_eid s.
Definition leads_to (s : system) (k : direction) : Prop :=
  dn_dst k = sy_eid s /\ dn_max k = sy_max s.

Lemma link_end_sends s k out inc before eid o w :
  link_end s out inc before w -> leads_from s k -> 0 <= og_tag o < 8 -> zlen (og_msg o) < SIZE_MOD ->
  let '(rc, out') := channel_send k eid o out in
  exists w', mctp_message_tx (sy_mctp s) eid (og_to o) (og_tag o) (og_msg o) (zlen (og_msg o)) w
    = Ok rc w' /\ link_end s out' inc before w'.
Proof.
  intros [(b & Hn & Hst) Hout Hinc Hgot] [Hver Hsrc] Ht Hl. unfold channel_send.
  destruct (ch_stuck out) eqn:Hstuck.
  - destruct (node_send_stuck s [] b _ eid o w Hn Hst Ht) as (w' & Hrun & Hd & Htr & Hn').
    exists w'. split; [exact Hrun|]. split; [exists b; by rewrite Hstuck|by rewrite Hd..|].
    unfold received. by rewrite Htr.
  - destruct Hst as [Hidle Hseq]. set (t := channel_params k out eid o).
    assert (Et : sender_params (sy_bd s) b eid (og_to o) (og_tag o) = t).
    { unfold t, channel_params, sender_params. rewrite Hver, Hsrc, Hseq, (nd_eid _ _ _ _ _ Hn).
      f_equal. by rewrite (proj1 (nd_sized _ _ _ _ _ Hn)). }
    destruct (wp_inv _ _ _ (wp_node_sends s [] b _ eid o w Hn Hidle Ht Hl))
      as (rc & w' & Hrun & -> & (Hg & Hr & Hc) & Hrcv & _ & b' & Hn' & Hb').
    rewrite Et, Hseq in Hb'. rewrite Et, Hout in Hc.
    assert (Hfree : ring_free dev (drv (w_dev w)) = RING_BUFFER_SIZE - zlen (ch_bytes out)).
    { unfold ring_free. rewrite <- Hout, zlen_contents; [done|].
      apply shared_wf_tx, (nd_receiver _ _ _ _ _ Hn). }
    rewrite Hfree in Hb', Hc. exists w'. split; [exact Hrun|]. split; cbn.
    + exists b'. split; [exact Hn'|]. case_decide; [by rewrite bool_decide_false by tauto|].
      by rewrite bool_decide_true.
    + exact Hc.
    + by rewrite Hr.
    + by rewrite Hrcv.
Qed.

Lemma link_end_polls s k out inc before rc inc' w :
  link_end s out inc before w -> leads_to s k -> channel_poll k inc = Some (rc, inc') ->
  exists w', mctp_mmbi_poll (sy_mmbi s) w = Ok rc w' /\ link_end s out inc' before w'.
Proof.
  intros [(b & Hn & Hst) Hout Hinc Hgot] [Hdst Hmax] Hpoll.
  destruct (node_polls s [] b k inc w rc inc' Hn (eq_sym Hinc) Hdst Hmax Hpoll)
    as (w' & l & Hrun & Hn' & Ht & Hr & El & Hrcv).
  exists w'. split; [exact Hrun|]. split; [by exists b|by rewrite Ht|exact Hr|].
  by rewrite Hrcv, Hgot, El, fmap_app, concat_app, app_assoc.
Qed.

(** The other end has done something. *)
Lemma link_end_sees s put out inc out' inc' before g w :
  (forall g e, shared (put g e) = g) -> link_end s out inc before w -> shared_wf g ->
  ring_contents (tx_ring dev g) = ch_bytes out' -> ring_contents (rx_ring dev g) = ch_bytes inc' ->
  ch_seq out' = ch_seq out -> ch_stuck out' = ch_stuck out ->
  ch_partial inc' = ch_partial inc -> ch_got inc' = ch_got inc ->
  link_end s out' inc' before (set_w_dev (env_os (put g (dv_os (w_dev w))) (w_dev w)) w).
Proof.
  intros Hput [(b & Hn & Hst) Hout Hinc Hgot] Hg Ht Hr E1 E2 E3 E4.
  split; [|simpl; by rewrite Hput..|by rewrite E4].
  exists b. rewrite E1, E2, E3. split; [|done]. apply node_dev; [done| |done]. simpl. by rewrite Hput.
Qed.

Lemma link_end_carries s k out inc before w :
  link_end s out inc before w -> ch_stuck out = false -> ch_bytes out = [] -> carries k None out.
Proof.
  intros [(b & Hn & Hst) _ _ _] Hs Hb. rewrite Hs in Hst. destruct Hst as [_ E0].
  split; [done|]. split; [rewrite <- E0; apply Hn|done].
Qed.
End system.

(** ** Both ends *)
Section link.
Context {E1 E2 : Type} `{!WinOps E1, !WinOps E2}.
Context `{!UserOps (mmbi_env E1), !ExtAlloc (mmbi_env E1), !ClockOps (mmbi_env E1)}.
Context `{!UserOps (mmbi_env E2), !ExtAlloc (mmbi_env E2), !ClockOps (mmbi_env E2)}.
Context (h1 dev1 : Z) (shared1 : E1 -> MMBI_SHARED_CONTEXT) `{!DriverDevice E1 h1 dev1 shared1}.
Context (h2 dev2 : Z) (shared2 : E2 -> MMBI_SHARED_CONTEXT) `{!DriverDevice E2 h2 dev2 shared2}.
Context `{!RxOps (mmbi_env E1), !RxReady (mmbi_env E1), !QuietRx (mmbi_env E1), !ApiReady E1}.
Context `{!KeepOps (mmbi_env E1) (keeps_driver shared1)}.
Context `{!RxOps (mmbi_env E2), !RxReady (mmbi_env E2), !QuietRx (mmbi_env E2), !ApiReady E2}.
Context `{!KeepOps (mmbi_env E2) (keeps_driver shared2)}.
Context (put1 : MMBI_SHARED_CONTEXT -> E1 -> E1) (put2 : MMBI_SHARED_CONTEXT -> E2 -> E2).
Hypothesis (Hput1 : forall g e, shared1 (put1 g e) = g).
Hypothesis (Hput2 : forall g e, shared2 (put2 g e) = g).
Hypothesis (Hdevs : dev1 = 0 <-> dev2 <> 0).
(** The two systems, and the directions between them. *)
Context (s1 s2 : system) (k1 k2 : direction).
Hypothesis (Hk1 : leads_from s1 k1 /\ leads_to s2 k1) (Hk2 : leads_from s2 k2 /\ leads_to s1 k2).

Local Abbreviation drv1 w := (shared1 (dv_os (w_dev w))).
Local Abbreviation drv2 w := (shared2 (dv_os (w_dev w))).
Local Abbreviation worlds := (world (mmbi_env E1) * world (mmbi_env E2))%type.

(** One of the two systems does something; the driver then is for the other what
    it has become. *)
Definition link_step (op : link_op) (ws : worlds) : option (Z * worlds) :=
  let first r := match r with
    | Ok rc wA => Some (rc, (wA, sees2 put2 (drv1 wA) ws.2)) | Stuck _ => None end in
  let second r := match r with
    | Ok rc wB => Some (rc, (sees1 put1 (drv2 wB) ws.1, wB)) | Stuck _ => None end in
  match op with
  | Send true eid o =>
      first (mctp_message_tx (sy_mctp s1) eid (og_to o) (og_tag o) (og_msg o) (zlen (og_msg o)) ws.1)
  | Send false eid o =>
      second (mctp_message_tx (sy_mctp s2) eid (og_to o) (og_tag o) (og_msg o) (zlen (og_msg o)) ws.2)
  | Poll true => first (mctp_mmbi_poll (sy_mmbi s1) ws.1)
  | Poll false => second (mctp_mmbi_poll (sy_mmbi s2) ws.2)
  end.

(** The systems are in the state [l] of the link; before that, their
    applications had been given [b1] and [b2]. *)
Definition linked (b1 b2 : list event) (l : link) (ws : worlds) : Prop :=
  link_end h1 dev1 shared1 s1 l.1 l.2 b1 ws.1 /\ link_end h2 dev2 shared2 s2 l.2 l.1 b2 ws.2 /\
  drv1 ws.1 = drv2 ws.2.

(** The second end sees what the first has done to the channels. *)
Lemma sees2_linked b1 b2 out inc out' inc' wA' ws :
  linked b1 b2 (out, inc) ws -> link_end h1 dev1 shared1 s1 out' inc' b1 wA' ->
  ch_partial out' = ch_partial out -> ch_got out' = ch_got out ->
  ch_seq inc' = ch_seq inc -> ch_stuck inc' = ch_stuck inc ->
  linked b1 b2 (out', inc') (wA', sees2 put2 (drv1 wA') ws.2).
Proof.
  intros (_ & H2 & _) H1 P1 P2 P3 P4. split; [done|]. split; [|simpl; by rewrite Hput2].
  eapply link_end_sees; try done; [by eapply link_end_wf| |]; simpl.
  - rewrite (peer_tx dev1 dev2 Hdevs). apply H1.
  - rewrite (peer_rx dev1 dev2 Hdevs). apply H1.
Qed.

Lemma sees1_linked b1 b2 out inc out' inc' wB' ws :
  linked b1 b2 (out, inc) ws -> link_end h2 dev2 shared2 s2 inc' out' b2 wB' ->
  ch_seq out' = ch_seq out -> ch_stuck out' = ch_stuck out ->
  ch_partial inc' = ch_partial inc -> ch_got inc' = ch_got inc ->
  linked b1 b2 (out', inc') (sees1 put1 (drv2 wB') ws.1, wB').
Proof.
  intros (H1 & _ & _) H2 P1 P2 P3 P4. split; [|split; [done|simpl; by rewrite Hput1]].
  eapply link_end_sees; try done; [by eapply link_end_wf| |]; simpl.
  - rewrite <- (peer_rx dev1 dev2 Hdevs). apply H2.
  - rewrite <- (peer_tx dev1 dev2 Hdevs). apply H2.
Qed.

Lemma channel_send_keeps k eid o c rc c' :
  channel_send k eid o c = (rc, c') -> ch_partial c' = ch_partial c /\ ch_got c' = ch_got c.
Proof. unfold channel_send. destruct (ch_stuck c); by intros [= <- <-]. Qed.

Lemma channel_poll_keeps k c rc c' :
  channel_poll k c = Some (rc, c') -> ch_seq c' = ch_seq c /\ ch_stuck c' = ch_stuck c.
Proof.
  unfold channel_poll. case_decide; [by intros [= <- <-]|].
  destruct (spec_rx _ _ _ _ _) as [r [dl|]]; [destruct (ctrl_request _); [done|]|]; by intros [= <- <-].
Qed.

Lemma link_step_refines b1 b2 op l ws rc l' :
  op_ok op -> linked b1 b2 l ws -> link_spec k1 k2 op l = Some (rc, l') ->
  exists ws', link_step op ws = Some (rc, ws') /\ linked b1 b2 l' ws'.
Proof.
  destruct l as [out inc]. intros Hok Hl Hspec. pose proof Hl as (H1 & H2 & _).
  destruct Hk1 as [F1 T2], Hk2 as [F2 T1].
  destruct op as [[] eid o|[]]; cbn [link_spec fst snd] in Hspec; cbn [op_ok] in Hok.
  - pose proof (link_end_sends h1 dev1 shared1 s1 k1 out inc b1 eid o _ H1 F1
      (proj1 Hok) (proj2 Hok)) as Hs.
    destruct (channel_send k1 eid o out) as [rc' c'] eqn:Ec. injection Hspec as <- <-.
    destruct Hs as (w' & Hrun & He). destruct (channel_send_keeps _ _ _ _ _ _ Ec).
    eexists. unfold link_step. rewrite Hrun. split; [done|]. by apply (sees2_linked _ _ out inc).
  - pose proof (link_end_sends h2 dev2 shared2 s2 k2 inc out b2 eid o _ H2 F2
      (proj1 Hok) (proj2 Hok)) as Hs.
    destruct (channel_send k2 eid o inc) as [rc' c'] eqn:Ec. injection Hspec as <- <-.
    destruct Hs as (w' & Hrun & He). destruct (channel_send_keeps _ _ _ _ _ _ Ec).
    eexists. unfold link_step. rewrite Hrun. split; [done|]. by apply (sees1_linked _ _ out inc).
  - destruct (channel_poll k2 inc) as [[rc' c']|] eqn:Ec; [|done]. injection Hspec as <- <-.
    destruct (link_end_polls h1 dev1 shared1 s1 k2 out inc b1 rc' c' _ H1 T1 Ec) as (w' & Hrun & He).
    destruct (channel_poll_keeps _ _ _ _ Ec).
    eexists. unfold link_step. rewrite Hrun. split; [done|]. by apply (sees2_linked _ _ out inc).
  - destruct (channel_poll k1 out) as [[rc' c']|] eqn:Ec; [|done]. injection Hspec as <- <-.
    destruct (link_end_polls h2 dev2 shared2 s2 k1 inc out b2 rc' c' _ H2 T2 Ec) as (w' & Hrun & He).
    destruct (channel_poll_keeps _ _ _ _ Ec).
    eexists. unfold link_step. rewrite Hrun. split; [done|]. by apply (sees1_linked _ _ out inc).
Qed.

Lemma link_runs b1 b2 ops l ws rcs l' :
  Forall op_ok ops -> linked b1 b2 l ws -> link_run (link_spec k1 k2) ops l = Some (rcs, l') ->
  exists ws', link_run link_step ops ws = Some (rcs, ws') /\ linked b1 b2 l' ws'.
Proof.
  apply (link_run_simulates (linked b1 b2) op_ok). intros op l0 ws0 rc l1. apply link_step_refines.
Qed.

(** C3: Two systems on the driver are a link.  Whatever messages the two systems
    send with [mctp_message_tx], of any length and to any endpoint, and however
    their polls are interleaved with that: the calls return what the abstract
    link returns, the driver's rings hold the bytes that are on its way, and the
    applications have been given what the link delivers and nothing else, as long
    as nobody is sent a control request. *)
Theorem link_refines b1 b2 ops l ws rcs l' :
  Forall op_ok ops -> linked b1 b2 l ws -> link_run (link_spec k1 k2) ops l = Some (rcs, l') ->
  exists wA' wB', link_run link_step ops ws = Some (rcs, (wA', wB')) /\
    linked b1 b2 l' (wA', wB') /\
    ring_contents (tx_ring dev1 (drv1 wA')) = ch_bytes l'.1 /\
    ring_contents (rx_ring dev1 (drv1 wA')) = ch_bytes l'.2 /\
    received wA' = b1 ++ concat (got_events s1 <$> ch_got l'.2) /\
    received wB' = b2 ++ concat (got_events s2 <$> ch_got l'.1).
Proof.
  intros Hok Hl Hspec. destruct (link_runs b1 b2 ops l ws rcs l' Hok Hl Hspec) as ([wA' wB'] & Hrun & HL).
  exists wA', wB'. split; [done|]. split; [done|]. destruct HL as (H1 & H2 & _).
  by destruct H1, H2.
Qed.
(** C4: Both ways at once.  When each system waits for its message to have been
    polled for before it sends the next, and the messages fit a packet and are no
    control requests, then in whatever order the two systems send and poll, every
    call returns 0 and each application is given exactly the messages sent to it,
    in order and unchanged, and the link is ready for more. *)
Theorem duplex_delivers b1 b2 ops l wA wB :
  linked b1 b2 l (wA, wB) -> ch_bytes l.1 = [] -> ch_bytes l.2 = [] ->
  ch_stuck l.1 = false -> ch_stuck l.2 = false ->
  in_turn (sy_eid s1) (sy_eid s2) ops false false ->
  sy_eid s1 <> MCTP_EID_BROADCAST -> sy_eid s2 <> MCTP_EID_BROADCAST ->
  exists wA' wB' l',
    link_run link_step ops (wA, wB) = Some (replicate (length ops) 0, (wA', wB')) /\
    linked b1 b2 l' (wA', wB') /\ carries k1 None l'.1 /\ carries k2 None l'.2 /\
    received wB' = received wB ++ concat ((got_events s2 ∘ as_delivery k1) <$> sent true ops) /\
    received wA' = received wA ++ concat ((got_events s1 ∘ as_delivery k2) <$> sent false ops).
Proof.
  intros Hl E1b E2b S1 S2 Hops Hb1 Hb2. pose proof Hl as (H1 & H2 & _). cbn [fst snd] in *.
  destruct Hk1 as [[_ Hsrc1] [Hdst1 _]], Hk2 as [[_ Hsrc2] [Hdst2 _]].
  destruct (in_turn_delivers k1 k2 ops None None l) as (l' & Hrun & C1 & C2 & G1 & G2).
  - by rewrite Hdst1, Hdst2.
  - exact (link_end_carries _ _ _ _ _ _ _ _ _ H1 S1 E1b).
  - exact (link_end_carries _ _ _ _ _ _ _ _ _ H2 S2 E2b).
  - congruence.
  - congruence.
  - destruct (link_runs b1 b2 ops l (wA, wB) _ l' (in_turn_ok _ _ _ _ _ Hops) Hl Hrun)
      as ([wA' wB'] & Hrun' & HL).
    exists wA', wB', l'. do 4 (split; [done|]). destruct HL as (L1 & L2 & _). cbn [fst snd] in *.
    rewrite (le_got _ _ _ _ _ _ _ _ L1), (le_got _ _ _ _ _ _ _ _ L2),
      (le_got _ _ _ _ _ _ _ _ H1), (le_got _ _ _ _ _ _ _ _ H2), G1, G2.
    cbn. by rewrite !fmap_app, !concat_app, !app_assoc, !list_fmap_compose.
Qed.

(** C6: A message longer than the ring stalls the sender.  [mctp_message_tx]
    returns 0 for a message of more than 1048576 bytes, of which the driver takes
    what it has room for; the message stays where it stopped, and every message
    after it is refused with [-EBUSY], whatever is polled in between. *)
Theorem oversized_message_stalls b1 b2 l ws eid o ops rcs l' :
  linked b1 b2 l ws -> ch_stuck l.1 = false -> 0 <= og_tag o < 8 ->
  RING_BUFFER_SIZE < zlen (og_msg o) < SIZE_MOD -> Forall op_ok ops ->
  link_run (link_spec k1 k2) (Send true eid o :: ops) l = Some (rcs, l') ->
  exists ws', link_run link_step (Send true eid o :: ops) ws = Some (rcs, ws') /\
    linked b1 b2 l' ws' /\ rcs !! 0%nat = Some 0 /\
    forall i eid' o', ops !! i = Some (Send true eid' o') -> rcs !! S i = Some (- EBUSY).
Proof.
  intros Hl Hst Ht Hz Hok Hrun.
  destruct (link_runs b1 b2 _ l ws rcs l' (Forall_cons_2 op_ok (Send true eid o) ops ltac:(split; [done|lia]) Hok) Hl Hrun)
    as (ws' & Hrun' & HL). exists ws'. split; [done|]. split; [done|].
  destruct (channel_send_long k1 eid o l.1 Hst ltac:(lia) (link_end_fits _ _ _ _ _ _ _ _ (proj1 Hl)))
    as (c' & Hsend & Hst' & _).
  cbn [link_run link_spec] in Hrun. rewrite Hsend in Hrun. cbn in Hrun.
  destruct (link_run (link_spec k1 k2) ops _) as [[rcs1 l2]|] eqn:Hrest; [|done].
  injection Hrun as <- <-. split; [done|]. intros i eid' o' Hi. simpl.
  by eapply stuck_stays; [|exact Hrest|].
Qed.

Lemma linked_received b1 b2 q1 q2 wA wB :
  linked b1 b2 (idle_channel q1, idle_channel q2) (wA, wB) -> received wA = b1 /\ received wB = b2.
Proof.
  intros (H1 & H2 & _). cbn [fst snd] in *.
  rewrite (le_got _ _ _ _ _ _ _ _ H1), (le_got _ _ _ _ _ _ _ _ H2). by rewrite !app_nil_r.
Qed.
End link.

(** ** Opening both ends *)

Definition opened_system (cb : string) (c eid : Z) (bd : mctp_binding) : system :=
  mk_system (c + 16) (c + 16 + 16) bd eid (Some cb) c None (m_max_message_size fresh_mctp).

(** The directions between two systems. *)
Definition leads (s s' : system) : direction :=
  mk_direction (bd_version (sy_bd s)) (sy_eid s) (sy_eid s') (sy_max s').

Lemma leads_ok s s' : leads_from s (leads s s') /\ leads_to s' (leads s s').
Proof. done. Qed.

(** An endpoint opened on an idle driver is an end of an idle link. *)
Lemma opened_link_end {E : Type} `{!WinOps E, !UserOps (mmbi_env E), !ExtAlloc (mmbi_env E),
    !ClockOps (mmbi_env E)} h dev (shared : E -> MMBI_SHARED_CONTEXT) cb c eid e bd b m seq
    (w : world (mmbi_env E)) :
  opened cb c eid h e bd b m w -> w_mallocs w = [] -> GetFileType_is_pipe h e = false ->
  shared_wf (shared e) -> ring_contents (tx_ring dev (shared e)) = [] ->
  ring_contents (rx_ring dev (shared e)) = [] ->
  link_end h dev shared (opened_system cb c eid bd) (idle_channel (bus_tx_seq b)) (idle_channel seq)
    (received w) w.
Proof.
  intros Hop Hmem Hpipe Hg Ht Hr.
  destruct (opened_driver h shared _ _ _ _ _ _ _ w Hop Hmem Hpipe Hg) as (Hos & Hds & Hrc).
  pose proof Hop as [HI _ _ _ Hs Heid _ (bs & Em)].
  pose proof Hs as [S1 [T1 T2 T3 (o & data & T4 & T5) T6] S3 S4 S5 S6 S7 S8 S9 S10 S11 S12].
  split; [|by rewrite Hos..|simpl; by rewrite app_nil_r].
  exists b. split; [|done]. split; try done.
  - split; try done; [by rewrite S9|by rewrite S10].
  - by split; [..|exists o, data|].
  - apply Hds.
  - exists (w_heap w). split; [done|]. constructor; [by exists o|constructor].
  - unfold same_stack. rewrite Em. done.
Qed.

(** Two endpoints opened on the two devices of an idle driver are linked. *)
Lemma opened_linked {E1 E2 : Type} `{!WinOps E1, !WinOps E2,
    !UserOps (mmbi_env E1), !ExtAlloc (mmbi_env E1), !ClockOps (mmbi_env E1),
    !UserOps (mmbi_env E2), !ExtAlloc (mmbi_env E2), !ClockOps (mmbi_env E2)}
    h1 dev1 (shared1 : E1 -> MMBI_SHARED_CONTEXT) h2 dev2 (shared2 : E2 -> MMBI_SHARED_CONTEXT)
    cb1 cb2 c1 c2 eid1 eid2 e1 e2 bd1 bd2 b1 b2 m1 m2 g
    (wA : world (mmbi_env E1)) (wB : world (mmbi_env E2)) :
  opened cb1 c1 eid1 h1 e1 bd1 b1 m1 wA -> w_mallocs wA = [] -> w_trace wA = [] ->
  GetFileType_is_pipe h1 e1 = false -> shared1 e1 = g ->
  opened cb2 c2 eid2 h2 e2 bd2 b2 m2 wB -> w_mallocs wB = [] -> w_trace wB = [] ->
  GetFileType_is_pipe h2 e2 = false -> shared2 e2 = g ->
  shared_wf g -> ring_contents (HostToBmc g) = [] -> ring_contents (BmcToHost g) = [] ->
  linked h1 dev1 shared1 h2 dev2 shared2 (opened_system cb1 c1 eid1 bd1) (opened_system cb2 c2 eid2 bd2)
    [] [] (idle_channel (bus_tx_seq b1), idle_channel (bus_tx_seq b2)) (wA, wB).
Proof.
  intros OA MA TA PA GA OB MB TB PB GB Hg Hh Hb.
  assert (Hempty : forall dev, ring_contents (tx_ring dev g) = [] /\ ring_contents (rx_ring dev g) = []).
  { intros dev. unfold tx_ring, rx_ring. by case_decide. }
  destruct (opened_driver h1 shared1 _ _ _ _ _ _ _ wA OA MA PA ltac:(by rewrite GA)) as (EA & _).
  destruct (opened_driver h2 shared2 _ _ _ _ _ _ _ wB OB MB PB ltac:(by rewrite GB)) as (EB & _).
  assert (RA : received wA = []) by (unfold received; by rewrite TA).
  assert (RB : received wB = []) by (unfold received; by rewrite TB).
  destruct (Hempty dev1), (Hempty dev2). split; [|split; [|simpl; congruence]].
  - rewrite <- RA. by eapply (opened_link_end h1 dev1); rewrite ?GA.
  - rewrite <- RB. by eapply (opened_link_end h2 dev2); rewrite ?GB.
Qed.
