(* ===== verification/Service.v ===== *)
(** * A service on the driver

    An application that answers what it receives: its callback is called by
    [mctp_mmbi_poll], with the binding's lock held, and calls [mctp_mmbi_send]
    before it returns, which takes the lock again and sends through the stack
    that is delivering the message. *)

From S2P Require Import Prelude State Alloc Pktbuf Reasm Tags Tx Control Rx RxSpec RxRefine.
From S2P Require Import Frag TxRefine TxApi TxRequest Bus Mmbi MmbiFacts MmbiRx MmbiInit.
From S2P Require Import Ring Channel Link.

(** ** What a system stays through *)
Section steps.
Context {E : Type} `{!WinOps E, !ExtAlloc (mmbi_env E)}.
Context (h dev : Z) (shared : E -> MMBI_SHARED_CONTEXT) `{!DriverDevice E h dev shared}.
Local Abbreviation D := (mmbi_env E).
Context `{!RxReady D, !ApiReady E}.
Local Abbreviation node := (node h shared).
Implicit Types w : world D.

Lemma node_own s own own' b r w :
  node s own b r w -> (forall a, a ∈ own' -> a ∈ own) -> node s own' b r w.
Proof.
  intros [] Hsub. destruct nd_ctxs as (F & HI & [HF Hown]%Forall_cons_1). split; try done.
  exists F. split; [done|]. constructor; [done|]. rewrite Forall_forall in Hown |- *. auto.
Qed.

(** A new block. *)
Lemma node_alloc s own b r o w w' :
  node s own b r w -> w_heap w' = <[w_brk w := o]> (w_heap w) -> w_brk w' = w_brk w + 16 ->
  w_mallocs w' = [] -> w_ops w' = w_ops w -> w_mctp w' = w_mctp w ->
  w_bindings w' = w_bindings w -> w_dev w' = w_dev w -> node s (w_brk w :: own) b r w'.
Proof.
  intros [[] [T1 T2 T3 (o' & data & T4 & T5) T6] ? ? ? ? ? ? ?
    [R1 R2 R3 (m & bd & [] & Hm) R5] (F & [I1 I2 I3 I4] & HF) ?] Eh Ek El Eo Em Eb Ed.
  pose proof (heap_wf_fresh _ T2) as Hfr.
  assert (Hwf : heap_wf w').
  { destruct (heap_wf_dup [] w T2) as (H1 & H2 & H3). unfold heap_wf. rewrite Ek. split; [done|].
    split; [done|]. intros a Ha. apply H3. rewrite Eh in Ha. simpl.
    rewrite lookup_insert_is_Some' in *. tauto. }
  assert (HI : ctxs_inv w' (<[w_brk w := o]> F) r).
  { split; [by rewrite Eo|done|rewrite Em, Eh; by apply rep_frame|by rewrite Em]. }
  split; try done.
  - split; try done; try (by rewrite Em); [by rewrite Eo|by rewrite Eb].
  - split; [by rewrite Eo|done|by rewrite Eb| |by rewrite Ed].
    exists o', data. rewrite Eh, lookup_insert_ne; [done|]. congruence.
  - split; [by eexists _, r|by apply (endpoint_api _ _ _ _ w); rewrite ?Ed|done| |by rewrite Ed].
    exists m, bd. split; [|done]. split; try done; [by rewrite Ed|by rewrite Eb].
  - exists (<[w_brk w := o]> F). split; [done|].
    apply Forall_cons_1 in HF as [H1 H2].
    constructor; [|constructor]; [by apply lookup_insert_is_Some'; right|rewrite lookup_insert_eq; by eexists|].
    eapply Forall_impl; [exact H2|]. intros a Ha. apply lookup_insert_is_Some'. by right.
  - unfold same_stack. by rewrite Em.
Qed.

(** A block released. *)
Lemma node_free s own b r a w :
  node s (a :: own) b r w -> a <> bd_tx_storage (sy_bd s) -> a ∉ own -> node s own b r (after_free a w).
Proof.
  intros [[] [T1 T2 T3 (o & data & T4 & T5) T6] ? ? ? ? ? ? ? [R1 R2 R3 (m & bd & [] & Hm) R5]
    (F & [I1 I2 I3 I4] & HF) ?] Hst Hown.
  apply Forall_cons_1 in HF as [H1 HF]. apply Forall_cons_1 in HF as [H2 H3].
  pose proof (heap_wf_free a w T2) as Hwf.
  assert (HI : ctxs_inv (after_free a w) (delete a F) r) by (split; try done; by apply rep_unframe).
  split; try done.
  - split; try done. exists o, data. simpl. by rewrite lookup_delete_ne by done.
  - split; [by eexists _, r|by apply (endpoint_api _ _ _ _ w)|done| |done].
    exists m, bd. by split; [split|].
  - exists (delete a F). split; [done|]. constructor; [by rewrite lookup_delete_ne|].
    rewrite Forall_forall in H3 |- *. intros x Hx. rewrite lookup_delete_ne; [by apply H3|].
    by intros ->.
Qed.

(** Tags and events. *)
Lemma node_tags s own b r tags tr w :
  node s own b r w ->
  node s own b r (set_w_trace tr (set_w_mctp (set_m_req_tags tags (w_mctp w)) w)).
Proof.
  intros [[] [] ? ? ? ? ? ? ? [R1 [E1 E2 E3 E4 E5] R3 (m & bd & [] & Hm) R5] (F & [] & HF) Hst].
  assert (HI : ctxs_inv (set_w_trace tr (set_w_mctp (set_m_req_tags tags (w_mctp w)) w)) F r).
  { by split; try (destruct w as [? ? ? ? []]). }
  destruct w as [heap k ml ops [] bs tr0 d]. split; try done.
  - split; [by exists F, r|by split|done| |done]. exists m, bd. by split; [split|].
  - by exists F.
Qed.

(** The lock. *)
Lemma node_locked s own b r m n w :
  node s own b r w -> dv_mmbis (w_dev w) !! sy_mmbi s = Some m -> 0 <= n ->
  node s own b r (locked (sy_mmbi s) m n w).
Proof.
  intros [[] [T1 T2 T3 T4 T5] ? ? ? ? ? ? ? [R1 R2 R3 (m' & bd & [O1 O2 O3 O4 O5] & Hm) R5]
    (F & [] & HF) Hst] Hm' Hn.
  rewrite O1 in Hm'. injection Hm' as ->.
  assert (HI : ctxs_inv (locked (sy_mmbi s) m n w) F r) by by split.
  split; try done.
  - split; try done. intros f Hf. destruct (T5 f Hf) as [-> _]. split; [done|].
    exists (set_mb_lock (Some n) m). split; [apply lookup_insert_eq|done].
  - split; [by exists F, r|by apply (endpoint_api _ _ _ _ w)|done| |done].
    exists (set_mb_lock (Some n) m), bd. split; [|done]. split; try done; [apply lookup_insert_eq|].
    by exists n.
  - by exists F.
Qed.
End steps.

(** ** The server *)
Section server.
Context {E : Type} `{!WinOps E, !UserOps (mmbi_env E), !ExtAlloc (mmbi_env E), !ClockOps (mmbi_env E)}.
Context (h dev : Z) (shared : E -> MMBI_SHARED_CONTEXT) `{!DriverDevice E h dev shared}.
Local Abbreviation D := (mmbi_env E).
Local Abbreviation drv d := (shared (dv_os d)).
Local Abbreviation node := (node h shared).
Implicit Types w : world D.

(** The application: what it answers to a message, and its callback, given to
    [mctp_mmbi_set_rx_callback], which sends the answer to where the message came
    from. *)
Context (reply : list Z -> list Z) (ctx : Z) (x : mctp_mmbi_context) (cb : string) (s : system).
Hypothesis (Hreply : forall msg, zlen (reply msg) <= 65536).
Hypothesis (Hcb : forall src msg len w, uop_rx cb src msg len (cx_user_ctx x) w =
  (bs ← load_bytes msg 0 len; mctp_mmbi_send ctx src (reply bs) (zlen (reply bs));; mret tt) w).

(** The context of the system's stack and binding, with that callback. *)
Record serves : Prop := {
  sv_null : ctx <> NULL;
  sv_mctp : cx_mctp x = sy_mctp s;
  sv_mmbi : cx_mmbi x = sy_mmbi s;
  sv_nonnull : sy_mmbi s <> NULL;
  sv_cb : cx_rx_cb x = Some cb;
  sv_rx : sy_rx s = Some "mmbi_internal_rx"%string;
  sv_data : sy_data s = ctx;
  sv_capture : sy_capture s = None;
}.
Hypothesis (Hsv : serves).

Lemma wp_node_sends_one own b r eid o w :
  node s own b r w -> bus_tx_msg b = NULL -> 0 <= og_tag o < 8 -> zlen (og_msg o) <= 65536 ->
  4 + zlen (og_msg o) <= ring_free dev (drv (w_dev w)) ->
  wp (mctp_message_tx (sy_mctp s) eid (og_to o) (og_tag o) (og_msg o) (zlen (og_msg o)))
    (fun rc w' => rc = 0 /\
      queued dev (single_packet (sy_bd s) b eid (og_to o) (og_tag o) (og_msg o))
        (drv (w_dev w)) (drv (w_dev w')) /\
      received w' = received w /\ objects (w_dev w') = objects (w_dev w) /\
      exists b', node s own b' r w' /\ bus_tx_msg b' = NULL) w.
Proof.
  intros Hn Hidle Ht Hl Hroom. pose proof (zlen_nonneg (og_msg o)) as H0.
  pose proof (nd_sized _ _ _ _ _ _ _ Hn) as Hsz. pose proof (nd_seq _ _ _ _ _ _ _ Hn) as Hseq.
  eapply wp_mono; [apply (wp_node_sends h dev shared s own b r eid o w Hn Hidle Ht); lia|].
  pose proof (single_packet_stream (sy_bd s) b eid (og_to o) (og_tag o) (og_msg o) Hsz Hseq Hl) as Hone.
  unfold packet_stream in Hone. set (t := sender_params _ _ _ _ _) in *.
  assert (Hm : tp_mtu t = 65536) by (simpl; rewrite (proj1 Hsz); by vm_compute).
  assert (Hc : frag_count (tp_mtu t) (zlen (og_msg o)) = 1) by (apply frag_count_one; lia).
  pose proof (zlen_fragments t (og_msg o) ltac:(lia)) as Hz. rewrite Hc in Hz.
  destruct (fragments t (og_msg o)) as [|pkt [|? ?]] eqn:Hf; [done| |unfold zlen in Hz; simpl in Hz; lia].
  cbn [concat] in *. rewrite app_nil_r in *. subst pkt.
  intros rc w' (-> & Hq & Hrcv & Ho & b' & Hn' & Hb').
  rewrite slice_all in Hq by (rewrite zlen_single_packet; lia).
  do 4 (split; [done|]). exists b'. split; [done|]. cbn [handed] in Hb'.
  rewrite (decide_True (P := zlen (single_packet _ _ _ _ _ _) <= _)) in Hb'
    by (rewrite zlen_single_packet; lia).
  change (zlen [_]) with 1 in Hb'. rewrite decide_True in Hb' by done. apply Hb'.
Qed.

(** The lock, taken once more and released, around a send. *)
Lemma wp_server_sends own b r m n eid data w :
  node s own b r w -> bus_tx_msg b = NULL -> dv_mmbis (w_dev w) !! sy_mmbi s = Some m ->
  mb_lock m = Some n -> 0 <= n -> dv_ctxs (w_dev w) !! ctx = Some x -> zlen data <= 65536 ->
  4 + zlen data <= ring_free dev (drv (w_dev w)) ->
  wp (mctp_mmbi_send ctx eid data (zlen data)) (fun rc w' => rc = 0 /\
    queued dev (single_packet (sy_bd s) b eid false 0 data) (drv (w_dev w)) (drv (w_dev w')) /\
    received w' = received w /\ objects (w_dev w') = objects (w_dev w) /\
    exists b', node s own b' r w' /\ bus_tx_msg b' = NULL) w.
Proof.
  intros Hn Hidle Hm Hlock Hn0 Hx Hl Hroom. unfold mctp_mmbi_send.
  rewrite decide_False by apply Hsv. wp_step.
  eapply wp_ok; [unfold get_mmbi_ctx; rewrite Hx; done|]. cbv beta.
  pose proof (rg_mctp _ _ _ _ (nd_registered _ _ _ _ _ _ _ Hn)) as Hnull.
  rewrite (sv_mctp Hsv), (sv_mmbi Hsv), decide_False by done. wp_step.
  eapply wp_enter; [done..|]. wp_step. set (wl := locked _ _ _ w).
  assert (Hnl : node s own b r wl) by (eapply node_locked; [apply _|done|done|lia]).
  eapply wp_mono; [apply (wp_node_sends_one own b r eid (mk_outgoing false 0 data) wl); (done || lia)|].
  intros rc w' (-> & Hq & Hrcv & Ho & b' & Hn' & Hb').
  assert (Hm' : dv_mmbis (w_dev w') !! sy_mmbi s = Some (set_mb_lock (Some (n + 1)) m)).
  { rewrite (objects_mmbis _ _ Ho). apply lookup_insert_eq. }
  wp_step. eapply wp_leave; [exact Hm'|done|lia|]. wp_step. replace (n + 1 - 1) with n by lia.
  split; [done|]. split; [exact Hq|]. split; [exact Hrcv|]. split.
  - destruct (objects_api _ _ Ho) as [Ec Et]. pose proof (objects_mmbis _ _ Ho) as Em.
    unfold objects. simpl. rewrite Em, Ec, Et. simpl. rewrite insert_insert_eq.
    replace (set_mb_lock (Some n) (set_mb_lock (Some (n + 1)) m)) with m
      by (destruct m; simpl in *; by subst). by rewrite insert_id.
  - exists b'. split; [|done]. eapply node_locked; [apply _|done..].
Qed.

(** The callback: the message is given to the application, which answers it. *)
Lemma wp_server_rx own b r m n dl buf w :
  node s own b r w -> bus_tx_msg b = NULL -> dv_mmbis (w_dev w) !! sy_mmbi s = Some m ->
  mb_lock m = Some n -> 0 <= n -> dv_ctxs (w_dev w) !! ctx = Some x ->
  w_heap w !! buf = Some (HBytes (dl_msg dl)) ->
  4 + zlen (reply (dl_msg dl)) <= ring_free dev (drv (w_dev w)) ->
  wp (call_message_rx (sy_mctp s) (dl_src dl) (dl_to dl) (dl_tag dl) buf (zlen (dl_msg dl)))
    (fun _ w' =>
      queued dev (single_packet (sy_bd s) b (dl_src dl) false 0 (reply (dl_msg dl)))
        (drv (w_dev w)) (drv (w_dev w')) /\
      received w' = received w ++ got_events s dl /\ objects (w_dev w') = objects (w_dev w) /\
      exists b', node s own b' r w' /\ bus_tx_msg b' = NULL) w.
Proof.
  intros Hn Hidle Hm Hlock Hn0 Hx Hbuf Hroom. pose proof (zlen_nonneg (dl_msg dl)) as H0.
  pose proof (nd_stack _ _ _ _ _ _ _ Hn) as (Erx & Edata & _).
  pose proof (rg_mctp _ _ _ _ (nd_registered _ _ _ _ _ _ _ Hn)) as Hnull.
  unfold call_message_rx. wp_step. apply wp_mctp_get; [done|].
  rewrite Erx, Edata, (sv_rx Hsv), (sv_data Hsv). wp_step.
  eapply wp_load_bytes; [done|lia..|]. rewrite slice_all by lia. wp_step. unfold emit. wp_step.
  set (w1 := set_w_trace _ w).
  unfold rop_rx, mmbi_rx_ops. rewrite decide_True by done. unfold mmbi_internal_rx.
  rewrite decide_False by apply Hsv. wp_step.
  eapply wp_ok; [unfold get_mmbi_ctx; simpl; rewrite Hx; done|]. cbv beta. rewrite (sv_cb Hsv).
  eapply wp_same; [apply Hcb|]. wp_step. eapply wp_load_bytes; [exact Hbuf|lia..|]. rewrite slice_all by lia. wp_step.
  assert (Hn1 : node s own b r w1).
  { pose proof (node_tags h shared s own b r (m_req_tags (w_mctp w)) (w_trace w ++
      [EvRx "mmbi_internal_rx" ctx (dl_src dl) (dl_to dl) (dl_tag dl) (dl_msg dl)]) w Hn) as H.
    by replace (set_w_mctp (set_m_req_tags (m_req_tags (w_mctp w)) (w_mctp w)) w) with w in H
      by (by destruct w as [? ? ? ? []]). }
  eapply wp_mono; [apply (wp_server_sends own b r m n _ _ w1); try done|].
  intros rc w' (-> & Hq & Hrcv & Ho & b' & Hn' & Hb'). wp_step.
  split; [exact Hq|]. split; [|split; [exact Ho|by exists b']].
  rewrite Hrcv, (received_app w w1 _ eq_refl). simpl. unfold got_events.
  by rewrite (sv_rx Hsv), (sv_data Hsv).
Qed.

(** The message that a packet carries. *)
Definition hdr_message (hd : mctp_hdr) (msg : list Z) : delivery :=
  mk_delivery (src hd) (dest hd) (fst_to (flags_seq_tag hd)) (fst_tag (flags_seq_tag hd)) msg.

(** A packet with a whole message, received: the application answers, and the
    copy of the message is released. *)
Lemma wp_server_bus_rx own b r m n hd msg pkt p w :
  node s own b r w -> bus_tx_msg b = NULL -> dv_mmbis (w_dev w) !! sy_mmbi s = Some m ->
  mb_lock m = Some n -> 0 <= n -> dv_ctxs (w_dev w) !! ctx = Some x ->
  w_heap w !! pkt = Some (HPkt p) -> pkt_wf p -> pkt_wire p = bytes_of_hdr hd ++ msg ->
  rx_accepts (sy_eid s) hd ->
  fst_flags (flags_seq_tag hd) = Z.lor MCTP_HDR_FLAG_SOM MCTP_HDR_FLAG_EOM ->
  ctrl_request msg = false -> w_brk w ∉ own -> 4 + zlen (reply msg) <= ring_free dev (drv (w_dev w)) ->
  wp (mctp_bus_rx (sy_mmbi s) pkt) (fun _ w' =>
      queued dev (single_packet (sy_bd s) b (src hd) false 0 (reply msg))
        (drv (w_dev w)) (drv (w_dev w')) /\
      received w' = received w ++ got_events s (hdr_message hd msg) /\
      objects (w_dev w') = objects (w_dev w) /\
      exists b', node s own b' r w' /\ bus_tx_msg b' = NULL) w.
Proof.
  intros Hn Hidle Hm Hlock Hn0 Hx Hpkt Hwf Hwire Hacc Hone Hctl Hown Hroom.
  pose proof (nd_receiver _ _ _ _ _ _ _ Hn) as [_ Hep Hmem _ _].
  pose proof (nd_env _ _ _ _ _ _ _ Hn) as He. pose proof (te_heap _ _ _ _ He) as Hheap.
  pose proof (nd_stack _ _ _ _ _ _ _ Hn) as (_ & _ & Ecap & _). rewrite (sv_capture Hsv) in Ecap.
  destruct (ep_bus _ _ _ _ _ Hep) as (b0 & B1 & B2 & B3 & B4).
  destruct (ep_binding _ _ _ _ _ Hep) as (bd0 & D1 & D2 & _).
  pose proof (ep_mctp _ _ _ _ _ Hep) as Hnull. pose proof (zlen_nonneg msg) as H0.
  assert (Hbuf : w_brk w <> NULL) by (destruct Hheap; unfold NULL; lia).
  eapply (wp_bus_rx_one _ _ _ _ hd msg pkt p); [exact Hep|apply He|done..|].
  assert (Hnd : node s (w_brk w :: own) b r (after_dup msg w)).
  { eapply (node_alloc h shared s own b r (HBytes msg) w); try done. simpl. by rewrite Hmem. }
  set (dl := hdr_message hd msg).
  assert (Hnt : node s (w_brk w :: own) b r (after_tags dl (after_dup msg w))).
  { pose proof (node_tags h shared s _ b r (delivery_tags dl (m_req_tags (w_mctp w))) (w_trace w) _ Hnd) as H.
    exact H. }
  eapply (wp_rx_at (sy_mctp s) 0 b0 bd0 dl (w_brk w) msg (zlen msg)); try done.
  - by rewrite B3.
  - by rewrite D2.
  - apply Hep.
  - unfold mctp_rx_dest_is_local. rewrite B4. apply Hacc.
  - apply lookup_insert_eq.
  - by rewrite slice_all.
  - change (dl_msg dl) with msg. rewrite Hctl.
    eapply wp_mono; [apply (wp_server_rx (w_brk w :: own) b r m n dl (w_brk w)); try done; apply lookup_insert_eq|].
    intros [] w2 (Hq & Hrcv & Ho & b' & Hn' & Hb').
    pose proof (nd_env _ _ _ _ _ _ _ Hn') as He'.
    split; [apply (ep_route _ _ _ _ _ (dr_endpoint _ _ _ _ _ _ _ (nd_receiver _ _ _ _ _ _ _ Hn')))|].
    destruct (nd_ctxs _ _ _ _ _ _ _ Hn') as (F & HI & HF). apply Forall_cons_1 in HF as [_ HF].
    apply Forall_cons_1 in HF as [[o Ho'] _].
    eapply wp_msg_free; [apply He'|done| |apply heap_wf_null, He'|].
    { rewrite (frame_lookup _ _ _ _ _ HI Ho'). by eexists. }
    split; [exact Hq|]. split; [exact Hrcv|]. split; [exact Ho|]. exists b'. split; [|done].
    apply node_free; [apply _|done| |done].
    intros E0. destruct (te_storage _ _ _ _ He) as (o' & ? & Hst & _).
    rewrite <- E0 in Hst. by rewrite heap_wf_fresh in Hst.
Qed.

(** The server polls: it has been given the message, and its answer is in the
    driver, when [mctp_mmbi_context_poll] returns. *)
Lemma wp_server_polls b r hd msg w :
  node s [] b r w -> bus_tx_msg b = NULL -> dv_ctxs (w_dev w) !! ctx = Some x ->
  next_read dev (drv (w_dev w)) = bytes_of_hdr hd ++ msg -> zlen msg <= 65536 ->
  rx_accepts (sy_eid s) hd ->
  fst_flags (flags_seq_tag hd) = Z.lor MCTP_HDR_FLAG_SOM MCTP_HDR_FLAG_EOM ->
  ctrl_request msg = false -> 4 + zlen (reply msg) <= ring_free dev (drv (w_dev w)) ->
  wp (mctp_mmbi_context_poll ctx) (fun rc w' => rc = 0 /\
    (exists g, drained dev (bytes_of_hdr hd ++ msg) (drv (w_dev w)) g /\
       queued dev (single_packet (sy_bd s) b (src hd) false 0 (reply msg)) g (drv (w_dev w'))) /\
    received w' = received w ++ got_events s (hdr_message hd msg) /\
    objects (w_dev w') = objects (w_dev w) /\
    exists b', node s [] b' r w' /\ bus_tx_msg b' = NULL) w.
Proof.
  intros Hn Hidle Hx Hnext Hl Hacc Hone Hctl Hroom. set (bs := bytes_of_hdr hd ++ msg) in *.
  assert (Hz : zlen bs = 4 + zlen msg) by (unfold bs; by rewrite zlen_app).
  pose proof (zlen_nonneg msg) as H0. pose proof (nd_env _ _ _ _ _ _ _ Hn) as He.
  pose proof (nd_sized _ _ _ _ _ _ _ Hn) as Hsz.
  pose proof (nd_receiver _ _ _ _ _ _ _ Hn) as [_ _ Hmem (m & bd & Ho & Hh) Hg].
  pose proof Ho as [Hm Hv (n & Hlock & Hn0) Hbd _].
  destruct (mmbi_pkt_ok (sy_bd s) bs Hsz ltac:(lia)) as [Hwf Hwire].
  destruct (driver_read h dev shared (dv_os (w_dev w)) Hg) as (e1 & e2 & Hpeek & Hread & Hd).
  rewrite Hnext in Hread, Hd. unfold mctp_mmbi_context_poll. rewrite decide_False by apply Hsv. wp_step.
  eapply wp_ok; [unfold get_mmbi_ctx; rewrite Hx; done|]. cbv beta. rewrite (sv_mmbi Hsv).
  rewrite decide_False by apply Hsv.
  eapply wp_poll_reads; [exact Ho|by rewrite Hh|done|by rewrite Hh|].
  rewrite decide_True by (split; [done|]; lia). set (w0 := set_w_dev _ w).
  assert (Hn0w : node s [] b r w0) by (eapply node_dev; [apply _|done|apply Hd|done]).
  pose proof (te_binding _ _ _ _ He) as Hbd'.
  eapply (wp_poll_into (sy_mmbi s) m (sy_bd s) n bs _ w0);
    [apply He|apply He|done|done|done|done|done|done|lia|].
  set (pk := mmbi_pkt (sy_bd s) bs) in *. set (wL := locked _ m (n + 1) (with_new_pkt pk w0)).
  assert (HnL : node s [] b r wL).
  { apply node_locked; [apply _| |exact Hm|lia]. apply (node_own h shared s [w_brk w0] []); [|set_solver].
    eapply node_alloc; [apply _|exact Hn0w|done|done|simpl; by rewrite Hmem|done|done|done|done]. }
  eapply wp_mono; [apply (wp_server_bus_rx [] b r (set_mb_lock (Some (n + 1)) m) (n + 1) hd msg (w_brk w0) pk wL);
    try done; [apply lookup_insert_eq|lia|apply lookup_insert_eq|set_solver|]|].
  { unfold ring_free in *. simpl. by rewrite (proj1 (proj2 Hd)). }
  intros [] w1 (Hq & Hrcv & Hob & b' & Hn' & Hb').
  assert (Hm1 : dv_mmbis (w_dev w1) !! sy_mmbi s = Some (set_mb_lock (Some (n + 1)) m)).
  { rewrite (objects_mmbis _ _ Hob). apply lookup_insert_eq. }
  split; [exact Hm1|]. split; [done|]. split; [exists (shared e2); by split|].
  split; [exact Hrcv|]. split.
  - destruct (objects_api _ _ Hob) as [Ec Et]. pose proof (objects_mmbis _ _ Hob) as Em.
    unfold objects. simpl. rewrite Em, Ec, Et. simpl. rewrite insert_insert_eq.
    replace (set_mb_lock (Some n) m) with m by (destruct m; simpl in *; by subst).
    by rewrite insert_id.
  - exists b'. split; [|done].
    pose proof (node_locked h shared s [] b' r _ n w1 Hn' Hm1 Hn0) as H.
    replace (set_mb_lock (Some n) (set_mb_lock (Some (n + 1)) m)) with (set_mb_lock (Some n) m) in H
      by (by destruct m). exact H.
Qed.

(** Giving the context the callback. *)
Lemma set_callback_run own b r x0 u w :
  node s own b r w -> ctx <> NULL -> dv_ctxs (w_dev w) !! ctx = Some x0 ->
  exists w', mctp_mmbi_set_rx_callback ctx (Some cb) u w = Ok tt w' /\ node s own b r w' /\
    dv_ctxs (w_dev w') !! ctx = Some (set_cx_user_ctx u (set_cx_rx_cb (Some cb) x0)) /\
    w_trace w' = w_trace w /\ dv_os (w_dev w') = dv_os (w_dev w).
Proof.
  intros Hn Hctx Hx. unfold mctp_mmbi_set_rx_callback. rewrite decide_False by done.
  eexists. split; [reflexivity|]. set (w' := set_w_dev _ _).
  assert (Hc : dv_ctxs (w_dev w') !! ctx = Some (set_cx_user_ctx u (set_cx_rx_cb (Some cb) x0))).
  { simpl. by rewrite !lookup_alter_eq, Hx. }
  assert (Hdom : forall a, is_Some (dv_ctxs (w_dev w) !! a) -> is_Some (dv_ctxs (w_dev w') !! a)).
  { intros a Ha. simpl. rewrite !lookup_alter_is_Some. exact Ha. }
  split; [|by split]. destruct Hn as [[] [T1 T2 T3 T4 T5] ? ? ? ? ? ? ?
    [R1 [E1 E2 E3 E4 E5] R3 (m & bd & [O1 O2 O3 O4 O5] & Hm) R5] (F & [] & HF) Hst].
  assert (HI : ctxs_inv w' F r) by by split.
  split; try done.
  - split; [by exists F, r| |done| |done]; [|exists m, bd; by split; [split|]].
    split; try done. intros f Hf. destruct (E5 f Hf) as [[-> Hd]|Hd]; [left|right; exact Hd].
    split; [done|]. destruct Hd as [|Hd]; [by left|]. right. by apply Hdom.
  - by exists F.
Qed.
End server.

(** ** A client and the server *)
Section service.
Context {E1 E2 : Type} `{!WinOps E1, !WinOps E2}.
Context `{!UserOps (mmbi_env E1), !ExtAlloc (mmbi_env E1), !ClockOps (mmbi_env E1)}.
Context `{!UserOps (mmbi_env E2), !ExtAlloc (mmbi_env E2), !ClockOps (mmbi_env E2)}.
Context (h1 dev1 : Z) (shared1 : E1 -> MMBI_SHARED_CONTEXT) `{!DriverDevice E1 h1 dev1 shared1}.
Context (h2 dev2 : Z) (shared2 : E2 -> MMBI_SHARED_CONTEXT) `{!DriverDevice E2 h2 dev2 shared2}.
Context `{!RxOps (mmbi_env E1), !RxReady (mmbi_env E1), !QuietRx (mmbi_env E1), !ApiReady E1}.
Context `{!KeepOps (mmbi_env E1) (keeps_driver shared1)}.
Context (put1 : MMBI_SHARED_CONTEXT -> E1 -> E1) (put2 : MMBI_SHARED_CONTEXT -> E2 -> E2).
Hypothesis (Hput1 : forall g e, shared1 (put1 g e) = g).
Hypothesis (Hput2 : forall g e, shared2 (put2 g e) = g).
Hypothesis (Hdevs : dev1 = 0 <-> dev2 <> 0).
(** The client [c], and the server [s] with its application. *)
Context (c s : system) (reply : list Z -> list Z) (ctx : Z) (x : mctp_mmbi_context) (cb : string).
Hypothesis (Hreply : forall msg, zlen (reply msg) <= 65536 /\ ctrl_request (reply msg) = false).
Hypothesis (Hcb : forall src msg len (w : world (mmbi_env E2)), uop_rx cb src msg len (cx_user_ctx x) w =
  (bs ← load_bytes msg 0 len; mctp_mmbi_send ctx src (reply bs) (zlen (reply bs));; mret tt) w).
Hypothesis (Hsv : serves ctx x cb s).
Hypothesis (Hsrc : sy_eid c <> MCTP_EID_BROADCAST) (Hsrv : sy_eid s <> MCTP_EID_BROADCAST).

Local Abbreviation drv1 w := (shared1 (dv_os (w_dev w))).
Local Abbreviation drv2 w := (shared2 (dv_os (w_dev w))).
Local Abbreviation worlds := (world (mmbi_env E1) * world (mmbi_env E2))%type.
Local Abbreviation k1 := (leads c s).
Local Abbreviation k2 := (leads s c).

(** A request: the client sends it, the server polls, the client polls. *)
Definition request_one (o : outgoing) (ws : worlds) : option worlds :=
  match mctp_message_tx (sy_mctp c) (sy_eid s) (og_to o) (og_tag o) (og_msg o) (zlen (og_msg o)) ws.1 with
  | Ok 0 wA =>
      match mctp_mmbi_context_poll ctx (sees2 put2 (drv1 wA) ws.2) with
      | Ok 0 wB =>
          match mctp_mmbi_poll (sy_mmbi c) (sees1 put1 (drv2 wB) wA) with
          | Ok 0 wA' => Some (wA', wB)
          | _ => None
          end
      | _ => None
      end
  | _ => None
  end.

Fixpoint request_all (os : list outgoing) (ws : worlds) : option worlds :=
  match os with
  | [] => Some ws
  | o :: os => ws ← request_one o ws; request_all os ws
  end.

(** The client is an end of the idle driver, and the server can serve. *)
Record serving (before : list event) (ws : worlds) : Prop := {
  sg_client : exists out inc, link_end h1 dev1 shared1 c out inc before ws.1 /\
    carries k1 None out /\ carries k2 None inc;
  sg_server : exists b r, node h2 shared2 s [] b r ws.2 /\ bus_tx_msg b = NULL;
  sg_ctx : dv_ctxs (w_dev ws.2) !! ctx = Some x;
}.

(** The server's part: the request [o] is in the driver, and then the answer. *)
Lemma server_step o g b r wB :
  node h2 shared2 s [] b r wB -> bus_tx_msg b = NULL -> dv_ctxs (w_dev wB) !! ctx = Some x ->
  one_packet o -> shared_wf g -> ring_contents (rx_ring dev1 g) = [] ->
  (exists seq, 0 <= seq < 4 /\ ring_contents (tx_ring dev1 g) =
    bytes_of_hdr (mk_hdr (Z.land (dn_ver k1) 15) (dn_dst k1) (dn_src k1)
      (tx_flags_seq_tag (og_to o) (og_tag o) seq true true)) ++ og_msg o) ->
  exists wB' b', mctp_mmbi_context_poll ctx (sees2 put2 g wB) = Ok 0 wB' /\
    node h2 shared2 s [] b' r wB' /\ bus_tx_msg b' = NULL /\ dv_ctxs (w_dev wB') !! ctx = Some x /\
    ring_contents (tx_ring dev1 (drv2 wB')) = [] /\
    ring_contents (rx_ring dev1 (drv2 wB')) =
      single_packet (sy_bd s) b (sy_eid c) false 0 (reply (og_msg o)) /\
    received wB' = received wB ++
      got_events s (mk_delivery (sy_eid c) (sy_eid s) (og_to o) (og_tag o) (og_msg o)).
Proof.
  intros Hn Hidle Hx (Ht & Hl & Hctl) Hg Hinc (seq & Hseq & Hout).
  set (hd := mk_hdr _ _ _ _) in *. destruct (Hreply (og_msg o)) as [Hrl _].
  destruct (flags_decode (og_to o) (og_tag o) seq true true Ht Hseq) as (D1 & D2 & D3 & _).
  pose proof (zlen_nonneg (og_msg o)) as H0.
  assert (Hrx : rx_ring dev2 g = tx_ring dev1 g) by by apply (peer_rx dev1 dev2).
  assert (Htx : tx_ring dev2 g = rx_ring dev1 g) by by apply (peer_tx dev1 dev2).
  assert (Eg : drv2 (sees2 put2 g wB) = g) by apply Hput2.
  assert (Hn0 : node h2 shared2 s [] b r (sees2 put2 g wB)).
  { eapply node_dev; [apply _|done|simpl; by rewrite Hput2|done]. }
  assert (Hfree : ring_free dev2 g = RING_BUFFER_SIZE) by (apply empty_ring_free; congruence).
  destruct (wp_inv _ _ _ (wp_server_polls h2 dev2 shared2 reply ctx x cb s (fun m => proj1 (Hreply m)) Hcb Hsv
    b r hd (og_msg o) (sees2 put2 g wB) Hn0 Hidle Hx
    ltac:(rewrite Eg; unfold next_read; rewrite Hrx, Hout; apply slice_all; rewrite zlen_app;
      change (zlen (bytes_of_hdr hd)) with 4; lia) Hl ltac:(split; [done|by left])
    ltac:(exact D1) Hctl ltac:(rewrite Eg, Hfree; unfold RING_BUFFER_SIZE; lia)))
    as (rc & wB' & Hrun & -> & (g2 & (Hg2 & Ht2 & Hd2) & Hg3 & Hr3 & Hq) & Hrcv & Hob & b' & Hn' & Hb').
  rewrite Eg in Ht2, Hd2. rewrite Hrx, Hout in Hd2.
  exists wB', b'. do 3 (split; [done|]). destruct (objects_api _ _ Hob) as [Ec _].
  split; [by rewrite Ec|]. split; [|split].
  - rewrite <- (peer_rx dev1 dev2 Hdevs), Hr3. apply (app_inv_head (bytes_of_hdr hd ++ og_msg o)).
    rewrite <- Hd2. by rewrite app_nil_r.
  - rewrite <- (peer_tx dev1 dev2 Hdevs), Hq, Ht2, Htx, Hinc. done.
  - rewrite Hrcv. change (received (sees2 put2 g wB)) with (received wB). unfold hdr_message.
    by rewrite (D2 : fst_to (flags_seq_tag hd) = _), (D3 : fst_tag (flags_seq_tag hd) = _).
Qed.

(** The client polls for the answer. *)
Lemma client_gets b r msg out inc before wA wB :
  link_end h1 dev1 shared1 c out inc before wA -> ch_stuck out = false -> 0 <= ch_seq out < 4 ->
  ch_stuck inc = false -> 0 <= ch_seq inc < 4 ->
  node h2 shared2 s [] b r wB -> ring_contents (tx_ring dev1 (drv2 wB)) = [] ->
  (exists b0, 0 <= bus_tx_seq b0 < 4 /\ bus_eid b0 = sy_eid s /\
     ring_contents (rx_ring dev1 (drv2 wB)) = single_packet (sy_bd s) b0 (sy_eid c) false 0 msg) ->
  zlen msg <= 65536 -> ctrl_request msg = false ->
  exists wA' out' inc', mctp_mmbi_poll (sy_mmbi c) (sees1 put1 (drv2 wB) wA) = Ok 0 wA' /\
    link_end h1 dev1 shared1 c out' inc' before wA' /\ carries k1 None out' /\ carries k2 None inc' /\
    received wA' = received wA ++ got_events c (mk_delivery (sy_eid s) (sy_eid c) false 0 msg).
Proof.
  intros HA S1 Q1 S2 Q2 Hn Hout (b0 & Hseq & Heid & Hinc) Hl Hctl.
  set (o := mk_outgoing false 0 msg).
  set (out' := mk_channel [] (ch_seq out) (ch_stuck out) (ch_partial out) (ch_got out)).
  set (inc1 := mk_channel (single_packet (sy_bd s) b0 (sy_eid c) false 0 msg) (ch_seq inc)
    (ch_stuck inc) (ch_partial inc) (ch_got inc)).
  assert (Hg : shared_wf (drv2 wB)) by apply (nd_receiver _ _ _ _ _ _ _ Hn).
  assert (HA1 : link_end h1 dev1 shared1 c out' inc1 before (sees1 put1 (drv2 wB) wA)).
  { eapply link_end_sees; [apply _|exact Hput1|exact HA|exact Hg|exact Hout|exact Hinc|done..]. }
  assert (Hc : carries k2 (Some o) inc1).
  { split; [done|]. split; [done|]. split; [by split|]. exists (bus_tx_seq b0). split; [done|].
    unfold inc1, single_packet. cbn. by rewrite Heid. }
  destruct (channel_polls_one k2 (Some o) inc1 Hc Hsrv) as (inc2 & Hpoll & Hc2 & Hgot).
  destruct (link_end_polls h1 dev1 shared1 c k2 out' inc1 before 0 inc2 _ HA1 (proj2 (leads_ok s c)) Hpoll)
    as (wA' & Hrun & HA2).
  exists wA', out', inc2. split; [exact Hrun|]. split; [done|]. split; [by split|]. split; [done|].
  rewrite (le_got _ _ _ _ _ _ _ _ HA2), (le_got _ _ _ _ _ _ _ _ HA), Hgot.
  rewrite fmap_app, concat_app, app_assoc. cbn. by rewrite app_nil_r.
Qed.

Lemma request_served o before wA wB :
  serving before (wA, wB) -> one_packet o ->
  exists wA' wB', request_one o (wA, wB) = Some (wA', wB') /\ serving before (wA', wB') /\
    received wA' = received wA ++
      got_events c (mk_delivery (sy_eid s) (sy_eid c) false 0 (reply (og_msg o))) /\
    received wB' = received wB ++
      got_events s (mk_delivery (sy_eid c) (sy_eid s) (og_to o) (og_tag o) (og_msg o)).
Proof.
  intros [(out & inc & HA & Cout & Cinc) (b & r & Hn & Hidle) Hx] Ho. cbn [fst snd] in *.
  pose proof Ho as (Ht & Hl & Hctl). destruct (Hreply (og_msg o)) as [Hrl Hrc].
  destruct (channel_sends_one k1 o out Cout Ho) as (out' & Hsend & (S1 & Q1 & _ & Hbytes) & _).
  pose proof (link_end_sends h1 dev1 shared1 c k1 out inc before (dn_dst k1) o wA HA
    (proj1 (leads_ok c s)) Ht ltac:(lia)) as Hrun1.
  rewrite Hsend in Hrun1. destruct Hrun1 as (wA1 & Hrun1 & HA1).
  pose proof (le_out _ _ _ _ _ _ _ _ HA1) as Hout. pose proof (le_inc _ _ _ _ _ _ _ _ HA1) as Hinc.
  destruct Cinc as (S2 & Q2 & Hempty). rewrite Hempty in Hinc.
  destruct (server_step o (drv1 wA1) b r wB Hn Hidle Hx Ho (link_end_wf _ _ _ _ _ _ _ _ HA1) Hinc
    ltac:(by rewrite Hout)) as (wB' & b' & Hrun2 & Hn' & Hb' & Hx' & Hout2 & Hinc2 & Hrcv2).
  destruct (client_gets b' r (reply (og_msg o)) out' inc before wA1 wB' HA1 S1 Q1 S2 Q2 Hn' Hout2
    ltac:(exists b; split; [apply Hn|split; [apply Hn|exact Hinc2]]) Hrl Hrc)
    as (wA' & out2 & inc2 & Hrun3 & HA3 & C1 & C2 & Hrcv3).
  exists wA', wB'. unfold request_one. cbn [fst snd]. change (sy_eid s) with (dn_dst k1) at 1.
  rewrite Hrun1, Hrun2, Hrun3. split; [done|]. split; [|split].
  - split; [by exists out2, inc2|by exists b', r|done].
  - rewrite Hrcv3. f_equal. by rewrite (le_got _ _ _ _ _ _ _ _ HA1), (le_got _ _ _ _ _ _ _ _ HA).
  - exact Hrcv2.
Qed.

(** C5: An application that answers.  The server's callback calls [mctp_mmbi_send]
    while [mctp_mmbi_context_poll] is delivering the message to it, with the lock
    held and the stack in the middle of reception.  All the same every request of
    any sequence is answered: the server's application is given the requests, in
    order and unchanged, the client's the answers to them, from the server's EID,
    and after each both systems and the driver are ready for the next. *)
Theorem service_answers os before wA wB :
  serving before (wA, wB) -> Forall one_packet os ->
  exists wA' wB', request_all os (wA, wB) = Some (wA', wB') /\ serving before (wA', wB') /\
    received wA' = received wA ++ concat ((fun o => got_events c
      (mk_delivery (sy_eid s) (sy_eid c) false 0 (reply (og_msg o)))) <$> os) /\
    received wB' = received wB ++ concat ((fun o => got_events s
      (mk_delivery (sy_eid c) (sy_eid s) (og_to o) (og_tag o) (og_msg o))) <$> os).
Proof.
  intros Hs Hos. revert wA wB Hs. induction Hos as [|o os Ho _ IH]; intros wA wB Hs.
  { exists wA, wB. cbn. by rewrite !app_nil_r. }
  destruct (request_served o before wA wB Hs Ho) as (wA1 & wB1 & H1 & Hs1 & RA1 & RB1).
  destruct (IH wA1 wB1 Hs1) as (wA2 & wB2 & H2 & Hs2 & RA2 & RB2). exists wA2, wB2.
  cbn [request_all]. rewrite H1. split; [exact H2|]. split; [done|].
  by rewrite RA2, RB2, RA1, RB1, !fmap_cons; cbn [concat]; rewrite !app_assoc.
Qed.
End service.
