(* ===== verification/Transport.v ===== *)
(** * The transport API (src/transport.c)

    [mctp_transport_init] builds the same stack and binding as
    [mctp_mmbi_context_init], with one attempt at opening the device; what it
    returns, what it releases when it fails, and messages between two
    transports. *)

From S2P Require Import Prelude State Alloc Pktbuf Reasm Tags Tx Control Rx RxSpec RxRefine.
From S2P Require Import Frag TxRefine TxApi Bus Cleanup Mmbi MmbiFacts MmbiRx MmbiInit Ring Channel.

Section transport.
Context {E : Type} `{!WinOps E, !UserOps (mmbi_env E)}.
Local Abbreviation D := (mmbi_env E).
Context `{!ExtAlloc D, !ClockOps D}.
Implicit Types w : world D.

(** ** Opening *)

Definition with_transport (c : Z) (x : mctp_transport) w : world D :=
  set_w_dev (set_transports (<[c := x]>) (w_dev w)) w.

(** The block of the transport, and the parts behind it. *)
Definition transport_parts w : world D :=
  let c := w_brk w in
  with_transport c (mk_transport (c + 16) (c + 16 + 16) None NULL)
    (with_mmbi (with_stack (after_malloc sizeof_mctp_transport w))).

(** The next [n] calls of [malloc] give memory. *)
Definition mallocs_ok (n : nat) w : Prop := Forall (fun ok => ok = true) (take n (w_mallocs w)).

Lemma mallocs_ok_S n w size :
  mallocs_ok (S n) w <-> malloc_ok w = true /\ mallocs_ok n (after_malloc size w).
Proof.
  unfold mallocs_ok, malloc_ok. simpl. destruct (w_mallocs w) as [|[] l]; simpl.
  - rewrite take_nil. split; [intros; split; [done|constructor]|intros; constructor].
  - rewrite Forall_cons. tauto.
  - rewrite Forall_cons. split; [by intros []|by intros []].
Qed.

Lemma mallocs_ok_3 w : mallocs_ok 4 w -> mallocs_ok 3 w.
Proof.
  unfold mallocs_ok. destruct (w_mallocs w) as [|? [|? [|? [|? l]]]]; try done. simpl.
  rewrite !Forall_cons. intuition.
Qed.

Lemma transport_parts_malloc w : mallocs_ok 4 w -> malloc_ok (transport_parts w) = true.
Proof.
  intros Hmem. apply (mallocs_ok_S 3 w sizeof_mctp_transport) in Hmem as [_ Hmem].
  apply (mallocs_ok_S 2 _ sizeof_mctp) in Hmem as [_ Hmem].
  apply (mallocs_ok_S 1 _ sizeof_mctp_binding_mmbi) in Hmem as [_ Hmem].
  by apply (mallocs_ok_S 0 _ 0) in Hmem as [Hmem _].
Qed.

Lemma transport_parts_no_malloc w :
  mallocs_ok 3 w -> ~ mallocs_ok 4 w -> malloc_ok (transport_parts w) = false.
Proof.
  intros Hmem Hno. rewrite (mallocs_ok_S 3 w sizeof_mctp_transport) in Hno.
  rewrite (mallocs_ok_S 2 _ sizeof_mctp), (mallocs_ok_S 1 _ sizeof_mctp_binding_mmbi) in Hno.
  rewrite (mallocs_ok_S 0 _ 0) in Hno.
  apply (mallocs_ok_S 2 w sizeof_mctp_transport) in Hmem as [H1 Hmem].
  apply (mallocs_ok_S 1 _ sizeof_mctp) in Hmem as [H2 Hmem].
  apply (mallocs_ok_S 0 _ sizeof_mctp_binding_mmbi) in Hmem as [H3 _].
  apply not_true_iff_false. intros H4. apply Hno. repeat (split; [done|]). apply Forall_nil_2.
Qed.

Lemma transport_parts_ok w :
  w_ops w = default_alloc_ops -> heap_wf w ->
  parts_ok (w_brk w) (dv_os (w_dev w)) (transport_parts w).
Proof.
  intros Hops Hwf.
  pose proof (heap_wf_malloc sizeof_mctp_transport w Hwf) as H1.
  pose proof (heap_wf_malloc sizeof_mctp _ H1) as H2.
  pose proof (heap_wf_malloc sizeof_mctp_binding_mmbi _ H2) as H3.
  split; [| |done|apply lookup_insert_eq|apply lookup_insert_eq|done].
  - split; [done|]. by split; [exact H3|].
  - destruct (with_stack_inv (after_malloc sizeof_mctp_transport w) Hops H1) as [_ _ _ Hx].
    split; [done|exact H3| |done]. apply rep_empty; [done|].
    apply Forall_replicate. intros H. by apply H.
Qed.

(** The block of the transport, the last one left, is freed. *)
Lemma wp_transport_give_up (Q : Z -> world D -> Prop) w w1 :
  heap_wf w -> w_heap w1 = w_heap (after_malloc sizeof_mctp_transport w) ->
  (forall w', w_heap w' = w_heap w -> w_trace w' = w_trace w1 ->
     dv_os (w_dev w') = dv_os (w_dev w1) -> Q NULL w') ->
  wp (free (w_brk w);; mret NULL) Q w1.
Proof.
  intros Hwf Hh HQ. wp_step. simpl in Hh. apply wp_c_free.
  - rewrite Hh, lookup_insert_eq. eauto.
  - rewrite Hh, lookup_insert_ne by (destruct Hwf; unfold NULL; lia). by apply heap_wf_null.
  - wp_step. apply HQ; [|done..]. simpl. rewrite Hh. by apply delete_insert_id, heap_wf_fresh.
Qed.

(** What opening the device and registering the binding come after. *)
Definition transport_open (c mctp p : Z) (path : string) (eid : Z) : M (world D) Z :=
  rc ← mctp_mmbi_init_device p path;
  if decide (rc <> 0) then mctp_mmbi_destroy p;; mctp_destroy mctp;; free c;; mret NULL
  else
    mctp_register_bus mctp p eid;;
    mctp_binding_set_tx_enabled p true;;
    mctp_set_rx_all mctp (Some "transport_rx_handler"%string) c;;
    mret c.

(** Up to there: without memory for the parts, all is released. *)
Lemma wp_transport_parts path eid (Q : Z -> world D -> Prop) w :
  w_ops w = default_alloc_ops -> heap_wf w ->
  (~ mallocs_ok 3 w -> forall w', w_heap w' = w_heap w -> w_trace w' = w_trace w ->
     dv_os (w_dev w') = dv_os (w_dev w) -> Q NULL w') ->
  (mallocs_ok 3 w -> let c := w_brk w in
     wp (transport_open c (c + 16) (c + 16 + 16) path eid) Q (transport_parts w)) ->
  wp (mctp_transport_init path eid) Q w.
Proof.
  intros Hops Hwf HN HQ. unfold mctp_transport_init. wp_step. set (c := w_brk w) in *.
  assert (Hc : 0 < c) by (by destruct Hwf).
  rewrite (mallocs_ok_S 2 w sizeof_mctp_transport) in HN, HQ.
  set (w1 := after_malloc sizeof_mctp_transport w) in *.
  pose proof (heap_wf_malloc sizeof_mctp_transport w Hwf) as H1. fold w1 in H1.
  apply wp_malloc; intros M1; [|wp_steps; apply HN; [intros [E0 _]; congruence|done..]].
  fold c. rewrite (decide_False (P := c = NULL)) by (unfold NULL; lia).
  unfold upd_transport, upd_env. do 2 wp_step. set (wt := set_w_dev _ _).
  rewrite (mallocs_ok_S 1 w1 sizeof_mctp) in HN, HQ. wp_step.
  apply wp_mctp_init; [done|exact H1|intros M2|intros M2].
  2: { do 3 wp_step. eapply (wp_transport_give_up Q w); [done|done|]. intros w' Hh Ht Ho.
       apply HN; [intros (_ & E0 & _); exact (eq_true_false_abs _ E0 M2)|done..]. }
  do 2 wp_step. change (w_brk wt) with (c + 16).
  rewrite (decide_False (P := c + 16 = NULL)) by (unfold NULL; lia). wp_step.
  set (w2 := after_malloc sizeof_mctp w1) in *.
  pose proof (heap_wf_malloc sizeof_mctp w1 H1) as H2. fold w2 in H2.
  rewrite (mallocs_ok_S 0 w2 sizeof_mctp_binding_mmbi) in HN, HQ.
  apply wp_mmbi_init; [done|exact H2|intros M3|intros M3].
  - do 2 wp_step. change (w_brk (set_w_dev _ _)) with (c + 16 + 16).
    rewrite (decide_False (P := c + 16 + 16 = NULL)) by (unfold NULL; lia).
    match goal with |- wp _ _ ?W => assert (W = transport_parts w) as -> end.
    { unfold transport_parts, with_transport, with_mmbi, with_stack, set_transports. simpl.
      by rewrite !fin_maps.alter_insert_eq. }
    apply HQ. repeat (split; [done|]). apply Forall_nil_2.
  - do 3 wp_step. set (w3 := set_w_dev _ _).
    assert (HI : ctxs_inv w3 (w_heap w3) ∅).
    { destruct (with_stack_inv w1 Hops H1) as [I1 I2 I3 I4]. by split. }
    wp_step. eapply (wp_mctp_destroy (c + 16) (w_heap w3) ∅); [done| |unfold NULL; lia|done|].
    { simpl. rewrite lookup_insert_eq. eauto. }
    intros w4 Hh4 _ Hd4 _ Ht4. apply (wp_transport_give_up Q w); [done| |].
    { rewrite Hh4. simpl. apply delete_insert_id. exact (heap_wf_fresh w1 H1). }
    intros w' Hh Ht Ho. apply HN; [|done|by rewrite Ht, Ht4|by rewrite Ho, Hd4].
    intros (_ & _ & E0 & _). exact (eq_true_false_abs _ E0 M3).
Qed.

Lemma wp_transport_opens c path eid h e os (Q : Z -> world D -> Prop) w :
  parts_ok c os w -> malloc_ok w = true -> 0 < c ->
  CreateFileA path os = (h, e) -> h <> INVALID_HANDLE_VALUE ->
  Q c (with_opened "transport_rx_handler" c eid h e w) ->
  wp (transport_open c (c + 16) (c + 16 + 16) path eid) Q w.
Proof.
  intros [(P1a & P1b & P1d) P2 P3 P4 P5 P6] P1c Hc Hopen Hh HQ. unfold transport_open. wp_step.
  assert (Hn : c + 16 <> NULL /\ c + 16 + 16 + 16 <> NULL) by (unfold NULL; lia).
  set (p := c + 16 + 16) in *. eapply wp_init_device; [done..|by rewrite P3|done|]. wp_step.
  set (w2 := with_device p init_binding mmbi_at_init h e w).
  assert (D1 : w_bindings w2 !! p = Some (open_binding (p + 16) init_binding)).
  { rewrite <- P1d. apply lookup_insert_eq. }
  assert (D3 : w_mctp w2 = fresh_mctp) by (unfold w2; by rewrite with_device_mctp).
  eapply (wp_context_register _ _ _ (open_binding (p + 16) init_binding) zero_bus);
    [apply Hn|by rewrite D3|by rewrite D3|exact D1|apply Hn|done|done|done].
Qed.

(** The device cannot be opened, or there is no memory for the transmit
    storage. *)
Lemma wp_init_device_fails p path bd m h e (Q : Z -> world D -> Prop) w :
  w_ops w = default_alloc_ops -> w_bindings w !! p = Some bd -> dv_mmbis (w_dev w) !! p = Some m ->
  CreateFileA path (dv_os (w_dev w)) = (h, e) -> h = INVALID_HANDLE_VALUE \/ malloc_ok w = false ->
  (forall rc w', rc <> 0 -> w_heap w' = w_heap w -> w_brk w' = w_brk w -> w_ops w' = w_ops w ->
     w_mctp w' = w_mctp w -> w_trace w' = w_trace w -> Q rc w') ->
  wp (mctp_mmbi_init_device p path) Q w.
Proof.
  intros Hops Hbd Hm Hopen Hfail HQ. unfold mctp_mmbi_init_device. wp_step.
  eapply wp_os_call; [exact Hopen|]. case_decide as Hi; [wp_step; by apply HQ|].
  destruct Hfail as [|Hoom]; [done|].
  unfold upd_mmbi, upd_env, mmbi_set_ops. do 3 wp_step. eapply wp_os_call; [done|]. wp_step.
  eapply wp_mono with (P := fun _ w2 => exists d, w2 = set_w_dev d w).
  { simpl. destruct (GetFileType_is_pipe h e); [|by eexists].
    eapply wp_os_call; [done|]. by eexists. }
  intros _ w2 (d & ->). do 5 wp_step. apply wp_alloc; [done|intros Hok|intros _].
  { unfold malloc_ok in *. simpl in Hok. congruence. }
  wp_steps. by apply HQ.
Qed.

Lemma wp_transport_closed path eid h e os (Q : Z -> world D -> Prop) w w1 :
  let c := w_brk w in
  heap_wf w -> parts_ok c os w1 -> w_heap w1 = w_heap (transport_parts w) ->
  CreateFileA path os = (h, e) -> h = INVALID_HANDLE_VALUE \/ malloc_ok w1 = false ->
  (forall w', w_heap w' = w_heap w -> w_trace w' = w_trace w1 -> Q NULL w') ->
  wp (transport_open c (c + 16) (c + 16 + 16) path eid) Q w1.
Proof.
  intros c Hwf [(P1a & P1b & P1d) P2 P3 P4 P5 P6] Hheap Hopen Hfail HQ.
  assert (Hc : 0 < c) by (by destruct Hwf).
  unfold transport_open. wp_step. eapply wp_init_device_fails; [done..|by rewrite P3|done|].
  intros rc w2 Hrc Hh2 Hb2 Ho2 Hm2 Ht2. wp_step.
  assert (I2 : ctxs_inv w2 (w_heap w1) ∅).
  { destruct P2 as [I1 I2 I3 I4]. split; [by rewrite Ho2| |by rewrite Hh2, Hm2|by rewrite Hm2].
    unfold heap_wf in *. by rewrite Hh2, Hb2. }
  assert (Hh1 : w_heap w1 = <[c + 16 + 16 := fresh_block sizeof_mctp_binding_mmbi]>
    (<[c + 16 := fresh_block sizeof_mctp]> (<[c := fresh_block sizeof_mctp_transport]> (w_heap w)))).
  { by rewrite Hheap. }
  pose proof (heap_wf_malloc sizeof_mctp_transport w Hwf) as H1.
  pose proof (heap_wf_malloc sizeof_mctp _ H1) as H2.
  eapply (wp_release_parts _ _ (w_heap w1) ∅); [done|by rewrite Hm2, P6|unfold NULL; lia..|lia| | |].
  - rewrite Hh1, lookup_insert_ne, lookup_insert_eq by lia. eauto.
  - rewrite Hh1, lookup_insert_eq. eauto.
  - intros w3 Hh3 _ _ Ht3. apply (wp_transport_give_up Q w); [done| |].
    + rewrite Hh3, Hh1. rewrite delete_insert_id by exact (heap_wf_fresh _ H2).
      apply delete_insert_id. exact (heap_wf_fresh _ H1).
    + intros w' Hh' Ht' _. apply HQ; [done|]. by rewrite Ht', Ht3.
Qed.

(** ** The theorems *)

(** The blocks of a transport at [c]: the transport, the stack, the binding and
    the transmit storage. *)
Definition transport_heap (c : Z) (h : gmap Z hobj) : gmap Z hobj :=
  <[c + 16 + 16 + 16 := fresh_block (MCTP_PKTBUF_SIZE 65536)]>
    (<[c + 16 + 16 := fresh_block sizeof_mctp_binding_mmbi]>
      (<[c + 16 := fresh_block sizeof_mctp]> (<[c := fresh_block sizeof_mctp_transport]> h))).

Lemma transport_init_ready path eid h e w :
  w_ops w = default_alloc_ops -> heap_wf w -> mallocs_ok 4 w ->
  CreateFileA path (dv_os (w_dev w)) = (h, e) -> handle_valid h ->
  let c := w_brk w in
  exists w' bd b m, mctp_transport_init path eid w = Ok c w' /\
    opened "transport_rx_handler" c eid h e bd b m w' /\
    dv_transports (w_dev w') !! c = Some (mk_transport (c + 16) (c + 16 + 16) None NULL) /\
    w_trace w' = w_trace w /\ w_mallocs w' = drop 4 (w_mallocs w) /\
    w_heap w' = transport_heap c (w_heap w).
Proof.
  intros Hops Hwf Hmem Hopen Hh c. pose proof (transport_parts_ok w Hops Hwf) as Hp.
  pose proof (transport_parts_malloc w Hmem) as Hok. pose proof Hwf as (Hc & Hal & _).
  assert (Hrx : rx_ready "transport_rx_handler" c (w_dev (transport_parts w))).
  { right. split; [done|]. right. eexists. apply lookup_insert_eq. }
  destruct (opened_ready "transport_rx_handler" c eid h e _ _ Hp Hrx Hc Hal Hh) as (bd & b & m & Ho).
  set (w1 := transport_parts w) in *.
  exists (with_opened "transport_rx_handler" c eid h e w1), bd, b, m. split.
  { apply wp_run. apply wp_transport_parts; [done..| |].
    - intros Hno. exfalso. by apply Hno, mallocs_ok_3.
    - intros _. eapply wp_transport_opens; [done..|apply Hh|done]. }
  split; [exact Ho|].
  pose proof (opened_heap "transport_rx_handler" c eid h e w1) as Eheap.
  split; [apply lookup_insert_eq|]. split; [done|]. split.
  { simpl. by destruct (w_mallocs w) as [|? [|? [|? []]]]. }
  destruct Hp as [(_ & _ & Pd) _ _ _ _ _]. by rewrite Eheap, Pd.
Qed.

(** C23: Opening a transport.  When there is memory and the device opens with the
    handle [h], [mctp_transport_init] returns a transport whose endpoint is
    ready to send and to receive, as one opened by [mctp_mmbi_context_init] is;
    received messages go to [transport_rx_handler] with the transport as its
    data, nothing has been sent or delivered, and the memory in use before is as
    it was. *)
Theorem mctp_transport_init_ready path eid h e w :
  w_ops w = default_alloc_ops -> heap_wf w -> mallocs_ok 4 w ->
  CreateFileA path (dv_os (w_dev w)) = (h, e) -> handle_valid h ->
  let c := w_brk w in
  exists w' bd b m, mctp_transport_init path eid w = Ok c w' /\
    opened "transport_rx_handler" c eid h e bd b m w' /\
    dv_transports (w_dev w') !! c = Some (mk_transport (c + 16) (c + 16 + 16) None NULL) /\
    w_trace w' = w_trace w /\ w_mallocs w' = drop 4 (w_mallocs w) /\
    forall a, a < c -> w_heap w' !! a = w_heap w !! a.
Proof.
  intros Hops Hwf Hmem Hopen Hh c.
  destruct (transport_init_ready path eid h e w Hops Hwf Hmem Hopen Hh)
    as (w' & bd & b & m & Hrun & Ho & Ht & Htr & Hm & Hheap).
  exists w', bd, b, m. do 5 (split; [done|]). intros a Ha. unfold c in *.
  rewrite Hheap. unfold transport_heap. by rewrite !lookup_insert_ne by lia.
Qed.

(** Closing: the binding, the stack and the transport are freed. *)
Lemma wp_transport_destroy c x bd F r (Q : unit -> world D -> Prop) w :
  ctxs_inv w F r -> c <> NULL -> dv_transports (w_dev w) !! c = Some x ->
  tr_mctp x <> NULL -> tr_mmbi x <> NULL -> NoDup [c; tr_mctp x; tr_mmbi x] ->
  is_Some (F !! c) -> is_Some (F !! tr_mctp x) -> is_Some (F !! tr_mmbi x) ->
  w_bindings w !! tr_mmbi x = Some bd ->
  (forall w', w_heap w' = delete c (delete (tr_mctp x) (delete (tr_mmbi x) F)) ->
     dv_os (w_dev w') = dv_os (w_dev w) -> w_trace w' = w_trace w -> Q tt w') ->
  wp (mctp_transport_destroy c) Q w.
Proof.
  intros HI Hc Hx Hm Hp Hd Fc Fm Fp Hbd HQ.
  set (mctp := tr_mctp x) in *. set (p := tr_mmbi x) in *.
  assert (Hne : c <> mctp /\ c <> p /\ mctp <> p).
  { apply NoDup_cons in Hd as [H1 Hd]. apply NoDup_cons in Hd as [H2 _]. set_solver. }
  destruct Hne as (N1 & N2 & N3).
  unfold mctp_transport_destroy. do 2 wp_step.
  eapply wp_ok; [unfold get_transport; by rewrite Hx|].
  fold mctp p. rewrite !decide_True by done. unfold mctp_unregister_bus. do 8 wp_step.
  set (w1 := set_w_bindings _ _).
  assert (I1 : ctxs_inv w1 F r) by (destruct HI; by split).
  eapply (wp_release_parts mctp p F r); [done..|].
  intros w3 Hh3 _ Hd3 Ht3. apply wp_c_free; [by rewrite Hh3, !lookup_delete_ne|..].
  - rewrite Hh3, !lookup_delete_None. do 2 right. by eapply frame_null.
  - apply HQ; simpl; [by rewrite Hh3|by rewrite Hd3|by rewrite Ht3].
Qed.

(** C40: Opening and closing a transport leaks.  Of the four blocks that
    [mctp_transport_init] allocates, [mctp_transport_destroy] frees three: each
    transport opened and closed leaves its transmit storage, a packet buffer of
    65536 bytes, allocated for ever; and the device is not closed. *)
Theorem transport_open_close_leaks path eid h e w :
  w_ops w = default_alloc_ops -> heap_wf w -> mallocs_ok 4 w ->
  CreateFileA path (dv_os (w_dev w)) = (h, e) -> handle_valid h ->
  let c := w_brk w in
  exists w1 w2, mctp_transport_init path eid w = Ok c w1 /\ mctp_transport_destroy c w1 = Ok tt w2 /\
    w_heap w2 = <[c + 16 + 16 + 16 := fresh_block (MCTP_PKTBUF_SIZE 65536)]> (w_heap w) /\
    dv_os (w_dev w2) = dv_os (w_dev w1) /\ w_trace w2 = w_trace w.
Proof.
  intros Hops Hwf Hmem Hopen Hh c. pose proof (fun a => heap_wf_above w a Hwf) as Hfresh. fold c in Hfresh.
  destruct (transport_init_ready path eid h e w Hops Hwf Hmem Hopen Hh)
    as (w1 & bd & b & m & Hrun & Ho & Ht & Htr & _ & Hheap). fold c in Hrun, Ho, Ht, Hheap.
  assert (Hc : 0 < c) by (by destruct Hwf).
  destruct (wp_inv (mctp_transport_destroy c) (fun _ w2 =>
    w_heap w2 = delete c (delete (c + 16) (delete (c + 16 + 16) (w_heap w1))) /\
    dv_os (w_dev w2) = dv_os (w_dev w1) /\ w_trace w2 = w_trace w1) w1) as ([] & w2 & Hrun2 & Hh2 & Hos & Ht2).
  { eapply wp_transport_destroy; [apply Ho|unfold NULL; lia|exact Ht|unfold NULL; simpl; lia..| | | | | |done].
    - simpl. repeat (constructor; [set_unfold; lia|]). constructor.
    - rewrite Hheap. unfold transport_heap. rewrite !lookup_insert_ne, lookup_insert_eq by lia. eauto.
    - rewrite Hheap. unfold transport_heap. simpl.
      rewrite !lookup_insert_ne, lookup_insert_eq by lia. eauto.
    - rewrite Hheap. unfold transport_heap. simpl.
      rewrite !lookup_insert_ne, lookup_insert_eq by lia. eauto.
    - apply (op_open _ _ _ _ _ _ _ _ _ Ho). }
  exists w1, w2. do 2 (split; [done|]). split; [|by rewrite Ht2].
  rewrite Hh2, Hheap. unfold transport_heap.
  rewrite !(delete_insert_ne _ _ (c + 16 + 16 + 16)) by lia. f_equal.
  rewrite !delete_insert_id; [done|apply Hfresh; lia|..].
  all: rewrite ?lookup_insert_ne by lia; apply Hfresh; lia.
Qed.

(** C24: A transport that cannot be opened.  Without memory for one of its parts, or
    for the transmit storage, or when the one attempt at opening the device
    fails, [mctp_transport_init] returns [NULL], and on each of these paths it
    has released exactly what it had allocated: the heap is as it was. *)
Theorem mctp_transport_init_fails path eid h e w :
  w_ops w = default_alloc_ops -> heap_wf w ->
  CreateFileA path (dv_os (w_dev w)) = (h, e) ->
  h = INVALID_HANDLE_VALUE \/ ~ mallocs_ok 4 w ->
  exists w', mctp_transport_init path eid w = Ok NULL w' /\
    w_heap w' = w_heap w /\ w_trace w' = w_trace w.
Proof.
  intros Hops Hwf Hopen Hfail.
  destruct (wp_inv (mctp_transport_init path eid) (fun rc w' => rc = NULL /\
    w_heap w' = w_heap w /\ w_trace w' = w_trace w) w) as (rc & w' & Hrun & -> & H).
  - apply wp_transport_parts; [done..|by intros|]. intros Hmem c.
    eapply wp_transport_closed; [done|by apply transport_parts_ok|done|done| |done].
    destruct Hfail as [|Hno]; [by left|right]. by apply transport_parts_no_malloc.
  - by exists w'.
Qed.
End transport.

(** ** Messages between transports *)

Section calls.
Context {E : Type} `{!WinOps E, !UserOps (mmbi_env E)}.
Local Abbreviation D := (mmbi_env E).
Context `{!ExtAlloc D, !BindingOps D, !RxOps D, !ClockOps D}.
Implicit Types w : world D.

Lemma transport_send_run c x eid msg w :
  dv_transports (w_dev w) !! c = Some x -> c <> NULL -> tr_mctp x <> NULL ->
  mctp_transport_send c eid msg (zlen msg) w = mctp_message_tx (tr_mctp x) eid false 0 msg (zlen msg) w.
Proof.
  intros Hx Hc Hm. unfold mctp_transport_send. rewrite decide_False by done.
  rewrite (bind_run _ _ x w w) by (unfold get_transport; by rewrite Hx). by rewrite decide_False by done.
Qed.

Lemma transport_poll_run c x w :
  dv_transports (w_dev w) !! c = Some x -> c <> NULL -> tr_mmbi x <> NULL ->
  mctp_transport_poll c w = mctp_mmbi_poll (tr_mmbi x) w.
Proof.
  intros Hx Hc Hm. unfold mctp_transport_poll. rewrite decide_False by done.
  rewrite (bind_run _ _ x w w) by (unfold get_transport; by rewrite Hx). by rewrite decide_False by done.
Qed.
End calls.

Section exchange.
Context {E1 E2 : Type} `{!WinOps E1, !WinOps E2}.
Context `{!UserOps (mmbi_env E1), !ExtAlloc (mmbi_env E1), !ClockOps (mmbi_env E1)}.
Context `{!UserOps (mmbi_env E2), !ExtAlloc (mmbi_env E2), !ClockOps (mmbi_env E2)}.
Context (h1 dev1 : Z) (shared1 : E1 -> MMBI_SHARED_CONTEXT) `{!DriverDevice E1 h1 dev1 shared1}.
Context (h2 dev2 : Z) (shared2 : E2 -> MMBI_SHARED_CONTEXT) `{!DriverDevice E2 h2 dev2 shared2}.
Context `{!QuietUser E2 (keeps_driver shared2)}.
Context (put1 : MMBI_SHARED_CONTEXT -> E1 -> E1) (put2 : MMBI_SHARED_CONTEXT -> E2 -> E2).
Hypothesis (Hput1 : forall g e, shared1 (put1 g e) = g).
Hypothesis (Hput2 : forall g e, shared2 (put2 g e) = g).
Hypothesis (Hdevs : dev1 = 0 <-> dev2 <> 0).

Local Abbreviation drv1 w := (shared1 (dv_os (w_dev w))).

(** A system on which the device of the driver can be opened. *)
Record can_open {E} `{!WinOps E} (h : Z) (shared : E -> MMBI_SHARED_CONTEXT) (path : string) (e : E)
    (w : world (mmbi_env E)) : Prop := {
  can_ops : w_ops w = default_alloc_ops;
  can_heap : heap_wf w;
  can_mallocs : w_mallocs w = [];
  can_file : CreateFileA path (dv_os (w_dev w)) = (h, e);
  can_handle : handle_valid h;
  can_pipe : GetFileType_is_pipe h e = false;
  can_shared : shared_wf (shared e);
}.

Lemma transport_opens {E} `{!WinOps E, !UserOps (mmbi_env E), !ExtAlloc (mmbi_env E),
    !ClockOps (mmbi_env E)} h (shared : E -> MMBI_SHARED_CONTEXT) path eid e w :
  can_open h shared path e w ->
  let c := w_brk w in
  exists w' bd b m, mctp_transport_init path eid w = Ok c w' /\
    opened "transport_rx_handler" c eid h e bd b m w' /\ w_mallocs w' = [] /\
    dv_transports (w_dev w') !! c = Some (mk_transport (c + 16) (c + 16 + 16) None NULL) /\
    w_trace w' = w_trace w /\ 0 < c.
Proof.
  intros [H1 H2 H3 H4 H5 _ _] c.
  destruct (transport_init_ready path eid h e w H1 H2) as (w' & bd & b & m & Hrun & Ho & Ht & Htr & Hm & _);
    [unfold mallocs_ok; rewrite H3; constructor|done..|].
  exists w', bd, b, m. rewrite H3 in Hm. do 5 (split; [done|]). by destruct H2.
Qed.

(** C16: From one transport to the other.  Two systems open transports on the two
    devices of a driver that holds nothing; a message of one packet that one
    sends with [mctp_transport_send] is delivered, when the other polls, to its
    [transport_rx_handler], complete, with the EID the sender was opened with,
    as a message without the tag-owner bit and with tag 0. *)
Theorem transport_delivers path1 path2 eid1 eid2 e1 e2 msg
    (wA : world (mmbi_env E1)) (wB : world (mmbi_env E2)) :
  can_open h1 shared1 path1 e1 wA -> can_open h2 shared2 path2 e2 wB ->
  ring_contents (tx_ring dev1 (shared1 e1)) = [] -> eid1 <> MCTP_EID_BROADCAST ->
  zlen msg <= 65536 -> ctrl_request msg = false ->
  let t1 := w_brk wA in let t2 := w_brk wB in
  exists wA1 wB1 wA2 wB2,
    mctp_transport_init path1 eid1 wA = Ok t1 wA1 /\ mctp_transport_init path2 eid2 wB = Ok t2 wB1 /\
    mctp_transport_send t1 eid2 msg (zlen msg) wA1 = Ok 0 wA2 /\
    mctp_transport_poll t2 (sees2 put2 (drv1 wA2) wB1) = Ok 0 wB2 /\
    w_trace wB2 = w_trace wB ++ [EvRx "transport_rx_handler" t2 eid1 false 0 msg].
Proof.
  intros CA CB Hempty Hbc Hl Hctl t1 t2.
  destruct (transport_opens h1 shared1 path1 eid1 e1 wA CA) as (wA1 & bd1 & b1 & m1 & RA & OA & MA & TA & _ & NA).
  destruct (transport_opens h2 shared2 path2 eid2 e2 wB CB) as (wB1 & bd2 & b2 & m2 & RB & OB & MB & TB & LB & NB).
  fold t1 in RA, OA, TA, NA. fold t2 in RB, OB, TB, NB.
  assert (Hch : channel_ready h1 dev1 shared1 h2 shared2 (t1 + 16) (t1 + 16 + 16) eid1
    (t2 + 16) (t2 + 16 + 16) 0 eid2 "transport_rx_handler" t2 wA1 wB1).
  { by eapply opened_channel; [..|done|done]; [done|done|apply CA|apply CA|done|done|apply CB|apply CB]. }
  destruct (exchange_one_delivers h1 dev1 shared1 h2 dev2 shared2 put1 put2 Hput1 Hput2 Hdevs
    _ _ _ _ _ _ _ _ _ (mk_outgoing false 0 msg) wA1 wB1 Hch) as (wA' & wB2 & Hex & _ & Htr).
  { split; [simpl; lia|done]. }
  apply exchange_one_inv in Hex as (wA2 & Hsend & Hpoll & _).
  exists wA1, wB1, wA2, wB2. do 2 (split; [done|]). split; [|split].
  - by rewrite (transport_send_run t1 _ eid2 msg wA1 TA) by (unfold NULL; simpl; lia).
  - rewrite (transport_poll_run t2 (mk_transport (t2 + 16) (t2 + 16 + 16) None NULL))
      by (unfold NULL; simpl; done || lia). exact Hpoll.
  - by rewrite Htr, LB.
Qed.
End exchange.
