(* ===== verification/Transaction.v ===== *)
(** * A control transaction over the driver

    The whole program at work: a request sent with [mctp_message_tx_request] at
    one end of the driver, answered by the control handler of the other end when
    it polls, and the response received, with its tag, when the first end polls. *)

From S2P Require Import Prelude State Alloc Pktbuf Reasm Tags Tx Control Types Rx RxSpec RxRefine.
From S2P Require Import Frag TxRefine TxApi TxRequest ControlSpec ControlRx Bus Mmbi MmbiFacts.
From S2P Require Import MmbiRx MmbiInit Ring Channel.

(** ** The receiving side of a stack that sends *)

(** Sending keeps the table of the messages being received. *)
Lemma ctxs_inv_tx {D} `{!ExtAlloc D} bus bd msgp F r (w w' : world D) :
  ctxs_inv w F r -> is_Some (F !! bd_tx_storage bd) -> is_Some (F !! msgp) ->
  tx_keep bus bd msgp w w' -> heap_wf w' -> exists F', ctxs_inv w' F' r.
Proof.
  intros [Hops Hwf Hrep Hmax] Hst Hmsg Hk Hwf'.
  destruct (rep_change_two _ _ _ _ (w_heap w') (bd_tx_storage bd) msgp Hrep) as (F' & Hrep' & _).
  - by right.
  - by right.
  - intros a H1 H2. by apply (tk_heap _ _ _ _ _ Hk).
  - pose proof (tk_mctp _ _ _ _ _ Hk) as Em. exists F'. split; [|done|by rewrite Em|by rewrite Em].
    by rewrite (tk_ops _ _ _ _ _ Hk).
Qed.

(** A response is not a request. *)
Lemma response_no_request rq rest : ctrl_request (0 :: Z.land rq 31 :: rest) = false.
Proof.
  unfold ctrl_request. destruct rest; [done|].
  rewrite (bool_decide_false (Z.land _ _ <> 0)); [apply andb_false_r|].
  intros H. apply H. rewrite <- Z.land_assoc. apply Z.land_0_r.
Qed.

Lemma spec_ctrl_response eid types rq cmd body :
  ctrl_request (spec_ctrl eid types (0 :: rq :: cmd :: body)).2 = false.
Proof.
  unfold spec_ctrl, spec_set_eid, spec_get_eid, spec_get_version, spec_get_types.
  repeat case_decide; try destruct body as [|? [|? []]]; repeat case_decide;
    apply response_no_request.
Qed.

Lemma spec_ctrl_eid eid types msg :
  eid <> MCTP_EID_BROADCAST -> (spec_ctrl eid types msg).1 <> MCTP_EID_BROADCAST.
Proof.
  intros He. unfold spec_ctrl, spec_set_eid, MCTP_EID_BROADCAST in *.
  destruct msg as [|? [|? [|? body]]]; try done. repeat case_decide; try done.
  destruct body as [|? [|? [|]]]; try done. case_decide; [|done]. simpl. tauto.
Qed.

(** The tag of the request is free again. *)
Lemma dealloc_in_new local remote tag expiry i rs :
  (i < length rs)%nat -> Forall (fun r => ~ tag_match local remote tag r) rs ->
  dealloc_in local remote tag (<[i := mk_req_tag local remote tag expiry]> rs) =
    <[i := mk_req_tag 0 0 0 0]> rs.
Proof.
  intros Hi Hno. unfold dealloc_in.
  assert (Hf : list_find (tag_match local remote tag) (<[i := mk_req_tag local remote tag expiry]> rs)
    = Some (i, mk_req_tag local remote tag expiry)).
  { apply list_find_Some. split; [by apply list_lookup_insert_eq|]. split; [done|].
    intros j y Hj Hlt. rewrite list_lookup_insert_ne in Hj by lia.
    by eapply (Forall_lookup_1 _ _ _ _ Hno). }
  rewrite Hf. apply list_insert_insert_eq.
Qed.

(** ** The responder *)
Section responder.
Context {E : Type} `{!WinOps E, !UserOps (mmbi_env E), !ExtAlloc (mmbi_env E), !ClockOps (mmbi_env E)}.
Context `{!RxOps (mmbi_env E), !RxReady (mmbi_env E), !ApiReady E}.
Context (h dev : Z) (shared : E -> MMBI_SHARED_CONTEXT) `{!DriverDevice E h dev shared}.
Local Abbreviation D := (mmbi_env E).
Local Abbreviation drv d := (shared (dv_os d)).
Local Abbreviation answered_by := (fun rc => rc = 0 \/ rc = - EIO).
Implicit Types w : world D.

(** A new packet buffer, with the lock held. *)
Lemma sender_in_poll mctp b bd bb m n p w :
  sender mmbi_ready mctp b bd bb w -> dv_mmbis (w_dev w) !! b = Some m ->
  handle_valid (mb_device_handle m) ->
  sender mmbi_ready mctp b bd bb (locked b m n (with_new_pkt p w)).
Proof.
  intros [] Hm Hh. split; try done. destruct se_env as [T1 T2 T3 (o & data & T4 & T5) T6].
  pose proof (heap_wf_fresh _ T2) as Hfr. split; [done| |done| |].
  - destruct (heap_wf_dup [] w T2) as (H1 & H2 & H3). split; [done|]. split; [done|].
    intros a Ha. apply H3. simpl in *. rewrite lookup_insert_is_Some' in *. tauto.
  - exists o, data. simpl. rewrite lookup_insert_ne; [done|]. intros E0. congruence.
  - intros f Hf. destruct (T6 f Hf) as [-> _]. split; [done|].
    exists (set_mb_lock (Some n) m). split; [apply lookup_insert_eq|done].
Qed.

Lemma responder_in_poll mctp b bd bb m n p w :
  responder mmbi_ready mctp b bd bb w -> dv_mmbis (w_dev w) !! b = Some m ->
  handle_valid (mb_device_handle m) ->
  responder mmbi_ready mctp b bd bb (locked b m n (with_new_pkt p w)).
Proof.
  intros [Hs H1 H2 H3 H4] Hm Hh.
  split; [by apply sender_in_poll|done|done|simpl; by rewrite H3|done].
Qed.

(** A change of the system's state alone. *)
Lemma responder_os mctp b bd bb e w :
  responder mmbi_ready mctp b bd bb w ->
  responder mmbi_ready mctp b bd bb (set_w_dev (env_os e (w_dev w)) w).
Proof.
  intros [[] H1 H2 H3 H4]. split; try done. split; try done.
  destruct se_env as [T1 T2 T3 T4 T5]. by split.
Qed.

(** The packet of the response. *)
Definition response_packet (bd : mctp_binding) (bb : mctp_bus) (hd : mctp_hdr) (res : Z * list Z)
    : list Z :=
  single_packet bd (set_bus_eid res.1 bb) (src hd) false (fst_tag (flags_seq_tag hd)) res.2.

Lemma wp_driver_answers mctp b bd bb hd rq cmd body w :
  driver_receiver h shared mctp b 0 (bus_eid bb) w -> responder mmbi_ready mctp b bd bb w ->
  mmbi_sized bd -> m_capture (w_mctp w) = None ->
  let msg := 0 :: rq :: cmd :: body in
  next_read dev (drv (w_dev w)) = bytes_of_hdr hd ++ msg ->
  zlen (bytes_of_hdr hd ++ msg) <= 65540 -> rx_accepts (bus_eid bb) hd ->
  fst_flags (flags_seq_tag hd) = Z.lor MCTP_HDR_FLAG_SOM MCTP_HDR_FLAG_EOM ->
  fst_to (flags_seq_tag hd) = true -> Z.land rq 192 = 128 -> cmd < MCTP_CTRL_CMD_FIRST_TRANSPORT ->
  29 <= ring_free dev (drv (w_dev w)) ->
  let res := spec_ctrl (bus_eid bb) (ctrl_types (m_control (w_mctp w))) msg in
  wp (mctp_mmbi_poll b) (fun rc w' => rc = 0 /\ exists g,
    drained dev (bytes_of_hdr hd ++ msg) (drv (w_dev w)) g /\
    queued dev (response_packet bd bb hd res) g (drv (w_dev w')) /\
    exists b', m_busses (w_mctp w') !! 0%nat = Some b' /\ bus_eid b' = res.1) w.
Proof.
  intros [_ Hep Hmem (m & bd' & Ho & Hh) Hg] Hr Hsz Hcap msg Hnext Hlen Hacc Hone Hto Hrq Hcmd Hroom res.
  pose proof Hr as [Hs _ _ _ Hty]. pose proof (se_env _ _ _ _ _ _ Hs) as He.
  pose proof Ho as [Hm Hv (n & Hn & Hn0) Hbd' _]. rewrite (te_binding _ _ _ _ He) in Hbd'.
  injection Hbd' as <-. set (bs := bytes_of_hdr hd ++ msg) in *.
  destruct (mmbi_pkt_ok bd bs Hsz Hlen) as [Hwf Hwire].
  destruct (driver_read h dev shared (dv_os (w_dev w)) Hg) as (e1 & e2 & Hpeek & Hread & Hd).
  rewrite Hnext in Hread, Hd.
  eapply wp_poll_reads; [exact Ho|by rewrite Hh|done|by rewrite Hh|].
  rewrite decide_True by (split; [done|]; unfold bs; rewrite zlen_app; unfold zlen; simpl; lia).
  set (w0 := set_w_dev _ w).
  assert (Hr0 : responder mmbi_ready mctp b bd bb w0) by by apply responder_os.
  eapply (wp_poll_into b m bd n bs _ w0);
    [apply He|apply He|done..|apply (te_binding _ _ _ _ He)|exact Hsz|exact Hlen|].
  set (p := mmbi_pkt bd bs) in *. set (wL := locked b m (n + 1) (with_new_pkt p w0)).
  assert (HrL : responder mmbi_ready mctp b bd bb wL) by by apply responder_in_poll.
  assert (HeL : endpoint mctp b 0 (bus_eid bb) wL) by by apply (endpoint_api _ _ _ _ w).
  eapply wp_mono; [eapply (wp_bus_rx_request mmbi_ready answered_by mctp b bd bb hd rq cmd body _ p wL
    HrL HeL Hcap); [apply lookup_insert_eq|]|].
  { by split. }
  intros [] w2 (w3 & -> & rcs & j & Hans & _ & Hdev & He3 & Hk & b' & Hat & Eid & _).
  fold msg in Hans, Hdev, Hk, Hat, Eid.
  change (spec_ctrl _ _ _) with res in Hans, Hdev, Hk, Hat, Eid.
  set (b1 := set_bus_eid res.1 bb) in *. set (t := sender_params bd b1 _ _ _) in *.
  assert (Hshort : zlen res.2 <= 25).
  { apply spec_ctrl_short. rewrite zlen_ctrl_types by done. apply Hty. }
  assert (Hroom2 : 4 + zlen res.2 <= ring_free dev (shared e2)).
  { unfold ring_free. rewrite (proj1 (proj2 Hd)). unfold ring_free in Hroom. lia. }
  destruct (driver_tx_packet h dev shared b bd b1 _ _ _ res.2 _ rcs j (w_dev wL) (w_dev w3) Hsz
    (lookup_insert_eq _ _ _) Hh (proj1 Hd) ltac:(apply Hs) ltac:(lia) Hroom2 Hans Hdev) as (Hmm & Hq & _).
  split; [simpl; rewrite (objects_mmbis _ _ Hmm); apply lookup_insert_eq|].
  split; [done|]. exists (shared e2). split; [done|]. split; [done|].
  exists b'. split; [|by rewrite Eid].
  simpl. unfold tx_at in Hat. case_decide; [apply Hat|apply (tp_bus _ _ _ _ _ _ _ _ Hat)].
Qed.
End responder.

(** ** The requester *)
Section requester.
Context {E : Type} `{!WinOps E, !UserOps (mmbi_env E), !ExtAlloc (mmbi_env E), !ClockOps (mmbi_env E)}.
Context (h dev : Z) (shared : E -> MMBI_SHARED_CONTEXT) `{!DriverDevice E h dev shared}.
Local Abbreviation D := (mmbi_env E).
Local Abbreviation drv d := (shared (dv_os d)).
Implicit Types w : world D.

Context `{!RxReady D, !ApiReady E}.

(** An endpoint on the driver that can send and receive, with the message [msg]
    in the block [msgp]. *)
Record requester (mctp mmbi : Z) (bd : mctp_binding) (b : mctp_bus) (msgp : Z) (msg : list Z)
    (w : world D) : Prop := {
  rq_sender : driver_sender h shared mctp mmbi bd b w;
  rq_endpoint : endpoint mctp mmbi 0 (bus_eid b) w;
  rq_ctxs : exists F r, ctxs_inv w F r /\ is_Some (F !! bd_tx_storage bd) /\ is_Some (F !! msgp);
  rq_mallocs : w_mallocs w = [];
  rq_open : exists m, mmbi_open mmbi m bd w /\ mb_device_handle m = h;
  rq_capture : m_capture (w_mctp w) = None;
  rq_msg : msg_in msgp msg bd w;
}.

(** What sending leaves of the receiving side. *)
Lemma receiver_after_tx mctp mmbi bd b msgp t msg w w1 w' :
  requester mctp mmbi bd b msgp msg w ->
  w_mctp w1 = set_m_req_tags (m_req_tags (w_mctp w1))
    (set_m_tag_round_robin (m_tag_round_robin (w_mctp w1)) (w_mctp w)) ->
  w1 = set_w_mctp (w_mctp w1) w ->
  objects (w_dev w') = objects (w_dev w) -> shared_wf (drv (w_dev w')) ->
  tx_stands mmbi_ready mmbi 0 bd msgp t msg b (frag_count (tp_mtu t) (zlen msg)) w1 w' ->
  driver_receiver h shared mctp mmbi 0 (bus_eid b) w'.
Proof.
  intros [Hs Hep (F & r & HI & Hst & Hmsg) Hmem (m & [O1 O2 O3 O4 O5] & Hh) _ _] Em Ew Hmm Hg
    (He & Hk & b' & Hat & Eid & Ebm).
  assert (HI1 : ctxs_inv w1 F r).
  { rewrite Ew. destruct HI as [I1 I2 I3 I4]. split; [done|done|simpl; by rewrite Em|].
    simpl. by rewrite Em. }
  destruct (ctxs_inv_tx 0 bd msgp F r w1 w' HI1 Hst Hmsg Hk (te_heap _ _ _ _ He)) as (F' & HI').
  pose proof (tk_mctp _ _ _ _ _ Hk) as Em'. rewrite Em in Em'.
  pose proof (tk_bindings _ _ _ _ _ Hk) as Eb. rewrite Ew in Eb. simpl in Eb.
  unfold tx_at in Hat. rewrite decide_True in Hat by done. destruct Hat as (Hb' & _ & _ & _ & _ & Hbb).
  pose proof Hep as [E1 E2 (b0 & B1 & B2 & B3 & B4) E4 E5].
  rewrite (se_bus _ _ _ _ _ _ (ds_sender _ _ _ _ _ _ _ Hs)) in B1. injection B1 as <-.
  split; [by exists F', r| | | |done].
  - destruct (objects_api _ _ Hmm) as [Hc Htr].
    split; [done|by rewrite Em'| |by rewrite Eb|].
    2: { apply (rx_can_api w); [by rewrite Em'..|done|done|done]. }
    exists b'. split; [done|]. split; [congruence|]. by split.
  - rewrite (tk_mallocs _ _ _ _ _ Hk), Ew. exact Hmem.
  - exists m, bd. split; [|done]. split; [by rewrite (objects_mmbis _ _ Hmm)|done|done|by rewrite Eb|done].
Qed.

(** The calls made for a message of one packet. *)
Lemma tx_log_packet mmbi bd b eid to tag msg m :
  let t := sender_params bd b eid to tag in
  m_capture m = None -> mmbi_sized bd -> 0 <= bus_tx_seq b < 4 -> zlen msg <= 65536 ->
  tx_log mmbi t msg m 0 (replicate (Z.to_nat (frag_count (tp_mtu t) (zlen msg))) 0) =
    [EvTx mmbi (single_packet bd b eid to tag msg) 0].
Proof.
  intros t Hcap Hsz Hs Hl. pose proof (zlen_nonneg msg).
  assert (Hmtu : tp_mtu t = 65536) by (simpl; rewrite (proj1 Hsz); by vm_compute).
  rewrite frag_count_one by lia. simpl. unfold tx_events, capture_of. rewrite Hcap.
  rewrite one_fragment by (simpl in *; lia). done.
Qed.

(** A request of one packet. *)
Lemma driver_request mctp mmbi bd b eid now tag i msgp msg w :
  requester mctp mmbi bd b msgp msg w -> bus_eid b <> 0 -> clock_reads now w ->
  tags_range (m_req_tags (w_mctp w)) -> request_tag now eid b (w_mctp w) = Some (tag, i) ->
  zlen msg <= 65536 -> 4 + zlen msg <= ring_free dev (drv (w_dev w)) ->
  let pkt := single_packet bd b eid true tag msg in
  exists w', mctp_message_tx_request mctp eid msgp (zlen msg) true w = Ok (0, Some tag) w' /\
    0 <= tag < 8 /\ (i < length (m_req_tags (w_mctp w)))%nat /\
    queued dev pkt (drv (w_dev w)) (drv (w_dev w')) /\
    w_trace w' = w_trace w ++ [EvTx mmbi pkt 0] /\
    driver_receiver h shared mctp mmbi 0 (bus_eid b) w' /\
    exists bs, w_mctp w' = set_m_busses bs (w_mctp (after_alloc_tag now (bus_eid b) eid tag i w)).
Proof.
  intros Hr He Hclock Hrange Htag Hl Hroom pkt. pose proof Hr as [Hds _ _ _ _ Hcap Hin].
  pose proof Hds as [Hs Hm Hsz Hg].
  pose proof (tag_choice_spec now (bus_eid b) eid (m_tag_round_robin (w_mctp w)) _ Hrange) as Hch.
  unfold request_tag in Htag. rewrite Htag in Hch. destruct Hch as ((r0 & Hi & _) & Ht & _).
  pose proof (sender_after_alloc_tag mmbi_ready mctp mmbi bd b now eid tag i w Hs) as Hs1.
  set (w1 := after_alloc_tag now (bus_eid b) eid tag i w) in *.
  destruct (wp_inv _ _ _ (wp_message_tx_alloced mmbi_ready (fun rc => rc = 0 \/ rc = - EIO) mctp mmbi
    bd b eid true tag msgp msg w1 Hs1 Ht ltac:(lia) Hin))
    as (rc & w' & Hrun & -> & rcs & j & Hans & Htr & Hdev & Hst).
  pose proof (se_seq _ _ _ _ _ _ Hs) as Hseq. destruct Hm as (m & Hm & Hh).
  destruct (driver_tx_packet h dev shared mmbi bd b eid true tag msg m rcs j (w_dev w1) _ Hsz Hm Hh Hg
    Hseq Hl Hroom Hans Hdev) as (Hmm & Hq & -> & ->).
  exists w'. split; [exact (tx_request_run mmbi_ready mctp mmbi bd b eid now msgp (zlen msg) true tag i 0 w w'
    Hs He Hclock Htag Hrun)|].
  split; [done|]. split; [by eapply lookup_lt_Some|]. split; [done|]. split; [|split].
  - rewrite Htr. rewrite tx_log_packet by done. done.
  - eapply (receiver_after_tx mctp mmbi bd b msgp _ msg w w1); try done. apply Hq.
  - eexists. apply (tk_mctp _ _ _ _ _ (proj1 (proj2 Hst))).
Qed.

(** The response is received. *)
Lemma requester_step `{!RxOps D, !QuietRx D, !KeepOps D (keeps_driver shared)}
    mctp mmbi eid f tag bd2 b2 resp w :
  driver_receiver h shared mctp mmbi 0 eid w ->
  next_read dev (drv (w_dev w)) = single_packet bd2 b2 eid false tag resp ->
  bus_eid b2 <> MCTP_EID_BROADCAST -> 0 <= bus_tx_seq b2 < 4 -> 0 <= tag < 8 ->
  zlen resp <= 65536 -> ctrl_request resp = false -> eid <> 0 ->
  m_capture (w_mctp w) = None -> m_message_rx (w_mctp w) = Some f ->
  exists w', mctp_mmbi_poll mmbi w = Ok 0 w' /\
    w_trace w' = w_trace w ++
      [EvRx f (m_message_rx_data (w_mctp w)) (bus_eid b2) false tag resp] /\
    m_req_tags (w_mctp w') = dealloc_in eid (bus_eid b2) tag (m_req_tags (w_mctp w)).
Proof.
  intros Hr Hnext Hbc Hseq Ht Hl Hctl He Hcap Hf.
  destruct (dr_ctxs _ _ _ _ _ _ _ Hr) as (F & r & HI). pose proof (zlen_nonneg resp) as Hn.
  pose proof (driver_polls h dev shared mctp mmbi 0 eid F r w Hr HI) as Hp.
  cbv zeta in Hp. rewrite Hnext, spec_rx_single_packet in Hp by done.
  destruct (wp_inv _ _ _ (Hp ltac:(rewrite zlen_single_packet; lia) ltac:(by intros dl [= <-])))
    as (rc & w' & Hrun & -> & _ & _ & Htr & ctxs & Em).
  exists w'. split; [done|]. rewrite Htr, Em. unfold capture_events, capture_of, delivery_events.
  rewrite Hcap, Hf. split; [by case_decide|]. simpl. unfold delivery_tags. simpl.
  by rewrite decide_False.
Qed.
End requester.

(** ** Both *)
Section transaction.
Context {E1 E2 : Type} `{!WinOps E1, !WinOps E2}.
Context `{!UserOps (mmbi_env E1), !ExtAlloc (mmbi_env E1), !ClockOps (mmbi_env E1)}.
Context `{!UserOps (mmbi_env E2), !ExtAlloc (mmbi_env E2), !ClockOps (mmbi_env E2)}.
Context (h1 dev1 : Z) (shared1 : E1 -> MMBI_SHARED_CONTEXT) `{!DriverDevice E1 h1 dev1 shared1}.
Context (h2 dev2 : Z) (shared2 : E2 -> MMBI_SHARED_CONTEXT) `{!DriverDevice E2 h2 dev2 shared2}.
Context `{!RxOps (mmbi_env E1), !RxReady (mmbi_env E1), !QuietRx (mmbi_env E1), !ApiReady E1}.
Context `{!KeepOps (mmbi_env E1) (keeps_driver shared1)}.
Context `{!RxOps (mmbi_env E2), !RxReady (mmbi_env E2), !ApiReady E2}.
Context (put1 : MMBI_SHARED_CONTEXT -> E1 -> E1) (put2 : MMBI_SHARED_CONTEXT -> E2 -> E2).
Hypothesis (Hput1 : forall g e, shared1 (put1 g e) = g).
Hypothesis (Hput2 : forall g e, shared2 (put2 g e) = g).
Hypothesis (Hdevs : dev1 = 0 <-> dev2 <> 0).

Local Abbreviation drv1 w := (shared1 (dv_os (w_dev w))).
Local Abbreviation drv2 w := (shared2 (dv_os (w_dev w))).

(** An endpoint that answers control requests. *)
Record control_endpoint (mctp mmbi : Z) (bd : mctp_binding) (b : mctp_bus)
    (w : world (mmbi_env E2)) : Prop := {
  ce_receiver : driver_receiver h2 shared2 mctp mmbi 0 (bus_eid b) w;
  ce_responder : responder mmbi_ready mctp mmbi bd b w;
  ce_sized : mmbi_sized bd;
  ce_capture : m_capture (w_mctp w) = None;
  ce_eid : bus_eid b <> MCTP_EID_BROADCAST;
}.

(** A ring in which there is nothing. *)
Definition idle_driver (g : MMBI_SHARED_CONTEXT) : Prop :=
  shared_wf g /\ ring_contents (HostToBmc g) = [] /\ ring_contents (BmcToHost g) = [].

(** The request reaches the responder, and its response the driver. *)
Lemma responder_step mctp mmbi bd b tag eidA g rq cmd body pkt bdA bA w :
  control_endpoint mctp mmbi bd b w ->
  let msg := 0 :: rq :: cmd :: body in
  pkt = single_packet bdA bA (bus_eid b) true tag msg -> bus_eid bA = eidA ->
  eidA <> MCTP_EID_BROADCAST -> 0 <= tag < 8 -> 0 <= bus_tx_seq bA < 4 -> zlen msg <= 65536 ->
  Z.land rq 192 = 128 -> cmd < MCTP_CTRL_CMD_FIRST_TRANSPORT ->
  shared_wf g -> ring_contents (tx_ring dev1 g) = pkt -> ring_contents (rx_ring dev1 g) = [] ->
  let res := spec_ctrl (bus_eid b) (ctrl_types (m_control (w_mctp w))) msg in
  exists w', mctp_mmbi_poll mmbi (sees2 put2 g w) = Ok 0 w' /\ shared_wf (drv2 w') /\
    ring_contents (rx_ring dev1 (drv2 w')) =
      single_packet bd (set_bus_eid res.1 b) eidA false tag res.2 /\
    exists b', m_busses (w_mctp w') !! 0%nat = Some b' /\ bus_eid b' = res.1.
Proof.
  intros [Hrc Hrs Hsz Hcap Hbc] msg Hpkt HeA HbcA Ht Hseq Hl Hrq Hcmd Hg Hc1 Hc2 res.
  set (hd := mk_hdr (Z.land (bd_version bdA) 15) (bus_eid b) (bus_eid bA)
    (tx_flags_seq_tag true tag (bus_tx_seq bA) true true)).
  destruct (flags_decode true tag (bus_tx_seq bA) true true Ht Hseq) as (D1 & D2 & D3 & _).
  assert (Hhd : pkt = bytes_of_hdr hd ++ msg) by exact Hpkt.
  assert (Hz : zlen pkt = 4 + zlen msg) by (rewrite Hpkt; apply zlen_single_packet).
  assert (Hlen : zlen (bytes_of_hdr hd ++ msg) <= 65540) by (rewrite <- Hhd; lia).
  assert (Hrx : rx_ring dev2 g = tx_ring dev1 g) by by apply (peer_rx dev1 dev2).
  assert (Htx : tx_ring dev2 g = rx_ring dev1 g) by by apply (peer_tx dev1 dev2).
  assert (Hfree : ring_free dev2 g = RING_BUFFER_SIZE) by (apply empty_ring_free; congruence).
  pose proof (driver_receiver_sees h2 shared2 put2 Hput2 mctp mmbi 0 (bus_eid b) g w Hg Hrc) as Hr0.
  pose proof (responder_os mctp mmbi bd b (put2 g (dv_os (w_dev w))) w Hrs) as Hs0.
  set (wS := sees2 put2 g w) in *. change (set_w_dev _ w) with wS in Hs0.
  assert (Eg : drv2 wS = g) by apply Hput2.
  assert (Hnext : next_read dev2 (drv2 wS) = bytes_of_hdr hd ++ msg).
  { unfold next_read. rewrite Eg, Hrx, Hc1, slice_all by lia. exact Hhd. }
  destruct (wp_inv _ _ _ (wp_driver_answers h2 dev2 shared2 mctp mmbi bd b hd rq cmd body wS Hr0 Hs0 Hsz
    Hcap Hnext Hlen ltac:(split; [simpl; congruence|by left])
    ltac:(exact D1) ltac:(exact D2) Hrq Hcmd ltac:(rewrite Eg, Hfree; done)))
    as (rc & w' & Hrun & -> & g2 & (Hg2 & Ht2 & Hd2) & (Hg3 & _ & Hq) & Hb').
  exists w'. split; [done|]. split; [done|]. split; [|done].
  rewrite <- (peer_tx dev1 dev2 Hdevs), Hq, Ht2, Eg, Htx, Hc2. unfold response_packet. simpl.
  rewrite D3. by rewrite HeA.
Qed.

(** C9: A control transaction.  A control request sent with
    [mctp_message_tx_request] by an endpoint on the driver gets its response:
    after one poll at each end the requester's application has been given, under
    the request's tag, the response the control specification gives, the
    responder has the endpoint ID it gives, and the tag is free again when the
    response comes from the endpoint ID the request was sent to and no older entry
    has the same endpoints and tag.  (The response
    to Set Endpoint ID comes from the new one, so that its tag stays taken.) *)
Theorem control_transaction mctp1 mmbi1 bd1 b1 mctp2 mmbi2 bd2 b2 now tag i msgp rq cmd body f
    (wA : world (mmbi_env E1)) (wB : world (mmbi_env E2)) :
  let msg := 0 :: rq :: cmd :: body in let rs := m_req_tags (w_mctp wA) in
  requester h1 shared1 mctp1 mmbi1 bd1 b1 msgp msg wA -> control_endpoint mctp2 mmbi2 bd2 b2 wB ->
  idle_driver (drv1 wA) -> m_message_rx (w_mctp wA) = Some f ->
  bus_eid b1 <> 0 -> bus_eid b1 <> MCTP_EID_BROADCAST ->
  clock_reads now wA -> tags_range rs -> request_tag now (bus_eid b2) b1 (w_mctp wA) = Some (tag, i) ->
  Z.land rq 192 = 128 -> cmd < MCTP_CTRL_CMD_FIRST_TRANSPORT -> zlen msg <= 65536 ->
  let res := spec_ctrl (bus_eid b2) (ctrl_types (m_control (w_mctp wB))) msg in
  let request := single_packet bd1 b1 (bus_eid b2) true tag msg in
  exists wA1 wB' wA',
    mctp_message_tx_request mctp1 (bus_eid b2) msgp (zlen msg) true wA = Ok (0, Some tag) wA1 /\
    mctp_mmbi_poll mmbi2 (sees2 put2 (drv1 wA1) wB) = Ok 0 wB' /\
    mctp_mmbi_poll mmbi1 (sees1 put1 (drv2 wB') wA1) = Ok 0 wA' /\
    w_trace wA' = w_trace wA ++ [EvTx mmbi1 request 0;
      EvRx f (m_message_rx_data (w_mctp wA)) res.1 false tag res.2] /\
    (exists b', m_busses (w_mctp wB') !! 0%nat = Some b' /\ bus_eid b' = res.1) /\
    (res.1 = bus_eid b2 -> Forall (fun r => ~ tag_match (bus_eid b1) (bus_eid b2) tag r) rs ->
       m_req_tags (w_mctp wA') = <[i := mk_req_tag 0 0 0 0]> rs).
Proof.
  intros msg rs Hrq Hce (Hg & Hi1 & Hi2) Hf He Hbc Hclock Hrange Htag Hreq Hcmd Hl res request.
  assert (Hidle : ring_contents (tx_ring dev1 (drv1 wA)) = [] /\
    ring_contents (rx_ring dev1 (drv1 wA)) = []) by (unfold tx_ring, rx_ring; by case_decide).
  destruct Hidle as [Htx Hrx]. pose proof (empty_ring_free dev1 _ Hg Htx) as Hfree.
  destruct (driver_request h1 dev1 shared1 mctp1 mmbi1 bd1 b1 (bus_eid b2) now tag i msgp msg wA Hrq
    He Hclock Hrange Htag Hl ltac:(rewrite Hfree; unfold RING_BUFFER_SIZE; lia))
    as (wA1 & Hrun1 & Ht & Hi & (Hg1 & Hr1 & Hc1) & Htr1 & Hrcv & bs & Em1).
  rewrite Htx, app_nil_l in Hc1. fold request in Hc1, Htr1.
  pose proof (se_seq _ _ _ _ _ _ (ds_sender _ _ _ _ _ _ _ (rq_sender _ _ _ _ _ _ _ _ _ Hrq))) as Hseq.
  destruct (responder_step mctp2 mmbi2 bd2 b2 tag (bus_eid b1) (drv1 wA1) rq cmd body request bd1 b1 wB
    Hce eq_refl eq_refl Hbc Ht Hseq Hl Hreq Hcmd Hg1 Hc1 ltac:(by rewrite Hr1))
    as (wB' & Hrun2 & Hg2 & Hc2 & Hb'). fold msg in Hc2, Hb'. fold res in Hc2, Hb'.
  pose proof (driver_receiver_sees h1 shared1 put1 Hput1 mctp1 mmbi1 0 (bus_eid b1) (drv2 wB') wA1 Hg2
    Hrcv) as Hr0.
  set (wS := sees1 put1 (drv2 wB') wA1) in *.
  assert (Em : w_mctp wS = set_m_busses bs
    (w_mctp (after_alloc_tag now (bus_eid b1) (bus_eid b2) tag i wA))) by exact Em1.
  assert (Hshort : zlen res.2 <= 25).
  { apply spec_ctrl_short. pose proof (rs_types _ _ _ _ _ _ (ce_responder _ _ _ _ _ Hce)) as Hty.
    rewrite zlen_ctrl_types by done. apply Hty. }
  destruct (requester_step h1 dev1 shared1 mctp1 mmbi1 (bus_eid b1) f tag bd2 (set_bus_eid res.1 b2)
    res.2 wS Hr0) as (wA' & Hrun3 & Htr3 & Htags); try done; try lia.
  { unfold next_read. replace (drv1 wS) with (drv2 wB') by (symmetry; apply Hput1).
    rewrite Hc2, slice_all; [done|]. rewrite zlen_single_packet. lia. }
  { apply spec_ctrl_eid, Hce. }
  { apply Hce. }
  { apply spec_ctrl_response. }
  { rewrite Em. apply Hrq. }
  { by rewrite Em. }
  exists wA1, wB', wA'. do 3 (split; [done|]). rewrite Em in Htr3, Htags. split; [|split; [done|]].
  - rewrite Htr3. change (w_trace wS) with (w_trace wA1). by rewrite Htr1, <- app_assoc.
  - intros Hsame Hno. rewrite Htags. simpl. rewrite Hsame. by apply dealloc_in_new.
Qed.
End transaction.

(** ** Endpoints opened at both ends *)
Section opening.
Context {E : Type} `{!WinOps E, !UserOps (mmbi_env E), !ExtAlloc (mmbi_env E), !ClockOps (mmbi_env E)}.
Context (h : Z) (shared : E -> MMBI_SHARED_CONTEXT).
Implicit Types w : world (mmbi_env E).

(** An endpoint opened on the driver, with a copy of [msg] in a new block, can
    send it as a request. *)
Lemma opened_requester cb c eid e bd b m msg w :
  opened cb c eid h e bd b m w -> w_mallocs w = [] ->
  GetFileType_is_pipe h e = false -> shared_wf (shared e) ->
  requester h shared (c + 16) (c + 16 + 16) bd b (w_brk w) msg (after_dup msg w).
Proof.
  intros Hop Hmem Hpipe Hg.
  destruct (opened_driver h shared _ _ _ _ _ _ _ w Hop Hmem Hpipe Hg) as (Hos & Hds & _).
  destruct Hop as [HI Hep Ho Hm Hs Hb _ (bs & Em)].
  destruct (sender_after_dup mmbi_ready _ _ bd b msg w Hs) as [Hs' Hin].
  pose proof (se_env _ _ _ _ _ _ Hs) as [T1 T2 T3 (o & data & T4 & _) _].
  pose proof (heap_wf_fresh _ T2) as Hfr. split; try done.
  - split; [done| |apply Ho|by simpl; rewrite Hos]. exists m. split; [apply Ho|done].
  - rewrite Hb. by apply (endpoint_api _ _ _ _ w).
  - exists (<[w_brk w := HBytes msg]> (w_heap w)), ∅. split; [|split].
    + destruct HI as [I1 I2 I3 I4]. split; [done|apply Hs'|by apply rep_frame|done].
    + rewrite lookup_insert_ne; [by eexists|]. congruence.
    + rewrite lookup_insert_eq. by eexists.
  - simpl. by rewrite Hmem.
  - exists m. split; [|done]. destruct Ho. by split.
  - simpl. by rewrite Em.
Qed.

(** An endpoint opened on the driver answers control requests. *)
Lemma opened_control_endpoint cb c eid e bd b m w :
  opened cb c eid h e bd b m w -> w_mallocs w = [] ->
  GetFileType_is_pipe h e = false -> shared_wf (shared e) -> eid <> MCTP_EID_BROADCAST ->
  control_endpoint h shared (c + 16) (c + 16 + 16) bd b w.
Proof.
  intros Hop Hmem Hpipe Hg Heid.
  destruct (opened_driver h shared _ _ _ _ _ _ _ w Hop Hmem Hpipe Hg) as (_ & _ & Hr).
  destruct Hop as [HI Hep Ho Hm Hs Hb _ (bs & Em)].
  destruct (ep_bus _ _ _ _ _ Hep) as (b0 & B1 & B2 & _). rewrite (se_bus _ _ _ _ _ _ Hs) in B1.
  injection B1 as <-. destruct (ep_binding _ _ _ _ _ Hep) as (bd0 & D1 & _ & D3).
  rewrite (mo_binding _ _ _ _ Ho) in D1. injection D1 as <-.
  split; [by rewrite Hb|split; try done|apply Ho|by rewrite Em|by rewrite Hb].
  rewrite Em. split; [done|by vm_compute|apply NoDup_singleton].
Qed.
End opening.
