(* ===== verification/Concrete.v ===== *)
(** * A concrete environment

    Bindings, callbacks and a clock that do nothing but answer, a loop-back
    binding as in tests/test-utils.c, and worlds set up through the API.  The
    examples replay unit tests of the repository on the model; the worlds also
    serve as witnesses that the hypotheses of the theorems can be met. *)

From S2P Require Import Prelude State Alloc Pktbuf Reasm Tags Tx Control Rx Bus.

(** No custom allocator. *)
Definition no_ext_alloc D : ExtAlloc D := {|
  xa_alloc _ _ := stuck BadCall; xa_free _ _ := stuck BadCall;
  xa_msg_alloc _ _ _ := stuck BadCall; xa_msg_free _ _ _ := stuck BadCall |}.

(** A binding that answers [rc]; callbacks that return; the clock [clk]. *)
Definition const_binding {D} (rc : Z) : BindingOps D := {|
  bop_tx _ _ _ := mret rc; bop_capture _ _ _ _ := mret tt |}.
Definition silent_rx {D} : RxOps D := {| rop_rx _ _ _ _ _ _ _ := mret tt |}.
Definition rx_always {D} : RxReady D := fun _ _ _ => True.
Definition const_clock {D} : ClockOps D := {|
  GetTickCount64 := mret 1000; cop_now _ ctx := mret ctx |}.
Definition no_start : StartOps unit := {| sop_start _ _ := mret 0 |}.

#[export] Existing Instance no_ext_alloc.
#[export] Existing Instance silent_rx | 100.
#[export] Existing Instance rx_always | 100.
#[export] Existing Instance const_clock.
#[export] Existing Instance no_start.

(** Before anything has run: two bindings as the tests set them up, with their
    transmit storage in blocks 16 and 32. *)
Definition test_binding (storage : Z) : mctp_binding :=
  mk_binding 1 None NULL (MCTP_PACKET_SIZE MCTP_BTU) 0 0 storage None
    (Some "tx"%string) (Some "control_rx"%string) 7.

Definition B0 := 1000.
Definition B1 := 2000.

Definition world0 : world unit :=
  mk_world {[ 16 := HBytes (replicate 108 0); 32 := HBytes (replicate 108 0) ]} 48 []
    default_alloc_ops zero_mctp {[ B0 := test_binding 16; B1 := test_binding 32 ]} [] tt.

Definition exec {D A} (m : M (world D) A) (w : world D) : option (A * world D) :=
  match m w with Ok a w => Some (a, w) | Stuck _ => None end.

Definition exec_trace {D A} (m : M (world D) A) (w : world D) : option (list event) :=
  match m w with Ok _ w => Some (w_trace w) | Stuck _ => None end.

(** [mctp_test_stack_init]: an endpoint with EID [eid] on binding [B0], with
    messages limited to 4 packets so that the witnesses stay small. *)
Definition stack_init (eid : Z) : M (world unit) Z :=
  mctp ← mctp_init;
  mctp_set_max_message_size mctp 256;;
  mctp_register_bus mctp B0 eid;;
  mctp_binding_set_tx_enabled (BindingOps0 := const_binding 0) B0 true;;
  mctp_set_rx_all mctp (Some "rx"%string) 5;;
  mret mctp.

(** [mctp_binding_test_rx_raw] *)
Definition rx_raw `{!BindingOps unit} (binding : Z) (bs : list Z) : M (world unit) unit :=
  pkt ← mctp_pktbuf_alloc binding (zlen bs);
  p ← load_pkt pkt;
  pkt_write pkt (mctp_pktbuf_hdr p) bs;;
  mctp_bus_rx binding pkt;;
  mctp_pktbuf_free pkt.

Fixpoint seqM {D} (l : list (M (world D) unit)) : M (world D) unit :=
  match l with [] => mret tt | m :: l => m;; seqM l end.

Module Tests.
#[local] Instance ops : BindingOps unit := const_binding 0.

(** tests/test_eid.c *)
Example test_eid :
  exec_trace (stack_init 8;; rx_raw B0 [0; 8; 9; 192; 1]) world0
    = Some [EvRx "rx" 5 9 false 0 [1]] /\
  exec_trace (stack_init 8;; rx_raw B0 [0; 10; 9; 192; 1]) world0 = Some [].
Proof. split; vm_compute; reflexivity. Qed.

(** tests/test_seq.c: packets from 9 to 8 with the given flag bytes. *)
Definition run_seq (flags : list Z) :=
  exec_trace (stack_init 8;;
    seqM (imap (fun i f => rx_raw B0 [0; 8; 9; f; Z.of_nat i]) flags)) world0.

Example test_seq :
  run_seq [208] = Some [EvRx "rx" 5 9 false 0 [0]] /\
  run_seq [144; 96] = Some [EvRx "rx" 5 9 false 0 [0; 1]] /\
  run_seq [144; 32; 112] = Some [EvRx "rx" 5 9 false 0 [0; 1; 2]] /\
  run_seq [176; 64] = Some [EvRx "rx" 5 9 false 0 [0; 1]] /\
  run_seq [144; 112] = Some [].
Proof. repeat split; vm_compute; reflexivity. Qed.

(** tests/test_cmds.c: a transport control message goes to [control_rx]. *)
Example test_cmds :
  exec_trace (stack_init 9;; rx_raw B0 [0; 9; 10; 192; 0; 128; 242]) world0
    = Some [EvCtrlRx "control_rx" 7 10 false 0 [0; 128; 242]].
Proof. vm_compute. reflexivity. Qed.

(** Get Endpoint ID, answered by the control handler. *)
Example test_get_eid :
  exec_trace (stack_init 9;; rx_raw B0 [0; 9; 10; 203; 0; 129; 2]) world0
    = Some [EvTx B0 [1; 10; 9; 195; 0; 1; 2; 0; 9; 1; 0] 0].
Proof. vm_compute. reflexivity. Qed.

(** tests/test_bridge.c *)
Definition bridge_init : M (world unit) Z :=
  mctp ← mctp_init;
  mctp_bridge_busses mctp B0 B1;;
  mctp_binding_set_tx_enabled B0 true;;
  mctp_binding_set_tx_enabled B1 true;;
  mret mctp.

Example test_bridge :
  exec_trace (bridge_init;; rx_raw B0 [0; 2; 1; 192; 170];; rx_raw B1 [0; 2; 1; 192; 85]) world0
    = Some [EvTx B1 [1; 2; 1; 192; 170] 0; EvTx B0 [1; 2; 1; 192; 85] 0].
Proof. vm_compute. reflexivity. Qed.

(** The loop-back binding of tests/test-utils.c: [tx] hands the packet back
    to [mctp_bus_rx], to a nesting depth of [n]. *)
Definition loopback_tx (n : nat) : string -> Z -> Z -> M (world unit) Z :=
  nat_rect (fun _ => string -> Z -> Z -> M (world unit) Z)
    (fun _ _ _ => stuck OutOfFuel)
    (fun _ tx _ b pkt =>
       mctp_bus_rx (BindingOps0 := {| bop_tx := tx; bop_capture _ _ _ _ := mret tt |}) b pkt;;
       mret 0) n.
Definition loopback : BindingOps unit :=
  {| bop_tx := loopback_tx 3; bop_capture _ _ _ _ := mret tt |}.

(** [mctp_core_test_tx_alloc_tag] of tests/test_core.c: eight requests take
    the eight tags, the ninth is refused; a reply to tag 3 makes that tag
    available again. *)
Definition request (mctp : Z) : M (world unit) (Z * option Z) :=
  msg ← __mctp_alloc 10;
  mctp_message_tx_request (BindingOps0 := loopback) mctp 30 msg 10 true.

Definition test_tags : M (world unit) (list (Z * option Z)) :=
  mctp ← stack_init 30;
  rs ← (fix go (n : nat) := match n with
        | O => mret []
        | S n => r ← request mctp; rs ← go n; mret (r :: rs) end) 9%nat;
  msg ← __mctp_alloc 10;
  rc ← mctp_message_tx_alloced (BindingOps0 := loopback) mctp 30 false 3 msg 10;
  r ← request mctp;
  mret (rs ++ [(rc, None); r]).

Example test_tx_alloc_tag :
  fst <$> exec test_tags world0 =
    Some [(0, Some 0); (0, Some 1); (0, Some 2); (0, Some 3); (0, Some 4); (0, Some 5);
          (0, Some 6); (0, Some 7); (- EBUSY, None); (0, None); (0, Some 3)].
Proof. vm_compute. reflexivity. Qed.
End Tests.
