(* ===== verification/Witnesses.v ===== *)
(** * Witnesses

    The theorems about the stack applied to stacks set up through the API, with
    their hypotheses established by computation. *)

From S2P Require Import Prelude State Alloc Pktbuf Reasm Tags Tx Control Rx RxSpec RxRefine.
From S2P Require Import Frag TxRefine TxApi E2E Bus Concrete.

(** ** Checking the invariants by computation *)

Definition heap_check {D} (w : world D) : bool :=
  bool_decide (0 < w_brk w) && bool_decide (w_brk w mod 16 = 0) &&
  bool_decide (map_Forall (fun a _ => 0 < a < w_brk w) (w_heap w)).

Lemma heap_check_ok {D} (w : world D) : heap_check w = true -> heap_wf w.
Proof.
  unfold heap_check. rewrite !andb_true_iff, !bool_decide_eq_true. intros [[H1 H2] H3].
  split; [done|]. split; [done|]. intros a [o Ho]. by apply (H3 a o).
Qed.

(** A table of free contexts represents the empty map. *)
Definition free_ctxs (cs : list mctp_msg_ctx) : bool :=
  bool_decide (length cs = 16%nat) && bool_decide (Forall (fun c => ~ ctx_live c) cs).

Lemma free_ctxs_ok cs h : free_ctxs cs = true -> reasm_rep h cs h ∅.
Proof.
  unfold free_ctxs. rewrite andb_true_iff, !bool_decide_eq_true. intros [Hn Hf]. by apply rep_empty.
Qed.

Definition endpoint_check {D} (w : world D) : bool :=
  heap_check w && free_ctxs (m_msg_ctxs (w_mctp w)).

Lemma endpoint_ctxs {D} (w : world D) :
  endpoint_check w = true -> w_ops w = default_alloc_ops ->
  0 <= m_max_message_size (w_mctp w) < SIZE_MOD -> ctxs_inv w (w_heap w) ∅.
Proof.
  unfold endpoint_check. rewrite andb_true_iff. intros [H1 H2] Hops Hmax.
  split; [done|by apply heap_check_ok|by apply free_ctxs_ok|done].
Qed.

#[export] Instance const_quiet_tx rc : 
  QuietTx (BindingOps0 := const_binding rc) unit (fun _ _ _ => True) (eq rc).
Proof.
  split; [|done]. intros f b pkt p w _ _ _. exists rc, (w_dev w). do 2 (split; [done|]). by destruct w.
Qed.
#[export] Instance const_quiet_capture rc : QuietCapture (BindingOps0 := const_binding rc) unit.
Proof. split. intros f pkt out data w. exists (w_dev w). by destruct w. Qed.
#[export] Instance silent_quiet_rx : QuietRx unit.
Proof. split. intros. exists (w_dev w). by destruct w. Qed.

#[export] Instance const_keep rc : KeepOps (BindingOps0 := const_binding rc) unit eq.
Proof. split; [apply _|done|by intros; destruct (w_dev w), (w_dev w')..]. Qed.

#[export] Instance const_tx_effect rc :
  TxEffect (BindingOps0 := const_binding rc) unit (fun _ _ _ => True) (fun _ _ _ => eq).
Proof. split; intros; by repeat match goal with u : unit |- _ => destruct u | w : world unit |- _ => destruct w end. Qed.

(** ** Worlds *)

Definition run {A} (m : M (world unit) A) : world unit :=
  match m world0 with Ok _ w => w | Stuck _ => world0 end.

(** A packet of a binding, with the given contents. *)
Definition make_pkt (bs : list Z) : M (world unit) Z :=
  pkt ← mctp_pktbuf_alloc B0 (zlen bs);
  p ← load_pkt pkt;
  pkt_write pkt (mctp_pktbuf_hdr p) bs;;
  mret pkt.

Definition make_pkts (bss : list (list Z)) : M (world unit) (list Z) :=
  foldr (fun bs k => pkt ← make_pkt bs; pkts ← k; mret (pkt :: pkts)) (mret []) bss.

(** The address of the [struct mctp], and of the first packets. *)
Definition MCTP := 48.

(** An endpoint 8 and two packets, together a message from 9. *)
Definition two_packets : list (list Z) :=
  [[1; 8; 9; 136] ++ replicate 64 7; [1; 8; 9; 88; 1; 2; 3]].
Definition w_rx : world unit := run (stack_init 8;; make_pkts two_packets).
Definition pkts_rx : list Z := [64; 80].

Definition pkt_at (w : world unit) (a : Z) : mctp_pktbuf :=
  match w_heap w !! a with Some (HPkt p) => p | _ => mk_pktbuf 0 0 0 0 false [] end.

Lemma w_rx_ctxs : ctxs_inv w_rx (w_heap w_rx) ∅.
Proof. apply endpoint_ctxs; vm_compute; done. Qed.

Lemma w_rx_endpoint : endpoint MCTP B0 0 8 w_rx.
Proof.
  split; [done|reflexivity| | |done]; eexists; (split; [vm_compute; reflexivity|]); repeat split.
Qed.

Lemma w_rx_pkts : pkts_ok (w_heap w_rx) pkts_rx.
Proof.
  repeat constructor; eexists; (split; [vm_compute; reflexivity|]); vm_compute; repeat split; done.
Qed.

(** Two messages, their packets interleaved. *)
Definition mixed_packets : list (list Z) :=
  [[1; 8; 9; 136] ++ replicate 64 7; [1; 8; 10; 200; 1; 5]; [1; 8; 9; 88; 1; 2; 3]].
Definition w_mix : world unit := run (stack_init 8;; make_pkts mixed_packets).

Lemma w_mix_ctxs : ctxs_inv w_mix (w_heap w_mix) ∅.
Proof. apply endpoint_ctxs; vm_compute; done. Qed.

Lemma w_mix_endpoint : endpoint MCTP B0 0 8 w_mix.
Proof.
  split; [done|reflexivity| | |done]; eexists; (split; [vm_compute; reflexivity|]); repeat split.
Qed.

Lemma w_mix_pkts : pkts_ok (w_heap w_mix) [64; 80; 96].
Proof.
  repeat constructor; eexists; (split; [vm_compute; reflexivity|]); vm_compute; repeat split; done.
Qed.

(** A sender, EID 9, with a message in block 64. *)
Definition message : list Z := replicate 64 7 ++ [1; 2; 3].
Definition put_message : M (world unit) Z :=
  msg ← __mctp_alloc (zlen message); store_bytes msg 0 message;; mret msg.
Definition w_tx : world unit := run (stack_init 9;; put_message).
Definition bd_tx0 : mctp_binding :=
  match w_bindings w_tx !! B0 with Some bd => bd | None => test_binding 0 end.
Definition bus_of (w : world unit) : mctp_bus :=
  match m_busses (w_mctp w) !! 0%nat with Some b => b | None => zero_bus end.
Definition params_tx : tx_params := sender_params bd_tx0 (bus_of w_tx) 8 true 0.

Lemma bd_tx0_wf : binding_wf bd_tx0.
Proof. split; vm_compute; done. Qed.

Lemma params_ok : tx_ok bd_tx0 64 params_tx message.
Proof. split; try apply bd_tx0_wf; vm_compute; try done. by eexists. Qed.

Lemma w_tx_env : tx_env (fun _ _ _ => True) B0 bd_tx0 w_tx.
Proof.
  split; [done|apply heap_check_ok; vm_compute; done|vm_compute; done| |done].
  eexists _, _. split; [vm_compute; reflexivity|]. split; [vm_compute; reflexivity|].
  vm_compute. done.
Qed.

Lemma w_tx_idle : tx_idle B0 0 64 params_tx message (bus_of w_tx) w_tx.
Proof. split; try (vm_compute; done). eexists. split; vm_compute; reflexivity. Qed.

Lemma w_tx_sender : sender (fun _ _ _ => True) MCTP B0 bd_tx0 (bus_of w_tx) w_tx.
Proof.
  split; try apply w_tx_env; try apply bd_tx0_wf; try (vm_compute; done). by eexists.
Qed.

(** The same with the bus disabled and the message waiting. *)
Definition w_wait : world unit := run (
  stack_init 9;; msg ← put_message;
  mctp_binding_set_tx_enabled (BindingOps0 := const_binding 0) B0 false;;
  mctp_message_tx_on_bus (BindingOps0 := const_binding 0) 0 9 8 true 0 msg (zlen message)).

Lemma w_wait_env : tx_env (fun _ _ _ => True) B0 bd_tx0 w_wait.
Proof.
  split; [done|apply heap_check_ok; vm_compute; done|vm_compute; done| |done].
  eexists _, _. split; [vm_compute; reflexivity|]. split; [vm_compute; reflexivity|].
  vm_compute. done.
Qed.

Lemma w_wait_pending :
  let b1 := set_bus_st mctp_bus_state_tx_enabled (bus_of w_wait) in
  tx_pending B0 0 64 params_tx message b1 0 (with_bus 0 b1 w_wait).
Proof.
  split; try (vm_compute; done). eexists. split; vm_compute; reflexivity.
Qed.

(** Every packet is accepted. *)
Section accepting.
#[local] Instance ops : BindingOps unit := const_binding 0.

Lemma send_receive_witness :
exists wB', rx_packets B0 pkts_rx w_rx = Ok tt wB' /\
  w_trace wB' = w_trace w_rx ++ [EvRx "rx" 5 9 true 0 message].
Proof.
destruct (send_receive (fun _ _ _ => True) eq MCTP B0 bd_tx0 (bus_of w_tx) 8 true 0 message w_tx
  MCTP B0 0 (w_heap w_rx) ∅ pkts_rx "rx" w_rx w_tx_sender) as (wA' & evs & Hrun & Htr & Hrx);
  [lia|by vm_compute|by vm_compute|by vm_compute|by vm_compute|apply w_rx_ctxs|
  apply w_rx_endpoint|by vm_compute|by vm_compute|by vm_compute|by vm_compute|].
vm_compute in Hrun. injection Hrun as <-. vm_compute in Htr. subst evs.
destruct Hrx as (wB' & H); [apply w_rx_pkts|vm_compute; reflexivity|by exists wB'].
Defined.

Lemma interleaved_messages_witness :
exists w1 w2 dls,
  rx_packets B0 [64; 80; 96] w_mix = Ok tt w1 /\
  rx_packets B0 (filter (fun pkt => pkt_key (wire (w_heap w_mix) pkt) = Some (9, 8, 0))
    [64; 80; 96]) w_mix = Ok tt w2 /\
  w_trace w1 = w_trace w_mix ++ mbind (delivery_events (w_mctp w_mix)) dls /\
  w_trace w2 = w_trace w_mix ++
    mbind (delivery_events (w_mctp w_mix)) (filter (fun dl => dl_key dl = (9, 8, 0)) dls).
Proof.
apply (interleaved_messages eq MCTP B0 0 8 (w_heap w_mix) ∅ (9, 8, 0) {[ (9, 8, 0); (10, 8, 0) ]}).
- apply w_mix_ctxs.
- apply w_mix_endpoint.
- reflexivity.
- reflexivity.
- apply w_mix_pkts.
- vm_compute. discriminate.
- set_solver.
- repeat constructor; intros k; vm_compute; intros [= <-]; reflexivity.
- vm_compute. repeat constructor.
Defined.

Lemma mctp_message_tx_on_bus_sends_witness :
exists rcs j w', mctp_message_tx_on_bus 0 9 8 true 0 64 (zlen message) w_tx = Ok 0 w' /\
  answers (eq 0) 2 0 rcs j /\
  w_trace w' = w_trace w_tx ++ tx_log B0 params_tx message (w_mctp w_tx) 0 rcs /\
  tx_stands (fun _ _ _ => True) B0 0 bd_tx0 64 params_tx message (bus_of w_tx) j w_tx w'.
Proof.
apply (mctp_message_tx_on_bus_sends (fun _ _ _ => True) (eq 0) B0 0 bd_tx0 64 params_tx message params_ok
  (bus_of w_tx) w_tx w_tx_env w_tx_idle).
Defined.

Definition w_sent : world unit :=
match mctp_message_tx_on_bus 0 9 8 true 0 64 (zlen message) w_tx with
| Ok _ w => w | Stuck _ => w_tx end.

Lemma tx_packets_fit_witness :
exists evs, w_trace w_sent = w_trace w_tx ++ evs /\
  Forall (fun e => match e with EvTx _ pkt _ => zlen pkt <= 68 | _ => True end) evs.
Proof.
apply (tx_packets_fit (fun _ _ _ => True) (eq 0) B0 0 bd_tx0 64 params_tx message params_ok
  (bus_of w_tx) w_tx 0 w_sent w_tx_env w_tx_idle). vm_compute. reflexivity.
Defined.

Lemma set_tx_enabled_resumes_witness :
exists rcs j w', mctp_binding_set_tx_enabled B0 true w_wait = Ok tt w' /\
  answers (eq 0) 2 0 rcs j /\
  w_trace w' = w_trace w_wait ++ tx_log B0 params_tx message (w_mctp w_wait) 0 rcs /\
  tx_stands (fun _ _ _ => True) B0 0 bd_tx0 64 params_tx message (bus_of w_wait) j w_wait w'.
Proof.
apply (set_tx_enabled_resumes (fun _ _ _ => True) (eq 0) B0 0 bd_tx0 64 params_tx message params_ok
  (bus_of w_wait) 0 w_wait w_wait_env).
- reflexivity.
- vm_compute. reflexivity.
- reflexivity.
- apply w_wait_pending.
- vm_compute. split; [discriminate|reflexivity].
Defined.

Lemma mctp_send_tx_queue_terminates_witness :
let w1 := with_bus 0 (set_bus_st mctp_bus_state_tx_enabled (bus_of w_wait)) w_wait in
exists w', mctp_send_tx_queue 0 w1 = Ok tt w' /\
  forall fuel, 2 < Z.of_nat fuel -> send_tx_queue_loop fuel 0 w1 = Ok tt w'.
Proof.
apply (mctp_send_tx_queue_terminates (fun _ _ _ => True) (eq 0) B0 0 bd_tx0 64 params_tx message
  params_ok (set_bus_st mctp_bus_state_tx_enabled (bus_of w_wait)) 0).
- by apply tx_env_with_bus, w_wait_env.
- apply w_wait_pending.
- vm_compute. split; [discriminate|reflexivity].
Defined.

Lemma mctp_message_tx_on_bus_rejects_witness :
mctp_message_tx_on_bus 0 9 8 true 0 64 67 w_wait
  = Ok (- EBUSY) (after_free 64 w_wait).
Proof.
apply (mctp_message_tx_on_bus_rejects 0 (bus_of w_wait) bd_tx0).
- reflexivity.
- vm_compute. reflexivity.
- vm_compute. reflexivity.
- vm_compute. reflexivity.
- discriminate.
- apply bd_tx0_wf.
- vm_compute. by eexists.
- vm_compute. reflexivity.
Defined.

Lemma set_tx_enabled_states_witness :
mctp_binding_set_tx_enabled B0 false w_tx
  = Ok tt (with_bus 0 (set_bus_st mctp_bus_state_tx_disabled (bus_of w_tx)) w_tx).
Proof.
apply (set_tx_enabled_states B0 false bd_tx0 0 (bus_of w_tx) w_tx); vm_compute; reflexivity.
Defined.

Lemma mctp_message_tx_sends_witness :
exists rcs j w', mctp_message_tx MCTP 8 true 0 message (zlen message) w_tx = Ok 0 w' /\
  answers (eq 0) 2 0 rcs j /\
  w_trace w' = w_trace w_tx ++ tx_log B0 params_tx message (w_mctp w_tx) 0 rcs /\
  (j = 2 -> forall a, a <> 16 -> w_heap w' !! a = w_heap w_tx !! a).
Proof.
apply (mctp_message_tx_sends (fun _ _ _ => True) (eq 0) MCTP B0 bd_tx0 (bus_of w_tx) 8 true 0 message w_tx
  w_tx_sender); vm_compute; try done.
Defined.

Lemma mctp_message_tx_errors_witness :
mctp_message_tx MCTP 8 true 9 message (zlen message) w_tx
  = Ok (- EINVAL) (copy_released message w_tx).
Proof.
apply (mctp_message_tx_errors MCTP 8 true 9 message w_tx).
- reflexivity.
- apply heap_check_ok. vm_compute. reflexivity.
- discriminate.
- reflexivity.
- discriminate.
Defined.
End accepting.

(** ** Tags *)

(** An endpoint with one request outstanding. *)
Definition w_tag : world unit := run (mctp ← stack_init 9; mctp_alloc_tag mctp 9 8).

Lemma w_tag_clock now : now = 1000 -> clock_reads now w_tag.
Proof. intros ->. exists "mctp_default_now"%string. split; reflexivity. Qed.

Lemma mctp_alloc_tag_spec_witness :
  (exists tag i r,
     mctp_alloc_tag MCTP 9 8 w_tag = Ok (0, Some tag) (after_alloc_tag 1000 9 8 tag i w_tag) /\
     m_req_tags (w_mctp w_tag) !! i = Some r /\ tag_spare 1000 r /\ 0 <= tag < 8 /\
     ~ tag_in_use 1000 9 8 (m_req_tags (w_mctp w_tag)) tag /\
     exists k : nat, tag = (Z.of_nat k + 1) mod 8 /\ forall j : nat, (j < k)%nat ->
       tag_in_use 1000 9 8 (m_req_tags (w_mctp w_tag)) ((Z.of_nat j + 1) mod 8)) \/
  (mctp_alloc_tag MCTP 9 8 w_tag = Ok (- EBUSY, None) w_tag /\
   (Forall (tag_live 1000) (m_req_tags (w_mctp w_tag)) \/
    forall t, 0 <= t < 8 -> tag_in_use 1000 9 8 (m_req_tags (w_mctp w_tag)) t)).
Proof.
  apply (mctp_alloc_tag_spec MCTP 9 8 1000 w_tag).
  - discriminate.
  - discriminate.
  - by apply w_tag_clock.
  - unfold tags_range. vm_compute. repeat constructor; discriminate.
Defined.

Lemma tags_reachable_w_tag : tags_reachable (D := unit) 1000 (m_req_tags (w_mctp w_tag)).
Proof.
  apply (tr_alloc 1000 MCTP 9 8 (run (stack_init 9)) (0, Some 0) w_tag).
  - replace (m_req_tags (w_mctp (run (stack_init 9)))) with (replicate 16 (mk_req_tag 0 0 0 0))
      by (vm_compute; reflexivity). constructor.
  - discriminate.
  - discriminate.
  - exists "mctp_default_now"%string. split; reflexivity.
  - vm_compute. reflexivity.
Qed.

Lemma mctp_dealloc_tag_spec_witness :
  exists w', mctp_dealloc_tag 0 9 8 0 w_tag = Ok tt w' /\
    Forall (fun r => ~ tag_match 9 8 0 r) (m_req_tags (w_mctp w')) /\
    (forall i r, m_req_tags (w_mctp w_tag) !! i = Some r -> ~ tag_match 9 8 0 r ->
       m_req_tags (w_mctp w') !! i = Some r).
Proof.
  apply (mctp_dealloc_tag_spec 0 (bus_of w_tag)
    (match w_bindings w_tag !! B0 with Some bd => bd | None => test_binding 0 end) 9 8 0 1000).
  - vm_compute. reflexivity.
  - vm_compute. reflexivity.
  - discriminate.
  - discriminate.
  - apply (reachable_inv (D := unit)), tags_reachable_w_tag.
  - replace (m_req_tags (w_mctp w_tag))
      with (replicate 15 (mk_req_tag 0 0 0 0) ++ [mk_req_tag 9 8 0 7000]) by (vm_compute; reflexivity).
    apply Forall_app. split.
    + apply Forall_replicate. intros (H & _). discriminate.
    + repeat constructor. intros _. unfold tag_live, tag_spare. simpl. lia.
Defined.

(** Two requests at time 0 that are never answered; from time 7000 on, seven
    requests answered at once and an eighth, which has the tag of the second. *)
Definition answered_request (mctp : Z) : M (world unit) unit :=
  r ← mctp_alloc_tag mctp 9 8;
  match r.2 with Some tag => mctp_dealloc_tag 0 9 8 tag | None => mret tt end.

Definition w_stale : world unit := run (
  mctp ← stack_init 9;
  mctp_set_now_op mctp (Some "test_now"%string) 0;;
  mctp_alloc_tag mctp 9 8;; mctp_alloc_tag mctp 9 8;;
  mctp_set_now_op mctp (Some "test_now"%string) 7000;;
  seqM (replicate 7 (answered_request mctp));;
  mctp_alloc_tag mctp 9 8).

Lemma stale_first :
  Forall (fun r => ~ tag_match 9 8 1 r) (take 14 (m_req_tags (w_mctp w_stale))).
Proof. apply (bool_decide_unpack _). vm_compute. exact I. Qed.

Lemma mctp_dealloc_tag_stale_witness :
  exists w', mctp_dealloc_tag 0 9 8 1 w_stale = Ok tt w' /\
    m_req_tags (w_mctp w_stale) !! 14%nat = Some (mk_req_tag 9 8 1 6000) /\
    m_req_tags (w_mctp w') = <[14%nat := mk_req_tag 0 0 0 0]> (m_req_tags (w_mctp w_stale)) /\
    m_req_tags (w_mctp w') !! 15%nat = Some (mk_req_tag 9 8 1 13000) /\
    tag_in_use 7000 9 8 (m_req_tags (w_mctp w')) 1.
Proof.
  destruct (mctp_dealloc_tag_stale 0 (bus_of w_stale)
    (match w_bindings w_stale !! B0 with Some bd => bd | None => test_binding 0 end) 9 8 1 7000
    14 15 (mk_req_tag 9 8 1 6000) (mk_req_tag 9 8 1 13000) w_stale)
    as (k & r & w' & Hrun & Hk & Hr & Hm & _ & Heq & _ & Hj & Hu & _).
  - vm_compute. reflexivity.
  - vm_compute. reflexivity.
  - vm_compute. discriminate.
  - discriminate.
  - vm_compute. reflexivity.
  - done.
  - unfold tag_live, tag_spare. simpl. lia.
  - vm_compute. reflexivity.
  - done.
  - unfold tag_live, tag_spare. simpl. lia.
  - lia.
  - exists w'. split; [exact Hrun|]. split; [vm_compute; reflexivity|]. split; [|by split].
    destruct (decide (k = 14%nat)) as [->|Hne]; [exact Heq|].
    exfalso. apply (Forall_lookup_1 _ _ k r stale_first); [|exact Hm].
    rewrite lookup_take_lt by lia. exact Hr.
Defined.

Lemma outstanding_tags_bound_witness :
  let live := filter (fun r => tag_live 1000 r /\ tag_for 9 8 r) (m_req_tags (w_mctp w_tag)) in
  NoDup (rt_tag <$> live) /\ (length live <= 8)%nat.
Proof. apply (outstanding_tags_bound (D := unit) 1000), tags_reachable_w_tag. Defined.
