(* ===== verification/ApiWitnesses.v ===== *)
(** * Witnesses for control, clean-up, bridging and requests

    Further theorems about the stack, applied to stacks set up through the API. *)

From S2P Require Import Prelude State Alloc Pktbuf Reasm Tags Tx Control Types Rx RxSpec RxRefine.
From S2P Require Import Frag TxRefine TxApi TxRequest ControlSpec ControlRx Endpoint Bus Cleanup Bridge.
From S2P Require Import Typed Concrete Witnesses.

#[local] Instance ops : BindingOps unit := const_binding 0.

(** ** The control protocol *)

Lemma types_check c :
  bool_decide (zlen (ct_msg_types c) = 10) && bool_decide (0 <= ct_num_msg_types c <= 10) &&
  bool_decide (NoDup (ctrl_types c)) = true -> types_ok c.
Proof. rewrite !andb_true_iff, !bool_decide_eq_true. intros [[H1 H2] H3]. by split. Qed.

Lemma control_types_set_witness :
  (exists c' rc, mctp_control_add_type MCTP 5 w_rx = Ok rc (with_control c' w_rx) /\ types_ok c' /\
     rc = 0 /\ ctrl_types c' = [0; 5]) /\
  (exists c', mctp_control_remove_type MCTP 5 w_rx = Ok tt (with_control c' w_rx) /\ types_ok c' /\
     ctrl_types c' = filter (fun x => x <> 5) (ctrl_types (m_control (w_mctp w_rx)))).
Proof.
  assert (Hok : types_ok (m_control (w_mctp w_rx))) by (apply types_check; vm_compute; reflexivity).
  destruct (control_types_set MCTP 5 w_rx) as [(c' & rc & H1 & H2 & H3) H4].
  - discriminate.
  - exact Hok.
  - assert (Et : ctrl_types (m_control (w_mctp w_rx)) = [0]) by (vm_compute; reflexivity).
    rewrite Et in H3. rewrite decide_False in H3 by (intros H; by apply list_elem_of_singleton in H).
    rewrite decide_False in H3 by (vm_compute; discriminate).
    split; [|exact H4]. exists c', rc. split; [exact H1|]. split; [exact H2|exact H3].
Defined.

(** A control message that is no request, in block 64. *)
Definition w_response : world unit :=
  run (stack_init 9;; msg ← __mctp_alloc 3; store_bytes msg 0 [0; 1; 2]).

Lemma control_handler_filters_witness :
  mctp_control_handler 0 10 true 3 64 3 w_response = Ok true w_response.
Proof.
  apply (control_handler_filters 0 10 true 3 64 3 [0; 1; 2] w_response).
  - vm_compute. reflexivity.
  - vm_compute. split; discriminate.
  - vm_compute. discriminate.
Defined.

(** A Get Endpoint ID request from 10 to the endpoint 9, in packet 64. *)
Definition w_request : world unit := run (stack_init 9;; make_pkt [0; 9; 10; 203; 0; 129; 2]).
Definition hdr_request : mctp_hdr := mk_hdr 0 9 10 203.
Definition bd_of (w : world unit) (b : Z) : mctp_binding :=
  match w_bindings w !! b with Some bd => bd | None => test_binding 0 end.

Lemma w_request_responder :
  responder (fun _ _ _ => True) MCTP B0 (bd_of w_request B0) (bus_of w_request) w_request.
Proof.
  split; try (vm_compute; reflexivity).
  - split; try (vm_compute; done); [|by eexists].
    split; [done|apply heap_check_ok; vm_compute; done|vm_compute; done| |done].
    eexists _, _. split; [vm_compute; reflexivity|]. split; [vm_compute; reflexivity|].
    vm_compute. done.
  - apply types_check. vm_compute. reflexivity.
Qed.

Lemma control_request_answered_witness :
  exists rc w', rc = 0 /\ mctp_bus_rx B0 64 w_request = Ok tt w' /\
    w_trace w' = w_trace w_request ++ [EvTx B0 [1; 10; 9; 195; 0; 1; 2; 0; 9; 1; 0] rc].
Proof.
  destruct (control_request_answered (fun _ _ _ => True) (eq 0) MCTP B0 (bd_of w_request B0)
    (bus_of w_request) hdr_request 129 2 [] 64 (pkt_at w_request 64) w_request w_request_responder)
    as (rc & w' & <- & Hrun & Htr & _).
  - split; [done|reflexivity| | |done]; eexists; (split; [vm_compute; reflexivity|]); vm_compute; repeat split.
  - reflexivity.
  - vm_compute. reflexivity.
  - split; try (vm_compute; repeat split; done). split; [vm_compute; discriminate|by left].
  - exists 0, w'. split; [reflexivity|]. split; [exact Hrun|]. rewrite Htr. vm_compute. reflexivity.
Defined.

Lemma w_request_endpoint : endpoint MCTP B0 0 9 w_request.
Proof.
  split; [done|reflexivity| | |done]; eexists; (split; [vm_compute; reflexivity|]); repeat split.
Qed.

Lemma w_request_ctxs : ctxs_inv w_request (w_heap w_request) ∅.
Proof. apply endpoint_ctxs; vm_compute; done. Qed.

(** The request is answered, and a packet of an ordinary message is kept. *)
Lemma mctp_bus_rx_refines_witness :
  (exists w' F', mctp_bus_rx B0 64 w_request = Ok tt w' /\
     w_trace w' = w_trace w_request ++ [EvTx B0 [1; 10; 9; 195; 0; 1; 2; 0; 9; 1; 0] 0] /\
     ctxs_inv w' F' ∅ /\ endpoint MCTP B0 0 9 w') /\
  (exists w', mctp_bus_rx B0 64 w_rx = Ok tt w' /\
     rx_effect eq (captured (pkt_at w_rx 64) w_rx) w' (w_heap w_rx)
       (spec_rx 8 256 true ∅ (pkt_wire (pkt_at w_rx 64))) /\ endpoint MCTP B0 0 8 w').
Proof.
  split.
  - destruct (mctp_bus_rx_refines eq MCTP B0 0 (bd_of w_request B0) (fun _ _ _ => True) (eq 0)
      (fun f d d' _ H => H) (bus_of w_request) (w_heap w_request) ∅ 64 (pkt_at w_request 64) w_request
      w_request_ctxs w_request_endpoint) as (w' & Hrun & Ho & He).
    + vm_compute. reflexivity.
    + done.
    + vm_compute. reflexivity.
    + vm_compute. repeat split; done.
    + intros dl _ _. split; [done|]. split; [exact w_request_responder|]. vm_compute. by eexists.
    + destruct (outcome_answered _ _ _ _ _ _ _ _ _ _ (mk_delivery 10 9 true 3 [0; 129; 2]) Ho)
        as (F' & rc & HI & <- & Htr).
      { vm_compute. reflexivity. }
      { vm_compute. reflexivity. }
      exists w', F'. split; [exact Hrun|]. split; [|split; [exact HI|exact He]].
      rewrite Htr. vm_compute. reflexivity.
  - destruct (mctp_bus_rx_refines eq MCTP B0 0 (bd_of w_rx B0) (fun _ _ _ => True) (eq 0)
      (fun f d d' _ H => H) (bus_of w_rx) (w_heap w_rx) ∅ 64 (pkt_at w_rx 64) w_rx
      w_rx_ctxs w_rx_endpoint) as (w' & Hrun & Ho & He).
    + vm_compute. reflexivity.
    + done.
    + vm_compute. reflexivity.
    + vm_compute. repeat split; done.
    + intros dl H. vm_compute in H. discriminate.
    + exists w'. split; [exact Hrun|]. split; [exact Ho|exact He].
Defined.

(** ** Cleaning up *)

(** [w_wait] of Witnesses.v: an endpoint whose bus holds message 64. *)
Lemma w_wait_ctxs : ctxs_inv w_wait (w_heap w_wait) ∅.
Proof. apply endpoint_ctxs; vm_compute; done. Qed.

Lemma w_wait_pending_msgs : pending_msgs (take 1 (m_busses (w_mctp w_wait))) = [64].
Proof. vm_compute. reflexivity. Qed.

Lemma mctp_cleanup_releases_witness :
  exists w', mctp_cleanup MCTP w_wait = Ok tt w' /\ w_heap w' !! 64 = None /\
    m_n_busses (w_mctp w') = -1.
Proof.
  destruct (mctp_cleanup_releases MCTP (w_heap w_wait) ∅ w_wait 1) as (w' & Hrun & Hh & _ & Hn & _).
  - discriminate.
  - apply w_wait_ctxs.
  - vm_compute. reflexivity.
  - vm_compute. lia.
  - rewrite w_wait_pending_msgs. apply NoDup_singleton.
  - rewrite w_wait_pending_msgs. repeat constructor. by eexists.
  - exists w'. split; [exact Hrun|]. split; [|exact Hn]. rewrite Hh, w_wait_pending_msgs. reflexivity.
Defined.

Lemma unregister_leaks_pending_witness :
  exists w', (mctp_unregister_bus MCTP B0;; mctp_cleanup MCTP) w_wait = Ok tt w' /\
    is_Some (w_heap w' !! 64).
Proof.
  destruct (unregister_leaks_pending MCTP B0 (w_heap w_wait) ∅ w_wait (bus_of w_wait) 64)
    as (w' & Hrun & _ & Hh & _).
  - discriminate.
  - apply w_wait_ctxs.
  - by eexists.
  - vm_compute. reflexivity.
  - vm_compute. reflexivity.
  - by eexists.
  - exists w'. split; [exact Hrun|exact Hh].
Defined.

(** ** Bridging *)

(** A bridge between [B0] and [B1] and, in packet 64, a message from 1 to 2. *)
Definition small_bridge : M (world unit) Z :=
  mctp ← mctp_init;
  mctp_set_max_message_size mctp 256;;
  mctp_bridge_busses mctp B0 B1;;
  mctp_binding_set_tx_enabled B0 true;;
  mctp_binding_set_tx_enabled B1 true;;
  mret mctp.

Definition w_bridge : world unit := run (small_bridge;; make_pkt [0; 2; 1; 192; 170]).
Definition bus1_of (w : world unit) : mctp_bus :=
  match m_busses (w_mctp w) !! 1%nat with Some b => b | None => zero_bus end.

Lemma w_bridge_bridge :
  bridge (fun _ _ _ => True) MCTP B0 0 B1 (bd_of w_bridge B1) (bus1_of w_bridge) w_bridge.
Proof.
  split; try (vm_compute; done).
  - vm_compute. lia.
  - eexists. vm_compute. reflexivity.
  - eexists. split; [vm_compute; reflexivity|]. by split.
  - split; [done|apply heap_check_ok; vm_compute; done|vm_compute; done| |done].
    eexists _, _. split; [vm_compute; reflexivity|]. split; [vm_compute; reflexivity|].
    vm_compute. done.
  - by eexists.
Qed.

Lemma mctp_bus_rx_forwards_witness :
  exists rcs j w', mctp_bus_rx B0 64 w_bridge = Ok tt w' /\ answers (eq 0) 1 0 rcs j /\
    w_trace w' = w_trace w_bridge ++ tx_log B1
      (forward_params (bd_of w_bridge B1) (bus1_of w_bridge) (mk_hdr 0 2 1 192)) [170]
      (w_mctp w_bridge) 0 rcs.
Proof.
  destruct (mctp_bus_rx_forwards (fun _ _ _ => True) (eq 0) MCTP B0 0 B1 (bd_of w_bridge B1)
    (bus1_of w_bridge) (mk_hdr 0 2 1 192) 64 (pkt_at w_bridge 64) w_bridge w_bridge_bridge)
    as (rcs & j & w' & Hrun & Hans & Htr & _).
  - reflexivity.
  - vm_compute. reflexivity.
  - vm_compute. repeat split; done.
  - vm_compute. reflexivity.
  - discriminate.
  - reflexivity.
  - exists rcs, j, w'. split; [exact Hrun|]. split; [exact Hans|exact Htr].
Defined.

(** The same bridge having received the first of two packets; the second one is in
    packet 80, the context's buffer in block 96. *)
Definition w_partial : world unit :=
  run (small_bridge;; make_pkts [[0; 2; 1; 136] ++ replicate 64 7; [0; 2; 1; 88; 1]];;
       mctp_bus_rx B0 64).
Definition ctx0_of (w : world unit) : mctp_msg_ctx :=
  match m_msg_ctxs (w_mctp w) !! 0%nat with Some c => c | None => zero_msg_ctx end.
Definition bytes_at (w : world unit) (a : Z) : list Z :=
  match w_heap w !! a with Some (HBytes bs) => bs | _ => [] end.

(** The invariant of a stack with one message being received, in context 0. *)
Definition one_ctx_check (w : world unit) : bool :=
  let c := ctx0_of w in
  heap_check w && bool_decide (ctx_live c) && bool_decide (length (m_msg_ctxs (w_mctp w)) = 16%nat) &&
  bool_decide (Forall (fun d => ~ ctx_live d) (drop 1 (m_msg_ctxs (w_mctp w)))) &&
  match w_heap w !! mc_buf c with Some (HBytes _) => true | _ => false end &&
  bool_decide (zlen (bytes_at w (mc_buf c)) = mc_buf_alloc_size c) &&
  bool_decide (0 <= mc_buf_size c <= mc_buf_alloc_size c) &&
  bool_decide (mc_buf_alloc_size c < SIZE_MOD).

Lemma one_ctx_ok w :
  one_ctx_check w = true -> w_ops w = default_alloc_ops ->
  0 <= m_max_message_size (w_mctp w) < SIZE_MOD ->
  let c := ctx0_of w in let bs := bytes_at w (mc_buf c) in
  ctxs_inv w (delete (mc_buf c) (w_heap w)) (<[ctx_key c := partial_of bs c]> ∅).
Proof.
  unfold one_ctx_check. set (c := ctx0_of w). set (bs := bytes_at w (mc_buf c)).
  rewrite !andb_true_iff, !bool_decide_eq_true.
  intros [[[[[[[H1 H2] H3] H4] H5] H6] H7] H8] Hops Hmax. destruct (m_msg_ctxs (w_mctp w)) as [|c0 cs] eqn:Ecs; [done|].
  assert (Hc : c = c0) by (unfold c, ctx0_of; by rewrite Ecs). simpl in H3, H4.
  assert (Hb : w_heap w !! mc_buf c = Some (HBytes bs)).
  { unfold bs, bytes_at. by destruct (w_heap w !! mc_buf c) as [[]|]. }
  split; [done|by apply heap_check_ok| |done]. rewrite Ecs.
  rewrite <- (insert_delete_id (w_heap w) (mc_buf c) (HBytes bs)) at 1 by done.
  change (c0 :: cs) with (<[0%nat := c0]> (zero_msg_ctx :: cs)). rewrite <- Hc.
  apply (rep_new _ _ _ _ 0 zero_msg_ctx c); try done.
  - apply rep_empty; [simpl; unfold MCTP_REASSEMBLY_CTXS; lia|].
    constructor; [intros Hl; by apply Hl|by rewrite drop_0 in H4].
  - intros Hl. by apply Hl.
  - apply lookup_delete_eq.
Qed.

Lemma w_partial_bridge :
  bridge (fun _ _ _ => True) MCTP B0 0 B1 (bd_of w_partial B1) (bus1_of w_partial) w_partial.
Proof.
  split; try (vm_compute; done).
  - vm_compute. lia.
  - eexists. vm_compute. reflexivity.
  - eexists. split; [vm_compute; reflexivity|]. by split.
  - split; [done|apply heap_check_ok; vm_compute; done|vm_compute; done| |done].
    eexists _, _. split; [vm_compute; reflexivity|]. split; [vm_compute; reflexivity|].
    vm_compute. done.
  - by eexists.
Qed.

Lemma bridge_long_message_crashes_witness : mctp_bus_rx B0 80 w_partial = Stuck NullDeref.
Proof.
  eapply (bridge_long_message_crashes (fun _ _ _ => True) (eq 0) MCTP B0 0 B1 (bd_of w_partial B1)
    (bus1_of w_partial) (bus_of w_partial) (mk_hdr 0 2 1 88) 80 (pkt_at w_partial 80) _ _ w_partial
    w_partial_bridge).
  - apply one_ctx_ok; vm_compute; done.
  - reflexivity.
  - vm_compute. reflexivity.
  - vm_compute. reflexivity.
  - vm_compute. by eexists.
  - vm_compute. reflexivity.
  - vm_compute. repeat split; done.
  - vm_compute. reflexivity.
  - discriminate.
  - reflexivity.
  - vm_compute. by eexists.
Defined.

(** ** Requests *)

Lemma w_clock w now : now = 1000 -> m_platform_now (w_mctp w) = Some "mctp_default_now"%string ->
  clock_reads now (w : world unit).
Proof. intros -> Hf. exists "mctp_default_now"%string. split; [exact Hf|reflexivity]. Qed.

Lemma mctp_message_tx_request_sends_witness :
  exists rcs j w', mctp_message_tx_request MCTP 8 64 (zlen message) true w_tx = Ok (0, Some 0) w' /\
    answers (eq 0) 2 0 rcs j /\
    w_trace w' = w_trace w_tx ++ tx_log B0 params_tx message (w_mctp w_tx) 0 rcs.
Proof.
  pose proof (mctp_message_tx_request_sends (fun _ _ _ => True) (eq 0) MCTP B0 bd_tx0 (bus_of w_tx)
    8 1000 64 message true w_tx w_tx_sender) as H.
  assert (Et : request_tag 1000 8 (bus_of w_tx) (w_mctp w_tx) = Some (0, 15%nat))
    by (vm_compute; reflexivity).
  rewrite Et in H. destruct H as (rcs & j & w' & Hrun & _ & _ & Hans & Htr & _).
  - vm_compute. discriminate.
  - by apply w_clock.
  - unfold tags_range. vm_compute. repeat constructor; discriminate.
  - vm_compute. reflexivity.
  - split; [discriminate|]. split; [vm_compute; discriminate|].
    eexists. split; vm_compute; reflexivity.
  - exists rcs, j, w'. split; [exact Hrun|]. split; [exact Hans|exact Htr].
Defined.

Lemma w_wait_registered : registered MCTP bd_tx0 (bus_of w_wait) w_wait.
Proof.
  split; try (vm_compute; done). apply heap_check_ok. vm_compute. reflexivity.
Qed.

Lemma mctp_message_tx_request_busy_witness :
  exists w', mctp_message_tx_request MCTP 8 64 67 true w_wait = Ok (- EBUSY, Some 0) w' /\
    m_req_tags (w_mctp w') =
      <[15%nat := mk_req_tag 9 8 0 7000]> (m_req_tags (w_mctp w_wait)).
Proof.
  destruct (mctp_message_tx_request_busy MCTP bd_tx0 (bus_of w_wait) 8 1000 0 15 64 67 true w_wait
    w_wait_registered) as (w' & Hrun & Htags & _).
  - vm_compute. discriminate.
  - vm_compute. discriminate.
  - by apply w_clock.
  - unfold tags_range. vm_compute. repeat constructor; discriminate.
  - by eexists.
  - vm_compute. reflexivity.
  - exists w'. split; [exact Hrun|exact Htags].
Defined.

Lemma mctp_is_tx_ready_spec_witness :
  mctp_is_tx_ready MCTP 8 w_wait = Ok false w_wait /\
  exists w', mctp_message_tx MCTP 8 true 0 [1] 1 w_wait = Ok (- EBUSY) w' /\
    w_heap w' = w_heap w_wait.
Proof.
  destruct (mctp_is_tx_ready_spec MCTP bd_tx0 (bus_of w_wait) 8 w_wait w_wait_registered) as [H1 H2].
  assert (Hb : bool_decide (bus_tx_msg (bus_of w_wait) = NULL) = false) by (vm_compute; reflexivity).
  rewrite Hb in H1. split; [exact H1|].
  destruct (H2 H1 ltac:(vm_compute; reflexivity) true 0 [1] ltac:(lia)) as (w' & Hrun & Hh & _).
  exists w'. split; [exact Hrun|exact Hh].
Defined.

(** ** Any calls, with an application that answers from its callback *)

Lemma world0_typed : world_typed world0.
Proof.
  split; [apply typed_mctp_zero|intros a o H|intros a bd H].
  - cbn [w_heap world0] in H.
    apply lookup_insert_Some in H as [[_ <-]|[_ H]]; [|apply lookup_singleton_Some in H as [_ <-]].
    all: apply typed_replicate; by apply const_byte.
  - cbn [w_bindings world0] in H.
    apply lookup_insert_Some in H as [[_ <-]|[_ H]]; [|apply lookup_singleton_Some in H as [_ <-]].
    all: split; simpl; [done|by apply const_sz..].
Qed.

Lemma silent_keeps : KeepTyped unit.
Proof. split; intros; try apply typed_stuck; by apply typed_ret. Qed.

(** The callback sends the message back; its data is the stack. *)
Definition echo_rx : RxOps unit := {|
  rop_rx f src to tag data buf len :=
    bs ← load_bytes buf 0 len;
    mctp_message_tx data src false tag bs len;; mret tt |}.

Lemma echo_keeps : KeepTyped (RxOps0 := echo_rx) unit.
Proof.
  pose proof silent_keeps as K. destruct silent_keeps. split; try done.
  intros f src to tag data buf len Hs Ht Hl. eapply typed_bind; [apply typed_load_bytes|].
  intros bs Hbs. eapply typed_bind; [eapply (typed_message_tx (KeepTyped0 := K)); done|].
  intros. by apply typed_ret.
Qed.

(** The stack is at 48, the packet at 64. *)
Definition echo_calls : list api_call :=
  [ Call_mctp_init; Call_mctp_register_bus 48 B0 9; Call_mctp_binding_set_tx_enabled B0 true;
    Call_mctp_set_rx_all 48 (Some "echo"%string) 48;
    Call_mctp_pktbuf_alloc B0 0; Call_mctp_pktbuf_push 64 [1; 9; 8; 200; 5; 6] 6;
    Call_mctp_bus_rx B0 64; Call_mctp_pktbuf_free 64 ].
Definition w_echo : world unit := run (run_calls (RxOps0 := echo_rx) echo_calls).

Lemma api_keeps_types_witness :
  world_typed w_echo /\
  w_trace w_echo = [EvRx "echo" 48 8 true 0 [5; 6]; EvTx B0 [1; 8; 9; 192; 5; 6] 0].
Proof.
  split; [|vm_compute; reflexivity].
  apply (api_keeps_types (RxOps0 := echo_rx) (KeepTyped0 := echo_keeps) echo_calls world0).
  - apply world0_typed.
  - repeat (apply Forall_cons_2; [cbn [call_typed]; typed_val|]). apply Forall_nil_2.
  - vm_compute. reflexivity.
Defined.
