(* ===== verification/MmbiWitnesses.v ===== *)
(** * Witnesses for the packet buffers and the MMBI binding

    A small operating system, a stack set up by [mctp_mmbi_context_init] on it,
    and the theorems about the binding applied to that stack. *)

From S2P Require Import Prelude State Alloc Pktbuf Reasm Tags Tx Control Rx RxSpec RxRefine.
From S2P Require Import Frag TxRefine TxApi Bus Mmbi MmbiFacts MmbiRx MmbiInit Concrete Witnesses.
From S2P Require Import Typed TypedMmbi Frame Locks.

(** ** Packet buffers *)

Definition w_buf : world unit := run (mctp_pktbuf_alloc B0 8).
Definition pkt_buf : mctp_pktbuf := pkt_at w_buf 48.

Lemma pkt_buf_inv : pkt_inv pkt_buf.
Proof. split; vm_compute; repeat split; discriminate. Qed.

Lemma mctp_pktbuf_alloc_spec_witness :
  exists a w' p, mctp_pktbuf_alloc B0 8 world0 = Ok a w' /\ a <> NULL /\
    w_heap w' !! a = Some (HPkt p) /\ mctp_pktbuf_size p = 8 /\ pkt_window p = replicate 8 0.
Proof.
  destruct (mctp_pktbuf_alloc_spec B0 (test_binding 16) 8 world0) as (a & w' & Hrun & _ & H).
  - reflexivity.
  - apply heap_check_ok. vm_compute. reflexivity.
  - vm_compute. reflexivity.
  - vm_compute. discriminate.
  - vm_compute. reflexivity.
  - discriminate.
  - vm_compute. discriminate.
  - vm_compute. reflexivity.
  - rewrite decide_True in H by (vm_compute; split; [discriminate|reflexivity]).
    destruct H as (H1 & _ & p & H2 & _ & H3 & _ & H4). exists a, w', p.
    split; [exact Hrun|]. split; [exact H1|]. split; [exact H2|]. split; [exact H3|].
    apply H4. vm_compute. discriminate.
Defined.

Lemma mctp_pktbuf_push_spec_witness :
  exists p', mctp_pktbuf_push 48 [1; 2; 3] 3 w_buf = Ok 0 (with_pkt 48 p' w_buf) /\ pkt_inv p' /\
    pkt_window p' = pkt_window pkt_buf ++ [1; 2; 3].
Proof.
  pose proof (mctp_pktbuf_push_spec 48 pkt_buf [1; 2; 3] 3 w_buf) as H.
  rewrite decide_True in H by (vm_compute; discriminate). apply H.
  - vm_compute. reflexivity.
  - apply pkt_buf_inv.
  - vm_compute. split; discriminate.
  - vm_compute. reflexivity.
Defined.

Lemma mctp_pktbuf_pop_spec_witness :
  exists p', mctp_pktbuf_pop 48 3 w_buf = Ok (Some 5) (with_pkt 48 p' w_buf) /\
    pkt_inv p' /\ pkt_window pkt_buf = pkt_window p' ++ [0; 0; 0].
Proof.
  pose proof (mctp_pktbuf_pop_spec 48 pkt_buf 3 w_buf) as H.
  rewrite decide_True in H by (vm_compute; discriminate). apply H.
  - vm_compute. reflexivity.
  - apply pkt_buf_inv.
  - discriminate.
Defined.

(** ** A device that takes every packet and has some to read *)

Abbreviation os := (list (list Z)).

#[export] Instance pipe_os : WinOps os := {|
  CreateFileA _ e := (4, e);
  GetFileType_is_pipe _ _ := true;
  SetNamedPipeHandleState _ e := e;
  PeekNamedPipe _ e := (Some (match e with [] => 0 | bs :: _ => zlen bs end), e);
  WriteFile _ bs e := (true, zlen bs, e);
  ReadFile _ _ e := match e with [] => (false, [], e) | bs :: e => (true, u8 <$> bs, e) end;
  GetLastError _ := 232;
  Sleep _ e := e |}.

(** An application that does nothing with the messages it gets. *)
#[export] Instance silent_user {E} : UserOps (mmbi_env E) := {| uop_rx _ _ _ _ _ := mret tt |}.

#[export] Instance silent_quiet_user {E} : QuietUser E eq.
Proof.
  split; [|apply _|by intros d d' ->]. intros cb src msg len ctx w. exists (w_dev w).
  split; [by destruct w|done].
Qed.

Definition world_os (incoming : os) : world (mmbi_env os) :=
  mk_world ∅ 16 [] default_alloc_ops zero_mctp ∅ [] (mk_env ∅ ∅ ∅ incoming []).

Definition run_os {A} (m : M (world (mmbi_env os)) A) (w : world (mmbi_env os)) :
    world (mmbi_env os) :=
  match m w with Ok _ w => w | Stuck _ => w end.

(** The endpoint 9, with a message from 8 to read, whose bytes are 5 6. *)
Definition w_mmbi : world (mmbi_env os) :=
  run_os (mctp_mmbi_context_init "pipe" 9)
    (world_os [[1; 9; 8; 200; 5; 6]]).
Definition MMBI := 48.
Definition mmbi0 : mctp_binding_mmbi :=
  match dv_mmbis (w_dev w_mmbi) !! MMBI with Some m => m | None => zero_mmbi end.
Definition bd_mmbi : mctp_binding :=
  match w_bindings w_mmbi !! MMBI with Some bd => bd | None => zero_binding end.
Definition bus_mmbi : mctp_bus :=
  match m_busses (w_mctp w_mmbi) !! 0%nat with Some b => b | None => zero_bus end.

Lemma w_mmbi_ctxs : ctxs_inv w_mmbi (w_heap w_mmbi) ∅.
Proof. apply endpoint_ctxs; vm_compute; done. Qed.

Lemma w_mmbi_endpoint : endpoint 32 MMBI 0 9 w_mmbi.
Proof.
  split; [done|vm_compute; reflexivity| | |].
  - eexists. split; [vm_compute; reflexivity|]. vm_compute. repeat split.
  - eexists. split; [vm_compute; reflexivity|]. vm_compute. repeat split.
  - intros f Hf. vm_compute in Hf. injection Hf as <-. left. split; [done|]. right.
    apply (bool_decide_eq_true_1 (is_Some (dv_ctxs (w_dev w_mmbi) !! 16))). vm_compute. reflexivity.
Qed.

Lemma w_mmbi_open : mmbi_open MMBI mmbi0 bd_mmbi w_mmbi.
Proof.
  split; try (vm_compute; reflexivity); [vm_compute; done| |vm_compute; done].
  exists 0. split; [vm_compute; reflexivity|lia].
Qed.

Definition storage_check {D} (bd : mctp_binding) (w : world D) : bool :=
  match w_heap w !! bd_tx_storage bd with
  | Some o => match obj_pkt_data o with
              | Some data => bool_decide (bd_pkt_header bd + bd_pkt_size bd <= zlen data)
              | None => false
              end
  | None => false
  end.

Lemma storage_check_ok {D} bd (w : world D) :
  storage_check bd w = true ->
  exists o data, w_heap w !! bd_tx_storage bd = Some o /\ obj_pkt_data o = Some data /\
    bd_pkt_header bd + bd_pkt_size bd <= zlen data.
Proof.
  unfold storage_check. destruct (w_heap w !! bd_tx_storage bd) as [o|]; [|done].
  destruct (obj_pkt_data o) as [data|] eqn:E; [|done]. rewrite bool_decide_eq_true. eauto.
Qed.

Lemma w_mmbi_ready : mmbi_ready "mctp_mmbi_tx" MMBI (w_dev w_mmbi).
Proof.
  split; [done|]. exists mmbi0. split; [vm_compute; reflexivity|]. vm_compute. by split.
Qed.

Lemma w_mmbi_sender : sender mmbi_ready 32 MMBI bd_mmbi bus_mmbi w_mmbi.
Proof.
  split.
  - discriminate.
  - split.
    + vm_compute. reflexivity.
    + apply heap_check_ok. vm_compute. reflexivity.
    + vm_compute. reflexivity.
    + apply storage_check_ok. vm_compute. reflexivity.
    + assert (Hf : bd_tx bd_mmbi = Some "mctp_mmbi_tx"%string) by (vm_compute; reflexivity).
      rewrite Hf. intros f [= <-]. apply w_mmbi_ready.
  - split; vm_compute; done.
  - vm_compute. reflexivity.
  - vm_compute. discriminate.
  - vm_compute. by eexists.
  - vm_compute. discriminate.
  - vm_compute. reflexivity.
  - vm_compute. reflexivity.
  - vm_compute. reflexivity.
  - vm_compute. reflexivity.
  - vm_compute. split; [discriminate|reflexivity].
Qed.

(** A packet to send, in block 80. *)
Definition w_mmbi_pkt : world (mmbi_env os) :=
  run_os (pkt ← mctp_pktbuf_alloc MMBI 6; pkt_write pkt 0 [1; 8; 9; 200; 5; 6]) w_mmbi.
Definition pkt_mmbi : mctp_pktbuf :=
  match w_heap w_mmbi_pkt !! 80 with Some (HPkt p) => p | _ => mk_pktbuf 0 0 0 0 false [] end.

Lemma pkt_mmbi_at : w_heap w_mmbi_pkt !! 80 = Some (HPkt pkt_mmbi).
Proof.
  assert (H : match w_heap w_mmbi_pkt !! 80 with Some (HPkt _) => true | _ => false end = true)
    by (vm_compute; reflexivity).
  unfold pkt_mmbi. by destruct (w_heap w_mmbi_pkt !! 80) as [[]|].
Qed.

Lemma never_fails h bs k (e e' : os) : ~ nsteps (write_fails h bs) (S k) e e'.
Proof.
  intros H. inversion H as [|? ? ? ? (res & wr & e1 & Hw & Hn & _)].
  injection Hw as <- <- <-. by destruct Hn.
Qed.

Lemma mctp_mmbi_tx_spec_witness :
  exists k e e', (k < 3)%nat /\ nsteps (write_fails 4 (pkt_wire pkt_mmbi)) k
      (dv_os (w_dev w_mmbi_pkt)) e /\ write_succeeds 4 (pkt_wire pkt_mmbi) e e' /\
    mctp_mmbi_tx MMBI 80 w_mmbi_pkt
      = Ok 0 (set_w_dev (env_written (w_dev w_mmbi_pkt) (Some 0) (S k) e') w_mmbi_pkt).
Proof.
  assert (Hm : dv_mmbis (w_dev w_mmbi_pkt) !! MMBI = Some mmbi0) by (vm_compute; reflexivity).
  assert (Eh : mb_device_handle mmbi0 = 4) by (vm_compute; reflexivity).
  assert (El : mb_lock mmbi0 = Some 0) by (vm_compute; reflexivity).
  pose proof (mctp_mmbi_tx_spec MMBI mmbi0 80 pkt_mmbi w_mmbi_pkt Hm) as H.
  cbv zeta in H. rewrite Eh in H. rewrite (decide_True (P := handle_valid 4)) in H by (split; discriminate).
  destruct H as [H|(e & H & _)].
  - apply pkt_mmbi_at.
  - vm_compute. repeat split; discriminate.
  - vm_compute. reflexivity.
  - rewrite El in H. exact H.
  - destruct (never_fails _ _ _ _ _ H).
Defined.

Lemma mmbi_message_tx_witness :
  exists rcs j w', mctp_message_tx 32 8 true 0 [5; 6] 2 w_mmbi = Ok 0 w' /\
    w_trace w' = w_trace w_mmbi ++
      tx_log MMBI (sender_params bd_mmbi bus_mmbi 8 true 0) [5; 6] (w_mctp w_mmbi) 0 rcs /\
    (rcs = [0] \/ rcs = [- EIO]) /\ j = 1.
Proof.
  destruct (mmbi_message_tx 32 MMBI bd_mmbi bus_mmbi 8 true 0 [5; 6] w_mmbi w_mmbi_sender)
    as (rcs & j & w' & Hrun & Htr & H).
  - lia.
  - reflexivity.
  - vm_compute. reflexivity.
  - exists rcs, j, w'. split; [exact Hrun|]. split; [exact Htr|].
    assert (En : frag_count (tp_mtu (sender_params bd_mmbi bus_mmbi 8 true 0)) (zlen [5; 6]) = 1)
      by (vm_compute; reflexivity).
    rewrite En in H. destruct H as [[-> ->]|(k & -> & -> & Hk & _)].
    + split; [by left|done].
    + assert (k = 0%nat) as -> by lia. split; [by right|done].
Defined.

Lemma mctp_mmbi_poll_receives_witness :
  exists w' p, mctp_mmbi_poll MMBI w_mmbi = Ok 0 w' /\
    w_trace w' = [EvRx "mmbi_internal_rx" 16 8 true 0 [5; 6]] /\
    pkt_wire p = [1; 9; 8; 200; 5; 6] /\ w_heap w' !! 80 = Some (HPkt p).
Proof.
  destruct (mctp_mmbi_poll_receives eq (fun _ _ H => f_equal dv_mmbis (eq_sym H)) 32 MMBI 0 9 (w_heap w_mmbi) ∅ mmbi0 bd_mmbi
    [1; 9; 8; 200; 5; 6] [] w_mmbi w_mmbi_ctxs w_mmbi_endpoint)
    as (w' & p & Hrun & Htr & Hp & Hinv & _).
  - vm_compute. reflexivity.
  - apply w_mmbi_open.
  - vm_compute. split; [reflexivity|discriminate].
  - exists (Some 6), (dv_os (w_dev w_mmbi)). split; [vm_compute; reflexivity|].
    split; [discriminate|vm_compute; reflexivity].
  - intros dl. vm_compute. by intros [= <-].
  - exists w', p. split; [exact Hrun|]. split; [rewrite Htr; vm_compute; reflexivity|].
    split; [exact Hp|]. eapply frame_lookup; [exact Hinv|].
    replace (w_brk w_mmbi) with 80 by (vm_compute; reflexivity). apply lookup_insert_eq.
Defined.

(** The same endpoint with nothing to read. *)
Definition w_mmbi_idle : world (mmbi_env os) :=
  run_os (mctp_mmbi_context_init "pipe" 9) (world_os []).

Lemma mctp_mmbi_poll_otherwise_witness :
  mctp_mmbi_poll MMBI w_mmbi_idle = Ok 0 (set_w_dev (env_os [] (w_dev w_mmbi_idle)) w_mmbi_idle).
Proof.
  assert (Hm : dv_mmbis (w_dev w_mmbi_idle) !! MMBI = Some mmbi0) by (vm_compute; reflexivity).
  destruct (mctp_mmbi_poll_otherwise MMBI mmbi0 w_mmbi_idle Hm) as [_ H].
  specialize (H bd_mmbi (Some 0) []). rewrite decide_True in H by done. apply H; clear.
  - split; try (vm_compute; reflexivity); [vm_compute; done| |vm_compute; done].
    exists 0. split; [vm_compute; reflexivity|lia].
  - vm_compute. reflexivity.
  - apply heap_check_ok. vm_compute. reflexivity.
  - vm_compute. reflexivity.
Defined.

(** An endpoint whose binding reads its packets from a region of 8 bytes. *)
Definition region_bytes : list Z := [1; 9; 8; 200; 5; 6; 7; 8].
Definition w_mem : world (mmbi_env os) :=
  run_os (mctp ← mctp_init; mmbi ← mctp_mmbi_init; region ← malloc 8;
          store_bytes region 0 region_bytes;;
          mctp_mmbi_init_mem mmbi region region 8;;
          mctp_register_bus mctp mmbi 9;;
          mctp_set_rx_all mctp (Some "mmbi_internal_rx"%string) 0) (world_os []).
Definition mmbi_mem : mctp_binding_mmbi := mk_mmbi 48 48 8 NULL (Some 0).
Definition bd_mem : mctp_binding :=
  match w_bindings w_mem !! 32 with Some bd => bd | None => zero_binding end.

Lemma w_mem_endpoint : endpoint 16 32 0 9 w_mem.
Proof.
  split; [done|vm_compute; reflexivity| | |].
  - eexists. split; [vm_compute; reflexivity|]. vm_compute. repeat split.
  - eexists. split; [vm_compute; reflexivity|]. vm_compute. repeat split.
  - intros f Hf. vm_compute in Hf. injection Hf as <-. left. split; [done|]. by left.
Qed.

Lemma mctp_mmbi_rx_never_delivers_witness :
  exists w', mctp_mmbi_rx 32 8 w_mem = Ok 0 w' /\ w_trace w' = [].
Proof.
  destruct (mctp_mmbi_rx_never_delivers eq 16 32 0 9 (w_heap w_mem) ∅ mmbi_mem bd_mem region_bytes 8
    w_mem) as (w' & Hrun & Htr).
  - apply endpoint_ctxs; vm_compute; done.
  - apply w_mem_endpoint.
  - vm_compute. reflexivity.
  - discriminate.
  - vm_compute. reflexivity.
  - vm_compute. reflexivity.
  - vm_compute. done.
  - discriminate.
  - vm_compute. reflexivity.
  - vm_compute. split; discriminate.
  - vm_compute. discriminate.
  - discriminate.
  - exists w'. split; [exact Hrun|]. rewrite Htr. vm_compute. reflexivity.
Defined.

(** ** Opening and closing *)

Lemma world_os_wf incoming : heap_wf (world_os incoming).
Proof. apply heap_check_ok. vm_compute. reflexivity. Qed.

Lemma mctp_mmbi_context_init_ready_witness :
  exists w' bd b, mctp_mmbi_context_init "pipe" 9 (world_os []) = Ok 16 w' /\
    endpoint (16 + 16) (16 + 16 + 16) 0 9 w' /\ sender mmbi_ready (16 + 16) (16 + 16 + 16) bd b w' /\
    bus_eid b = 9.
Proof.
  destruct (mctp_mmbi_context_init_ready "pipe" 9 0 [] 4 [] (world_os []))
    as (w' & bd & b & m & Hrun & _ & Hep & _ & _ & Hs & Hb & _).
  - reflexivity.
  - apply world_os_wf.
  - reflexivity.
  - lia.
  - constructor.
  - reflexivity.
  - split; discriminate.
  - assert (Ec : w_brk (world_os []) = 16) by reflexivity. rewrite Ec in Hrun, Hep, Hs.
    exists w', bd, b. split; [exact Hrun|]. split; [exact Hep|]. split; [exact Hs|exact Hb].
Defined.

(** [w_mmbi] is the endpoint as it was opened: its context is in block 16. *)
Lemma mctp_mmbi_context_destroy_leaks_witness :
  exists w', mctp_mmbi_context_destroy 16 w_mmbi = Ok tt w' /\
    is_Some (w_heap w' !! bd_tx_storage bd_mmbi) /\ dv_os (w_dev w') = dv_os (w_dev w_mmbi).
Proof.
  destruct (mctp_mmbi_context_destroy_leaks 16 (mk_mmbi_context 32 48 None NULL false) bd_mmbi mmbi0
    (w_heap w_mmbi) ∅ w_mmbi w_mmbi_ctxs) as (w' & Hrun & _ & Hst & Ho & _).
  - discriminate.
  - vm_compute. reflexivity.
  - discriminate.
  - discriminate.
  - apply (bool_decide_eq_true_1 (NoDup [16; 32; 48])). reflexivity.
  - by eexists.
  - by eexists.
  - by eexists.
  - vm_compute. reflexivity.
  - vm_compute. reflexivity.
  - assert (Es : bd_tx_storage bd_mmbi = 64) by (vm_compute; reflexivity). rewrite Es.
    apply (bool_decide_eq_true_1 (64 ∉ [16; 32; 48])). reflexivity.
  - apply (bool_decide_eq_true_1 (is_Some (w_heap w_mmbi !! bd_tx_storage bd_mmbi))).
    vm_compute. reflexivity.
  - exists w'. split; [exact Hrun|]. split; [exact Hst|exact Ho].
Defined.

(** A system on which no device can be opened; its state counts the pauses. *)
#[export] Instance dead_os : WinOps nat := {|
  CreateFileA _ e := (INVALID_HANDLE_VALUE, e);
  GetFileType_is_pipe _ _ := false;
  SetNamedPipeHandleState _ e := e;
  PeekNamedPipe _ e := (None, e);
  WriteFile _ _ e := (false, 0, e);
  ReadFile _ _ e := (false, [], e);
  GetLastError _ := 2;
  Sleep _ e := S e |}.


Definition world_dead : world (mmbi_env nat) :=
  mk_world ∅ 16 [] default_alloc_ops zero_mctp ∅ [] (mk_env ∅ ∅ ∅ 0%nat []).

Lemma mctp_mmbi_context_init_fails_witness :
  exists w', mctp_mmbi_context_init "pipe" 9 world_dead = Ok NULL w' /\
    w_heap w' = ∅ /\ dv_os (w_dev w') = 5%nat.
Proof.
  destruct (mctp_mmbi_context_init_fails "pipe" 9 5%nat world_dead)
    as (w' & Hrun & Hh & Ho & _).
  - reflexivity.
  - apply heap_check_ok. vm_compute. reflexivity.
  - reflexivity.
  - do 5 (econstructor; [eexists; split; reflexivity|]). constructor.
  - exists w'. split; [exact Hrun|]. split; [exact Hh|exact Ho].
Defined.

(** ** Any calls *)

Lemma world_os_typed l : world_typed (world_os l).
Proof. split; [apply typed_mctp_zero|apply map_Forall_empty|apply map_Forall_empty]. Qed.


#[export] Instance os_keep : KeepUser os.
Proof.
  split; intros; try apply typed_stuck; try (by apply typed_ret).
  simpl. destruct e as [|bs e]; [constructor|]. apply Forall_fmap, Forall_true. intros x. apply u8_range.
Qed.

(** Opened, polled, a message sent, closed. *)
Definition mmbi_calls : list mmbi_call :=
  [ Call_mctp_mmbi_context_init "pipe" 9; Call_mctp_mmbi_context_poll 16;
    Call_mctp_mmbi_send 16 8 [1; 2; 3] 3; Call_core (Call_mctp_bus_set_eid 48 10);
    Call_mctp_mmbi_context_destroy 16 ].
Definition w_mmbi_calls : world (mmbi_env os) :=
  run_os (run_mmbi_calls mmbi_calls) (world_os [[1; 9; 8; 200; 5; 6]]).

Lemma run_os_ok (m : M (world (mmbi_env os)) unit) w :
  match m w with Ok _ _ => true | Stuck _ => false end = true -> m w = Ok tt (run_os m w).
Proof. unfold run_os. by destruct (m w) as [[]|]. Qed.

Lemma mmbi_api_keeps_types_witness :
  world_typed w_mmbi_calls /\ length (w_trace w_mmbi_calls) = 2%nat.
Proof.
  split; [|vm_compute; reflexivity].
  apply (mmbi_api_keeps_types mmbi_calls (world_os [[1; 9; 8; 200; 5; 6]])).
  - apply world_os_typed.
  - repeat (apply Forall_cons_2; [cbn [mmbi_call_typed call_typed]; typed_val|]).
    apply Forall_nil_2.
  - apply run_os_ok. vm_compute. reflexivity.
Defined.

(** ** Locks *)

#[export] Instance silent_locks {E} `{!WinOps E} : KeepLocks E.
Proof.
  split; intros; (by apply keeps_ret, _) || apply keeps_stuck.
Qed.

(** Poll, send, poll again, with nothing to read the second time. *)
Definition lock_calls : list mmbi_call :=
  [Call_mctp_mmbi_context_poll 16; Call_mctp_mmbi_send 16 8 [1; 2; 3] 3; Call_mctp_mmbi_context_poll 16].

Lemma lock_calls_return :
  (match run_mmbi_calls lock_calls w_mmbi with Ok _ _ => true | Stuck _ => false end) = true.
Proof. vm_compute. reflexivity. Qed.

Lemma locks_balanced_witness :
  exists w' m', run_mmbi_calls lock_calls w_mmbi = Ok tt w' /\
    dv_mmbis (w_dev w') !! MMBI = Some m' /\ mb_lock m' = Some 0.
Proof.
  pose proof lock_calls_return as Hret.
  destruct (run_mmbi_calls lock_calls w_mmbi) as [[] w'|] eqn:Hrun; [|discriminate Hret].
  destruct (locks_balanced lock_calls w_mmbi w') as [H _].
  - repeat constructor.
  - exact Hrun.
  - destruct (H MMBI mmbi0) as (m' & Hm' & Hl).
    + vm_compute. reflexivity.
    + exists w', m'. split; [reflexivity|]. split; [exact Hm'|]. rewrite Hl. vm_compute. reflexivity.
Defined.

Lemma send_returns :
  (match mctp_mmbi_send 16 8 [1; 2; 3] 3 w_mmbi with
   | Ok rc w' => bool_decide (length (dv_write_depths (w_dev w')) = 1%nat)
   | Stuck _ => false end) = true.
Proof. vm_compute. reflexivity. Qed.

Lemma send_writes_locked_witness :
  exists rc w' k, mctp_mmbi_send 16 8 [1; 2; 3] 3 w_mmbi = Ok rc w' /\
    dv_write_depths (w_dev w') = [Some k] /\ 0 < k.
Proof.
  pose proof send_returns as Hret.
  destruct (mctp_mmbi_send 16 8 [1; 2; 3] 3 w_mmbi) as [rc w'|] eqn:Hrun; [|discriminate Hret].
  destruct (send_writes_locked 16 (mk_mmbi_context 32 48 None NULL false) 8 [1; 2; 3] 3 0 rc w_mmbi w')
    as (l & Hl & Hf).
  - vm_compute. reflexivity.
  - vm_compute. reflexivity.
  - discriminate.
  - discriminate.
  - exact Hrun.
  - replace (dv_write_depths (w_dev w_mmbi)) with (@nil (option Z)) in Hl by (vm_compute; reflexivity).
    apply bool_decide_eq_true_1 in Hret. rewrite Hl in Hret.
    destruct l as [|o [|]]; [discriminate Hret| |discriminate Hret].
    apply Forall_inv in Hf as (k & -> & Hk). exists rc, w', k.
    split; [reflexivity|]. split; [exact Hl|exact Hk].
Defined.
