(* ===== verification/ChannelWitnesses.v ===== *)
(** * Witnesses for the MMBI binding on the driver

    The driver as the device of two systems, a context opened on each of its
    ends, and the theorems of [Channel] applied to them. *)

From S2P Require Import Prelude State Alloc Pktbuf Reasm Tags Tx Control Rx RxSpec RxRefine.
From S2P Require Import Frag TxRefine TxApi TxRequest ControlSpec Bus Mmbi MmbiFacts MmbiRx MmbiInit.
From S2P Require Import Ring Channel Transaction.
From S2P Require Import Concrete Witnesses.

(** ** A system whose only device is the driver's device [dev] *)

Record on (dev : Z) := mk_on { drv_of : MMBI_SHARED_CONTEXT }.
Arguments mk_on {dev}.
Arguments drv_of {dev}.

Definition HANDLE := 4.

#[export] Instance driver_os dev : WinOps (on dev) := {|
  CreateFileA _ e := (HANDLE, e);
  GetFileType_is_pipe _ _ := false;
  SetNamedPipeHandleState _ e := e;
  PeekNamedPipe _ e := (None, e);
  WriteFile _ bs e :=
    match MmbiEvtIoWrite own_input dev bs (zlen bs) (drv_of e) with
    | Some (g, c) => (bool_decide (NT_SUCCESS (cp_status c)), cp_info c, mk_on g)
    | None => (false, 0, e)
    end;
  ReadFile _ n e :=
    match MmbiEvtIoRead sized_output dev [] n (drv_of e) with
    | Some (g, c) => (bool_decide (NT_SUCCESS (cp_status c)), cp_data c, mk_on g)
    | None => (false, [], e)
    end;
  GetLastError _ := 170;
  Sleep _ e := e |}.

#[export] Instance driver_device dev : DriverDevice (on dev) HANDLE dev drv_of.
Proof.
  split.
  - intros bs e g c H. eexists. simpl. by rewrite H.
  - intros n e g c H. eexists. simpl. by rewrite H.
  - intros e. by exists e.
  - done.
Qed.

(** An application that does nothing with the messages it gets. *)
#[export] Instance silent_user_on dev : UserOps (mmbi_env (on dev)) :=
  {| uop_rx _ _ _ _ _ := mret tt |}.

#[export] Instance silent_quiet_user_on dev :
  QuietUser (on dev) (keeps_driver (drv_of (dev := dev))).
Proof.
  split; [|apply _|by intros d d' [H _]; apply objects_api].
  intros cb src msg len ctx w. exists (w_dev w). split; [by destruct w|reflexivity].
Qed.

(** ** The two ends: EID 8 on the host, EID 9 on the BMC *)

Definition world_on {dev} (e : on dev) : world (mmbi_env (on dev)) :=
  mk_world ∅ 16 [] default_alloc_ops zero_mctp ∅ [] (mk_env ∅ ∅ ∅ e []).

Lemma world_on_wf {dev} (e : on dev) : heap_wf (world_on e).
Proof. apply heap_check_ok. vm_compute. reflexivity. Qed.

Definition run_on {dev A} (m : M (world (mmbi_env (on dev))) A) (w : world (mmbi_env (on dev))) :
    world (mmbi_env (on dev)) :=
  match m w with Ok _ w => w | Stuck _ => w end.

Lemma empty_contents : ring_contents empty_ring = [].
Proof. apply zlen_nil_inv. rewrite zlen_contents by apply empty_ring_wf. exact (eq_refl 0). Qed.

(** The driver's state, without its contents. *)
Definition empty_on dev : on dev := mk_on empty_shared.

Lemma empty_on_wf dev : shared_wf (drv_of (empty_on dev)).
Proof. exact empty_shared_wf. Qed.

Lemma empty_on_contents : ring_contents (tx_ring 0 (drv_of (empty_on 0))) = [].
Proof. exact empty_contents. Qed.

Lemma empty_on_idle dev : idle_driver (drv_of (empty_on dev)).
Proof. exact (conj empty_shared_wf (conj empty_contents empty_contents)). Qed.

#[global] Opaque empty_on.

Definition host : world (mmbi_env (on 0)) :=
  run_on (mctp_mmbi_context_init "host" 8) (world_on (empty_on 0)).
Definition bmc : world (mmbi_env (on 1)) :=
  run_on (mctp_mmbi_context_init "bmc" 9) (world_on (empty_on 1)).

Lemma handle_ok : handle_valid HANDLE.
Proof. split; discriminate. Qed.

Lemma on_opens dev path :
  CreateFileA path (dv_os (w_dev (world_on (empty_on dev)))) = (HANDLE, empty_on dev).
Proof. reflexivity. Qed.

Lemma on_no_pipe dev (e : on dev) : GetFileType_is_pipe HANDLE e = false.
Proof. reflexivity. Qed.

Lemma on_opened dev path eid :
  let w := world_on (empty_on dev) in
  let w' := run_on (mctp_mmbi_context_init path eid) w in
  exists bd b m, opened "mmbi_internal_rx" 16 eid HANDLE (empty_on dev) bd b m w' /\
    w_mallocs w' = [] /\ w_trace w' = [] /\ dv_os (w_dev w') = empty_on dev.
Proof.
  intros w w'.
  destruct (context_init_ready path eid 0 (empty_on dev) HANDLE (empty_on dev) w eq_refl (world_on_wf _)
    eq_refl ltac:(lia) ltac:(constructor) (on_opens dev path) handle_ok)
    as (w1 & bd & b & m & Hrun & H & _ & Ht & Hmem & _).
  assert (E1 : w' = w1) by (unfold w', run_on; rewrite Hrun; exact eq_refl).
  rewrite E1. clear E1 Hrun. exists bd, b, m. split; [exact H|]. split; [exact Hmem|].
  split; [exact Ht|]. exact (op_os _ _ _ _ _ _ _ _ _ H).
Qed.

Lemma host_and_bmc :
  channel_ready HANDLE 0 (drv_of (dev := 0)) HANDLE (drv_of (dev := 1)) (16 + 16) (16 + 16 + 16) 8
    (16 + 16) (16 + 16 + 16) 0 9 "mmbi_internal_rx" 16 host bmc /\ w_trace bmc = [] /\
  dv_os (w_dev bmc) = empty_on 1.
Proof.
  destruct (on_opened 0 "host" 8) as (bdA & bA & mA & HA & MA & _).
  destruct (on_opened 1 "bmc" 9) as (bdB & bB & mB & HB & MB & TB & OB).
  split; [|exact (conj TB OB)].
  exact (opened_channel HANDLE 0 (drv_of (dev := 0)) HANDLE (drv_of (dev := 1)) _ _ 16 16 8 9
    (empty_on 0) (empty_on 1) _ _ _ _ _ _ host bmc HA MA (on_no_pipe 0 _) (empty_on_wf 0)
    HB MB (on_no_pipe 1 _) (empty_on_wf 1) empty_on_contents ltac:(discriminate)).
Qed.

(** ** The theorems there *)

Lemma driver_message_tx_witness :
  exists w', mctp_message_tx (16 + 16) 9 true 1 [5; 6] 2 host = Ok 0 w' /\
    rx_ring 0 (drv_of (dv_os (w_dev w'))) = rx_ring 0 (drv_of (dv_os (w_dev host))).
Proof.
  destruct host_and_bmc as ([(bd & b & Hs & _) Hmem _ _ _ _ _ _] & _).
  destruct (driver_message_tx HANDLE 0 drv_of (16 + 16) (16 + 16 + 16) bd b 9 true 1 [5; 6] host Hs)
    as (w' & Hrun & Hr & _).
  - lia.
  - reflexivity.
  - unfold malloc_ok. rewrite Hmem. reflexivity.
  - exists w'. split; [exact Hrun|exact Hr].
Defined.

(** Nothing to read. *)
Lemma bmc_reads_nothing : next_read 1 (drv_of (dv_os (w_dev bmc))) = [].
Proof.
  destruct host_and_bmc as (_ & _ & ->). unfold next_read.
  change (rx_ring 1 _) with (tx_ring 0 (drv_of (empty_on 0))). rewrite empty_on_contents.
  unfold slice. by rewrite drop_nil, take_nil.
Qed.

Lemma driver_poll_witness :
  exists w', mctp_mmbi_poll (16 + 16 + 16) bmc = Ok 0 w' /\ w_trace w' = [].
Proof.
  destruct host_and_bmc as ([_ _ _ Hr _ _ _ _] & Ht & _).
  destruct (dr_ctxs _ _ _ _ _ _ _ Hr) as (F & r & HI).
  destruct (driver_poll HANDLE 1 drv_of (16 + 16) (16 + 16 + 16) 0 9 F r bmc Hr HI)
    as (rc & w' & Hrun & _ & H).
  - rewrite bmc_reads_nothing. discriminate.
  - rewrite bmc_reads_nothing in H. rewrite decide_False in H by discriminate.
    destruct H as [-> H]. exists w'. split; [exact Hrun|]. rewrite H, Ht. reflexivity.
Defined.

Definition put_on {dev} (g : MMBI_SHARED_CONTEXT) (_ : on dev) : on dev := mk_on g.
Lemma put_on_ok dev g (e : on dev) : drv_of (put_on g e) = g.
Proof. reflexivity. Qed.

Lemma devices_differ : 0 = 0 <-> 1 <> 0.
Proof. split; [discriminate|reflexivity]. Qed.

Definition messages : list outgoing :=
  [mk_outgoing true 1 [5; 6]; mk_outgoing false 7 []; mk_outgoing true 2 [1; 2; 3; 4]].

Lemma messages_cross_driver_witness :
  exists wA wB, exchange drv_of drv_of put_on put_on (16 + 16) (16 + 16 + 16) 9 messages (host, bmc)
      = Some (wA, wB) /\
    w_trace wB = [EvRx "mmbi_internal_rx" 16 8 true 1 [5; 6];
                  EvRx "mmbi_internal_rx" 16 8 false 7 [];
                  EvRx "mmbi_internal_rx" 16 8 true 2 [1; 2; 3; 4]].
Proof.
  destruct host_and_bmc as (Hr & Ht & _).
  destruct (messages_cross_driver HANDLE 0 drv_of HANDLE 1 drv_of put_on put_on
    (put_on_ok 0) (put_on_ok 1) devices_differ _ _ _ _ _ _ _ _ _ messages host bmc Hr)
    as (wA & wB & H & _ & H').
  - repeat (apply Forall_cons_2; [split; [simpl; lia|split; [discriminate|reflexivity]]|]).
    apply Forall_nil_2.
  - exists wA, wB. split; [exact H|]. rewrite H', Ht. reflexivity.
Defined.


(** A message of one byte more than a packet holds. *)
Definition long_message : list Z := replicate (Z.to_nat 65537) 1.

Lemma zlen_long_message : zlen long_message = 65537.
Proof. unfold long_message. rewrite zlen_replicate. reflexivity. Qed.

#[global] Opaque long_message.

Lemma long_message_lost_witness :
  exists wA wB, mctp_message_tx (16 + 16) 9 true 1 long_message (zlen long_message) host = Ok 0 wA /\
    mctp_mmbi_poll (16 + 16 + 16) (sees2 put_on (drv_of (dv_os (w_dev wA))) bmc) = Ok (- ENOMEM) wB /\
    w_trace wB = [].
Proof.
  destruct host_and_bmc as (Hr & Ht & _).
  destruct (long_message_lost HANDLE 0 drv_of HANDLE 1 drv_of put_on (put_on_ok 1) devices_differ
    _ _ _ _ _ _ _ _ _ true 1 long_message host bmc Hr) as (wA & wB & lost & H1 & H2 & H3 & _).
  - lia.
  - rewrite zlen_long_message. lia.
  - exists wA, wB. split; [exact H1|]. split; [exact H2|]. rewrite H3, Ht. reflexivity.
Defined.

(** ** A control transaction: the host asks the BMC for its endpoint ID *)

Definition get_eid : list Z := [0; 128; 2].

Lemma host_requests :
  exists bd b bs, requester HANDLE (drv_of (dev := 0)) (16 + 16) (16 + 16 + 16) bd b (w_brk host)
      get_eid (after_dup get_eid host) /\
    bus_eid b = 8 /\ dv_os (w_dev host) = empty_on 0 /\ w_trace host = [] /\
    w_mctp host = opened_stack "mmbi_internal_rx" 16 bs.
Proof.
  destruct (on_opened 0 "host" 8) as (bd & b & m & H & Hmem & Ht & Ho).
  destruct (op_stack _ _ _ _ _ _ _ _ _ H) as (bs & Em). exists bd, b, bs.
  split; [|exact (conj (op_eid _ _ _ _ _ _ _ _ _ H) (conj Ho (conj Ht Em)))].
  exact (opened_requester HANDLE (drv_of (dev := 0)) _ _ _ _ _ _ _ get_eid host H Hmem
    (on_no_pipe 0 _) (empty_on_wf 0)).
Qed.

Lemma bmc_answers :
  exists bd b bs, control_endpoint HANDLE (drv_of (dev := 1)) (16 + 16) (16 + 16 + 16) bd b bmc /\
    bus_eid b = 9 /\ w_mctp bmc = opened_stack "mmbi_internal_rx" 16 bs.
Proof.
  destruct (on_opened 1 "bmc" 9) as (bd & b & m & H & Hmem & _).
  destruct (op_stack _ _ _ _ _ _ _ _ _ H) as (bs & Em). exists bd, b, bs.
  split; [|exact (conj (op_eid _ _ _ _ _ _ _ _ _ H) Em)].
  exact (opened_control_endpoint HANDLE (drv_of (dev := 1)) _ _ _ _ _ _ _ bmc H Hmem
    (on_no_pipe 1 _) (empty_on_wf 1) ltac:(discriminate)).
Qed.

Lemma after_dup_same {D} bs (w : world D) :
  w_mctp (after_dup bs w) = w_mctp w /\ w_dev (after_dup bs w) = w_dev w /\
  w_trace (after_dup bs w) = w_trace w.
Proof. done. Qed.

Lemma control_transaction_witness :
  exists wA1 wB wA pkt,
    mctp_message_tx_request (16 + 16) 9 (w_brk host) 3 true (after_dup get_eid host)
      = Ok (0, Some 0) wA1 /\
    mctp_mmbi_poll (16 + 16 + 16) (sees2 put_on (drv_of (dv_os (w_dev wA1))) bmc) = Ok 0 wB /\
    mctp_mmbi_poll (16 + 16 + 16) (sees1 put_on (drv_of (dv_os (w_dev wB))) wA1) = Ok 0 wA /\
    w_trace wA = [EvTx (16 + 16 + 16) pkt 0;
      EvRx "mmbi_internal_rx" 16 9 false 0 [0; 0; 2; 0; 9; 1; 0]] /\
    m_req_tags (w_mctp wA) = replicate 16 (mk_req_tag 0 0 0 0).
Proof.
  destruct host_requests as (bdA & bA & bsA & HA & EA & OA & TA & MA).
  destruct bmc_answers as (bdB & bB & bsB & HB & EB & MB).
  destruct (after_dup_same get_eid host) as (SM & SD & ST).
  assert (Htag : request_tag 1000 (bus_eid bB) bA (w_mctp (after_dup get_eid host)) = Some (0, 15%nat)).
  { unfold request_tag. rewrite EA, EB.
    rewrite SM. rewrite MA. reflexivity. }
  destruct (control_transaction HANDLE 0 drv_of HANDLE 1 drv_of put_on put_on (put_on_ok 0) (put_on_ok 1)
    devices_differ (16 + 16) (16 + 16 + 16) bdA bA (16 + 16) (16 + 16 + 16) bdB bB 1000 0 15
    (w_brk host) 128 2 [] "mmbi_internal_rx" (after_dup get_eid host) bmc HA HB)
    as (wA1 & wB & wA & H1 & H2 & H3 & H4 & _ & H5).
  - rewrite SD. rewrite OA.
    exact (empty_on_idle 0).
  - rewrite SM. rewrite MA. reflexivity.
  - rewrite EA. discriminate.
  - rewrite EA. discriminate.
  - exists "mctp_default_now"%string. rewrite SM.
    rewrite MA. split; reflexivity.
  - rewrite SM. rewrite MA.
    apply Forall_replicate. simpl. lia.
  - exact Htag.
  - reflexivity.
  - reflexivity.
  - discriminate.
  - rewrite EB in H1, H4, H5. rewrite SM in H4, H5.
    rewrite MA in H4, H5. rewrite MB in H4, H5. rewrite ST, TA in H4. eexists wA1, wB, wA, _. split; [exact H1|]. split; [exact H2|]. split; [exact H3|].
    split; [exact H4|]. rewrite H5; [reflexivity|reflexivity|].
    apply Forall_replicate. intros (E0 & _). rewrite EA in E0. discriminate E0.
Defined.
