(* ===== verification/LinkWitnesses.v ===== *)
(** * Witnesses for two systems on the driver

    The host and the BMC of [ChannelWitnesses] as the two ends of a link, with
    the theorems of [Link] applied to them. *)

From S2P Require Import Prelude State Alloc Pktbuf Reasm Tags Tx Control Rx RxSpec RxRefine.
From S2P Require Import Frag TxRefine TxApi Bus Mmbi MmbiFacts MmbiRx MmbiInit Ring Channel Link.
From S2P Require Import Transaction.
From S2P Require Import Concrete Witnesses ChannelWitnesses.

Lemma empty_on_is dev : drv_of (empty_on dev) = empty_shared.
Proof. exact (eq_refl empty_shared). Qed.

(** The two systems, as opened. *)
Definition host_system (bd : mctp_binding) : system := opened_system "mmbi_internal_rx" 16 8 bd.
Definition bmc_system (bd : mctp_binding) : system := opened_system "mmbi_internal_rx" 16 9 bd.

(** What opening leaves of the binding and the bus. *)
Definition opened_fields {dev} (w : world (mmbi_env (on dev))) : option (Z * Z) :=
  bd ← w_bindings w !! (16 + 16 + 16);
  b ← m_busses (w_mctp w) !! 0%nat;
  Some (bd_version bd, bus_tx_seq b).

Lemma host_fields : opened_fields host = Some (1, 0).
Proof. vm_compute. reflexivity. Qed.

Lemma bmc_fields : opened_fields bmc = Some (1, 0).
Proof. vm_compute. reflexivity. Qed.

Lemma fields_opened {dev} cb eid e bd b m (w : world (mmbi_env (on dev))) v q :
  opened cb 16 eid HANDLE e bd b m w -> opened_fields w = Some (v, q) ->
  bd_version bd = v /\ bus_tx_seq b = q.
Proof.
  intros H. unfold opened_fields. rewrite (mo_binding _ _ _ _ (op_open _ _ _ _ _ _ _ _ _ H)).
  rewrite (se_bus _ _ _ _ _ _ (op_sender _ _ _ _ _ _ _ _ _ H)). by intros [= <- <-].
Qed.

Lemma host_linked_bmc :
  exists bd1 bd2,
    linked HANDLE 0 (drv_of (dev := 0)) HANDLE 1 (drv_of (dev := 1)) (host_system bd1) (bmc_system bd2)
      [] [] (idle_channel 0, idle_channel 0) (host, bmc) /\ bd_version bd1 = 1 /\ bd_version bd2 = 1.
Proof.
  destruct (on_opened 0 "host" 8) as (bdA & bA & mA & HA & MA & TA & _).
  destruct (on_opened 1 "bmc" 9) as (bdB & bB & mB & HB & MB & TB & _).
  destruct (fields_opened (dev := 0) _ _ _ _ _ _ host 1 0 HA host_fields) as [VA QA].
  destruct (fields_opened (dev := 1) _ _ _ _ _ _ bmc 1 0 HB bmc_fields) as [VB QB].
  exists bdA, bdB. split; [|exact (conj VA VB)].
  pose proof (opened_linked HANDLE 0 (drv_of (dev := 0)) HANDLE 1 (drv_of (dev := 1)) _ _ _ _ 8 9
    (empty_on 0) (empty_on 1) bdA bdB bA bB mA mB empty_shared host bmc HA MA TA (on_no_pipe 0 _)
    (empty_on_is 0) HB MB TB (on_no_pipe 1 _) (empty_on_is 1) empty_shared_wf empty_contents empty_contents) as H.
  rewrite QA, QB in H. exact H.
Qed.

(** Messages both ways: the host's two merge, the BMC's arrives, and the host
    sends to an endpoint that is not there. *)
Definition mixed : list link_op :=
  [Send true 9 (mk_outgoing true 1 [5; 6]); Send true 9 (mk_outgoing true 2 [7]);
   Send false 8 (mk_outgoing false 3 [1; 2]); Poll false; Poll true;
   Send true 77 (mk_outgoing true 4 [9]); Poll false; Poll false; Poll true].

Lemma mixed_ok : Forall op_ok mixed.
Proof.
  repeat (apply Forall_cons_2; [first [exact I|split; [simpl; lia|reflexivity]]|]). apply Forall_nil_2.
Qed.

(** The directions between the two. *)
Lemma host_leads bd1 bd2 : bd_version bd1 = 1 ->
  leads (host_system bd1) (bmc_system bd2) = mk_direction 1 8 9 MCTP_MAX_MESSAGE_SIZE.
Proof. intros H. unfold leads. simpl. rewrite H. reflexivity. Qed.

Lemma bmc_leads bd1 bd2 : bd_version bd2 = 1 ->
  leads (bmc_system bd2) (host_system bd1) = mk_direction 1 9 8 MCTP_MAX_MESSAGE_SIZE.
Proof. intros H. unfold leads. simpl. rewrite H. reflexivity. Qed.

Lemma mixed_on_link :
  exists l, link_run (link_spec (mk_direction 1 8 9 MCTP_MAX_MESSAGE_SIZE)
      (mk_direction 1 9 8 MCTP_MAX_MESSAGE_SIZE)) mixed (idle_channel 0, idle_channel 0)
      = Some ([0; 0; 0; 0; 0; 0; 0; 0; 0], l) /\
    ch_bytes l.1 = [] /\ ch_bytes l.2 = [] /\
    ch_got l.1 = [mk_delivery 8 9 true 1 ([5; 6] ++ [1; 9; 8; 218] ++ [7])] /\
    ch_got l.2 = [mk_delivery 9 8 false 3 [1; 2]].
Proof. eexists. split; [vm_compute; reflexivity|repeat split]. Qed.

Lemma link_refines_witness :
  exists bd1 bd2 wA wB,
    link_run (link_step drv_of drv_of put_on put_on (host_system bd1) (bmc_system bd2)) mixed (host, bmc)
      = Some ([0; 0; 0; 0; 0; 0; 0; 0; 0], (wA, wB)) /\
    received wA = [EvRx "mmbi_internal_rx" 16 9 false 3 [1; 2]] /\
    received wB = [EvRx "mmbi_internal_rx" 16 8 true 1 [5; 6; 1; 9; 8; 218; 7]].
Proof.
  destruct host_linked_bmc as (bd1 & bd2 & HL & V1 & V2).
  destruct mixed_on_link as (l & Hrun & _ & _ & G1 & G2).
  rewrite <- (host_leads bd1 bd2 V1), <- (bmc_leads bd1 bd2 V2) in Hrun.
  destruct (link_refines HANDLE 0 drv_of HANDLE 1 drv_of put_on put_on (put_on_ok 0) (put_on_ok 1)
    devices_differ _ _ _ _ (leads_ok _ _) (leads_ok _ _) [] [] mixed _ (host, bmc) _ l mixed_ok HL Hrun)
    as (wA & wB & H1 & _ & _ & _ & H2 & H3).
  exists bd1, bd2, wA, wB. split; [exact H1|]. rewrite G2 in H2. rewrite G1 in H3.
  split; [exact H2|exact H3].
Defined.

(** Messages both ways, each polled for before the next. *)
Definition both_ways : list link_op :=
  [Send true 9 (mk_outgoing true 1 [5; 6]); Send false 8 (mk_outgoing false 3 [1; 2]); Poll false;
   Send true 9 (mk_outgoing true 2 []); Poll true; Poll true; Send false 8 (mk_outgoing true 0 [9]);
   Poll false; Poll true].

Lemma duplex_delivers_witness :
  exists bd1 bd2 wA wB,
    link_run (link_step drv_of drv_of put_on put_on (host_system bd1) (bmc_system bd2)) both_ways
      (host, bmc) = Some (replicate 9 0, (wA, wB)) /\
    received wA = [EvRx "mmbi_internal_rx" 16 9 false 3 [1; 2]; EvRx "mmbi_internal_rx" 16 9 true 0 [9]] /\
    received wB = [EvRx "mmbi_internal_rx" 16 8 true 1 [5; 6]; EvRx "mmbi_internal_rx" 16 8 true 2 []].
Proof.
  destruct host_linked_bmc as (bd1 & bd2 & HL & V1 & V2).
  destruct (duplex_delivers HANDLE 0 drv_of HANDLE 1 drv_of put_on put_on (put_on_ok 0) (put_on_ok 1)
    devices_differ _ _ _ _ (leads_ok _ _) (leads_ok _ _) [] [] both_ways _ host bmc HL)
    as (wA & wB & l & H1 & _ & _ & _ & H2 & H3).
  1-4: reflexivity.
  - unfold both_ways, in_turn, one_packet, zlen. simpl. repeat split; lia.
  - discriminate.
  - discriminate.
  - exists bd1, bd2, wA, wB. split; [exact H1|].
    destruct (linked_received _ _ _ _ _ _ _ _ _ _ _ _ _ _ HL) as [RA RB].
    rewrite RA in H3. rewrite RB in H2. split; [exact H3|exact H2].
Defined.

(** A message of one byte more than the ring holds. *)
Definition oversized : list Z := replicate (Z.to_nat 1048577) 1.

Lemma zlen_oversized : zlen oversized = 1048577.
Proof. unfold oversized. rewrite zlen_replicate. reflexivity. Qed.

#[global] Opaque oversized.

(** The BMC polls once, and the host tries again. *)
Definition after_oversized : list link_op := [Poll false; Send true 9 (mk_outgoing true 2 [7])].

Lemma oversized_on_link k1 k2 :
  exists l, link_run (link_spec k1 k2) (Send true 9 (mk_outgoing true 1 oversized) :: after_oversized)
    (idle_channel 0, idle_channel 0) = Some ([0; - ENOMEM; - EBUSY], l).
Proof.
  destruct (channel_send_long k1 9 (mk_outgoing true 1 oversized) (idle_channel 0) eq_refl)
    as (c1 & H1 & S1 & Z1).
  { simpl. rewrite zlen_oversized. reflexivity. }
  { simpl. discriminate. }
  destruct (channel_poll_overlong k1 c1) as (c2 & H2 & S2); [rewrite Z1; discriminate|].
  exists (c2, idle_channel 0). unfold after_oversized. cbn [link_run link_spec fst snd].
  rewrite H1. cbn. rewrite H2. cbn. unfold channel_send. rewrite S2, S1. done.
Qed.

Lemma oversized_message_stalls_witness :
  exists bd1 bd2 ws,
    link_run (link_step drv_of drv_of put_on put_on (host_system bd1) (bmc_system bd2))
      (Send true 9 (mk_outgoing true 1 oversized) :: after_oversized) (host, bmc)
      = Some ([0; - ENOMEM; - EBUSY], ws) /\ [0; - ENOMEM; - EBUSY] !! 2%nat = Some (- EBUSY).
Proof.
  destruct host_linked_bmc as (bd1 & bd2 & HL & V1 & V2).
  destruct (oversized_on_link (leads (host_system bd1) (bmc_system bd2))
    (leads (bmc_system bd2) (host_system bd1))) as (l & Hrun).
  destruct (oversized_message_stalls HANDLE 0 drv_of HANDLE 1 drv_of put_on put_on (put_on_ok 0) (put_on_ok 1)
    devices_differ _ _ _ _ (leads_ok _ _) (leads_ok _ _) [] [] _ (host, bmc) 9
    (mk_outgoing true 1 oversized) after_oversized [0; - ENOMEM; - EBUSY] l HL eq_refl)
    as (ws & H1 & _ & _ & H2).
  - simpl. split; [discriminate|reflexivity].
  - simpl. rewrite zlen_oversized. split; reflexivity.
  - unfold after_oversized. apply Forall_cons_2; [exact I|]. apply Forall_cons_2; [|apply Forall_nil_2].
    split; [simpl; lia|reflexivity].
  - exact Hrun.
  - exists bd1, bd2, ws. split; [exact H1|]. exact (H2 1%nat _ _ eq_refl).
Defined.
