(* ===== verification/ServiceWitnesses.v ===== *)
(** * Witnesses for a service on the driver

    The BMC of [ChannelWitnesses] with an application that answers each message
    by another of its own type, and the host as its client. *)

From S2P Require Import Prelude State Alloc Pktbuf Reasm Tags Tx Control Rx RxSpec RxRefine.
From S2P Require Import Frag TxRefine TxApi Bus Mmbi MmbiFacts MmbiRx MmbiInit Ring Channel Link Service.
From S2P Require Import Transaction.
From S2P Require Import Concrete Witnesses ChannelWitnesses LinkWitnesses.

Definition VENDOR_TYPE := 126.

(** The answer: the message, under a vendor's message type. *)
Definition answer (msg : list Z) : list Z :=
  if decide (zlen msg < 65536) then VENDOR_TYPE :: msg else [VENDOR_TYPE].

Lemma answer_ok msg : zlen (answer msg) <= 65536 /\ ctrl_request (answer msg) = false.
Proof.
  unfold answer. case_decide as H; (split; [|by apply ctrl_request_type]); [|done].
  unfold zlen in *. simpl. lia.
Qed.

(** The application is given its context as user data. *)
#[local] Instance answering_user : UserOps (mmbi_env (on 1)) | 0 := {|
  uop_rx _ src msg len ctx :=
    bs ← load_bytes msg 0 len; mctp_mmbi_send ctx src (answer bs) (zlen (answer bs));; mret tt |}.

(** The BMC with the callback. *)
Definition bmc_server : world (mmbi_env (on 1)) :=
  run_on (mctp_mmbi_set_rx_callback 16 (Some "answer"%string) 16) bmc.

Definition server_context : mctp_mmbi_context :=
  mk_mmbi_context (16 + 16) (16 + 16 + 16) (Some "answer"%string) 16 false.

Lemma bmc_context : dv_ctxs (w_dev bmc) !! 16 = Some (mk_mmbi_context (16 + 16) (16 + 16 + 16) None NULL false).
Proof. vm_compute. reflexivity. Qed.

Lemma bmc_serves bd : serves 16 server_context "answer" (bmc_system bd).
Proof. split; try reflexivity; discriminate. Qed.

(** From two systems linked to a client and a server. *)
Lemma linked_serving s1 s2 q1 q2 (wA : world (mmbi_env (on 0))) (wB : world (mmbi_env (on 1))) :
  linked HANDLE 0 (drv_of (dev := 0)) HANDLE 1 (drv_of (dev := 1)) s1 s2 [] []
    (idle_channel q1, idle_channel q2) (wA, wB) ->
  dv_ctxs (w_dev wB) !! 16 = Some (mk_mmbi_context (16 + 16) (16 + 16 + 16) None NULL false) ->
  let wB' := run_on (mctp_mmbi_set_rx_callback 16 (Some "answer"%string) 16) wB in
  serving HANDLE 0 (drv_of (dev := 0)) HANDLE (drv_of (dev := 1)) s1 s2 16 server_context []
    (wA, wB') /\ received wA = [] /\ received wB' = [].
Proof.
  intros HL Hctx wB'. destruct (linked_received _ _ _ _ _ _ _ _ _ _ _ _ _ _ HL) as [RA RB].
  destruct HL as (LA & LB & _). cbn [fst snd] in *.
  pose proof LB as [(b & Hn & Hidle & _) _ _ _].
  destruct (set_callback_run HANDLE (drv_of (dev := 1)) 16 "answer" _ _ _ _ _ 16 wB Hn
    ltac:(discriminate) Hctx) as (w' & Hrun & Hn' & Hx & Ht & _).
  assert (Ew : wB' = w') by (unfold wB', run_on; rewrite Hrun; reflexivity).
  rewrite Ew. split; [|split; [exact RA|unfold received in *; rewrite Ht; exact RB]]. split.
  - exists (idle_channel q1), (idle_channel q2). split; [exact LA|].
    split; [exact (link_end_carries _ _ _ _ _ _ _ _ _ LA eq_refl eq_refl)|
            exact (link_end_carries _ _ _ _ _ _ _ _ _ LB eq_refl eq_refl)].
  - exists b, ∅. split; [exact Hn'|exact Hidle].
  - exact Hx.
Qed.

Definition requests : list outgoing :=
  [mk_outgoing true 1 [5; 6]; mk_outgoing true 1 []; mk_outgoing false 4 [9]].

Lemma service_answers_witness :
  exists bd1 bd2 wA wB,
    request_all drv_of drv_of put_on put_on (host_system bd1) (bmc_system bd2) 16 requests
      (host, bmc_server) = Some (wA, wB) /\
    received wA = [EvRx "mmbi_internal_rx" 16 9 false 0 [126; 5; 6];
                   EvRx "mmbi_internal_rx" 16 9 false 0 [126];
                   EvRx "mmbi_internal_rx" 16 9 false 0 [126; 9]] /\
    received wB = [EvRx "mmbi_internal_rx" 16 8 true 1 [5; 6];
                   EvRx "mmbi_internal_rx" 16 8 true 1 [];
                   EvRx "mmbi_internal_rx" 16 8 false 4 [9]].
Proof.
  destruct host_linked_bmc as (bd1 & bd2 & HL & _ & _).
  destruct (linked_serving _ _ _ _ host bmc HL bmc_context) as (Hsg & RA & RB).
  destruct (service_answers (UserOps1 := answering_user) HANDLE 0 drv_of HANDLE 1 drv_of put_on put_on (put_on_ok 0) (put_on_ok 1)
    devices_differ (host_system bd1) (bmc_system bd2) answer 16 server_context "answer" answer_ok
    (fun _ _ _ _ => eq_refl) (bmc_serves bd2) ltac:(discriminate) ltac:(discriminate)
    requests [] host _ Hsg) as (wA & wB & H1 & _ & H2 & H3).
  - repeat (apply Forall_cons_2; [split; [simpl; lia|split; [discriminate|reflexivity]]|]).
    apply Forall_nil_2.
  - exists bd1, bd2, wA, wB. split; [exact H1|]. rewrite RA in H2. rewrite RB in H3.
    split; [exact H2|exact H3].
Defined.
