(* ===== verification/TransportWitnesses.v ===== *)
(** * Witnesses for the transport API

    Transports on the two ends of the driver, with the theorems of [Transport]
    applied to them. *)

From S2P Require Import Prelude State Alloc Pktbuf Reasm Tags Tx Control Rx RxSpec RxRefine.
From S2P Require Import Frag TxRefine TxApi Bus Mmbi MmbiFacts MmbiRx MmbiInit.
From S2P Require Import Ring Channel Transport Concrete Witnesses ChannelWitnesses.

(** The same with the results of the first calls of [malloc]. *)
Definition world_with (mallocs : list bool) : world (mmbi_env (on 0)) :=
  set_w_mallocs mallocs (world_on (empty_on 0)).

Lemma world_with_wf l : heap_wf (world_with l).
Proof. exact (world_on_wf (empty_on 0)). Qed.

Lemma world_with_opens l path :
  CreateFileA path (dv_os (w_dev (world_with l))) = (HANDLE, empty_on 0).
Proof. reflexivity. Qed.

Lemma mctp_transport_init_ready_witness :
  exists w' bd b m, mctp_transport_init "host" 8 (world_with [true; true; true; true; false]) = Ok 16 w' /\
    sender mmbi_ready (16 + 16) (16 + 16 + 16) bd b w' /\ mmbi_open (16 + 16 + 16) m bd w' /\
    w_mallocs w' = [false].
Proof.
  destruct (mctp_transport_init_ready "host" 8 HANDLE (empty_on 0)
    (world_with [true; true; true; true; false]))
    as (w' & bd & b & m & Hrun & Ho & _ & _ & Hm & _).
  - reflexivity.
  - apply world_with_wf.
  - repeat constructor.
  - apply world_with_opens.
  - exact handle_ok.
  - exists w', bd, b, m. split; [exact Hrun|].
    split; [exact (op_sender _ _ _ _ _ _ _ _ _ Ho)|].
    split; [exact (op_open _ _ _ _ _ _ _ _ _ Ho)|exact Hm].
Defined.

Lemma transport_open_close_leaks_witness :
  exists w1 w2, mctp_transport_init "host" 8 (world_with []) = Ok 16 w1 /\
    mctp_transport_destroy 16 w1 = Ok tt w2 /\
    w_heap w2 = {[ 16 + 16 + 16 + 16 := fresh_block (MCTP_PKTBUF_SIZE 65536) ]}.
Proof.
  destruct (transport_open_close_leaks "host" 8 HANDLE (empty_on 0) (world_with []))
    as (w1 & w2 & H1 & H2 & H3 & _).
  - reflexivity.
  - apply world_with_wf.
  - constructor.
  - apply world_with_opens.
  - exact handle_ok.
  - exists w1, w2. split; [exact H1|]. split; [exact H2|]. rewrite H3. exact eq_refl.
Defined.

(** No memory for the transmit storage. *)
Lemma mctp_transport_init_fails_witness :
  exists w', mctp_transport_init "host" 8 (world_with [true; true; true; false]) = Ok NULL w' /\
    w_heap w' = ∅.
Proof.
  destruct (mctp_transport_init_fails "host" 8 HANDLE (empty_on 0)
    (world_with [true; true; true; false])) as (w' & Hrun & Hh & _).
  - reflexivity.
  - apply world_with_wf.
  - apply world_with_opens.
  - right. intros H. unfold mallocs_ok in H. simpl in H. rewrite !Forall_cons in H.
    destruct H as (_ & _ & _ & H & _). discriminate H.
  - exists w'. split; [exact Hrun|]. rewrite Hh. exact eq_refl.
Defined.

Lemma on_can_open dev path :
  can_open HANDLE (drv_of (dev := dev)) path (empty_on dev) (world_on (empty_on dev)).
Proof.
  split; [exact eq_refl|apply world_on_wf|exact eq_refl|apply on_opens|exact handle_ok|
    apply on_no_pipe|apply empty_on_wf].
Qed.

Lemma transport_delivers_witness :
  exists wA1 wB1 wA2 wB2,
    mctp_transport_init "host" 8 (world_on (empty_on 0)) = Ok 16 wA1 /\
    mctp_transport_init "bmc" 9 (world_on (empty_on 1)) = Ok 16 wB1 /\
    mctp_transport_send 16 9 [5; 6; 7] 3 wA1 = Ok 0 wA2 /\
    mctp_transport_poll 16 (sees2 put_on (drv_of (dv_os (w_dev wA2))) wB1) = Ok 0 wB2 /\
    w_trace wB2 = [EvRx "transport_rx_handler" 16 8 false 0 [5; 6; 7]].
Proof.
  destruct (transport_delivers HANDLE 0 (drv_of (dev := 0)) HANDLE 1 (drv_of (dev := 1)) put_on put_on (put_on_ok 0) (put_on_ok 1)
    devices_differ "host" "bmc" 8 9 (empty_on 0) (empty_on 1) [5; 6; 7]
    (world_on (empty_on 0)) (world_on (empty_on 1)) (on_can_open 0 "host") (on_can_open 1 "bmc")
    empty_on_contents) as (wA1 & wB1 & wA2 & wB2 & H1 & H2 & H3 & H4 & H5).
  - discriminate.
  - discriminate.
  - reflexivity.
  - exists wA1, wB1, wA2, wB2. split; [exact H1|]. split; [exact H2|]. split; [exact H3|].
    split; [exact H4|exact H5].
Defined.
