(* ===== verification/Log.v ===== *)
(** * Logging (src/log.c)

    Where diagnostics go.  The three globals of log.c are a state of their own:
    the rest of the stack writes to the log but never reads it.  Formatting is
    [vfprintf]'s: a message is its level, its format and its arguments, of any
    type [A]. *)

From S2P Require Import Prelude State.

(** The values of the anonymous enumeration behind [log_type]. *)
Inductive log_type_t := MCTP_LOG_NONE | MCTP_LOG_STDIO | MCTP_LOG_CUSTOM.

Record log_msg (A : Type) := mk_log_msg { lm_level : Z; lm_fmt : string; lm_ap : A }.
Arguments mk_log_msg {A}.
Arguments lm_level {A} _.

(** What has been written, oldest first. *)
Inductive log_out (A : Type) :=
  | LogStderr (m : log_msg A)
  | LogCustom (fn : string) (m : log_msg A).
Arguments LogStderr {A} _.
Arguments LogCustom {A} _ _.

Record log_state (A : Type) := mk_log_state {
  log_type : log_type_t;
  log_stdio_level : Z;
  log_custom_fn : fnptr;
  log_written : list (log_out A);
}.
Arguments mk_log_state {A}.
Arguments log_type {A} _.
Arguments log_stdio_level {A} _.
Arguments log_custom_fn {A} _.
Arguments log_written {A} _.

Section log.
Context {A : Type}.
Local Abbreviation IO := (M (log_state A)).
Implicit Types s : log_state A.

(** Static storage: no log, level 0, no function. *)
Definition log_initial : log_state A := mk_log_state MCTP_LOG_NONE 0 None [].

Definition log_write (o : log_out A) : IO unit :=
  modify (fun s => mk_log_state (log_type s) (log_stdio_level s) (log_custom_fn s)
    (log_written s ++ [o])).

Definition mctp_prlog (m : log_msg A) : IO unit :=
  s ← gets id;
  match log_type s with
  | MCTP_LOG_NONE => mret tt
  | MCTP_LOG_STDIO =>
      if decide (lm_level m <= log_stdio_level s) then log_write (LogStderr m) else mret tt
  | MCTP_LOG_CUSTOM =>
      f ← from_option_or BadCall (log_custom_fn s);
      log_write (LogCustom f m)
  end.

Definition mctp_set_log_stdio (level : Z) : IO unit :=
  modify (fun s => mk_log_state MCTP_LOG_STDIO level (log_custom_fn s) (log_written s)).

Definition mctp_set_log_custom (fn : fnptr) : IO unit :=
  modify (fun s => mk_log_state MCTP_LOG_CUSTOM (log_stdio_level s) fn (log_written s)).

Fixpoint log_all (ms : list (log_msg A)) : IO unit :=
  match ms with [] => mret tt | m :: ms => mctp_prlog m;; log_all ms end.

(** Where a message goes under the settings of [s]. *)
Definition log_sink s (m : log_msg A) : list (log_out A) :=
  match log_type s, log_custom_fn s with
  | MCTP_LOG_STDIO, _ => if decide (lm_level m <= log_stdio_level s) then [LogStderr m] else []
  | MCTP_LOG_CUSTOM, Some f => [LogCustom f m]
  | _, _ => []
  end.

Definition with_log (os : list (log_out A)) s : log_state A :=
  mk_log_state (log_type s) (log_stdio_level s) (log_custom_fn s) (log_written s ++ os).

Lemma mctp_prlog_run m s :
  (log_type s = MCTP_LOG_CUSTOM -> log_custom_fn s <> None) ->
  mctp_prlog m s = Ok tt (with_log (log_sink s m) s).
Proof.
  intros Hf. destruct s as [ty lv fn os]. unfold mctp_prlog, log_sink, with_log. simpl in *.
  apply wp_run_eq. do 2 wp_step. simpl. destruct ty.
  - wp_step. by rewrite app_nil_r.
  - case_decide; [by apply wp_modify|]. wp_step. by rewrite app_nil_r.
  - destruct fn as [f|]; [|by destruct Hf]. wp_step. eapply wp_from_option; [done|].
    by apply wp_modify.
Qed.

(** Each setting holds until the next: after [mctp_set_log_stdio level] exactly
    the messages at [level] or below are written to standard error, in order;
    after [mctp_set_log_custom] all messages go to the function given, whatever
    their level; before either, nothing is written.  The settings change nothing
    that was written. *)
Theorem log_settings level f ms s :
  (exists s', (mctp_set_log_stdio level;; log_all ms) s = Ok tt s' /\
     log_written s' = log_written s ++
       (LogStderr <$> filter (fun m => lm_level m <= level) ms)) /\
  (exists s', (mctp_set_log_custom (Some f);; log_all ms) s = Ok tt s' /\
     log_written s' = log_written s ++ (LogCustom f <$> ms)) /\
  (exists s', log_all ms log_initial = Ok tt s' /\ log_written s' = []).
Proof.
  assert (Hall : forall ms s, (log_type s = MCTP_LOG_CUSTOM -> log_custom_fn s <> None) ->
    log_all ms s = Ok tt (with_log (ms ≫= log_sink s) s)).
  { clear. induction ms as [|m ms IH]; intros s Hf.
    - destruct s. unfold with_log. simpl. by rewrite app_nil_r.
    - cbn [log_all]. rewrite (bind_run _ _ _ _ _ (mctp_prlog_run m s Hf)), IH by done.
      unfold with_log. simpl. by rewrite <- app_assoc. }
  split; [|split].
  - eexists. split; [apply Hall; done|]. simpl. f_equal. clear. unfold log_sink; simpl.
    induction ms as [|m ms IH]; [done|]. rewrite bind_cons, IH, filter_cons.
    by destruct (decide _).
  - eexists. split; [apply Hall; done|]. done.
  - eexists. split; [apply Hall; done|]. simpl. clear. by induction ms.
Qed.
End log.
